(* ===== verification/_CoqProject ===== *)
-Q . S2P
Prelude.v
Random.v
Ids.v
Traffic.v
Decision.v
Policy.v
Bytes.v
Crc.v
Codec.v
Utf8.v
CodecProps.v
PolicyCodec.v
Wire.v
Format.v
Ledger.v
LedgerInv.v
LedgerRun.v
LedgerEvolve.v
LedgerBounds.v
LedgerFindings.v
Coordinator.v
Restore.v
Evaluate.v
Flows.v
CoordAudit.v
Serialize.v
SerializeProps.v
Messages.v
MessagesProps.v
Snapshot.v
SnapshotProps.v
Net.v
Session.v
SessionProps.v
Service.v
EvaluateProps.v
EvaluateState.v
Deferral.v
FlowsProps.v
CoordRun.v
CoordSafety.v
CoordMirror.v
TransferProps.v
CoordFindings.v
ServiceProps.v
Client.v
ClientProps.v
Remote.v
Server.v
Tools.v
Render.v
Logging.v
Accel.v
Simulator.v
SimulatorProps.v
Scenarios.v
Examples.v
Sockets.v
Launcher.v
ServiceFindings.v
ExamplesProps.v
ToolsFindings.v
Witnesses.v
ServiceWitnesses.v
ToolsWitnesses.v
