(* ===== verification/Prelude.v ===== *)
(** * Inference Traffic Fabric: a verification library

    ** The program

    The Inference Traffic Fabric is a C++ coordinator that decides how the network
    traffic of model-serving requests is treated. Clients register requests and
    attempts, report serving stages, and ask before they move bytes; the coordinator
    answers with a decision (allowed, degraded, deferred or rejected) that carries a
    traffic treatment, an explanation and an authority stamp. A decision is
    validated again when a flow is opened with it. Transfers of model and key-value
    state have a life cycle of their own. Everything is bounded, accounted, and
    fenced across restarts by epochs, boot identities, generations and per-request
    authority floors.

    Parts of the source and how they interact. [Coordinator] (src/coordinator.cpp)
    owns a [RequestLedger] (src/ledger.cpp), which holds the request and attempt
    life cycles and the accounting of serving flows; it reads a [PolicyConfig]
    (src/policy.cpp), the stage and class vocabulary (src/traffic.cpp), evidence
    records (src/evidence.cpp) and authority stamps (src/authority.cpp), and
    produces [Decision]s (src/decision.cpp). [CoordinatorService]
    (tools/service.cpp) decodes a message body (src/messages.cpp over
    src/serialize.cpp and src/codec.cpp), calls the coordinator, encodes the answer
    and writes a snapshot (src/persistence.cpp). [SessionServer] (src/session.cpp)
    accepts connections and runs one session per worker: it reads frames
    (src/wire.cpp) from a stream (src/net.cpp), authenticates the peer, refuses
    replays and hands payloads to its [MessageHandler], which is the service.
    [Client] (src/client.cpp) is the other end of a session. Three tools use these
    parts: the launcher of the service (tools/itf_coordinator.cpp), the simulator of
    a prefill and a decode worker (tools/itf_sim.cpp) and the inspection tool
    (tools/itfctl.cpp), which can also run the accelerator probe
    (src/accel_cuda.cu).

    ** Files, and what each models

    - [Prelude]: machine integers with wrap-around, [StatusCode] and [Result]
      (include/itf/error.hpp), record update, enumerations, multimaps, and the
      tactics and hints the other files use.
    - [Ids]: [Id128], [Generation], [Instant], checked arithmetic, mixers
      (include/itf/ids.hpp, time.hpp, bytes.hpp).
    - [Traffic]: classes, stages, the stage machine, classification, requests and
      treatments (include/itf/traffic.hpp, src/traffic.cpp).
    - [Decision]: outcomes, reasons, explanations, stamps, evidence
      (include/itf/decision.hpp, authority.hpp, evidence.hpp and their sources).
    - [Policy]: rules, validation, the canonical document (src/policy.cpp).
    - [Bytes], [Crc]: little-endian words and the table-driven checksum
      (include/itf/crc32c.hpp, src/crc32c.cpp).
    - [Codec], [CodecProps], [Utf8]: the bounded [Writer] and [Reader] with their
      sticky failures (include/itf/codec.hpp, src/codec.cpp), the laws of their
      fields, and the text validator against the definition of UTF-8.
    - [PolicyCodec]: the encoding of policy documents (src/policy.cpp).
    - [Wire]: message types and frame headers (include/itf/wire.hpp, src/wire.cpp).
    - [Ledger]: every operation of [RequestLedger] (src/ledger.cpp). Its state is
      the record [RequestLedger] with the fields of the class; an operation takes
      the ledger and returns its result and the ledger it leaves.
    - [Coordinator]: the state of [Coordinator], boot and restoration, policy,
      topology, SLO, route, model and state registries, and the calls that pass
      through to the ledger. Where a method of the coordinator has the name of a
      method of the ledger, its definition is prefixed with [coord_].
    - [Evaluate]: [evaluate_locked], one definition per check, composed in the order
      of the source; the deferral records and the starvation guard.
    - [Flows]: [validate_decision_locked], opening and releasing flows, ending
      requests, the transfer state machine, completion publication.
    - [CoordAudit]: status, accounting snapshot, [verify_invariants],
      [export_state].
    - [Format], [Serialize], [SerializeProps]: encoders and decoders in pairs, and
      those of every record (src/serialize.cpp).
    - [Messages], [MessagesProps]: the bodies of the protocol (src/messages.cpp).
    - [Snapshot], [SnapshotProps]: the snapshot document and the store
      (src/persistence.cpp) over a [Disk], a map from paths to contents whose system
      calls may fail or move fewer bytes than asked; what a call does is the
      [Kernel] class.
    - [Net]: reading and writing whole buffers on a stream (src/net.cpp), whose peer
      is a list of [Arrival]s and [Delivery]s.
    - [Session], [SessionProps]: [serve_session] against the class [MessageHandler],
      whose instance is the service.
    - [Service], [ServiceProps]: [CoordinatorService], one definition per handler
      (tools/service.cpp), its start and its snapshots.
    - [Client], [ClientProps]: [Client] with each of its calls (src/client.cpp).
    - [Remote]: the meaning of each call of the client without the layers between,
      and that the layers keep it.
    - [Server]: the acceptor, the workers and [stop] of [SessionServer] as a step
      relation, each step one access to the shared state (src/session.cpp).
    - [LedgerInv], [LedgerRun], [LedgerEvolve], [LedgerBounds]: the ledger's
      invariant, its histories ([LedgerOp], [run]), the preorder that every record
      follows, memory bounds and failure atomicity.
    - [EvaluateProps], [EvaluateState], [Deferral], [FlowsProps]: what a decision
      implies, what an evaluation changes, the deferral records, and validity of a
      decision just taken.
    - [CoordMirror]: the coordinator's flow table against the ledger's, and the
      run-time audit.
    - [Random]: the standard library's Mersenne twister, the engine of the boot
      identity. [Restore]: the ledger and the registries after a snapshot has been
      restored.
    - [CoordRun], [CoordSafety], [TransferProps]: histories of the coordinator
      ([CoordOp], [coord_run]), the ledger calls that each command makes
      ([ledger_calls]), and the properties that hold along histories.
    - [Examples], [ExamplesProps]: the example programs and the consumer (examples/,
      consumer/main.cpp), and what they do.
    - [Sockets]: connecting, binding, accepting, closing and moving (the rest of
      src/net.cpp), over records of what the system calls answer and the set of open
      descriptors.
    - [Tools]: the decimal parser that the three command-line tools share, and the
      monad in which their processes are written: a state, and an early exit with a
      code.
    - [Render]: the [to_string] members of all structures, [Decision::explain] and
      [Coordinator::explain_request]. [Logging]: src/log.cpp.
    - [Accel]: the accelerator probe with its kernel and its two back ends
      (include/itf/accel.hpp, src/accel_*.cpp, src/accel_cuda.cu); the CUDA runtime
      is a parameter, the record [Cuda].
    - [Simulator], [SimulatorProps]: tools/itf_sim.cpp, a receiver of chunks behind
      a session and a sender that walks a request through the coordinator's client
      and streams a transfer.
    - [Scenarios]: tools/itfctl.cpp, the seven scenarios over a coordinator with a
      virtual clock and the remote commands. [Launcher]: tools/itf_coordinator.cpp,
      from the command line to the configuration of the service.
    - [LedgerFindings], [CoordFindings], [ServiceFindings], [ToolsFindings]:
      concrete histories in which the program departs from what its comments or
      documents say; the last also runs the scenarios, all of which end with
      success.
    - [Witnesses], [ServiceWitnesses], [ToolsWitnesses]: an instance of each theorem
      at a concrete state.

    ** What the theorems show

    - Authority: a permitted decision passed every fence of the rule of the class it
      carries (C2); cancellation is final for clients (C1); fresh decisions validate
      (C17); an evaluation changes no authority (C28).
    - Refinement: every coordinator command makes exactly the ledger calls that a
      table gives for it and answers what they answer (C3) and every service
      history, malformed messages included, a coordinator history (C4), so that the
      closure audit succeeds after every history of either (C6, C30).
    - Audit: the full run-time audit, which compares the coordinator's flow table,
      indexes and counters with the ledger's, succeeds after every history in which
      no transfer is authorised and flows are opened for serving decisions only, for
      a configuration with room for a flow and a deferral record (C19); with
      transfers, or with either limit at zero, it can fail, and [CoordFindings] has
      the histories.
    - Life cycles: settled requests are final (C7), at most one completion commits
      (C8).
    - Deferral: counters agree with records and stay bounded (C16); protected
      traffic is admitted at the latest by the evaluation that uses up its budget
      (C9).
    - Sessions: the handler sees only authentic frames in increasing order (C5);
      every frame of a conforming peer is delivered (C10); a remote call answers and
      does what the coordinator's own method answers and does (C11); the number of
      sessions never exceeds the configured capacity in any interleaving (C20); no
      path of opening a connection leaks a descriptor (C21).
    - The data plane: a transfer that its receiver reports as verified arrived
      intact (C12), and one between a client and a session in step, whose payload
      limit holds a chunk, gets through (C13).
    - Persistence and restart: a save replaces the document or leaves it (C22), what
      is loaded is sound (C23), damage is refused (C24), and a saved state is loaded
      back (C25), whatever the sizes of the reads and writes (C40); with no snapshot
      interval an acknowledged change other than the record of an evaluation is on
      the disk (C14) and a restart resumes it (C15); a boot from a valid snapshot
      restores all of it (C18) and fences earlier decisions (C26).
    - Bounds and errors: decisions are well formed (C27), transfers complete only
      when verified (C29), memory is bounded (C33), refused calls leave no trace
      (C34).
    - Bytes: every message body survives encoding (C31), and nothing unsound comes
      out of arbitrary bytes (C32); the text validator is UTF-8 (C36) and the
      checksum is polynomial division (C37).
    - Policy: validation accepts exactly the sound documents (C35).
    - Examples: the full audit succeeds whatever arrives at the sessions of the
      transport example; the programs are run, and some read the value of a failed
      result.
    - The accelerator probe asks the runtime to take back its buffer on every path
      and, when it ran the kernel, reports success only for what it compared (C38);
      a working device passes it (C39).

    ** Conventions, bounds and fuel

    Unsigned integers are [Z] with the wrap-around of their width written out
    ([add64], [sub32], ...); signed instants are [Z]. Most loops of the source run
    over a list or pop a deque and are structural recursions or folds. Four need
    fuel. The two loops that read and write a file take the number of bytes plus
    one: each round but the last moves at least one byte, and with that fuel they
    never run out (C40). Rendering a number in decimal takes twenty digits, which
    every 64-bit integer has at most. The loops that read and write a buffer on a
    stream recurse on the script of the peer. The loop of a session takes the weight
    of the arrivals, since each turn consumes one, and C10 shows that every frame is
    served with it. Hash maps are [gmap]s; the one place where the order of a hash
    map matters, [defers_.begin()], goes through the class [HashOrder], whose law is
    that a nonempty map lists an entry it holds, and theorems hold for every
    instance. Where the source walks a hash map the result does not depend on the
    order, except for the order of the list [export_live_records] builds. Clock
    readings and the words that a boot without a configured seed draws from its
    random engine are arguments; with a seed they are the outputs of the engine,
    which [Random] computes. A method of [Coordinator] holds one mutex from start to
    end, so that an interleaving of callers is a sequence of operations, which is
    what [coord_run] executes. Status messages are dropped: the code is the
    contract.

    A read of the codec is a function from a reader to a value and the reader it
    leaves; a write is a function on writers. Sizes are [Z]: the buffers they
    measure fit in memory. A [MessageType] is the integer it holds, since a decoded
    one need not be an enumerator.

    A stream is what its peer does: an [Arrival] is a chunk of bytes, a time in
    which nothing came, the end, an error or a request to stop; a [Delivery] is how
    much of a write is taken. Handlers are called in the order in which they take
    the coordinator's mutex, so that concurrent sessions give one sequence of
    messages, which is what [serve] executes.

    ** Not modelled

    What the operating system does below sockets and files, and the CUDA runtime,
    are parameters. Left out are the branches for Windows, socket options, console
    output and the sleeping and polling of the tools. The signed addition in the SLO
    deadline and the signed products of the launcher's options, whose overflow the
    language leaves undefined, are taken exactly; so is [value()] of a failed result
    in a scenario or an example, which the model turns into an exit code of its own.

    ** Plan

    Every component of the program has its definitions. What could follow: the
    accounting snapshot along histories with transfers, and the service's restart
    under a crash in the middle of a message. *)

From stdpp Require Export base tactics decidable countable option list numbers gmap fin_maps.
From Stdlib Require Export ZArith Lia.

#[global] Open Scope Z_scope.

Declare Scope itf_scope.
Delimit Scope itf_scope with itf.
#[global] Open Scope itf_scope.

Create HintDb itf.

(** ** Boolean equality tests

    The source compares enumerators, identities and integers with [==]; the
    model writes [a ≟ b], the boolean of the type's decidable equality. *)

Notation "a ≟ b" := (bool_decide (a = b)) (at level 70, no associativity) : itf_scope.
Notation "a ≠? b" := (negb (bool_decide (a = b))) (at level 70, no associativity) : itf_scope.

(** ** Machine-width integers

    A w-bit unsigned integer is a [Z] in [0, 2^w); every operation that can
    leave the range is followed by the wrap-around the language prescribes. *)

Definition two64 : Z := 18446744073709551616.
Definition two32 : Z := 4294967296.
Definition wrap64 (z : Z) : Z := z mod two64.
Definition wrap32 (z : Z) : Z := z mod two32.
Definition add64 (a b : Z) : Z := wrap64 (a + b).
Definition sub64 (a b : Z) : Z := wrap64 (a - b).
Definition mul64 (a b : Z) : Z := wrap64 (a * b).
Definition add32 (a b : Z) : Z := wrap32 (a + b).
Definition sub32 (a b : Z) : Z := wrap32 (a - b).
Definition mul32 (a b : Z) : Z := wrap32 (a * b).
Definition is_u64 (z : Z) : Prop := 0 ≤ z < two64.
Definition is_u32 (z : Z) : Prop := 0 ≤ z < two32.

(** The limits of [std::int64_t]. *)
Definition int64_min : Z := -9223372036854775808.
Definition int64_max : Z := 9223372036854775807.
Definition is_i64 (z : Z) : Prop := int64_min ≤ z ≤ int64_max.

(** Two's complement conversions [static_cast<int64_t>] and
    [static_cast<uint64_t>]. *)
Definition to_i64 (z : Z) : Z :=
  let w := wrap64 z in if w <? 9223372036854775808 then w else w - two64.
Definition to_u64 (z : Z) : Z := wrap64 z.

Arguments wrap64 : simpl never.
Arguments wrap32 : simpl never.
Arguments add64 : simpl never.
Arguments sub64 : simpl never.
Arguments mul64 : simpl never.
Arguments add32 : simpl never.
Arguments sub32 : simpl never.
Arguments mul32 : simpl never.
Arguments to_i64 : simpl never.
Arguments to_u64 : simpl never.

Lemma wrap64_id z : is_u64 z → wrap64 z = z.
Proof. intros H. apply Z.mod_small, H. Qed.

Lemma wrap32_id z : is_u32 z → wrap32 z = z.
Proof. intros H. apply Z.mod_small, H. Qed.

Lemma wrap64_range z : is_u64 (wrap64 z).
Proof. apply Z.mod_pos_bound. reflexivity. Qed.

Lemma wrap32_range z : is_u32 (wrap32 z).
Proof. apply Z.mod_pos_bound. reflexivity. Qed.

Lemma add64_small a b : 0 ≤ a + b < two64 → add64 a b = a + b.
Proof. intros H. by apply wrap64_id. Qed.

Lemma add32_small a b : 0 ≤ a + b < two32 → add32 a b = a + b.
Proof. intros H. by apply wrap32_id. Qed.

Lemma sub32_small a b : 0 ≤ a - b < two32 → sub32 a b = a - b.
Proof. intros H. by apply wrap32_id. Qed.

Lemma sub64_small a b : 0 ≤ a - b < two64 → sub64 a b = a - b.
Proof. intros H. by apply wrap64_id. Qed.

Lemma to_i64_to_u64 z : is_i64 z → to_i64 (to_u64 z) = z.
Proof.
  unfold is_i64, to_i64, to_u64, wrap64, int64_min, int64_max, two64. intros H.
  rewrite Z.mod_mod by lia.
  destruct (Z.ltb_spec z 0) as [Hneg|Hpos].
  - replace (z mod 18446744073709551616) with (z + 18446744073709551616)
      by (symmetry; rewrite <- (Z.mod_small (z + 18446744073709551616) 18446744073709551616) by lia;
          rewrite <- (Z.mul_1_l 18446744073709551616) at 2; rewrite Z.mod_add by lia; reflexivity).
    destruct (Z.ltb_spec (z + 18446744073709551616) 9223372036854775808); lia.
  - rewrite Z.mod_small by lia. destruct (Z.ltb_spec z 9223372036854775808); lia.
Qed.

#[export] Hint Resolve wrap64_range wrap32_range : itf.

(** ** Results: [Result<T>] and [Status] of include/itf/error.hpp

    [Status] carries a code and a diagnostic text. The header states that the
    code is the contract and the text is diagnostic only; the model keeps the
    code. *)

Module StatusCode.
Inductive t : Type :=
| Ok | InvalidArgument | OutOfRange | NotFound | AlreadyExists | BoundsExceeded
| IntegrityMismatch | MalformedInput | TrailingGarbage | UnsupportedVersion | Unsupported
| StaleGeneration | StaleEpoch | StaleAuthority | Cancelled | Conflict | NotAuthorized
| CapacityExhausted | InvalidTransition | PolicyInvalid | EvidenceUnknown | EvidenceStale
| RevalidationRequired | ReplayRejected | Closed | ShuttingDown | IoError | Internal
| DuplicateIgnored | Refused.

Definition value (x : t) : Z :=
  match x with
  | Ok => 0 | InvalidArgument => 1 | OutOfRange => 2 | NotFound => 3 | AlreadyExists => 4
  | BoundsExceeded => 5 | IntegrityMismatch => 6 | MalformedInput => 7 | TrailingGarbage => 8
  | UnsupportedVersion => 9 | Unsupported => 10 | StaleGeneration => 11 | StaleEpoch => 12
  | StaleAuthority => 13 | Cancelled => 14 | Conflict => 15 | NotAuthorized => 16
  | CapacityExhausted => 17 | InvalidTransition => 18 | PolicyInvalid => 19
  | EvidenceUnknown => 20 | EvidenceStale => 21 | RevalidationRequired => 22
  | ReplayRejected => 23 | Closed => 24 | ShuttingDown => 25 | IoError => 26 | Internal => 27
  | DuplicateIgnored => 28 | Refused => 29
  end.

Definition all : list t :=
  [Ok; InvalidArgument; OutOfRange; NotFound; AlreadyExists; BoundsExceeded; IntegrityMismatch;
   MalformedInput; TrailingGarbage; UnsupportedVersion; Unsupported; StaleGeneration; StaleEpoch;
   StaleAuthority; Cancelled; Conflict; NotAuthorized; CapacityExhausted; InvalidTransition;
   PolicyInvalid; EvidenceUnknown; EvidenceStale; RevalidationRequired; ReplayRejected; Closed;
   ShuttingDown; IoError; Internal; DuplicateIgnored; Refused].
End StatusCode.

Inductive Result (A : Type) : Type :=
| Success (a : A)
| Failure (code : StatusCode.t).
Arguments Success {A} a.
Arguments Failure {A} code.

(** [Status] is [Result] at [unit]: [Status::success()] is [Success tt]. *)
Abbreviation Status := (Result unit).

Definition ok {A} (r : Result A) : bool :=
  match r with Success _ => true | Failure _ => false end.

Definition code {A} (r : Result A) : StatusCode.t :=
  match r with Success _ => StatusCode.Ok | Failure c => c end.

(** Propagating an error status into a result of another type. *)
Definition fail_as {A B} (r : Result A) : Result B := Failure (code r).

(** A stateful operation returns its result and the state it leaves. *)
Definition refuse {S A} (s : S) (c : StatusCode.t) : Result A * S := (Failure c, s).

#[global] Instance StatusCode_eq_dec : EqDecision StatusCode.t.
Proof. solve_decision. Defined.

(** ** Record update

    [r <| f := v |>] replaces field [f] of record [r]. A record declares its
    expansion once ([Eta]) and one [Setter] instance per mutable field. *)

Class Eta (R : Type) := eta : R → R.

Class Setter {R T : Type} (f : R → T) := setter : T → R → R.
Arguments setter {R T} f {_} v r.

Ltac mk_setter :=
  lazymatch goal with
  | |- @Setter ?R ?T ?f =>
      let e := eval hnf in (_ : Eta R) in
      exact (fun (v : T) (r : R) =>
        ltac:(let b := eval cbv beta in (e r) in
              lazymatch eval pattern (f r) in b with
              | ?F _ => let t := eval cbv beta in (F v) in exact t
              end))
  end.

Notation "r <| f := v |>" := (setter f v r)
  (at level 1, left associativity, format "r  <| f  :=  v |>") : itf_scope.

(** Reverse application: the source's sequence of updates, top to bottom. *)
Notation "x ▸ f" := (f x) (at level 61, left associativity, only parsing) : itf_scope.

(** ** Enumerations with an underlying [std::uint16_t]

    Each [enum class] is an inductive type whose [Enum] instance gives the
    numeric value of every enumerator and the list of enumerators in numeric
    order. The last enumerator is the sentinel [Count]. *)

Class Enum (A : Type) := {
  enum_code : A → Z;
  enum_all : list A;
  enum_code_nonneg : ∀ a, 0 ≤ enum_code a;
  enum_all_code : ∀ a, enum_all !! Z.to_nat (enum_code a) = Some a;
}.

Definition enum_of_code {A} `{Enum A} (z : Z) : option A :=
  if z <? 0 then None else enum_all !! Z.to_nat z.

Lemma enum_of_code_code {A} `{Enum A} (a : A) : enum_of_code (enum_code a) = Some a.
Proof.
  unfold enum_of_code. pose proof (enum_code_nonneg a).
  destruct (Z.ltb_spec (enum_code a) 0); [lia|]. apply enum_all_code.
Qed.

Lemma enum_code_inj {A} `{Enum A} (a b : A) : enum_code a = enum_code b → a = b.
Proof.
  intros E. pose proof (enum_of_code_code a) as Ha. pose proof (enum_of_code_code b) as Hb.
  rewrite E in Ha. congruence.
Qed.

Definition enum_eq_dec {A} `{Enum A} : EqDecision A := fun a b =>
  match decide (enum_code a = enum_code b) with
  | left E => left (enum_code_inj a b E)
  | right N => right (fun E => N (f_equal enum_code E))
  end.

Ltac solve_enum := intros []; vm_compute; first [reflexivity | discriminate | congruence].

#[global] Instance StatusCode_enum : Enum StatusCode.t.
Proof. refine {| enum_code := StatusCode.value; enum_all := StatusCode.all |}; solve_enum. Defined.

(** ** Hash multimaps

    [std::unordered_multimap<K, V>] keeps, per key, the values inserted under
    it. The order among equal keys is the container's; every use in the source
    is insensitive to it. *)

Section multimap.
Context {K V : Type} `{Countable K} `{EqDecision V}.

Definition mm_range (m : gmap K (list V)) (k : K) : list V := default [] (m !! k).

Definition mm_emplace (m : gmap K (list V)) (k : K) (v : V) : gmap K (list V) :=
  <[k := mm_range m k ++ [v]]> m.

(** Erasing the first entry under [k] whose value is [v]. *)
Fixpoint remove_first (v : V) (l : list V) : list V :=
  match l with
  | [] => []
  | x :: l' => if x ≟ v then l' else x :: remove_first v l'
  end.

Definition mm_erase_one (m : gmap K (list V)) (k : K) (v : V) : gmap K (list V) :=
  <[k := remove_first v (mm_range m k)]> m.

Definition mm_erase_key (m : gmap K (list V)) (k : K) : gmap K (list V) := delete k m.

Lemma mm_range_emplace m k v k' :
  mm_range (mm_emplace m k v) k' = if decide (k = k') then mm_range m k' ++ [v] else mm_range m k'.
Proof.
  unfold mm_emplace, mm_range at 1. rewrite lookup_insert. case_decide; subst; done.
Qed.

Lemma mm_range_erase_one m k v k' :
  mm_range (mm_erase_one m k v) k' =
  if decide (k = k') then remove_first v (mm_range m k') else mm_range m k'.
Proof.
  unfold mm_erase_one, mm_range at 1. rewrite lookup_insert. case_decide; subst; done.
Qed.

Lemma mm_range_erase_key m k k' :
  mm_range (mm_erase_key m k) k' = if decide (k = k') then [] else mm_range m k'.
Proof. unfold mm_erase_key, mm_range. rewrite lookup_delete. case_decide; subst; done. Qed.

Lemma mm_range_empty k : mm_range (∅ : gmap K (list V)) k = [].
Proof. unfold mm_range. by rewrite lookup_empty. Qed.

Lemma elem_of_remove_first_ne v x l : x ≠ v → x ∈ l → x ∈ remove_first v l.
Proof.
  intros Hne. induction l as [|y l IH]; simpl; [done|].
  rewrite elem_of_cons. case_bool_decide; rewrite ?elem_of_cons; naive_solver.
Qed.

Lemma elem_of_remove_first v x l : x ∈ remove_first v l → x ∈ l.
Proof.
  induction l as [|y l IH]; simpl; [done|].
  case_bool_decide; rewrite !elem_of_cons; naive_solver.
Qed.

Lemma remove_first_NoDup v l : NoDup l → NoDup (remove_first v l) ∧ v ∉ remove_first v l.
Proof.
  induction 1 as [|y l Hy Hl IH]; simpl; [split; [constructor|apply not_elem_of_nil]|].
  destruct IH as [IH1 IH2]. case_bool_decide; subst; [done|]. split.
  - constructor; [|done]. intros Hin. apply Hy. by eapply elem_of_remove_first.
  - rewrite elem_of_cons. naive_solver.
Qed.

Lemma length_remove_first v l : v ∈ l → length l = S (length (remove_first v l)).
Proof.
  induction l as [|y l IH]; [by intros ?%not_elem_of_nil|]. simpl.
  case_bool_decide; [done|]. intros [?|Hin]%elem_of_cons; [done|]. simpl. by rewrite <- IH.
Qed.
End multimap.

(** [emplace] of a hash map keeps an existing entry. *)
Definition map_emplace {K V} `{Countable K} (k : K) (v : V) (m : gmap K V) : gmap K V :=
  match m !! k with Some _ => m | None => <[k := v]> m end.

Lemma map_emplace_fresh {K V} `{Countable K} (k : K) (v : V) (m : gmap K V) :
  m !! k = None → map_emplace k v m = <[k := v]> m.
Proof. intros H'. unfold map_emplace. by rewrite H'. Qed.

(** ** Shared automation *)

(** Splits every conditional and match of a hypothesis or goal and discards
    the contradictory branches. *)
Ltac split_cases :=
  repeat (case_match; simplify_eq/=; try done).

Ltac bool_to_prop :=
  repeat match goal with
  | H : _ && _ = true |- _ => apply andb_true_iff in H as [? ?]
  | H : _ || _ = false |- _ => apply orb_false_iff in H as [? ?]
  | H : negb _ = true |- _ => apply negb_true_iff in H
  | H : negb _ = false |- _ => apply negb_false_iff in H
  | H : bool_decide _ = true |- _ => apply bool_decide_eq_true_1 in H
  | H : bool_decide _ = false |- _ => apply bool_decide_eq_false_1 in H
  | H : (_ <? _) = true |- _ => apply Z.ltb_lt in H
  | H : (_ <? _) = false |- _ => apply Z.ltb_ge in H
  | H : (_ <=? _) = true |- _ => apply Z.leb_le in H
  | H : (_ <=? _) = false |- _ => apply Z.leb_gt in H
  | H : (_ =? _) = true |- _ => apply Z.eqb_eq in H
  | H : (_ =? _) = false |- _ => apply Z.eqb_neq in H
  end.
