(* ===== verification/Random.v ===== *)
(** * The pseudo-random engine of the boot identity

    The standard library's [std::mt19937_64], the engine [Coordinator::random_] of
    src/coordinator.cpp is: the Mersenne twister with words of 64 bits, as the
    standard defines its seeding, transition and output. The coordinator seeds it
    anew at every boot when a boot seed is configured. *)

From S2P Require Import Prelude.

(** ** Parameters *)

Definition mt_state_size : nat := 312.
Definition mt_shift_size : nat := 156.
Definition mt_xor_mask : Z := 0xB5026F5AA96619E9.
Definition mt_initialization_multiplier : Z := 6364136223846793005.

(** ** Seeding *)

(** The words after the first: each comes from the word before and its index. *)
Fixpoint mt_fill (n : nat) (index previous : Z) : list Z :=
  match n with
  | O => []
  | S n =>
      let word := add64 (mul64 mt_initialization_multiplier
                           (Z.lxor previous (Z.shiftr previous 62))) index in
      word :: mt_fill n (index + 1) word
  end.

(** The state: the last 312 words, the oldest first. *)
Definition mt_seed (value : Z) : list Z :=
  to_u64 value :: mt_fill (mt_state_size - 1) 1 (to_u64 value).

(** ** Transition and output *)

(** The recurrence: the upper 33 bits of the oldest word and the lower 31 of the
    one after it, shifted and masked, into the word half a state later. *)
Definition mt_twist (oldest second middle : Z) : Z :=
  let y := Z.lor (Z.land oldest 0xFFFFFFFF80000000) (Z.land second 0x7FFFFFFF) in
  Z.lxor middle (Z.lxor (Z.shiftr y 1) (if Z.odd y then mt_xor_mask else 0)).

Definition mt_temper (word : Z) : Z :=
  let z := Z.lxor word (Z.land (Z.shiftr word 29) 0x5555555555555555) in
  let z := Z.lxor z (Z.land (to_u64 (Z.shiftl z 17)) 0x71D67FFFEDA60000) in
  let z := Z.lxor z (Z.land (to_u64 (Z.shiftl z 37)) 0xFFF7EEE000000000) in
  Z.lxor z (Z.shiftr z 43).

(** One invocation of the engine. *)
Definition mt_next (state : list Z) : Z * list Z :=
  let word := mt_twist (nth 0 state 0) (nth 1 state 0) (nth mt_shift_size state 0) in
  (mt_temper word, tail state ++ [word]).

(** The first two outputs of an engine seeded with [value]. *)
Definition seeded_draws (value : Z) : Z * Z :=
  let '(first, state) := mt_next (mt_seed value) in
  let '(second, _) := mt_next state in (first, second).

(** The first outputs of an engine with the default seed. *)
Example default_engine :
  seeded_draws 5489 = (14514284786278117030, 4620546740167642908).
Proof. vm_compute. reflexivity. Qed.

Arguments mt_fill : simpl never.
Arguments mt_seed : simpl never.
Arguments seeded_draws : simpl never.
#[global] Opaque seeded_draws.
