(* ===== verification/Ids.v ===== *)
(** * Identities, generations, instants and checked arithmetic

    Models include/itf/ids.hpp, include/itf/time.hpp, include/itf/bytes.hpp and
    the integer mixers of src/coordinator.cpp. An identity is the pair of its
    64-bit halves; a generation is its 64-bit value, zero meaning unset; an
    instant is its nanosecond count, the least [int64] meaning unset. *)

From S2P Require Import Prelude.
From Stdlib Require Import Ascii.

(** ** 128-bit identities *)

Record Id128 := MkId { high : Z; low : Z }.

#[global] Instance Id128_eq_dec : EqDecision Id128.
Proof. solve_decision. Defined.

#[global] Program Instance Id128_countable : Countable Id128 :=
  inj_countable' (fun i => (high i, low i)) (fun p => MkId p.1 p.2) _.
Next Obligation. by intros []. Qed.

Abbreviation RequestId := Id128.
Abbreviation AttemptId := Id128.
Abbreviation StateTransferId := Id128.
Abbreviation FlowId := Id128.
Abbreviation BootId := Id128.

Definition nil_id : Id128 := MkId 0 0.

Definition is_nil (i : Id128) : bool := (high i =? 0) && (low i =? 0).

(** The halves fit their 64-bit fields. *)
Definition id_ok (i : Id128) : Prop := is_u64 (high i) ∧ is_u64 (low i).

(** *** Hexadecimal rendering and strict parsing *)

Definition hex_value (c : ascii) : Z :=
  let n := Z.of_N (N_of_ascii c) in
  if (48 <=? n) && (n <=? 57) then n - 48
  else if (97 <=? n) && (n <=? 102) then n - 97 + 10
  else if (65 <=? n) && (n <=? 70) then n - 65 + 10
  else -1.

Definition hex_digit (value : Z) : ascii :=
  ascii_of_N (Z.to_N (if value <? 10 then 48 + value else 97 + value - 10)).

(** The character at index [i] of the rendering. *)
Definition id_digit (x : Id128) (i : nat) : ascii :=
  let source := if (i <? 16)%nat then high x else low x in
  let shift := (15 - Z.of_nat i mod 16) * 4 in
  hex_digit (Z.land (Z.shiftr source shift) 15).

Definition id_to_string (x : Id128) : list ascii := id_digit x <$> seq 0 32.

(** One iteration of the parse loop at index [i]. *)
Definition parse_step (i : nat) (c : ascii) (acc : Z * Z) : option (Z * Z) :=
  let digit := hex_value c in
  if digit <? 0 then None
  else if (i <? 16)%nat then Some (Z.lor (wrap64 (Z.shiftl acc.1 4)) digit, acc.2)
  else Some (acc.1, Z.lor (wrap64 (Z.shiftl acc.2 4)) digit).

Fixpoint parse_loop (i : nat) (text : list ascii) (acc : Z * Z) : option (Z * Z) :=
  match text with
  | [] => Some acc
  | c :: rest => match parse_step i c acc with
                 | None => None
                 | Some acc' => parse_loop (S i) rest acc'
                 end
  end.

Definition id_parse (text : list ascii) : option Id128 :=
  if negb (length text =? 32)%nat then None
  else match parse_loop 0 text (0, 0) with
       | None => None
       | Some (h, l) => Some (MkId h l)
       end.

(** The strict weak order of identities. *)
Definition id_lt (a b : Id128) : bool :=
  if high a ≠? high b then high a <? high b else low a <? low b.

(** ** Generations *)

Definition is_unset (g : Z) : bool := g =? 0.
Definition next (g : Z) : Z := add64 g 1.

Arguments next : simpl never.
Arguments is_unset : simpl never.

(** ** Instants *)

Definition kUnset : Z := int64_min.
Definition Instant_at (nanos : Z) : Z := nanos.
Definition Instant_is_set (i : Z) : bool := i ≠? kUnset.

Definition Instant_from_now (now_nanos delta_nanos : Z) : Z :=
  if delta_nanos <=? 0 then kUnset
  else if now_nanos >? int64_max - delta_nanos then kUnset
  else Instant_at (now_nanos + delta_nanos).

Definition Instant_expired_at (i now_nanos : Z) : bool :=
  Instant_is_set i && (i <=? now_nanos).

Definition Instant_remaining_at (i now_nanos : Z) : Z :=
  if negb (Instant_is_set i) || (i <=? now_nanos) then 0 else i - now_nanos.

Definition Instant_lt (a b : Z) : bool :=
  if negb (Instant_is_set a) then false
  else if negb (Instant_is_set b) then true
  else a <? b.

Definition millis_to_nanos (millis : Z) : Z :=
  let kMaxMillis := int64_max / 1000000 in
  if millis >? kMaxMillis then int64_max else millis * 1000000.

(** ** Checked arithmetic: [None] is the refusal that leaves [out] untouched *)

Definition checked_add (a b : Z) : option Z :=
  if a >? (two64 - 1) - b then None else Some (add64 a b).

Definition checked_mul (a b : Z) : option Z :=
  if (a ≠? 0) && (b >? (two64 - 1) / a) then None else Some (mul64 a b).

(** ** Mixers *)

Definition mix64 (value : Z) : Z :=
  let value := Z.lxor value (Z.shiftr value 30) in
  let value := mul64 value 0xBF58476D1CE4E5B9 in
  let value := Z.lxor value (Z.shiftr value 27) in
  let value := mul64 value 0x94D049BB133111EB in
  Z.lxor value (Z.shiftr value 31).

Definition fnv1a64 (text : list ascii) : Z :=
  foldl (fun hash c => mul64 (Z.lxor hash (Z.of_N (N_of_ascii c))) 0x100000001B3)
        0xCBF29CE484222325 text.

Arguments mix64 : simpl never.

(** ** Lemmas *)

Lemma is_nil_spec i : is_nil i = true ↔ i = nil_id.
Proof.
  unfold is_nil, nil_id. destruct i as [h l]; simpl.
  rewrite andb_true_iff, !Z.eqb_eq. naive_solver.
Qed.

Lemma is_nil_false i : is_nil i = false ↔ i ≠ nil_id.
Proof. rewrite <- is_nil_spec. destruct (is_nil i); naive_solver. Qed.

Lemma next_small g : is_u64 (g + 1) → next g = g + 1.
Proof. intros H. unfold next, add64. by rewrite wrap64_id. Qed.

Lemma checked_add_spec a b :
  is_u64 a → is_u64 b →
  checked_add a b = if decide (a + b < two64) then Some (a + b) else None.
Proof.
  unfold checked_add, is_u64. intros Ha Hb. rewrite Z.gtb_ltb.
  destruct (Z.ltb_spec (two64 - 1 - b) a); case_decide; try lia; try done.
  rewrite add64_small by lia. done.
Qed.

Lemma checked_mul_spec a b :
  is_u64 a → is_u64 b →
  checked_mul a b = if decide (a * b < two64) then Some (a * b) else None.
Proof.
  unfold checked_mul, is_u64. intros Ha Hb. rewrite Z.gtb_ltb.
  case_bool_decide as E; simpl.
  - subst. rewrite Z.mul_0_l. case_decide; [|lia]. done.
  - destruct (Z.ltb_spec ((two64 - 1) / a) b) as [H|H].
    + case_decide as D; [|done]. exfalso.
      apply Z.lt_nge in H. apply H. apply Z.div_le_lower_bound; lia.
    + pose proof (Z.mul_div_le (two64 - 1) a ltac:(lia)).
      assert (a * b ≤ a * ((two64 - 1) / a)) by (apply Z.mul_le_mono_nonneg_l; lia).
      case_decide; [|lia]. unfold mul64. rewrite wrap64_id; [done|].
      unfold is_u64. split; [|lia]. apply Z.mul_nonneg_nonneg; lia.
Qed.

(** *** Nibble arithmetic for the hexadecimal round trip *)

Lemma hex_value_digit v : 0 ≤ v < 16 → hex_value (hex_digit v) = v.
Proof.
  intros H.
  assert (v ∈ (Z.of_nat <$> seq 0 16)) as Hin.
  { apply list_elem_of_fmap. exists (Z.to_nat v). split; [lia|]. apply elem_of_seq. lia. }
  revert Hin. clear H. cbn [seq fmap list_fmap].
  rewrite !elem_of_cons, elem_of_nil. intros; destruct_or!; subst; first [done | reflexivity].
Qed.

(** The value read from the first [n] hexadecimal digits of a word. *)
Definition top_nibbles (w : Z) (n : nat) : Z := Z.shiftr w (64 - 4 * Z.of_nat n).

Lemma top_nibbles_S w n :
  is_u64 w → (n < 16)%nat →
  Z.lor (wrap64 (Z.shiftl (top_nibbles w n) 4)) (Z.land (Z.shiftr w ((15 - Z.of_nat n) * 4)) 15)
  = top_nibbles w (S n).
Proof.
  intros Hw Hn. unfold top_nibbles.
  set (s := (15 - Z.of_nat n) * 4).
  replace (64 - 4 * Z.of_nat n) with (s + 4) by lia.
  replace (64 - 4 * Z.of_nat (S n)) with s by lia.
  assert (0 ≤ s) by lia.
  rewrite <- Z.shiftr_shiftr by lia.
  set (x := Z.shiftr w s).
  assert (0 ≤ x < two64) as Hx.
  { unfold x. rewrite Z.shiftr_div_pow2 by lia. destruct Hw. split.
    - apply Z.div_pos; lia.
    - apply Z.div_lt_upper_bound; [lia|]. nia. }
  rewrite wrap64_id.
  - apply Z.bits_inj'. intros i Hi.
    rewrite Z.lor_spec, Z.shiftl_spec by lia.
    change 15 with (Z.ones 4). rewrite Z.land_spec.
    destruct (Z.ltb_spec i 4).
    + rewrite (Z.testbit_neg_r _ (i - 4)) by lia. rewrite Z.ones_spec_low by lia.
      by rewrite andb_true_r.
    + rewrite Z.ones_spec_high by lia. rewrite andb_false_r, orb_false_r.
      rewrite Z.shiftr_spec by lia. f_equal. lia.
  - rewrite Z.shiftl_mul_pow2, Z.shiftr_div_pow2 by lia. change (2 ^ 4) with 16.
    pose proof (Z.mul_div_le x 16 ltac:(lia)). unfold is_u64.
    pose proof (Z.div_pos x 16). lia.
Qed.

Lemma nibble_range w s : 0 ≤ Z.land (Z.shiftr w s) 15 < 16.
Proof. change 15 with (Z.ones 4). rewrite Z.land_ones by lia. apply Z.mod_pos_bound. lia. Qed.

Definition acc_at (x : Id128) (i : nat) : Z * Z :=
  (top_nibbles (high x) (i `min` 16), top_nibbles (low x) (i - 16)).

Lemma parse_step_digit x i :
  id_ok x → (i < 32)%nat → parse_step i (id_digit x i) (acc_at x i) = Some (acc_at x (S i)).
Proof.
  intros [Hh Hl] Hi. unfold parse_step, id_digit, acc_at.
  rewrite hex_value_digit by apply nibble_range.
  destruct (Nat.ltb_spec i 16) as [Hi'|Hi'].
  - destruct (Z.ltb_spec (Z.land (Z.shiftr (high x) ((15 - Z.of_nat i mod 16) * 4)) 15) 0) as [Hneg|_].
    { pose proof (nibble_range (high x) ((15 - Z.of_nat i mod 16) * 4)). lia. }
    rewrite Z.mod_small by lia. cbn [fst snd].
    replace (i `min` 16)%nat with i by lia. rewrite top_nibbles_S by (done || lia).
    replace (S i `min` 16)%nat with (S i) by lia.
    replace (S i - 16)%nat with (i - 16)%nat by lia. done.
  - destruct (Z.ltb_spec (Z.land (Z.shiftr (low x) ((15 - Z.of_nat i mod 16) * 4)) 15) 0) as [Hneg|_].
    { pose proof (nibble_range (low x) ((15 - Z.of_nat i mod 16) * 4)). lia. }
    cbn [fst snd].
    replace (Z.of_nat i mod 16) with (Z.of_nat (i - 16)).
    2:{ replace (Z.of_nat i) with (Z.of_nat (i - 16) + 1 * 16) by lia.
        rewrite Z.mod_add by lia. rewrite Z.mod_small; lia. }
    rewrite top_nibbles_S by (done || lia).
    replace (S i `min` 16)%nat with (i `min` 16)%nat by lia.
    replace (S (i - 16)) with (S i - 16)%nat by lia. done.
Qed.

Lemma parse_loop_digits x i n :
  id_ok x → (i + n = 32)%nat →
  parse_loop i (id_digit x <$> seq i n) (acc_at x i) = Some (acc_at x 32).
Proof.
  intros Hx. revert i. induction n as [|n IH]; intros i Hi; cbn [seq fmap list_fmap parse_loop].
  - replace i with 32%nat by lia. done.
  - rewrite parse_step_digit by (done || lia). apply IH. lia.
Qed.

Lemma acc_at_32 x : acc_at x 32 = (high x, low x).
Proof. unfold acc_at, top_nibbles. simpl. by rewrite !Z.shiftr_0_r. Qed.

Lemma top_nibbles_0 w : is_u64 w → top_nibbles w 0 = 0.
Proof.
  intros Hw. unfold top_nibbles. rewrite Z.shiftr_div_pow2 by lia.
  apply Z.div_small. exact Hw.
Qed.

Lemma acc_at_0 x : id_ok x → acc_at x 0 = (0, 0).
Proof.
  intros [Hh Hl]. unfold acc_at. change (0 `min` 16)%nat with 0%nat. change (0 - 16)%nat with 0%nat.
  by rewrite !top_nibbles_0.
Qed.

(** ** Properties *)

(** Rendering a 128-bit identity as 32 hexadecimal digits and parsing it strictly
    gives the identity back. *)
Theorem id_parse_to_string x : id_ok x → id_parse (id_to_string x) = Some x.
Proof.
  intros Hx. unfold id_parse, id_to_string. rewrite length_fmap, length_seq. simpl negb. cbn iota.
  rewrite <- (acc_at_0 x Hx). rewrite parse_loop_digits by (done || lia).
  rewrite acc_at_32. by destruct x.
Qed.

