(* ===== verification/Traffic.v ===== *)
(** * Traffic vocabulary: classes, serving stages and their rules

    Models include/itf/traffic.hpp and src/traffic.cpp: the enumerations of the
    fabric, the serving-stage state machine, the stage-aware classification
    guard and the structural validity of a traffic request. A value outside the
    enumerators of an [enum class] is not represented: every decoder of the
    source refuses one before it becomes a value of the type. The enumerator
    [Admitted] is written [Admitted_], here and in [Decision]. *)

From S2P Require Import Prelude Ids.
From Stdlib Require Import String.

(** ** Enumerations *)

Module TrafficClass.
Inductive t : Type :=
| Unknown | RequestIngress | PrefillInput | PrefillDecodeHandoff | KvTransfer
| StateTransfer | ModelTransfer | AdapterTransfer | DecodeStream | SpeculativeBranch
| ResponseEgress | Control | Count.

Definition value (x : t) : Z :=
  match x with
  | Unknown => 0 | RequestIngress => 1 | PrefillInput => 2 | PrefillDecodeHandoff => 3
  | KvTransfer => 4 | StateTransfer => 5 | ModelTransfer => 6 | AdapterTransfer => 7
  | DecodeStream => 8 | SpeculativeBranch => 9 | ResponseEgress => 10 | Control => 11
  | Count => 12
  end.

Definition all : list t :=
  [Unknown; RequestIngress; PrefillInput; PrefillDecodeHandoff; KvTransfer; StateTransfer;
   ModelTransfer; AdapterTransfer; DecodeStream; SpeculativeBranch; ResponseEgress;
   Control; Count].
End TrafficClass.

#[global] Instance TrafficClass_enum : Enum TrafficClass.t.
Proof. refine {| enum_code := TrafficClass.value; enum_all := TrafficClass.all |}; solve_enum. Defined.

#[global] Instance TrafficClass_eq_dec : EqDecision TrafficClass.t := enum_eq_dec.

Module ServingStage.
Inductive t : Type :=
| Unknown | Admitted_ | Routing | PrefillQueued | PrefillRunning | HandoffPending
| DecodeQueued | DecodeRunning | Streaming | Completing | Completed | Cancelled
| Failed | Count.

Definition value (x : t) : Z :=
  match x with
  | Unknown => 0 | Admitted_ => 1 | Routing => 2 | PrefillQueued => 3
  | PrefillRunning => 4 | HandoffPending => 5 | DecodeQueued => 6 | DecodeRunning => 7
  | Streaming => 8 | Completing => 9 | Completed => 10 | Cancelled => 11 | Failed => 12
  | Count => 13
  end.

Definition all : list t :=
  [Unknown; Admitted_; Routing; PrefillQueued; PrefillRunning; HandoffPending;
   DecodeQueued; DecodeRunning; Streaming; Completing; Completed; Cancelled; Failed;
   Count].
End ServingStage.

#[global] Instance ServingStage_enum : Enum ServingStage.t.
Proof. refine {| enum_code := ServingStage.value; enum_all := ServingStage.all |}; solve_enum. Defined.

#[global] Instance ServingStage_eq_dec : EqDecision ServingStage.t := enum_eq_dec.

Module FlowDirection.
Inductive t : Type :=
| Unknown | Ingress | Egress | Lateral | Count.

Definition value (x : t) : Z :=
  match x with
  | Unknown => 0 | Ingress => 1 | Egress => 2 | Lateral => 3 | Count => 4
  end.

Definition to_string (x : t) : String.string :=
  match x with
  | Unknown => "UNKNOWN" | Ingress => "INGRESS" | Egress => "EGRESS" | Lateral => "LATERAL"
  | Count => "COUNT"
  end%string.

Definition all : list t :=
  [Unknown; Ingress; Egress; Lateral; Count].
End FlowDirection.

#[global] Instance FlowDirection_enum : Enum FlowDirection.t.
Proof. refine {| enum_code := FlowDirection.value; enum_all := FlowDirection.all |}; solve_enum. Defined.

#[global] Instance FlowDirection_eq_dec : EqDecision FlowDirection.t := enum_eq_dec.

Module PriorityClass.
Inductive t : Type :=
| Unknown | LatencyCritical | Interactive | Standard | Background | Bulk | Count.

Definition value (x : t) : Z :=
  match x with
  | Unknown => 0 | LatencyCritical => 1 | Interactive => 2 | Standard => 3
  | Background => 4 | Bulk => 5 | Count => 6
  end.

Definition to_string (x : t) : String.string :=
  match x with
  | Unknown => "UNKNOWN" | LatencyCritical => "LATENCY_CRITICAL"
  | Interactive => "INTERACTIVE" | Standard => "STANDARD" | Background => "BACKGROUND"
  | Bulk => "BULK" | Count => "COUNT"
  end%string.

Definition all : list t :=
  [Unknown; LatencyCritical; Interactive; Standard; Background; Bulk; Count].
End PriorityClass.

#[global] Instance PriorityClass_enum : Enum PriorityClass.t.
Proof. refine {| enum_code := PriorityClass.value; enum_all := PriorityClass.all |}; solve_enum. Defined.

#[global] Instance PriorityClass_eq_dec : EqDecision PriorityClass.t := enum_eq_dec.

Module PacingClass.
Inductive t : Type :=
| Unknown | Immediate | Paced | RateLimited | BestEffort | Count.

Definition value (x : t) : Z :=
  match x with
  | Unknown => 0 | Immediate => 1 | Paced => 2 | RateLimited => 3 | BestEffort => 4
  | Count => 5
  end.

Definition to_string (x : t) : String.string :=
  match x with
  | Unknown => "UNKNOWN" | Immediate => "IMMEDIATE" | Paced => "PACED"
  | RateLimited => "RATE_LIMITED" | BestEffort => "BEST_EFFORT" | Count => "COUNT"
  end%string.

Definition all : list t :=
  [Unknown; Immediate; Paced; RateLimited; BestEffort; Count].
End PacingClass.

#[global] Instance PacingClass_enum : Enum PacingClass.t.
Proof. refine {| enum_code := PacingClass.value; enum_all := PacingClass.all |}; solve_enum. Defined.

#[global] Instance PacingClass_eq_dec : EqDecision PacingClass.t := enum_eq_dec.

Module IntegrityClass.
Inductive t : Type :=
| Unknown | None | Checksum | ChecksumAndVerify | Count.

Definition value (x : t) : Z :=
  match x with
  | Unknown => 0 | None => 1 | Checksum => 2 | ChecksumAndVerify => 3 | Count => 4
  end.

Definition to_string (x : t) : String.string :=
  match x with
  | Unknown => "UNKNOWN" | None => "NONE" | Checksum => "CHECKSUM"
  | ChecksumAndVerify => "CHECKSUM_AND_VERIFY" | Count => "COUNT"
  end%string.

Definition all : list t :=
  [Unknown; None; Checksum; ChecksumAndVerify; Count].
End IntegrityClass.

#[global] Instance IntegrityClass_enum : Enum IntegrityClass.t.
Proof. refine {| enum_code := IntegrityClass.value; enum_all := IntegrityClass.all |}; solve_enum. Defined.

#[global] Instance IntegrityClass_eq_dec : EqDecision IntegrityClass.t := enum_eq_dec.

Module IsolationDomain.
Inductive t : Type :=
| Unknown | LatencyCritical | Interactive | Background | Bulk | Control | Count.

Definition value (x : t) : Z :=
  match x with
  | Unknown => 0 | LatencyCritical => 1 | Interactive => 2 | Background => 3 | Bulk => 4
  | Control => 5 | Count => 6
  end.

Definition to_string (x : t) : String.string :=
  match x with
  | Unknown => "UNKNOWN" | LatencyCritical => "LATENCY_CRITICAL"
  | Interactive => "INTERACTIVE" | Background => "BACKGROUND" | Bulk => "BULK"
  | Control => "CONTROL" | Count => "COUNT"
  end%string.

Definition all : list t :=
  [Unknown; LatencyCritical; Interactive; Background; Bulk; Control; Count].
End IsolationDomain.

#[global] Instance IsolationDomain_enum : Enum IsolationDomain.t.
Proof. refine {| enum_code := IsolationDomain.value; enum_all := IsolationDomain.all |}; solve_enum. Defined.

#[global] Instance IsolationDomain_eq_dec : EqDecision IsolationDomain.t := enum_eq_dec.

Module PriorityHint.
Inductive t : Type :=
| None | LatencyCritical | Interactive | Batch | Background | Count.

Definition value (x : t) : Z :=
  match x with
  | None => 0 | LatencyCritical => 1 | Interactive => 2 | Batch => 3 | Background => 4
  | Count => 5
  end.

Definition to_string (x : t) : String.string :=
  match x with
  | None => "NONE" | LatencyCritical => "LATENCY_CRITICAL" | Interactive => "INTERACTIVE"
  | Batch => "BATCH" | Background => "BACKGROUND" | Count => "COUNT"
  end%string.

Definition all : list t :=
  [None; LatencyCritical; Interactive; Batch; Background; Count].
End PriorityHint.

#[global] Instance PriorityHint_enum : Enum PriorityHint.t.
Proof. refine {| enum_code := PriorityHint.value; enum_all := PriorityHint.all |}; solve_enum. Defined.

#[global] Instance PriorityHint_eq_dec : EqDecision PriorityHint.t := enum_eq_dec.

Module SubjectKind.
Inductive t : Type :=
| Unknown | Serving | Transfer | Count.

Definition value (x : t) : Z :=
  match x with
  | Unknown => 0 | Serving => 1 | Transfer => 2 | Count => 3
  end.

Definition to_string (x : t) : String.string :=
  match x with
  | Unknown => "UNKNOWN" | Serving => "SERVING" | Transfer => "TRANSFER" | Count => "COUNT"
  end%string.

Definition all : list t :=
  [Unknown; Serving; Transfer; Count].
End SubjectKind.

#[global] Instance SubjectKind_enum : Enum SubjectKind.t.
Proof. refine {| enum_code := SubjectKind.value; enum_all := SubjectKind.all |}; solve_enum. Defined.

#[global] Instance SubjectKind_eq_dec : EqDecision SubjectKind.t := enum_eq_dec.

Abbreviation TrafficClass := TrafficClass.t.
Abbreviation ServingStage := ServingStage.t.

Definition kTrafficClassCount : nat := 12.
Definition kServingStageCount : nat := 13.

(** [static_cast<std::size_t>] of an enumerator. *)
Definition tc_index (c : TrafficClass) : nat := Z.to_nat (TrafficClass.value c).
Definition ss_index (s : ServingStage) : nat := Z.to_nat (ServingStage.value s).

(** ** Labels *)

Definition kTrafficLabels : list String.string :=
  ["UNKNOWN"; "REQUEST_INGRESS"; "PREFILL_INPUT"; "PREFILL_DECODE_HANDOFF";
   "KV_TRANSFER"; "STATE_TRANSFER"; "MODEL_TRANSFER"; "ADAPTER_TRANSFER";
   "DECODE_STREAM"; "SPECULATIVE_BRANCH"; "RESPONSE_EGRESS"; "CONTROL"]%string.

Definition kStageLabels : list String.string :=
  ["UNKNOWN"; "ADMITTED"; "ROUTING"; "PREFILL_QUEUED"; "PREFILL_RUNNING";
   "HANDOFF_PENDING"; "DECODE_QUEUED"; "DECODE_RUNNING"; "STREAMING"; "COMPLETING";
   "COMPLETED"; "CANCELLED"; "FAILED"]%string.

Definition traffic_label (value : TrafficClass) : String.string :=
  let index := tc_index value in
  if (index <? kTrafficClassCount)%nat then nth index kTrafficLabels "UNKNOWN"%string
  else "UNKNOWN"%string.

Definition stage_label (value : ServingStage) : String.string :=
  let index := ss_index value in
  if (index <? kServingStageCount)%nat then nth index kStageLabels "UNKNOWN"%string
  else "UNKNOWN"%string.

(** The scan of the label table; the result is the first index that matches. *)
Fixpoint label_scan (labels : list String.string) (index : nat) (text : String.string)
    : option nat :=
  match labels with
  | [] => None
  | l :: rest => if String.eqb l text then Some index else label_scan rest (S index) text
  end.

Definition traffic_class_from_label (text : String.string) : option TrafficClass :=
  match label_scan kTrafficLabels 0 text with
  | Some index => enum_of_code (Z.of_nat index)
  | None => None
  end.

Definition serving_stage_from_label (text : String.string) : option ServingStage :=
  match label_scan kStageLabels 0 text with
  | Some index => enum_of_code (Z.of_nat index)
  | None => None
  end.

(** ** Stage predicates and the stage machine *)

Definition stage_is_terminal (value : ServingStage) : bool :=
  (value ≟ ServingStage.Completed) || (value ≟ ServingStage.Cancelled)
  || (value ≟ ServingStage.Failed).

Definition is_prefill_stage (value : ServingStage) : bool :=
  (value ≟ ServingStage.PrefillQueued) || (value ≟ ServingStage.PrefillRunning).

Definition is_decode_stage (value : ServingStage) : bool :=
  (value ≟ ServingStage.DecodeQueued) || (value ≟ ServingStage.DecodeRunning)
  || (value ≟ ServingStage.Streaming).

Definition is_serving_active (value : ServingStage) : bool :=
  (value ≠? ServingStage.Unknown) && negb (stage_is_terminal value).

Definition is_legal_stage_transition (from to : ServingStage) : bool :=
  if to ≟ ServingStage.Unknown then false
  else if from ≟ to then true
  else if stage_is_terminal from then false
  else match from with
  | ServingStage.Unknown => to ≟ ServingStage.Admitted_
  | ServingStage.Admitted_ =>
      (to ≟ ServingStage.Routing) || (to ≟ ServingStage.PrefillQueued)
      || (to ≟ ServingStage.DecodeQueued) || (to ≟ ServingStage.Cancelled)
      || (to ≟ ServingStage.Failed)
  | ServingStage.Routing =>
      (to ≟ ServingStage.PrefillQueued) || (to ≟ ServingStage.DecodeQueued)
      || (to ≟ ServingStage.Cancelled) || (to ≟ ServingStage.Failed)
  | ServingStage.PrefillQueued =>
      (to ≟ ServingStage.PrefillRunning) || (to ≟ ServingStage.Cancelled)
      || (to ≟ ServingStage.Failed)
  | ServingStage.PrefillRunning =>
      (to ≟ ServingStage.HandoffPending) || (to ≟ ServingStage.DecodeQueued)
      || (to ≟ ServingStage.Cancelled) || (to ≟ ServingStage.Failed)
  | ServingStage.HandoffPending =>
      (to ≟ ServingStage.DecodeQueued) || (to ≟ ServingStage.DecodeRunning)
      || (to ≟ ServingStage.Cancelled) || (to ≟ ServingStage.Failed)
  | ServingStage.DecodeQueued =>
      (to ≟ ServingStage.DecodeRunning) || (to ≟ ServingStage.Cancelled)
      || (to ≟ ServingStage.Failed)
  | ServingStage.DecodeRunning =>
      (to ≟ ServingStage.Streaming) || (to ≟ ServingStage.Completing)
      || (to ≟ ServingStage.Cancelled) || (to ≟ ServingStage.Failed)
  | ServingStage.Streaming =>
      (to ≟ ServingStage.Completing) || (to ≟ ServingStage.Cancelled)
      || (to ≟ ServingStage.Failed)
  | ServingStage.Completing =>
      (to ≟ ServingStage.Completed) || (to ≟ ServingStage.Cancelled)
      || (to ≟ ServingStage.Failed)
  | ServingStage.Completed | ServingStage.Cancelled | ServingStage.Failed
  | ServingStage.Count => false
  end.

(** ** Classification *)

Definition canonical_class_for_stage (stage : ServingStage) : TrafficClass :=
  match stage with
  | ServingStage.Admitted_ | ServingStage.Routing => TrafficClass.RequestIngress
  | ServingStage.PrefillQueued | ServingStage.PrefillRunning => TrafficClass.PrefillInput
  | ServingStage.HandoffPending | ServingStage.DecodeQueued => TrafficClass.PrefillDecodeHandoff
  | ServingStage.DecodeRunning | ServingStage.Streaming => TrafficClass.DecodeStream
  | ServingStage.Completing => TrafficClass.ResponseEgress
  | ServingStage.Unknown | ServingStage.Completed | ServingStage.Cancelled
  | ServingStage.Failed | ServingStage.Count => TrafficClass.Unknown
  end.

Definition is_class_legal_for_stage (traffic : TrafficClass) (stage : ServingStage) : bool :=
  if traffic ≟ TrafficClass.Control then is_serving_active stage
  else match stage with
  | ServingStage.Admitted_ | ServingStage.Routing => traffic ≟ TrafficClass.RequestIngress
  | ServingStage.PrefillQueued | ServingStage.PrefillRunning =>
      traffic ≟ TrafficClass.PrefillInput
  | ServingStage.HandoffPending =>
      (traffic ≟ TrafficClass.PrefillDecodeHandoff) || (traffic ≟ TrafficClass.KvTransfer)
      || (traffic ≟ TrafficClass.StateTransfer)
  | ServingStage.DecodeQueued =>
      (traffic ≟ TrafficClass.PrefillDecodeHandoff) || (traffic ≟ TrafficClass.KvTransfer)
  | ServingStage.DecodeRunning =>
      (traffic ≟ TrafficClass.KvTransfer) || (traffic ≟ TrafficClass.DecodeStream)
      || (traffic ≟ TrafficClass.SpeculativeBranch)
  | ServingStage.Streaming =>
      (traffic ≟ TrafficClass.DecodeStream) || (traffic ≟ TrafficClass.SpeculativeBranch)
      || (traffic ≟ TrafficClass.ResponseEgress)
  | ServingStage.Completing => traffic ≟ TrafficClass.ResponseEgress
  | ServingStage.Unknown | ServingStage.Completed | ServingStage.Cancelled
  | ServingStage.Failed | ServingStage.Count => false
  end.

(** ** Subjects, bindings, requests and treatments *)

Record TrafficSubject := MkSubject {
  sub_kind : SubjectKind.t;
  sub_request : RequestId;
  sub_attempt : AttemptId;
  sub_request_generation : Z;
  sub_transfer : StateTransferId;
}.

Definition empty_subject : TrafficSubject := MkSubject SubjectKind.Unknown nil_id nil_id 0 nil_id.

Definition subject_is_valid (s : TrafficSubject) : bool :=
  match sub_kind s with
  | SubjectKind.Serving =>
      negb (is_nil (sub_request s)) && negb (is_nil (sub_attempt s))
      && negb (is_unset (sub_request_generation s))
  | SubjectKind.Transfer => negb (is_nil (sub_transfer s))
  | SubjectKind.Unknown | SubjectKind.Count => false
  end.

Record GenerationBinding := MkBinding {
  gb_request_generation : option Z;
  gb_model_generation : option Z;
  gb_state_generation : option Z;
  gb_route_decision : option Z;
  gb_slo_contract : option Z;
  gb_topology : option Z;
  gb_policy : option Z;
  gb_coordinator_epoch : option Z;
}.

Definition empty_binding : GenerationBinding :=
  MkBinding None None None None None None None None.

Record TrafficRequest := MkTrafficRequest {
  tr_subject : option TrafficSubject;
  tr_declared_class : TrafficClass;
  tr_declared_stage : ServingStage;
  tr_direction : FlowDirection.t;
  tr_priority_hint : PriorityHint.t;
  tr_payload_bytes : Z;
  tr_observed_bytes : Z;
  tr_token_count : Z;
  tr_chunk_index : Z;
  tr_total_chunks : Z;
  tr_tenant_hash : Z;
  tr_model_hash : Z;
  tr_adapter_hash : Z;
  tr_deadline : Z;
  tr_deadline_after_nanos : Z;
  tr_binding : GenerationBinding;
}.

#[export] Instance tr_eta : Eta TrafficRequest := fun r =>
  MkTrafficRequest (tr_subject r) (tr_declared_class r) (tr_declared_stage r) (tr_direction r)
    (tr_priority_hint r) (tr_payload_bytes r) (tr_observed_bytes r) (tr_token_count r)
    (tr_chunk_index r) (tr_total_chunks r) (tr_tenant_hash r) (tr_model_hash r)
    (tr_adapter_hash r) (tr_deadline r) (tr_deadline_after_nanos r) (tr_binding r).
#[export] Instance tr_set_subject : Setter tr_subject. Proof. mk_setter. Defined.
#[export] Instance tr_set_declared_class : Setter tr_declared_class. Proof. mk_setter. Defined.
#[export] Instance tr_set_declared_stage : Setter tr_declared_stage. Proof. mk_setter. Defined.
#[export] Instance tr_set_direction : Setter tr_direction. Proof. mk_setter. Defined.
#[export] Instance tr_set_priority_hint : Setter tr_priority_hint. Proof. mk_setter. Defined.
#[export] Instance tr_set_payload_bytes : Setter tr_payload_bytes. Proof. mk_setter. Defined.
#[export] Instance tr_set_chunk_index : Setter tr_chunk_index. Proof. mk_setter. Defined.
#[export] Instance tr_set_total_chunks : Setter tr_total_chunks. Proof. mk_setter. Defined.
#[export] Instance tr_set_deadline : Setter tr_deadline. Proof. mk_setter. Defined.
#[export] Instance tr_set_deadline_after_nanos : Setter tr_deadline_after_nanos. Proof. mk_setter. Defined.
#[export] Instance tr_set_binding : Setter tr_binding. Proof. mk_setter. Defined.

(** A request with every field at its default member initialiser. *)
Definition empty_request : TrafficRequest :=
  MkTrafficRequest None TrafficClass.Unknown ServingStage.Unknown FlowDirection.Unknown
    PriorityHint.None 0 0 0 0 0 0 0 0 kUnset 0 empty_binding.

Definition structurally_valid (r : TrafficRequest) : bool :=
  if match tr_subject r with Some s => negb (subject_is_valid s) | None => false end then false
  else if match tr_subject r with Some _ => false | None => true end
          && (tr_declared_class r ≠? TrafficClass.ModelTransfer)
          && (tr_declared_class r ≠? TrafficClass.AdapterTransfer)
          && (tr_declared_class r ≠? TrafficClass.Control) then false
  else if TrafficClass.value TrafficClass.Count <=? TrafficClass.value (tr_declared_class r)
       then false
  else if ServingStage.value ServingStage.Count <=? ServingStage.value (tr_declared_stage r)
       then false
  else if FlowDirection.value FlowDirection.Count <=? FlowDirection.value (tr_direction r)
       then false
  else if PriorityHint.value PriorityHint.Count <=? PriorityHint.value (tr_priority_hint r)
       then false
  else if (tr_total_chunks r ≠? 0) && (tr_total_chunks r <=? tr_chunk_index r) then false
  else if Instant_is_set (tr_deadline r) && (tr_deadline_after_nanos r ≠? 0) then false
  else true.

Record TrafficTreatment := MkTreatment {
  tt_traffic_class : TrafficClass;
  tt_priority : PriorityClass.t;
  tt_pacing : PacingClass.t;
  tt_integrity : IntegrityClass.t;
  tt_isolation : IsolationDomain.t;
  tt_reserved_weight : Z;
  tt_max_burst_bytes : Z;
  tt_rate_limit_bytes_per_sec : Z;
  tt_flow : FlowId;
  tt_hold_until : Z;
  tt_defer_count : Z;
}.

#[export] Instance tt_eta : Eta TrafficTreatment := fun r =>
  MkTreatment (tt_traffic_class r) (tt_priority r) (tt_pacing r) (tt_integrity r) (tt_isolation r)
    (tt_reserved_weight r) (tt_max_burst_bytes r) (tt_rate_limit_bytes_per_sec r)
    (tt_flow r) (tt_hold_until r) (tt_defer_count r).
#[export] Instance tt_set_traffic_class : Setter tt_traffic_class. Proof. mk_setter. Defined.
#[export] Instance tt_set_priority : Setter tt_priority. Proof. mk_setter. Defined.
#[export] Instance tt_set_pacing : Setter tt_pacing. Proof. mk_setter. Defined.
#[export] Instance tt_set_integrity : Setter tt_integrity. Proof. mk_setter. Defined.
#[export] Instance tt_set_isolation : Setter tt_isolation. Proof. mk_setter. Defined.
#[export] Instance tt_set_reserved_weight : Setter tt_reserved_weight. Proof. mk_setter. Defined.
#[export] Instance tt_set_max_burst_bytes : Setter tt_max_burst_bytes. Proof. mk_setter. Defined.
#[export] Instance tt_set_rate_limit_bytes_per_sec : Setter tt_rate_limit_bytes_per_sec. Proof. mk_setter. Defined.
#[export] Instance tt_set_flow : Setter tt_flow. Proof. mk_setter. Defined.
#[export] Instance tt_set_hold_until : Setter tt_hold_until. Proof. mk_setter. Defined.
#[export] Instance tt_set_defer_count : Setter tt_defer_count. Proof. mk_setter. Defined.

Definition empty_treatment : TrafficTreatment :=
  MkTreatment TrafficClass.Unknown PriorityClass.Unknown PacingClass.Unknown
    IntegrityClass.Unknown IsolationDomain.Unknown 0 0 0 nil_id kUnset 0.

(** ** Lemmas and properties *)

(** The position of a stage in the serving pipeline. *)
Definition stage_rank (s : ServingStage) : nat :=
  match s with
  | ServingStage.Unknown => 0 | ServingStage.Admitted_ => 1 | ServingStage.Routing => 2
  | ServingStage.PrefillQueued => 3 | ServingStage.PrefillRunning => 4
  | ServingStage.HandoffPending => 5 | ServingStage.DecodeQueued => 6
  | ServingStage.DecodeRunning => 7 | ServingStage.Streaming => 8
  | ServingStage.Completing => 9 | ServingStage.Completed => 10
  | ServingStage.Cancelled => 10 | ServingStage.Failed => 10 | ServingStage.Count => 0
  end%nat.

Lemma legal_transition_rank from to :
  is_legal_stage_transition from to = true → from ≠ to → (stage_rank from < stage_rank to)%nat.
Proof. destruct from, to; vm_compute; intros; try discriminate; try congruence; lia. Qed.

Lemma legal_transition_not_unknown from to :
  is_legal_stage_transition from to = true → to ≠ ServingStage.Unknown.
Proof. intros H ->. by destruct from. Qed.

(** Along any path of legal stage transitions the rank of the serving stage never
    decreases, equal ranks mean the same stage, and a terminal stage is never left, so
    that no path returns to an earlier stage. *)
Theorem stage_path_monotone (path : list ServingStage) (first : ServingStage) :
  (∀ i a b, (first :: path) !! i = Some a → (first :: path) !! S i = Some b →
     is_legal_stage_transition a b = true) →
  ∀ i j a b, (i ≤ j)%nat → (first :: path) !! i = Some a → (first :: path) !! j = Some b →
    (stage_rank a ≤ stage_rank b)%nat ∧ (stage_rank a = stage_rank b → a = b)
    ∧ (stage_is_terminal a = true → a = b).
Proof.
  intros Hstep i j a b Hij. revert b.
  induction Hij as [|j Hij IH]; intros b Ha Hb.
  { assert (a = b) as -> by congruence. done. }
  destruct ((first :: path) !! j) as [c|] eqn:Hc.
  2:{ apply lookup_ge_None in Hc. apply lookup_lt_Some in Hb. lia. }
  destruct (IH c Ha eq_refl) as (IH1 & IH2 & IH3).
  pose proof (Hstep j c b Hc Hb) as Hl.
  destruct (decide (c = b)) as [->|Hne]; [done|].
  pose proof (legal_transition_rank _ _ Hl Hne) as Hr.
  split_and!; [lia|lia|]. intros Ht. specialize (IH3 Ht). subst c.
  exfalso. clear -Ht Hl Hne. destruct a; try discriminate Ht; destruct b; try discriminate Hl; by apply Hne.
Qed.

(** Every active serving stage has a canonical traffic class, which is known and
    legal for that stage, so that rederiving a class always gives a legal one. *)
Theorem classification_complete stage :
  is_serving_active stage = true → stage ≠ ServingStage.Count →
  is_class_legal_for_stage (canonical_class_for_stage stage) stage = true
  ∧ canonical_class_for_stage stage ≠ TrafficClass.Unknown.
Proof. destruct stage; intros H N; try discriminate H; try (by destruct N); split; first [reflexivity | discriminate]. Qed.

(** Parsing the label of a traffic class or a serving stage gives that class or
    stage back. *)
Theorem label_round_trip :
  (∀ c, c ≠ TrafficClass.Count → traffic_class_from_label (traffic_label c) = Some c)
  ∧ (∀ s, s ≠ ServingStage.Count → serving_stage_from_label (stage_label s) = Some s).
Proof. split; intros [] H; first [reflexivity | by destruct H]. Qed.
