(* ===== verification/Decision.v ===== *)
(** * Decisions, reasons, explanations, authority stamps and evidence

    Models include/itf/decision.hpp, src/decision.cpp, include/itf/authority.hpp,
    src/authority.cpp, include/itf/evidence.hpp and src/evidence.cpp. The fixed
    explanation array of a decision is the list of the steps it holds; the
    [explanation_count] of the source is its length. *)

From S2P Require Import Prelude Ids Traffic.
From Stdlib Require Import String.

(** ** Enumerations *)

Module DecisionOutcome.
Inductive t : Type :=
| Unknown | Allowed | Degraded | Deferred | Rejected | Count.

Definition value (x : t) : Z :=
  match x with
  | Unknown => 0 | Allowed => 1 | Degraded => 2 | Deferred => 3 | Rejected => 4
  | Count => 5
  end.

Definition to_string (x : t) : String.string :=
  match x with
  | Unknown => "UNKNOWN" | Allowed => "ALLOWED" | Degraded => "DEGRADED"
  | Deferred => "DEFERRED" | Rejected => "REJECTED" | Count => "COUNT"
  end%string.

Definition all : list t :=
  [Unknown; Allowed; Degraded; Deferred; Rejected; Count].
End DecisionOutcome.

#[global] Instance DecisionOutcome_enum : Enum DecisionOutcome.t.
Proof. refine {| enum_code := DecisionOutcome.value; enum_all := DecisionOutcome.all |}; solve_enum. Defined.

#[global] Instance DecisionOutcome_eq_dec : EqDecision DecisionOutcome.t := enum_eq_dec.

Module ReasonCode.
Inductive t : Type :=
| Unknown | Admitted_ | AdmittedStarvationGuard | AdmittedConservative
| DegradedStageClaimOverridden | DegradedClassRederived | DegradedStaleTopology
| DegradedMissingSloContract | DegradedIntegrityRaised | DegradedPriorityLowered
| DeferredCapacity | DeferredCongestion | DeferredBulkYield | DeferredBulkCapacity
| DeferredBulkConcurrency | RejectedUnknownRequest | RejectedUnknownAttempt
| RejectedRequestCancelled | RejectedRequestTerminal | RejectedStaleAttempt
| RejectedStaleRequestGeneration | RejectedStaleRouteDecision
| RejectedStaleModelGeneration | RejectedStaleStateGeneration
| RejectedStaleSloContract | RejectedStaleTopologyGeneration
| RejectedStalePolicyGeneration | RejectedStaleEpoch | RejectedStaleAuthority
| RejectedUnknownStage | RejectedUnknownClass | RejectedClassNotLegalForStage
| RejectedClassDisabled | RejectedSubjectKindMismatch | RejectedUnknownTransfer
| RejectedEvidenceUnknown | RejectedEvidenceStale | RejectedRevalidationRequired
| RejectedDeadlineExpired | RejectedCapacityExhausted | RejectedFlowLimit
| RejectedNotAuthorized | RejectedIntegrityUnavailable | RejectedDuplicateCompletion
| RejectedTransferAlreadyTerminal | CommittedCompletion | DuplicateCompletionSuppressed
| AttemptFailed | AttemptSuperseded | Cancelled | Count.

Definition value (x : t) : Z :=
  match x with
  | Unknown => 0 | Admitted_ => 1 | AdmittedStarvationGuard => 2
  | AdmittedConservative => 3 | DegradedStageClaimOverridden => 4
  | DegradedClassRederived => 5 | DegradedStaleTopology => 6
  | DegradedMissingSloContract => 7 | DegradedIntegrityRaised => 8
  | DegradedPriorityLowered => 9 | DeferredCapacity => 10 | DeferredCongestion => 11
  | DeferredBulkYield => 12 | DeferredBulkCapacity => 13 | DeferredBulkConcurrency => 14
  | RejectedUnknownRequest => 15 | RejectedUnknownAttempt => 16
  | RejectedRequestCancelled => 17 | RejectedRequestTerminal => 18
  | RejectedStaleAttempt => 19 | RejectedStaleRequestGeneration => 20
  | RejectedStaleRouteDecision => 21 | RejectedStaleModelGeneration => 22
  | RejectedStaleStateGeneration => 23 | RejectedStaleSloContract => 24
  | RejectedStaleTopologyGeneration => 25 | RejectedStalePolicyGeneration => 26
  | RejectedStaleEpoch => 27 | RejectedStaleAuthority => 28 | RejectedUnknownStage => 29
  | RejectedUnknownClass => 30 | RejectedClassNotLegalForStage => 31
  | RejectedClassDisabled => 32 | RejectedSubjectKindMismatch => 33
  | RejectedUnknownTransfer => 34 | RejectedEvidenceUnknown => 35
  | RejectedEvidenceStale => 36 | RejectedRevalidationRequired => 37
  | RejectedDeadlineExpired => 38 | RejectedCapacityExhausted => 39
  | RejectedFlowLimit => 40 | RejectedNotAuthorized => 41
  | RejectedIntegrityUnavailable => 42 | RejectedDuplicateCompletion => 43
  | RejectedTransferAlreadyTerminal => 44 | CommittedCompletion => 45
  | DuplicateCompletionSuppressed => 46 | AttemptFailed => 47 | AttemptSuperseded => 48
  | Cancelled => 49 | Count => 50
  end.

Definition to_string (x : t) : String.string :=
  match x with
  | Unknown => "UNKNOWN" | Admitted_ => "ADMITTED"
  | AdmittedStarvationGuard => "ADMITTED_STARVATION_GUARD"
  | AdmittedConservative => "ADMITTED_CONSERVATIVE"
  | DegradedStageClaimOverridden => "DEGRADED_STAGE_CLAIM_OVERRIDDEN"
  | DegradedClassRederived => "DEGRADED_CLASS_REDERIVED"
  | DegradedStaleTopology => "DEGRADED_STALE_TOPOLOGY"
  | DegradedMissingSloContract => "DEGRADED_MISSING_SLO_CONTRACT"
  | DegradedIntegrityRaised => "DEGRADED_INTEGRITY_RAISED"
  | DegradedPriorityLowered => "DEGRADED_PRIORITY_LOWERED"
  | DeferredCapacity => "DEFERRED_CAPACITY" | DeferredCongestion => "DEFERRED_CONGESTION"
  | DeferredBulkYield => "DEFERRED_BULK_YIELD"
  | DeferredBulkCapacity => "DEFERRED_BULK_CAPACITY"
  | DeferredBulkConcurrency => "DEFERRED_BULK_CONCURRENCY"
  | RejectedUnknownRequest => "REJECTED_UNKNOWN_REQUEST"
  | RejectedUnknownAttempt => "REJECTED_UNKNOWN_ATTEMPT"
  | RejectedRequestCancelled => "REJECTED_REQUEST_CANCELLED"
  | RejectedRequestTerminal => "REJECTED_REQUEST_TERMINAL"
  | RejectedStaleAttempt => "REJECTED_STALE_ATTEMPT"
  | RejectedStaleRequestGeneration => "REJECTED_STALE_REQUEST_GENERATION"
  | RejectedStaleRouteDecision => "REJECTED_STALE_ROUTE_DECISION"
  | RejectedStaleModelGeneration => "REJECTED_STALE_MODEL_GENERATION"
  | RejectedStaleStateGeneration => "REJECTED_STALE_STATE_GENERATION"
  | RejectedStaleSloContract => "REJECTED_STALE_SLO_CONTRACT"
  | RejectedStaleTopologyGeneration => "REJECTED_STALE_TOPOLOGY_GENERATION"
  | RejectedStalePolicyGeneration => "REJECTED_STALE_POLICY_GENERATION"
  | RejectedStaleEpoch => "REJECTED_STALE_EPOCH"
  | RejectedStaleAuthority => "REJECTED_STALE_AUTHORITY"
  | RejectedUnknownStage => "REJECTED_UNKNOWN_STAGE"
  | RejectedUnknownClass => "REJECTED_UNKNOWN_CLASS"
  | RejectedClassNotLegalForStage => "REJECTED_CLASS_NOT_LEGAL_FOR_STAGE"
  | RejectedClassDisabled => "REJECTED_CLASS_DISABLED"
  | RejectedSubjectKindMismatch => "REJECTED_SUBJECT_KIND_MISMATCH"
  | RejectedUnknownTransfer => "REJECTED_UNKNOWN_TRANSFER"
  | RejectedEvidenceUnknown => "REJECTED_EVIDENCE_UNKNOWN"
  | RejectedEvidenceStale => "REJECTED_EVIDENCE_STALE"
  | RejectedRevalidationRequired => "REJECTED_REVALIDATION_REQUIRED"
  | RejectedDeadlineExpired => "REJECTED_DEADLINE_EXPIRED"
  | RejectedCapacityExhausted => "REJECTED_CAPACITY_EXHAUSTED"
  | RejectedFlowLimit => "REJECTED_FLOW_LIMIT"
  | RejectedNotAuthorized => "REJECTED_NOT_AUTHORIZED"
  | RejectedIntegrityUnavailable => "REJECTED_INTEGRITY_UNAVAILABLE"
  | RejectedDuplicateCompletion => "REJECTED_DUPLICATE_COMPLETION"
  | RejectedTransferAlreadyTerminal => "REJECTED_TRANSFER_ALREADY_TERMINAL"
  | CommittedCompletion => "COMMITTED_COMPLETION"
  | DuplicateCompletionSuppressed => "DUPLICATE_COMPLETION_SUPPRESSED"
  | AttemptFailed => "ATTEMPT_FAILED" | AttemptSuperseded => "ATTEMPT_SUPERSEDED"
  | Cancelled => "CANCELLED" | Count => "COUNT"
  end%string.

Definition all : list t :=
  [Unknown; Admitted_; AdmittedStarvationGuard; AdmittedConservative;
   DegradedStageClaimOverridden; DegradedClassRederived; DegradedStaleTopology;
   DegradedMissingSloContract; DegradedIntegrityRaised; DegradedPriorityLowered;
   DeferredCapacity; DeferredCongestion; DeferredBulkYield; DeferredBulkCapacity;
   DeferredBulkConcurrency; RejectedUnknownRequest; RejectedUnknownAttempt;
   RejectedRequestCancelled; RejectedRequestTerminal; RejectedStaleAttempt;
   RejectedStaleRequestGeneration; RejectedStaleRouteDecision;
   RejectedStaleModelGeneration; RejectedStaleStateGeneration;
   RejectedStaleSloContract; RejectedStaleTopologyGeneration;
   RejectedStalePolicyGeneration; RejectedStaleEpoch; RejectedStaleAuthority;
   RejectedUnknownStage; RejectedUnknownClass; RejectedClassNotLegalForStage;
   RejectedClassDisabled; RejectedSubjectKindMismatch; RejectedUnknownTransfer;
   RejectedEvidenceUnknown; RejectedEvidenceStale; RejectedRevalidationRequired;
   RejectedDeadlineExpired; RejectedCapacityExhausted; RejectedFlowLimit;
   RejectedNotAuthorized; RejectedIntegrityUnavailable; RejectedDuplicateCompletion;
   RejectedTransferAlreadyTerminal; CommittedCompletion; DuplicateCompletionSuppressed;
   AttemptFailed; AttemptSuperseded; Cancelled; Count].
End ReasonCode.

#[global] Instance ReasonCode_enum : Enum ReasonCode.t.
Proof. refine {| enum_code := ReasonCode.value; enum_all := ReasonCode.all |}; solve_enum. Defined.

#[global] Instance ReasonCode_eq_dec : EqDecision ReasonCode.t := enum_eq_dec.

Module ExplanationRule.
Inductive t : Type :=
| Unknown | AuthorityBinding | RequestLookup | StageResolution | ClassClassification
| PolicyRule | TopologyEvidence | SloContract | RouteDecision | ModelGeneration
| StateGeneration | Capacity | Congestion | BulkIsolation | StarvationGuard | Deadline
| DeferState | FlowAccounting | TerminalState | TransferBinding | Count.

Definition value (x : t) : Z :=
  match x with
  | Unknown => 0 | AuthorityBinding => 1 | RequestLookup => 2 | StageResolution => 3
  | ClassClassification => 4 | PolicyRule => 5 | TopologyEvidence => 6 | SloContract => 7
  | RouteDecision => 8 | ModelGeneration => 9 | StateGeneration => 10 | Capacity => 11
  | Congestion => 12 | BulkIsolation => 13 | StarvationGuard => 14 | Deadline => 15
  | DeferState => 16 | FlowAccounting => 17 | TerminalState => 18 | TransferBinding => 19
  | Count => 20
  end.

Definition to_string (x : t) : String.string :=
  match x with
  | Unknown => "UNKNOWN" | AuthorityBinding => "AUTHORITY_BINDING"
  | RequestLookup => "REQUEST_LOOKUP" | StageResolution => "STAGE_RESOLUTION"
  | ClassClassification => "CLASS_CLASSIFICATION" | PolicyRule => "POLICY_RULE"
  | TopologyEvidence => "TOPOLOGY_EVIDENCE" | SloContract => "SLO_CONTRACT"
  | RouteDecision => "ROUTE_DECISION" | ModelGeneration => "MODEL_GENERATION"
  | StateGeneration => "STATE_GENERATION" | Capacity => "CAPACITY"
  | Congestion => "CONGESTION" | BulkIsolation => "BULK_ISOLATION"
  | StarvationGuard => "STARVATION_GUARD" | Deadline => "DEADLINE"
  | DeferState => "DEFER_STATE" | FlowAccounting => "FLOW_ACCOUNTING"
  | TerminalState => "TERMINAL_STATE" | TransferBinding => "TRANSFER_BINDING"
  | Count => "COUNT"
  end%string.

Definition all : list t :=
  [Unknown; AuthorityBinding; RequestLookup; StageResolution; ClassClassification;
   PolicyRule; TopologyEvidence; SloContract; RouteDecision; ModelGeneration;
   StateGeneration; Capacity; Congestion; BulkIsolation; StarvationGuard; Deadline;
   DeferState; FlowAccounting; TerminalState; TransferBinding; Count].
End ExplanationRule.

#[global] Instance ExplanationRule_enum : Enum ExplanationRule.t.
Proof. refine {| enum_code := ExplanationRule.value; enum_all := ExplanationRule.all |}; solve_enum. Defined.

#[global] Instance ExplanationRule_eq_dec : EqDecision ExplanationRule.t := enum_eq_dec.

Module AuthorityVerdict.
Inductive t : Type :=
| Unknown | Current | StaleEpoch | StalePolicy | StaleIncarnation | Absent | Count.

Definition value (x : t) : Z :=
  match x with
  | Unknown => 0 | Current => 1 | StaleEpoch => 2 | StalePolicy => 3
  | StaleIncarnation => 4 | Absent => 5 | Count => 6
  end.

Definition to_string (x : t) : String.string :=
  match x with
  | Unknown => "UNKNOWN" | Current => "CURRENT" | StaleEpoch => "STALE_EPOCH"
  | StalePolicy => "STALE_POLICY" | StaleIncarnation => "STALE_INCARNATION"
  | Absent => "ABSENT" | Count => "COUNT"
  end%string.

Definition all : list t :=
  [Unknown; Current; StaleEpoch; StalePolicy; StaleIncarnation; Absent; Count].
End AuthorityVerdict.

#[global] Instance AuthorityVerdict_enum : Enum AuthorityVerdict.t.
Proof. refine {| enum_code := AuthorityVerdict.value; enum_all := AuthorityVerdict.all |}; solve_enum. Defined.

#[global] Instance AuthorityVerdict_eq_dec : EqDecision AuthorityVerdict.t := enum_eq_dec.

Module EvidenceState.
Inductive t : Type :=
| Unknown | Current | Stale | RevalidationRequired | Count.

Definition value (x : t) : Z :=
  match x with
  | Unknown => 0 | Current => 1 | Stale => 2 | RevalidationRequired => 3 | Count => 4
  end.

Definition to_string (x : t) : String.string :=
  match x with
  | Unknown => "UNKNOWN" | Current => "CURRENT" | Stale => "STALE"
  | RevalidationRequired => "REVALIDATION_REQUIRED" | Count => "COUNT"
  end%string.

Definition all : list t :=
  [Unknown; Current; Stale; RevalidationRequired; Count].
End EvidenceState.

#[global] Instance EvidenceState_enum : Enum EvidenceState.t.
Proof. refine {| enum_code := EvidenceState.value; enum_all := EvidenceState.all |}; solve_enum. Defined.

#[global] Instance EvidenceState_eq_dec : EqDecision EvidenceState.t := enum_eq_dec.

Module EvidenceProvenance.
Inductive t : Type :=
| Unknown | Synthetic | Measured | Count.

Definition value (x : t) : Z :=
  match x with
  | Unknown => 0 | Synthetic => 1 | Measured => 2 | Count => 3
  end.

Definition to_string (x : t) : String.string :=
  match x with
  | Unknown => "UNKNOWN" | Synthetic => "SYNTHETIC" | Measured => "MEASURED"
  | Count => "COUNT"
  end%string.

Definition all : list t :=
  [Unknown; Synthetic; Measured; Count].
End EvidenceProvenance.

#[global] Instance EvidenceProvenance_enum : Enum EvidenceProvenance.t.
Proof. refine {| enum_code := EvidenceProvenance.value; enum_all := EvidenceProvenance.all |}; solve_enum. Defined.

#[global] Instance EvidenceProvenance_eq_dec : EqDecision EvidenceProvenance.t := enum_eq_dec.

Abbreviation DecisionOutcome := DecisionOutcome.t.
Abbreviation ReasonCode := ReasonCode.t.

(** ** Reason families *)

Definition is_rejection (value : ReasonCode) : bool :=
  (ReasonCode.value ReasonCode.RejectedUnknownRequest <=? ReasonCode.value value)
  && (ReasonCode.value value <=? ReasonCode.value ReasonCode.RejectedTransferAlreadyTerminal).

Definition is_deferral (value : ReasonCode) : bool :=
  (ReasonCode.value ReasonCode.DeferredCapacity <=? ReasonCode.value value)
  && (ReasonCode.value value <=? ReasonCode.value ReasonCode.DeferredBulkConcurrency).

Definition is_admission (value : ReasonCode) : bool :=
  (value ≟ ReasonCode.Admitted_) || (value ≟ ReasonCode.AdmittedStarvationGuard)
  || (value ≟ ReasonCode.AdmittedConservative)
  || (value ≟ ReasonCode.DegradedStageClaimOverridden)
  || (value ≟ ReasonCode.DegradedClassRederived)
  || (value ≟ ReasonCode.DegradedStaleTopology)
  || (value ≟ ReasonCode.DegradedMissingSloContract)
  || (value ≟ ReasonCode.DegradedIntegrityRaised)
  || (value ≟ ReasonCode.DegradedPriorityLowered).

(** ** Explanation log: at most [kMaxExplanationSteps] steps, later ones dropped *)

Definition kMaxExplanationSteps : nat := 24.

Record ExplanationStep := MkStep {
  step_rule : ExplanationRule.t;
  step_value : Z;
  step_secondary : Z;
}.

Definition log_add (rule : ExplanationRule.t) (value secondary : Z)
    (log : list ExplanationStep) : list ExplanationStep :=
  if (kMaxExplanationSteps <=? List.length log)%nat then log
  else log ++ [MkStep rule value secondary].

(** ** Authority stamps *)

Record AuthorityStamp := MkStamp {
  st_epoch : Z;
  st_incarnation : BootId;
  st_policy : Z;
  st_sequence : Z;
}.

Definition empty_stamp : AuthorityStamp := MkStamp 0 nil_id 0 0.

Definition stamp_is_valid (s : AuthorityStamp) : bool :=
  negb (is_unset (st_epoch s)) && negb (is_nil (st_incarnation s))
  && negb (is_unset (st_policy s)) && negb (is_unset (st_sequence s)).

Definition same_incarnation (a b : AuthorityStamp) : bool :=
  (st_epoch a ≟ st_epoch b) && (st_incarnation a ≟ st_incarnation b).

Definition validate_authority (stamp : AuthorityStamp) (current_epoch : Z)
    (current_incarnation : BootId) (current_policy : Z) : AuthorityVerdict.t :=
  if is_unset (st_epoch stamp) || is_nil (st_incarnation stamp) then AuthorityVerdict.Absent
  else if st_epoch stamp ≠? current_epoch then AuthorityVerdict.StaleEpoch
  else if st_incarnation stamp ≠? current_incarnation then AuthorityVerdict.StaleIncarnation
  else if st_policy stamp ≠? current_policy then AuthorityVerdict.StalePolicy
  else if is_unset (st_sequence stamp) then AuthorityVerdict.Absent
  else AuthorityVerdict.Current.

(** ** Decisions *)

Record Decision := MkDecision {
  dec_outcome : DecisionOutcome;
  dec_reason : ReasonCode;
  dec_treatment : TrafficTreatment;
  dec_subject : TrafficSubject;
  dec_binding : GenerationBinding;
  dec_authority : AuthorityStamp;
  dec_defer_hint_nanos : Z;
  dec_explanation : list ExplanationStep;
}.

#[export] Instance dec_eta : Eta Decision := fun r =>
  MkDecision (dec_outcome r) (dec_reason r) (dec_treatment r) (dec_subject r) (dec_binding r)
    (dec_authority r) (dec_defer_hint_nanos r) (dec_explanation r).
#[export] Instance dec_set_treatment : Setter dec_treatment. Proof. mk_setter. Defined.
#[export] Instance dec_set_defer_hint_nanos : Setter dec_defer_hint_nanos. Proof. mk_setter. Defined.

Definition permits_traffic (d : Decision) : bool :=
  (dec_outcome d ≟ DecisionOutcome.Allowed) || (dec_outcome d ≟ DecisionOutcome.Degraded).

Definition is_authority_denial (d : Decision) : bool :=
  if dec_outcome d ≠? DecisionOutcome.Rejected then false
  else match dec_reason d with
  | ReasonCode.RejectedUnknownRequest | ReasonCode.RejectedUnknownAttempt
  | ReasonCode.RejectedRequestCancelled | ReasonCode.RejectedRequestTerminal
  | ReasonCode.RejectedStaleAttempt | ReasonCode.RejectedStaleRequestGeneration
  | ReasonCode.RejectedStaleRouteDecision | ReasonCode.RejectedStaleModelGeneration
  | ReasonCode.RejectedStaleStateGeneration | ReasonCode.RejectedStaleSloContract
  | ReasonCode.RejectedStaleTopologyGeneration | ReasonCode.RejectedStalePolicyGeneration
  | ReasonCode.RejectedStaleEpoch | ReasonCode.RejectedStaleAuthority
  | ReasonCode.RejectedNotAuthorized | ReasonCode.RejectedRevalidationRequired
  | ReasonCode.RejectedUnknownTransfer => true
  | _ => false
  end.

(** ** Evidence *)

Record TopologyEvidence := MkTopology {
  te_generation : Z;
  te_provenance : EvidenceProvenance.t;
  te_observed_boot : BootId;
  te_observed_at_nanos : Z;
  te_max_age_nanos : Z;
  te_node_count : Z;
  te_accelerator_count : Z;
  te_link_count : Z;
  te_fabric_bytes_per_sec : Z;
  te_queue_depth : Z;
  te_congestion_signalled : bool;
  te_disaggregated : bool;
}.

#[export] Instance te_eta : Eta TopologyEvidence := fun r =>
  MkTopology (te_generation r) (te_provenance r) (te_observed_boot r) (te_observed_at_nanos r)
    (te_max_age_nanos r) (te_node_count r) (te_accelerator_count r) (te_link_count r)
    (te_fabric_bytes_per_sec r) (te_queue_depth r) (te_congestion_signalled r)
    (te_disaggregated r).
#[export] Instance te_set_generation : Setter te_generation. Proof. mk_setter. Defined.
#[export] Instance te_set_observed_boot : Setter te_observed_boot. Proof. mk_setter. Defined.
#[export] Instance te_set_observed_at_nanos : Setter te_observed_at_nanos. Proof. mk_setter. Defined.
#[export] Instance te_set_max_age_nanos : Setter te_max_age_nanos. Proof. mk_setter. Defined.
#[export] Instance te_set_queue_depth : Setter te_queue_depth. Proof. mk_setter. Defined.
#[export] Instance te_set_congestion_signalled : Setter te_congestion_signalled. Proof. mk_setter. Defined.

Definition empty_topology : TopologyEvidence :=
  MkTopology 0 EvidenceProvenance.Unknown nil_id 0 0 0 0 0 0 0 false false.

(** The products are 32-bit: [node_count * node_count] wraps. *)
Definition topology_is_valid (e : TopologyEvidence) : bool :=
  if te_provenance e ≟ EvidenceProvenance.Unknown then false
  else if te_node_count e ≟ 0 then false
  else if te_link_count e >? mul32 (te_node_count e) (te_node_count e) then false
  else if te_accelerator_count e >? mul32 (te_node_count e) 64 then false
  else true.

Definition topology_is_authoritative (e : TopologyEvidence) : bool :=
  topology_is_valid e && negb (is_unset (te_generation e)) && negb (is_nil (te_observed_boot e)).

Record SloContract := MkSlo {
  slo_generation : Z;
  slo_request : RequestId;
  slo_tail_latency_budget_nanos : Z;
  slo_registration_deadline_nanos : Z;
  slo_min_stream_share_per_mille : Z;
}.

Definition slo_is_valid (c : SloContract) : bool :=
  negb (is_unset (slo_generation c)) && negb (is_nil (slo_request c))
  && (slo_tail_latency_budget_nanos c >? 0) && (slo_min_stream_share_per_mille c <=? 1000).

Record RouteDecision := MkRoute {
  rd_generation : Z;
  rd_request : RequestId;
  rd_attempt : AttemptId;
  rd_target_node : Z;
  rd_lateral : bool;
  rd_disaggregated_handoff : bool;
}.

Definition route_is_valid (d : RouteDecision) : bool :=
  negb (is_unset (rd_generation d)) && negb (is_nil (rd_request d)) && negb (is_nil (rd_attempt d)).

Record ModelState := MkModel {
  ms_model_hash : Z;
  ms_generation : Z;
  ms_requires_revalidation : bool;
}.

#[export] Instance ms_eta : Eta ModelState := fun r =>
  MkModel (ms_model_hash r) (ms_generation r) (ms_requires_revalidation r).
#[export] Instance ms_set_requires_revalidation : Setter ms_requires_revalidation. Proof. mk_setter. Defined.

Definition model_is_valid (m : ModelState) : bool :=
  (ms_model_hash m ≠? 0) && negb (is_unset (ms_generation m)).

Record StateGenerationRecord := MkStateGen {
  sg_state_hash : Z;
  sg_generation : Z;
  sg_requires_revalidation : bool;
}.

#[export] Instance sg_eta : Eta StateGenerationRecord := fun r =>
  MkStateGen (sg_state_hash r) (sg_generation r) (sg_requires_revalidation r).
#[export] Instance sg_set_requires_revalidation : Setter sg_requires_revalidation. Proof. mk_setter. Defined.

Definition state_is_valid (m : StateGenerationRecord) : bool :=
  (sg_state_hash m ≠? 0) && negb (is_unset (sg_generation m)).

(** ** Lemmas and properties *)

Lemma validate_authority_current stamp e b p :
  validate_authority stamp e b p = AuthorityVerdict.Current ↔
  st_epoch stamp = e ∧ st_incarnation stamp = b ∧ st_policy stamp = p ∧
  e ≠ 0 ∧ b ≠ nil_id ∧ st_sequence stamp ≠ 0.
Proof.
  unfold validate_authority, is_unset. destruct stamp as [e' b' p' s]; simpl.
  destruct (Z.eqb_spec e' 0); simpl; [naive_solver|].
  destruct (is_nil b') eqn:Hb; [apply is_nil_spec in Hb; naive_solver|].
  apply is_nil_false in Hb.
  repeat case_bool_decide; simpl; try naive_solver.
  destruct (Z.eqb_spec s 0); naive_solver.
Qed.

Lemma length_log_add rule v s log :
  (List.length log ≤ kMaxExplanationSteps)%nat →
  (List.length (log_add rule v s log) ≤ kMaxExplanationSteps)%nat.
Proof.
  unfold log_add. intros H. destruct (Nat.leb_spec kMaxExplanationSteps (List.length log)); [done|].
  rewrite length_app. simpl. lia.
Qed.

#[export] Hint Resolve length_log_add : itf.

(** The rejection, deferral and admission families of reason codes, which the code
    defines by numeric ranges, are pairwise disjoint, and every authority denial is a
    rejection. *)
Theorem reason_families_disjoint r :
  (is_rejection r && is_deferral r = false) ∧ (is_rejection r && is_admission r = false)
  ∧ (is_deferral r && is_admission r = false)
  ∧ (∀ d, is_authority_denial d = true → dec_reason d = r → is_rejection r = true).
Proof.
  split_and!; try (by destruct r).
  intros d. unfold is_authority_denial. destruct (_ ≠? _); [done|].
  intros H <-. by destruct (dec_reason d).
Qed.
