(* ===== verification/Policy.v ===== *)
(** * Policy documents

    Models include/itf/policy.hpp and src/policy.cpp (all but the codec, which is
    [PolicyCodec], and the rendering): one rule per traffic class, the validation that a document must
    pass before it is applied, and the canonical default document. The array of
    rules is a list of [kTrafficClassCount] entries in class order. *)

From S2P Require Import Prelude Ids Traffic Decision.

Definition kReservedWeightScale : Z := 1000.
Definition kMaxExplanationHardLimit : Z := 32.

Record ClassPolicyRule := MkRule {
  pr_enabled : bool;
  pr_priority : PriorityClass.t;
  pr_pacing : PacingClass.t;
  pr_integrity : IntegrityClass.t;
  pr_isolation : IsolationDomain.t;
  pr_reserved_weight : Z;
  pr_max_burst_bytes : Z;
  pr_rate_limit_bytes_per_sec : Z;
  pr_max_in_flight_bytes : Z;
  pr_requires_current_topology : bool;
  pr_requires_slo_contract : bool;
  pr_requires_current_route : bool;
  pr_requires_model_generation : bool;
  pr_requires_state_generation : bool;
  pr_requires_deadline : bool;
  pr_starvation_protected : bool;
  pr_max_defer_count : Z;
  pr_max_defer_horizon_nanos : Z;
  pr_yields_to_latency : bool;
}.

#[export] Instance pr_eta : Eta ClassPolicyRule := fun r =>
  MkRule (pr_enabled r) (pr_priority r) (pr_pacing r) (pr_integrity r) (pr_isolation r)
    (pr_reserved_weight r) (pr_max_burst_bytes r) (pr_rate_limit_bytes_per_sec r)
    (pr_max_in_flight_bytes r) (pr_requires_current_topology r)
    (pr_requires_slo_contract r) (pr_requires_current_route r)
    (pr_requires_model_generation r) (pr_requires_state_generation r)
    (pr_requires_deadline r) (pr_starvation_protected r) (pr_max_defer_count r)
    (pr_max_defer_horizon_nanos r) (pr_yields_to_latency r).
#[export] Instance pr_set_enabled : Setter pr_enabled. Proof. mk_setter. Defined.
#[export] Instance pr_set_priority : Setter pr_priority. Proof. mk_setter. Defined.
#[export] Instance pr_set_pacing : Setter pr_pacing. Proof. mk_setter. Defined.
#[export] Instance pr_set_integrity : Setter pr_integrity. Proof. mk_setter. Defined.
#[export] Instance pr_set_isolation : Setter pr_isolation. Proof. mk_setter. Defined.
#[export] Instance pr_set_reserved_weight : Setter pr_reserved_weight. Proof. mk_setter. Defined.
#[export] Instance pr_set_max_burst_bytes : Setter pr_max_burst_bytes. Proof. mk_setter. Defined.
#[export] Instance pr_set_rate_limit_bytes_per_sec : Setter pr_rate_limit_bytes_per_sec. Proof. mk_setter. Defined.
#[export] Instance pr_set_max_in_flight_bytes : Setter pr_max_in_flight_bytes. Proof. mk_setter. Defined.
#[export] Instance pr_set_requires_current_topology : Setter pr_requires_current_topology. Proof. mk_setter. Defined.
#[export] Instance pr_set_requires_slo_contract : Setter pr_requires_slo_contract. Proof. mk_setter. Defined.
#[export] Instance pr_set_requires_current_route : Setter pr_requires_current_route. Proof. mk_setter. Defined.
#[export] Instance pr_set_requires_model_generation : Setter pr_requires_model_generation. Proof. mk_setter. Defined.
#[export] Instance pr_set_requires_state_generation : Setter pr_requires_state_generation. Proof. mk_setter. Defined.
#[export] Instance pr_set_requires_deadline : Setter pr_requires_deadline. Proof. mk_setter. Defined.
#[export] Instance pr_set_starvation_protected : Setter pr_starvation_protected. Proof. mk_setter. Defined.
#[export] Instance pr_set_max_defer_count : Setter pr_max_defer_count. Proof. mk_setter. Defined.
#[export] Instance pr_set_max_defer_horizon_nanos : Setter pr_max_defer_horizon_nanos. Proof. mk_setter. Defined.
#[export] Instance pr_set_yields_to_latency : Setter pr_yields_to_latency. Proof. mk_setter. Defined.

(** The default member initialisers. *)
Definition default_rule : ClassPolicyRule :=
  MkRule false PriorityClass.Unknown PacingClass.Unknown IntegrityClass.Unknown
    IsolationDomain.Unknown 0 0 0 0 false false false false false false false 0 0 false.

Module PolicyVerdict.
Inductive t : Type :=
| Unknown | Valid | MissingRule | ReservedWeightOverflow | BulkReserved
| UnsupportedValue | BoundsExceeded | Count.

Definition value (x : t) : Z :=
  match x with
  | Unknown => 0 | Valid => 1 | MissingRule => 2 | ReservedWeightOverflow => 3
  | BulkReserved => 4 | UnsupportedValue => 5 | BoundsExceeded => 6 | Count => 7
  end.

Definition all : list t :=
  [Unknown; Valid; MissingRule; ReservedWeightOverflow; BulkReserved; UnsupportedValue;
   BoundsExceeded; Count].
End PolicyVerdict.

#[global] Instance PolicyVerdict_enum : Enum PolicyVerdict.t.
Proof. refine {| enum_code := PolicyVerdict.value; enum_all := PolicyVerdict.all |}; solve_enum. Defined.

#[global] Instance PolicyVerdict_eq_dec : EqDecision PolicyVerdict.t := enum_eq_dec.

Record PolicyConfig := MkPolicy {
  pc_generation : Z;
  pc_rules : list ClassPolicyRule;
  pc_allow_unknown_stage : bool;
  pc_allow_unknown_traffic_class : bool;
  pc_max_explanation_steps : Z;
  pc_bulk_in_flight_cap_bytes : Z;
  pc_congestion_queue_depth : Z;
  pc_congestion_yields_bulk : bool;
  pc_defer_hint_nanos : Z;
  pc_stale_evidence_grace_nanos : Z;
}.

#[export] Instance pc_eta : Eta PolicyConfig := fun r =>
  MkPolicy (pc_generation r) (pc_rules r) (pc_allow_unknown_stage r)
    (pc_allow_unknown_traffic_class r) (pc_max_explanation_steps r)
    (pc_bulk_in_flight_cap_bytes r) (pc_congestion_queue_depth r)
    (pc_congestion_yields_bulk r) (pc_defer_hint_nanos r)
    (pc_stale_evidence_grace_nanos r).
#[export] Instance pc_set_generation : Setter pc_generation. Proof. mk_setter. Defined.
#[export] Instance pc_set_rules : Setter pc_rules. Proof. mk_setter. Defined.
#[export] Instance pc_set_allow_unknown_stage : Setter pc_allow_unknown_stage. Proof. mk_setter. Defined.
#[export] Instance pc_set_allow_unknown_traffic_class : Setter pc_allow_unknown_traffic_class. Proof. mk_setter. Defined.
#[export] Instance pc_set_max_explanation_steps : Setter pc_max_explanation_steps. Proof. mk_setter. Defined.
#[export] Instance pc_set_bulk_in_flight_cap_bytes : Setter pc_bulk_in_flight_cap_bytes. Proof. mk_setter. Defined.
#[export] Instance pc_set_congestion_queue_depth : Setter pc_congestion_queue_depth. Proof. mk_setter. Defined.
#[export] Instance pc_set_congestion_yields_bulk : Setter pc_congestion_yields_bulk. Proof. mk_setter. Defined.
#[export] Instance pc_set_defer_hint_nanos : Setter pc_defer_hint_nanos. Proof. mk_setter. Defined.
#[export] Instance pc_set_stale_evidence_grace_nanos : Setter pc_stale_evidence_grace_nanos. Proof. mk_setter. Defined.

Definition default_policy : PolicyConfig :=
  MkPolicy 0 (replicate kTrafficClassCount default_rule) false false 8 (64 * 1024 * 1024) 64 true
    2000000 0.

(** [PolicyConfig::rule]: an index past the table falls back to rule zero. *)
Definition policy_rule (p : PolicyConfig) (traffic : TrafficClass) : ClassPolicyRule :=
  let index := tc_index traffic in
  nth (if (index <? kTrafficClassCount)%nat then index else 0) (pc_rules p) default_rule.

Definition set_rule (p : PolicyConfig) (traffic : TrafficClass) (rule : ClassPolicyRule)
    : Status * PolicyConfig :=
  let index := tc_index traffic in
  if (kTrafficClassCount <=? index)%nat then refuse p StatusCode.InvalidArgument
  else (Success tt, p <| pc_rules := <[index := rule]> (pc_rules p) |>).

Definition set_max_explanation_steps (p : PolicyConfig) (value : Z) : PolicyConfig :=
  p <| pc_max_explanation_steps :=
        if value >? kMaxExplanationHardLimit then kMaxExplanationHardLimit else value |>.

Definition is_bulk_rule (rule : ClassPolicyRule) : bool :=
  pr_yields_to_latency rule || (pr_priority rule ≟ PriorityClass.Bulk).

(** The 64-bit accumulator of [reserved_weight_total], over the rules of the
    classes after UNKNOWN. *)
Fixpoint reserved_sum (rules : list ClassPolicyRule) (total : Z) : Z :=
  match rules with
  | [] => total
  | rule :: rest =>
      if negb (pr_enabled rule) then reserved_sum rest total
      else if is_bulk_rule rule then reserved_sum rest total
      else reserved_sum rest (add64 total (pr_reserved_weight rule))
  end.

Definition reserved_weight_total (p : PolicyConfig) : Z :=
  let total := reserved_sum (tail (pc_rules p)) 0 in
  if total >? kReservedWeightScale then kReservedWeightScale else total.

Definition kSecond : Z := 1000000000.
Definition kMillisecond : Z := 1000000.
Definition kKib : Z := 1024.
Definition kMib : Z := 1024 * 1024.

(** The per-rule loop of [validate]: the first defect, or the running total of
    the reserved weights. *)
Fixpoint validate_rules (rules : list ClassPolicyRule) (reserved_total : Z)
    : PolicyVerdict.t + Z :=
  match rules with
  | [] => inr reserved_total
  | rule :: rest =>
      if negb (pr_enabled rule) then validate_rules rest reserved_total
      else if (pr_priority rule ≟ PriorityClass.Unknown) || (pr_pacing rule ≟ PacingClass.Unknown)
           || (pr_integrity rule ≟ IntegrityClass.Unknown)
           || (pr_isolation rule ≟ IsolationDomain.Unknown)
        then inl PolicyVerdict.UnsupportedValue
      else if pr_reserved_weight rule >? kReservedWeightScale
        then inl PolicyVerdict.BoundsExceeded
      else if is_bulk_rule rule && (pr_reserved_weight rule ≠? 0)
        then inl PolicyVerdict.BulkReserved
      else if pr_starvation_protected rule
              && ((pr_max_defer_count rule ≟ 0) || (pr_max_defer_horizon_nanos rule ≟ 0))
        then inl PolicyVerdict.BoundsExceeded
      else if pr_requires_deadline rule && (pr_max_defer_horizon_nanos rule >? 0)
              && (pr_max_defer_horizon_nanos rule >? kSecond * 60)
        then inl PolicyVerdict.BoundsExceeded
      else if is_bulk_rule rule then validate_rules rest reserved_total
      else validate_rules rest (add64 reserved_total (pr_reserved_weight rule))
  end.

Definition validate (p : PolicyConfig) : PolicyVerdict.t :=
  if pc_max_explanation_steps p >? kMaxExplanationHardLimit then PolicyVerdict.BoundsExceeded
  else if (pc_allow_unknown_traffic_class p || pc_allow_unknown_stage p)
          && negb (pr_enabled (nth 0 (pc_rules p) default_rule))
    then PolicyVerdict.MissingRule
  else match validate_rules (pc_rules p) 0 with
  | inl verdict => verdict
  | inr reserved_total =>
      if reserved_total >? kReservedWeightScale then PolicyVerdict.ReservedWeightOverflow
      else PolicyVerdict.Valid
  end.

Definition validate_status (p : PolicyConfig) : Status :=
  if validate p ≟ PolicyVerdict.Valid then Success tt else Failure StatusCode.PolicyInvalid.

(** ** The canonical default document *)

Definition canonical_request_ingress : ClassPolicyRule :=
  default_rule
    <| pr_enabled := true |>
    <| pr_priority := PriorityClass.Interactive |>
    <| pr_pacing := PacingClass.Immediate |>
    <| pr_integrity := IntegrityClass.Checksum |>
    <| pr_isolation := IsolationDomain.Interactive |>
    <| pr_reserved_weight := 100 |>
    <| pr_max_burst_bytes := 256 * kKib |>
    <| pr_max_in_flight_bytes := 16 * kMib |>
    <| pr_requires_slo_contract := true |>
    <| pr_requires_current_route := true |>
    <| pr_requires_deadline := true |>
    <| pr_starvation_protected := true |>
    <| pr_max_defer_count := 8 |>
    <| pr_max_defer_horizon_nanos := 50 * kMillisecond |>.

Definition canonical_prefill_input : ClassPolicyRule :=
  default_rule
    <| pr_enabled := true |>
    <| pr_priority := PriorityClass.Interactive |>
    <| pr_pacing := PacingClass.Paced |>
    <| pr_integrity := IntegrityClass.Checksum |>
    <| pr_isolation := IsolationDomain.LatencyCritical |>
    <| pr_reserved_weight := 120 |>
    <| pr_max_burst_bytes := 1 * kMib |>
    <| pr_max_in_flight_bytes := 128 * kMib |>
    <| pr_requires_current_topology := true |>
    <| pr_requires_slo_contract := true |>
    <| pr_requires_current_route := true |>
    <| pr_requires_model_generation := true |>
    <| pr_requires_deadline := true |>
    <| pr_starvation_protected := true |>
    <| pr_max_defer_count := 8 |>
    <| pr_max_defer_horizon_nanos := 50 * kMillisecond |>.

Definition canonical_prefill_decode_handoff : ClassPolicyRule :=
  default_rule
    <| pr_enabled := true |>
    <| pr_priority := PriorityClass.LatencyCritical |>
    <| pr_pacing := PacingClass.Immediate |>
    <| pr_integrity := IntegrityClass.ChecksumAndVerify |>
    <| pr_isolation := IsolationDomain.LatencyCritical |>
    <| pr_reserved_weight := 150 |>
    <| pr_max_burst_bytes := 2 * kMib |>
    <| pr_max_in_flight_bytes := 256 * kMib |>
    <| pr_requires_current_topology := true |>
    <| pr_requires_slo_contract := true |>
    <| pr_requires_current_route := true |>
    <| pr_requires_model_generation := true |>
    <| pr_requires_state_generation := true |>
    <| pr_requires_deadline := true |>
    <| pr_starvation_protected := true |>
    <| pr_max_defer_count := 8 |>
    <| pr_max_defer_horizon_nanos := 50 * kMillisecond |>.

Definition canonical_kv_transfer : ClassPolicyRule :=
  default_rule
    <| pr_enabled := true |>
    <| pr_priority := PriorityClass.LatencyCritical |>
    <| pr_pacing := PacingClass.Paced |>
    <| pr_integrity := IntegrityClass.ChecksumAndVerify |>
    <| pr_isolation := IsolationDomain.LatencyCritical |>
    <| pr_reserved_weight := 150 |>
    <| pr_max_burst_bytes := 4 * kMib |>
    <| pr_max_in_flight_bytes := 512 * kMib |>
    <| pr_requires_current_topology := true |>
    <| pr_requires_slo_contract := true |>
    <| pr_requires_current_route := true |>
    <| pr_requires_model_generation := true |>
    <| pr_requires_state_generation := true |>
    <| pr_requires_deadline := true |>
    <| pr_starvation_protected := true |>
    <| pr_max_defer_count := 8 |>
    <| pr_max_defer_horizon_nanos := 50 * kMillisecond |>.

Definition canonical_state_transfer : ClassPolicyRule :=
  default_rule
    <| pr_enabled := true |>
    <| pr_priority := PriorityClass.Standard |>
    <| pr_pacing := PacingClass.Paced |>
    <| pr_integrity := IntegrityClass.ChecksumAndVerify |>
    <| pr_isolation := IsolationDomain.Background |>
    <| pr_reserved_weight := 60 |>
    <| pr_max_burst_bytes := 8 * kMib |>
    <| pr_max_in_flight_bytes := 512 * kMib |>
    <| pr_requires_current_topology := true |>
    <| pr_requires_current_route := true |>
    <| pr_requires_model_generation := true |>
    <| pr_requires_state_generation := true |>
    <| pr_starvation_protected := false |>
    <| pr_max_defer_count := 64 |>
    <| pr_max_defer_horizon_nanos := 2 * kSecond |>.

Definition canonical_model_transfer : ClassPolicyRule :=
  default_rule
    <| pr_enabled := true |>
    <| pr_priority := PriorityClass.Bulk |>
    <| pr_pacing := PacingClass.RateLimited |>
    <| pr_integrity := IntegrityClass.ChecksumAndVerify |>
    <| pr_isolation := IsolationDomain.Bulk |>
    <| pr_reserved_weight := 0 |>
    <| pr_max_burst_bytes := 16 * kMib |>
    <| pr_rate_limit_bytes_per_sec := 512 * kMib |>
    <| pr_requires_current_topology := true |>
    <| pr_requires_model_generation := true |>
    <| pr_yields_to_latency := true |>
    <| pr_starvation_protected := false |>
    <| pr_max_defer_count := 256 |>
    <| pr_max_defer_horizon_nanos := 30 * kSecond |>.

Definition canonical_adapter_transfer : ClassPolicyRule :=
  default_rule
    <| pr_enabled := true |>
    <| pr_priority := PriorityClass.Bulk |>
    <| pr_pacing := PacingClass.RateLimited |>
    <| pr_integrity := IntegrityClass.Checksum |>
    <| pr_isolation := IsolationDomain.Bulk |>
    <| pr_reserved_weight := 0 |>
    <| pr_max_burst_bytes := 8 * kMib |>
    <| pr_rate_limit_bytes_per_sec := 256 * kMib |>
    <| pr_requires_current_topology := true |>
    <| pr_requires_model_generation := true |>
    <| pr_yields_to_latency := true |>
    <| pr_starvation_protected := false |>
    <| pr_max_defer_count := 256 |>
    <| pr_max_defer_horizon_nanos := 30 * kSecond |>.

Definition canonical_decode_stream : ClassPolicyRule :=
  default_rule
    <| pr_enabled := true |>
    <| pr_priority := PriorityClass.LatencyCritical |>
    <| pr_pacing := PacingClass.Paced |>
    <| pr_integrity := IntegrityClass.Checksum |>
    <| pr_isolation := IsolationDomain.LatencyCritical |>
    <| pr_reserved_weight := 200 |>
    <| pr_max_burst_bytes := 512 * kKib |>
    <| pr_max_in_flight_bytes := 256 * kMib |>
    <| pr_requires_slo_contract := true |>
    <| pr_requires_current_route := true |>
    <| pr_requires_model_generation := true |>
    <| pr_requires_deadline := true |>
    <| pr_starvation_protected := true |>
    <| pr_max_defer_count := 8 |>
    <| pr_max_defer_horizon_nanos := 50 * kMillisecond |>.

Definition canonical_speculative_branch : ClassPolicyRule :=
  default_rule
    <| pr_enabled := true |>
    <| pr_priority := PriorityClass.Background |>
    <| pr_pacing := PacingClass.BestEffort |>
    <| pr_integrity := IntegrityClass.Checksum |>
    <| pr_isolation := IsolationDomain.Background |>
    <| pr_reserved_weight := 0 |>
    <| pr_max_burst_bytes := 1 * kMib |>
    <| pr_max_in_flight_bytes := 64 * kMib |>
    <| pr_requires_current_route := true |>
    <| pr_requires_model_generation := true |>
    <| pr_yields_to_latency := true |>
    <| pr_starvation_protected := false |>
    <| pr_max_defer_count := 64 |>
    <| pr_max_defer_horizon_nanos := 5 * kSecond |>.

Definition canonical_response_egress : ClassPolicyRule :=
  default_rule
    <| pr_enabled := true |>
    <| pr_priority := PriorityClass.Interactive |>
    <| pr_pacing := PacingClass.Immediate |>
    <| pr_integrity := IntegrityClass.Checksum |>
    <| pr_isolation := IsolationDomain.Interactive |>
    <| pr_reserved_weight := 100 |>
    <| pr_max_burst_bytes := 256 * kKib |>
    <| pr_max_in_flight_bytes := 64 * kMib |>
    <| pr_requires_slo_contract := true |>
    <| pr_requires_current_route := true |>
    <| pr_requires_deadline := true |>
    <| pr_starvation_protected := true |>
    <| pr_max_defer_count := 8 |>
    <| pr_max_defer_horizon_nanos := 50 * kMillisecond |>.

Definition canonical_control : ClassPolicyRule :=
  default_rule
    <| pr_enabled := true |>
    <| pr_priority := PriorityClass.LatencyCritical |>
    <| pr_pacing := PacingClass.Immediate |>
    <| pr_integrity := IntegrityClass.ChecksumAndVerify |>
    <| pr_isolation := IsolationDomain.Control |>
    <| pr_reserved_weight := 20 |>
    <| pr_max_burst_bytes := 64 * kKib |>
    <| pr_max_in_flight_bytes := 16 * kMib |>
    <| pr_starvation_protected := true |>
    <| pr_max_defer_count := 32 |>
    <| pr_max_defer_horizon_nanos := 1 * kSecond |>.

Definition canonical_unknown : ClassPolicyRule :=
  default_rule
    <| pr_enabled := false |>.

Definition canonical_defaults (generation : Z) : PolicyConfig :=
  let set c r p := (set_rule p c r).2 in
  default_policy <| pc_generation := generation |>
  ▸ set TrafficClass.RequestIngress canonical_request_ingress
  ▸ set TrafficClass.PrefillInput canonical_prefill_input
  ▸ set TrafficClass.PrefillDecodeHandoff canonical_prefill_decode_handoff
  ▸ set TrafficClass.KvTransfer canonical_kv_transfer
  ▸ set TrafficClass.StateTransfer canonical_state_transfer
  ▸ set TrafficClass.ModelTransfer canonical_model_transfer
  ▸ set TrafficClass.AdapterTransfer canonical_adapter_transfer
  ▸ set TrafficClass.DecodeStream canonical_decode_stream
  ▸ set TrafficClass.SpeculativeBranch canonical_speculative_branch
  ▸ set TrafficClass.ResponseEgress canonical_response_egress
  ▸ set TrafficClass.Control canonical_control
  ▸ set TrafficClass.Unknown canonical_unknown.

(** ** Lemmas and properties *)

(** What validation demands of one enabled rule. *)
Record rule_ok (rule : ClassPolicyRule) : Prop := {
  ro_priority : pr_priority rule ≠ PriorityClass.Unknown;
  ro_pacing : pr_pacing rule ≠ PacingClass.Unknown;
  ro_integrity : pr_integrity rule ≠ IntegrityClass.Unknown;
  ro_isolation : pr_isolation rule ≠ IsolationDomain.Unknown;
  ro_weight : pr_reserved_weight rule ≤ kReservedWeightScale;
  ro_bulk : is_bulk_rule rule = true → pr_reserved_weight rule = 0;
  ro_guard : pr_starvation_protected rule = true →
    pr_max_defer_count rule ≠ 0 ∧ pr_max_defer_horizon_nanos rule ≠ 0;
  ro_horizon : pr_requires_deadline rule = true →
    pr_max_defer_horizon_nanos rule ≤ 60 * kSecond;
}.

(** The weight a rule reserves: none when it is disabled or bulk. *)
Definition reserved_of (rule : ClassPolicyRule) : Z :=
  if pr_enabled rule && negb (is_bulk_rule rule) then pr_reserved_weight rule else 0.

Definition reserved_of_all (rules : list ClassPolicyRule) : Z :=
  foldr (fun rule acc => reserved_of rule + acc) 0 rules.

(** The abstract meaning of a valid document. *)
Definition policy_valid (p : PolicyConfig) : Prop :=
  pc_max_explanation_steps p ≤ kMaxExplanationHardLimit ∧
  (pc_allow_unknown_traffic_class p = true ∨ pc_allow_unknown_stage p = true →
     pr_enabled (nth 0 (pc_rules p) default_rule) = true) ∧
  (∀ rule, rule ∈ pc_rules p → pr_enabled rule = true → rule_ok rule) ∧
  reserved_of_all (pc_rules p) ≤ kReservedWeightScale.

(** The fields fit their C++ types. *)
Definition policy_typed (p : PolicyConfig) : Prop :=
  length (pc_rules p) = kTrafficClassCount ∧
  Forall (fun r => is_u32 (pr_reserved_weight r) ∧ is_u64 (pr_max_defer_horizon_nanos r))
         (pc_rules p).

Definition rules_ok (rules : list ClassPolicyRule) : Prop :=
  ∀ rule, rule ∈ rules → pr_enabled rule = true → rule_ok rule.

(** What the loop answers from a running total. *)
Definition scan_spec (rules : list ClassPolicyRule) (total : Z) (answer : PolicyVerdict.t + Z) : Prop :=
  match answer with
  | inl v => v ≠ PolicyVerdict.Valid ∧ ¬ rules_ok rules
  | inr t => t = total + reserved_of_all rules ∧ rules_ok rules
  end.

Lemma scan_pass r rules total t answer :
  scan_spec rules t answer → t = total + reserved_of r → (pr_enabled r = true → rule_ok r) →
  scan_spec (r :: rules) total answer.
Proof.
  intros IH -> Hok. destruct answer as [v|t']; destruct IH as [IH1 IH2]; (split; [|]).
  - done.
  - intros Hall. apply IH2. intros rule Hin. apply Hall. by right.
  - rewrite IH1. cbn [reserved_of_all foldr]. fold (reserved_of_all rules). lia.
  - intros rule [->|Hin]%elem_of_cons; auto.
Qed.

Lemma scan_defect r rules total v :
  pr_enabled r = true → v ≠ PolicyVerdict.Valid → ¬ rule_ok r → scan_spec (r :: rules) total (inl v).
Proof. intros Hen Hv Hno. split; [done|]. intros Hall. apply Hno, Hall; [left|done]. Qed.

Lemma validate_rules_spec rules total :
  Forall (fun r => is_u32 (pr_reserved_weight r) ∧ is_u64 (pr_max_defer_horizon_nanos r)) rules →
  0 ≤ total → total + Z.of_nat (length rules) * kReservedWeightScale < two64 →
  scan_spec rules total (validate_rules rules total).
Proof.
  intros Hty. revert total. induction Hty as [|r rules [Hw Hh] Hty IH]; intros total Ht Hb.
  { simpl. split; [lia|]. intros ? []%elem_of_nil. }
  cbn [length] in Hb. unfold is_u32, is_u64 in *. cbn [validate_rules]. rewrite !Z.gtb_ltb.
  assert (0 ≤ kReservedWeightScale) by done.
  destruct (pr_enabled r) eqn:Hen; simpl negb; cbn iota.
  2:{ eapply scan_pass; [apply IH; lia| |congruence]. unfold reserved_of. rewrite Hen. simpl. lia. }
  destruct (_ || _ || _ || _) eqn:E1.
  { apply scan_defect; [done..|]. intros []. rewrite !orb_true_iff, !bool_decide_eq_true in E1. naive_solver. }
  rewrite !orb_false_iff, !bool_decide_eq_false in E1.
  destruct (Z.ltb_spec kReservedWeightScale (pr_reserved_weight r)) as [E2|E2].
  { apply scan_defect; [done..|]. intros []. lia. }
  destruct (is_bulk_rule r && _) eqn:E3.
  { apply scan_defect; [done..|]. intros [_ _ _ _ _ Hbulk _ _]. bool_to_prop. naive_solver. }
  destruct (pr_starvation_protected r && _) eqn:E4.
  { apply scan_defect; [done..|]. intros [_ _ _ _ _ _ Hg _].
    apply andb_true_iff in E4 as [Hs E4]. rewrite orb_true_iff, !bool_decide_eq_true in E4. naive_solver. }
  destruct (pr_requires_deadline r && _ && _) eqn:E5.
  { apply scan_defect; [done..|]. intros [_ _ _ _ _ _ _ Hd]. bool_to_prop. specialize (Hd ltac:(done)). lia. }
  assert (rule_ok r) as Hok.
  { destruct E1 as [[[? ?] ?] ?]. split; try done.
    - intros Hb'. rewrite Hb' in E3. simpl in E3. bool_to_prop. done.
    - intros Hs. rewrite Hs in E4. simpl in E4. bool_to_prop. done.
    - intros Hd. rewrite Hd in E5. simpl in E5.
      destruct (Z.ltb_spec 0 (pr_max_defer_horizon_nanos r)); simpl in E5; bool_to_prop;
        unfold kSecond in *; lia. }
  unfold add64. destruct (is_bulk_rule r) eqn:Hbulk; [|rewrite wrap64_id by (unfold is_u64; lia)];
    (eapply scan_pass; [apply IH; lia| |done]; unfold reserved_of; rewrite Hen, Hbulk; simpl; lia).
Qed.

(** C35: The single-pass policy validation with early returns is equivalent to the
    declarative definition of a valid policy: the explanation bound, the unknown-class
    rule, each enabled rule in order, and the sum of reserved weights of non-bulk
    classes within the scale. *)
Theorem validate_correct p :
  policy_typed p → (validate p = PolicyVerdict.Valid ↔ policy_valid p).
Proof.
  intros [Hlen Hty]. unfold validate, policy_valid. rewrite Z.gtb_ltb.
  destruct (Z.ltb_spec kMaxExplanationHardLimit (pc_max_explanation_steps p)).
  { split; [done|]. intros [? _]. lia. }
  destruct ((_ || _) && negb _) eqn:E.
  { split; [done|]. intros (_ & Hun & _). apply andb_true_iff in E as [E1 E2].
    apply orb_true_iff in E1. apply Hun in E1. by rewrite E1 in E2. }
  pose proof (validate_rules_spec (pc_rules p) 0 Hty ltac:(lia)) as Hspec.
  rewrite Hlen in Hspec. specialize (Hspec ltac:(reflexivity)).
  destruct (validate_rules (pc_rules p) 0) as [v|t].
  { destruct Hspec. split; [done|]. intros (_ & _ & Hall & _). done. }
  destruct Hspec as [-> Hall]. rewrite Z.add_0_l, Z.gtb_ltb.
  destruct (Z.ltb_spec kReservedWeightScale (reserved_of_all (pc_rules p))).
  { split; [done|]. intros (_ & _ & _ & ?). lia. }
  split; [|done]. intros _. split_and!; try done.
  intros Hun. apply andb_false_iff in E as [E|E].
  - apply orb_false_iff in E. destruct E, Hun; congruence.
  - by apply negb_false_iff in E.
Qed.

(** The canonical policy is valid for every generation, reserves 900 of 1000 weight
    units, gives no class that yields to latency reserved weight or starvation
    protection, and keeps the unknown class disabled. *)
Theorem canonical_defaults_sound g :
  validate (canonical_defaults g) = PolicyVerdict.Valid
  ∧ reserved_weight_total (canonical_defaults g) = 900
  ∧ (∀ c, pr_yields_to_latency (policy_rule (canonical_defaults g) c) = true →
       pr_reserved_weight (policy_rule (canonical_defaults g) c) = 0
       ∧ pr_starvation_protected (policy_rule (canonical_defaults g) c) = false)
  ∧ pr_enabled (policy_rule (canonical_defaults g) TrafficClass.Unknown) = false.
Proof.
  split_and!; try reflexivity. intros [] H; first [split; reflexivity | vm_compute in H; discriminate H].
Qed.
