(* ===== verification/Bytes.v ===== *)
(** * Byte strings and little-endian words

    Bytes are integers in [0, 256); a byte string is a list of them. The stores
    and loads of src/codec.cpp and src/wire.cpp shift byte by byte; here are
    their common meaning and the lemmas on bit operations that the codec, the
    checksum and the framing share. *)

From S2P Require Import Prelude.

Definition is_byte (b : Z) : Prop := 0 ≤ b < 256.

(** ** Ranges of bit operations *)

Lemma shiftr_zero_range x n : 0 ≤ n → 0 ≤ x → Z.shiftr x n = 0 ↔ x < 2 ^ n.
Proof.
  intros Hn Hx. rewrite Z.shiftr_div_pow2 by done.
  assert (0 < 2 ^ n) by (apply Z.pow_pos_nonneg; lia).
  rewrite Z.div_small_iff by lia. lia.
Qed.

Lemma lxor_range n a b : 0 ≤ n → 0 ≤ a < 2 ^ n → 0 ≤ b < 2 ^ n → 0 ≤ Z.lxor a b < 2 ^ n.
Proof.
  intros Hn [Ha0 Ha] [Hb0 Hb]. assert (0 ≤ Z.lxor a b) by (apply Z.lxor_nonneg; lia).
  split; [done|]. apply shiftr_zero_range; [done..|]. rewrite Z.shiftr_lxor.
  apply shiftr_zero_range in Ha as ->; [|done..]. by apply shiftr_zero_range in Hb as ->.
Qed.

Lemma testbit_high x n i : 0 ≤ x < 2 ^ n → 0 ≤ n ≤ i → Z.testbit x i = false.
Proof.
  intros Hx Hi. destruct (decide (x = 0)) as [->|]; [apply Z.bits_0|].
  apply Z.bits_above_log2; [lia|]. apply Z.log2_lt_pow2; [lia|].
  eapply Z.lt_le_trans; [apply Hx|]. apply Z.pow_le_mono_r; lia.
Qed.

(** ** Words *)

(** The word a byte string spells, least significant byte first. *)
Fixpoint le_word (l : list Z) : Z :=
  match l with
  | [] => 0
  | b :: rest => Z.lor b (Z.shiftl (le_word rest) 8)
  end.

(** The [n] low bytes of a word, least significant first. *)
Fixpoint le_bytes (n : nat) (v : Z) : list Z :=
  match n with
  | O => []
  | S n => Z.land v 255 :: le_bytes n (Z.shiftr v 8)
  end.

Lemma length_le_bytes n v : length (le_bytes n v) = n.
Proof. revert v. induction n; intros v; simpl; [done|]. by rewrite IHn. Qed.

Lemma land_255 v : Z.land v 255 = v mod 256.
Proof. change 255 with (Z.ones 8). by rewrite Z.land_ones. Qed.

Lemma le_bytes_bytes n v : Forall is_byte (le_bytes n v).
Proof.
  revert v. induction n; intros v; constructor; [|done]. rewrite land_255. unfold is_byte.
  apply Z.mod_pos_bound. lia.
Qed.

(** A byte and a shifted word do not overlap. *)
Lemma lor_byte b w : is_byte b → Z.lor b (Z.shiftl w 8) = b + 256 * w.
Proof.
  intros Hb. rewrite Z.shiftl_mul_pow2 by lia. change (2 ^ 8) with 256.
  assert (Z.land b (Z.shiftl w 8) = 0) as E.
  { apply Z.bits_inj'. intros i Hi. rewrite Z.land_spec, Z.bits_0.
    destruct (decide (i < 8)).
    - rewrite Z.shiftl_spec_low by lia. apply andb_false_r.
    - rewrite (testbit_high b 8) by (unfold is_byte in Hb; simpl; lia). done. }
  rewrite Z.shiftl_mul_pow2 in E by lia. change (2 ^ 8) with 256 in E.
  pose proof (Z.add_lor_land b (w * 256)) as A. rewrite E, Z.add_0_r in A. lia.
Qed.

Lemma lor_byte_xor b w : is_byte b → Z.lor b (Z.shiftl w 8) = Z.lxor b (Z.shiftl w 8).
Proof.
  intros Hb. apply Z.bits_inj'. intros i Hi. rewrite Z.lor_spec, Z.lxor_spec.
  destruct (decide (i < 8)).
  - rewrite Z.shiftl_spec_low by lia. by destruct (Z.testbit b i).
  - rewrite (testbit_high b 8) by (unfold is_byte in Hb; simpl; lia). by destruct (Z.testbit _ i).
Qed.

Lemma le_word_range l : Forall is_byte l → 0 ≤ le_word l < 256 ^ Z.of_nat (length l).
Proof.
  induction 1 as [|b l Hb Hl IH]; [simpl; lia|]. cbn [le_word length].
  rewrite lor_byte by done. rewrite Nat2Z.inj_succ, Z.pow_succ_r by lia. unfold is_byte in Hb. nia.
Qed.

Lemma le_word_app l1 l2 :
  Forall is_byte l1 →
  le_word (l1 ++ l2) = le_word l1 + 256 ^ Z.of_nat (length l1) * le_word l2.
Proof.
  induction 1 as [|b l Hb Hl IH]; [by rewrite Z.mul_1_l|]. cbn [le_word length app].
  rewrite !lor_byte, IH by done. rewrite Nat2Z.inj_succ, Z.pow_succ_r by lia. lia.
Qed.

Lemma le_word_bytes n v : 0 ≤ v < 256 ^ Z.of_nat n → le_word (le_bytes n v) = v.
Proof.
  revert v. induction n as [|n IH]; intros v Hv; cbn [le_word le_bytes]; [simpl in Hv; lia|].
  rewrite Nat2Z.inj_succ, Z.pow_succ_r in Hv by lia.
  rewrite land_255, Z.shiftr_div_pow2 by lia. change (2 ^ 8) with 256.
  rewrite IH, lor_byte.
  - pose proof (Z.div_mod v 256). lia.
  - unfold is_byte. apply Z.mod_pos_bound. lia.
  - split; [apply Z.div_pos; lia|]. apply Z.div_lt_upper_bound; lia.
Qed.

Lemma le_bytes_word l : Forall is_byte l → le_bytes (length l) (le_word l) = l.
Proof.
  induction 1 as [|b l Hb Hl IH]; [done|]. cbn [le_word length le_bytes].
  rewrite lor_byte, land_255, Z.shiftr_div_pow2 by (done || lia). change (2 ^ 8) with 256.
  unfold is_byte in Hb. rewrite Z.add_comm, Z.mul_comm.
  rewrite Z.div_add_l, Z.div_small, Z.add_0_r by lia.
  rewrite Z.add_comm, Z.mod_add, Z.mod_small by lia. by rewrite IH.
Qed.

Lemma le_word_inj l1 l2 :
  Forall is_byte l1 → Forall is_byte l2 → length l1 = length l2 → le_word l1 = le_word l2 → l1 = l2.
Proof. intros H1 H2 Hl E. by rewrite <- (le_bytes_word l1), <- (le_bytes_word l2), E, Hl by done. Qed.
