(* ===== verification/Crc.v ===== *)
(** * CRC-32C

    Models include/itf/crc32c.hpp and src/crc32c.cpp: the table-driven update of
    the Castagnoli checksum that guards frames and snapshots. The table is
    compared with the bit-by-bit definition of the polynomial division, and the
    checksum is shown to detect every error confined to four adjacent bytes. *)

From S2P Require Import Prelude Bytes.

(** ** The source *)

Definition kReflectedPolynomial : Z := 0x82F63B78.

(** One iteration of the inner loop of [make_table]. *)
Definition crc_bit (crc : Z) : Z :=
  if Z.land crc 1 ≠? 0 then Z.lxor (Z.shiftr crc 1) kReflectedPolynomial else Z.shiftr crc 1.

Definition make_table : list Z := (fun index => Nat.iter 8 crc_bit index) <$> seqZ 0 256.

Definition kTable : list Z := Eval vm_compute in make_table.

Definition update_byte (state byte : Z) : Z :=
  Z.lxor (nth (Z.to_nat (Z.land (Z.lxor state byte) 0xFF)) kTable 0) (Z.shiftr state 8).

Definition update (state : Z) (data : list Z) : Z := foldl update_byte state data.

Definition crc_init : Z := 0xFFFFFFFF.

Definition crc_value (state : Z) : Z := Z.lxor state 0xFFFFFFFF.

Definition compute (data : list Z) : Z := crc_value (update crc_init data).

(** ** The reference: polynomial division bit by bit *)

Definition crc_bits (n : nat) (x : Z) : Z := Nat.iter n crc_bit x.

Definition reference (data : list Z) : Z :=
  crc_value (foldl (fun state byte => crc_bits 8 (Z.lxor state byte)) crc_init data).

Definition is_crc (x : Z) : Prop := 0 ≤ x < 2 ^ 32.

(** ** The division step is linear and injective *)

Lemma crc_bit_testbit a :
  crc_bit a = Z.lxor (Z.shiftr a 1) (if Z.testbit a 0 then kReflectedPolynomial else 0).
Proof.
  unfold crc_bit. assert (Z.land a 1 = Z.b2z (Z.testbit a 0)) as ->.
  { change 1 with (Z.ones 1) at 1. rewrite Z.land_ones by lia. change (2 ^ 1) with 2.
    by rewrite <- Z.bit0_mod. }
  destruct (Z.testbit a 0); simpl; [done|by rewrite Z.lxor_0_r].
Qed.

Lemma crc_bit_lxor a b : crc_bit (Z.lxor a b) = Z.lxor (crc_bit a) (crc_bit b).
Proof.
  rewrite !crc_bit_testbit, Z.lxor_spec, Z.shiftr_lxor.
  apply Z.bits_inj'. intros i _. rewrite !Z.lxor_spec.
  destruct (Z.testbit a 0), (Z.testbit b 0); simpl; rewrite ?Z.bits_0;
    destruct (Z.testbit (Z.shiftr a 1) i), (Z.testbit (Z.shiftr b 1) i),
      (Z.testbit kReflectedPolynomial i); done.
Qed.

Lemma crc_bit_range a : is_crc a → is_crc (crc_bit a).
Proof.
  unfold is_crc. intros Ha. rewrite crc_bit_testbit. apply lxor_range; [lia| |].
  - rewrite Z.shiftr_div_pow2 by lia. change (2 ^ 1) with 2.
    split; [apply Z.div_pos; lia|]. apply Z.div_lt_upper_bound; lia.
  - case_match; vm_compute; split; congruence.
Qed.

Lemma crc_bit_zero a : is_crc a → crc_bit a = 0 → a = 0.
Proof.
  unfold is_crc. intros Ha. rewrite crc_bit_testbit. intros E%Z.lxor_eq.
  rewrite Z.shiftr_div_pow2 in E by lia. change (2 ^ 1) with 2 in E.
  pose proof (Z.div_mod a 2 ltac:(lia)) as D. rewrite <- Z.bit0_mod in D.
  destruct (Z.testbit a 0); simpl in D; [|lia].
  unfold kReflectedPolynomial in E. lia.
Qed.

Lemma crc_bits_lxor n a b : crc_bits n (Z.lxor a b) = Z.lxor (crc_bits n a) (crc_bits n b).
Proof. induction n as [|n IH]; [done|]. unfold crc_bits in *. simpl. by rewrite IH, crc_bit_lxor. Qed.

Lemma crc_bits_range n a : is_crc a → is_crc (crc_bits n a).
Proof. induction n as [|n IH]; [done|]. intros Ha. by apply crc_bit_range, IH. Qed.

Lemma crc_bits_zero n a : is_crc a → crc_bits n a = 0 → a = 0.
Proof.
  induction n as [|n IH]; [done|]. intros Ha H. apply IH; [done|].
  apply crc_bit_zero; [by apply crc_bits_range|done].
Qed.

Lemma crc_bits_inj n a b : is_crc a → is_crc b → crc_bits n a = crc_bits n b → a = b.
Proof.
  intros Ha Hb E. apply Z.lxor_eq. apply (crc_bits_zero n).
  - apply lxor_range; [lia|done..].
  - by rewrite crc_bits_lxor, E, Z.lxor_nilpotent.
Qed.

Lemma crc_bits_add n m a : crc_bits (n + m) a = crc_bits n (crc_bits m a).
Proof. unfold crc_bits. apply Nat.iter_add. Qed.

(** Eight steps on a word shifted by a byte undo the shift. *)
Lemma crc_bits_shift n w : crc_bits n (Z.shiftl w (Z.of_nat n)) = w.
Proof.
  revert w. induction n as [|n IH]; intros w; [by rewrite Z.shiftl_0_r|].
  unfold crc_bits in *. rewrite Nat.iter_succ_r.
  assert (crc_bit (Z.shiftl w (Z.of_nat (S n))) = Z.shiftl w (Z.of_nat n)) as ->; [|by apply IH].
  rewrite crc_bit_testbit, Z.shiftl_spec_low by lia. rewrite Z.lxor_0_r, Z.shiftr_shiftl_l by lia.
  f_equal. lia.
Qed.

(** ** The table *)

Lemma kTable_lookup i : is_byte i → nth (Z.to_nat i) kTable 0 = crc_bits 8 i.
Proof.
  intros Hi. assert (kTable = make_table) as -> by (vm_compute; reflexivity).
  unfold is_byte in Hi. apply nth_lookup_Some. unfold make_table.
  rewrite list_lookup_fmap, lookup_seqZ_lt by lia. unfold crc_bits. cbn [fmap option_fmap option_map].
  by rewrite Z2Nat.id by lia.
Qed.

Lemma update_byte_bits s b : 0 ≤ s → is_byte b → update_byte s b = crc_bits 8 (Z.lxor s b).
Proof.
  intros Hs Hb. unfold update_byte. set (x := Z.lxor s b).
  assert (x = Z.lxor (Z.land x 255) (Z.shiftl (Z.shiftr x 8) 8)) as E.
  { apply Z.bits_inj'. intros i Hi. rewrite Z.lxor_spec, Z.land_spec. change 255 with (Z.ones 8).
    destruct (decide (i < 8)).
    - rewrite Z.shiftl_spec_low, Z.ones_spec_low by lia. by destruct (Z.testbit x i).
    - rewrite Z.shiftl_spec, Z.ones_spec_high, Z.shiftr_spec by lia.
      rewrite andb_false_r. simpl. f_equal. lia. }
  rewrite kTable_lookup; [|rewrite land_255; unfold is_byte; apply Z.mod_pos_bound; lia].
  rewrite E at 2. rewrite crc_bits_lxor. change 8 with (Z.of_nat 8) at 2. rewrite crc_bits_shift.
  f_equal. unfold x. change (Z.of_nat 8) with 8. rewrite Z.shiftr_lxor.
  assert (Z.shiftr b 8 = 0) as ->; [|by rewrite Z.lxor_0_r].
  unfold is_byte in Hb. apply shiftr_zero_range; simpl; lia.
Qed.

(** ** The checksum *)

Lemma update_app s l1 l2 : update s (l1 ++ l2) = update (update s l1) l2.
Proof. apply foldl_app. Qed.

(** Processing a byte string is one division of the word it spells. *)
Lemma update_word l s :
  is_crc s → Forall is_byte l →
  is_crc (update s l) ∧ update s l = crc_bits (8 * length l) (Z.lxor s (le_word l)).
Proof.
  intros Hs Hl. revert s Hs. induction Hl as [|b l Hb Hl IH]; intros s Hs.
  { split; [done|]. simpl. by rewrite Z.lxor_0_r. }
  cbn [update foldl]. rewrite update_byte_bits by (unfold is_crc in Hs; lia || done).
  assert (is_crc (Z.lxor s b)) as Hx.
  { apply lxor_range; [lia|done|]. unfold is_byte in Hb. simpl. lia. }
  destruct (IH (crc_bits 8 (Z.lxor s b)) (crc_bits_range 8 _ Hx)) as [Hr E]. split; [done|].
  fold (update (crc_bits 8 (Z.lxor s b)) l). rewrite E. cbn [le_word length].
  rewrite lor_byte_xor, <- Z.lxor_assoc by done.
  rewrite <- (crc_bits_shift 8 (le_word l)) at 1. rewrite <- crc_bits_lxor, <- crc_bits_add.
  f_equal. lia.
Qed.

(** C37: The table-driven CRC-32C equals the bit-by-bit division by the reflected
    polynomial on every byte string. *)
Theorem table_matches_division data : Forall is_byte data → compute data = reference data.
Proof.
  intros Hd. unfold compute, reference. f_equal. assert (is_crc crc_init) as Hs by (vm_compute; split; congruence).
  revert Hs. generalize crc_init as s. unfold update.
  induction Hd as [|b l Hb Hl IH]; intros s Hs; [done|]. cbn [foldl].
  rewrite update_byte_bits by (unfold is_crc in Hs; lia || done). apply IH, crc_bits_range.
  apply lxor_range; [lia|done|]. unfold is_byte in Hb. simpl. lia.
Qed.

Lemma update_inj l a b : is_crc a → is_crc b → Forall is_byte l → update a l = update b l → a = b.
Proof.
  intros Ha Hb Hl. rewrite (proj2 (update_word l a Ha Hl)), (proj2 (update_word l b Hb Hl)).
  rewrite !crc_bits_lxor. intros E. apply (f_equal (Z.lxor (crc_bits (8 * length l) (le_word l)))) in E.
  rewrite !(Z.lxor_comm (crc_bits _ (le_word l))), !Z.lxor_assoc, Z.lxor_nilpotent, !Z.lxor_0_r in E.
  by apply crc_bits_inj in E.
Qed.

Lemma crc_value_inj a b : crc_value a = crc_value b → a = b.
Proof.
  unfold crc_value. intros E. apply (f_equal (fun x => Z.lxor x 0xFFFFFFFF)) in E.
  by rewrite !Z.lxor_assoc, Z.lxor_nilpotent, !Z.lxor_0_r in E.
Qed.

(** An error confined to four adjacent bytes changes the checksum. *)
Lemma burst_errors_detected pre x y post :
  Forall is_byte pre → Forall is_byte x → Forall is_byte y → Forall is_byte post →
  length x = length y → (length x ≤ 4)%nat →
  compute (pre ++ x ++ post) = compute (pre ++ y ++ post) → x = y.
Proof.
  intros Hpre Hx Hy Hpost Hlen H4. unfold compute. intros E%crc_value_inj. rewrite !update_app in E.
  assert (is_crc crc_init) as Hi by (vm_compute; split; congruence).
  destruct (update_word pre crc_init Hi Hpre) as [Hs _]. set (s := update crc_init pre) in *.
  destruct (update_word x s Hs Hx) as [Rx Ex], (update_word y s Hs Hy) as [Ry Ey].
  apply update_inj in E; [|done..]. rewrite Ex, Ey, Hlen in E.
  assert (∀ l, Forall is_byte l → (length l ≤ 4)%nat → is_crc (le_word l)) as Hw.
  { intros l Hl H. pose proof (le_word_range l Hl). unfold is_crc. split; [lia|].
    apply (Z.lt_le_trans _ (256 ^ Z.of_nat (length l))); [lia|].
    change (2 ^ 32) with (256 ^ 4). apply Z.pow_le_mono_r; lia. }
  apply crc_bits_inj in E; [|apply lxor_range; [lia|done|apply Hw; [done|lia]]..].
  apply (f_equal (Z.lxor s)) in E. rewrite <- !Z.lxor_assoc, Z.lxor_nilpotent, !Z.lxor_0_l in E.
  by apply le_word_inj in E.
Qed.

Lemma compute_range data : Forall is_byte data → 0 ≤ compute data < 256 ^ Z.of_nat 4.
Proof.
  intros Hd. assert (is_crc crc_init) as Hi by (vm_compute; split; congruence).
  apply (lxor_range 32); [lia|apply (update_word data _ Hi Hd)|vm_compute; split; congruence].
Qed.

(** The checksum of a byte string followed by four bytes depends on nothing when
    they spell its checksum, and only then. *)
Definition residue : Z := crc_value (crc_bits 32 0xFFFFFFFF).

Lemma compute_residue data trailer :
  Forall is_byte data → Forall is_byte trailer → length trailer = 4%nat →
  compute data = le_word trailer ↔ compute (data ++ trailer) = residue.
Proof.
  intros Hd Ht H4. assert (is_crc crc_init) as Hi by (vm_compute; split; congruence).
  destruct (update_word data _ Hi Hd) as [Hs _].
  pose proof (le_word_range trailer Ht) as Hw. rewrite H4 in Hw.
  unfold compute, residue. rewrite update_app, (proj2 (update_word trailer _ Hs Ht)), H4.
  set (s := update crc_init data) in *. change (8 * 4)%nat with 32%nat. unfold crc_value at 1. split.
  - intros <-. do 2 f_equal. by rewrite <- Z.lxor_assoc, Z.lxor_nilpotent.
  - intros E%crc_value_inj. apply crc_bits_inj in E.
    + apply (f_equal (Z.lxor s)) in E. rewrite <- Z.lxor_assoc, Z.lxor_nilpotent, Z.lxor_0_l in E. congruence.
    + by apply (lxor_range 32).
    + vm_compute. split; congruence.
Qed.

(** The check value of the CRC catalogue. *)
Example compute_check : compute [49; 50; 51; 52; 53; 54; 55; 56; 57] = 0xE3069283.
Proof. vm_compute. reflexivity. Qed.
