(* ===== verification/Codec.v ===== *)
(** * The bounded binary codec

    Models include/itf/codec.hpp and src/codec.cpp. A [Writer] appends
    little-endian fields to a buffer under a limit and remembers its first
    failure; a [Reader] consumes a byte string under a limit, answers a default
    after its first failure and never moves again. A method that returns
    [*this] is a function on writers, a read is a function from readers to a
    value and a reader. [size_t] quantities are [Z]; the buffers they measure fit
    in memory, so that their sums do not wrap. *)

From S2P Require Import Prelude Ids Bytes.

Definition kMaxFieldStringBytes : Z := 4096.
Definition kMaxFramePayloadBytes : Z := 4 * 1024 * 1024.
Definition kMaxSnapshotPayloadBytes : Z := 32 * 1024 * 1024.
Definition kMaxCollectionEntries : Z := 65536.

Definition len {A} (l : list A) : Z := Z.of_nat (length l).

(** ** Text *)

Definition is_continuation (b : Z) : bool := Z.land b 0xC0 ≟ 0x80.

Definition add_continuation (code_point b : Z) : Z :=
  Z.lor (Z.shiftl code_point 6) (Z.land b 0x3F).

(** The tests on the code point of a sequence with [extra] continuations. *)
Definition code_point_ok (extra code_point : Z) : bool :=
  negb ((extra ≟ 1) && (code_point <? 0x80))
  && negb ((extra ≟ 2) && (code_point <? 0x800))
  && negb ((extra ≟ 3) && (code_point <? 0x10000))
  && negb ((0xD800 <=? code_point) && (code_point <=? 0xDFFF))
  && (code_point <=? 0x10FFFF).

Fixpoint is_valid_utf8 (text : list Z) : bool :=
  match text with
  | [] => true
  | lead :: rest =>
      if lead <? 0x80 then is_valid_utf8 rest
      else if Z.land lead 0xE0 ≟ 0xC0 then
        match rest with
        | c1 :: rest =>
            is_continuation c1
            && code_point_ok 1 (add_continuation (Z.land lead 0x1F) c1)
            && is_valid_utf8 rest
        | _ => false
        end
      else if Z.land lead 0xF0 ≟ 0xE0 then
        match rest with
        | c1 :: c2 :: rest =>
            is_continuation c1 && is_continuation c2
            && code_point_ok 2 (add_continuation (add_continuation (Z.land lead 0x0F) c1) c2)
            && is_valid_utf8 rest
        | _ => false
        end
      else if Z.land lead 0xF8 ≟ 0xF0 then
        match rest with
        | c1 :: c2 :: c3 :: rest =>
            is_continuation c1 && is_continuation c2 && is_continuation c3
            && code_point_ok 3
                 (add_continuation (add_continuation (add_continuation (Z.land lead 0x07) c1) c2) c3)
            && is_valid_utf8 rest
        | _ => false
        end
      else false
  end.

Definition is_label_byte (value : Z) : bool :=
  ((48 <=? value) && (value <=? 57)) || ((97 <=? value) && (value <=? 122))
  || ((65 <=? value) && (value <=? 90))
  || (value ≟ 46) || (value ≟ 95) || (value ≟ 45) || (value ≟ 58).

Definition is_safe_label (text : list Z) : bool :=
  match text with [] => false | _ => negb (128 <? len text) && forallb is_label_byte text end.

(** ** Stores and loads *)

(** The loop of [store_u16], [store_u32] and [store_u64]. *)
Definition store (n : nat) (value : Z) : list Z :=
  (fun i => Z.land (Z.shiftr value (8 * i)) 0xFF) <$> seqZ 0 (Z.of_nat n).

(** The loop of the reads: byte [i] lands at bit [8 * i]. *)
Definition load (n : nat) (data : list Z) (offset : Z) : Z :=
  foldl (fun value i => Z.lor value (Z.shiftl (nth (Z.to_nat (offset + i)) data 0) (8 * i)))
    0 (seqZ 0 (Z.of_nat n)).

(** ** Writer *)

Module Writer.

Record t := Make { buffer : list Z; limit : Z; failure : StatusCode.t }.

Definition make (limit : Z) : t := Make [] limit StatusCode.Ok.

Definition ok (w : t) : bool := failure w ≟ StatusCode.Ok.

Definition fail (code : StatusCode.t) (w : t) : t :=
  if failure w ≟ StatusCode.Ok then Make (buffer w) (limit w) code else w.

Definition append (bytes : list Z) (w : t) : t := Make (buffer w ++ bytes) (limit w) (failure w).

(** [reserve_field] followed by the stores it guards. *)
Definition field (bytes : list Z) (w : t) : t :=
  if negb (ok w) then w
  else if (limit w <? len bytes) || (limit w - len bytes <? len (buffer w))
    then fail StatusCode.BoundsExceeded w
  else append bytes w.

Definition u8 (value : Z) : t → t := field [value].
Definition u16 (value : Z) : t → t := field (store 2 value).
Definition u32 (value : Z) : t → t := field (store 4 value).
Definition u64 (value : Z) : t → t := field (store 8 value).
Definition i64 (value : Z) : t → t := u64 (to_u64 value).
Definition boolean (value : bool) : t → t := u8 (if value then 1 else 0).
Definition raw (bytes : list Z) : t → t := field bytes.

Definition bytes_field (bytes : list Z) (w : t) : t :=
  if kMaxFramePayloadBytes <? len bytes then fail StatusCode.BoundsExceeded w
  else raw bytes (u32 (wrap32 (len bytes)) w).

Definition string_field (text : list Z) (w : t) : t :=
  if kMaxFieldStringBytes <? len text then fail StatusCode.BoundsExceeded w
  else if negb (is_valid_utf8 text) then fail StatusCode.MalformedInput w
  else bytes_field text w.

Definition id (value : Id128) (w : t) : t := u64 (low value) (u64 (high value) w).
Definition generation (value : Z) : t → t := u64 value.
Definition enumeration `{Enum E} (value : E) : t → t := u16 (enum_code value).

End Writer.

(** ** Reader *)

Module Reader.

Record t := Make { data : list Z; offset : Z; limit : Z; failure : StatusCode.t }.

Definition fail (code : StatusCode.t) (r : t) : t :=
  if failure r ≟ StatusCode.Ok then Make (data r) (offset r) (limit r) code else r.

Definition make (data : list Z) (limit : Z) : t :=
  let r := Make data 0 limit StatusCode.Ok in
  if limit <? len data then fail StatusCode.BoundsExceeded r else r.

Definition ok (r : t) : bool := failure r ≟ StatusCode.Ok.

Definition remaining (r : t) : Z := if ok r then len (data r) - offset r else 0.

Definition require (count : Z) (r : t) : bool * t :=
  if negb (ok r) then (false, r)
  else if (len (data r) <? count) || (len (data r) - count <? offset r)
    then (false, fail StatusCode.MalformedInput r)
  else (true, r).

Definition advance (count : Z) (r : t) : t :=
  Make (data r) (offset r + count) (limit r) (failure r).

(** An unsigned field of [n] bytes. *)
Definition fixed (n : nat) (r : t) : Z * t :=
  let '(granted, r) := require (Z.of_nat n) r in
  if granted then (load n (data r) (offset r), advance (Z.of_nat n) r) else (0, r).

Definition u8 : t → Z * t := fixed 1.
Definition u16 : t → Z * t := fixed 2.
Definition u32 : t → Z * t := fixed 4.
Definition u64 : t → Z * t := fixed 8.

Definition i64 (r : t) : Z * t := let '(value, r) := u64 r in (to_i64 value, r).

Definition boolean (r : t) : bool * t :=
  let '(value, r) := u8 r in
  if negb (ok r) then (false, r)
  else if value >? 1 then (false, fail StatusCode.MalformedInput r)
  else (value ≟ 1, r).

Definition count (max_entries : Z) (r : t) : Z * t :=
  let '(value, r) := u32 r in
  if negb (ok r) then (0, r)
  else if value >? max_entries then (0, fail StatusCode.BoundsExceeded r)
  else (value, r).

Definition raw (count : Z) (r : t) : list Z * t :=
  let '(granted, r) := require count r in
  if negb granted then ([], r)
  else if count >? limit r then ([], fail StatusCode.BoundsExceeded r)
  else (take (Z.to_nat count) (drop (Z.to_nat (offset r)) (data r)), advance count r).

Definition bytes_field (r : t) : list Z * t :=
  let '(length, r) := u32 r in
  if negb (ok r) then ([], r) else raw length r.

Definition string_field (r : t) : list Z * t :=
  let '(bytes, r) := bytes_field r in
  if negb (ok r) then ([], r)
  else if len bytes >? kMaxFieldStringBytes then ([], fail StatusCode.BoundsExceeded r)
  else if negb (is_valid_utf8 bytes) then ([], fail StatusCode.MalformedInput r)
  else (bytes, r).

(** The enumerator with a code below the exclusive bound; [zero] is the
    enumerator with code zero. *)
Definition enumeration `{Enum E} (zero max_exclusive : E) (r : t) : E * t :=
  let '(value, r) := u16 r in
  if negb (ok r) then (zero, r)
  else if enum_code max_exclusive <=? value then (zero, fail StatusCode.MalformedInput r)
  else (default zero (enum_of_code value), r).

Definition id (r : t) : Id128 * t :=
  let '(h, r) := u64 r in
  let '(l, r) := u64 r in
  if negb (ok r) then (nil_id, r)
  else (MkId h l, if (h ≟ 0) && (l ≟ 0) then fail StatusCode.MalformedInput r else r).

Definition generation (r : t) : Z * t :=
  let '(value, r) := u64 r in
  if negb (ok r) then (0, r)
  else (value, if value ≟ 0 then fail StatusCode.MalformedInput r else r).

Definition finish (r : t) : Status :=
  if negb (ok r) then Failure (failure r)
  else if offset r ≠? len (data r) then Failure StatusCode.TrailingGarbage
  else Success tt.

End Reader.
