(* ===== verification/Utf8.v ===== *)
(** * The text validator

    [is_valid_utf8] of src/codec.cpp is the guard every string field passes. It
    is compared here with the definition of UTF-8: a byte string is accepted
    exactly when it is the encoding of a sequence of Unicode scalar values, each
    in its shortest form. *)

From S2P Require Import Prelude Bytes Codec.

(** ** The reference *)

Definition is_scalar (c : Z) : Prop := 0 ≤ c ≤ 0x10FFFF ∧ ¬ (0xD800 ≤ c ≤ 0xDFFF).

Definition utf8_encode (c : Z) : list Z :=
  if c <? 0x80 then [c]
  else if c <? 0x800 then [192 + c / 64; 128 + c mod 64]
  else if c <? 0x10000 then [224 + c / 4096; 128 + (c / 64) mod 64; 128 + c mod 64]
  else [240 + c / 262144; 128 + (c / 4096) mod 64; 128 + (c / 64) mod 64; 128 + c mod 64].

(** ** The masks, by enumeration of the bytes *)

Lemma byte_cases (P : Z → bool) : forallb P (seqZ 0 256) = true → ∀ b, is_byte b → P b = true.
Proof.
  intros H b Hb. rewrite forallb_forall in H. apply H. apply list_elem_of_In, elem_of_seqZ.
  unfold is_byte in Hb. lia.
Qed.

Lemma byte_test (f g : Z → bool) :
  forallb (fun b => Bool.eqb (f b) (g b)) (seqZ 0 256) = true → ∀ b, is_byte b → f b = g b.
Proof. intros H b Hb. apply Bool.eqb_prop. by apply (byte_cases (fun b => Bool.eqb (f b) (g b))). Qed.

Definition between (lo hi b : Z) : bool := (lo <=? b) && (b <? hi).

Lemma between_spec lo hi b : between lo hi b = true ↔ lo ≤ b < hi.
Proof. unfold between. rewrite andb_true_iff, Z.leb_le, Z.ltb_lt. done. Qed.

Lemma is_continuation_between b : is_byte b → is_continuation b = between 128 192 b.
Proof. revert b. refine (byte_test is_continuation (between 128 192) _). vm_compute. reflexivity. Qed.
Lemma lead2_between b : is_byte b → (Z.land b 0xE0 ≟ 0xC0) = between 192 224 b.
Proof. revert b. refine (byte_test (fun b => Z.land b 0xE0 ≟ 0xC0) (between 192 224) _). vm_compute. reflexivity. Qed.
Lemma lead3_between b : is_byte b → (Z.land b 0xF0 ≟ 0xE0) = between 224 240 b.
Proof. revert b. refine (byte_test (fun b => Z.land b 0xF0 ≟ 0xE0) (between 224 240) _). vm_compute. reflexivity. Qed.
Lemma lead4_between b : is_byte b → (Z.land b 0xF8 ≟ 0xF0) = between 240 248 b.
Proof. revert b. refine (byte_test (fun b => Z.land b 0xF8 ≟ 0xF0) (between 240 248) _). vm_compute. reflexivity. Qed.

Lemma add_continuation_spec cp b : 0 ≤ cp → 128 ≤ b < 192 → add_continuation cp b = 64 * cp + (b - 128).
Proof.
  intros Hcp Hb. unfold add_continuation. change 0x3F with (Z.ones 6). rewrite Z.land_ones by lia.
  assert (b mod 2 ^ 6 = b - 128) as ->.
  { change (2 ^ 6) with 64. symmetry. apply (Zmod_unique _ _ 2); lia. }
  rewrite Z.shiftl_mul_pow2, Z.lor_comm by lia. change (2 ^ 6) with 64.
  pose proof (Z.add_lor_land (b - 128) (cp * 64)) as E.
  assert (Z.land (b - 128) (cp * 64) = 0) as Hand; [|lia]. clear E.
  apply Z.bits_inj'. intros i Hi. rewrite Z.land_spec, Z.bits_0. change 64 with (2 ^ 6).
  destruct (decide (i < 6)).
  - rewrite Z.mul_pow2_bits_low by lia. apply andb_false_r.
  - rewrite (testbit_high _ 6) by (simpl; lia). done.
Qed.

Lemma code_point_ok_spec extra c lo :
  (extra, lo) ∈ [(1, 0x80); (2, 0x800); (3, 0x10000)] → 0 ≤ c →
  code_point_ok extra c = true ↔ lo ≤ c ∧ is_scalar c.
Proof.
  intros H Hc. unfold code_point_ok, is_scalar. rewrite !andb_true_iff, !negb_true_iff, !andb_false_iff.
  rewrite !Z.ltb_ge, !Z.leb_gt, Z.leb_le. set_unfold in H.
  destruct H as [H|[H|[H|[]]]]; simplify_eq; simpl; naive_solver lia.
Qed.

(** ** One sequence *)

Lemma land_low k q b :
  0 ≤ k → q * 2 ^ k ≤ b < (q + 1) * 2 ^ k → Z.land b (Z.ones k) = b - q * 2 ^ k.
Proof. intros Hk Hb. rewrite Z.land_ones by done. symmetry. apply (Zmod_unique _ _ q); lia. Qed.

Lemma lead2_bits b : 192 ≤ b < 224 → Z.land b 0x1F = b - 192.
Proof. intros Hb. apply (land_low 5 6); simpl; lia. Qed.
Lemma lead3_bits b : 224 ≤ b < 240 → Z.land b 0x0F = b - 224.
Proof. intros Hb. apply (land_low 4 14); simpl; lia. Qed.
Lemma lead4_bits b : 240 ≤ b < 248 → Z.land b 0x07 = b - 240.
Proof. intros Hb. apply (land_low 3 30); simpl; lia. Qed.

Lemma not_between lo hi b : b < lo ∨ hi ≤ b → between lo hi b = false.
Proof. intros H. apply not_true_iff_false. rewrite between_spec. lia. Qed.

(** The code point two, three and four bytes spell. *)
Definition point2 (b0 b1 : Z) : Z := 64 * (b0 - 192) + (b1 - 128).
Definition point3 (b0 b1 b2 : Z) : Z := 64 * (64 * (b0 - 224) + (b1 - 128)) + (b2 - 128).
Definition point4 (b0 b1 b2 b3 : Z) : Z :=
  64 * (64 * (64 * (b0 - 240) + (b1 - 128)) + (b2 - 128)) + (b3 - 128).

Ltac solve_encode c :=
  unfold utf8_encode;
  repeat lazymatch goal with
  | |- context [c <? ?k] => let H := fresh in destruct (Z.ltb_spec c k) as [H|H]; try (exfalso; lia)
  end;
  repeat f_equal; Z.to_euclidean_division_equations; lia.

Lemma encode_point2 b0 b1 :
  192 ≤ b0 < 224 → 128 ≤ b1 < 192 → 0x80 ≤ point2 b0 b1 → utf8_encode (point2 b0 b1) = [b0; b1].
Proof.
  unfold point2. intros H0 H1 Hc. remember (64 * (b0 - 192) + (b1 - 128)) as c eqn:Ec. solve_encode c.
Qed.
Lemma encode_point3 b0 b1 b2 :
  224 ≤ b0 < 240 → 128 ≤ b1 < 192 → 128 ≤ b2 < 192 → 0x800 ≤ point3 b0 b1 b2 →
  utf8_encode (point3 b0 b1 b2) = [b0; b1; b2].
Proof.
  unfold point3. intros H0 H1 H2 Hc.
  remember (64 * (64 * (b0 - 224) + (b1 - 128)) + (b2 - 128)) as c eqn:Ec. solve_encode c.
Qed.
Lemma encode_point4 b0 b1 b2 b3 :
  240 ≤ b0 < 248 → 128 ≤ b1 < 192 → 128 ≤ b2 < 192 → 128 ≤ b3 < 192 → 0x10000 ≤ point4 b0 b1 b2 b3 →
  utf8_encode (point4 b0 b1 b2 b3) = [b0; b1; b2; b3].
Proof.
  unfold point4. intros H0 H1 H2 H3 Hc.
  remember (64 * (64 * (64 * (b0 - 240) + (b1 - 128)) + (b2 - 128)) + (b3 - 128)) as c eqn:Ec.
  solve_encode c.
Qed.

(** The validator on a sequence with a lead byte of each kind. *)
Lemma valid2 b0 b1 rest :
  192 ≤ b0 < 224 → is_byte b1 →
  is_valid_utf8 (b0 :: b1 :: rest) = true
  ↔ (128 ≤ b1 < 192 ∧ 0x80 ≤ point2 b0 b1 ∧ is_scalar (point2 b0 b1)) ∧ is_valid_utf8 rest = true.
Proof.
  intros H0 H1. assert (is_byte b0) by (unfold is_byte; lia). cbn [is_valid_utf8].
  destruct (Z.ltb_spec b0 0x80); [lia|]. rewrite lead2_between, (proj2 (between_spec 192 224 b0)) by done.
  rewrite !andb_true_iff, is_continuation_between, between_spec, lead2_bits by done.
  assert (128 ≤ b1 < 192 → code_point_ok 1 (add_continuation (b0 - 192) b1) = true
          ↔ 0x80 ≤ point2 b0 b1 ∧ is_scalar (point2 b0 b1)) as Hk; [|tauto].
  intros Hc. rewrite add_continuation_spec by lia. apply code_point_ok_spec; [set_solver|unfold point2, point3, point4; lia].
Qed.

Lemma valid3 b0 b1 b2 rest :
  224 ≤ b0 < 240 → is_byte b1 → is_byte b2 →
  is_valid_utf8 (b0 :: b1 :: b2 :: rest) = true
  ↔ (128 ≤ b1 < 192 ∧ 128 ≤ b2 < 192 ∧ 0x800 ≤ point3 b0 b1 b2 ∧ is_scalar (point3 b0 b1 b2))
    ∧ is_valid_utf8 rest = true.
Proof.
  intros H0 H1 H2. assert (is_byte b0) by (unfold is_byte; lia). cbn [is_valid_utf8].
  destruct (Z.ltb_spec b0 0x80); [lia|]. rewrite lead2_between, (not_between 192 224 b0) by (done || lia).
  rewrite lead3_between, (proj2 (between_spec 224 240 b0)) by done.
  rewrite !andb_true_iff, !is_continuation_between, !between_spec, lead3_bits by done.
  assert (128 ≤ b1 < 192 → 128 ≤ b2 < 192 →
          code_point_ok 2 (add_continuation (add_continuation (b0 - 224) b1) b2) = true
          ↔ 0x800 ≤ point3 b0 b1 b2 ∧ is_scalar (point3 b0 b1 b2)) as Hk; [|tauto].
  intros Hc1 Hc2. rewrite (add_continuation_spec _ b1), (add_continuation_spec _ b2) by lia. apply code_point_ok_spec; [set_solver|unfold point2, point3, point4; lia].
Qed.

Lemma valid4 b0 b1 b2 b3 rest :
  240 ≤ b0 < 248 → is_byte b1 → is_byte b2 → is_byte b3 →
  is_valid_utf8 (b0 :: b1 :: b2 :: b3 :: rest) = true
  ↔ (128 ≤ b1 < 192 ∧ 128 ≤ b2 < 192 ∧ 128 ≤ b3 < 192
     ∧ 0x10000 ≤ point4 b0 b1 b2 b3 ∧ is_scalar (point4 b0 b1 b2 b3))
    ∧ is_valid_utf8 rest = true.
Proof.
  intros H0 H1 H2 H3. assert (is_byte b0) by (unfold is_byte; lia). cbn [is_valid_utf8].
  destruct (Z.ltb_spec b0 0x80); [lia|]. rewrite lead2_between, (not_between 192 224 b0) by (done || lia).
  rewrite lead3_between, (not_between 224 240 b0) by (done || lia).
  rewrite lead4_between, (proj2 (between_spec 240 248 b0)) by done.
  rewrite !andb_true_iff, !is_continuation_between, !between_spec, lead4_bits by done.
  assert (128 ≤ b1 < 192 → 128 ≤ b2 < 192 → 128 ≤ b3 < 192 →
          code_point_ok 3 (add_continuation (add_continuation (add_continuation (b0 - 240) b1) b2) b3) = true
          ↔ 0x10000 ≤ point4 b0 b1 b2 b3 ∧ is_scalar (point4 b0 b1 b2 b3)) as Hk; [|tauto].
  intros Hc1 Hc2 Hc3.
  rewrite (add_continuation_spec _ b1), (add_continuation_spec _ b2), (add_continuation_spec _ b3) by lia.
  apply code_point_ok_spec; [set_solver|unfold point2, point3, point4; lia].
Qed.

(** A byte that cannot begin a sequence, or a sequence cut short. *)
Lemma valid_lead b0 rest :
  is_byte b0 → is_valid_utf8 (b0 :: rest) = true →
  b0 < 128 ∨ (192 ≤ b0 < 224 ∧ ∃ b1 t, rest = b1 :: t)
  ∨ (224 ≤ b0 < 240 ∧ ∃ b1 b2 t, rest = b1 :: b2 :: t)
  ∨ (240 ≤ b0 < 248 ∧ ∃ b1 b2 b3 t, rest = b1 :: b2 :: b3 :: t).
Proof.
  intros H0. cbn [is_valid_utf8]. destruct (Z.ltb_spec b0 0x80); [by left|].
  rewrite lead2_between, lead3_between, lead4_between by done.
  destruct (between 192 224 b0) eqn:E2; [apply between_spec in E2; destruct rest; naive_solver|].
  destruct (between 224 240 b0) eqn:E3; [apply between_spec in E3; destruct rest as [|? [|]]; naive_solver|].
  destruct (between 240 248 b0) eqn:E4; [|done].
  apply between_spec in E4. destruct rest as [|? [|? [|]]]; naive_solver.
Qed.

Lemma utf8_decode_step l :
  Forall is_byte l → is_valid_utf8 l = true →
  l = [] ∨ ∃ c rest, is_scalar c ∧ l = utf8_encode c ++ rest ∧ is_valid_utf8 rest = true.
Proof.
  destruct l as [|b0 rest]; [auto|]. intros [H0 Hrest]%Forall_cons Hv. right.
  destruct (valid_lead b0 rest H0 Hv) as [Ha|[(Ha&b1&t&->)|[(Ha&b1&b2&t&->)|(Ha&b1&b2&b3&t&->)]]].
  - exists b0, rest. unfold is_byte in H0. cbn [is_valid_utf8] in Hv. unfold is_scalar, utf8_encode.
    destruct (Z.ltb_spec b0 0x80); [|lia]. split_and!; done || lia.
  - apply Forall_cons in Hrest as [H1 _]. apply valid2 in Hv as [(C1&Lo&Sc) Ht]; [|done..].
    exists (point2 b0 b1), t. by rewrite encode_point2.
  - rewrite !Forall_cons in Hrest. destruct Hrest as (H1&H2&_).
    apply valid3 in Hv as [(C1&C2&Lo&Sc) Ht]; [|done..]. exists (point3 b0 b1 b2), t. by rewrite encode_point3.
  - rewrite !Forall_cons in Hrest. destruct Hrest as (H1&H2&H3&_).
    apply valid4 in Hv as [(C1&C2&C3&Lo&Sc) Ht]; [|done..].
    exists (point4 b0 b1 b2 b3), t. by rewrite encode_point4.
Qed.

(** ** Whole strings *)

(** The bounds on the bytes of an encoded scalar value, and what they spell. *)
Lemma encode_shape c :
  is_scalar c →
  (utf8_encode c = [c] ∧ 0 ≤ c < 128)
  ∨ (∃ b0 b1, utf8_encode c = [b0; b1] ∧ c = point2 b0 b1 ∧ 0x80 ≤ c ∧ 192 ≤ b0 < 224 ∧ 128 ≤ b1 < 192)
  ∨ (∃ b0 b1 b2, utf8_encode c = [b0; b1; b2] ∧ c = point3 b0 b1 b2 ∧ 0x800 ≤ c
       ∧ 224 ≤ b0 < 240 ∧ 128 ≤ b1 < 192 ∧ 128 ≤ b2 < 192)
  ∨ (∃ b0 b1 b2 b3, utf8_encode c = [b0; b1; b2; b3] ∧ c = point4 b0 b1 b2 b3 ∧ 0x10000 ≤ c
       ∧ 240 ≤ b0 < 248 ∧ 128 ≤ b1 < 192 ∧ 128 ≤ b2 < 192 ∧ 128 ≤ b3 < 192).
Proof.
  intros [Hc _]. unfold utf8_encode, point2, point3, point4.
  destruct (Z.ltb_spec c 0x80); [left; split; done || lia|]. right.
  destruct (Z.ltb_spec c 0x800); [left|right; destruct (Z.ltb_spec c 0x10000); [left|right]].
  all: repeat eexists; try done; Z.to_euclidean_division_equations; lia.
Qed.

Lemma utf8_encode_step c rest :
  is_scalar c → is_valid_utf8 (utf8_encode c ++ rest) = is_valid_utf8 rest.
Proof.
  intros Hc. apply Bool.eq_iff_eq_true.
  destruct (encode_shape c Hc) as [(->&Hb)|[(b0&b1&->&->&Lo&B0&B1)|[(b0&b1&b2&->&->&Lo&B0&B1&B2)
    |(b0&b1&b2&b3&->&->&Lo&B0&B1&B2&B3)]]]; cbn [app].
  - cbn [is_valid_utf8]. destruct (Z.ltb_spec c 0x80); [done|lia].
  - rewrite valid2; [tauto|done|unfold is_byte; lia].
  - rewrite valid3; [tauto|done|unfold is_byte; lia..].
  - rewrite valid4; [tauto|done|unfold is_byte; lia..].
Qed.

(** C36: The UTF-8 validator accepts a byte string exactly when it is the shortest-form
    encoding of a sequence of Unicode scalar values: no overlong forms, surrogates,
    truncated sequences or values above U+10FFFF. *)
Theorem utf8_validator_correct text :
  Forall is_byte text →
  is_valid_utf8 text = true ↔ ∃ cs, Forall is_scalar cs ∧ text = cs ≫= utf8_encode.
Proof.
  intros Hb. split.
  - induction text as [text IH] using (well_founded_induction (well_founded_ltof _ length)).
    intros Hv. destruct (utf8_decode_step text Hb Hv) as [->|(c&rest&Hc&->&Hrest)]; [by exists []|].
    destruct (IH rest) as (cs&Hcs&->); [|by apply Forall_app in Hb as []|done|].
    + unfold ltof. rewrite length_app. destruct (utf8_encode c) eqn:E; [|simpl; lia].
      unfold utf8_encode in E. by repeat case_match.
    + exists (c :: cs). split; [by constructor|]. by rewrite bind_cons.
  - intros (cs&Hcs&->). clear Hb. induction Hcs as [|c cs Hc _ IH]; [done|].
    by rewrite bind_cons, utf8_encode_step.
Qed.
