(* ===== verification/CodecProps.v ===== *)
(** * Laws of the codec

    Two relations carry every round trip: [writes f l] says that the writer
    operation [f] appends exactly the bytes [l] or fails, and [reads m l x] that
    the read [m] consumes exactly [l] and answers [x]. Both compose along the
    sequence of fields, so that a record decoder is the inverse of its encoder as
    soon as each field is. [yields m P] speaks of bytes nobody vouches for: the
    read stays inside its input, and what it answers without failing satisfies
    [P]. *)

From S2P Require Import Prelude Ids Bytes Codec.

(** ** Stores and loads *)

Lemma store_from v n : ∀ m, 0 ≤ m →
  (fun i => Z.land (Z.shiftr v (8 * i)) 255) <$> seqZ m (Z.of_nat n) = le_bytes n (Z.shiftr v (8 * m)).
Proof.
  induction n as [|n IH]; intros m Hm; [done|].
  rewrite seqZ_cons by lia. cbn [fmap list_fmap le_bytes]. f_equal.
  replace (Z.pred (Z.of_nat (S n))) with (Z.of_nat n) by lia. rewrite IH by lia.
  rewrite Z.shiftr_shiftr by lia. do 2 f_equal. lia.
Qed.

Lemma store_le n v : store n v = le_bytes n v.
Proof. unfold store. rewrite store_from by lia. by rewrite Z.shiftr_0_r. Qed.

Lemma load_from data n : ∀ m acc offset, 0 ≤ m → 0 ≤ offset →
  offset + m + Z.of_nat n ≤ len data →
  foldl (fun value i => Z.lor value (Z.shiftl (nth (Z.to_nat (offset + i)) data 0) (8 * i)))
    acc (seqZ m (Z.of_nat n))
  = Z.lor acc (Z.shiftl (le_word (take n (drop (Z.to_nat (offset + m)) data))) (8 * m)).
Proof.
  induction n as [|n IH]; intros m acc offset Hm Ho Hl.
  { simpl. by rewrite Z.shiftl_0_l, Z.lor_0_r. }
  rewrite seqZ_cons by lia. cbn [foldl]. replace (Z.pred (Z.of_nat (S n))) with (Z.of_nat n) by lia.
  rewrite IH by (unfold len in *; lia).
  destruct (drop (Z.to_nat (offset + m)) data) as [|b rest] eqn:E.
  { apply (f_equal length) in E. rewrite length_drop in E. unfold len in Hl. simpl in E. lia. }
  assert (data !! Z.to_nat (offset + m) = Some b) as Hb.
  { rewrite <- (Nat.add_0_r (Z.to_nat (offset + m))), <- lookup_drop, E. done. }
  apply (nth_lookup_Some _ _ 0) in Hb. rewrite Hb.
  replace (Z.to_nat (offset + Z.succ m)) with (Z.to_nat (offset + m) + 1)%nat by lia.
  rewrite <- drop_drop, E. cbn [take drop skipn firstn le_word].
  rewrite Z.shiftl_lor, Z.shiftl_shiftl, <- Z.lor_assoc by lia. do 3 f_equal. lia.
Qed.

Lemma load_le n data offset :
  0 ≤ offset → offset + Z.of_nat n ≤ len data →
  load n data offset = le_word (take n (drop (Z.to_nat offset) data)).
Proof.
  intros Ho Hl. unfold load. rewrite load_from by lia.
  by rewrite Z.add_0_r, Z.shiftl_0_r, Z.lor_0_l.
Qed.

(** ** What a write appends *)

Definition fits (w : Writer.t) (l : list Z) : Prop :=
  len (Writer.buffer w) + len l ≤ Writer.limit w.

Definition within (w : Writer.t) : Prop := fits w [].

(** A failed writer does not move; a working one appends [l] when it fits and
    fails otherwise. *)
Record writes (f : Writer.t → Writer.t) (l : list Z) : Prop := {
  wr_failed : ∀ w, Writer.ok w = false → f w = w;
  wr_fits : ∀ w, Writer.ok w = true → within w → fits w l → f w = Writer.append l w;
  wr_full : ∀ w, Writer.ok w = true → within w → ¬ fits w l → Writer.ok (f w) = false;
}.

Lemma append_nil w : Writer.append [] w = w.
Proof. destruct w. unfold Writer.append. simpl. by rewrite app_nil_r. Qed.

Lemma append_app a b w : Writer.append b (Writer.append a w) = Writer.append (a ++ b) w.
Proof. unfold Writer.append. simpl. by rewrite app_assoc. Qed.

Lemma len_app {A} (a b : list A) : len (a ++ b) = len a + len b.
Proof. unfold len. rewrite length_app. lia. Qed.

Lemma len_nonneg {A} (a : list A) : 0 ≤ len a.
Proof. unfold len. lia. Qed.

Lemma fits_append w a b : fits (Writer.append a w) b ↔ fits w (a ++ b).
Proof. unfold fits. simpl. rewrite !len_app. lia. Qed.

Lemma fits_prefix w a b : fits w (a ++ b) → fits w a.
Proof. unfold fits. rewrite len_app. pose proof (len_nonneg b). lia. Qed.

Lemma writes_field l : writes (Writer.field l) l.
Proof.
  split; intros w Hw; unfold Writer.field; rewrite Hw; cbn [negb]; [done|..]; intros _ Hf.
  - unfold fits in Hf. pose proof (len_nonneg (Writer.buffer w)).
    destruct (Z.ltb_spec (Writer.limit w) (len l)); [lia|].
    destruct (Z.ltb_spec (Writer.limit w - len l) (len (Writer.buffer w))); [lia|done].
  - unfold fits in Hf.
    destruct (Z.ltb_spec (Writer.limit w - len l) (len (Writer.buffer w))); [|lia].
    rewrite orb_true_r. unfold Writer.fail. unfold Writer.ok in Hw. by rewrite Hw.
Qed.

Lemma writes_nil : writes (fun w => w) [].
Proof. split; intros w Hw; [done|by rewrite append_nil|done]. Qed.

Lemma writes_seq f g a b : writes f a → writes g b → writes (fun w => g (f w)) (a ++ b).
Proof.
  intros [F1 F2 F3] [G1 G2 G3]. split; intros w Hw; [by rewrite F1, G1|..]; intros Hin Hf.
  - pose proof (fits_prefix _ _ _ Hf). rewrite F2, G2, append_app; try done.
    + unfold within. rewrite fits_append, app_nil_r. done.
    + by rewrite fits_append.
  - destruct (Z.le_gt_cases (len (Writer.buffer w) + len a) (Writer.limit w)) as [Ha|Ha].
    + rewrite F2 by done. apply G3; [done| |by rewrite fits_append].
      unfold within. rewrite fits_append, app_nil_r. done.
    + assert (Writer.ok (f w) = false) as Hk by (apply F3; [done..|unfold fits; lia]).
      by rewrite G1.
Qed.

Lemma writes_ext f g l : (∀ w, g w = f w) → writes f l → writes g l.
Proof. intros E [F1 F2 F3]. split; intros w; rewrite E; auto. Qed.

(** A fresh writer that ends well holds exactly the bytes. *)
Lemma writes_buffer f l limit :
  writes f l → 0 ≤ limit → Writer.ok (f (Writer.make limit)) = true →
  Writer.buffer (f (Writer.make limit)) = l ∧ len l ≤ limit.
Proof.
  intros [_ F2 F3] Hl Hok. assert (within (Writer.make limit)) by done.
  destruct (Z.le_gt_cases (len l) limit) as [Hf|Hf].
  - rewrite F2 by done. done.
  - exfalso. rewrite F3 in Hok; [done|done|done|]. unfold fits, len in *. simpl. lia.
Qed.

Lemma writes_u8 v : writes (Writer.u8 v) [v].
Proof. apply writes_field. Qed.
Lemma writes_u16 v : writes (Writer.u16 v) (le_bytes 2 v).
Proof. unfold Writer.u16. rewrite store_le. apply writes_field. Qed.
Lemma writes_u32 v : writes (Writer.u32 v) (le_bytes 4 v).
Proof. unfold Writer.u32. rewrite store_le. apply writes_field. Qed.
Lemma writes_u64 v : writes (Writer.u64 v) (le_bytes 8 v).
Proof. unfold Writer.u64. rewrite store_le. apply writes_field. Qed.

(** ** What a read consumes *)

(** A working reader that has consumed [pre] and has [rest] before it. *)
Definition reading (limit : Z) (pre rest : list Z) : Reader.t :=
  Reader.Make (pre ++ rest) (len pre) limit StatusCode.Ok.

Definition reads {A} (m : Reader.t → A * Reader.t) (l : list Z) (x : A) : Prop :=
  ∀ limit pre rest, len (pre ++ l ++ rest) ≤ limit →
    m (reading limit pre (l ++ rest)) = (x, reading limit (pre ++ l) rest).

Lemma reading_ok limit pre rest : Reader.ok (reading limit pre rest) = true.
Proof. done. Qed.

Lemma reads_ret {A} (x : A) : reads (fun r => (x, r)) [] x.
Proof. intros limit pre rest _. by rewrite app_nil_r. Qed.

Lemma reads_bind {A B} (m : Reader.t → A * Reader.t) (k : A → Reader.t → B * Reader.t) a b x y :
  reads m a x → reads (k x) b y → reads (fun r => let '(x, r) := m r in k x r) (a ++ b) y.
Proof.
  intros Hm Hk limit pre rest Hl. rewrite <- app_assoc. rewrite Hm by by rewrite !app_assoc in *.
  rewrite Hk by by rewrite !app_assoc in *. by rewrite app_assoc.
Qed.

Lemma require_reading limit pre l rest :
  Reader.require (len l) (reading limit pre (l ++ rest)) = (true, reading limit pre (l ++ rest)).
Proof.
  unfold Reader.require. cbn [Reader.ok]. simpl Reader.data. simpl Reader.offset.
  rewrite !len_app. pose proof (len_nonneg pre). pose proof (len_nonneg rest). pose proof (len_nonneg l).
  destruct (Z.ltb_spec (len pre + (len l + len rest)) (len l)); [lia|].
  destruct (Z.ltb_spec (len pre + (len l + len rest) - len l) (len pre)); [lia|]. done.
Qed.

Lemma advance_reading limit pre l rest :
  Reader.advance (len l) (reading limit pre (l ++ rest)) = reading limit (pre ++ l) rest.
Proof. unfold Reader.advance, reading. simpl. by rewrite len_app, app_assoc. Qed.

Lemma to_nat_len {A} (l : list A) : Z.to_nat (len l) = length l.
Proof. unfold len. lia. Qed.

Lemma reads_fixed n v : 0 ≤ v < 256 ^ Z.of_nat n → reads (Reader.fixed n) (le_bytes n v) v.
Proof.
  intros Hv limit pre rest Hl. unfold Reader.fixed.
  assert (Z.of_nat n = len (le_bytes n v)) as En by (unfold len; by rewrite length_le_bytes).
  rewrite En, require_reading, advance_reading. f_equal.
  simpl Reader.data. simpl Reader.offset.
  rewrite load_le; [|apply len_nonneg|].
  - rewrite to_nat_len, drop_app_length, take_app_length' by by rewrite length_le_bytes.
    by apply le_word_bytes.
  - rewrite En, !len_app. pose proof (len_nonneg rest). lia.
Qed.

(** ** Fields *)

Lemma reads_u8 v : is_byte v → reads Reader.u8 [v] v.
Proof.
  intros Hv. replace [v] with (le_bytes 1 v).
  - apply reads_fixed. unfold is_byte in Hv. simpl. lia.
  - simpl. rewrite land_255, Z.mod_small by done. done.
Qed.
Lemma reads_u16 v : 0 ≤ v < 65536 → reads Reader.u16 (le_bytes 2 v) v.
Proof. intros Hv. by apply reads_fixed. Qed.
Lemma reads_u32 v : is_u32 v → reads Reader.u32 (le_bytes 4 v) v.
Proof. intros Hv. by apply reads_fixed. Qed.
Lemma reads_u64 v : is_u64 v → reads Reader.u64 (le_bytes 8 v) v.
Proof. intros Hv. by apply reads_fixed. Qed.

Lemma reads_map {A B} (m : Reader.t → A * Reader.t) (g : A → B) l x :
  reads m l x → reads (fun r => let '(x, r) := m r in (g x, r)) l (g x).
Proof.
  intros Hm. rewrite <- (app_nil_r l). eapply (reads_bind m (fun x r => (g x, r))); [exact Hm|].
  apply reads_ret.
Qed.

Lemma writes_i64 v : writes (Writer.i64 v) (le_bytes 8 (to_u64 v)).
Proof. apply writes_u64. Qed.
Lemma reads_i64 v : is_i64 v → reads Reader.i64 (le_bytes 8 (to_u64 v)) v.
Proof.
  intros Hv. rewrite <- (to_i64_to_u64 v Hv) at 2.
  apply (reads_map Reader.u64 to_i64), reads_u64, wrap64_range.
Qed.

Definition bool_bytes (b : bool) : list Z := [if b then 1 else 0].

Lemma writes_boolean b : writes (Writer.boolean b) (bool_bytes b).
Proof. apply writes_u8. Qed.
Lemma reads_boolean b : reads Reader.boolean (bool_bytes b) b.
Proof.
  intros limit pre rest Hl. unfold Reader.boolean, bool_bytes.
  rewrite reads_u8 by (done || by destruct b). rewrite reading_ok. by destruct b.
Qed.

Definition enum_bytes `{Enum E} (e : E) : list Z := le_bytes 2 (enum_code e).

Lemma writes_enumeration `{Enum E} (e : E) : writes (Writer.enumeration e) (enum_bytes e).
Proof. apply writes_u16. Qed.
Lemma reads_enumeration `{Enum E} (zero bound e : E) :
  0 ≤ enum_code e < enum_code bound → enum_code bound ≤ 65536 →
  reads (Reader.enumeration zero bound) (enum_bytes e) e.
Proof.
  intros He Hb limit pre rest Hl. unfold Reader.enumeration, enum_bytes.
  rewrite reads_u16 by (done || lia). rewrite reading_ok. cbn [negb].
  destruct (Z.leb_spec (enum_code bound) (enum_code e)); [lia|]. by rewrite enum_of_code_code.
Qed.

Lemma writes_generation g : writes (Writer.generation g) (le_bytes 8 g).
Proof. apply writes_u64. Qed.
Lemma reads_generation g : is_u64 g → g ≠ 0 → reads Reader.generation (le_bytes 8 g) g.
Proof.
  intros Hg Hne limit pre rest Hl. unfold Reader.generation.
  rewrite reads_u64 by done. rewrite reading_ok. by rewrite bool_decide_false.
Qed.

Definition id_bytes (x : Id128) : list Z := le_bytes 8 (high x) ++ le_bytes 8 (low x).

Lemma writes_id x : writes (Writer.id x) (id_bytes x).
Proof. apply (writes_seq (Writer.u64 (high x))); apply writes_u64. Qed.
Lemma reads_id x : id_ok x → x ≠ nil_id → reads Reader.id (id_bytes x) x.
Proof.
  intros [Hh Hlo] Hne limit pre rest Hl. unfold Reader.id, id_bytes in *. rewrite <- !app_assoc in *.
  rewrite reads_u64 by done. rewrite reads_u64 by (done || by rewrite <- app_assoc).
  rewrite reading_ok, <- app_assoc. destruct x as [h l]. simpl in *.
  rewrite andb_lazy_alt. repeat case_bool_decide; simplify_eq; done.
Qed.

Lemma reads_count max v : is_u32 v → v ≤ max → reads (Reader.count max) (le_bytes 4 v) v.
Proof.
  intros Hv Hm limit pre rest Hl. unfold Reader.count. rewrite reads_u32 by done.
  rewrite reading_ok, Z.gtb_ltb. destruct (Z.ltb_spec max v); [lia|done].
Qed.

Lemma reads_raw l : reads (Reader.raw (len l)) l l.
Proof.
  intros limit pre rest Hl. unfold Reader.raw. rewrite require_reading. cbn [negb].
  simpl Reader.limit. rewrite Z.gtb_ltb. rewrite !len_app in Hl.
  pose proof (len_nonneg pre). pose proof (len_nonneg rest).
  destruct (Z.ltb_spec limit (len l)); [lia|]. rewrite advance_reading. f_equal.
  simpl. by rewrite !to_nat_len, drop_app_length, take_app_length.
Qed.

Definition blob_bytes (l : list Z) : list Z := le_bytes 4 (len l) ++ l.

Lemma writes_bytes_field l : len l ≤ kMaxFramePayloadBytes → writes (Writer.bytes_field l) (blob_bytes l).
Proof.
  intros Hl. unfold kMaxFramePayloadBytes in Hl. pose proof (len_nonneg l).
  apply (writes_ext (fun w => Writer.raw l (Writer.u32 (len l) w))).
  - intros w. unfold Writer.bytes_field, kMaxFramePayloadBytes.
    destruct (Z.ltb_spec (4 * 1024 * 1024) (len l)); [lia|].
    rewrite wrap32_id; [done|]. unfold is_u32, two32. lia.
  - apply (writes_seq (Writer.u32 (len l))); [apply writes_u32|apply writes_field].
Qed.

Lemma reads_bytes_field l : len l < two32 → reads Reader.bytes_field (blob_bytes l) l.
Proof.
  intros Hl limit pre rest Hlim. pose proof (len_nonneg l). unfold Reader.bytes_field, blob_bytes in *.
  rewrite <- !app_assoc in *. rewrite reads_u32 by (done || unfold is_u32; lia).
  rewrite reading_ok. cbn [negb]. rewrite reads_raw by by rewrite <- app_assoc. by rewrite app_assoc.
Qed.

Lemma writes_string_field l :
  len l ≤ kMaxFieldStringBytes → is_valid_utf8 l = true → writes (Writer.string_field l) (blob_bytes l).
Proof.
  intros Hl Hu. eapply writes_ext; [|apply writes_bytes_field].
  - intros w. unfold Writer.string_field. destruct (Z.ltb_spec kMaxFieldStringBytes (len l)); [lia|].
    by rewrite Hu.
  - unfold kMaxFieldStringBytes, kMaxFramePayloadBytes in *. lia.
Qed.

Lemma reads_string_field l :
  len l ≤ kMaxFieldStringBytes → is_valid_utf8 l = true → reads Reader.string_field (blob_bytes l) l.
Proof.
  intros Hl Hu limit pre rest Hlim. unfold Reader.string_field.
  rewrite reads_bytes_field by (done || unfold kMaxFieldStringBytes, two32 in *; lia).
  rewrite reading_ok, Z.gtb_ltb, Hu. destruct (Z.ltb_spec kMaxFieldStringBytes (len l)); [lia|done].
Qed.

(** ** Reading bytes nobody vouches for *)

(** The cursor is inside the input. *)
Record safe (r : Reader.t) : Prop := {
  sf_bytes : Forall is_byte (Reader.data r);
  sf_low : 0 ≤ Reader.offset r;
  sf_high : Reader.offset r ≤ len (Reader.data r);
}.

(** What every read does to the cursor: it stays inside the same input, never
    goes back, and a failure is final. *)
Record moves (r r' : Reader.t) : Prop := {
  mv_safe : safe r';
  mv_data : Reader.data r' = Reader.data r;
  mv_forward : Reader.offset r ≤ Reader.offset r';
  mv_sticky : Reader.ok r = false → r' = r;
}.

Lemma moves_refl r : safe r → moves r r.
Proof. by split. Qed.

Lemma moves_trans r1 r2 r3 : moves r1 r2 → moves r2 r3 → moves r1 r3.
Proof.
  intros [S2 D2 F2 K2] [S3 D3 F3 K3]. split; [done|congruence|lia|].
  intros H. rewrite (K2 H) in *. by apply K3.
Qed.

Lemma moves_ok r r' : moves r r' → Reader.ok r' = true → Reader.ok r = true.
Proof. intros [_ _ _ K] H. destruct (Reader.ok r) eqn:E; [done|]. rewrite (K eq_refl) in H. congruence. Qed.

Lemma moves_fail c r : safe r → moves r (Reader.fail c r).
Proof.
  intros [S1 S2 S3]. unfold Reader.fail. split; [split|..]; try (case_match; done || lia).
  unfold Reader.ok. by intros ->.
Qed.

Lemma ok_fail c r : c ≠ StatusCode.Ok → Reader.ok (Reader.fail c r) = false.
Proof.
  intros Hc. unfold Reader.fail, Reader.ok. destruct (Reader.failure r ≟ StatusCode.Ok) eqn:E; [|done].
  by apply bool_decide_false.
Qed.

(** The read [m] moves the cursor so, and its answer satisfies [P] if the reader
    still works afterwards. *)
Definition yields {A} (m : Reader.t → A * Reader.t) (P : A → Prop) : Prop :=
  ∀ r, safe r → moves r (m r).2 ∧ (Reader.ok (m r).2 = true → P (m r).1).

Lemma yields_ret {A} (x : A) (P : A → Prop) : P x → yields (fun r => (x, r)) P.
Proof. intros Hx r Hr. split; [by apply moves_refl|done]. Qed.

Lemma yields_bind {A B} (m : Reader.t → A * Reader.t) (k : A → Reader.t → B * Reader.t) P (Q : B → Prop) :
  yields m P → (∀ x, yields (k x) (fun y => P x → Q y)) →
  yields (fun r => let '(x, r) := m r in k x r) Q.
Proof.
  intros Hm Hk r Hr. destruct (Hm r Hr) as [M1 P1]. destruct (m r) as [x r1]. simpl in *.
  destruct (Hk x r1 (mv_safe _ _ M1)) as [M2 Q2]. split; [by eapply moves_trans|].
  intros Hok. apply Q2; [done|]. apply P1. by eapply moves_ok.
Qed.

(** A check that the reader still works adds nothing to what is promised when it
    does. *)
Lemma yields_check {A} (m : Reader.t → A * Reader.t) (k : Reader.t → A) P :
  yields m P → yields (fun r => if negb (Reader.ok r) then (k r, r) else m r) P.
Proof.
  intros Hm r Hr. destruct (Reader.ok r) eqn:E; simpl; [by apply Hm|].
  split; [by apply moves_refl|by rewrite E].
Qed.

Lemma yields_weaken {A} (m : Reader.t → A * Reader.t) (P Q : A → Prop) :
  yields m P → (∀ x, P x → Q x) → yields m Q.
Proof. intros Hm H r Hr. destruct (Hm r Hr). auto. Qed.

Lemma require_spec n r :
  safe r → 0 ≤ n →
  let '(granted, r') := Reader.require n r in
  moves r r' ∧ (if granted then r' = r ∧ Reader.offset r + n ≤ len (Reader.data r)
                else Reader.ok r' = false).
Proof.
  intros Hr Hn. unfold Reader.require. destruct (Reader.ok r) eqn:E; cbn [negb].
  - destruct (Z.ltb_spec (len (Reader.data r)) n), (Z.ltb_spec (len (Reader.data r) - n) (Reader.offset r));
      cbn [orb]; try (split; [by apply moves_fail|by apply ok_fail]).
    split; [by apply moves_refl|]. split; [done|lia].
  - split; [by apply moves_refl|done].
Qed.

Lemma moves_advance n r :
  safe r → Reader.ok r = true → 0 ≤ n → Reader.offset r + n ≤ len (Reader.data r) →
  moves r (Reader.advance n r).
Proof.
  intros [S1 S2 S3] Hok Hn Hle. split; simpl; [by split; simpl; [|lia..]|done|lia|].
  intros H. congruence.
Qed.

Lemma require_granted n r : (Reader.require n r).1 = true → Reader.ok r = true.
Proof. unfold Reader.require. by destruct (Reader.ok r). Qed.

Lemma yields_fixed n : yields (Reader.fixed n) (fun v => 0 ≤ v < 256 ^ Z.of_nat n).
Proof.
  intros r Hr. unfold Reader.fixed.
  pose proof (require_spec (Z.of_nat n) r Hr ltac:(lia)) as H.
  pose proof (require_granted (Z.of_nat n) r) as Hg.
  destruct (Reader.require _ r) as [[] r1]; simpl in *; destruct H as [M H]; [|by rewrite H].
  destruct H as [-> Hle]. split; [apply moves_advance; auto with lia|]. intros _.
  destruct Hr as [S1 S2 S3]. rewrite load_le by lia.
  assert (length (take n (drop (Z.to_nat (Reader.offset r)) (Reader.data r))) = n) as E.
  { apply length_take_le. rewrite length_drop. unfold len in *. lia. }
  pose proof (le_word_range _ (Forall_take _ n _ (Forall_drop _ (Z.to_nat (Reader.offset r)) _ S1))) as HR.
  by rewrite E in HR.
Qed.

Lemma yields_u16 : yields Reader.u16 (fun v => 0 ≤ v < 65536).
Proof. exact (yields_fixed 2). Qed.
Lemma yields_u32 : yields Reader.u32 is_u32.
Proof. exact (yields_fixed 4). Qed.
Lemma yields_u64 : yields Reader.u64 is_u64.
Proof. exact (yields_fixed 8). Qed.

(** A check on the value read: refuse it, or pass on an answer. *)
Lemma yields_guard {A B} (m : Reader.t → A * Reader.t) (bad : A → bool) c (y z : B) (f : A → B)
    P (Q : B → Prop) :
  yields m P → c ≠ StatusCode.Ok → (∀ x, P x → bad x = false → Q (f x)) →
  yields (fun r => let '(x, r) := m r in
    if negb (Reader.ok r) then (y, r)
    else if bad x then (z, Reader.fail c r) else (f x, r)) Q.
Proof.
  intros Hm Hc HQ r Hr. destruct (Hm r Hr) as [M1 P1]. destruct (m r) as [x r1]. simpl in *.
  destruct (Reader.ok r1) eqn:Ok; simpl; [|by rewrite Ok].
  destruct (bad x) eqn:Bad; simpl; [|auto].
  split; [by eapply moves_trans, moves_fail, M1|]. by rewrite ok_fail.
Qed.

Lemma yields_boolean : yields Reader.boolean (fun _ => True).
Proof. by apply (yields_guard _ (fun v => v >? 1) _ false false (fun v => v ≟ 1) _ _ (yields_fixed 1)). Qed.

(** Every code below the bound is that of an enumerator below it. *)
Lemma enum_of_code_some `{Enum E} (bound : E) v :
  0 ≤ v < enum_code bound → ∃ e, enum_of_code v = Some e.
Proof.
  intros Hv. unfold enum_of_code. destruct (Z.ltb_spec v 0); [lia|].
  apply lookup_lt_is_Some_2. pose proof (lookup_lt_Some _ _ _ (enum_all_code bound)). lia.
Qed.

Definition dense (E : Type) `{Enum E} : Prop :=
  ∀ i e, enum_all !! i = Some e → enum_code e = Z.of_nat i.

Lemma yields_enumeration `{Enum E} (zero bound : E) :
  dense E → yields (Reader.enumeration zero bound) (fun e => e ≠ bound).
Proof.
  intros Hd. apply (yields_guard _ (fun v => enum_code bound <=? v) _ zero zero
    (fun v => default zero (enum_of_code v)) _ _ yields_u16); [done|].
  intros v Hv Hb%Z.leb_gt. destruct (enum_of_code_some bound v (conj (proj1 Hv) Hb)) as [e He]. rewrite He. simpl.
  unfold enum_of_code in He. destruct (Z.ltb_spec v 0); [lia|]. apply Hd in He. intros ->. lia.
Qed.

Lemma yields_generation : yields Reader.generation (fun g => is_u64 g ∧ g ≠ 0).
Proof.
  intros r Hr. unfold Reader.generation. destruct (yields_u64 r Hr) as [M1 P1].
  destruct (Reader.u64 r) as [v r1]. simpl in *.
  destruct (Reader.ok r1) eqn:Ok; simpl; [|by rewrite Ok]. case_bool_decide; simpl.
  - split; [by eapply moves_trans, moves_fail, M1|]. by rewrite ok_fail.
  - auto.
Qed.

(** ** Whole documents *)

(** Reading back what a fresh writer produced ends at the end of the buffer. *)
Lemma document_round_trip {A} (f : Writer.t → Writer.t) (m : Reader.t → A * Reader.t) l x limit :
  writes f l → reads m l x → 0 ≤ limit → Writer.ok (f (Writer.make limit)) = true →
  let '(y, r) := m (Reader.make (Writer.buffer (f (Writer.make limit))) limit) in
  y = x ∧ Reader.finish r = Success tt.
Proof.
  intros Hf Hm Hl Hok. destruct (writes_buffer f l limit Hf Hl Hok) as [-> Hlen].
  assert (Reader.make l limit = reading limit [] (l ++ [])) as ->.
  { unfold Reader.make, reading. rewrite app_nil_r. destruct (Z.ltb_spec limit (len l)); [lia|done]. }
  rewrite Hm by by rewrite app_nil_r. split; [done|].
  unfold Reader.finish. rewrite reading_ok. simpl. by rewrite app_nil_r, bool_decide_true.
Qed.

(** A fresh writer with room for the bytes takes them. *)
Lemma writes_ok f l limit :
  writes f l → len l ≤ limit → Writer.ok (f (Writer.make limit)) = true.
Proof.
  intros [_ F2 _] Hl. pose proof (len_nonneg l).
  rewrite F2; [done|done|unfold within, fits, len; simpl; lia|exact Hl].
Qed.

(** Splits a chain of writes or reads into its fields. *)
Ltac writes_chain :=
  repeat lazymatch goal with
  | |- writes (fun w => ?g (@?f w)) _ => eapply (writes_seq f g)
  end.

Create HintDb wire discriminated.
#[export] Hint Constants Opaque : wire.
#[export] Hint Resolve writes_u8 writes_u16 writes_u32 writes_u64 writes_i64 writes_boolean
  writes_enumeration writes_generation writes_id writes_nil : wire.
#[export] Hint Resolve reads_u32 reads_u64 reads_i64 reads_boolean reads_generation reads_id reads_ret : wire.
#[export] Hint Resolve yields_u16 yields_u32 yields_u64 yields_boolean yields_generation : wire.
