(* ===== verification/PolicyCodec.v ===== *)
(** * The policy document on the wire

    Models [PolicyConfig::encode] and [PolicyConfig::decode] of src/policy.cpp:
    the form in which a policy document is stored in a snapshot and answered to a
    policy query. Decoding is the inverse of encoding on every document the
    program can hold, and lets nothing through that validation would refuse. *)

From S2P Require Import Prelude Ids Traffic Decision Policy Bytes Codec CodecProps.

(** ** The source *)

Definition encode_rule (rule : ClassPolicyRule) (w : Writer.t) : Writer.t :=
  w ▸ Writer.boolean (pr_enabled rule)
    ▸ Writer.enumeration (pr_priority rule)
    ▸ Writer.enumeration (pr_pacing rule)
    ▸ Writer.enumeration (pr_integrity rule)
    ▸ Writer.enumeration (pr_isolation rule)
    ▸ Writer.u32 (pr_reserved_weight rule)
    ▸ Writer.u64 (pr_max_burst_bytes rule)
    ▸ Writer.u64 (pr_rate_limit_bytes_per_sec rule)
    ▸ Writer.u64 (pr_max_in_flight_bytes rule)
    ▸ Writer.boolean (pr_requires_current_topology rule)
    ▸ Writer.boolean (pr_requires_slo_contract rule)
    ▸ Writer.boolean (pr_requires_current_route rule)
    ▸ Writer.boolean (pr_requires_model_generation rule)
    ▸ Writer.boolean (pr_requires_state_generation rule)
    ▸ Writer.boolean (pr_requires_deadline rule)
    ▸ Writer.boolean (pr_starvation_protected rule)
    ▸ Writer.u32 (pr_max_defer_count rule)
    ▸ Writer.u64 (pr_max_defer_horizon_nanos rule)
    ▸ Writer.boolean (pr_yields_to_latency rule).

Definition encode_rules (rules : list ClassPolicyRule) (w : Writer.t) : Writer.t :=
  foldl (fun w rule => encode_rule rule w) w rules.

Definition policy_encode (p : PolicyConfig) (w : Writer.t) : Writer.t :=
  w ▸ Writer.generation (pc_generation p)
    ▸ Writer.boolean (pc_allow_unknown_stage p)
    ▸ Writer.boolean (pc_allow_unknown_traffic_class p)
    ▸ Writer.u32 (pc_max_explanation_steps p)
    ▸ Writer.u64 (pc_bulk_in_flight_cap_bytes p)
    ▸ Writer.u32 (pc_congestion_queue_depth p)
    ▸ Writer.boolean (pc_congestion_yields_bulk p)
    ▸ Writer.u64 (pc_defer_hint_nanos p)
    ▸ Writer.u64 (pc_stale_evidence_grace_nanos p)
    ▸ Writer.u16 (Z.of_nat kTrafficClassCount)
    ▸ encode_rules (pc_rules p).

(** The body of the decoding loop, without its check of the reader. *)
Definition decode_rule (r : Reader.t) : ClassPolicyRule * Reader.t :=
  let '(enabled, r) := Reader.boolean r in
  let '(priority, r) := Reader.enumeration PriorityClass.Unknown PriorityClass.Count r in
  let '(pacing, r) := Reader.enumeration PacingClass.Unknown PacingClass.Count r in
  let '(integrity, r) := Reader.enumeration IntegrityClass.Unknown IntegrityClass.Count r in
  let '(isolation, r) := Reader.enumeration IsolationDomain.Unknown IsolationDomain.Count r in
  let '(reserved_weight, r) := Reader.u32 r in
  let '(max_burst_bytes, r) := Reader.u64 r in
  let '(rate_limit_bytes_per_sec, r) := Reader.u64 r in
  let '(max_in_flight_bytes, r) := Reader.u64 r in
  let '(requires_current_topology, r) := Reader.boolean r in
  let '(requires_slo_contract, r) := Reader.boolean r in
  let '(requires_current_route, r) := Reader.boolean r in
  let '(requires_model_generation, r) := Reader.boolean r in
  let '(requires_state_generation, r) := Reader.boolean r in
  let '(requires_deadline, r) := Reader.boolean r in
  let '(starvation_protected, r) := Reader.boolean r in
  let '(max_defer_count, r) := Reader.u32 r in
  let '(max_defer_horizon_nanos, r) := Reader.u64 r in
  let '(yields_to_latency, r) := Reader.boolean r in
  (MkRule enabled priority pacing integrity isolation reserved_weight max_burst_bytes
     rate_limit_bytes_per_sec max_in_flight_bytes requires_current_topology
     requires_slo_contract requires_current_route requires_model_generation
     requires_state_generation requires_deadline starvation_protected max_defer_count
     max_defer_horizon_nanos yields_to_latency, r).

Fixpoint decode_rules (n : nat) (r : Reader.t) : Result (list ClassPolicyRule) * Reader.t :=
  match n with
  | O => (Success [], r)
  | S n =>
      let '(rule, r) := decode_rule r in
      if negb (Reader.ok r) then (Failure (Reader.failure r), r)
      else let '(rest, r) := decode_rules n r in
           (match rest with Success rules => Success (rule :: rules) | Failure c => Failure c end, r)
  end.

(** The clamp and the validation that end [decode]. *)
Definition decoded (p : PolicyConfig) : Result PolicyConfig :=
  let steps := pc_max_explanation_steps p in
  let p := if (steps ≟ 0) || (steps >? kMaxExplanationHardLimit)
           then p <| pc_max_explanation_steps := kMaxExplanationHardLimit |> else p in
  if validate p ≠? PolicyVerdict.Valid then Failure StatusCode.PolicyInvalid else Success p.

Definition policy_decode (r : Reader.t) : Result PolicyConfig * Reader.t :=
  let '(generation, r) := Reader.generation r in
  let '(allow_unknown_stage, r) := Reader.boolean r in
  let '(allow_unknown_traffic_class, r) := Reader.boolean r in
  let '(max_explanation_steps, r) := Reader.u32 r in
  let '(bulk_in_flight_cap_bytes, r) := Reader.u64 r in
  let '(congestion_queue_depth, r) := Reader.u32 r in
  let '(congestion_yields_bulk, r) := Reader.boolean r in
  let '(defer_hint_nanos, r) := Reader.u64 r in
  let '(stale_evidence_grace_nanos, r) := Reader.u64 r in
  let '(rule_count, r) := Reader.u16 r in
  if negb (Reader.ok r) then (Failure (Reader.failure r), r)
  else if rule_count ≠? Z.of_nat kTrafficClassCount then (Failure StatusCode.MalformedInput, r)
  else
    let '(rules, r) := decode_rules kTrafficClassCount r in
    (match rules with
     | Failure c => Failure c
     | Success rules =>
         decoded (MkPolicy generation rules allow_unknown_stage allow_unknown_traffic_class
                    max_explanation_steps bulk_in_flight_cap_bytes congestion_queue_depth
                    congestion_yields_bulk defer_hint_nanos stale_evidence_grace_nanos)
     end, r).

(** ** The documents the program can hold *)

Record rule_typed (rule : ClassPolicyRule) : Prop := {
  rt_priority : pr_priority rule ≠ PriorityClass.Count;
  rt_pacing : pr_pacing rule ≠ PacingClass.Count;
  rt_integrity : pr_integrity rule ≠ IntegrityClass.Count;
  rt_isolation : pr_isolation rule ≠ IsolationDomain.Count;
  rt_reserved_weight : is_u32 (pr_reserved_weight rule);
  rt_max_burst_bytes : is_u64 (pr_max_burst_bytes rule);
  rt_rate_limit : is_u64 (pr_rate_limit_bytes_per_sec rule);
  rt_max_in_flight_bytes : is_u64 (pr_max_in_flight_bytes rule);
  rt_max_defer_count : is_u32 (pr_max_defer_count rule);
  rt_max_defer_horizon : is_u64 (pr_max_defer_horizon_nanos rule);
}.

Record document_typed (p : PolicyConfig) : Prop := {
  pt_generation : is_u64 (pc_generation p);
  pt_rules : Forall rule_typed (pc_rules p);
  pt_rule_count : length (pc_rules p) = kTrafficClassCount;
  pt_steps : is_u32 (pc_max_explanation_steps p);
  pt_bulk_cap : is_u64 (pc_bulk_in_flight_cap_bytes p);
  pt_queue_depth : is_u32 (pc_congestion_queue_depth p);
  pt_defer_hint : is_u64 (pc_defer_hint_nanos p);
  pt_grace : is_u64 (pc_stale_evidence_grace_nanos p);
}.

(** ** Bytes of a document *)

Definition rule_bytes (rule : ClassPolicyRule) : list Z :=
  bool_bytes (pr_enabled rule) ++ enum_bytes (pr_priority rule) ++ enum_bytes (pr_pacing rule)
  ++ enum_bytes (pr_integrity rule) ++ enum_bytes (pr_isolation rule)
  ++ le_bytes 4 (pr_reserved_weight rule) ++ le_bytes 8 (pr_max_burst_bytes rule)
  ++ le_bytes 8 (pr_rate_limit_bytes_per_sec rule) ++ le_bytes 8 (pr_max_in_flight_bytes rule)
  ++ bool_bytes (pr_requires_current_topology rule) ++ bool_bytes (pr_requires_slo_contract rule)
  ++ bool_bytes (pr_requires_current_route rule) ++ bool_bytes (pr_requires_model_generation rule)
  ++ bool_bytes (pr_requires_state_generation rule) ++ bool_bytes (pr_requires_deadline rule)
  ++ bool_bytes (pr_starvation_protected rule) ++ le_bytes 4 (pr_max_defer_count rule)
  ++ le_bytes 8 (pr_max_defer_horizon_nanos rule) ++ bool_bytes (pr_yields_to_latency rule) ++ [].

Definition rules_bytes (rules : list ClassPolicyRule) : list Z := rules ≫= rule_bytes.

Definition policy_bytes (p : PolicyConfig) : list Z :=
  le_bytes 8 (pc_generation p) ++ bool_bytes (pc_allow_unknown_stage p)
  ++ bool_bytes (pc_allow_unknown_traffic_class p) ++ le_bytes 4 (pc_max_explanation_steps p)
  ++ le_bytes 8 (pc_bulk_in_flight_cap_bytes p) ++ le_bytes 4 (pc_congestion_queue_depth p)
  ++ bool_bytes (pc_congestion_yields_bulk p) ++ le_bytes 8 (pc_defer_hint_nanos p)
  ++ le_bytes 8 (pc_stale_evidence_grace_nanos p) ++ le_bytes 2 (Z.of_nat kTrafficClassCount)
  ++ rules_bytes (pc_rules p) ++ [].

(** ** Encoding *)

#[local] Opaque le_bytes.

Lemma writes_rule rule : writes (encode_rule rule) (rule_bytes rule).
Proof.
  unfold encode_rule, rule_bytes. rewrite ?app_assoc. rewrite app_nil_r.
  writes_chain; auto with wire.
Qed.

Lemma writes_rules rules : writes (encode_rules rules) (rules_bytes rules).
Proof.
  induction rules as [|rule rules IH]; [apply writes_nil|]. unfold rules_bytes. rewrite bind_cons.
  unfold encode_rules in *. cbn [foldl].
  apply (writes_seq (encode_rule rule) (fun w => foldl _ w rules)); [apply writes_rule|exact IH].
Qed.

Lemma writes_policy p : writes (policy_encode p) (policy_bytes p).
Proof.
  unfold policy_encode, policy_bytes. rewrite ?app_assoc, app_nil_r.
  writes_chain; auto using writes_rules with wire.
Qed.

(** ** Decoding inverts it *)

Lemma below_count `{Enum E} (bound e : E) :
  (∀ e, enum_code e ≤ enum_code bound) → e ≠ bound → 0 ≤ enum_code e < enum_code bound.
Proof.
  intros Hb Hne. pose proof (Hb e). pose proof (enum_code_nonneg e).
  assert (enum_code e ≠ enum_code bound) by (intros E1%enum_code_inj; done). lia.
Qed.

Ltac solve_enum_field :=
  apply reads_enumeration; [apply below_count; [by intros []|done]|done].

Lemma reads_rule rule : rule_typed rule → reads decode_rule (rule_bytes rule) rule.
Proof.
  intros []. unfold decode_rule, rule_bytes.
  do 19 (eapply reads_bind; [first [solve_enum_field | by auto with wire]|]).
  destruct rule. apply reads_ret.
Qed.

(** A check that the reader still works passes while it does. *)
Lemma reads_check {A} (m : Reader.t → A * Reader.t) (k : Reader.t → A * Reader.t) l x :
  reads m l x → reads (fun r => if negb (Reader.ok r) then k r else m r) l x.
Proof. intros Hm limit pre rest Hl. rewrite reading_ok. by apply Hm. Qed.

Lemma reads_rules rules :
  Forall rule_typed rules → reads (decode_rules (length rules)) (rules_bytes rules) (Success rules).
Proof.
  induction 1 as [|rule rules Hr _ IH]; [apply reads_ret|]. cbn [length decode_rules].
  unfold rules_bytes. rewrite bind_cons. eapply (reads_bind decode_rule); [by apply reads_rule|]. apply reads_check.
  exact (reads_map _ _ _ _ IH).
Qed.

Lemma decoded_valid p :
  validate p = PolicyVerdict.Valid → pc_max_explanation_steps p ≠ 0 → decoded p = Success p.
Proof.
  intros Hv H0. unfold decoded. rewrite (bool_decide_false _ H0). cbn [orb].
  assert ((pc_max_explanation_steps p >? kMaxExplanationHardLimit) = false) as ->.
  { unfold validate in Hv. by destruct (_ >? _). }
  by rewrite Hv.
Qed.

Lemma reads_policy p :
  document_typed p → pc_generation p ≠ 0 → pc_max_explanation_steps p ≠ 0 →
  validate p = PolicyVerdict.Valid → reads policy_decode (policy_bytes p) (Success p).
Proof.
  intros [] Hg H0 Hv. unfold policy_decode, policy_bytes.
  do 9 (eapply reads_bind; [by auto with wire|]).
  eapply reads_bind; [by apply reads_u16|]. apply reads_check. cbn [negb].
  rewrite app_nil_r. pose proof (reads_map _ (fun rules => match rules with
    | Failure c => Failure c
    | Success rules => decoded (p <| pc_rules := rules |>) end) _ _ (reads_rules _ pt_rules0)) as Hr.
  rewrite pt_rule_count0 in Hr. rewrite <- (decoded_valid _ Hv H0). destruct p. exact Hr.
Qed.

(** Every document has the same size. *)
Definition kPolicyBytes : Z := 729.

Lemma len_rules rules : len (rules_bytes rules) = 57 * len rules.
Proof.
  induction rules as [|rule rules IH]; [done|]. unfold rules_bytes in *. rewrite bind_cons, len_app, IH.
  unfold len, rule_bytes, enum_bytes, bool_bytes.
  repeat rewrite ?length_app, ?length_le_bytes, ?length_cons. simpl. lia.
Qed.

Lemma len_policy p : length (pc_rules p) = kTrafficClassCount → len (policy_bytes p) = kPolicyBytes.
Proof.
  intros H. unfold policy_bytes. rewrite !len_app, len_rules.
  unfold len, bool_bytes. rewrite !length_le_bytes, H. done.
Qed.

(** Encoding any valid policy document with a set generation and a non-zero
    explanation bound into a writer of at least 729 bytes succeeds, and decoding the
    bytes gives exactly that document and ends at the end of the buffer. *)
Theorem policy_round_trip p limit :
  document_typed p → pc_generation p ≠ 0 → pc_max_explanation_steps p ≠ 0 →
  validate p = PolicyVerdict.Valid → kPolicyBytes ≤ limit →
  let w := policy_encode p (Writer.make limit) in
  let '(result, r) := policy_decode (Reader.make (Writer.buffer w) limit) in
  Writer.ok w = true ∧ result = Success p ∧ Reader.finish r = Success tt.
Proof.
  intros Ht Hg H0 Hv Hl w. rewrite <- (len_policy p (pt_rule_count p Ht)) in Hl.
  pose proof (writes_ok _ _ limit (writes_policy p) Hl) as Hok. pose proof (len_nonneg (policy_bytes p)).
  pose proof (document_round_trip _ _ _ _ limit (writes_policy p) (reads_policy p Ht Hg H0 Hv) ltac:(lia) Hok) as D.
  fold w in D, Hok. destruct (policy_decode _). done.
Qed.

(** ** Decoding bytes nobody vouches for *)

Ltac solve_dense :=
  let i := fresh in let e := fresh in let H := fresh in
  intros i e H; do 8 (try (destruct i as [|i]; [simpl in H; by simplify_eq|])); done.

Lemma yields_rule : yields decode_rule rule_typed.
Proof.
  unfold decode_rule.
  do 19 (eapply yields_bind; [first [apply yields_enumeration; solve_dense | by auto with wire]|intros ?]).
  apply yields_ret. intros. by split.
Qed.

Lemma yields_rules n :
  yields (decode_rules n) (fun res => ∀ rules, res = Success rules → length rules = n ∧ Forall rule_typed rules).
Proof.
  induction n as [|n IH]; [apply yields_ret; by intros rules [= <-]|]. cbn [decode_rules].
  eapply yields_bind; [apply yields_rule|]. intros rule. apply yields_check.
  eapply yields_bind; [apply IH|]. intros res. apply yields_ret. intros Hres Hrule rules.
  destruct res as [rest|]; [|done]. destruct (Hres rest eq_refl) as [Hlen Hall].
  intros [= <-]. split; [by rewrite <- Hlen|by constructor].
Qed.

(** What [decode] lets through. *)
Record policy_sound (p : PolicyConfig) : Prop := {
  ps_typed : document_typed p;
  ps_valid : validate p = PolicyVerdict.Valid;
  ps_generation : pc_generation p ≠ 0;
  ps_steps : 0 < pc_max_explanation_steps p ≤ kMaxExplanationHardLimit;
}.

Lemma decoded_sound p q :
  document_typed p → pc_generation p ≠ 0 → decoded p = Success q → policy_sound q.
Proof.
  intros [] Hg. unfold decoded.
  destruct ((pc_max_explanation_steps p ≟ 0) || _) eqn:E;
    destruct (bool_decide (validate _ = PolicyVerdict.Valid)) eqn:Hv; cbn [negb]; try done;
    apply bool_decide_eq_true in Hv; intros [= <-]; (split; [by split|done|done|]).
  - simpl. unfold kMaxExplanationHardLimit. lia.
  - apply orb_false_iff in E as [E1%bool_decide_eq_false E2]. rewrite Z.gtb_ltb in E2.
    apply Z.ltb_ge in E2. unfold is_u32 in pt_steps0. lia.
Qed.

Lemma yields_policy :
  yields policy_decode (fun res => ∀ p, res = Success p → policy_sound p).
Proof.
  unfold policy_decode.
  do 10 (eapply yields_bind; [by auto with wire|intros ?]). apply yields_check.
  case_match; [by apply yields_ret|]. eapply yields_bind; [apply yields_rules|].
  intros res. apply yields_ret. intros Hres. intros. destruct res as [rules|]; [|done].
  destruct (Hres rules eq_refl). destruct_and!. eapply decoded_sound; [..|done]; [by split|done].
Qed.

(** A decoder answers a record only from a reader that still works, and never
    reports success as an error. *)
Definition conclusive {A} (m : Reader.t → Result A * Reader.t) (r : Reader.t) : Prop :=
  match (m r).1 with
  | Success _ => Reader.ok (m r).2 = true
  | Failure c => c ≠ StatusCode.Ok
  end.

Lemma conclusive_bind {A B} (m : Reader.t → A * Reader.t) (k : A → Reader.t → Result B * Reader.t) r :
  (∀ x r, conclusive (k x) r) → conclusive (fun r => let '(x, r) := m r in k x r) r.
Proof. intros Hk. unfold conclusive. destruct (m r) as [x r1]. apply Hk. Qed.

Lemma conclusive_check {A} (m : Reader.t → Result A * Reader.t) r :
  (Reader.ok r = true → conclusive m r) →
  conclusive (fun r => if negb (Reader.ok r) then (Failure (Reader.failure r), r) else m r) r.
Proof.
  intros Hm. unfold conclusive. destruct (Reader.ok r) eqn:E; simpl; [by apply Hm|].
  by apply bool_decide_eq_false in E.
Qed.

Lemma decode_rules_conclusive n r : Reader.ok r = true → conclusive (decode_rules n) r.
Proof.
  revert r. induction n as [|n IH]; intros r Hr; [done|]. cbn [decode_rules].
  apply (conclusive_bind decode_rule). clear r Hr. intros rule r. apply conclusive_check. intros Hr.
  specialize (IH r Hr). unfold conclusive in *. by destruct (decode_rules n r) as [[] r2].
Qed.

Lemma decoded_code p c : decoded p = Failure c → c ≠ StatusCode.Ok.
Proof. unfold decoded. destruct (bool_decide (validate _ = _)); [done|]. by intros [= <-]. Qed.

Lemma policy_decode_conclusive r : conclusive policy_decode r.
Proof.
  unfold policy_decode. do 10 (apply conclusive_bind; clear r; intros ? r). apply conclusive_check. intros Hr.
  case_match; [done|]. pose proof (decode_rules_conclusive kTrafficClassCount r Hr) as HR.
  unfold conclusive in *. destruct (decode_rules _ r) as [[] r2]; simpl in *; [|done].
  case_match eqn:E; [done|]. by eapply decoded_code.
Qed.

(** Decoding a policy from arbitrary bytes never moves the reader outside the
    input; it answers either an error, or a document that is valid, has its twelve rules
    within their types with no sentinel enumerator, a non-zero generation and an
    explanation bound from 1 to 32, from a reader that has not failed. *)
Theorem decoded_policy_is_sound data limit :
  Forall is_byte data →
  let '(result, r) := policy_decode (Reader.make data limit) in
  0 ≤ Reader.offset r ≤ len data ∧
  match result with
  | Success p => policy_sound p ∧ Reader.ok r = true
  | Failure c => c ≠ StatusCode.Ok
  end.
Proof.
  intros Hd. assert (safe (Reader.make data limit)) as Hs.
  { unfold Reader.make. case_match; [apply moves_fail|]; (split; [done|done|apply len_nonneg]). }
  destruct (yields_policy _ Hs) as [M HP].
  pose proof (policy_decode_conclusive (Reader.make data limit)) as HS. unfold conclusive in HS.
  assert (Reader.data (Reader.make data limit) = data) as Ed by (unfold Reader.make; by destruct (limit <? len data)).
  destruct (policy_decode _) as [[p|c] r]; simpl in *; destruct M as [[_ Hlo Hhi] Hdata _ _];
    rewrite Hdata, Ed in Hhi; (split; [lia|]); [|done]. split; [|done]. by apply HP.
Qed.
