(* ===== verification/Wire.v ===== *)
(** * Frame headers

    Models include/itf/wire.hpp and src/wire.cpp: the fixed forty-byte header in
    front of every frame, its encoder and the decoder that validates it before
    any payload is read. A [MessageType] is an enumeration whose underlying type is
    [std::uint16_t]: a decoded value need not be one of its enumerators, so that
    it is the integer here and the enumerators are constants. *)

From S2P Require Import Prelude Bytes Crc Codec CodecProps.
From Stdlib Require Import String.
Import Datatypes.

Definition kWireProtocolVersion : Z := 1.

(** ASCII "ITF1". *)
Definition kMagic : list Z := [73; 84; 70; 49].
Definition kHeaderBytes : Z := 40.
Definition kAbsoluteMaxPayloadBytes : Z := 4 * 1024 * 1024.

Module MessageType.
Definition Invalid : Z := 0.
Definition HelloRequest : Z := 1.
Definition HelloResponse : Z := 2.
Definition ErrorResponse : Z := 3.
Definition AckResponse : Z := 4.
Definition RegisterRequestResponse : Z := 5.
Definition RegisterAttemptResponse : Z := 6.
Definition RegisterTransferResponse : Z := 7.
Definition RegisterRequest : Z := 10.
Definition RegisterAttempt : Z := 11.
Definition StageUpdate : Z := 12.
Definition CancelRequest : Z := 13.
Definition FailAttempt : Z := 14.
Definition ReplaceAttempt : Z := 15.
Definition EvaluateTraffic : Z := 20.
Definition DecisionResponse : Z := 21.
Definition OpenFlow : Z := 22.
Definition OpenFlowResponse : Z := 23.
Definition RegisterTransfer : Z := 30.
Definition AuthorizeTransfer : Z := 31.
Definition TransferDecisionResponse : Z := 32.
Definition TransferComplete : Z := 33.
Definition CompletionPublish : Z := 40.
Definition CompletionResponse : Z := 41.
Definition AccountingQuery : Z := 50.
Definition AccountingResponse : Z := 51.
Definition StatusQuery : Z := 52.
Definition StatusResponse : Z := 53.
Definition PolicyQuery : Z := 54.
Definition PolicyResponse : Z := 55.
Definition TopologyPublish : Z := 60.
Definition TopologyResponse : Z := 61.
Definition PublishSloContract : Z := 62.
Definition SloContractResponse : Z := 63.
Definition IssueRouteDecision : Z := 64.
Definition RouteDecisionResponse : Z := 65.
Definition AdvanceModelGeneration : Z := 66.
Definition ModelGenerationResponse : Z := 67.
Definition Shutdown : Z := 70.
Definition ShutdownAck : Z := 71.
Definition Heartbeat : Z := 80.
Definition HeartbeatAck : Z := 81.
Definition DataChunk : Z := 90.
Definition DataChunkAck : Z := 91.
Definition DataComplete : Z := 92.
Definition DataCompleteAck : Z := 93.
Definition Count : Z := 94.
End MessageType.

(** The cases of [to_string], in the order of the switch. *)
Definition message_names : list (Z * String.string) :=
  [(MessageType.Invalid, "INVALID"%string); (MessageType.HelloRequest, "HELLO_REQUEST"%string);
   (MessageType.HelloResponse, "HELLO_RESPONSE"%string); (MessageType.ErrorResponse, "ERROR_RESPONSE"%string);
   (MessageType.AckResponse, "ACK_RESPONSE"%string); (MessageType.RegisterRequestResponse, "REGISTER_REQUEST_RESPONSE"%string);
   (MessageType.RegisterAttemptResponse, "REGISTER_ATTEMPT_RESPONSE"%string); (MessageType.RegisterTransferResponse, "REGISTER_TRANSFER_RESPONSE"%string);
   (MessageType.RegisterRequest, "REGISTER_REQUEST"%string); (MessageType.RegisterAttempt, "REGISTER_ATTEMPT"%string);
   (MessageType.StageUpdate, "STAGE_UPDATE"%string); (MessageType.CancelRequest, "CANCEL_REQUEST"%string);
   (MessageType.FailAttempt, "FAIL_ATTEMPT"%string); (MessageType.ReplaceAttempt, "REPLACE_ATTEMPT"%string);
   (MessageType.EvaluateTraffic, "EVALUATE_TRAFFIC"%string); (MessageType.DecisionResponse, "DECISION_RESPONSE"%string);
   (MessageType.OpenFlow, "OPEN_FLOW"%string); (MessageType.OpenFlowResponse, "OPEN_FLOW_RESPONSE"%string);
   (MessageType.RegisterTransfer, "REGISTER_TRANSFER"%string); (MessageType.AuthorizeTransfer, "AUTHORIZE_TRANSFER"%string);
   (MessageType.TransferDecisionResponse, "TRANSFER_DECISION_RESPONSE"%string); (MessageType.TransferComplete, "TRANSFER_COMPLETE"%string);
   (MessageType.CompletionPublish, "COMPLETION_PUBLISH"%string); (MessageType.CompletionResponse, "COMPLETION_RESPONSE"%string);
   (MessageType.AccountingQuery, "ACCOUNTING_QUERY"%string); (MessageType.AccountingResponse, "ACCOUNTING_RESPONSE"%string);
   (MessageType.StatusQuery, "STATUS_QUERY"%string); (MessageType.StatusResponse, "STATUS_RESPONSE"%string);
   (MessageType.PolicyQuery, "POLICY_QUERY"%string); (MessageType.PolicyResponse, "POLICY_RESPONSE"%string);
   (MessageType.TopologyPublish, "TOPOLOGY_PUBLISH"%string); (MessageType.TopologyResponse, "TOPOLOGY_RESPONSE"%string);
   (MessageType.PublishSloContract, "PUBLISH_SLO_CONTRACT"%string); (MessageType.SloContractResponse, "SLO_CONTRACT_RESPONSE"%string);
   (MessageType.IssueRouteDecision, "ISSUE_ROUTE_DECISION"%string); (MessageType.RouteDecisionResponse, "ROUTE_DECISION_RESPONSE"%string);
   (MessageType.AdvanceModelGeneration, "ADVANCE_MODEL_GENERATION"%string); (MessageType.ModelGenerationResponse, "MODEL_GENERATION_RESPONSE"%string);
   (MessageType.Shutdown, "SHUTDOWN"%string); (MessageType.ShutdownAck, "SHUTDOWN_ACK"%string);
   (MessageType.Heartbeat, "HEARTBEAT"%string); (MessageType.HeartbeatAck, "HEARTBEAT_ACK"%string);
   (MessageType.DataChunk, "DATA_CHUNK"%string); (MessageType.DataChunkAck, "DATA_CHUNK_ACK"%string);
   (MessageType.DataComplete, "DATA_COMPLETE"%string); (MessageType.DataCompleteAck, "DATA_COMPLETE_ACK"%string);
   (MessageType.Count, "COUNT"%string)].

Definition message_to_string (value : Z) : String.string :=
  match list_find (fun entry => entry.1 = value) message_names with
  | Some (_, (_, name)) => name
  | None => "INVALID"%string
  end.

Definition is_known_message_type (value : Z) : bool :=
  (value ≠? MessageType.Invalid) && (value ≠? MessageType.Count) && (value <? MessageType.Count).

(** The cases of the switch that answer something; every other value, named or
    not, answers [Invalid]. *)
Definition response_type_for (request : Z) : Z :=
  if request ≟ MessageType.HelloRequest then MessageType.HelloResponse
  else if request ≟ MessageType.RegisterRequest then MessageType.RegisterRequestResponse
  else if request ≟ MessageType.RegisterAttempt then MessageType.RegisterAttemptResponse
  else if (request ≟ MessageType.StageUpdate) || (request ≟ MessageType.CancelRequest)
       || (request ≟ MessageType.FailAttempt) || (request ≟ MessageType.TransferComplete)
    then MessageType.AckResponse
  else if request ≟ MessageType.ReplaceAttempt then MessageType.RegisterAttemptResponse
  else if request ≟ MessageType.EvaluateTraffic then MessageType.DecisionResponse
  else if request ≟ MessageType.OpenFlow then MessageType.OpenFlowResponse
  else if request ≟ MessageType.RegisterTransfer then MessageType.RegisterTransferResponse
  else if request ≟ MessageType.AuthorizeTransfer then MessageType.TransferDecisionResponse
  else if request ≟ MessageType.CompletionPublish then MessageType.CompletionResponse
  else if request ≟ MessageType.AccountingQuery then MessageType.AccountingResponse
  else if request ≟ MessageType.StatusQuery then MessageType.StatusResponse
  else if request ≟ MessageType.PolicyQuery then MessageType.PolicyResponse
  else if request ≟ MessageType.TopologyPublish then MessageType.TopologyResponse
  else if request ≟ MessageType.PublishSloContract then MessageType.SloContractResponse
  else if request ≟ MessageType.IssueRouteDecision then MessageType.RouteDecisionResponse
  else if request ≟ MessageType.AdvanceModelGeneration then MessageType.ModelGenerationResponse
  else if request ≟ MessageType.Shutdown then MessageType.ShutdownAck
  else if request ≟ MessageType.Heartbeat then MessageType.HeartbeatAck
  else if request ≟ MessageType.DataChunk then MessageType.DataChunkAck
  else if request ≟ MessageType.DataComplete then MessageType.DataCompleteAck
  else MessageType.Invalid.

Record FrameHeader := MkHeader {
  fh_protocol_version : Z;
  fh_type : Z;
  fh_flags : Z;
  fh_payload_length : Z;
  fh_sequence : Z;
  fh_correlation : Z;
  fh_payload_crc32c : Z;
}.

(** ** Encoding and decoding *)

Definition store_u16 : Z → list Z := store 2.
Definition store_u32 : Z → list Z := store 4.
Definition store_u64 : Z → list Z := store 8.
Definition load_u16 : list Z → Z → Z := load 2.
Definition load_u32 : list Z → Z → Z := load 4.
Definition load_u64 : list Z → Z → Z := load 8.

(** The thirty-six bytes under the header checksum. *)
Definition header_body (header : FrameHeader) : list Z :=
  kMagic ++ store_u16 (fh_protocol_version header) ++ store_u16 (fh_type header)
  ++ store_u32 (fh_flags header) ++ store_u32 (fh_payload_length header)
  ++ store_u64 (fh_sequence header) ++ store_u64 (fh_correlation header)
  ++ store_u32 (fh_payload_crc32c header).

(** The header overwrites the first [kHeaderBytes] of the span. *)
Definition encode_header (header : FrameHeader) (out : list Z) : list Z :=
  if len out <? kHeaderBytes then out
  else
    let body := header_body header in
    body ++ store_u32 (compute body) ++ drop (Z.to_nat kHeaderBytes) out.

Definition decode_header (header : list Z) (max_payload_bytes : Z) : Result FrameHeader :=
  if len header <? kHeaderBytes then Failure StatusCode.MalformedInput
  else if take 4 header ≠? kMagic then Failure StatusCode.MalformedInput
  else
    let protocol_version := load_u16 header 4 in
    if protocol_version ≠? kWireProtocolVersion then Failure StatusCode.UnsupportedVersion
    else
      let type := load_u16 header 6 in
      if negb (is_known_message_type type) then Failure StatusCode.MalformedInput
      else
        let flags := load_u32 header 8 in
        let payload_length := load_u32 header 12 in
        let sequence := load_u64 header 16 in
        let correlation := load_u64 header 24 in
        let payload_crc32c := load_u32 header 32 in
        let expected_header_crc := load_u32 header 36 in
        let actual_header_crc := compute (take (Z.to_nat (kHeaderBytes - 4)) header) in
        if expected_header_crc ≠? actual_header_crc then Failure StatusCode.IntegrityMismatch
        else if payload_length >? kAbsoluteMaxPayloadBytes then Failure StatusCode.BoundsExceeded
        else if payload_length >? max_payload_bytes then Failure StatusCode.BoundsExceeded
        else if flags ≠? 0 then Failure StatusCode.MalformedInput
        else Success (MkHeader protocol_version type flags payload_length sequence correlation
                        payload_crc32c).

(** A code between two enumerators passes the test for known types. *)
Example gap_is_known :
  is_known_message_type 8 = true ∧ message_to_string 8 = "INVALID"%string
  ∧ response_type_for 8 = MessageType.Invalid.
Proof. vm_compute. done. Qed.

(** ** Round trip *)

(** The headers a sender may put on the wire under a negotiated limit. *)
Record header_ok (max_payload_bytes : Z) (h : FrameHeader) : Prop := {
  ho_version : fh_protocol_version h = kWireProtocolVersion;
  ho_type : 0 < fh_type h < MessageType.Count;
  ho_flags : fh_flags h = 0;
  ho_length : 0 ≤ fh_payload_length h ≤ kAbsoluteMaxPayloadBytes;
  ho_negotiated : fh_payload_length h ≤ max_payload_bytes;
  ho_sequence : is_u64 (fh_sequence h);
  ho_correlation : is_u64 (fh_correlation h);
  ho_crc : is_u32 (fh_payload_crc32c h);
}.

Lemma header_body_bytes h : Forall is_byte (header_body h).
Proof.
  unfold header_body, store_u16, store_u32, store_u64. rewrite !store_le.
  rewrite !Forall_app. split_and!; try apply le_bytes_bytes. by repeat constructor.
Qed.

Lemma length_header_body h : length (header_body h) = 36%nat.
Proof. unfold header_body, store_u16, store_u32, store_u64. rewrite !store_le. done. Qed.

(** The value of a field found at its place. *)
Lemma load_field n bytes k v :
  take n (drop (Z.to_nat k) bytes) = le_bytes n v → 0 ≤ v < 256 ^ Z.of_nat n →
  0 ≤ k → k + Z.of_nat n ≤ len bytes → load n bytes k = v.
Proof. intros E Hv Hk Hl. rewrite load_le, E by done. by apply le_word_bytes. Qed.

Lemma is_known_spec t : is_known_message_type t = true ↔ t < MessageType.Count ∧ t ≠ 0.
Proof.
  unfold is_known_message_type, MessageType.Invalid, MessageType.Count.
  rewrite !andb_true_iff, !negb_true_iff, !bool_decide_eq_false, Z.ltb_lt. lia.
Qed.

Lemma encode_header_fields h rest :
  let bytes := header_body h ++ store_u32 (compute (header_body h)) ++ rest in
  take 4 bytes = kMagic
  ∧ take 2 (drop 4 bytes) = le_bytes 2 (fh_protocol_version h)
  ∧ take 2 (drop 6 bytes) = le_bytes 2 (fh_type h)
  ∧ take 4 (drop 8 bytes) = le_bytes 4 (fh_flags h)
  ∧ take 4 (drop 12 bytes) = le_bytes 4 (fh_payload_length h)
  ∧ take 8 (drop 16 bytes) = le_bytes 8 (fh_sequence h)
  ∧ take 8 (drop 24 bytes) = le_bytes 8 (fh_correlation h)
  ∧ take 4 (drop 32 bytes) = le_bytes 4 (fh_payload_crc32c h)
  ∧ take 4 (drop 36 bytes) = le_bytes 4 (compute (header_body h)).
Proof.
  intros bytes. unfold bytes. generalize (compute (header_body h)). intros c.
  unfold header_body, store_u16, store_u32, store_u64. rewrite !store_le. done.
Qed.

Lemma decode_encoded h rest max_payload_bytes :
  header_ok max_payload_bytes h →
  decode_header (header_body h ++ store_u32 (compute (header_body h)) ++ rest) max_payload_bytes = Success h.
Proof.
  intros []. destruct (encode_header_fields h rest) as (F0&F4&F6&F8&F12&F16&F24&F32&F36).
  pose proof (compute_range _ (header_body_bytes h)) as Hc.
  assert (kHeaderBytes ≤ len (header_body h ++ store_u32 (compute (header_body h)) ++ rest)) as Hlen.
  { rewrite !len_app. unfold store_u32, len. rewrite store_le, length_le_bytes, length_header_body.
    unfold kHeaderBytes. lia. }
  assert (take 36 (header_body h ++ store_u32 (compute (header_body h)) ++ rest) = header_body h) as Hb.
  { apply take_app_length'. by rewrite length_header_body. }
  set (bytes := header_body h ++ _ ++ rest) in *. clearbody bytes.
  unfold kHeaderBytes, kAbsoluteMaxPayloadBytes, MessageType.Count, is_u64, is_u32, two64, two32,
    kWireProtocolVersion in *.
  unfold decode_header, load_u16, load_u32, load_u64.
  rewrite (load_field 2 _ 4 _ F4), (load_field 2 _ 6 _ F6), (load_field 4 _ 8 _ F8),
    (load_field 4 _ 12 _ F12), (load_field 8 _ 16 _ F16), (load_field 8 _ 24 _ F24),
    (load_field 4 _ 32 _ F32), (load_field 4 _ 36 _ F36) by (simpl; lia).
  change (Z.to_nat (kHeaderBytes - 4)) with 36%nat. rewrite F0, Hb.
  destruct (Z.ltb_spec (len bytes) kHeaderBytes); [unfold kHeaderBytes in *; lia|].
  assert (is_known_message_type (fh_type h) = true) as ->.
  { apply is_known_spec. unfold MessageType.Count. lia. }
  rewrite !Z.gtb_ltb, ho_version0, ho_flags0.
  unfold kAbsoluteMaxPayloadBytes. destruct (Z.ltb_spec (4 * 1024 * 1024) (fh_payload_length h)); [lia|].
  destruct (Z.ltb_spec max_payload_bytes (fh_payload_length h)); [lia|].
  rewrite !bool_decide_true by done. destruct h. simpl in *. by subst.
Qed.

Lemma encode_header_spec h out max_payload_bytes :
  header_ok max_payload_bytes h → kHeaderBytes ≤ len out →
  decode_header (encode_header h out) max_payload_bytes = Success h
  ∧ length (encode_header h out) = length out
  ∧ drop (Z.to_nat kHeaderBytes) (encode_header h out) = drop (Z.to_nat kHeaderBytes) out.
Proof.
  intros Hh Hout. unfold encode_header. destruct (Z.ltb_spec (len out) kHeaderBytes); [lia|].
  assert (length (store_u32 (compute (header_body h))) = 4%nat) as H4.
  { unfold store_u32. by rewrite store_le, length_le_bytes. }
  split_and!; [by apply decode_encoded|..].
  - rewrite !length_app, H4, length_header_body, length_drop. unfold len, kHeaderBytes in *. lia.
  - rewrite app_assoc. apply drop_app_length'. rewrite length_app, H4, length_header_body. done.
Qed.

(** Decoding what encode_header wrote gives the header back, for every header
    within the protocol and negotiated bounds; the rest of the span is left untouched.
    *)
Theorem frame_header_round_trip h out max_payload_bytes :
  header_ok max_payload_bytes h → kHeaderBytes ≤ len out →
  let bytes := encode_header h out in
  decode_header bytes max_payload_bytes = Success h
  ∧ length bytes = length out ∧ drop (Z.to_nat kHeaderBytes) bytes = drop (Z.to_nat kHeaderBytes) out.
Proof. intros Hh Hout. by apply encode_header_spec. Qed.

(** ** What the decoder lets through *)

Lemma decode_header_inv header max_payload_bytes h :
  decode_header header max_payload_bytes = Success h →
  kHeaderBytes ≤ len header ∧ take 4 header = kMagic
  ∧ is_known_message_type (fh_type h) = true ∧ fh_protocol_version h = kWireProtocolVersion
  ∧ fh_flags h = 0 ∧ fh_payload_length h ≤ kAbsoluteMaxPayloadBytes ∧ fh_payload_length h ≤ max_payload_bytes
  ∧ load_u32 header 36 = compute (take 36 header)
  ∧ h = MkHeader (load_u16 header 4) (load_u16 header 6) (load_u32 header 8) (load_u32 header 12)
          (load_u64 header 16) (load_u64 header 24) (load_u32 header 32).
Proof.
  unfold decode_header. change (Z.to_nat (kHeaderBytes - 4)) with 36%nat. cbv zeta. rewrite !Z.gtb_ltb.
  repeat first
    [ lazymatch goal with |- context [?a <? ?b] => destruct (Z.ltb_spec a b); [done|] end
    | lazymatch goal with |- context [negb (bool_decide ?P)] =>
        destruct (bool_decide_reflect P); cbn [negb]; [|done] end
    | lazymatch goal with |- context [negb (is_known_message_type ?t)] =>
        destruct (is_known_message_type t) eqn:?; cbn [negb]; [|done] end ].
  intros [= <-]. simpl. split_and!; done || lia.
Qed.

(** An accepted header is one whose forty bytes have the fixed checksum. *)
Lemma accepted_residue header max_payload_bytes h :
  Forall is_byte header → decode_header header max_payload_bytes = Success h →
  compute (take 40 header) = residue.
Proof.
  intros Hb H. apply decode_header_inv in H as (Hlen&_&_&_&_&_&_&Hcrc&_).
  unfold kHeaderBytes, len in Hlen. unfold load_u32 in Hcrc. rewrite load_le in Hcrc by (unfold len; lia).
  change 40%nat with (36 + 4)%nat. rewrite <- take_take_drop.
  assert (length (take 4 (drop 36 header)) = 4%nat) as H4.
  { apply length_take_le. rewrite length_drop. lia. }
  refine (proj1 (compute_residue _ _ (Forall_take _ _ _ Hb) (Forall_take _ _ _ (Forall_drop _ _ _ Hb)) H4) _).
  symmetry. exact Hcrc.
Qed.

(** When the header decoder accepts forty bytes, it refuses every header that
    differs from them in up to four adjacent bytes, wherever the damage lies, checksum
    field included. *)
Theorem corrupted_header_refused pre x y post max_payload_bytes max_payload_bytes' h :
  Forall is_byte (pre ++ x ++ post) → Forall is_byte y →
  length x = length y → (length x ≤ 4)%nat → (length pre + length x ≤ 40)%nat → x ≠ y →
  decode_header (pre ++ x ++ post) max_payload_bytes = Success h →
  ∃ c, decode_header (pre ++ y ++ post) max_payload_bytes' = Failure c.
Proof.
  rewrite !Forall_app. intros (Hpre&Hx&Hpost) Hy Hlen H4 H40 Hne Hd.
  destruct (decode_header (pre ++ y ++ post) _) as [h'|c] eqn:E; [|by exists c]. exfalso. apply Hne.
  assert (Forall is_byte (pre ++ x ++ post)) as Bx by by rewrite !Forall_app.
  assert (Forall is_byte (pre ++ y ++ post)) as By by by rewrite !Forall_app.
  pose proof (accepted_residue _ _ _ Bx Hd) as Rx. pose proof (accepted_residue _ _ _ By E) as Ry.
  assert (∀ z, length z = length x → take 40 (pre ++ z ++ post)
            = pre ++ z ++ take (40 - length pre - length x) post) as T.
  { intros z Hz. rewrite !take_app, !(take_ge pre), !(take_ge z) by lia. by rewrite Hz. }
  rewrite T in Rx, Ry by done. rewrite <- Ry in Rx.
  exact (burst_errors_detected _ _ _ _ Hpre Hx Hy (Forall_take _ _ _ Hpost) Hlen H4 Rx).
Qed.
