(* ===== verification/Format.v ===== *)
(** * Formats: an encoder and a decoder that fit

    The records and messages of the program are encoded by sequences of writes
    and decoded by sequences of reads that stop at the first failure. Here are
    the combinators those functions are written with and the two relations that
    compose along them: [carries f m x n], what [f] writes takes at most [n] bytes
    and [m] reads [x] back from it, and [decodes b m Q], what [m] lets through when
    nobody vouches for the bytes satisfies [Q]. *)

From S2P Require Import Prelude Ids Bytes Codec CodecProps PolicyCodec.

(** ** Combinators *)

(** One write after another. *)
Definition andthen (f g : Writer.t → Writer.t) : Writer.t → Writer.t := fun w => g (f w).
Notation "f ⨾ g" := (andthen f g) (at level 62, right associativity) : itf_scope.

(** A field, then the rest. *)
Definition bind_read {A B} (m : Reader.t → A * Reader.t) (k : A → Reader.t → B * Reader.t)
    : Reader.t → B * Reader.t :=
  fun r => let '(x, r) := m r in k x r.
Notation "'let~' x := m 'in' k" := (bind_read m (fun x => k))
  (at level 10, x name, m at level 100, k at level 200) : itf_scope.

(** A decoder whose failure is passed on. *)
Definition decode_then {A B} (m : Reader.t → Result A * Reader.t)
    (k : A → Reader.t → Result B * Reader.t) : Reader.t → Result B * Reader.t :=
  fun r => let '(result, r) := m r in
  match result with
  | Failure c => (Failure c, r)
  | Success x => k x r
  end.
Notation "'let!' x := m 'in' k" := (decode_then m (fun x => k))
  (at level 10, x name, m at level 100, k at level 200) : itf_scope.

(** [if (!reader.ok()) return failure(reader.fail_code())]. *)
Definition check_then {A} (k : Reader.t → Result A * Reader.t) : Reader.t → Result A * Reader.t :=
  fun r => if negb (Reader.ok r) then (Failure (Reader.failure r), r) else k r.

Definition answer {A} (a : A) (r : Reader.t) : A * Reader.t := (a, r).

(** The loop of a decoder over [n] entries. *)
Fixpoint decode_list {A} (n : nat) (m : Reader.t → Result A * Reader.t)
    : Reader.t → Result (list A) * Reader.t :=
  match n with
  | O => answer (Success [])
  | S n => let! x := m in let! rest := decode_list n m in answer (Success (x :: rest))
  end.

(** The same when the entries are plain reads. *)
Fixpoint read_list {A} (n : nat) (m : Reader.t → A * Reader.t) : Reader.t → list A * Reader.t :=
  match n with
  | O => answer []
  | S n => let~ x := m in let~ rest := read_list n m in answer (x :: rest)
  end.

(** A value that is there only when a flag read before it says so. *)
Definition decode_when {A} (present : bool) (m : Reader.t → Result A * Reader.t)
    : Reader.t → Result (option A) * Reader.t :=
  if present then let! x := m in answer (Success (Some x)) else answer (Success None).

Definition write_optional {A} (f : A → Writer.t → Writer.t) (o : option A) : Writer.t → Writer.t :=
  match o with Some x => f x | None => fun w => w end.

Definition has_value {A} (o : option A) : bool := match o with Some _ => true | None => false end.

Definition encode_list {A} (f : A → Writer.t → Writer.t) (l : list A) : Writer.t → Writer.t :=
  fun w => foldl (fun w x => f x w) w l.

(** ** Bytes that survive *)

(** [f] writes at most [n] bytes, from which [m] reads exactly [x]. *)
Definition carries {A} (f : Writer.t → Writer.t) (m : Reader.t → A * Reader.t) (x : A) (n : Z) : Prop :=
  ∃ l, writes f l ∧ reads m l x ∧ Forall is_byte l ∧ len l ≤ n.

Lemma carries_intro {A} f (m : Reader.t → A * Reader.t) l x n :
  writes f l → reads m l x → Forall is_byte l → len l ≤ n → carries f m x n.
Proof. intros. by exists l. Qed.

Lemma carries_weaken {A} f (m : Reader.t → A * Reader.t) x n n' :
  carries f m x n → n ≤ n' → carries f m x n'.
Proof. intros (l&W&R&Hb&L) Hn. exists l. split_and!; [done..|lia]. Qed.

Lemma carries_bind {A B} f g (m : Reader.t → A * Reader.t) (k : A → Reader.t → B * Reader.t) x y n1 n2 :
  carries f m x n1 → carries g (k x) y n2 → carries (f ⨾ g) (bind_read m k) y (n1 + n2).
Proof.
  intros (a&W1&R1&Hb1&L1) (b&W2&R2&Hb2&L2). exists (a ++ b). split_and!.
  - exact (writes_seq f g a b W1 W2).
  - exact (reads_bind m k a b x y R1 R2).
  - by apply Forall_app.
  - rewrite len_app. lia.
Qed.

Lemma carries_last {A B} f (m : Reader.t → A * Reader.t) (k : A → Reader.t → B * Reader.t) x y n :
  carries f m x n → reads (k x) [] y → carries f (bind_read m k) y n.
Proof.
  intros (a&W&R&Hb&L) Hk. exists a. split_and!; [done| |done|done].
  rewrite <- (app_nil_r a). exact (reads_bind m k a [] x y R Hk).
Qed.

Lemma reads_then {A B} (m : Reader.t → Result A * Reader.t) (k : A → Reader.t → Result B * Reader.t) a b x y :
  reads m a (Success x) → reads (k x) b y → reads (decode_then m k) (a ++ b) y.
Proof.
  intros Hm Hk limit pre rest Hl. unfold decode_then.
  rewrite <- app_assoc, Hm by by rewrite !app_assoc in *.
  rewrite Hk by by rewrite !app_assoc in *. by rewrite app_assoc.
Qed.

Lemma carries_then {A B} f g (m : Reader.t → Result A * Reader.t) (k : A → Reader.t → Result B * Reader.t)
    x y n1 n2 :
  carries f m (Success x) n1 → carries g (k x) y n2 → carries (f ⨾ g) (decode_then m k) y (n1 + n2).
Proof.
  intros (a&W1&R1&Hb1&L1) (b&W2&R2&Hb2&L2). exists (a ++ b). split_and!.
  - exact (writes_seq f g a b W1 W2).
  - by eapply reads_then.
  - by apply Forall_app.
  - rewrite len_app. lia.
Qed.

Lemma carries_then_last {A B} f (m : Reader.t → Result A * Reader.t)
    (k : A → Reader.t → Result B * Reader.t) x y n :
  carries f m (Success x) n → reads (k x) [] y → carries f (decode_then m k) y n.
Proof.
  intros (a&W&R&Hb&L) Hk. exists a. split_and!; [done| |done|done].
  rewrite <- (app_nil_r a). by eapply reads_then.
Qed.

Lemma reads_check_then {A} (k : Reader.t → Result A * Reader.t) l x :
  reads k l x → reads (check_then k) l x.
Proof. apply reads_check. Qed.

Lemma carries_check {A} f (k : Reader.t → Result A * Reader.t) y n :
  carries f k y n → carries f (check_then k) y n.
Proof. intros (a&W&R&Hb&L). exists a. split_and!; [done|by apply reads_check_then|done|done]. Qed.

Lemma reads_answer {A} (x y : A) : x = y → reads (answer x) [] y.
Proof. intros ->. apply reads_ret. Qed.

Lemma carries_nil {A} (m : Reader.t → A * Reader.t) x :
  reads m [] x → carries (fun w => w) m x 0.
Proof. intros R. apply (carries_intro _ _ []); [apply writes_nil|done|constructor|done]. Qed.

(** Lists of entries of one format. *)
Lemma carries_list {A} (f : A → Writer.t → Writer.t) (m : Reader.t → Result A * Reader.t) n l :
  (∀ x, x ∈ l → carries (f x) m (Success x) n) →
  carries (encode_list f l) (decode_list (length l) m) (Success l) (n * len l).
Proof.
  intros Hx. induction l as [|x l IH].
  { apply (carries_intro _ _ []); [apply writes_nil|apply reads_ret|constructor|unfold len; simpl; lia]. }
  destruct (Hx x ltac:(left)) as (a&W1&R1&Hb1&L1).
  destruct IH as (b&W2&R2&Hb2&L2); [intros y Hy; apply Hx; by right|]. exists (a ++ b). split_and!.
  - exact (writes_seq (f x) (encode_list f l) a b W1 W2).
  - cbn [length decode_list]. eapply reads_then; [exact R1|].
    rewrite <- (app_nil_r b). eapply reads_then; [exact R2|]. by apply reads_answer.
  - by apply Forall_app.
  - rewrite len_app. unfold len in *. rewrite length_cons. lia.
Qed.

Lemma carries_read_list {A} (f : A → Writer.t → Writer.t) (m : Reader.t → A * Reader.t) n l :
  (∀ x, x ∈ l → carries (f x) m x n) →
  carries (encode_list f l) (read_list (length l) m) l (n * len l).
Proof.
  intros Hx. induction l as [|x l IH].
  { apply (carries_intro _ _ []); [apply writes_nil|apply reads_ret|constructor|unfold len; simpl; lia]. }
  destruct (Hx x ltac:(left)) as (a&W1&R1&Hb1&L1).
  destruct IH as (b&W2&R2&Hb2&L2); [intros y Hy; apply Hx; by right|]. exists (a ++ b). split_and!.
  - exact (writes_seq (f x) (encode_list f l) a b W1 W2).
  - cbn [length read_list]. eapply (reads_bind m); [exact R1|].
    rewrite <- (app_nil_r b). eapply (reads_bind (read_list (length l) m)); [exact R2|]. by apply reads_answer.
  - by apply Forall_app.
  - rewrite len_app. unfold len in *. rewrite length_cons. lia.
Qed.

Lemma carries_optional {A} (f : A → Writer.t → Writer.t) (m : Reader.t → Result A * Reader.t) o n :
  0 ≤ n → (∀ x, o = Some x → carries (f x) m (Success x) n) →
  carries (write_optional f o) (decode_when (has_value o) m) (Success o) n.
Proof.
  intros Hn Hx. destruct o as [x|]; simpl.
  - eapply carries_then_last; [by apply Hx|]. by apply reads_answer.
  - eapply carries_weaken; [apply carries_nil; by apply reads_answer|done].
Qed.

Lemma carries_when {A} (b : bool) f (m : Reader.t → Result A * Reader.t) x n :
  0 ≤ n → (b = true → carries f m (Success x) n) →
  carries (if b then f else fun w => w) (decode_when b m) (Success (if b then Some x else None)) n.
Proof.
  intros Hn Hx. destruct b; simpl.
  - eapply carries_then_last; [by apply Hx|]. by apply reads_answer.
  - eapply carries_weaken; [apply carries_nil; by apply reads_answer|done].
Qed.

(** ** Bytes nobody vouches for *)

(** Decoding with [m] keeps the cursor inside the input and answers a value that
    satisfies [Q] from a reader that still works, or a proper error. With [b] the
    promise is made only for a reader that works at the start. *)
Definition decodes {A} (b : bool) (m : Reader.t → Result A * Reader.t) (Q : A → Prop) : Prop :=
  ∀ r, safe r → (b = true → Reader.ok r = true) →
    moves r (m r).2 ∧
    match (m r).1 with
    | Success x => Reader.ok (m r).2 = true ∧ Q x
    | Failure c => c ≠ StatusCode.Ok
    end.

Lemma decodes_any {A} b (m : Reader.t → Result A * Reader.t) Q : decodes false m Q → decodes b m Q.
Proof. intros H r Hs _. by apply H. Qed.

Lemma decodes_weaken {A} b (m : Reader.t → Result A * Reader.t) (P Q : A → Prop) :
  decodes b m P → (∀ x, P x → Q x) → decodes b m Q.
Proof.
  intros H HPQ r Hs Hb. destruct (H r Hs Hb) as [M HP]. split; [done|].
  destruct (m r).1; [|done]. destruct HP. auto.
Qed.

Lemma decodes_bind {A B} b (m : Reader.t → A * Reader.t) (k : A → Reader.t → Result B * Reader.t)
    P (Q : B → Prop) :
  yields m P → (∀ x, decodes false (k x) (fun y => P x → Q y)) → decodes b (bind_read m k) Q.
Proof.
  intros Hm Hk r Hs _. unfold bind_read. destruct (Hm r Hs) as [M1 P1]. destruct (m r) as [x r1]. simpl in *.
  destruct (Hk x r1 (mv_safe _ _ M1) ltac:(done)) as [M2 Q2]. split; [by eapply moves_trans|].
  destruct (k x r1) as [[y|c] r2]; simpl in *; [|done]. destruct Q2 as [Ok Q2]. split; [done|].
  apply Q2, P1. by eapply moves_ok.
Qed.

Lemma decodes_then {A B} b (m : Reader.t → Result A * Reader.t) (k : A → Reader.t → Result B * Reader.t)
    P (Q : B → Prop) :
  decodes b m P → (∀ x, P x → decodes true (k x) Q) → decodes b (decode_then m k) Q.
Proof.
  intros Hm Hk r Hs Hb. unfold decode_then. destruct (Hm r Hs Hb) as [M1 P1].
  destruct (m r) as [[x|c] r1]; simpl in *; [|done]. destruct P1 as [Ok P1].
  destruct (Hk x P1 r1 (mv_safe _ _ M1) ltac:(done)) as [M2 Q2]. split; [by eapply moves_trans|done].
Qed.

Lemma decodes_check {A} b (k : Reader.t → Result A * Reader.t) Q :
  decodes true k Q → decodes b (check_then k) Q.
Proof.
  intros Hk r Hs _. unfold check_then. destruct (Reader.ok r) eqn:E; simpl; [by apply Hk|].
  split; [by apply moves_refl|]. by apply bool_decide_eq_false in E.
Qed.

Lemma decodes_answer {A} (a : Result A) (Q : A → Prop) :
  (∀ x, a = Success x → Q x) → (∀ c, a = Failure c → c ≠ StatusCode.Ok) → decodes true (answer a) Q.
Proof.
  intros HS HF r Hs Hok. split; [by apply moves_refl|]. simpl. destruct a; [|by apply HF].
  split; [by apply Hok|by apply HS].
Qed.

Lemma decodes_success {A} (x : A) (Q : A → Prop) : Q x → decodes true (answer (Success x)) Q.
Proof. intros H. apply decodes_answer; [by intros ? [= <-]|done]. Qed.

Lemma decodes_failure {A} c (Q : A → Prop) : c ≠ StatusCode.Ok → decodes true (answer (Failure c)) Q.
Proof. intros H. apply decodes_answer; [done|by intros ? [= <-]]. Qed.

Lemma decodes_if {A} b (t : bool) (m1 m2 : Reader.t → Result A * Reader.t) Q :
  (t = true → decodes b m1 Q) → (t = false → decodes b m2 Q) → decodes b (if t then m1 else m2) Q.
Proof. destruct t; auto. Qed.

Lemma decodes_list {A} n (m : Reader.t → Result A * Reader.t) Q :
  decodes true m Q → decodes true (decode_list n m) (fun l => length l = n ∧ Forall Q l).
Proof.
  intros Hm. induction n as [|n IH]; [by apply decodes_success|]. cbn [decode_list].
  eapply decodes_then; [exact Hm|]. intros x Hx. eapply decodes_then; [exact IH|].
  intros l [Hl Hall]. apply decodes_success. split; [simpl; congruence|by constructor].
Qed.

Lemma decodes_when {A} t (m : Reader.t → Result A * Reader.t) Q :
  decodes true m Q → decodes true (decode_when t m) (fun o => has_value o = t ∧ ∀ x, o = Some x → Q x).
Proof.
  intros Hm. destruct t; simpl; [|by apply decodes_success].
  eapply decodes_then; [exact Hm|]. intros x Hx. apply decodes_success. split; [done|by intros ? [= <-]].
Qed.

Lemma yields_list {A} n (m : Reader.t → A * Reader.t) P :
  yields m P → yields (read_list n m) (fun l => length l = n ∧ Forall P l).
Proof.
  intros Hm. induction n as [|n IH]; [by apply yields_ret|]. cbn [read_list].
  eapply (yields_bind m); [exact Hm|]. intros x.
  eapply (yields_bind (read_list n m)); [exact IH|]. intros l.
  apply yields_ret. intros [Hl Hall] Hx. split; [simpl; congruence|by constructor].
Qed.

(** ** Whole documents *)

(** A value the decoder can answer survives a document of its own, given room:
    the writer takes it, the reader gives it back and nothing is left over. *)
Lemma carries_document {A} f (m : Reader.t → Result A * Reader.t) x n limit :
  carries f m (Success x) n → n ≤ limit →
  let w := f (Writer.make limit) in
  let '(result, r) := m (Reader.make (Writer.buffer w) limit) in
  Writer.ok w = true ∧ result = Success x ∧ Reader.finish r = Success tt.
Proof.
  intros (l&W&R&_&L) Hn w. pose proof (len_nonneg l).
  pose proof (writes_ok f l limit W ltac:(lia)) as Hok.
  pose proof (document_round_trip f m l (Success x) limit W R ltac:(lia) Hok) as D.
  fold w in D, Hok. destruct (m _). done.
Qed.

(** What a fresh writer holds then. *)
Lemma carries_buffer {A} f (m : Reader.t → A * Reader.t) x n limit :
  carries f m x n → n ≤ limit →
  Forall is_byte (Writer.buffer (f (Writer.make limit))) ∧ len (Writer.buffer (f (Writer.make limit))) ≤ n.
Proof.
  intros (l&W&_&Hb&L) Hn. pose proof (len_nonneg l).
  destruct (writes_buffer f l limit W ltac:(lia) (writes_ok f l limit W ltac:(lia))) as [-> _]. done.
Qed.

Lemma safe_make data limit : Forall is_byte data → safe (Reader.make data limit).
Proof.
  intros Hd. assert (safe (Reader.Make data 0 limit StatusCode.Ok)) by (split; [done|done|apply len_nonneg]).
  unfold Reader.make. case_match; [|done]. by apply moves_fail.
Qed.

Lemma data_make data limit : Reader.data (Reader.make data limit) = data.
Proof. unfold Reader.make. by destruct (limit <? len data). Qed.

(** From bytes nobody vouches for: inside the input, and an error or a value
    within its type. *)
Lemma decodes_document {A} (m : Reader.t → Result A * Reader.t) Q data limit :
  decodes false m Q → Forall is_byte data →
  let '(result, r) := m (Reader.make data limit) in
  0 ≤ Reader.offset r ≤ len data ∧
  match result with
  | Success x => Q x ∧ Reader.ok r = true
  | Failure c => c ≠ StatusCode.Ok
  end.
Proof.
  intros Hm Hd. destruct (Hm _ (safe_make data limit Hd) ltac:(done)) as [[[_ Hlo Hhi] Hdata _ _] HQ].
  rewrite Hdata, data_make in Hhi. destruct (m _) as [[x|c] r]; simpl in *; [|done]. by destruct HQ.
Qed.

(** ** Enumerations with a sentinel

    [Count] closes every enumeration that is written: it is the greatest code,
    fits the field, and every code below it is an enumerator's. *)

Class Sentinel {E} `{Enum E} (bound : E) : Prop := {
  sentinel_max : ∀ e, enum_code e ≤ enum_code bound;
  sentinel_u16 : enum_code bound ≤ 65536;
  sentinel_dense : dense E;
}.

Lemma dense_codes `{Enum E} : enum_code <$> enum_all = seqZ 0 (Z.of_nat (length (@enum_all E _))) → dense E.
Proof.
  intros Hc i e He. assert ((enum_code <$> enum_all) !! i = Some (enum_code e)) as Hi.
  { by rewrite list_lookup_fmap, He. }
  rewrite Hc in Hi. apply lookup_seqZ in Hi. lia.
Qed.

Ltac solve_sentinel :=
  split; [intros []; by vm_compute|by vm_compute|apply dense_codes; by vm_compute].

(** ** Fields *)

Section fields.
#[local] Opaque le_bytes.

Lemma carries_u8 v : is_byte v → carries (Writer.u8 v) Reader.u8 v 1.
Proof. intros. by apply (carries_intro _ _ [v]); [apply writes_u8|apply reads_u8|apply Forall_singleton|]. Qed.

Lemma carries_u16 v : 0 ≤ v < 65536 → carries (Writer.u16 v) Reader.u16 v 2.
Proof.
  intros. apply (carries_intro _ _ (le_bytes 2 v)); [apply writes_u16|by apply reads_u16|apply le_bytes_bytes|].
  unfold len. by rewrite length_le_bytes.
Qed.

Lemma carries_u32 v : is_u32 v → carries (Writer.u32 v) Reader.u32 v 4.
Proof.
  intros. apply (carries_intro _ _ (le_bytes 4 v)); [apply writes_u32|by apply reads_u32|apply le_bytes_bytes|].
  unfold len. by rewrite length_le_bytes.
Qed.

Lemma carries_u64 v : is_u64 v → carries (Writer.u64 v) Reader.u64 v 8.
Proof.
  intros. apply (carries_intro _ _ (le_bytes 8 v)); [apply writes_u64|by apply reads_u64|apply le_bytes_bytes|].
  unfold len. by rewrite length_le_bytes.
Qed.

Lemma carries_i64 v : is_i64 v → carries (Writer.i64 v) Reader.i64 v 8.
Proof.
  intros. apply (carries_intro _ _ (le_bytes 8 (to_u64 v))); [apply writes_i64|by apply reads_i64|apply le_bytes_bytes|].
  unfold len. by rewrite length_le_bytes.
Qed.

Lemma carries_boolean b : carries (Writer.boolean b) Reader.boolean b 1.
Proof. apply (carries_intro _ _ (bool_bytes b)); [apply writes_boolean|apply reads_boolean|by destruct b; apply Forall_singleton|done]. Qed.

Lemma carries_enumeration {E} `{Sentinel E bound} (zero e : E) :
  e ≠ bound → carries (Writer.enumeration e) (Reader.enumeration zero bound) e 2.
Proof.
  intros He. apply (carries_intro _ _ (enum_bytes e)); [apply writes_enumeration| |apply le_bytes_bytes|].
  - apply reads_enumeration; [|apply sentinel_u16]. apply below_count; [apply sentinel_max|done].
  - unfold len, enum_bytes. by rewrite length_le_bytes.
Qed.

Lemma carries_generation g : is_u64 g → g ≠ 0 → carries (Writer.generation g) Reader.generation g 8.
Proof.
  intros. apply (carries_intro _ _ (le_bytes 8 g)); [apply writes_generation|by apply reads_generation|apply le_bytes_bytes|].
  unfold len. by rewrite length_le_bytes.
Qed.

Lemma id_bytes_bytes x : Forall is_byte (id_bytes x).
Proof. apply Forall_app. split; apply le_bytes_bytes. Qed.

Lemma carries_id x : id_ok x → x ≠ nil_id → carries (Writer.id x) Reader.id x 16.
Proof.
  intros. apply (carries_intro _ _ (id_bytes x)); [apply writes_id|by apply reads_id|apply id_bytes_bytes|].
  unfold len, id_bytes. by rewrite length_app, !length_le_bytes.
Qed.

Lemma carries_count max v : 0 ≤ v → v ≤ max → max < two32 → carries (Writer.u32 v) (Reader.count max) v 4.
Proof.
  intros H0 Hm H32. assert (is_u32 v) by (unfold is_u32; lia).
  apply (carries_intro _ _ (le_bytes 4 v)); [apply writes_u32|by apply reads_count|apply le_bytes_bytes|].
  unfold len. by rewrite length_le_bytes.
Qed.

Lemma len_blob l : len (blob_bytes l) = 4 + len l.
Proof. unfold blob_bytes. rewrite len_app. unfold len at 1. by rewrite length_le_bytes. Qed.

Lemma blob_bytes_bytes l : Forall is_byte l → Forall is_byte (blob_bytes l).
Proof. intros Hl. apply Forall_app. split; [apply le_bytes_bytes|done]. Qed.

Lemma carries_bytes_field l n :
  Forall is_byte l → len l ≤ n → n ≤ kMaxFramePayloadBytes → carries (Writer.bytes_field l) Reader.bytes_field l (4 + n).
Proof.
  intros Hb Hl Hn. apply (carries_intro _ _ (blob_bytes l)).
  - apply writes_bytes_field. lia.
  - apply reads_bytes_field. unfold kMaxFramePayloadBytes, two32 in *. lia.
  - by apply blob_bytes_bytes.
  - rewrite len_blob. lia.
Qed.

(** Text as a field can carry it. *)
Definition text_ok (l : list Z) : Prop :=
  Forall is_byte l ∧ len l ≤ kMaxFieldStringBytes ∧ is_valid_utf8 l = true.

Lemma carries_string_field l :
  text_ok l → carries (Writer.string_field l) Reader.string_field l (4 + kMaxFieldStringBytes).
Proof.
  intros (Hb&Hl&Hu). apply (carries_intro _ _ (blob_bytes l));
    [by apply writes_string_field|by apply reads_string_field|by apply blob_bytes_bytes|].
  rewrite len_blob. lia.
Qed.

End fields.

Lemma yields_u8 : yields Reader.u8 is_byte.
Proof. exact (yields_fixed 1). Qed.

Lemma to_i64_range v : is_i64 (to_i64 v).
Proof.
  pose proof (wrap64_range v) as Hv. unfold is_u64, two64 in Hv.
  unfold is_i64, to_i64, two64, int64_min, int64_max.
  case_match eqn:E; [apply Z.ltb_lt in E|apply Z.ltb_ge in E]; lia.
Qed.

Lemma yields_i64 : yields Reader.i64 is_i64.
Proof.
  unfold Reader.i64. eapply yields_bind; [apply yields_u64|]. intros v. apply yields_ret. intros _. apply to_i64_range.
Qed.

Lemma yields_sentinel {E} `{Sentinel E bound} (zero : E) :
  yields (Reader.enumeration zero bound) (fun e => e ≠ bound).
Proof. apply yields_enumeration, sentinel_dense. Qed.

Lemma yields_id : yields Reader.id (fun x => id_ok x ∧ x ≠ nil_id).
Proof.
  unfold Reader.id. eapply yields_bind; [apply yields_u64|]. intros h.
  intros r Hr. destruct (yields_u64 r Hr) as [M1 P1]. destruct (Reader.u64 r) as [l r1]. simpl in *.
  destruct (Reader.ok r1) eqn:Ok; simpl; [|by rewrite Ok].
  destruct ((h ≟ 0) && (l ≟ 0)) eqn:E; simpl.
  - split; [by eapply moves_trans, moves_fail, M1|]. by rewrite ok_fail.
  - split; [done|]. intros _ Hh. split; [by split; [|apply P1]|]. by intros [= -> ->].
Qed.

Lemma yields_count max : yields (Reader.count max) (fun v => 0 ≤ v ≤ max).
Proof.
  apply (yields_guard _ (fun v => v >? max) _ 0 0 (fun v => v) _ _ yields_u32); [done|].
  intros v [Hv _]. rewrite Z.gtb_ltb. intros ?%Z.ltb_ge. lia.
Qed.

Lemma yields_raw n : 0 ≤ n → yields (Reader.raw n) (fun l => Forall is_byte l ∧ len l = n).
Proof.
  intros Hn r Hr. unfold Reader.raw. pose proof (require_spec n r Hr Hn) as H.
  pose proof (require_granted n r) as Hg.
  destruct (Reader.require n r) as [[] r1]; simpl in *; destruct H as [M H]; [|by rewrite H].
  destruct H as [-> Hle]. case_match; simpl.
  { split; [by apply moves_fail|]. by rewrite ok_fail. }
  split; [apply moves_advance; auto with lia|]. intros _. destruct Hr as [S1 S2 S3]. split.
  - by apply Forall_take, Forall_drop.
  - unfold len in *. rewrite length_take_le; [lia|]. rewrite length_drop. lia.
Qed.

Lemma yields_bytes_field : yields Reader.bytes_field (fun l => Forall is_byte l).
Proof.
  intros r Hr. unfold Reader.bytes_field. destruct (yields_u32 r Hr) as [M1 P1].
  destruct (Reader.u32 r) as [n r1]. simpl in *. destruct (Reader.ok r1) eqn:Ok; simpl; [|by rewrite Ok].
  destruct (P1 eq_refl) as [Hn _]. destruct (yields_raw n Hn r1 (mv_safe _ _ M1)) as [M2 P2].
  split; [by eapply moves_trans|]. intros Hok. by apply P2.
Qed.

Lemma yields_string_field : yields Reader.string_field text_ok.
Proof.
  intros r Hr. unfold Reader.string_field. destruct (yields_bytes_field r Hr) as [M1 P1].
  destruct (Reader.bytes_field r) as [l r1]. simpl in *. destruct (Reader.ok r1) eqn:Ok; simpl; [|by rewrite Ok].
  rewrite Z.gtb_ltb. destruct (Z.ltb_spec kMaxFieldStringBytes (len l)); simpl.
  { split; [by eapply moves_trans, moves_fail, M1|]. by rewrite ok_fail. }
  destruct (is_valid_utf8 l) eqn:Hu; simpl.
  - split; [done|]. intros _. split_and!; auto.
  - split; [by eapply moves_trans, moves_fail, M1|]. by rewrite ok_fail.
Qed.

(** ** Automation *)

#[export] Hint Resolve carries_u8 carries_u16 carries_u32 carries_u64 carries_i64 carries_boolean
  carries_generation carries_id carries_string_field : wire.
#[export] Hint Resolve yields_u8 yields_i64 yields_id yields_count yields_bytes_field yields_string_field
  : wire.
#[export] Hint Extern 0 (carries (Writer.enumeration _) _ _ _) => eapply carries_enumeration : wire.
#[export] Hint Extern 0 (yields (Reader.enumeration _ _) _) => eapply yields_sentinel : wire.

(** Follows the fields of an encoder and of its decoder side by side; what is
    left is what follows the last field. *)
Ltac carry_field :=
  lazymatch goal with
  | |- carries _ (check_then _) _ _ => apply carries_check
  | |- carries (_ ⨾ _) (bind_read _ _) _ _ => eapply carries_bind; [by eauto with wire|]
  | |- carries (_ ⨾ _) (decode_then _ _) _ _ => eapply carries_then; [by eauto with wire|]
  | |- carries _ (bind_read _ _) _ _ => eapply carries_last; [by eauto with wire|]
  | |- carries _ (decode_then _ _) _ _ => eapply carries_then_last; [by eauto with wire|]
  | |- reads (check_then _) [] _ => apply reads_check_then
  end; cbn beta.

Ltac carry_fields := eapply carries_weaken; [repeat carry_field|].

(** The same for bytes nobody vouches for. *)
Ltac decode_field :=
  lazymatch goal with
  | |- decodes _ (check_then _) _ => apply decodes_check
  | |- decodes _ (bind_read _ _) _ => eapply decodes_bind; [by eauto with wire|intros ?]
  | |- decodes _ (decode_then _ _) _ => eapply decodes_then; [by eauto using decodes_any with wire|intros ? ?]
  end; cbn beta.

Ltac decode_fields := repeat decode_field.
