(* ===== verification/Ledger.v ===== *)
(** * The request ledger

    Models include/itf/ledger.hpp, src/ledger.cpp and include/itf/accounting.hpp:
    the request and attempt lifecycles, flow accounting, completion publication,
    eviction of terminal records and restoration after a restart.

    The hash maps are [gmap]s, the deque of terminal identities is a list from
    front to back, the fixed attempt array is a list of [kMaxAttemptsPerRequest]
    records, and an operation returns its result together with the ledger it
    leaves. [fail_attempt] reads its attempt record after eviction may have
    destroyed it; that read is the only one the source makes through a dangling
    pointer, and [None] stands for it. *)

From S2P Require Import Prelude Ids Traffic Decision.
From Stdlib Require String.

(** ** Lifecycles *)

Module RequestLifecycle.
Inductive t : Type :=
| Unknown | Registered | Active | Completing | Completed | Cancelled | Failed
| Interrupted | Count.

Definition value (x : t) : Z :=
  match x with
  | Unknown => 0 | Registered => 1 | Active => 2 | Completing => 3 | Completed => 4
  | Cancelled => 5 | Failed => 6 | Interrupted => 7 | Count => 8
  end.

Definition all : list t :=
  [Unknown; Registered; Active; Completing; Completed; Cancelled; Failed; Interrupted;
   Count].
End RequestLifecycle.

#[global] Instance RequestLifecycle_enum : Enum RequestLifecycle.t.
Proof. refine {| enum_code := RequestLifecycle.value; enum_all := RequestLifecycle.all |}; solve_enum. Defined.

#[global] Instance RequestLifecycle_eq_dec : EqDecision RequestLifecycle.t := enum_eq_dec.

Module AttemptLifecycle.
Inductive t : Type :=
| Unknown | Registered | Active | Draining | Completed | Failed | Cancelled
| Superseded | Count.

Definition value (x : t) : Z :=
  match x with
  | Unknown => 0 | Registered => 1 | Active => 2 | Draining => 3 | Completed => 4
  | Failed => 5 | Cancelled => 6 | Superseded => 7 | Count => 8
  end.

Definition all : list t :=
  [Unknown; Registered; Active; Draining; Completed; Failed; Cancelled; Superseded; Count].
End AttemptLifecycle.

#[global] Instance AttemptLifecycle_enum : Enum AttemptLifecycle.t.
Proof. refine {| enum_code := AttemptLifecycle.value; enum_all := AttemptLifecycle.all |}; solve_enum. Defined.

#[global] Instance AttemptLifecycle_eq_dec : EqDecision AttemptLifecycle.t := enum_eq_dec.

Definition is_live_lifecycle (l : RequestLifecycle.t) : bool :=
  (l ≟ RequestLifecycle.Registered) || (l ≟ RequestLifecycle.Active)
  || (l ≟ RequestLifecycle.Completing) || (l ≟ RequestLifecycle.Interrupted).

Definition request_is_terminal (l : RequestLifecycle.t) : bool :=
  (l ≟ RequestLifecycle.Completed) || (l ≟ RequestLifecycle.Cancelled)
  || (l ≟ RequestLifecycle.Failed).

Definition attempt_is_terminal (l : AttemptLifecycle.t) : bool :=
  (l ≟ AttemptLifecycle.Completed) || (l ≟ AttemptLifecycle.Failed)
  || (l ≟ AttemptLifecycle.Cancelled) || (l ≟ AttemptLifecycle.Superseded).

(** ** Accounting records *)

Record ClassAccounting := MkClassAcc {
  ca_allowed : Z;
  ca_degraded : Z;
  ca_deferred : Z;
  ca_rejected : Z;
  ca_bytes_allowed : Z;
  ca_bytes_deferred : Z;
  ca_bytes_rejected : Z;
  ca_active_flows : Z;
  ca_peak_active_flows : Z;
  ca_starvation_admissions : Z;
}.

#[export] Instance ca_eta : Eta ClassAccounting := fun r =>
  MkClassAcc (ca_allowed r) (ca_degraded r) (ca_deferred r) (ca_rejected r) (ca_bytes_allowed r)
    (ca_bytes_deferred r) (ca_bytes_rejected r) (ca_active_flows r)
    (ca_peak_active_flows r) (ca_starvation_admissions r).
#[export] Instance ca_set_allowed : Setter ca_allowed. Proof. mk_setter. Defined.
#[export] Instance ca_set_degraded : Setter ca_degraded. Proof. mk_setter. Defined.
#[export] Instance ca_set_deferred : Setter ca_deferred. Proof. mk_setter. Defined.
#[export] Instance ca_set_rejected : Setter ca_rejected. Proof. mk_setter. Defined.
#[export] Instance ca_set_bytes_allowed : Setter ca_bytes_allowed. Proof. mk_setter. Defined.
#[export] Instance ca_set_bytes_deferred : Setter ca_bytes_deferred. Proof. mk_setter. Defined.
#[export] Instance ca_set_bytes_rejected : Setter ca_bytes_rejected. Proof. mk_setter. Defined.
#[export] Instance ca_set_active_flows : Setter ca_active_flows. Proof. mk_setter. Defined.
#[export] Instance ca_set_peak_active_flows : Setter ca_peak_active_flows. Proof. mk_setter. Defined.
#[export] Instance ca_set_starvation_admissions : Setter ca_starvation_admissions. Proof. mk_setter. Defined.

Definition empty_class_accounting : ClassAccounting := MkClassAcc 0 0 0 0 0 0 0 0 0 0.

Record AccountingSnapshot := MkAccounting {
  as_per_class : list ClassAccounting;
  as_requests_registered : Z;
  as_requests_completed : Z;
  as_requests_cancelled : Z;
  as_requests_failed : Z;
  as_requests_interrupted : Z;
  as_requests_evicted : Z;
  as_attempts_registered : Z;
  as_attempts_completed : Z;
  as_attempts_failed : Z;
  as_attempts_superseded : Z;
  as_completions_committed : Z;
  as_completions_suppressed : Z;
  as_completions_refused : Z;
  as_transfers_started : Z;
  as_transfers_completed : Z;
  as_transfers_refused : Z;
  as_active_flows_total : Z;
  as_peak_active_flows_total : Z;
  as_pending_deferrals : Z;
  as_live_requests : Z;
  as_retained_requests : Z;
}.

#[export] Instance as_eta : Eta AccountingSnapshot := fun r =>
  MkAccounting (as_per_class r) (as_requests_registered r) (as_requests_completed r)
    (as_requests_cancelled r) (as_requests_failed r) (as_requests_interrupted r)
    (as_requests_evicted r) (as_attempts_registered r) (as_attempts_completed r)
    (as_attempts_failed r) (as_attempts_superseded r) (as_completions_committed r)
    (as_completions_suppressed r) (as_completions_refused r) (as_transfers_started r)
    (as_transfers_completed r) (as_transfers_refused r) (as_active_flows_total r)
    (as_peak_active_flows_total r) (as_pending_deferrals r) (as_live_requests r)
    (as_retained_requests r).
#[export] Instance as_set_per_class : Setter as_per_class. Proof. mk_setter. Defined.
#[export] Instance as_set_requests_registered : Setter as_requests_registered. Proof. mk_setter. Defined.
#[export] Instance as_set_requests_completed : Setter as_requests_completed. Proof. mk_setter. Defined.
#[export] Instance as_set_requests_cancelled : Setter as_requests_cancelled. Proof. mk_setter. Defined.
#[export] Instance as_set_requests_failed : Setter as_requests_failed. Proof. mk_setter. Defined.
#[export] Instance as_set_requests_interrupted : Setter as_requests_interrupted. Proof. mk_setter. Defined.
#[export] Instance as_set_requests_evicted : Setter as_requests_evicted. Proof. mk_setter. Defined.
#[export] Instance as_set_attempts_registered : Setter as_attempts_registered. Proof. mk_setter. Defined.
#[export] Instance as_set_attempts_completed : Setter as_attempts_completed. Proof. mk_setter. Defined.
#[export] Instance as_set_attempts_failed : Setter as_attempts_failed. Proof. mk_setter. Defined.
#[export] Instance as_set_attempts_superseded : Setter as_attempts_superseded. Proof. mk_setter. Defined.
#[export] Instance as_set_completions_committed : Setter as_completions_committed. Proof. mk_setter. Defined.
#[export] Instance as_set_completions_suppressed : Setter as_completions_suppressed. Proof. mk_setter. Defined.
#[export] Instance as_set_completions_refused : Setter as_completions_refused. Proof. mk_setter. Defined.
#[export] Instance as_set_transfers_started : Setter as_transfers_started. Proof. mk_setter. Defined.
#[export] Instance as_set_transfers_completed : Setter as_transfers_completed. Proof. mk_setter. Defined.
#[export] Instance as_set_transfers_refused : Setter as_transfers_refused. Proof. mk_setter. Defined.
#[export] Instance as_set_active_flows_total : Setter as_active_flows_total. Proof. mk_setter. Defined.
#[export] Instance as_set_peak_active_flows_total : Setter as_peak_active_flows_total. Proof. mk_setter. Defined.
#[export] Instance as_set_pending_deferrals : Setter as_pending_deferrals. Proof. mk_setter. Defined.
#[export] Instance as_set_live_requests : Setter as_live_requests. Proof. mk_setter. Defined.
#[export] Instance as_set_retained_requests : Setter as_retained_requests. Proof. mk_setter. Defined.

Definition empty_accounting : AccountingSnapshot :=
  MkAccounting (replicate kTrafficClassCount empty_class_accounting)
    0 0 0 0 0 0 0 0 0 0 0 0 0 0 0 0 0 0 0 0 0.

Definition accounting_closed (a : AccountingSnapshot) : bool := as_active_flows_total a ≟ 0.

Record RequestAccounting := MkRequestAccounting {
  ra_request : RequestId;
  ra_bytes_in : Z;
  ra_bytes_out : Z;
  ra_decisions : Z;
  ra_defers : Z;
  ra_rejections : Z;
  ra_active_flows : Z;
  ra_closed : bool;
}.

(** ** Ledger records *)

Definition kMaxAttemptsPerRequest : nat := 8.

Record LedgerLimits := MkLedgerLimits {
  ll_max_live_requests : Z;
  ll_max_attempts_per_request : Z;
  ll_max_retained_terminal_requests : Z;
  ll_max_active_flows_per_request : Z;
  ll_max_active_flows_total : Z;
}.

#[export] Instance ll_eta : Eta LedgerLimits := fun r =>
  MkLedgerLimits (ll_max_live_requests r) (ll_max_attempts_per_request r)
    (ll_max_retained_terminal_requests r) (ll_max_active_flows_per_request r)
    (ll_max_active_flows_total r).
#[export] Instance ll_set_max_live_requests : Setter ll_max_live_requests. Proof. mk_setter. Defined.
#[export] Instance ll_set_max_attempts_per_request : Setter ll_max_attempts_per_request. Proof. mk_setter. Defined.
#[export] Instance ll_set_max_retained_terminal_requests : Setter ll_max_retained_terminal_requests. Proof. mk_setter. Defined.
#[export] Instance ll_set_max_active_flows_per_request : Setter ll_max_active_flows_per_request. Proof. mk_setter. Defined.
#[export] Instance ll_set_max_active_flows_total : Setter ll_max_active_flows_total. Proof. mk_setter. Defined.

Definition default_ledger_limits : LedgerLimits := MkLedgerLimits 4096 8 2048 64 65536.

Record AttemptRecord := MkAttempt {
  at_id : AttemptId;
  at_generation : Z;
  at_stage : ServingStage;
  at_lifecycle : AttemptLifecycle.t;
  at_model_hash : Z;
  at_model_generation : Z;
  at_route_generation : Z;
  at_success_published : bool;
  at_failure_published : bool;
  at_terminal_reason : ReasonCode;
  at_bytes_in : Z;
  at_bytes_out : Z;
  at_decisions : Z;
  at_defers : Z;
  at_rejections : Z;
  at_registered_at_nanos : Z;
  at_updated_at_nanos : Z;
}.

#[export] Instance at_eta : Eta AttemptRecord := fun r =>
  MkAttempt (at_id r) (at_generation r) (at_stage r) (at_lifecycle r) (at_model_hash r)
    (at_model_generation r) (at_route_generation r) (at_success_published r)
    (at_failure_published r) (at_terminal_reason r) (at_bytes_in r) (at_bytes_out r)
    (at_decisions r) (at_defers r) (at_rejections r) (at_registered_at_nanos r)
    (at_updated_at_nanos r).
#[export] Instance at_set_id : Setter at_id. Proof. mk_setter. Defined.
#[export] Instance at_set_generation : Setter at_generation. Proof. mk_setter. Defined.
#[export] Instance at_set_stage : Setter at_stage. Proof. mk_setter. Defined.
#[export] Instance at_set_lifecycle : Setter at_lifecycle. Proof. mk_setter. Defined.
#[export] Instance at_set_model_hash : Setter at_model_hash. Proof. mk_setter. Defined.
#[export] Instance at_set_model_generation : Setter at_model_generation. Proof. mk_setter. Defined.
#[export] Instance at_set_route_generation : Setter at_route_generation. Proof. mk_setter. Defined.
#[export] Instance at_set_success_published : Setter at_success_published. Proof. mk_setter. Defined.
#[export] Instance at_set_failure_published : Setter at_failure_published. Proof. mk_setter. Defined.
#[export] Instance at_set_terminal_reason : Setter at_terminal_reason. Proof. mk_setter. Defined.
#[export] Instance at_set_bytes_in : Setter at_bytes_in. Proof. mk_setter. Defined.
#[export] Instance at_set_bytes_out : Setter at_bytes_out. Proof. mk_setter. Defined.
#[export] Instance at_set_decisions : Setter at_decisions. Proof. mk_setter. Defined.
#[export] Instance at_set_defers : Setter at_defers. Proof. mk_setter. Defined.
#[export] Instance at_set_rejections : Setter at_rejections. Proof. mk_setter. Defined.
#[export] Instance at_set_registered_at_nanos : Setter at_registered_at_nanos. Proof. mk_setter. Defined.
#[export] Instance at_set_updated_at_nanos : Setter at_updated_at_nanos. Proof. mk_setter. Defined.

Definition empty_attempt : AttemptRecord :=
  MkAttempt nil_id 0 ServingStage.Unknown AttemptLifecycle.Unknown 0 0 0 false false
    ReasonCode.Unknown 0 0 0 0 0 0 0.

Record RequestRecord := MkRequest {
  rr_id : RequestId;
  rr_generation : Z;
  rr_lifecycle : RequestLifecycle.t;
  rr_stage : ServingStage;
  rr_current_attempt : AttemptId;
  rr_current_attempt_generation : Z;
  rr_attempt_count : nat;
  rr_attempts : list AttemptRecord;
  rr_terminal_reason : ReasonCode;
  rr_registered_at_nanos : Z;
  rr_terminal_at_nanos : Z;
  rr_requires_revalidation : bool;
  rr_accounting_closed : bool;
  rr_bytes_in : Z;
  rr_bytes_out : Z;
  rr_decisions : Z;
  rr_defers : Z;
  rr_rejections : Z;
  rr_active_flows : Z;
  rr_authority_floor : Z;
}.

#[export] Instance rr_eta : Eta RequestRecord := fun r =>
  MkRequest (rr_id r) (rr_generation r) (rr_lifecycle r) (rr_stage r) (rr_current_attempt r)
    (rr_current_attempt_generation r) (rr_attempt_count r) (rr_attempts r)
    (rr_terminal_reason r) (rr_registered_at_nanos r) (rr_terminal_at_nanos r)
    (rr_requires_revalidation r) (rr_accounting_closed r) (rr_bytes_in r)
    (rr_bytes_out r) (rr_decisions r) (rr_defers r) (rr_rejections r)
    (rr_active_flows r) (rr_authority_floor r).
#[export] Instance rr_set_id : Setter rr_id. Proof. mk_setter. Defined.
#[export] Instance rr_set_generation : Setter rr_generation. Proof. mk_setter. Defined.
#[export] Instance rr_set_lifecycle : Setter rr_lifecycle. Proof. mk_setter. Defined.
#[export] Instance rr_set_stage : Setter rr_stage. Proof. mk_setter. Defined.
#[export] Instance rr_set_current_attempt : Setter rr_current_attempt. Proof. mk_setter. Defined.
#[export] Instance rr_set_current_attempt_generation : Setter rr_current_attempt_generation. Proof. mk_setter. Defined.
#[export] Instance rr_set_attempt_count : Setter rr_attempt_count. Proof. mk_setter. Defined.
#[export] Instance rr_set_attempts : Setter rr_attempts. Proof. mk_setter. Defined.
#[export] Instance rr_set_terminal_reason : Setter rr_terminal_reason. Proof. mk_setter. Defined.
#[export] Instance rr_set_registered_at_nanos : Setter rr_registered_at_nanos. Proof. mk_setter. Defined.
#[export] Instance rr_set_terminal_at_nanos : Setter rr_terminal_at_nanos. Proof. mk_setter. Defined.
#[export] Instance rr_set_requires_revalidation : Setter rr_requires_revalidation. Proof. mk_setter. Defined.
#[export] Instance rr_set_accounting_closed : Setter rr_accounting_closed. Proof. mk_setter. Defined.
#[export] Instance rr_set_bytes_in : Setter rr_bytes_in. Proof. mk_setter. Defined.
#[export] Instance rr_set_bytes_out : Setter rr_bytes_out. Proof. mk_setter. Defined.
#[export] Instance rr_set_decisions : Setter rr_decisions. Proof. mk_setter. Defined.
#[export] Instance rr_set_defers : Setter rr_defers. Proof. mk_setter. Defined.
#[export] Instance rr_set_rejections : Setter rr_rejections. Proof. mk_setter. Defined.
#[export] Instance rr_set_active_flows : Setter rr_active_flows. Proof. mk_setter. Defined.
#[export] Instance rr_set_authority_floor : Setter rr_authority_floor. Proof. mk_setter. Defined.

Definition empty_request_record : RequestRecord :=
  MkRequest nil_id 0 RequestLifecycle.Unknown ServingStage.Unknown nil_id 0 0
    (replicate kMaxAttemptsPerRequest empty_attempt) ReasonCode.Unknown 0 0 false false
    0 0 0 0 0 0 0.

(** [find_attempt] returns the position of the record, the source's pointer
    into the array, together with the record it points at. *)
Definition find_attempt (r : RequestRecord) (attempt_id : AttemptId)
    : option (nat * AttemptRecord) :=
  list_find (fun a => at_id a = attempt_id)
            (take (rr_attempt_count r `min` kMaxAttemptsPerRequest) (rr_attempts r)).

Definition is_current_attempt (r : RequestRecord) (attempt_id : AttemptId) : bool :=
  negb (is_nil (rr_current_attempt r)) && (rr_current_attempt r ≟ attempt_id).

(** Writing through the pointer. *)
Definition set_attempt (r : RequestRecord) (index : nat) (a : AttemptRecord) : RequestRecord :=
  r <| rr_attempts := <[index := a]> (rr_attempts r) |>.

(** The loop of [cancel_request] and [mark_request_interrupted] over the used
    part of the attempt array. *)
Definition map_attempts (f : AttemptRecord → AttemptRecord) (r : RequestRecord) : RequestRecord :=
  let n := (rr_attempt_count r `min` kMaxAttemptsPerRequest)%nat in
  r <| rr_attempts := (f <$> take n (rr_attempts r)) ++ drop n (rr_attempts r) |>.

Record CompletionPublication := MkPublication {
  cp_request : RequestId;
  cp_attempt : AttemptId;
  cp_attempt_generation : Z;
  cp_success : bool;
  cp_reason : ReasonCode;
  cp_bytes_in : Z;
  cp_bytes_out : Z;
}.

Module Disposition.
Inductive t : Type :=
| Unknown | Committed | DuplicateSuppressed | Refused | Count.

Definition value (x : t) : Z :=
  match x with
  | Unknown => 0 | Committed => 1 | DuplicateSuppressed => 2 | Refused => 3 | Count => 4
  end.

Definition all : list t :=
  [Unknown; Committed; DuplicateSuppressed; Refused; Count].
End Disposition.

#[global] Instance Disposition_enum : Enum Disposition.t.
Proof. refine {| enum_code := Disposition.value; enum_all := Disposition.all |}; solve_enum. Defined.

#[global] Instance Disposition_eq_dec : EqDecision Disposition.t := enum_eq_dec.

Record PublishOutcome := MkOutcome {
  po_disposition : Disposition.t;
  po_refusal : StatusCode.t;
  po_reason : ReasonCode;
  po_accounted_bytes_in : Z;
  po_accounted_bytes_out : Z;
  po_released_flows : Z;
}.

#[export] Instance po_eta : Eta PublishOutcome := fun r =>
  MkOutcome (po_disposition r) (po_refusal r) (po_reason r) (po_accounted_bytes_in r)
    (po_accounted_bytes_out r) (po_released_flows r).
#[export] Instance po_set_accounted_bytes_in : Setter po_accounted_bytes_in. Proof. mk_setter. Defined.
#[export] Instance po_set_accounted_bytes_out : Setter po_accounted_bytes_out. Proof. mk_setter. Defined.

(** The ledger's own flow record. *)
Record LFlow := MkLFlow {
  lf_id : FlowId;
  lf_request : RequestId;
  lf_attempt : AttemptId;
  lf_traffic : TrafficClass;
  lf_declared_bytes : Z;
  lf_observed_bytes : Z;
  lf_opened_at_nanos : Z;
}.

#[export] Instance lf_eta : Eta LFlow := fun r =>
  MkLFlow (lf_id r) (lf_request r) (lf_attempt r) (lf_traffic r) (lf_declared_bytes r)
    (lf_observed_bytes r) (lf_opened_at_nanos r).
#[export] Instance lf_set_observed_bytes : Setter lf_observed_bytes. Proof. mk_setter. Defined.

Record RequestLedger := MkLedger {
  L_limits : LedgerLimits;
  L_requests : gmap RequestId RequestRecord;
  L_terminal_order : list RequestId;
  L_flows : gmap FlowId LFlow;
  L_flows_by_request : gmap RequestId (list FlowId);
  L_next_flow_sequence : Z;
  L_accounting : AccountingSnapshot;
}.

#[export] Instance L_eta : Eta RequestLedger := fun r =>
  MkLedger (L_limits r) (L_requests r) (L_terminal_order r) (L_flows r) (L_flows_by_request r)
    (L_next_flow_sequence r) (L_accounting r).
#[export] Instance L_set_limits : Setter L_limits. Proof. mk_setter. Defined.
#[export] Instance L_set_requests : Setter L_requests. Proof. mk_setter. Defined.
#[export] Instance L_set_terminal_order : Setter L_terminal_order. Proof. mk_setter. Defined.
#[export] Instance L_set_flows : Setter L_flows. Proof. mk_setter. Defined.
#[export] Instance L_set_flows_by_request : Setter L_flows_by_request. Proof. mk_setter. Defined.
#[export] Instance L_set_next_flow_sequence : Setter L_next_flow_sequence. Proof. mk_setter. Defined.
#[export] Instance L_set_accounting : Setter L_accounting. Proof. mk_setter. Defined.

(** ** Counters *)

Definition bump (f : AccountingSnapshot → Z) `{!Setter f} (L : RequestLedger) : RequestLedger :=
  L <| L_accounting := (L_accounting L) <| f := add64 (f (L_accounting L)) 1 |> |>.

Definition put_record (id : RequestId) (r : RequestRecord) (L : RequestLedger) : RequestLedger :=
  L <| L_requests := <[id := r]> (L_requests L) |>.

(** ** Construction and reset *)

Definition make_ledger (limits : LedgerLimits) : RequestLedger :=
  let limits :=
    if (ll_max_attempts_per_request limits ≟ 0)
       || (ll_max_attempts_per_request limits >? Z.of_nat kMaxAttemptsPerRequest)
    then limits <| ll_max_attempts_per_request := Z.of_nat kMaxAttemptsPerRequest |> else limits in
  let limits := if ll_max_live_requests limits ≟ 0
    then limits <| ll_max_live_requests := 1 |> else limits in
  let limits := if ll_max_active_flows_total limits ≟ 0
    then limits <| ll_max_active_flows_total := 1 |> else limits in
  let limits := if ll_max_active_flows_per_request limits ≟ 0
    then limits <| ll_max_active_flows_per_request := 1 |> else limits in
  MkLedger limits ∅ [] ∅ ∅ 0 empty_accounting.

Definition clear (L : RequestLedger) : RequestLedger :=
  MkLedger (L_limits L) ∅ [] ∅ ∅ 0 empty_accounting.

(** ** Flow accounting *)

Definition class_flow_open (e : ClassAccounting) : ClassAccounting :=
  let e := e <| ca_active_flows := add32 (ca_active_flows e) 1 |> in
  if ca_active_flows e >? ca_peak_active_flows e
  then e <| ca_peak_active_flows := ca_active_flows e |> else e.

Definition class_flow_close (e : ClassAccounting) : ClassAccounting :=
  if ca_active_flows e >? 0
  then e <| ca_active_flows := sub32 (ca_active_flows e) 1 |> else e.

Definition account_flow_open (traffic : TrafficClass) (a : AccountingSnapshot)
    : AccountingSnapshot :=
  let a := a <| as_active_flows_total := add32 (as_active_flows_total a) 1 |> in
  let a := if as_active_flows_total a >? as_peak_active_flows_total a
           then a <| as_peak_active_flows_total := as_active_flows_total a |> else a in
  let index := tc_index traffic in
  if (kTrafficClassCount <=? index)%nat then a
  else a <| as_per_class := alter class_flow_open index (as_per_class a) |>.

Definition account_flow_close (traffic : TrafficClass) (a : AccountingSnapshot)
    : AccountingSnapshot :=
  let a := if as_active_flows_total a >? 0
           then a <| as_active_flows_total := sub32 (as_active_flows_total a) 1 |> else a in
  let index := tc_index traffic in
  if (kTrafficClassCount <=? index)%nat then a
  else a <| as_per_class := alter class_flow_close index (as_per_class a) |>.

(** One iteration of [release_request_flows]. *)
Definition close_flow (L : RequestLedger) (flow : FlowId) : RequestLedger :=
  match L_flows L !! flow with
  | Some f => L <| L_accounting := account_flow_close (lf_traffic f) (L_accounting L) |>
                <| L_flows := delete flow (L_flows L) |>
  | None => L
  end.

Definition release_request_flows (L : RequestLedger) (record : RequestRecord)
    : RequestRecord * RequestLedger :=
  let L' := foldl close_flow L (mm_range (L_flows_by_request L) (rr_id record)) in
  (record <| rr_active_flows := 0 |> <| rr_accounting_closed := true |>,
   L' <| L_flows_by_request := mm_erase_key (L_flows_by_request L') (rr_id record) |>).

(** ** Eviction *)

Definition size_of {K V} `{Countable K} (m : gmap K V) : Z := Z.of_nat (size m).

Definition refresh_request_counts (L : RequestLedger) : RequestLedger :=
  let r := size_of (L_requests L) in
  let t := Z.of_nat (length (L_terminal_order L)) in
  L <| L_accounting := (L_accounting L) <| as_retained_requests := t |>
         <| as_live_requests := if r >? t then r - t else 0 |> |>.

(** The loop pops the front while the deque is over its limit. *)
Fixpoint evict_loop (order : list RequestId) (L : RequestLedger) : RequestLedger :=
  match order with
  | [] => L <| L_terminal_order := [] |>
  | victim :: rest =>
      if Z.of_nat (length order) >? ll_max_retained_terminal_requests (L_limits L) then
        match L_requests L !! victim with
        | None => evict_loop rest L
        | Some r =>
            if negb (request_is_terminal (rr_lifecycle r)) then evict_loop rest L
            else evict_loop rest
                   (L <| L_requests := delete victim (L_requests L) |> ▸ bump as_requests_evicted)
        end
      else L <| L_terminal_order := order |>
  end.

Definition evict_if_needed (L : RequestLedger) : RequestLedger :=
  refresh_request_counts (evict_loop (L_terminal_order L) L).

Definition push_terminal (id : RequestId) (L : RequestLedger) : RequestLedger :=
  L <| L_terminal_order := L_terminal_order L ++ [id] |>.

(** ** Registration *)

Definition register_request (L : RequestLedger) (id : RequestId) (now_nanos : Z)
    : Result Z * RequestLedger :=
  if is_nil id then refuse L StatusCode.InvalidArgument
  else match L_requests L !! id with
  | Some existing =>
      if request_is_terminal (rr_lifecycle existing) then refuse L StatusCode.Conflict
      else refuse L StatusCode.AlreadyExists
  | None =>
      let live := sub64 (size_of (L_requests L)) (Z.of_nat (length (L_terminal_order L))) in
      if ll_max_live_requests (L_limits L) <=? live then refuse L StatusCode.CapacityExhausted
      else
        let record := empty_request_record <| rr_id := id |> <| rr_generation := 1 |>
              <| rr_lifecycle := RequestLifecycle.Registered |>
              <| rr_stage := ServingStage.Unknown |>
              <| rr_registered_at_nanos := now_nanos |> in
        let L := put_record id record L in
        (Success (rr_generation record),
         refresh_request_counts (bump as_requests_registered L))
  end.

(** Appending an attempt record: the write at [attempts[attempt_count]] and the
    updates of the request that every registration path makes. *)
Definition append_attempt (record : RequestRecord) (entry : AttemptRecord) : RequestRecord :=
  record <| rr_attempts := <[rr_attempt_count record := entry]> (rr_attempts record) |>
         <| rr_attempt_count := S (rr_attempt_count record) |>
         <| rr_current_attempt := at_id entry |>
         <| rr_current_attempt_generation := at_generation entry |>
         <| rr_stage := ServingStage.Unknown |>.

Definition fresh_attempt (record : RequestRecord) (attempt : AttemptId) (now_nanos : Z)
    : AttemptRecord :=
  empty_attempt <| at_id := attempt |>
    <| at_generation := Z.of_nat (rr_attempt_count record) + 1 |>
    <| at_stage := ServingStage.Unknown |>
    <| at_lifecycle := AttemptLifecycle.Registered |>
    <| at_registered_at_nanos := now_nanos |>
    <| at_updated_at_nanos := now_nanos |>.

Definition attempts_full (L : RequestLedger) (record : RequestRecord) : bool :=
  ll_max_attempts_per_request (L_limits L) <=? Z.of_nat (rr_attempt_count record).

Definition register_attempt (L : RequestLedger) (id : RequestId) (attempt : AttemptId)
    (model_hash model_generation route_generation now_nanos : Z) : Result Z * RequestLedger :=
  if is_nil attempt then refuse L StatusCode.InvalidArgument
  else match L_requests L !! id with
  | None => refuse L StatusCode.NotFound
  | Some record =>
      if request_is_terminal (rr_lifecycle record) then refuse L StatusCode.Conflict
      else if rr_requires_revalidation record then refuse L StatusCode.RevalidationRequired
      else match find_attempt record attempt with
      | Some _ => refuse L StatusCode.AlreadyExists
      | None =>
          if attempts_full L record then refuse L StatusCode.CapacityExhausted
          else
            let entry := (fresh_attempt record attempt now_nanos)
                  <| at_model_hash := model_hash |>
                  <| at_model_generation := model_generation |>
                  <| at_route_generation := route_generation |> in
            let record := append_attempt record entry in
            let record := if rr_lifecycle record ≟ RequestLifecycle.Interrupted
              then record <| rr_lifecycle := RequestLifecycle.Active |> else record in
            let record := record <| rr_requires_revalidation := false |> in
            (Success (at_generation entry), bump as_attempts_registered (put_record id record L))
      end
  end.

Definition revalidate_request (L : RequestLedger) (id : RequestId) (attempt : AttemptId)
    (now_nanos : Z) : Result Z * RequestLedger :=
  match L_requests L !! id with
  | None => refuse L StatusCode.NotFound
  | Some record =>
      if request_is_terminal (rr_lifecycle record) then refuse L StatusCode.Conflict
      else if negb (rr_requires_revalidation record) then refuse L StatusCode.Conflict
      else if is_nil attempt then refuse L StatusCode.InvalidArgument
      else if attempts_full L record then refuse L StatusCode.CapacityExhausted
      else
        let entry := fresh_attempt record attempt now_nanos in
        let record := (append_attempt record entry)
              <| rr_lifecycle := RequestLifecycle.Active |>
              <| rr_requires_revalidation := false |> in
        let record := record <| rr_generation := next (rr_generation record) |> in
        (Success (at_generation entry), bump as_attempts_registered (put_record id record L))
  end.

(** ** Stage progression *)

Definition advance_stage (L : RequestLedger) (id : RequestId) (attempt : AttemptId)
    (target : ServingStage) (now_nanos : Z) : Status * RequestLedger :=
  if stage_is_terminal target then refuse L StatusCode.InvalidArgument
  else if target ≟ ServingStage.Unknown then refuse L StatusCode.InvalidArgument
  else match L_requests L !! id with
  | None => refuse L StatusCode.NotFound
  | Some record =>
      if rr_lifecycle record ≟ RequestLifecycle.Cancelled then refuse L StatusCode.Cancelled
      else if request_is_terminal (rr_lifecycle record) then refuse L StatusCode.Conflict
      else if rr_requires_revalidation record then refuse L StatusCode.RevalidationRequired
      else match find_attempt record attempt with
      | None => refuse L StatusCode.NotFound
      | Some (index, entry) =>
          if negb (is_current_attempt record attempt) then refuse L StatusCode.StaleGeneration
          else if attempt_is_terminal (at_lifecycle entry) then refuse L StatusCode.Conflict
          else if negb (is_legal_stage_transition (at_stage entry) target)
            then refuse L StatusCode.InvalidTransition
          else
            let entry := entry <| at_stage := target |> <| at_updated_at_nanos := now_nanos |> in
            let entry := if at_lifecycle entry ≟ AttemptLifecycle.Registered
              then entry <| at_lifecycle := AttemptLifecycle.Active |> else entry in
            let entry := if target ≟ ServingStage.Completing
              then entry <| at_lifecycle := AttemptLifecycle.Draining |> else entry in
            let record := (set_attempt record index entry) <| rr_stage := target |> in
            let record := if target ≟ ServingStage.Completing
              then record <| rr_lifecycle := RequestLifecycle.Completing |> else record in
            (Success tt, put_record id record L)
      end
  end.

(** ** Failure, replacement, cancellation, interruption *)

(** The tail every terminal transition shares: the flows are released, the
    identity joins the terminal order. *)
Definition terminate (id : RequestId) (record : RequestRecord) (L : RequestLedger)
    : RequestLedger :=
  let '(record, L) := release_request_flows L record in
  push_terminal id (put_record id record L).

Definition fail_attempt (L : RequestLedger) (id : RequestId) (attempt : AttemptId)
    (reason : ReasonCode) (now_nanos : Z) : option (Result Z) * RequestLedger :=
  match L_requests L !! id with
  | None => (Some (Failure StatusCode.NotFound), L)
  | Some record =>
      match find_attempt record attempt with
      | None => (Some (Failure StatusCode.NotFound), L)
      | Some (index, entry) =>
          if negb (is_current_attempt record attempt)
            then (Some (Failure StatusCode.StaleGeneration), L)
          else if attempt_is_terminal (at_lifecycle entry) then
            if at_lifecycle entry ≟ AttemptLifecycle.Failed
            then (Some (Success (at_generation entry)), L)
            else (Some (Failure StatusCode.Conflict), L)
          else
            let entry := entry <| at_lifecycle := AttemptLifecycle.Failed |>
                  <| at_stage := ServingStage.Failed |>
                  <| at_failure_published := true |>
                  <| at_terminal_reason := reason |>
                  <| at_updated_at_nanos := now_nanos |> in
            let record := (set_attempt record index entry)
                  <| rr_lifecycle := RequestLifecycle.Failed |>
                  <| rr_stage := ServingStage.Failed |>
                  <| rr_terminal_reason := reason |>
                  <| rr_terminal_at_nanos := now_nanos |> in
            let L := terminate id record L
                     ▸ bump as_attempts_failed ▸ bump as_requests_failed in
            let L := evict_if_needed L in
            (match L_requests L !! id with
             | Some _ => Some (Success (at_generation entry))
             | None => None
             end, L)
      end
  end.

Definition supersede_attempt (L : RequestLedger) (id : RequestId) (attempt replacement : AttemptId)
    (now_nanos : Z) : Result Z * RequestLedger :=
  if is_nil replacement then refuse L StatusCode.InvalidArgument
  else match L_requests L !! id with
  | None => refuse L StatusCode.NotFound
  | Some record =>
      if request_is_terminal (rr_lifecycle record) then refuse L StatusCode.Conflict
      else match find_attempt record attempt with
      | None => refuse L StatusCode.NotFound
      | Some (index, entry) =>
          if negb (is_current_attempt record attempt) then refuse L StatusCode.StaleGeneration
          else match find_attempt record replacement with
          | Some _ => refuse L StatusCode.AlreadyExists
          | None =>
              if attempts_full L record then refuse L StatusCode.CapacityExhausted
              else
                let old := entry <| at_lifecycle := AttemptLifecycle.Superseded |>
                      <| at_terminal_reason := ReasonCode.AttemptSuperseded |>
                      <| at_updated_at_nanos := now_nanos |> in
                let fresh := (fresh_attempt record replacement now_nanos)
                      <| at_model_hash := at_model_hash entry |>
                      <| at_model_generation := at_model_generation entry |> in
                let record := append_attempt (set_attempt record index old) fresh in
                let record := record <| rr_generation := next (rr_generation record) |> in
                (Success (at_generation fresh),
                 put_record id record L ▸ bump as_attempts_superseded ▸ bump as_attempts_registered)
          end
      end
  end.

Definition set_attempt_model (L : RequestLedger) (id : RequestId) (attempt : AttemptId)
    (model_hash model_generation : Z) : Status * RequestLedger :=
  match L_requests L !! id with
  | None => refuse L StatusCode.NotFound
  | Some record =>
      match find_attempt record attempt with
      | None => refuse L StatusCode.NotFound
      | Some (index, entry) =>
          let entry := entry <| at_model_hash := model_hash |>
                <| at_model_generation := model_generation |> in
          (Success tt, put_record id (set_attempt record index entry) L)
      end
  end.

(** Raising the authority floor; it is never lowered. *)
Definition raise_floor (sequence : Z) (record : RequestRecord) : RequestRecord :=
  if negb (is_unset sequence) && (sequence >? rr_authority_floor record)
  then record <| rr_authority_floor := sequence |> else record.

Definition cancel_attempt (reason : ReasonCode) (now_nanos : Z) (entry : AttemptRecord)
    : AttemptRecord :=
  if negb (attempt_is_terminal (at_lifecycle entry)) then
    entry <| at_lifecycle := AttemptLifecycle.Cancelled |>
          <| at_stage := ServingStage.Cancelled |>
          <| at_terminal_reason := reason |>
          <| at_updated_at_nanos := now_nanos |>
  else entry.

Definition cancel_request (L : RequestLedger) (id : RequestId) (reason : ReasonCode)
    (sequence now_nanos : Z) : Status * RequestLedger :=
  match L_requests L !! id with
  | None => refuse L StatusCode.NotFound
  | Some record =>
      if rr_lifecycle record ≟ RequestLifecycle.Cancelled then
        (Success tt, put_record id (raise_floor sequence record) L)
      else if request_is_terminal (rr_lifecycle record) then refuse L StatusCode.Conflict
      else
        let record := record <| rr_lifecycle := RequestLifecycle.Cancelled |>
              <| rr_stage := ServingStage.Cancelled |>
              <| rr_terminal_reason := reason |>
              <| rr_terminal_at_nanos := now_nanos |>
              <| rr_requires_revalidation := false |> in
        let record := raise_floor sequence record in
        let record := map_attempts (cancel_attempt reason now_nanos) record in
        let L := terminate id record L ▸ bump as_requests_cancelled in
        (Success tt, evict_if_needed L)
  end.

Definition interrupt_attempt (now_nanos : Z) (entry : AttemptRecord) : AttemptRecord :=
  if negb (attempt_is_terminal (at_lifecycle entry)) then
    entry <| at_lifecycle := AttemptLifecycle.Cancelled |>
          <| at_terminal_reason := ReasonCode.Cancelled |>
          <| at_updated_at_nanos := now_nanos |>
  else entry.

Definition mark_request_interrupted (L : RequestLedger) (id : RequestId) (now_nanos : Z)
    : Status * RequestLedger :=
  match L_requests L !! id with
  | None => refuse L StatusCode.NotFound
  | Some record =>
      if request_is_terminal (rr_lifecycle record) then (Success tt, L)
      else
        let record := record <| rr_lifecycle := RequestLifecycle.Interrupted |>
              <| rr_requires_revalidation := true |> in
        let record := map_attempts (interrupt_attempt now_nanos) record in
        let '(record, L) := release_request_flows L record in
        let record := record <| rr_accounting_closed := false |> in
        (Success tt, bump as_requests_interrupted (put_record id record L))
  end.

(** ** Completion publication *)

Definition refused_outcome (refusal : StatusCode.t) (reason : ReasonCode) : PublishOutcome :=
  MkOutcome Disposition.Refused refusal reason 0 0 0.

Definition suppressed_outcome : PublishOutcome :=
  MkOutcome Disposition.DuplicateSuppressed StatusCode.Ok
    ReasonCode.DuplicateCompletionSuppressed 0 0 0.

Definition refuse_publication (L : RequestLedger) (refusal : StatusCode.t) (reason : ReasonCode)
    : Result PublishOutcome * RequestLedger :=
  (Success (refused_outcome refusal reason), bump as_completions_refused L).

Definition suppress_publication (L : RequestLedger) : Result PublishOutcome * RequestLedger :=
  (Success suppressed_outcome, bump as_completions_suppressed L).

(** The failing branch of a publication that passed every fence. *)
Definition publish_failure (L : RequestLedger) (publication : CompletionPublication)
    (record : RequestRecord) (index : nat) (entry : AttemptRecord) (now_nanos : Z)
    : Result PublishOutcome * RequestLedger :=
  if at_failure_published entry then suppress_publication L
  else
    let entry := entry <| at_failure_published := true |>
          <| at_lifecycle := AttemptLifecycle.Failed |>
          <| at_stage := ServingStage.Failed |>
          <| at_terminal_reason := if cp_reason publication ≟ ReasonCode.Unknown
                                   then ReasonCode.AttemptFailed else cp_reason publication |>
          <| at_updated_at_nanos := now_nanos |>
          <| at_bytes_in := Z.max (at_bytes_in entry) (cp_bytes_in publication) |>
          <| at_bytes_out := Z.max (at_bytes_out entry) (cp_bytes_out publication) |> in
    let record := (set_attempt record index entry)
          <| rr_lifecycle := RequestLifecycle.Failed |>
          <| rr_stage := ServingStage.Failed |>
          <| rr_terminal_reason := at_terminal_reason entry |>
          <| rr_terminal_at_nanos := now_nanos |>
          <| rr_bytes_in := Z.max (rr_bytes_in record) (cp_bytes_in publication) |>
          <| rr_bytes_out := Z.max (rr_bytes_out record) (cp_bytes_out publication) |> in
    let L := terminate (cp_request publication) record L
             ▸ bump as_attempts_failed ▸ bump as_requests_failed in
    (Success (MkOutcome Disposition.Committed StatusCode.Ok ReasonCode.AttemptFailed 0 0 0),
     evict_if_needed L).

(** The succeeding branch: totals are the maximum of the two views. *)
Definition publish_success (L : RequestLedger) (publication : CompletionPublication)
    (record : RequestRecord) (index : nat) (entry : AttemptRecord) (now_nanos : Z)
    : Result PublishOutcome * RequestLedger :=
  if at_success_published entry then suppress_publication L
  else
    let entry := entry <| at_success_published := true |>
          <| at_lifecycle := AttemptLifecycle.Completed |>
          <| at_stage := ServingStage.Completed |>
          <| at_updated_at_nanos := now_nanos |>
          <| at_bytes_in := Z.max (at_bytes_in entry) (cp_bytes_in publication) |>
          <| at_bytes_out := Z.max (at_bytes_out entry) (cp_bytes_out publication) |> in
    let released := rr_active_flows record in
    let record := (set_attempt record index entry)
          <| rr_lifecycle := RequestLifecycle.Completed |>
          <| rr_stage := ServingStage.Completed |>
          <| rr_terminal_reason := ReasonCode.CommittedCompletion |>
          <| rr_terminal_at_nanos := now_nanos |>
          <| rr_bytes_in := Z.max (rr_bytes_in record) (cp_bytes_in publication) |>
          <| rr_bytes_out := Z.max (rr_bytes_out record) (cp_bytes_out publication) |> in
    let L := terminate (cp_request publication) record L
             ▸ bump as_attempts_completed ▸ bump as_requests_completed
             ▸ bump as_completions_committed in
    (Success (MkOutcome Disposition.Committed StatusCode.Ok ReasonCode.CommittedCompletion
                (cp_bytes_in publication) (cp_bytes_out publication) released),
     evict_if_needed L).

Definition publish_completion (L : RequestLedger) (publication : CompletionPublication)
    (now_nanos : Z) : Result PublishOutcome * RequestLedger :=
  if is_nil (cp_request publication) || is_nil (cp_attempt publication)
  then refuse L StatusCode.InvalidArgument
  else match L_requests L !! cp_request publication with
  | None => refuse L StatusCode.NotFound
  | Some record =>
      match find_attempt record (cp_attempt publication) with
      | None => refuse_publication L StatusCode.StaleGeneration ReasonCode.RejectedUnknownAttempt
      | Some (index, entry) =>
          if negb (is_unset (cp_attempt_generation publication))
             && (cp_attempt_generation publication ≠? at_generation entry)
            then refuse_publication L StatusCode.StaleGeneration ReasonCode.RejectedStaleAttempt
          else if rr_lifecycle record ≟ RequestLifecycle.Cancelled
            then refuse_publication L StatusCode.Cancelled ReasonCode.RejectedRequestCancelled
          else if rr_lifecycle record ≟ RequestLifecycle.Completed
            then suppress_publication L
          else if request_is_terminal (rr_lifecycle record)
            then refuse_publication L StatusCode.Conflict ReasonCode.RejectedRequestTerminal
          else if at_lifecycle entry ≟ AttemptLifecycle.Superseded
            then refuse_publication L StatusCode.StaleGeneration ReasonCode.RejectedStaleAttempt
          else if at_lifecycle entry ≟ AttemptLifecycle.Failed
            then refuse_publication L StatusCode.Conflict ReasonCode.AttemptFailed
          else if at_lifecycle entry ≟ AttemptLifecycle.Cancelled
            then refuse_publication L StatusCode.Cancelled ReasonCode.RejectedRequestCancelled
          else if negb (cp_success publication)
            then publish_failure L publication record index entry now_nanos
          else publish_success L publication record index entry now_nanos
      end
  end.

(** ** Flows *)

Definition flow_mix (id : RequestId) (attempt : AttemptId) (traffic : TrafficClass) : Z :=
  Z.lxor (Z.lxor (Z.lxor (Z.lxor (high id) (mul64 (low id) 0x9E3779B97F4A7C15))
                         (mul64 (high attempt) 0xBF58476D1CE4E5B9))
                 (low attempt))
         (wrap64 (Z.shiftl (TrafficClass.value traffic) 56)).

Definition open_flow (L : RequestLedger) (id : RequestId) (attempt : AttemptId)
    (traffic : TrafficClass) (declared_bytes now_nanos : Z) : Result FlowId * RequestLedger :=
  if (traffic ≟ TrafficClass.Unknown)
     || (TrafficClass.value TrafficClass.Count <=? TrafficClass.value traffic)
  then refuse L StatusCode.InvalidArgument
  else match L_requests L !! id with
  | None => refuse L StatusCode.NotFound
  | Some record =>
      if rr_lifecycle record ≟ RequestLifecycle.Cancelled then refuse L StatusCode.Cancelled
      else if request_is_terminal (rr_lifecycle record) then refuse L StatusCode.Conflict
      else if rr_requires_revalidation record then refuse L StatusCode.RevalidationRequired
      else match find_attempt record attempt with
      | None => refuse L StatusCode.NotFound
      | Some (_, entry) =>
          if negb (is_current_attempt record attempt) then refuse L StatusCode.StaleGeneration
          else if at_lifecycle entry ≟ AttemptLifecycle.Superseded
            then refuse L StatusCode.StaleGeneration
          else if attempt_is_terminal (at_lifecycle entry) then refuse L StatusCode.Conflict
          else if ll_max_active_flows_per_request (L_limits L) <=? rr_active_flows record
            then refuse L StatusCode.CapacityExhausted
          else if ll_max_active_flows_total (L_limits L)
                  <=? as_active_flows_total (L_accounting L)
            then refuse L StatusCode.CapacityExhausted
          else
            let sequence := add64 (L_next_flow_sequence L) 1 in
            let flow := MkId sequence (flow_mix id attempt traffic) in
            let flow_record := MkLFlow flow id nil_id traffic declared_bytes 0 now_nanos in
            let record := record <| rr_active_flows := add32 (rr_active_flows record) 1 |> in
            (Success flow,
             L <| L_next_flow_sequence := sequence |>
               <| L_flows := map_emplace flow flow_record (L_flows L) |>
               <| L_flows_by_request := mm_emplace (L_flows_by_request L) id flow |>
               <| L_accounting := account_flow_open traffic (L_accounting L) |>
             ▸ put_record id record)
      end
  end.

Definition release_flow (L : RequestLedger) (flow : FlowId) : Status * RequestLedger :=
  match L_flows L !! flow with
  | None => refuse L StatusCode.NotFound
  | Some record =>
      let L := L <| L_accounting := account_flow_close (lf_traffic record) (L_accounting L) |>
                 <| L_flows := delete flow (L_flows L) |>
                 <| L_flows_by_request :=
                      mm_erase_one (L_flows_by_request L) (lf_request record) flow |> in
      match L_requests L !! lf_request record with
      | Some request =>
          if rr_active_flows request >? 0 then
            (Success tt, put_record (lf_request record)
               (request <| rr_active_flows := sub32 (rr_active_flows request) 1 |>) L)
          else (Success tt, L)
      | None => (Success tt, L)
      end
  end.

Definition record_flow_bytes (L : RequestLedger) (flow : FlowId) (bytes : Z) (inbound : bool)
    : Status * RequestLedger :=
  match L_flows L !! flow with
  | None => refuse L StatusCode.NotFound
  | Some record =>
      match checked_add (lf_observed_bytes record) bytes with
      | None => refuse L StatusCode.BoundsExceeded
      | Some updated =>
          let L := L <| L_flows := <[flow := record <| lf_observed_bytes := updated |>]>
                                     (L_flows L) |> in
          match L_requests L !! lf_request record with
          | None => (Success tt, L)
          | Some request =>
              if inbound then
                match checked_add (rr_bytes_in request) bytes with
                | None => refuse L StatusCode.BoundsExceeded
                | Some total => (Success tt,
                    put_record (lf_request record) (request <| rr_bytes_in := total |>) L)
                end
              else
                match checked_add (rr_bytes_out request) bytes with
                | None => refuse L StatusCode.BoundsExceeded
                | Some total => (Success tt,
                    put_record (lf_request record) (request <| rr_bytes_out := total |>) L)
                end
          end
      end
  end.

(** ** Decision accounting *)

(** The update of one class entry. *)
Definition account_class (outcome : DecisionOutcome) (bytes : Z) (e : ClassAccounting)
    : ClassAccounting :=
  match outcome with
  | DecisionOutcome.Allowed =>
      e <| ca_allowed := add64 (ca_allowed e) 1 |>
        <| ca_bytes_allowed := add64 (ca_bytes_allowed e) bytes |>
  | DecisionOutcome.Degraded =>
      e <| ca_degraded := add64 (ca_degraded e) 1 |>
        <| ca_bytes_allowed := add64 (ca_bytes_allowed e) bytes |>
  | DecisionOutcome.Deferred =>
      e <| ca_deferred := add64 (ca_deferred e) 1 |>
        <| ca_bytes_deferred := add64 (ca_bytes_deferred e) bytes |>
  | DecisionOutcome.Rejected =>
      e <| ca_rejected := add64 (ca_rejected e) 1 |>
        <| ca_bytes_rejected := add64 (ca_bytes_rejected e) bytes |>
  | DecisionOutcome.Unknown | DecisionOutcome.Count => e
  end.

Definition count_attempt_decision (outcome : DecisionOutcome) (e : AttemptRecord) : AttemptRecord :=
  let e := e <| at_decisions := add32 (at_decisions e) 1 |> in
  match outcome with
  | DecisionOutcome.Deferred => e <| at_defers := add32 (at_defers e) 1 |>
  | DecisionOutcome.Rejected => e <| at_rejections := add32 (at_rejections e) 1 |>
  | _ => e
  end.

Definition count_request_decision (outcome : DecisionOutcome) (r : RequestRecord) : RequestRecord :=
  let r := r <| rr_decisions := add32 (rr_decisions r) 1 |> in
  match outcome with
  | DecisionOutcome.Deferred => r <| rr_defers := add32 (rr_defers r) 1 |>
  | DecisionOutcome.Rejected => r <| rr_rejections := add32 (rr_rejections r) 1 |>
  | _ => r
  end.

Definition record_decision (L : RequestLedger) (id : RequestId) (attempt : AttemptId)
    (traffic : TrafficClass) (outcome : DecisionOutcome) (reason : ReasonCode) (bytes : Z)
    : Status * RequestLedger :=
  match L_requests L !! id with
  | None => refuse L StatusCode.NotFound
  | Some record =>
      let record := count_request_decision outcome record in
      let record := match find_attempt record attempt with
                    | Some (index, entry) =>
                        set_attempt record index (count_attempt_decision outcome entry)
                    | None => record
                    end in
      let per_class := alter (account_class outcome bytes) (tc_index traffic)
                             (as_per_class (L_accounting L)) in
      let per_class := if reason ≟ ReasonCode.AdmittedStarvationGuard
        then alter (fun e => e <| ca_starvation_admissions :=
                                    add32 (ca_starvation_admissions e) 1 |>)
                   (tc_index traffic) per_class
        else per_class in
      (Success tt,
       L <| L_accounting := (L_accounting L) <| as_per_class := per_class |> |>
       ▸ put_record id record)
  end.

(** ** Queries *)

Definition contains (L : RequestLedger) (id : RequestId) : bool :=
  match L_requests L !! id with Some _ => true | None => false end.

Definition is_cancelled (L : RequestLedger) (id : RequestId) : bool :=
  match L_requests L !! id with
  | Some record => rr_lifecycle record ≟ RequestLifecycle.Cancelled
  | None => false
  end.

Definition snapshot_request (L : RequestLedger) (id : RequestId) : option RequestRecord :=
  L_requests L !! id.

Definition snapshot_accounting (L : RequestLedger) (id : RequestId) : option RequestAccounting :=
  match L_requests L !! id with
  | None => None
  | Some r =>
      Some (MkRequestAccounting (rr_id r) (rr_bytes_in r) (rr_bytes_out r) (rr_decisions r)
              (rr_defers r) (rr_rejections r) (rr_active_flows r)
              (request_is_terminal (rr_lifecycle r) && (rr_active_flows r ≟ 0)))
  end.

(** The recount of [verify_closure] over the live flow records. *)
Definition recount_flow (acc : list Z * Z) (f : LFlow) : list Z * Z :=
  (alter (fun n => add32 n 1) (tc_index (lf_traffic f)) acc.1, add32 acc.2 1).

Definition request_closure_ok (r : RequestRecord) : bool :=
  negb (request_is_terminal (rr_lifecycle r) && (rr_active_flows r ≠? 0))
  && negb (negb (request_is_terminal (rr_lifecycle r)) && rr_requires_revalidation r
           && (rr_active_flows r ≠? 0)).

Definition verify_closure (L : RequestLedger) : Status :=
  let '(per_class, total) :=
    foldl recount_flow (replicate kTrafficClassCount 0, 0) (snd <$> map_to_list (L_flows L)) in
  if total ≠? as_active_flows_total (L_accounting L) then Failure StatusCode.Internal
  else if per_class ≠? (ca_active_flows <$> as_per_class (L_accounting L))
    then Failure StatusCode.Internal
  else if forallb request_closure_ok (snd <$> map_to_list (L_requests L))
    then Success tt
  else Failure StatusCode.Internal.

(** ** Restoration and export *)

Definition restore_record (L : RequestLedger) (record : RequestRecord) : Status * RequestLedger :=
  if is_nil (rr_id record) then refuse L StatusCode.InvalidArgument
  else if (kMaxAttemptsPerRequest <? rr_attempt_count record)%nat
    then refuse L StatusCode.MalformedInput
  else match L_requests L !! rr_id record with
  | Some _ => refuse L StatusCode.AlreadyExists
  | None =>
      let n := rr_attempt_count record in
      let restored := record <| rr_attempts := take n (rr_attempts record)
                       ++ replicate (kMaxAttemptsPerRequest - n) empty_attempt |> in
      let '(restored, L) :=
        if request_is_terminal (rr_lifecycle restored) then
          let restored := restored <| rr_accounting_closed := true |>
                                   <| rr_active_flows := 0 |> in
          let L := push_terminal (rr_id restored) L in
          let L := if rr_lifecycle restored ≟ RequestLifecycle.Completed
                   then bump as_requests_completed L else L in
          let L := if rr_lifecycle restored ≟ RequestLifecycle.Cancelled
                   then bump as_requests_cancelled L else L in
          let L := if rr_lifecycle restored ≟ RequestLifecycle.Failed
                   then bump as_requests_failed L else L in
          (restored, L)
        else
          (restored <| rr_lifecycle := RequestLifecycle.Interrupted |>
                    <| rr_requires_revalidation := true |>
                    <| rr_active_flows := 0 |>
                    <| rr_accounting_closed := false |>,
           bump as_requests_interrupted L) in
      let L := bump as_requests_registered L in
      let L := refresh_request_counts (put_record (rr_id restored) restored L) in
      (Success tt, evict_if_needed L)
  end.

Fixpoint export_loop (L : RequestLedger) (order : list RequestId) (max_records : nat)
    (out : list RequestRecord) : list RequestRecord :=
  match order with
  | [] => out
  | id :: rest =>
      if (length out <? max_records)%nat then
        match L_requests L !! id with
        | Some r => export_loop L rest max_records (out ++ [r])
        | None => export_loop L rest max_records out
        end
      else out
  end.

(** Newest first: the deque is read from its back. *)
Definition export_terminal_records (L : RequestLedger) (max_records : nat) : list RequestRecord :=
  export_loop L (reverse (L_terminal_order L)) max_records [].

Definition export_live_records (L : RequestLedger) : list RequestRecord :=
  filter (fun r => request_is_terminal (rr_lifecycle r) = false)
         (snd <$> map_to_list (L_requests L)).
