(* ===== verification/LedgerInv.v ===== *)
(** * Flow accounting of the ledger: the closure invariant

    Every operation of the ledger keeps the flow records, the reverse index,
    the per-request counters, the per-class counters and the total in step; the
    run-time audit [verify_closure] therefore succeeds in every reachable state. *)

From S2P Require Import Prelude Ids Traffic Decision Ledger.

(** ** The invariant *)

(** Number of live flows of the class with index [i]. *)
Definition class_count (i : nat) (m : gmap FlowId LFlow) : nat :=
  size (filter (fun kv : FlowId * LFlow => tc_index (lf_traffic kv.2) = i) m).

(** The running counters agree with the live flow records. *)
Definition counters_ok (flows : gmap FlowId LFlow) (a : AccountingSnapshot) : Prop :=
  as_active_flows_total a = size_of flows ∧
  length (as_per_class a) = kTrafficClassCount ∧
  ∀ i e, as_per_class a !! i = Some e → ca_active_flows e = Z.of_nat (class_count i flows).

(** What the ledger keeps of one stored record, [n] being the number of its flows. *)
Record record_ok (id : RequestId) (n : nat) (r : RequestRecord) : Prop := {
  ro_id : rr_id r = id;
  ro_active : rr_active_flows r = Z.of_nat n;
  ro_array : length (rr_attempts r) = kMaxAttemptsPerRequest;
  ro_count : (rr_attempt_count r ≤ kMaxAttemptsPerRequest)%nat;
  ro_live : n ≠ 0%nat →
    request_is_terminal (rr_lifecycle r) = false ∧ rr_requires_revalidation r = false;
}.

Record limits_ok (l : LedgerLimits) : Prop := {
  lo_total : 0 < ll_max_active_flows_total l < two32;
  lo_request : 0 < ll_max_active_flows_per_request l < two32;
  lo_attempts : 0 < ll_max_attempts_per_request l ≤ Z.of_nat kMaxAttemptsPerRequest;
  lo_live : 0 < ll_max_live_requests l < two32;
  lo_retained : 0 ≤ ll_max_retained_terminal_requests l < two32;
}.

Record flows_inv (L : RequestLedger) : Prop := {
  fi_limits : limits_ok (L_limits L);
  fi_counters : counters_ok (L_flows L) (L_accounting L);
  fi_bound : size_of (L_flows L) ≤ ll_max_active_flows_total (L_limits L);
  fi_seq : ∀ f fr, L_flows L !! f = Some fr → 0 < high f ≤ L_next_flow_sequence L;
  fi_seq_nonneg : 0 ≤ L_next_flow_sequence L;
  fi_nodup : ∀ id, NoDup (mm_range (L_flows_by_request L) id);
  fi_index : ∀ id f, f ∈ mm_range (L_flows_by_request L) id ↔
     ∃ fr, L_flows L !! f = Some fr ∧ lf_request fr = id;
  fi_owner : ∀ f fr, L_flows L !! f = Some fr → is_Some (L_requests L !! lf_request fr);
  fi_records : ∀ id r, L_requests L !! id = Some r →
     record_ok id (length (mm_range (L_flows_by_request L) id)) r;
}.

(** ** Counting *)

Lemma class_count_insert i (m : gmap FlowId LFlow) f fr :
  m !! f = None →
  class_count i (<[f := fr]> m) =
  (if decide (tc_index (lf_traffic fr) = i) then S (class_count i m) else class_count i m).
Proof.
  intros Hf. unfold class_count. case_decide as D.
  - rewrite map_filter_insert_True by done. apply map_size_insert_None.
    rewrite map_lookup_filter. by rewrite Hf.
  - rewrite map_filter_insert_False by done. by rewrite delete_id.
Qed.

Lemma class_count_delete i (m : gmap FlowId LFlow) f fr :
  m !! f = Some fr →
  class_count i m =
  (if decide (tc_index (lf_traffic fr) = i) then S (class_count i (delete f m))
   else class_count i (delete f m)).
Proof.
  intros Hf. rewrite <- (insert_delete_id m f fr Hf) at 1.
  rewrite class_count_insert by apply lookup_delete_eq. done.
Qed.

Lemma class_count_update i (m : gmap FlowId LFlow) f fr fr' :
  m !! f = Some fr → lf_traffic fr' = lf_traffic fr →
  class_count i (<[f := fr']> m) = class_count i m.
Proof.
  intros Hf Ht. rewrite (class_count_delete i m f fr Hf).
  rewrite <- insert_delete_eq, class_count_insert by apply lookup_delete_eq. by rewrite Ht.
Qed.

Lemma class_count_le_size i (m : gmap FlowId LFlow) : (class_count i m ≤ size m)%nat.
Proof. apply map_size_filter. Qed.

Lemma size_delete_some (m : gmap FlowId LFlow) f fr :
  m !! f = Some fr → size m = S (size (delete f m)).
Proof.
  intros Hf. rewrite <- (insert_delete_id m f fr Hf) at 1.
  apply map_size_insert_None, lookup_delete_eq.
Qed.

Lemma tc_index_lt c : c ≠ TrafficClass.Count → (tc_index c < kTrafficClassCount)%nat.
Proof. destruct c; vm_compute; intros; try lia; congruence. Qed.

(** ** Counter updates *)

Lemma account_flow_open_view t a :
  as_active_flows_total (account_flow_open t a) = add32 (as_active_flows_total a) 1 ∧
  as_per_class (account_flow_open t a) =
    if (kTrafficClassCount <=? tc_index t)%nat then as_per_class a
    else alter class_flow_open (tc_index t) (as_per_class a).
Proof. unfold account_flow_open. simpl. split; repeat case_match; done. Qed.

Lemma account_flow_close_view t a :
  as_active_flows_total (account_flow_close t a) =
    (if as_active_flows_total a >? 0 then sub32 (as_active_flows_total a) 1
     else as_active_flows_total a) ∧
  as_per_class (account_flow_close t a) =
    if (kTrafficClassCount <=? tc_index t)%nat then as_per_class a
    else alter class_flow_close (tc_index t) (as_per_class a).
Proof. unfold account_flow_close. simpl. split; repeat case_match; done. Qed.

Lemma class_flow_open_active e :
  ca_active_flows (class_flow_open e) = add32 (ca_active_flows e) 1.
Proof. unfold class_flow_open. simpl. by case_match. Qed.

Lemma class_flow_close_active e :
  0 < ca_active_flows e < two32 → ca_active_flows (class_flow_close e) = ca_active_flows e - 1.
Proof.
  intros H. unfold class_flow_close. rewrite Z.gtb_ltb.
  destruct (Z.ltb_spec 0 (ca_active_flows e)); [|lia]. simpl. rewrite sub32_small; lia.
Qed.

Lemma counters_ok_open flows a f fr :
  counters_ok flows a → flows !! f = None → size_of flows + 1 < two32 →
  counters_ok (<[f := fr]> flows) (account_flow_open (lf_traffic fr) a).
Proof.
  intros (Ht & Hlen & Hc) Hf Hb. unfold counters_ok, size_of in *.
  destruct (account_flow_open_view (lf_traffic fr) a) as [-> ->].
  rewrite map_size_insert_None by done.
  split_and!; [rewrite Ht, add32_small; lia|case_match; by rewrite ?length_alter|].
  intros i e. rewrite class_count_insert by done.
  destruct (Nat.leb_spec kTrafficClassCount (tc_index (lf_traffic fr))) as [Hge|Hlt]; intros Hi.
  { rewrite decide_False; [by apply Hc|]. apply lookup_lt_Some in Hi. lia. }
  rewrite list_lookup_alter in Hi. case_decide as D; [|by apply Hc].
  subst i. apply fmap_Some in Hi as (e0 & He0 & ->). apply Hc in He0.
  pose proof (class_count_le_size (tc_index (lf_traffic fr)) flows).
  rewrite class_flow_open_active, He0, add32_small; lia.
Qed.

Lemma counters_ok_close flows a f fr :
  counters_ok flows a → flows !! f = Some fr → size_of flows < two32 →
  counters_ok (delete f flows) (account_flow_close (lf_traffic fr) a).
Proof.
  intros (Ht & Hlen & Hc) Hf Hb. unfold counters_ok, size_of in *.
  destruct (account_flow_close_view (lf_traffic fr) a) as [-> ->].
  pose proof (size_delete_some flows f fr Hf) as Hs.
  split_and!; [|case_match; by rewrite ?length_alter|].
  { rewrite Ht, Z.gtb_ltb. destruct (Z.ltb_spec 0 (Z.of_nat (size flows))); [|lia].
    rewrite sub32_small; lia. }
  assert (∀ i, class_count i flows = if decide (tc_index (lf_traffic fr) = i)
    then S (class_count i (delete f flows)) else class_count i (delete f flows)) as Hcd
    by (intros; by apply class_count_delete).
  intros i e. destruct (Nat.leb_spec kTrafficClassCount (tc_index (lf_traffic fr))) as [Hge|Hlt];
    intros Hi.
  { rewrite (Hc i e Hi), Hcd, decide_False; [done|]. apply lookup_lt_Some in Hi. lia. }
  rewrite list_lookup_alter in Hi. case_decide as D.
  - subst i. apply fmap_Some in Hi as (e0 & He0 & ->). apply Hc in He0.
    rewrite Hcd, decide_True in He0 by done.
    pose proof (class_count_le_size (tc_index (lf_traffic fr)) (delete f flows)).
    rewrite class_flow_close_active; lia.
  - rewrite (Hc i e Hi), Hcd. by rewrite decide_False.
Qed.

Lemma counters_ok_update flows a f fr fr' :
  counters_ok flows a → flows !! f = Some fr → lf_traffic fr' = lf_traffic fr →
  counters_ok (<[f := fr']> flows) a.
Proof.
  intros (Ht & Hlen & Hc) Hf Htr. unfold counters_ok, size_of in *. split_and!; [|done|].
  - by rewrite map_size_insert_Some.
  - intros i e Hi. erewrite class_count_update by done. by apply Hc.
Qed.

(** ** Records that do not change the flows of a request *)

(** The invariant reads the ledger through these fields only. *)
Lemma flows_inv_view L L' :
  flows_inv L →
  L_limits L' = L_limits L → L_requests L' = L_requests L → L_flows L' = L_flows L →
  L_flows_by_request L' = L_flows_by_request L →
  L_next_flow_sequence L' = L_next_flow_sequence L →
  as_active_flows_total (L_accounting L') = as_active_flows_total (L_accounting L) →
  as_per_class (L_accounting L') = as_per_class (L_accounting L) →
  flows_inv L'.
Proof.
  intros [? Hc ? ? ? ? ? ? ?] E1 E2 E3 E4 E5 E6 E7.
  split; rewrite ?E1, ?E2, ?E3, ?E4, ?E5; try done.
  destruct Hc as (? & ? & ?). split_and!; rewrite ?E6, ?E7; done.
Qed.

(** Only the class flow counters matter of the class entries. *)
Lemma flows_inv_classes L L' :
  flows_inv L →
  L_limits L' = L_limits L → L_requests L' = L_requests L → L_flows L' = L_flows L →
  L_flows_by_request L' = L_flows_by_request L →
  L_next_flow_sequence L' = L_next_flow_sequence L →
  as_active_flows_total (L_accounting L') = as_active_flows_total (L_accounting L) →
  ca_active_flows <$> as_per_class (L_accounting L')
    = ca_active_flows <$> as_per_class (L_accounting L) →
  flows_inv L'.
Proof.
  intros [? Hc ? ? ? ? ? ? ?] E1 E2 E3 E4 E5 E6 E7.
  split; rewrite ?E1, ?E2, ?E3, ?E4, ?E5; try done.
  destruct Hc as (? & Hl & Hcl). split_and!; rewrite ?E6; [done| |].
  - rewrite <- Hl. apply (f_equal length) in E7. by rewrite !length_fmap in E7.
  - intros i e Hi.
    assert ((ca_active_flows <$> as_per_class (L_accounting L)) !! i = Some (ca_active_flows e))
      as Hi' by (rewrite <- E7, list_lookup_fmap, Hi; done).
    rewrite list_lookup_fmap in Hi'. apply fmap_Some in Hi' as (e0 & He0 & ->). by apply Hcl.
Qed.

Lemma flows_inv_put L id r r' :
  flows_inv L → L_requests L !! id = Some r →
  (∀ n, record_ok id n r → record_ok id n r') →
  flows_inv (put_record id r' L).
Proof.
  intros [] Hr Hok. split; simpl; try done.
  - intros f fr Hf. apply fi_owner0 in Hf. destruct (decide (id = lf_request fr)) as [<-|Hne].
    + rewrite lookup_insert_eq. eauto.
    + by rewrite lookup_insert_ne.
  - intros id' r0. rewrite lookup_insert. case_decide as D; [|by apply fi_records0].
    subst id'. intros [= <-]. apply Hok. by apply fi_records0.
Qed.

(** Storing a record under a key that has no flows. *)
Lemma flows_inv_put_idle L id r :
  flows_inv L → mm_range (L_flows_by_request L) id = [] → record_ok id 0 r →
  flows_inv (put_record id r L).
Proof.
  intros [] Hr Hok. split; simpl; try done.
  - intros f fr Hf. apply fi_owner0 in Hf. destruct (decide (id = lf_request fr)) as [<-|Hne].
    + rewrite lookup_insert_eq. eauto.
    + by rewrite lookup_insert_ne.
  - intros id' r0. rewrite lookup_insert. case_decide as D; [|by apply fi_records0].
    subst id'. intros [= <-]. by rewrite Hr.
Qed.

Lemma idle_of_absent L id :
  flows_inv L → L_requests L !! id = None → mm_range (L_flows_by_request L) id = [].
Proof.
  intros [] Hr. destruct (mm_range _ id) as [|f l] eqn:E; [done|]. exfalso.
  assert (f ∈ mm_range (L_flows_by_request L) id) as Hin by (rewrite E; left).
  apply fi_index0 in Hin as (fr & Hf & <-). apply fi_owner0 in Hf as [? ?]. congruence.
Qed.

Lemma idle_of_inactive L id r :
  flows_inv L → L_requests L !! id = Some r →
  request_is_terminal (rr_lifecycle r) = true ∨ rr_requires_revalidation r = true →
  mm_range (L_flows_by_request L) id = [] ∧ rr_active_flows r = 0.
Proof.
  intros [] Hr Hd. destruct (fi_records0 id r Hr) as [_ Ha _ _ Hlive].
  destruct (mm_range _ id) as [|f l] eqn:E; [done|]. exfalso.
  destruct (Hlive ltac:(done)). destruct Hd; congruence.
Qed.

Lemma flows_inv_bump L f `{!Setter f} :
  (∀ v a, as_active_flows_total (a <| f := v |>) = as_active_flows_total a) →
  (∀ v a, as_per_class (a <| f := v |>) = as_per_class a) →
  flows_inv L → flows_inv (bump f L).
Proof. intros H1 H2 H. eapply flows_inv_view; [exact H|..]; simpl; auto. Qed.

Lemma flows_inv_refresh L : flows_inv L → flows_inv (refresh_request_counts L).
Proof. intros H. by eapply flows_inv_view. Qed.

Lemma flows_inv_push L id : flows_inv L → flows_inv (push_terminal id L).
Proof. intros H. by eapply flows_inv_view. Qed.

(** ** Releasing all flows of a request *)

(** The fields the closing loop leaves alone. *)
Definition same_frame (L L' : RequestLedger) : Prop :=
  L_limits L' = L_limits L ∧ L_requests L' = L_requests L ∧
  L_terminal_order L' = L_terminal_order L ∧
  L_flows_by_request L' = L_flows_by_request L ∧
  L_next_flow_sequence L' = L_next_flow_sequence L.

Lemma close_flow_frame L f : same_frame L (close_flow L f).
Proof. unfold close_flow, same_frame. case_match; done. Qed.

Lemma close_flows_frame l L : same_frame L (foldl close_flow L l).
Proof.
  revert L. induction l as [|f l IH]; intros L; simpl; [done|].
  destruct (IH (close_flow L f)) as (?&?&?&?&?). destruct (close_flow_frame L f) as (?&?&?&?&?).
  unfold same_frame. split_and!; congruence.
Qed.

Lemma close_flow_lookup L f g :
  L_flows (close_flow L f) !! g = if decide (f = g) then None else L_flows L !! g.
Proof.
  unfold close_flow. destruct (L_flows L !! f) as [fr|] eqn:E; simpl.
  - rewrite lookup_delete. by case_decide.
  - case_decide; subst; done.
Qed.

Lemma close_flows_lookup l L g :
  L_flows (foldl close_flow L l) !! g = if decide (g ∈ l) then None else L_flows L !! g.
Proof.
  revert L. induction l as [|f l IH]; intros L; cbn [foldl].
  { case_decide as D; [by apply not_elem_of_nil in D|done]. }
  rewrite IH, close_flow_lookup. repeat case_decide; try done; exfalso; set_solver.
Qed.

Lemma close_flows_counters l L :
  counters_ok (L_flows L) (L_accounting L) → size_of (L_flows L) < two32 →
  counters_ok (L_flows (foldl close_flow L l)) (L_accounting (foldl close_flow L l))
  ∧ size_of (L_flows (foldl close_flow L l)) ≤ size_of (L_flows L).
Proof.
  revert L. induction l as [|f l IH]; intros L Hc Hb; simpl; [done|].
  assert (counters_ok (L_flows (close_flow L f)) (L_accounting (close_flow L f))
          ∧ size_of (L_flows (close_flow L f)) ≤ size_of (L_flows L)) as [Hc' Hb'].
  { unfold close_flow. destruct (L_flows L !! f) as [fr|] eqn:E; simpl; [|done]. split.
    - by apply counters_ok_close.
    - unfold size_of. pose proof (size_delete_some _ _ _ E). lia. }
  destruct (IH (close_flow L f) Hc') as [IH1 IH2]; [lia|]. split; [done|lia].
Qed.

Lemma size_bound L : flows_inv L → size_of (L_flows L) < two32.
Proof. intros [[] ? ? ? ? ? ? ? ?]. lia. Qed.

Lemma range_le_size L id :
  flows_inv L → (length (mm_range (L_flows_by_request L) id) ≤ size (L_flows L))%nat.
Proof.
  intros []. rewrite <- length_map_to_list, <- (length_fmap fst (map_to_list _)).
  apply submseteq_length, NoDup_submseteq; [done|].
  intros f (fr & Hf & _)%fi_index0. apply list_elem_of_fmap.
  exists (f, fr). split; [done|]. by apply elem_of_map_to_list.
Qed.

Lemma flows_inv_release L id record r' :
  flows_inv L → rr_id record = id → record_ok id 0 r' →
  flows_inv (put_record id r' (release_request_flows L record).2).
Proof.
  intros Hinv Hid Hok. pose proof (size_bound L Hinv) as Hb. destruct Hinv.
  unfold release_request_flows. rewrite Hid. cbn [snd].
  set (l := mm_range (L_flows_by_request L) id).
  destruct (close_flows_frame l L) as (E1 & E2 & E3 & E4 & E5).
  destruct (close_flows_counters l L fi_counters0 Hb) as [Hc Hs].
  assert (∀ f fr, L_flows (foldl close_flow L l) !! f = Some fr →
            L_flows L !! f = Some fr ∧ lf_request fr ≠ id) as Hsub.
  { intros f fr. rewrite close_flows_lookup. case_decide as D; [done|]. intros Hf.
    split; [done|]. intros Hr. apply D. apply fi_index0. eauto. }
  split; simpl; rewrite ?E1, ?E2, ?E4, ?E5; try done.
  - lia.
  - intros f fr Hf. apply Hsub in Hf as [Hf _]. eauto.
  - intros id'. rewrite mm_range_erase_key. case_decide; [constructor|done].
  - intros id' f. rewrite mm_range_erase_key. case_decide as D.
    + subst id'. split; [by intros ?%not_elem_of_nil|].
      intros (fr & Hf & Hr). apply Hsub in Hf as [_ ?]. done.
    + rewrite fi_index0. split; intros (fr & Hf & Hr).
      * exists fr. split; [|done]. rewrite close_flows_lookup. rewrite decide_False; [done|].
        unfold l. intros (fr' & Hf' & Hr')%fi_index0. congruence.
      * apply Hsub in Hf as [? _]. eauto.
  - intros f fr Hf. apply Hsub in Hf as [Hf Hne]. rewrite lookup_insert_ne by done. eauto.
  - intros id' r. rewrite mm_range_erase_key, lookup_insert. case_decide as D.
    + intros [= <-]. by subst id'.
    + intros Hr. by apply fi_records0.
Qed.

Lemma record_ok_release id n r :
  rr_id r = id → length (rr_attempts r) = kMaxAttemptsPerRequest →
  (rr_attempt_count r ≤ kMaxAttemptsPerRequest)%nat →
  record_ok id 0 (release_request_flows n r).1.
Proof. intros. by split. Qed.

Lemma flows_inv_terminate L id r :
  flows_inv L → rr_id r = id → length (rr_attempts r) = kMaxAttemptsPerRequest →
  (rr_attempt_count r ≤ kMaxAttemptsPerRequest)%nat →
  flows_inv (terminate id r L).
Proof.
  intros Hinv Hid Ha Hn. unfold terminate.
  destruct (release_request_flows L r) as [r' L'] eqn:E.
  apply flows_inv_push. replace L' with (release_request_flows L r).2 by by rewrite E.
  replace r' with (release_request_flows L r).1 by by rewrite E.
  apply flows_inv_release; [done..|]. by apply record_ok_release.
Qed.

(** ** Eviction *)

Lemma flows_inv_evict_loop order L : flows_inv L → flows_inv (evict_loop order L).
Proof.
  revert L. induction order as [|victim rest IH]; intros L Hinv; cbn [evict_loop].
  { by eapply flows_inv_view. }
  case_match; [|by eapply flows_inv_view].
  destruct (L_requests L !! victim) as [r|] eqn:Hr; [|by apply IH].
  destruct (request_is_terminal (rr_lifecycle r)) eqn:Ht; simpl negb; cbn iota; [|by apply IH].
  apply IH. apply flows_inv_bump; [done|done|].
  destruct (idle_of_inactive L victim r Hinv Hr) as [Hidle _]; [by left|].
  destruct Hinv. split; simpl; try done.
  - intros f fr Hf. rewrite lookup_delete_ne; [by eapply fi_owner0|].
    intros ->. assert (f ∈ mm_range (L_flows_by_request L) (lf_request fr)) as Hin
      by (apply fi_index0; eauto). rewrite Hidle in Hin. by apply not_elem_of_nil in Hin.
  - intros id r0. rewrite lookup_delete. case_decide; [done|]. by apply fi_records0.
Qed.

Lemma flows_inv_evict L : flows_inv L → flows_inv (evict_if_needed L).
Proof. intros. by apply flows_inv_refresh, flows_inv_evict_loop. Qed.

(** ** Attempt updates keep the shape of a record *)

Lemma record_ok_set_attempt id n r i a : record_ok id n r → record_ok id n (set_attempt r i a).
Proof. intros []. split; simpl; try done. by rewrite length_insert. Qed.

Lemma record_ok_map_attempts id n r f : record_ok id n r → record_ok id n (map_attempts f r).
Proof.
  intros []. split; simpl; try done.
  rewrite length_app, length_fmap, length_take, length_drop. lia.
Qed.

Lemma attempts_full_lt L r :
  limits_ok (L_limits L) → attempts_full L r = false →
  (rr_attempt_count r < kMaxAttemptsPerRequest)%nat.
Proof. intros [] H. unfold attempts_full in H. apply Z.leb_gt in H. lia. Qed.

Lemma record_ok_append id n r a :
  record_ok id n r → (rr_attempt_count r < kMaxAttemptsPerRequest)%nat →
  record_ok id n (append_attempt r a).
Proof. intros [] Hlt. split; simpl; try done. by rewrite length_insert. Qed.

#[export] Hint Resolve flows_inv_evict flows_inv_terminate flows_inv_refresh flows_inv_push
  record_ok_set_attempt record_ok_map_attempts record_ok_append attempts_full_lt : itf.

(** ** Every operation preserves the invariant *)

(** The common shape of an operation: guards that leave the ledger alone, then
    a record update under counters. *)
Ltac inv_step :=
  lazymatch goal with
  | |- flows_inv (evict_if_needed _) => apply flows_inv_evict
  | |- flows_inv (refresh_request_counts _) => apply flows_inv_refresh
  | |- flows_inv (bump _ _) => apply flows_inv_bump; [done|done|]
  | |- flows_inv (put_record _ _ ?L) =>
      match goal with H : L_requests L !! _ = Some _ |- _ => eapply flows_inv_put; [|exact H|] end
  end.
Ltac inv_steps := repeat inv_step; try assumption.

(** Splits the outermost condition of an operation; a refusal leaves the ledger
    as it was. *)
Ltac op_guard :=
  lazymatch goal with
  | |- flows_inv (snd (match ?x with _ => _ end)) => destruct x eqn:?
  end; cbn [snd refuse]; try assumption.
Ltac op_guards := repeat op_guard.

Lemma flows_inv_register_request L id now :
  flows_inv L → flows_inv (register_request L id now).2.
Proof.
  intros Hinv. unfold register_request. op_guards. inv_steps.
  apply flows_inv_put_idle; [done|by apply idle_of_absent|]. split; simpl; first [done | lia].
Qed.

Lemma flows_inv_register_attempt L id a mh mg rg now :
  flows_inv L → flows_inv (register_attempt L id a mh mg rg now).2.
Proof.
  intros Hinv. unfold register_attempt. op_guards. inv_steps.
  intros n Hr. eapply record_ok_append in Hr; [|by eapply attempts_full_lt; [apply Hinv|]].
  destruct Hr as [? ? ? ? Hl]. case_bool_decide; split; simpl in *; naive_solver.
Qed.

Lemma flows_inv_revalidate L id a now :
  flows_inv L → flows_inv (revalidate_request L id a now).2.
Proof.
  intros Hinv. unfold revalidate_request. op_guards. inv_steps.
  intros n Hr. eapply record_ok_append in Hr; [|by eapply attempts_full_lt; [apply Hinv|]].
  destruct Hr. split; simpl in *; naive_solver.
Qed.

Lemma flows_inv_advance_stage L id a target now :
  flows_inv L → flows_inv (advance_stage L id a target now).2.
Proof.
  intros Hinv. unfold advance_stage. op_guards. inv_steps.
  intros m Hr. match goal with |- context [set_attempt ?r ?i ?x] =>
    apply (record_ok_set_attempt _ _ _ i x) in Hr end.
  destruct Hr as [? ? ? ? Hl]. destruct (target ≟ ServingStage.Completing); split; simpl in *; naive_solver.
Qed.

Lemma flows_inv_fail L id a reason now :
  flows_inv L → flows_inv (fail_attempt L id a reason now).2.
Proof.
  intros Hinv. unfold fail_attempt. op_guards. inv_steps.
  destruct (fi_records _ Hinv _ _ ltac:(eassumption)).
  apply flows_inv_terminate; simpl; rewrite ?length_insert; done.
Qed.

Lemma flows_inv_supersede L id a b now :
  flows_inv L → flows_inv (supersede_attempt L id a b now).2.
Proof.
  intros Hinv. unfold supersede_attempt. op_guards. inv_steps.
  intros m Hr. match goal with |- context [set_attempt ?r ?i ?x] =>
    apply (record_ok_set_attempt _ _ _ i x) in Hr end.
  eapply record_ok_append in Hr; [|by eapply attempts_full_lt; [apply Hinv|]].
  destruct Hr. split; simpl in *; naive_solver.
Qed.

Lemma flows_inv_set_model L id a mh mg :
  flows_inv L → flows_inv (set_attempt_model L id a mh mg).2.
Proof. intros Hinv. unfold set_attempt_model. op_guards. inv_steps. eauto with itf. Qed.

Lemma record_ok_raise_floor id n s r : record_ok id n r → record_ok id n (raise_floor s r).
Proof. intros []. unfold raise_floor. case_match; by split. Qed.

Lemma flows_inv_cancel L id reason seq now :
  flows_inv L → flows_inv (cancel_request L id reason seq now).2.
Proof.
  intros Hinv. unfold cancel_request. op_guards; inv_steps.
  { intros n. apply record_ok_raise_floor. }
  pose proof (fi_records _ Hinv _ _ ltac:(eassumption)) as Hr.
  match goal with |- flows_inv (terminate _ (map_attempts ?f ?r) _) =>
    assert (rr_id r = id ∧ length (rr_attempts r) = kMaxAttemptsPerRequest
            ∧ (rr_attempt_count r ≤ kMaxAttemptsPerRequest)%nat) as (H1 & H2 & H3)
  end.
  { destruct Hr. unfold raise_floor. by case_match. }
  apply flows_inv_terminate; [done|done| |done]. simpl.
  rewrite length_app, length_fmap, length_take, length_drop. lia.
Qed.

Lemma flows_inv_interrupt L id now :
  flows_inv L → flows_inv (mark_request_interrupted L id now).2.
Proof.
  intros Hinv. unfold mark_request_interrupted.
  destruct (L_requests L !! id) as [r|] eqn:Hr; [|done].
  destruct (request_is_terminal _); [done|].
  destruct (fi_records _ Hinv _ _ Hr).
  destruct (release_request_flows _ _) as [r' L'] eqn:E. cbn [snd]. inv_steps.
  replace L' with (release_request_flows L (map_attempts (interrupt_attempt now)
    (r <| rr_lifecycle := RequestLifecycle.Interrupted |> <| rr_requires_revalidation := true |>))).2
    by by rewrite E.
  apply flows_inv_release; [done|done|].
  unfold release_request_flows in E. simplify_eq/=. split; simpl; try done.
  rewrite length_app, length_fmap, length_take, length_drop. lia.
Qed.

Lemma flows_inv_publish L p now :
  flows_inv L → flows_inv (publish_completion L p now).2.
Proof.
  intros Hinv. unfold publish_completion.
  destruct (_ || _); [done|].
  destruct (L_requests L !! cp_request p) as [r|] eqn:Hr; [|done].
  destruct (fi_records _ Hinv _ _ Hr).
  destruct (find_attempt r (cp_attempt p)) as [[i e]|]; cbn [snd refuse_publication]; [|by inv_steps].
  unfold publish_failure, publish_success, refuse_publication, suppress_publication.
  op_guards; inv_steps; apply flows_inv_terminate; simpl; rewrite ?length_insert; done.
Qed.

Lemma flows_inv_open_flow L id a t b now :
  flows_inv L → L_next_flow_sequence L + 1 < two64 → flows_inv (open_flow L id a t b now).2.
Proof.
  intros Hinv Hseq. unfold open_flow. op_guards.
  rewrite add64_small by (destruct Hinv; lia).
  match goal with H : L_requests L !! id = Some ?r |- _ => rename H into Hr end.
  bool_to_prop. destruct Hinv.
  set (f := MkId (L_next_flow_sequence L + 1) (flow_mix id a t)).
  assert (L_flows L !! f = None) as Hfresh.
  { destruct (L_flows L !! f) as [fr|] eqn:E; [|done]. apply fi_seq0 in E. simpl in E. lia. }
  assert (f ∉ mm_range (L_flows_by_request L) id) as Hni.
  { intros (fr & Hf & _)%fi_index0. congruence. }
  pose proof fi_counters0 as (Ht & Hlen & Hc). destruct fi_limits0.
  destruct (fi_records0 id r Hr) as [Hid Hact Harr Hcnt _].
  split; simpl; rewrite ?map_emplace_fresh by done; try done.
  - apply counters_ok_open; [done|done|]. lia.
  - unfold size_of in *. rewrite map_size_insert_None by done. lia.
  - intros g gr. rewrite lookup_insert. case_decide as D.
    + intros [= <-]. subst g. simpl. lia.
    + intros Hg. apply fi_seq0 in Hg. lia.
  - lia.
  - intros id'. rewrite mm_range_emplace. case_decide as D; [|done]. subst id'.
    apply NoDup_app. split_and!; [done| |apply NoDup_singleton].
    intros g Hg ?%list_elem_of_singleton. by subst g.
  - intros id' g. rewrite mm_range_emplace. case_decide as D.
    + subst id'. rewrite elem_of_app, list_elem_of_singleton, fi_index0. split.
      * intros [(fr & Hf & Hq)| -> ].
        -- exists fr. rewrite lookup_insert_ne by (intros <-; congruence). done.
        -- eexists. rewrite lookup_insert_eq. split; [done|done].
      * intros (fr & Hf & Hq). rewrite lookup_insert in Hf. case_decide; [by right|left; eauto].
    + rewrite fi_index0. split; intros (fr & Hf & Hq); exists fr; (split; [|done]).
      * rewrite lookup_insert_ne by (intros <-; congruence). done.
      * rewrite lookup_insert in Hf. case_decide; [|done]. simplify_eq/=.
  - intros g gr. rewrite !lookup_insert. case_decide as D.
    + intros [= <-]. simpl. rewrite decide_True by done. eauto.
    + intros Hg. apply fi_owner0 in Hg. case_decide; eauto.
  - intros id' r'. rewrite lookup_insert, mm_range_emplace. case_decide as D.
    + intros [= <-]. subst id'. rewrite length_app. simpl.
      split; simpl; try done. rewrite add32_small; lia.
    + intros Hr'. by apply fi_records0.
Qed.

Lemma flows_inv_release_flow L f : flows_inv L → flows_inv (release_flow L f).2.
Proof.
  intros Hinv. pose proof (size_bound L Hinv) as Hb.
  assert (∀ id, (length (mm_range (L_flows_by_request L) id) ≤ size (L_flows L))%nat) as Hrng
    by (intros; by apply range_le_size).
  unfold release_flow.
  destruct (L_flows L !! f) as [fr|] eqn:Hf; [|done].
  destruct Hinv. destruct (fi_owner0 _ _ Hf) as [r Hr].
  destruct (fi_records0 _ _ Hr) as [Hid Hact Harr Hcnt Hlive].
  assert (f ∈ mm_range (L_flows_by_request L) (lf_request fr)) as Hin by (apply fi_index0; eauto).
  assert (length (mm_range (L_flows_by_request L) (lf_request fr))
    = S (length (remove_first f (mm_range (L_flows_by_request L) (lf_request fr))))) as Hlen
    by (by apply length_remove_first).
  cbn [L_requests setter L_set_accounting L_set_flows L_set_flows_by_request]. rewrite Hr.
  rewrite Z.gtb_ltb. destruct (Z.ltb_spec 0 (rr_active_flows r)); [|lia]. cbn [snd].
  split; simpl; try done.
  - by apply counters_ok_close.
  - unfold size_of in *. pose proof (size_delete_some _ _ _ Hf). lia.
  - intros g gr [_ Hg]%lookup_delete_Some. eauto.
  - intros id. rewrite mm_range_erase_one. case_decide; [by apply remove_first_NoDup|done].
  - intros id g. rewrite mm_range_erase_one. case_decide as D.
    + subst id. split.
      * intros Hg. destruct (remove_first_NoDup f _ (fi_nodup0 (lf_request fr))) as [_ Hnot].
        pose proof (elem_of_remove_first _ _ _ Hg) as (gr & Hgr & Hq)%fi_index0.
        exists gr. rewrite lookup_delete_ne by (intros <-; done). done.
      * intros (gr & [Hne Hg]%lookup_delete_Some & Hq). apply elem_of_remove_first_ne; [done|].
        apply fi_index0. eauto.
    + rewrite fi_index0. split; intros (gr & Hg & Hq); exists gr; (split; [|done]).
      * rewrite lookup_delete_ne by (intros <-; congruence). done.
      * by apply lookup_delete_Some in Hg as [_ ?].
  - intros g gr [_ Hg]%lookup_delete_Some. apply fi_owner0 in Hg.
    rewrite lookup_insert. case_decide; eauto.
  - intros id r'. rewrite lookup_insert, mm_range_erase_one. case_decide as D.
    + intros [= <-]. subst id. split; simpl; try done.
      * rewrite sub32_small; [lia|]. specialize (Hrng (lf_request fr)).
        unfold size_of in Hb. lia.
      * intros Hn. apply Hlive. lia.
    + intros Hr'. by apply fi_records0.
Qed.

(** Updating a flow in place, its class and its owner kept. *)
Lemma flows_inv_update_flow L f fr fr' :
  flows_inv L → L_flows L !! f = Some fr →
  lf_traffic fr' = lf_traffic fr → lf_request fr' = lf_request fr →
  flows_inv (L <| L_flows := <[f := fr']> (L_flows L) |>).
Proof.
  intros [] Hf Ht Hq. split; simpl; try done.
  - by eapply counters_ok_update.
  - unfold size_of in *. by rewrite map_size_insert_Some by eauto.
  - intros g gr. rewrite lookup_insert. case_decide as D; [|by apply fi_seq0].
    intros _. subst g. by eapply fi_seq0.
  - intros id g. rewrite fi_index0. split; intros (gr & Hg & Hr).
    + rewrite lookup_insert. case_decide; [|eauto]. simplify_eq. eauto.
    + rewrite lookup_insert in Hg. case_decide; [|eauto]. simplify_eq. eauto.
  - intros g gr. rewrite lookup_insert. case_decide; [|by apply fi_owner0].
    intros [= <-]. rewrite Hq. by eapply fi_owner0.
Qed.

Lemma flows_inv_record_bytes L f b inb :
  flows_inv L → flows_inv (record_flow_bytes L f b inb).2.
Proof.
  intros Hinv. unfold record_flow_bytes.
  destruct (L_flows L !! f) as [fr|] eqn:Hf; [|done].
  destruct (checked_add (lf_observed_bytes fr) b) as [u|]; [|done].
  assert (flows_inv (L <| L_flows := <[f := fr <| lf_observed_bytes := u |>]> (L_flows L) |>))
    as Hinv' by (by eapply flows_inv_update_flow).
  op_guards; inv_steps; intros n []; by split.
Qed.

Lemma account_class_active o b e : ca_active_flows (account_class o b e) = ca_active_flows e.
Proof. by destruct o. Qed.

Lemma fmap_alter_inert {A B} (g : A → B) (f : A → A) (i : nat) (l : list A) :
  (∀ x, g (f x) = g x) → g <$> alter f i l = g <$> l.
Proof.
  intros H. apply list_eq. intros j. rewrite !list_lookup_fmap, list_lookup_alter.
  case_decide; [subst j|done]. destruct (l !! i); simpl; [by rewrite H|done].
Qed.

Lemma record_ok_count id n o r : record_ok id n r → record_ok id n (count_request_decision o r).
Proof. intros []. unfold count_request_decision. destruct o; by split. Qed.

Lemma flows_inv_record_decision L id a t o reason b :
  flows_inv L → flows_inv (record_decision L id a t o reason b).2.
Proof.
  intros Hinv. unfold record_decision. op_guards.
  eapply flows_inv_put; [|eassumption|].
  - eapply flows_inv_classes; [done..|]. simpl.
    case_match; rewrite ?(fmap_alter_inert ca_active_flows); try done;
      intros; apply account_class_active.
  - intros n Hr. apply (record_ok_count _ _ o) in Hr. case_match; [|done].
    case_match. by apply record_ok_set_attempt.
Qed.

(** A record whose attempt array has the length the source's type gives it. *)
Definition record_typed (r : RequestRecord) : Prop :=
  length (rr_attempts r) = kMaxAttemptsPerRequest.

Lemma record_ok_restored r r' :
  (rr_attempt_count r ≤ kMaxAttemptsPerRequest)%nat → record_typed r →
  rr_id r' = rr_id r → rr_active_flows r' = 0 → rr_attempt_count r' = rr_attempt_count r →
  rr_attempts r' = take (rr_attempt_count r) (rr_attempts r)
    ++ replicate (kMaxAttemptsPerRequest - rr_attempt_count r) empty_attempt →
  record_ok (rr_id r) 0 r'.
Proof.
  unfold record_typed. intros Hn Ht Hid Ha Hc Hl. split; rewrite ?Hl, ?Hc; try done.
  rewrite length_app, length_take, length_replicate. lia.
Qed.

Lemma flows_inv_restore L r :
  flows_inv L → record_typed r → flows_inv (restore_record L r).2.
Proof.
  intros Hinv Hty. unfold restore_record.
  destruct (is_nil (rr_id r)); [done|].
  destruct (Nat.ltb_spec kMaxAttemptsPerRequest (rr_attempt_count r)); [done|].
  destruct (L_requests L !! rr_id r) eqn:Hr; [done|].
  pose proof (idle_of_absent L _ Hinv Hr) as Hidle. cbn [rr_lifecycle setter rr_set_attempts].
  destruct (request_is_terminal _); cbn [snd].
  all: apply flows_inv_evict, flows_inv_refresh, flows_inv_put_idle;
    [|repeat case_match; done|by apply (record_ok_restored r)].
  - apply flows_inv_bump; [done..|].
    repeat case_match; repeat (apply flows_inv_bump; [done..|]); by apply flows_inv_push.
  - by repeat (apply flows_inv_bump; [done..|]).
Qed.

(** ** Construction *)

Record limits_typed (l : LedgerLimits) : Prop := {
  lt_live : is_u32 (ll_max_live_requests l);
  lt_attempts : is_u32 (ll_max_attempts_per_request l);
  lt_retained : is_u32 (ll_max_retained_terminal_requests l);
  lt_request : is_u32 (ll_max_active_flows_per_request l);
  lt_total : is_u32 (ll_max_active_flows_total l);
}.

Lemma make_ledger_limits l : limits_typed l → limits_ok (L_limits (make_ledger l)).
Proof.
  destruct l as [live att ret req tot]. intros [Hl Ha Hr Hq Ht]. unfold is_u32 in *. simpl in *.
  unfold make_ledger. cbn [L_limits ll_max_attempts_per_request].
  change (Z.of_nat kMaxAttemptsPerRequest) with 8. rewrite Z.gtb_ltb.
  destruct (bool_decide (att = 0) || (8 <? att)) eqn:E1; cbn;
    repeat (case_bool_decide; cbn in * ).
  all: split; cbn in *; unfold two32 in *; change (Z.of_nat kMaxAttemptsPerRequest) with 8;
    bool_to_prop; lia.
Qed.

Lemma class_count_empty i : class_count i ∅ = 0%nat.
Proof. unfold class_count. by rewrite map_filter_empty, map_size_empty. Qed.

Lemma flows_inv_empty limits :
  limits_ok limits → flows_inv (MkLedger limits ∅ [] ∅ ∅ 0 empty_accounting).
Proof.
  intros Hl. split; simpl; try done.
  - split_and!; [done|done|]. intros i e He. rewrite class_count_empty.
    apply lookup_replicate in He as [-> _]. done.
  - unfold size_of. rewrite map_size_empty. destruct Hl. lia.
  - intros id. rewrite mm_range_empty. constructor.
  - intros id f. rewrite mm_range_empty. split; [by intros ?%not_elem_of_nil|].
    intros (fr & Hf & _). by rewrite lookup_empty in Hf.
Qed.
