(* ===== verification/LedgerRun.v ===== *)
(** * Histories of the ledger

    The public operations of [RequestLedger] as one type of commands, their
    execution in sequence, and the run-time audit after every history: the flow
    invariant of [LedgerInv] holds along it and implies [verify_closure]. *)

From S2P Require Import Prelude Ids Traffic Decision Ledger LedgerInv.

(** ** The audit recounts what the counters say *)

Definition class_members (i : nat) (l : list LFlow) : nat :=
  length (filter (fun f => tc_index (lf_traffic f) = i) l).

Lemma class_count_members i (m : gmap FlowId LFlow) :
  class_count i m = class_members i (map_to_list m).*2.
Proof.
  induction m as [|f fr m Hf IH] using map_ind.
  { by rewrite class_count_empty, map_to_list_empty. }
  rewrite class_count_insert by done. unfold class_members in *.
  assert ((map_to_list (<[f:=fr]> m)).*2 ≡ₚ fr :: (map_to_list m).*2) as ->
    by (by rewrite map_to_list_insert).
  rewrite filter_cons. case_decide; simpl; by rewrite IH.
Qed.

Lemma recount_spec l c t :
  0 ≤ t → t + Z.of_nat (length l) < two32 → (∀ j n, c !! j = Some n → 0 ≤ n ≤ t) →
  foldl recount_flow (c, t) l =
  (imap (fun j n => n + Z.of_nat (class_members j l)) c, t + Z.of_nat (length l)).
Proof.
  revert c t. induction l as [|f l IH]; intros c t Ht Hb Hc; simpl.
  { f_equal; [|lia]. apply list_eq. intros j. rewrite list_lookup_imap.
    destruct (c !! j); simpl; [f_equal; unfold class_members; simpl; lia|done]. }
  simpl in Hb. unfold recount_flow at 2. simpl. rewrite (add32_small t 1) by lia. rewrite IH; [|lia|lia|].
  - f_equal; [|lia]. apply list_eq. intros j. rewrite !list_lookup_imap, list_lookup_alter.
    unfold class_members. rewrite filter_cons.
    case_decide as D; subst; destruct (c !! _) eqn:E; simpl; try done.
    apply Hc in E. rewrite add32_small by lia. f_equal. lia.
  - intros j n. rewrite list_lookup_alter. case_decide as D.
    + subst. intros (n0 & E & ->)%fmap_Some. apply Hc in E. rewrite add32_small; lia.
    + intros E. apply Hc in E. lia.
Qed.

Lemma flows_inv_closure L : flows_inv L → verify_closure L = Success tt.
Proof.
  intros Hinv. pose proof (size_bound L Hinv) as Hb.
  destruct Hinv as [_ (Ht & Hlen & Hc) _ _ _ _ _ _ Hrec]. unfold verify_closure.
  rewrite recount_spec; [|lia| |].
  2: { rewrite length_fmap, length_map_to_list. unfold size_of in Hb. lia. }
  2: { intros j n [-> _]%lookup_replicate. lia. }
  rewrite length_fmap, length_map_to_list, Z.add_0_l, bool_decide_true by (by rewrite Ht).
  rewrite bool_decide_true.
  - replace (forallb _ _) with true; [done|]. symmetry. apply forallb_forall. intros r Hr.
    apply list_elem_of_In, list_elem_of_fmap in Hr as ([id r'] & -> & Hr).
    apply elem_of_map_to_list in Hr. destruct (Hrec id r' Hr) as [_ Ha _ _ Hl]. simpl.
    unfold request_closure_ok. case_bool_decide as Hz; simpl; [by rewrite !andb_false_r|].
    destruct Hl as [-> ->]; [lia|done].
  - apply list_eq. intros i. rewrite list_lookup_imap, list_lookup_fmap.
    destruct (as_per_class (L_accounting L) !! i) as [e|] eqn:E.
    + rewrite lookup_replicate_2 by (rewrite <- Hlen; by eapply lookup_lt_Some). simpl.
      f_equal. by rewrite (Hc i e E), class_count_members.
    + apply lookup_ge_None in E. rewrite Hlen in E.
      apply (lookup_replicate_None _ 0) in E. by rewrite E.
Qed.

(** ** Commands and histories *)

Inductive LedgerOp : Type :=
| OpRegisterRequest (id : RequestId) (now : Z)
| OpRegisterAttempt (id : RequestId) (a : AttemptId) (mh mg rg now : Z)
| OpRevalidate (id : RequestId) (a : AttemptId) (now : Z)
| OpAdvanceStage (id : RequestId) (a : AttemptId) (target : ServingStage) (now : Z)
| OpFail (id : RequestId) (a : AttemptId) (reason : ReasonCode) (now : Z)
| OpSupersede (id : RequestId) (a b : AttemptId) (now : Z)
| OpSetModel (id : RequestId) (a : AttemptId) (mh mg : Z)
| OpCancel (id : RequestId) (reason : ReasonCode) (seq now : Z)
| OpInterrupt (id : RequestId) (now : Z)
| OpPublish (p : CompletionPublication) (now : Z)
| OpOpenFlow (id : RequestId) (a : AttemptId) (t : TrafficClass) (declared now : Z)
| OpReleaseFlow (f : FlowId)
| OpRecordBytes (f : FlowId) (bytes : Z) (inbound : bool)
| OpRecordDecision (id : RequestId) (a : AttemptId) (t : TrafficClass) (o : DecisionOutcome)
    (reason : ReasonCode) (bytes : Z)
| OpRestore (r : RequestRecord)
| OpClear.

Definition apply_op (L : RequestLedger) (op : LedgerOp) : RequestLedger :=
  match op with
  | OpRegisterRequest id now => (register_request L id now).2
  | OpRegisterAttempt id a mh mg rg now => (register_attempt L id a mh mg rg now).2
  | OpRevalidate id a now => (revalidate_request L id a now).2
  | OpAdvanceStage id a target now => (advance_stage L id a target now).2
  | OpFail id a reason now => (fail_attempt L id a reason now).2
  | OpSupersede id a b now => (supersede_attempt L id a b now).2
  | OpSetModel id a mh mg => (set_attempt_model L id a mh mg).2
  | OpCancel id reason seq now => (cancel_request L id reason seq now).2
  | OpInterrupt id now => (mark_request_interrupted L id now).2
  | OpPublish p now => (publish_completion L p now).2
  | OpOpenFlow id a t b now => (open_flow L id a t b now).2
  | OpReleaseFlow f => (release_flow L f).2
  | OpRecordBytes f b inb => (record_flow_bytes L f b inb).2
  | OpRecordDecision id a t o reason b => (record_decision L id a t o reason b).2
  | OpRestore r => (restore_record L r).2
  | OpClear => clear L
  end.

Definition run (L : RequestLedger) (ops : list LedgerOp) : RequestLedger := foldl apply_op L ops.

(** Arguments that the source's types already constrain. *)
Definition op_typed (op : LedgerOp) : Prop :=
  match op with OpRestore r => record_typed r | _ => True end.

(** ** The flow sequence and the limits along a history *)

(** What only [open_flow] and [clear] change, and what nothing changes. *)
Definition quiet (L L' : RequestLedger) : Prop :=
  L_limits L' = L_limits L ∧ L_next_flow_sequence L' = L_next_flow_sequence L.

#[global] Instance quiet_preorder : PreOrder quiet.
Proof.
  split; [done|]. intros L1 L2 L3 [] []. split; congruence.
Qed.

Lemma quiet_evict_loop order L : quiet L (evict_loop order L).
Proof.
  revert L. induction order as [|v rest IH]; intros L; cbn [evict_loop]; [done|].
  repeat case_match; try done; (etrans; [|apply IH]; done).
Qed.

Lemma quiet_evict L : quiet L (evict_if_needed L).
Proof. apply quiet_evict_loop. Qed.

Lemma quiet_release L r : quiet L (release_request_flows L r).2.
Proof. by destruct (close_flows_frame (mm_range (L_flows_by_request L) (rr_id r)) L) as (?&_&_&_&?). Qed.

Lemma quiet_terminate L id r : quiet L (terminate id r L).
Proof. apply quiet_release. Qed.

(** Splits the conditions of an operation whose resulting ledger is the subject
    of the goal [P L (op L).2]. *)
Ltac result_guard :=
  lazymatch goal with
  | |- context [snd (match ?x with _ => _ end)] => destruct x eqn:?
  end; cbn [snd refuse].
Ltac result_guards := repeat result_guard.

Ltac quiet_step :=
  lazymatch goal with
  | |- quiet _ (evict_if_needed _) => etrans; [|apply quiet_evict]
  | |- quiet _ (terminate _ _ _) => etrans; [|apply quiet_terminate]
  | |- quiet ?L (bump _ ?X) => change (quiet L X)
  | |- quiet ?L (put_record _ _ ?X) => change (quiet L X)
  | |- quiet ?L (push_terminal _ ?X) => change (quiet L X)
  | |- quiet ?L (refresh_request_counts ?X) => change (quiet L X)
  end.
Ltac quiet_solve := result_guards; repeat quiet_step; done.

Definition opens_or_clears (op : LedgerOp) : bool :=
  match op with OpOpenFlow _ _ _ _ _ | OpClear => true | _ => false end.

Lemma apply_op_quiet L op : opens_or_clears op = false → quiet L (apply_op L op).
Proof.
  intros Hop. destruct op; simpl in Hop |- *; try done.
  - unfold register_request. quiet_solve.
  - unfold register_attempt. quiet_solve.
  - unfold revalidate_request. quiet_solve.
  - unfold advance_stage. quiet_solve.
  - unfold fail_attempt. quiet_solve.
  - unfold supersede_attempt. quiet_solve.
  - unfold set_attempt_model. quiet_solve.
  - unfold cancel_request. quiet_solve.
  - unfold mark_request_interrupted.
    destruct (L_requests L !! id) as [r|]; [|done]. case_match; [done|].
    match goal with |- context [release_request_flows L ?r] =>
      pose proof (quiet_release L r) as Hq; destruct (release_request_flows L r) end.
    exact Hq.
  - unfold publish_completion, publish_failure, publish_success, refuse_publication,
      suppress_publication. quiet_solve.
  - unfold release_flow. quiet_solve.
  - unfold record_flow_bytes. quiet_solve.
  - unfold record_decision. quiet_solve.
  - unfold restore_record. destruct (is_nil _); [done|]. case_match; [done|].
    case_match; [done|]. cbn [rr_lifecycle setter rr_set_attempts].
    destruct (request_is_terminal _); cbn [snd]; repeat first [quiet_step | case_match]; done.
Qed.

Lemma open_flow_sequence L id a t b now :
  0 ≤ L_next_flow_sequence L →
  0 ≤ L_next_flow_sequence (open_flow L id a t b now).2 ≤ L_next_flow_sequence L + 1
  ∧ L_limits (open_flow L id a t b now).2 = L_limits L.
Proof.
  intros H. unfold open_flow. result_guards; split; try done; try lia.
  simpl. unfold add64, wrap64. split; [by apply Z.mod_pos_bound|]. apply Z.mod_le; [lia|done].
Qed.

Definition is_open (op : LedgerOp) : bool :=
  match op with OpOpenFlow _ _ _ _ _ => true | _ => false end.

(** The number of flows a history asks for. *)
Definition opens (ops : list LedgerOp) : nat := length (filter (fun op => is_open op = true) ops).

Lemma opens_cons op ops : opens (op :: ops) = ((if is_open op then 1 else 0) + opens ops)%nat.
Proof. unfold opens. rewrite filter_cons. case_decide as D; [by rewrite D|]. by destruct (is_open op). Qed.

Lemma opens_app ops ops' : opens (ops ++ ops') = (opens ops + opens ops')%nat.
Proof. unfold opens. by rewrite filter_app, length_app. Qed.

Lemma apply_op_sequence L op :
  0 ≤ L_next_flow_sequence L →
  0 ≤ L_next_flow_sequence (apply_op L op) ≤ L_next_flow_sequence L + if is_open op then 1 else 0.
Proof.
  intros H. destruct (opens_or_clears op) eqn:E.
  - destruct op; try done; simpl.
    + by apply open_flow_sequence.
    + lia.
  - destruct (apply_op_quiet L op E) as [_ ->]. destruct (is_open op); lia.
Qed.

Lemma apply_op_limits L op : L_limits (apply_op L op) = L_limits L.
Proof.
  destruct (opens_or_clears op) eqn:E; [|by destruct (apply_op_quiet L op E)].
  destruct op; try done; simpl. unfold open_flow. result_guards; done.
Qed.

Lemma apply_op_inv L op :
  flows_inv L → op_typed op →
  L_next_flow_sequence L + (if is_open op then 1 else 0) < two64 → flows_inv (apply_op L op).
Proof.
  intros Hinv Hty Hseq. destruct op; simpl.
  - by apply flows_inv_register_request.
  - by apply flows_inv_register_attempt.
  - by apply flows_inv_revalidate.
  - by apply flows_inv_advance_stage.
  - by apply flows_inv_fail.
  - by apply flows_inv_supersede.
  - by apply flows_inv_set_model.
  - by apply flows_inv_cancel.
  - by apply flows_inv_interrupt.
  - by apply flows_inv_publish.
  - by apply flows_inv_open_flow.
  - by apply flows_inv_release_flow.
  - by apply flows_inv_record_bytes.
  - by apply flows_inv_record_decision.
  - by apply flows_inv_restore.
  - apply flows_inv_empty, Hinv.
Qed.

Lemma run_inv L ops :
  flows_inv L → Forall op_typed ops → L_next_flow_sequence L + Z.of_nat (opens ops) < two64 →
  flows_inv (run L ops) ∧
  L_next_flow_sequence (run L ops) ≤ L_next_flow_sequence L + Z.of_nat (opens ops).
Proof.
  unfold run. revert L. induction ops as [|op ops IH]; intros L Hinv Hty Hseq.
  { split; [done|]. simpl. lia. }
  inversion_clear Hty. rewrite opens_cons in *. cbn [foldl].
  pose proof (apply_op_sequence L op (fi_seq_nonneg L Hinv)) as Hs.
  destruct (IH (apply_op L op)) as [H1 H2].
  - apply apply_op_inv; [done..|]. destruct (is_open op); lia.
  - done.
  - destruct (is_open op); lia.
  - split; [done|]. destruct (is_open op); lia.
Qed.

Lemma run_app L ops ops' : run L (ops ++ ops') = run (run L ops) ops'.
Proof. apply foldl_app. Qed.

(** C6: After any sequence of ledger operations on a fresh ledger, errors included, that
    opens fewer than 2^64 flows, the closure audit verify_closure succeeds: the active-
    flow counters equal the live flow records and no terminal or interrupted request
    holds a flow. *)
Theorem audit_after_history limits ops :
  limits_typed limits → Forall op_typed ops → Z.of_nat (opens ops) < two64 →
  verify_closure (run (make_ledger limits) ops) = Success tt.
Proof.
  intros Hl Hty Hn. apply flows_inv_closure, run_inv; [|done|].
  - by apply flows_inv_empty, make_ledger_limits.
  - exact Hn.
Qed.
