(* ===== verification/LedgerEvolve.v ===== *)
(** * How a request record may change

    A preorder on request records that every operation of the ledger respects:
    the authority floor only rises, the attempt slots in use keep their
    identities and generations, a terminal request stays terminal, and a settled
    one keeps its lifecycle. Eviction may drop a terminal record altogether. *)

From S2P Require Import Prelude Ids Traffic Decision Ledger LedgerInv LedgerRun.

(** ** The preorder *)

(** Slots in use keep the identity and the generation they were given. *)
Definition slots_kept (r r' : RequestRecord) : Prop :=
  (rr_attempt_count r ≤ rr_attempt_count r')%nat ∧
  ∀ i a, (i < rr_attempt_count r)%nat → rr_attempts r !! i = Some a →
    ∃ a', rr_attempts r' !! i = Some a' ∧ at_id a' = at_id a ∧ at_generation a' = at_generation a.

(** A request is settled in lifecycle [lc] when [lc] is terminal and its current
    attempt is over. *)
Definition settled (lc : RequestLifecycle.t) (r : RequestRecord) : Prop :=
  rr_lifecycle r = lc ∧ request_is_terminal lc = true ∧
  ∀ i e, find_attempt r (rr_current_attempt r) = Some (i, e) →
    attempt_is_terminal (at_lifecycle e) = true.

(** The authority floor only rises, and only as the request becomes terminal. *)
Definition floor_moves (r r' : RequestRecord) : Prop :=
  rr_authority_floor r ≤ rr_authority_floor r' ∧
  (request_is_terminal (rr_lifecycle r') = false → rr_authority_floor r' = rr_authority_floor r).

Lemma floor_same r r' : rr_authority_floor r' = rr_authority_floor r → floor_moves r r'.
Proof. intros E. split; [lia|done]. Qed.

Record evolves (r r' : RequestRecord) : Prop := {
  ev_floor : floor_moves r r';
  ev_slots : slots_kept r r';
  ev_terminal : request_is_terminal (rr_lifecycle r) = true →
    request_is_terminal (rr_lifecycle r') = true;
  ev_settled : ∀ lc, settled lc r →
    settled lc r' ∧ rr_terminal_at_nanos r' = rr_terminal_at_nanos r
    ∧ rr_terminal_reason r' = rr_terminal_reason r;
}.

#[global] Instance slots_kept_preorder : PreOrder slots_kept.
Proof.
  split; [by split; eauto|]. intros r1 r2 r3 [H1 K1] [H2 K2]. split; [lia|].
  intros i a Hi Ha. destruct (K1 i a Hi Ha) as (a' & Ha' & <- & <-). apply K2; [lia|done].
Qed.

#[global] Instance evolves_preorder : PreOrder evolves.
Proof.
  split; [split; [by apply floor_same|done..]|].
  intros r1 r2 r3 [[F1 G1] ? T1 ?] [[F2 G2] ? T2 ?]. split.
  - split; [lia|]. intros H3. rewrite G2 by done. apply G1. apply not_true_is_false.
    intros H2. apply T2 in H2. congruence.
  - by etrans.
  - auto.
  - intros lc H. destruct (ev_settled0 lc H) as (H2 & <- & <-). auto.
Qed.

(** ** Attempt lookup *)

Lemma find_attempt_Some r x i e :
  find_attempt r x = Some (i, e) ↔
  (i < rr_attempt_count r `min` kMaxAttemptsPerRequest)%nat ∧ rr_attempts r !! i = Some e ∧
  at_id e = x ∧
  ∀ j a, (j < i)%nat → rr_attempts r !! j = Some a → at_id a ≠ x.
Proof.
  unfold find_attempt. rewrite list_find_Some, lookup_take_Some. split.
  - intros ((He & Hi) & Hx & Hmin). split_and!; try done. intros j a Hj Ha. eapply Hmin; [|done].
    rewrite lookup_take_lt by lia. done.
  - intros (Hi & He & Hx & Hmin). split_and!; try done.
    intros j a [Ha _]%lookup_take_Some Hj. eauto.
Qed.

(** Lookup depends on the identities only. *)
Lemma find_attempt_lookup r x i e :
  find_attempt r x = Some (i, e) → rr_attempts r !! i = Some e.
Proof. by intros (_ & ? & _)%find_attempt_Some. Qed.

(** Two attempt arrays that differ position by position by a relation that keeps
    identities. *)
Lemma find_attempt_pointwise (P : AttemptRecord → AttemptRecord → Prop) r r' x i e' :
  rr_attempt_count r' = rr_attempt_count r →
  Forall2 (fun a a' => at_id a' = at_id a ∧ P a a') (rr_attempts r) (rr_attempts r') →
  find_attempt r' x = Some (i, e') →
  ∃ e, find_attempt r x = Some (i, e) ∧ P e e'.
Proof.
  intros Hc HF (Hi & He & Hx & Hmin)%find_attempt_Some.
  destruct (Forall2_lookup_r _ _ _ _ _ HF He) as (e & He0 & Hid & HP).
  exists e. split; [|done]. apply find_attempt_Some. rewrite <- Hc, <- Hid. split_and!; try done.
  intros j a Hj Ha. destruct (Forall2_lookup_l _ _ _ _ _ HF Ha) as (a' & Ha' & Hid' & _).
  rewrite <- Hid'. eauto.
Qed.

Lemma Forall2_insert_l {A} (P : A → A → Prop) (l : list A) i x y :
  Reflexive P → l !! i = Some x → P x y → Forall2 P l (<[i := y]> l).
Proof.
  intros HR Hx HP. rewrite <- (list_insert_id l i x Hx) at 1.
  apply Forall2_insert; [|done]. apply Forall_Forall2_diag, Forall_forall. auto.
Qed.

(** ** Updates that respect the preorder *)

(** A change of fields other than the lifecycle, the attempts, the current
    attempt and the terminal ones. *)
Definition same_core (r r' : RequestRecord) : Prop :=
  rr_lifecycle r' = rr_lifecycle r ∧ rr_attempts r' = rr_attempts r ∧
  rr_attempt_count r' = rr_attempt_count r ∧ rr_current_attempt r' = rr_current_attempt r ∧
  rr_terminal_at_nanos r' = rr_terminal_at_nanos r ∧
  rr_terminal_reason r' = rr_terminal_reason r.

Lemma evolves_core r r' :
  same_core r r' → floor_moves r r' → evolves r r'.
Proof.
  intros (E1 & E2 & E3 & E4 & E5 & E6) Hf. split; [done| |by rewrite E1|].
  - split; [lia|]. rewrite E2. eauto.
  - intros lc (H1 & H2 & H3). split; [|done]. split_and!; [congruence|done|].
    unfold find_attempt. rewrite E2, E3, E4. exact H3.
Qed.

Lemma slots_kept_pointwise r r' :
  rr_attempt_count r' = rr_attempt_count r →
  Forall2 (fun a a' => at_id a' = at_id a ∧ at_generation a' = at_generation a)
    (rr_attempts r) (rr_attempts r') →
  slots_kept r r'.
Proof.
  intros Hc HF. split; [lia|]. intros i a _ Ha.
  destruct (Forall2_lookup_l _ _ _ _ _ HF Ha) as (a' & ? & ? & ?). eauto.
Qed.

(** Rewriting one attempt, its identity, generation and lifecycle kept. *)
Lemma evolves_set_attempt r i e e' x :
  find_attempt r x = Some (i, e) → at_id e' = at_id e → at_generation e' = at_generation e →
  at_lifecycle e' = at_lifecycle e → evolves r (set_attempt r i e').
Proof.
  intros He Hid Hg Hl. apply find_attempt_lookup in He. split; [by apply floor_same| |done|].
  - apply slots_kept_pointwise; [done|]. simpl. eapply Forall2_insert_l; [done..|]. done.
  - intros lc (H1 & H2 & H3). split; [|done]. split_and!; [done..|]. intros j a Ha.
    apply (find_attempt_pointwise (fun a a' => at_lifecycle a' = at_lifecycle a) r) in Ha
      as (a0 & Ha0 & ->); [|done|].
    + eauto.
    + simpl. eapply Forall2_insert_l; [done..|]. done.
Qed.

(** A record that is not terminal yet may change its lifecycle. *)
Lemma evolves_live r r' :
  request_is_terminal (rr_lifecycle r) = false →
  floor_moves r r' → slots_kept r r' → evolves r r'.
Proof.
  intros Hl Hf Hs. split; [done..| |]; [congruence|].
  intros lc (H1 & H2 & _). congruence.
Qed.

Lemma slots_kept_append r r' a :
  slots_kept r r' → rr_attempt_count r' = rr_attempt_count r → slots_kept r (append_attempt r' a).
Proof.
  intros [Hc Hs] E. split; simpl; [lia|]. intros i x Hi Hx.
  destruct (Hs i x Hi Hx) as (y & Hy & ?). exists y.
  rewrite list_lookup_insert_ne by lia. done.
Qed.

Lemma slots_kept_set r i e e' x :
  find_attempt r x = Some (i, e) → at_id e' = at_id e → at_generation e' = at_generation e →
  slots_kept r (set_attempt r i e').
Proof.
  intros He%find_attempt_lookup Hid Hg. apply slots_kept_pointwise; [done|]. simpl.
  eapply Forall2_insert_l; [done..|]. done.
Qed.

Lemma slots_kept_map r f :
  (∀ a, at_id (f a) = at_id a ∧ at_generation (f a) = at_generation a) →
  slots_kept r (map_attempts f r).
Proof.
  intros Hf. apply slots_kept_pointwise; [done|]. simpl.
  rewrite <- (take_drop (rr_attempt_count r `min` kMaxAttemptsPerRequest) (rr_attempts r)) at 1.
  apply Forall2_app; [|by apply Forall_Forall2_diag, Forall_forall].
  apply Forall2_fmap_r, Forall_Forall2_diag, Forall_forall. auto.
Qed.

(** ** Ledgers *)

(** Every record of [L] is evicted or evolves. *)
Definition keeps (L L' : RequestLedger) : Prop :=
  ∀ id r, L_requests L !! id = Some r →
    L_requests L' !! id = None ∨ ∃ r', L_requests L' !! id = Some r' ∧ evolves r r'.

Lemma keeps_same L L' : L_requests L' = L_requests L → keeps L L'.
Proof. intros E id r Hr. right. exists r. by rewrite E. Qed.

Lemma keeps_put L L1 id r r' :
  L_requests L1 = L_requests L → L_requests L !! id = Some r → evolves r r' →
  keeps L (put_record id r' L1).
Proof.
  intros E Hr He id' r0 Hr0. right. simpl. rewrite E, lookup_insert. case_decide; [|by exists r0].
  simplify_eq. eauto.
Qed.

Lemma keeps_put_new L L1 id r :
  L_requests L1 = L_requests L → L_requests L !! id = None → keeps L (put_record id r L1).
Proof.
  intros E Hr id' r0 Hr0. right. simpl. rewrite E, lookup_insert_ne by congruence. by exists r0.
Qed.

Lemma evict_loop_lookup order L id :
  L_requests (evict_loop order L) !! id = None ∨
  L_requests (evict_loop order L) !! id = L_requests L !! id.
Proof.
  revert L. induction order as [|v rest IH]; intros L; cbn [evict_loop]; [by right|].
  repeat case_match; try (by right); try apply IH.
  destruct (IH (bump as_requests_evicted (L <| L_requests := delete v (L_requests L) |>)))
    as [H'|H']; [by left|]. rewrite H'. simpl.
  rewrite lookup_delete. case_decide; [by left|by right].
Qed.

Lemma evict_lookup L id :
  L_requests (evict_if_needed L) !! id = None ∨
  L_requests (evict_if_needed L) !! id = L_requests L !! id.
Proof. apply evict_loop_lookup. Qed.

Lemma keeps_evict L L' : keeps L L' → keeps L (evict_if_needed L').
Proof.
  intros H id r Hr. destruct (evict_lookup L' id) as [->| ->]; [by left|]. by apply H.
Qed.

Lemma terminate_lookup id r L id' :
  L_requests (terminate id r L) !! id' =
  if decide (id = id') then Some (release_request_flows L r).1 else L_requests L !! id'.
Proof.
  unfold terminate, release_request_flows. simpl.
  destruct (close_flows_frame (mm_range (L_flows_by_request L) (rr_id r)) L) as (_&E&_).
  rewrite E, lookup_insert. done.
Qed.

Lemma evolves_release L r : evolves r (release_request_flows L r).1.
Proof. apply evolves_core; [done|by apply floor_same]. Qed.

Lemma keeps_terminate L id r r' :
  L_requests L !! id = Some r → evolves r r' → keeps L (terminate id r' L).
Proof.
  intros Hr He id' r0 Hr0. right. rewrite terminate_lookup. case_decide; [|by exists r0].
  simplify_eq. eexists. split; [done|]. etrans; [exact He|]. apply evolves_release.
Qed.

(** ** Every operation respects the preorder *)

Lemma keeps_bump L X f `{!Setter f} : keeps L X → keeps L (bump f X).
Proof. done. Qed.

Lemma keeps_refresh L X : keeps L X → keeps L (refresh_request_counts X).
Proof. done. Qed.

Lemma keeps_push L X id : keeps L X → keeps L (push_terminal id X).
Proof. done. Qed.

(** Peels the bookkeeping around the record update of an operation. *)
Ltac keeps_step :=
  lazymatch goal with
  | |- keeps _ (evict_if_needed _) => apply keeps_evict
  | |- keeps ?L (bump _ ?X) => apply keeps_bump
  | |- keeps ?L (refresh_request_counts ?X) => apply keeps_refresh
  | |- keeps ?L (push_terminal _ ?X) => apply keeps_push
  | |- keeps ?L (put_record _ _ _) =>
      first [ match goal with H : L_requests L !! _ = Some _ |- _ =>
                eapply keeps_put; [reflexivity | exact H |] end
            | match goal with H : L_requests L !! _ = None |- _ =>
                apply keeps_put_new; [reflexivity | exact H] end ]
  | |- keeps ?L (terminate _ _ _) =>
      match goal with H : L_requests L !! _ = Some _ |- _ =>
        eapply keeps_terminate; [exact H|] end
  | |- keeps _ _ => by apply keeps_same
  end.
Ltac keeps_steps := result_guards; repeat keeps_step.

(** Closes an [evolves] goal whose record was not terminal. *)
Ltac evolve_live :=
  apply evolves_live; [done | apply floor_same; by simpl; repeat case_match |].

Lemma slots_kept_core r r' :
  rr_attempts r' = rr_attempts r → rr_attempt_count r' = rr_attempt_count r → slots_kept r r'.
Proof. intros E1 E2. split; [lia|]. rewrite E1. eauto. Qed.

Lemma slots_kept_fields r r1 r2 :
  slots_kept r r1 → rr_attempts r2 = rr_attempts r1 → rr_attempt_count r2 = rr_attempt_count r1 →
  slots_kept r r2.
Proof. intros H E1 E2. etrans; [exact H|]. by apply slots_kept_core. Qed.

(** An attempt was appended and other fields were written after it. *)
Ltac appended :=
  match goal with |- slots_kept _ ?rec =>
    match rec with context [append_attempt ?r ?a] =>
      apply (slots_kept_fields _ (append_attempt r a)) end end;
  [apply slots_kept_append; reflexivity | simpl | simpl ]; try reflexivity.

(** One attempt was rewritten and other fields were written after it. *)
Ltac rewritten :=
  match goal with |- slots_kept _ ?rec =>
    match rec with context [set_attempt ?r ?i ?a] =>
      apply (slots_kept_fields _ (set_attempt r i a)) end end;
  [eapply slots_kept_set; [eassumption | simpl | simpl] | simpl | simpl ];
  repeat case_match; try reflexivity.

Lemma keeps_register_attempt L id a mh mg rg now :
  keeps L (register_attempt L id a mh mg rg now).2.
Proof.
  unfold register_attempt. keeps_steps. evolve_live.
  appended. all: case_match; reflexivity.
Qed.

Lemma keeps_revalidate L id a now : keeps L (revalidate_request L id a now).2.
Proof.
  unfold revalidate_request. keeps_steps. evolve_live.
  appended.
Qed.

Lemma keeps_advance_stage L id a target now : keeps L (advance_stage L id a target now).2.
Proof.
  unfold advance_stage. keeps_steps. evolve_live.
  rewritten.
Qed.

(** Failing the current attempt of a settled request changes nothing. *)
Lemma evolves_fail r i e x r' :
  find_attempt r x = Some (i, e) → is_current_attempt r x = true →
  attempt_is_terminal (at_lifecycle e) = false →
  request_is_terminal (rr_lifecycle r') = true →
  rr_authority_floor r' = rr_authority_floor r → slots_kept r r' → evolves r r'.
Proof.
  intros Hf Hc Ht Hr' Hfl Hs. split; [by apply floor_same|done|done|]. intros lc (_ & _ & H).
  unfold is_current_attempt in Hc. bool_to_prop. subst x. apply H in Hf. congruence.
Qed.

Lemma keeps_fail L id a reason now : keeps L (fail_attempt L id a reason now).2.
Proof.
  unfold fail_attempt. keeps_steps. bool_to_prop.
  eapply evolves_fail; [eassumption|done..|].
  rewritten.
Qed.

Lemma keeps_supersede L id a b now : keeps L (supersede_attempt L id a b now).2.
Proof.
  unfold supersede_attempt. keeps_steps. evolve_live.
  match goal with |- slots_kept _ ?rec =>
    match rec with context [append_attempt ?r ?a] =>
      apply (slots_kept_fields _ (append_attempt r a)) end end; [|simpl; reflexivity..].
  apply slots_kept_append; [rewritten|reflexivity].
Qed.

Lemma keeps_set_model L id a mh mg : keeps L (set_attempt_model L id a mh mg).2.
Proof. unfold set_attempt_model. keeps_steps. by eapply evolves_set_attempt. Qed.

Lemma raise_floor_core s r : same_core r (raise_floor s r).
Proof. unfold raise_floor. by case_match. Qed.

Lemma raise_floor_le s r : rr_authority_floor r ≤ rr_authority_floor (raise_floor s r).
Proof. unfold raise_floor. case_match; [|done]. bool_to_prop. rewrite Z.gtb_ltb in *. bool_to_prop. simpl. lia. Qed.

Lemma keeps_cancel L id reason seq now : keeps L (cancel_request L id reason seq now).2.
Proof.
  unfold cancel_request. keeps_steps.
  - apply evolves_core; [apply raise_floor_core|]. split; [apply raise_floor_le|].
    destruct (raise_floor_core seq r) as [-> _]. bool_to_prop.
    by match goal with H : rr_lifecycle _ = _ |- _ => rewrite H end.
  - apply evolves_live; [done| |].
    + cbn [map_attempts rr_authority_floor setter rr_set_attempts]. split.
      * etrans; [|apply raise_floor_le]. done.
      * cbn. unfold raise_floor. by case_match.
    + etrans; [|apply slots_kept_map].
      * apply slots_kept_core; unfold raise_floor; by case_match.
      * intros x. unfold cancel_attempt. by case_match.
Qed.

Lemma keeps_interrupt L id now : keeps L (mark_request_interrupted L id now).2.
Proof.
  unfold mark_request_interrupted. destruct (L_requests L !! id) as [r|] eqn:Hr; [|by apply keeps_same].
  destruct (request_is_terminal (rr_lifecycle r)) eqn:Ht; [by apply keeps_same|].
  cbn [snd release_request_flows]. keeps_step.
  eapply keeps_put; [|exact Hr|].
  - simpl. by destruct (close_flows_frame (mm_range (L_flows_by_request L) (rr_id r)) L) as (_&E&_).
  - evolve_live. eapply slots_kept_fields; [eapply (slots_kept_map _ (interrupt_attempt now))|done..].
    intros x. unfold interrupt_attempt. by case_match.
Qed.

Lemma keeps_publish L p now : keeps L (publish_completion L p now).2.
Proof.
  unfold publish_completion, publish_failure, publish_success, refuse_publication,
    suppress_publication. keeps_steps; evolve_live.
  all: rewritten.
Qed.

Lemma keeps_open_flow L id a t b now : keeps L (open_flow L id a t b now).2.
Proof. unfold open_flow. keeps_steps. apply evolves_core; [done|by apply floor_same]. Qed.

Lemma keeps_release_flow L f : keeps L (release_flow L f).2.
Proof.
  unfold release_flow. destruct (L_flows L !! f) as [fr|]; [|by apply keeps_same].
  cbn [L_requests setter L_set_accounting L_set_flows L_set_flows_by_request].
  keeps_steps. apply evolves_core; [done|by apply floor_same].
Qed.

Lemma keeps_record_bytes L f b inb : keeps L (record_flow_bytes L f b inb).2.
Proof.
  unfold record_flow_bytes. destruct (L_flows L !! f) as [fr|]; [|by apply keeps_same].
  destruct (checked_add _ _) as [u|]; [|by apply keeps_same].
  cbn [L_requests setter L_set_accounting L_set_flows L_set_flows_by_request].
  keeps_steps; (apply evolves_core; [done|by apply floor_same]).
Qed.

Lemma keeps_record_decision L id a t o reason b :
  keeps L (record_decision L id a t o reason b).2.
Proof.
  unfold record_decision. keeps_steps.
  transitivity (count_request_decision o r).
  - apply evolves_core; [by destruct o|apply floor_same; by destruct o].
  - case_match; [|done]. case_match.
    eapply evolves_set_attempt; [eassumption|..]; destruct o; done.
Qed.

Lemma keeps_restore L r : keeps L (restore_record L r).2.
Proof.
  unfold restore_record. destruct (is_nil _); [by apply keeps_same|].
  destruct (_ <? _)%nat; [by apply keeps_same|].
  destruct (L_requests L !! rr_id r) eqn:Hr; [by apply keeps_same|].
  cbn [rr_lifecycle setter rr_set_attempts].
  destruct (request_is_terminal _); cbn [snd]; repeat keeps_step;
    apply keeps_put_new; try exact Hr; repeat case_match; done.
Qed.

Lemma keeps_op L op : keeps L (apply_op L op).
Proof.
  destruct op; simpl; auto using keeps_register_attempt, keeps_revalidate, keeps_advance_stage,
    keeps_fail, keeps_supersede, keeps_set_model, keeps_cancel, keeps_interrupt, keeps_publish,
    keeps_open_flow, keeps_release_flow, keeps_record_bytes, keeps_record_decision, keeps_restore.
  - unfold register_request. keeps_steps.
  - intros id r _. by left.
Qed.

(** ** Histories in which a request stays retained *)

(** The record of [id] is present after every prefix of the history. *)
Definition retained_through (L : RequestLedger) (ops : list LedgerOp) (id : RequestId) : Prop :=
  ∀ k, is_Some (L_requests (run L (take k ops)) !! id).

Lemma run_evolves L ops id r :
  L_requests L !! id = Some r → retained_through L ops id →
  ∃ r', L_requests (run L ops) !! id = Some r' ∧ evolves r r'.
Proof.
  revert L r. induction ops as [|op ops IH]; intros L r Hr Hp; [by exists r|].
  destruct (keeps_op L op id r Hr) as [Hn|(r1 & Hr1 & He)].
  - destruct (Hp 1%nat) as [r1 Hr1]. simpl in Hr1. congruence.
  - destruct (IH (apply_op L op) r1 Hr1) as (r' & Hr' & He').
    + intros k. exact (Hp (S k)).
    + exists r'. split; [done|]. by etrans.
Qed.

(** C7: A terminal request whose current attempt is terminal keeps its lifecycle,
    terminal time and terminal reason, and never lowers its authority floor, along every
    sequence of ledger operations during which its record is retained. *)
Theorem settled_is_final L ops id r lc :
  L_requests L !! id = Some r → settled lc r → retained_through L ops id →
  ∃ r', L_requests (run L ops) !! id = Some r' ∧ settled lc r'
    ∧ rr_terminal_at_nanos r' = rr_terminal_at_nanos r
    ∧ rr_terminal_reason r' = rr_terminal_reason r
    ∧ rr_authority_floor r ≤ rr_authority_floor r'.
Proof.
  intros Hr Hs Hp. destruct (run_evolves L ops id r Hr Hp) as (r' & Hr' & [[? _] _ _ Hset]).
  destruct (Hset lc Hs) as (? & ? & ?). eauto 10.
Qed.

(** Attempt slots are append-only: while a request is retained, no operation
    reassigns the identity or generation stored in a used slot or lowers the number of
    attempts. *)
Theorem attempt_slots_stable L ops id r i a :
  L_requests L !! id = Some r → retained_through L ops id →
  (i < rr_attempt_count r)%nat → rr_attempts r !! i = Some a →
  ∃ r' a', L_requests (run L ops) !! id = Some r' ∧ rr_attempts r' !! i = Some a'
    ∧ at_id a' = at_id a ∧ at_generation a' = at_generation a
    ∧ (rr_attempt_count r ≤ rr_attempt_count r')%nat.
Proof.
  intros Hr Hp Hi Ha. destruct (run_evolves L ops id r Hr Hp) as (r' & Hr' & [_ [Hc Hs] _ _]).
  destruct (Hs i a Hi Ha) as (a' & ? & ? & ?). eauto 10.
Qed.

(** ** Cancellation *)

Lemma cancel_attempt_terminal reason now a :
  attempt_is_terminal (at_lifecycle (cancel_attempt reason now a)) = true.
Proof. unfold cancel_attempt. destruct (attempt_is_terminal (at_lifecycle a)) eqn:E; done. Qed.

Lemma map_attempts_find f r r' x i e' :
  rr_attempts r' = rr_attempts (map_attempts f r) → rr_attempt_count r' = rr_attempt_count r →
  find_attempt r' x = Some (i, e') → ∃ e, e' = f e.
Proof.
  intros E1 E2 (Hi & He & _)%find_attempt_Some. rewrite E1 in He. rewrite E2 in Hi. simpl in *.
  destruct (rr_attempts r !! i) as [e|] eqn:E.
  - exists e. rewrite lookup_app_l in He.
    + rewrite list_lookup_fmap, lookup_take_lt, E in He by lia. by simplify_eq/=.
    + apply lookup_lt_Some in E. rewrite length_fmap, length_take. lia.
  - exfalso. apply lookup_ge_None in E. apply lookup_lt_Some in He.
    rewrite length_app, length_fmap, length_take, length_drop in He. lia.
Qed.

(** What a first cancellation leaves: the record is evicted or settled under the
    floor, and every flow of the request is gone. *)
Lemma cancel_settles L id reason seq now r :
  L_requests L !! id = Some r → request_is_terminal (rr_lifecycle r) = false → 0 < seq →
  let L' := (cancel_request L id reason seq now).2 in
  ∀ r', L_requests L' !! id = Some r' → settled RequestLifecycle.Cancelled r' ∧ seq ≤ rr_authority_floor r'.
Proof.
  intros Hr Ht Hs0. unfold cancel_request. rewrite Hr.
  rewrite bool_decide_false by (intros E; by rewrite E in Ht). rewrite Ht. cbn [snd].
  intros r' Hr'.
  match type of Hr' with L_requests (evict_if_needed ?X) !! _ = _ =>
    destruct (evict_lookup X id) as [E|E] end; rewrite E in Hr'; [done|].
  cbn [bump L_requests setter L_set_accounting] in Hr'. rewrite terminate_lookup, decide_True in Hr' by done.
  injection Hr' as <-. split.
  - split_and!; [unfold raise_floor; by case_match|done|]. intros i e Hf.
    eapply (map_attempts_find (cancel_attempt reason now)) in Hf as [e0 ->];
      [|simpl; reflexivity..].
    apply cancel_attempt_terminal.
  - simpl. unfold raise_floor, is_unset. case_match; [done|]. simpl.
    apply andb_false_iff in H as [?|?]; bool_to_prop; rewrite ?Z.gtb_ltb in *; bool_to_prop; simpl in *; lia.
Qed.

(** ** Publication *)

(** The call commits a completion or a failure of the request. *)
Definition commits (L : RequestLedger) (p : CompletionPublication) (now : Z) : Prop :=
  ∃ o, (publish_completion L p now).1 = Success o ∧ po_disposition o = Disposition.Committed.

(** A commit needs a live request, an attempt of the stated generation that is
    not over, and leaves a terminal record. *)
Lemma commits_spec L p now :
  commits L p now →
  ∃ r i e, L_requests L !! cp_request p = Some r ∧
    find_attempt r (cp_attempt p) = Some (i, e) ∧
    request_is_terminal (rr_lifecycle r) = false ∧
    (is_unset (cp_attempt_generation p) = true ∨ cp_attempt_generation p = at_generation e) ∧
    at_lifecycle e ≠ AttemptLifecycle.Superseded ∧ at_lifecycle e ≠ AttemptLifecycle.Failed ∧
    at_lifecycle e ≠ AttemptLifecycle.Cancelled ∧
    publish_completion L p now =
      (if cp_success p then publish_success else publish_failure) L p r i e now ∧
    (if cp_success p then at_success_published e else at_failure_published e) = false.
Proof.
  intros (o & Ho & Hd). unfold publish_completion in *.
  destruct (_ || _); [done|].
  destruct (L_requests L !! cp_request p) as [r|]; [|done].
  destruct (find_attempt r (cp_attempt p)) as [[i e]|] eqn:Hf;
    [|unfold refuse_publication in Ho; by simplify_eq/=].
  unfold refuse_publication, suppress_publication in *.
  destruct (negb _ && _) eqn:Hg; [by simplify_eq/=|].
  repeat (case_bool_decide; [by simplify_eq/=|]).
  destruct (request_is_terminal _) eqn:Ht; [by simplify_eq/=|].
  repeat (case_bool_decide; [by simplify_eq/=|]).
  exists r, i, e. split_and!; try done.
  - apply andb_false_iff in Hg as [?|?]; bool_to_prop; auto.
  - by destruct (cp_success p).
  - destruct (cp_success p); simpl in Ho; unfold publish_success, publish_failure, suppress_publication in Ho;
      case_match; by simplify_eq/=.
Qed.

Lemma commits_terminal L p now r' :
  commits L p now → L_requests (publish_completion L p now).2 !! cp_request p = Some r' →
  request_is_terminal (rr_lifecycle r') = true.
Proof.
  intros (r & i & e & Hr & _ & _ & _ & _ & _ & _ & -> & Hp)%commits_spec Hr'.
  destruct (cp_success p); unfold publish_success, publish_failure in Hr'; rewrite Hp in Hr';
    cbn [snd] in Hr';
    match type of Hr' with L_requests (evict_if_needed ?X) !! ?id = _ =>
      destruct (evict_lookup X id) as [E|E] end; rewrite E in Hr'; try done;
    cbn [bump L_requests setter L_set_accounting] in Hr';
    rewrite terminate_lookup, decide_True in Hr' by done; by injection Hr' as <-.
Qed.

(** C8: A completion is committed at most once per request: after a committed
    publication, and any later operations that retain the request, no publication for
    the same request commits again, whatever its attempt, generation or outcome. *)
Theorem commit_at_most_once L p now ops p' now' :
  commits L p now → cp_request p' = cp_request p →
  retained_through (publish_completion L p now).2 ops (cp_request p) →
  ¬ commits (run (publish_completion L p now).2 ops) p' now'.
Proof.
  intros Hc Hid Hp Hc'. destruct (Hp 0%nat) as [r Hr].
  change (L_requests (publish_completion L p now).2 !! cp_request p = Some r) in Hr.
  destruct (run_evolves _ ops _ r Hr Hp) as (r' & Hr' & []).
  apply commits_terminal in Hr as Ht; [|done].
  apply commits_spec in Hc' as (r2 & _ & _ & Hr2 & _ & Ht2 & _).
  rewrite Hid, Hr' in Hr2. injection Hr2 as <-. by rewrite ev_terminal0 in Ht2.
Qed.

(** Cancelling a live request in the ledger is final: after any later operations
    that retain it, it is still cancelled, its authority floor is at least the sequence
    of the cancellation, and opening a flow, advancing a stage, registering an attempt
    and committing a completion for it all fail. *)
Theorem cancel_is_final L id reason seq now r ops :
  L_requests L !! id = Some r → request_is_terminal (rr_lifecycle r) = false → 0 < seq →
  let L1 := (cancel_request L id reason seq now).2 in
  retained_through L1 ops id →
  let L2 := run L1 ops in
  is_cancelled L2 id = true ∧
  (∃ r', L_requests L2 !! id = Some r' ∧ seq ≤ rr_authority_floor r') ∧
  (∀ a t b now', ok (open_flow L2 id a t b now').1 = false) ∧
  (∀ a target now', ok (advance_stage L2 id a target now').1 = false) ∧
  (∀ a mh mg rg now', ok (register_attempt L2 id a mh mg rg now').1 = false) ∧
  (∀ p now', cp_request p = id → ¬ commits L2 p now').
Proof.
  intros Hr Ht Hs L1 Hp L2. destruct (Hp 0%nat) as [r1 Hr1].
  destruct (cancel_settles L id reason seq now r Hr Ht Hs r1 Hr1) as [Hset Hfl].
  destruct (run_evolves L1 ops id r1 Hr1 Hp) as (r' & Hr' & He). fold L2 in Hr'.
  destruct (ev_settled _ _ He _ Hset) as ((Hlc & _ & _) & _ & _).
  destruct (ev_floor _ _ He) as [? _].
  split_and!.
  - unfold is_cancelled. by rewrite Hr', Hlc.
  - exists r'. split; [done|lia].
  - intros. unfold open_flow. rewrite Hr', Hlc. by case_match.
  - intros. unfold advance_stage. rewrite Hr', Hlc. by repeat case_match.
  - intros. unfold register_attempt. rewrite Hr', Hlc. by case_match.
  - intros p now' Hid Hc. apply commits_spec in Hc as (r2 & _ & _ & Hr2 & _ & Ht2 & _).
    rewrite Hid, Hr' in Hr2. simplify_eq. by rewrite Hlc in Ht2.
Qed.
