(* ===== verification/LedgerBounds.v ===== *)
(** * Memory bounds and failure atomicity of the ledger

    A refused call leaves the ledger unchanged, and the number of records after
    any history is bounded by the configured limits. *)

From S2P Require Import Prelude Ids Traffic Decision Ledger LedgerInv LedgerRun LedgerEvolve.

(** ** A refused call leaves the ledger as it was *)

Definition op_ok (L : RequestLedger) (op : LedgerOp) : bool :=
  match op with
  | OpRegisterRequest id now => ok (register_request L id now).1
  | OpRegisterAttempt id a mh mg rg now => ok (register_attempt L id a mh mg rg now).1
  | OpRevalidate id a now => ok (revalidate_request L id a now).1
  | OpAdvanceStage id a target now => ok (advance_stage L id a target now).1
  | OpFail id a reason now =>
      match (fail_attempt L id a reason now).1 with Some r => ok r | None => true end
  | OpSupersede id a b now => ok (supersede_attempt L id a b now).1
  | OpSetModel id a mh mg => ok (set_attempt_model L id a mh mg).1
  | OpCancel id reason seq now => ok (cancel_request L id reason seq now).1
  | OpInterrupt id now => ok (mark_request_interrupted L id now).1
  | OpPublish p now => ok (publish_completion L p now).1
  | OpOpenFlow id a t b now => ok (open_flow L id a t b now).1
  | OpReleaseFlow f => ok (release_flow L f).1
  | OpRecordBytes f b inb => ok (record_flow_bytes L f b inb).1
  | OpRecordDecision id a t o reason b => ok (record_decision L id a t o reason b).1
  | OpRestore r => ok (restore_record L r).1
  | OpClear => true
  end.

(** Follows the conditions of an operation that is known to have failed. *)
Ltac refused_guards :=
  repeat lazymatch goal with
  | |- ok (fst (match ?x with _ => _ end)) = _ → _ => destruct x eqn:?
  | |- match fst (match ?x with _ => _ end) with _ => _ end = _ → _ => destruct x eqn:?
  end; cbn [fst snd refuse ok]; try done.

(** The byte counter of a flow is the one thing a failing call may have moved. *)
Lemma record_bytes_refused L f b inb :
  ok (record_flow_bytes L f b inb).1 = false →
  (record_flow_bytes L f b inb).2 = L ∨
  ∃ fr n, L_flows L !! f = Some fr ∧ checked_add (lf_observed_bytes fr) b = Some n ∧
    (record_flow_bytes L f b inb).2 =
      L <| L_flows := <[f := fr <| lf_observed_bytes := n |>]> (L_flows L) |>.
Proof.
  unfold record_flow_bytes. refused_guards; eauto 10.
Qed.

(** C34: A ledger call that reports a failure leaves the ledger exactly as it was, for
    every operation except record_flow_bytes. *)
Theorem refused_call_atomic L op :
  op_ok L op = false → (∀ f b inb, op ≠ OpRecordBytes f b inb) → apply_op L op = L.
Proof.
  intros Hok Hne. destruct op; cbn [op_ok apply_op] in *; revert Hok.
  - unfold register_request. refused_guards.
  - unfold register_attempt. refused_guards.
  - unfold revalidate_request. refused_guards.
  - unfold advance_stage. refused_guards.
  - unfold fail_attempt. refused_guards. intros Hf. repeat case_match; simplify_eq/=; done.
  - unfold supersede_attempt. refused_guards.
  - unfold set_attempt_model. refused_guards.
  - unfold cancel_request. refused_guards.
  - unfold mark_request_interrupted, release_request_flows. refused_guards.
  - unfold publish_completion, publish_failure, publish_success, refuse_publication,
      suppress_publication. refused_guards.
  - unfold open_flow. refused_guards.
  - unfold release_flow. refused_guards.
  - by destruct (Hne f bytes inbound).
  - unfold record_decision. refused_guards.
  - unfold restore_record. refused_guards.
  - done.
Qed.

(** ** Retention *)

Lemma evict_loop_order order L :
  0 ≤ ll_max_retained_terminal_requests (L_limits L) →
  Z.of_nat (length (L_terminal_order (evict_loop order L)))
    ≤ ll_max_retained_terminal_requests (L_limits L).
Proof.
  revert L. induction order as [|v rest IH]; intros L H; cbn [evict_loop]; [done|].
  case_match eqn:E.
  - repeat case_match;
      match goal with |- context [evict_loop rest ?X] => by apply (IH X) end.
  - rewrite Z.gtb_ltb in E. bool_to_prop. done.
Qed.

Lemma evict_loop_size order L :
  (size (L_requests (evict_loop order L)) ≤ size (L_requests L))%nat.
Proof.
  revert L. induction order as [|v rest IH]; intros L; cbn [evict_loop]; [done|].
  repeat case_match; try apply IH; try done.
  etrans; [apply IH|]. simpl. apply map_subseteq_size, delete_subseteq.
Qed.

(** The terminal order is within its limit. *)
Definition order_ok (L : RequestLedger) : Prop :=
  Z.of_nat (length (L_terminal_order L)) ≤ ll_max_retained_terminal_requests (L_limits L).

Lemma order_ok_evict L :
  0 ≤ ll_max_retained_terminal_requests (L_limits L) → order_ok (evict_if_needed L).
Proof.
  intros H. unfold order_ok. destruct (quiet_evict L) as [-> _]. by apply evict_loop_order.
Qed.

(** The record map did not grow. *)
Definition slim (L L' : RequestLedger) : Prop :=
  (size (L_requests L') ≤ size (L_requests L))%nat.

Lemma slim_bump L X f `{!Setter f} : slim L X → slim L (bump f X).
Proof. done. Qed.

Lemma slim_evict L X : slim L X → slim L (evict_if_needed X).
Proof. intros H. unfold slim. etrans; [apply evict_loop_size|exact H]. Qed.

Lemma slim_put L X id r r' :
  L_requests X = L_requests L → L_requests L !! id = Some r → slim L (put_record id r' X).
Proof. intros E Hr. unfold slim. simpl. rewrite E, map_size_insert_Some by eauto. done. Qed.

Lemma slim_terminate L id r r' : L_requests L !! id = Some r → slim L (terminate id r' L).
Proof.
  intros Hr. unfold slim, terminate, release_request_flows. simpl.
  destruct (close_flows_frame (mm_range (L_flows_by_request L) (rr_id r')) L) as (_&E&_).
  rewrite E, map_size_insert_Some by eauto. done.
Qed.

Ltac slim_step :=
  lazymatch goal with
  | |- slim _ (evict_if_needed _) => apply slim_evict
  | |- slim _ (bump _ _) => apply slim_bump
  | |- slim ?L (put_record _ _ _) =>
      match goal with H : L_requests L !! _ = Some _ |- _ =>
        eapply slim_put; [reflexivity | exact H] end
  | |- slim ?L (terminate _ _ _) =>
      match goal with H : L_requests L !! _ = Some _ |- _ =>
        eapply slim_terminate; exact H end
  | |- slim _ _ => unfold slim; reflexivity
  end.
Ltac slim_solve := result_guards; repeat slim_step.

Definition grows (op : LedgerOp) : bool :=
  match op with OpRegisterRequest _ _ | OpRestore _ => true | _ => false end.

Lemma apply_op_slim L op : grows op = false → slim L (apply_op L op).
Proof.
  intros Hg. destruct op; try done; cbn [apply_op].
  - unfold register_attempt. slim_solve.
  - unfold revalidate_request. slim_solve.
  - unfold advance_stage. slim_solve.
  - unfold fail_attempt. slim_solve.
  - unfold supersede_attempt. slim_solve.
  - unfold set_attempt_model. slim_solve.
  - unfold cancel_request. slim_solve.
  - unfold mark_request_interrupted.
    destruct (L_requests L !! id) as [r|] eqn:Hr; [|slim_step]. case_match; [slim_step|].
    cbn [release_request_flows snd]. slim_step. eapply slim_put; [|exact Hr]. simpl.
    by destruct (close_flows_frame (mm_range (L_flows_by_request L) (rr_id r)) L) as (_&E&_).
  - unfold publish_completion, publish_failure, publish_success, refuse_publication,
      suppress_publication. slim_solve.
  - unfold open_flow. slim_solve.
  - unfold release_flow. destruct (L_flows L !! f); [|slim_step].
    cbn [L_requests setter L_set_accounting L_set_flows L_set_flows_by_request]. slim_solve.
  - unfold record_flow_bytes. destruct (L_flows L !! f); [|slim_step].
    destruct (checked_add _ _); [|slim_step].
    cbn [L_requests setter L_set_accounting L_set_flows L_set_flows_by_request]. slim_solve.
  - unfold record_decision. slim_solve.
  - unfold slim. simpl. rewrite map_size_empty. lia.
Qed.

(** ** The terminal order along a history *)

Lemma order_ok_same L X :
  order_ok L → L_terminal_order X = L_terminal_order L → L_limits X = L_limits L → order_ok X.
Proof. unfold order_ok. by intros ? -> ->. Qed.

Ltac order_solve :=
  result_guards;
  lazymatch goal with
  | |- order_ok (evict_if_needed ?X) =>
      apply order_ok_evict;
      match goal with H : 0 ≤ ll_max_retained_terminal_requests (L_limits ?L) |- _ =>
        let Q := fresh in
        assert (quiet L X) as Q by (repeat quiet_step; done); destruct Q as [-> _]; exact H end
  | H : order_ok ?L |- order_ok _ => exact (order_ok_same L _ H eq_refl eq_refl)
  end.

Lemma apply_op_order L op :
  0 ≤ ll_max_retained_terminal_requests (L_limits L) → order_ok L → order_ok (apply_op L op).
Proof.
  intros Hret Hok. destruct op; cbn [apply_op].
  - unfold register_request. order_solve.
  - unfold register_attempt. order_solve.
  - unfold revalidate_request. order_solve.
  - unfold advance_stage. order_solve.
  - unfold fail_attempt. order_solve.
  - unfold supersede_attempt. order_solve.
  - unfold set_attempt_model. order_solve.
  - unfold cancel_request. order_solve.
  - unfold mark_request_interrupted.
    destruct (L_requests L !! id) as [r|] eqn:Hr; [|done]. case_match; [done|].
    cbn [release_request_flows snd]. eapply order_ok_same; [exact Hok|..]; simpl;
    by destruct (close_flows_frame (mm_range (L_flows_by_request L) (rr_id r)) L) as (E1&_&E2&_).
  - unfold publish_completion, publish_failure, publish_success, refuse_publication,
      suppress_publication. order_solve.
  - unfold open_flow. order_solve.
  - unfold release_flow. order_solve.
  - unfold record_flow_bytes. order_solve.
  - unfold record_decision. order_solve.
  - unfold restore_record. destruct (is_nil _); [done|]. case_match; [done|].
    case_match; [done|]. cbn [rr_lifecycle setter rr_set_attempts].
    destruct (request_is_terminal _); cbn [snd]; apply order_ok_evict;
      simpl; repeat case_match; done.
  - unfold order_ok. simpl. lia.
Qed.

(** ** The size of the record map along a history *)

(** Records admitted by [register_request] at most. *)
Definition capacity (l : LedgerLimits) : Z :=
  ll_max_live_requests l + ll_max_retained_terminal_requests l.

Lemma register_request_size L id now :
  limits_ok (L_limits L) → order_ok L → size_of (L_requests L) < two64 →
  size_of (L_requests (register_request L id now).2)
    ≤ Z.max (size_of (L_requests L)) (capacity (L_limits L)).
Proof.
  intros [] Ho Hn. unfold register_request, size_of in *. result_guards; try lia.
  simpl. rewrite map_size_insert_None by done. unfold order_ok, capacity in *. bool_to_prop.
  match goal with H : sub64 _ _ < _ |- _ => revert H end. unfold sub64, wrap64, two32, two64 in *.
  set (n := Z.of_nat (size (L_requests L))) in *.
  set (t := Z.of_nat (length (L_terminal_order L))) in *.
  destruct (Z.le_gt_cases t n) as [Hle|Hgt].
  - rewrite Z.mod_small by lia. lia.
  - rewrite <- (Z_mod_plus_full _ 1), Z.mod_small by lia. lia.
Qed.

Lemma restore_record_size L r :
  size_of (L_requests (restore_record L r).2) ≤ size_of (L_requests L) + 1.
Proof.
  unfold restore_record, size_of. destruct (is_nil _); [simpl; lia|]. case_match; [simpl; lia|].
  case_match; [simpl; lia|]. cbn [rr_lifecycle setter rr_set_attempts].
  destruct (request_is_terminal _); cbn [snd];
    (match goal with |- context [evict_if_needed ?X] =>
       enough (size (L_requests X) ≤ S (size (L_requests L)))%nat
         by (pose proof (evict_loop_size (L_terminal_order X) X) as Hx;
             change (evict_loop _ X) with (evict_loop (L_terminal_order X) X);
             unfold evict_if_needed; cbn [refresh_request_counts L_requests setter L_set_accounting] in *; lia) end).
  all: simpl; repeat case_match; simpl; rewrite map_size_insert_None by done; done.
Qed.

Definition is_restore (op : LedgerOp) : bool := match op with OpRestore _ => true | _ => false end.

Definition restores (ops : list LedgerOp) : Z := Z.of_nat (length (filter (fun op => is_restore op = true) ops)).

Lemma restores_cons op ops : restores (op :: ops) = restores ops + if is_restore op then 1 else 0.
Proof. unfold restores. rewrite filter_cons. case_decide as D; [rewrite D; simpl; lia|]. destruct (is_restore op); [done|lia]. Qed.

Lemma restores_nonneg ops : 0 ≤ restores ops ≤ Z.of_nat (length ops).
Proof. unfold restores. pose proof (length_filter (fun op => is_restore op = true) ops). lia. Qed.

Lemma apply_op_size L op k :
  limits_ok (L_limits L) → order_ok L → size_of (L_requests L) < two64 →
  size_of (L_requests L) ≤ capacity (L_limits L) + k → 0 ≤ k →
  size_of (L_requests (apply_op L op)) ≤ capacity (L_limits L) + k + if is_restore op then 1 else 0.
Proof.
  intros Hl Ho Hn Hk Hk0. destruct (grows op) eqn:Hg.
  - destruct op; try done; simpl.
    + pose proof (register_request_size L id now Hl Ho Hn). lia.
    + pose proof (restore_record_size L r). lia.
  - pose proof (apply_op_slim L op Hg) as H. unfold slim, size_of in *. destruct (is_restore op); lia.
Qed.

Lemma run_size L ops k :
  limits_ok (L_limits L) → order_ok L → 0 ≤ k →
  size_of (L_requests L) ≤ capacity (L_limits L) + k →
  capacity (L_limits L) + k + Z.of_nat (length ops) < two64 →
  order_ok (run L ops) ∧
  size_of (L_requests (run L ops)) ≤ capacity (L_limits L) + k + restores ops.
Proof.
  revert L k. induction ops as [|op ops IH]; intros L k Hl Ho Hk Hs Hb.
  { split; [done|]. unfold restores. simpl. lia. }
  simpl in Hb. rewrite restores_cons. cbn [run foldl].
  pose proof (apply_op_size L op k Hl Ho ltac:(lia) Hs Hk) as Hs'.
  pose proof (apply_op_limits L op) as El.
  destruct (IH (apply_op L op) (k + if is_restore op then 1 else 0)) as [H1 H2]; rewrite ?El.
  - done.
  - apply apply_op_order; [destruct Hl; lia|done].
  - destruct (is_restore op); lia.
  - lia.
  - destruct (is_restore op); lia.
  - rewrite El in H2. unfold run in *. split; [done|lia].
Qed.

(** C33: The ledger's memory is bounded by its limits after any history of fewer than
    2^63 operations: the terminal order never exceeds its limit, and the number of
    records is at most the live limit, or one when that is zero, plus the retained limit
    plus the records restored over the whole history. *)
Theorem memory_bounded limits ops :
  limits_typed limits → Z.of_nat (length ops) < 2 ^ 63 →
  let L := run (make_ledger limits) ops in
  Z.of_nat (length (L_terminal_order L)) ≤ ll_max_retained_terminal_requests limits ∧
  size_of (L_requests L) ≤
    Z.max 1 (ll_max_live_requests limits) + ll_max_retained_terminal_requests limits + restores ops.
Proof.
  intros Hl Hn L. pose proof (make_ledger_limits limits Hl) as Hok.
  assert (ll_max_retained_terminal_requests (L_limits (make_ledger limits))
          = ll_max_retained_terminal_requests limits
          ∧ ll_max_live_requests (L_limits (make_ledger limits))
          = Z.max 1 (ll_max_live_requests limits)) as [Er El].
  { destruct Hl as [Hlive _ _ _ _]. unfold is_u32 in Hlive. destruct limits as [live att ret req tot].
    simpl in Hlive. unfold make_ledger. cbn [L_limits].
    destruct (_ || _); cbn; repeat (case_bool_decide; cbn in * ); (split; [done|lia]). }
  destruct (run_size (make_ledger limits) ops 0) as [H1 H2].
  - done.
  - unfold order_ok. rewrite Er. destruct Hl as [_ _ [? _] _ _]. simpl. lia.
  - lia.
  - unfold capacity, size_of. rewrite Er, El. simpl. rewrite map_size_empty.
    destruct Hl as [[? _] _ [? _] _ _]. lia.
  - destruct Hok. unfold capacity, two32, two64 in *. lia.
  - unfold order_ok in H1. unfold capacity in H2. rewrite Er, El in H2.
    replace (L_limits (run (make_ledger limits) ops)) with (L_limits (make_ledger limits)) in H1.
    + rewrite Er in H1. split; [done|]. unfold L. lia.
    + clear. unfold run. generalize (make_ledger limits).
      induction ops as [|op ops IH]; intros L; [done|]. simpl. by rewrite <- IH, apply_op_limits.
Qed.
