(* ===== verification/LedgerFindings.v ===== *)
(** * Behaviours of the ledger outside its stated contract

    Concrete histories, evaluated by the kernel, in which the ledger departs from
    what its header comments state. *)

From S2P Require Import Prelude Ids Traffic Decision Ledger LedgerInv LedgerRun LedgerEvolve.
From S2P Require Import LedgerBounds.

Definition rid (n : Z) : RequestId := MkId 1 n.
Definition aid (n : Z) : AttemptId := MkId 2 n.

Definition lifecycle_of (L : RequestLedger) (id : RequestId) : option RequestLifecycle.t :=
  rr_lifecycle <$> L_requests L !! id.

(** Two attempts of one request; the first, no longer current, is published as
    completed and then the current one is failed. *)
Definition displaced_history : list LedgerOp :=
  [ OpRegisterRequest (rid 1) 10;
    OpRegisterAttempt (rid 1) (aid 1) 0 0 0 11;
    OpRegisterAttempt (rid 1) (aid 2) 0 0 0 12;
    OpPublish (MkPublication (rid 1) (aid 1) 0 true ReasonCode.Unknown 5 7) 13 ].

Definition displaced_state : RequestLedger := run (make_ledger default_ledger_limits) displaced_history.

(** The publication of a displaced attempt commits, and failing the attempt that
    is still current turns the completed request into a failed one, records it
    twice in the terminal order and makes the live count of [register_request]
    wrap, so that the next registration is refused. *)
Example completed_request_can_fail :
  lifecycle_of displaced_state (rid 1) = Some RequestLifecycle.Completed ∧
  let L := apply_op displaced_state (OpFail (rid 1) (aid 2) ReasonCode.AttemptFailed 14) in
  lifecycle_of L (rid 1) = Some RequestLifecycle.Failed ∧
  L_terminal_order L = [rid 1; rid 1] ∧
  (register_request L (rid 2) 15).1 = Failure StatusCode.CapacityExhausted.
Proof. vm_compute. repeat split. Qed.

(** With no retained terminal records the record that [fail_attempt] still reads
    is already destroyed. *)
Example fail_attempt_dangling :
  (fail_attempt
     (run (make_ledger (default_ledger_limits <| ll_max_retained_terminal_requests := 0 |>))
        [ OpRegisterRequest (rid 1) 10; OpRegisterAttempt (rid 1) (aid 1) 0 0 0 11 ])
     (rid 1) (aid 1) ReasonCode.AttemptFailed 12).1 = None.
Proof. vm_compute. reflexivity. Qed.

(** A request restored after a restart. *)
Definition restored_state : RequestLedger :=
  run (make_ledger default_ledger_limits)
    [ OpRestore (empty_request_record <| rr_id := rid 1 |>
        <| rr_lifecycle := RequestLifecycle.Active |> <| rr_attempt_count := 1%nat |>
        <| rr_current_attempt := aid 1 |>
        <| rr_attempts := (empty_attempt <| at_id := aid 1 |> <| at_generation := 1 |>
             <| at_stage := ServingStage.DecodeRunning |>
             <| at_lifecycle := AttemptLifecycle.Active |>)
             :: replicate 7 empty_attempt |>) ].

(** A restored request that requires revalidation completes without it. *)
Example restored_request_completes_unrevalidated :
  (rr_requires_revalidation <$> L_requests restored_state !! rid 1) = Some true ∧
  lifecycle_of (apply_op restored_state
    (OpPublish (MkPublication (rid 1) (aid 1) 0 true ReasonCode.Unknown 5 7) 13)) (rid 1)
    = Some RequestLifecycle.Completed.
Proof. vm_compute. repeat split. Qed.

(** Revalidating with the old attempt identity appends a second record of that
    identity, and lookups resolve to the old one, at its old stage. *)
Example revalidation_reuses_identity :
  let L := apply_op restored_state (OpRevalidate (rid 1) (aid 1) 20) in
  (r ← L_requests L !! rid 1; Some (at_id <$> take 2 (rr_attempts r))) = Some [aid 1; aid 1] ∧
  (r ← L_requests L !! rid 1; x ← find_attempt r (aid 1); Some (at_stage x.2))
    = Some ServingStage.DecodeRunning.
Proof. vm_compute. repeat split. Qed.

(** A refused byte report still moves the flow's own counter. *)
Example record_bytes_partial :
  let L := run (make_ledger default_ledger_limits)
    [ OpRegisterRequest (rid 1) 10; OpRegisterAttempt (rid 1) (aid 1) 0 0 0 11;
      OpOpenFlow (rid 1) (aid 1) TrafficClass.DecodeStream 0 12;
      OpOpenFlow (rid 1) (aid 1) TrafficClass.DecodeStream 0 12 ] in
  let flow n := MkId n (flow_mix (rid 1) (aid 1) TrafficClass.DecodeStream) in
  let L := apply_op L (OpRecordBytes (flow 1) (two64 - 1) true) in
  (record_flow_bytes L (flow 2) 1 true).1 = Failure StatusCode.BoundsExceeded ∧
  (lf_observed_bytes <$> L_flows (record_flow_bytes L (flow 2) 1 true).2 !! flow 2) = Some 1.
Proof. vm_compute. repeat split. Qed.
