(* ===== verification/Coordinator.v ===== *)
(** * The coordinator: state, boot, restoration and registries

    Models include/itf/coordinator.hpp and the parts of src/coordinator.cpp that
    do not evaluate requests or move flows: construction, the authority stamp,
    boot and restoration, the policy, topology, SLO, route, model and state
    registries, and the calls that go straight to the ledger.

    Every public method of the source runs under one mutex, so an operation is a
    function from the state it finds to its result and the state it leaves. The
    value a method reads from the clock is its argument [now], and the two words
    a boot without a configured seed draws from its random engine are its argument
    [draws]. *)

From Stdlib Require Import String.
From S2P Require Import Prelude Random Ids Traffic Decision Policy Ledger.

(** ** Configuration *)

Record CoordinatorLimits := MkCoordLimits {
  cl_ledger : LedgerLimits;
  cl_max_slo_contracts : Z;
  cl_max_route_decisions : Z;
  cl_max_model_records : Z;
  cl_max_state_records : Z;
  cl_max_transfer_records : Z;
  cl_max_defer_records : Z;
  cl_max_transfer_bytes : Z;
  cl_max_single_payload_bytes : Z;
}.

#[export] Instance cl_eta : Eta CoordinatorLimits := fun r =>
  MkCoordLimits (cl_ledger r) (cl_max_slo_contracts r) (cl_max_route_decisions r)
    (cl_max_model_records r) (cl_max_state_records r) (cl_max_transfer_records r)
    (cl_max_defer_records r) (cl_max_transfer_bytes r) (cl_max_single_payload_bytes r).
#[export] Instance cl_set_ledger : Setter cl_ledger. Proof. mk_setter. Defined.
#[export] Instance cl_set_max_defer_records : Setter cl_max_defer_records. Proof. mk_setter. Defined.

Definition default_coordinator_limits : CoordinatorLimits :=
  MkCoordLimits default_ledger_limits 4096 8192 256 4096 4096 8192
    (Z.shiftl 1 40) (Z.shiftl 1 32).

Record CoordinatorConfig := MkConfig {
  cf_policy : PolicyConfig;
  cf_limits : CoordinatorLimits;
  cf_default_evidence_max_age_nanos : Z;
  cf_max_retained_completion_records : Z;
  cf_boot_seed : Z;
}.

#[export] Instance cf_eta : Eta CoordinatorConfig := fun r =>
  MkConfig (cf_policy r) (cf_limits r) (cf_default_evidence_max_age_nanos r)
    (cf_max_retained_completion_records r) (cf_boot_seed r).
#[export] Instance cf_set_policy : Setter cf_policy. Proof. mk_setter. Defined.
#[export] Instance cf_set_limits : Setter cf_limits. Proof. mk_setter. Defined.
#[export] Instance cf_set_boot_seed : Setter cf_boot_seed. Proof. mk_setter. Defined.

Definition default_config : CoordinatorConfig :=
  MkConfig (canonical_defaults 1) default_coordinator_limits 5000000000 4096 0.

(** ** Transfers *)

Module TransferState.
Inductive t : Type :=
| Unknown | Registered | Authorized | InProgress | Completed | Refused | Abandoned
| Count.

Definition value (x : t) : Z :=
  match x with
  | Unknown => 0 | Registered => 1 | Authorized => 2 | InProgress => 3 | Completed => 4
  | Refused => 5 | Abandoned => 6 | Count => 7
  end.

Definition to_string (x : t) : String.string :=
  match x with
  | Unknown => "UNKNOWN" | Registered => "REGISTERED" | Authorized => "AUTHORIZED"
  | InProgress => "IN_PROGRESS" | Completed => "COMPLETED" | Refused => "REFUSED"
  | Abandoned => "ABANDONED" | Count => "COUNT"
  end%string.

Definition all : list t :=
  [Unknown; Registered; Authorized; InProgress; Completed; Refused; Abandoned; Count].
End TransferState.

#[global] Instance TransferState_enum : Enum TransferState.t.
Proof. refine {| enum_code := TransferState.value; enum_all := TransferState.all |}; solve_enum. Defined.

#[global] Instance TransferState_eq_dec : EqDecision TransferState.t := enum_eq_dec.

(** [is_transfer_class] and [max_integrity] of the anonymous namespace. *)
Definition is_transfer_class (value : TrafficClass) : bool :=
  (value ≟ TrafficClass.KvTransfer) || (value ≟ TrafficClass.StateTransfer)
  || (value ≟ TrafficClass.ModelTransfer) || (value ≟ TrafficClass.AdapterTransfer).

Definition max_integrity (a b : IntegrityClass.t) : IntegrityClass.t :=
  if IntegrityClass.value b <=? IntegrityClass.value a then a else b.

Record TransferRegistration := MkRegistration {
  tg_id : StateTransferId;
  tg_state_hash : Z;
  tg_model_hash : Z;
  tg_payload_bytes : Z;
  tg_declared_class : TrafficClass;
  tg_direction : FlowDirection.t;
  tg_required_integrity : IntegrityClass.t;
  tg_request : RequestId;
  tg_attempt : AttemptId;
  tg_deadline : Z;
}.

#[export] Instance tg_eta : Eta TransferRegistration := fun r =>
  MkRegistration (tg_id r) (tg_state_hash r) (tg_model_hash r) (tg_payload_bytes r)
    (tg_declared_class r) (tg_direction r) (tg_required_integrity r) (tg_request r)
    (tg_attempt r) (tg_deadline r).
#[export] Instance tg_set_id : Setter tg_id. Proof. mk_setter. Defined.
#[export] Instance tg_set_payload_bytes : Setter tg_payload_bytes. Proof. mk_setter. Defined.
#[export] Instance tg_set_declared_class : Setter tg_declared_class. Proof. mk_setter. Defined.
#[export] Instance tg_set_request : Setter tg_request. Proof. mk_setter. Defined.

Record TransferRecord := MkTransfer {
  tx_id : StateTransferId;
  tx_state_hash : Z;
  tx_model_hash : Z;
  tx_payload_bytes : Z;
  tx_verified_bytes : Z;
  tx_model_generation : Z;
  tx_state_generation : Z;
  tx_request : RequestId;
  tx_attempt : AttemptId;
  tx_declared_class : TrafficClass;
  tx_direction : FlowDirection.t;
  tx_required_integrity : IntegrityClass.t;
  tx_state : TransferState.t;
  tx_terminal_reason : ReasonCode;
  tx_deadline : Z;
  tx_registered_at : Z;
  tx_flow : FlowId;
}.

#[export] Instance tx_eta : Eta TransferRecord := fun r =>
  MkTransfer (tx_id r) (tx_state_hash r) (tx_model_hash r) (tx_payload_bytes r)
    (tx_verified_bytes r) (tx_model_generation r) (tx_state_generation r)
    (tx_request r) (tx_attempt r) (tx_declared_class r) (tx_direction r)
    (tx_required_integrity r) (tx_state r) (tx_terminal_reason r) (tx_deadline r)
    (tx_registered_at r) (tx_flow r).
#[export] Instance tx_set_verified_bytes : Setter tx_verified_bytes. Proof. mk_setter. Defined.
#[export] Instance tx_set_state : Setter tx_state. Proof. mk_setter. Defined.
#[export] Instance tx_set_terminal_reason : Setter tx_terminal_reason. Proof. mk_setter. Defined.
#[export] Instance tx_set_flow : Setter tx_flow. Proof. mk_setter. Defined.

(** The three states a transfer never leaves by itself. *)
Definition transfer_is_over (s : TransferState.t) : bool :=
  (s ≟ TransferState.Completed) || (s ≟ TransferState.Refused) || (s ≟ TransferState.Abandoned).

Record TransferAuthorization := MkAuthorization {
  ta_transfer : StateTransferId;
  ta_traffic_class : TrafficClass;
  ta_integrity : IntegrityClass.t;
  ta_pacing : PacingClass.t;
  ta_priority : PriorityClass.t;
  ta_authority : AuthorityStamp;
  ta_reason : ReasonCode;
  ta_authorized : bool;
  ta_flow : FlowId;
}.

#[export] Instance ta_eta : Eta TransferAuthorization := fun r =>
  MkAuthorization (ta_transfer r) (ta_traffic_class r) (ta_integrity r) (ta_pacing r) (ta_priority r)
    (ta_authority r) (ta_reason r) (ta_authorized r) (ta_flow r).
#[export] Instance ta_set_reason : Setter ta_reason. Proof. mk_setter. Defined.
#[export] Instance ta_set_authorized : Setter ta_authorized. Proof. mk_setter. Defined.
#[export] Instance ta_set_flow : Setter ta_flow. Proof. mk_setter. Defined.

(** ** Private records *)

Record DeferRecord := MkDefer {
  df_kind : SubjectKind.t;
  df_request : RequestId;
  df_attempt : AttemptId;
  df_transfer : StateTransferId;
  df_traffic : TrafficClass;
  df_count : Z;
  df_first_defer_nanos : Z;
  df_last_defer_nanos : Z;
  df_starvation_class : bool;
}.

#[export] Instance df_eta : Eta DeferRecord := fun r =>
  MkDefer (df_kind r) (df_request r) (df_attempt r) (df_transfer r) (df_traffic r) (df_count r)
    (df_first_defer_nanos r) (df_last_defer_nanos r) (df_starvation_class r).
#[export] Instance df_set_count : Setter df_count. Proof. mk_setter. Defined.
#[export] Instance df_set_last_defer_nanos : Setter df_last_defer_nanos. Proof. mk_setter. Defined.

Record FlowRecord := MkFlow {
  fl_id : FlowId;
  fl_request : RequestId;
  fl_attempt : AttemptId;
  fl_transfer : StateTransferId;
  fl_traffic : TrafficClass;
  fl_declared_bytes : Z;
  fl_observed_bytes : Z;
  fl_sequence : Z;
  fl_bulk : bool;
}.

#[export] Instance fl_eta : Eta FlowRecord := fun r =>
  MkFlow (fl_id r) (fl_request r) (fl_attempt r) (fl_transfer r) (fl_traffic r)
    (fl_declared_bytes r) (fl_observed_bytes r) (fl_sequence r) (fl_bulk r).
#[export] Instance fl_set_id : Setter fl_id. Proof. mk_setter. Defined.
#[export] Instance fl_set_request : Setter fl_request. Proof. mk_setter. Defined.
#[export] Instance fl_set_attempt : Setter fl_attempt. Proof. mk_setter. Defined.
#[export] Instance fl_set_transfer : Setter fl_transfer. Proof. mk_setter. Defined.
#[export] Instance fl_set_observed_bytes : Setter fl_observed_bytes. Proof. mk_setter. Defined.

(** ** The state *)

Record Coordinator := MkCoordinator {
  C_config : CoordinatorConfig;
  C_epoch : Z;
  C_incarnation : BootId;
  C_authority_sequence : Z;
  C_policy : PolicyConfig;
  C_topology : TopologyEvidence;
  C_topology_present : bool;
  C_models : gmap Z ModelState;
  C_states : gmap Z StateGenerationRecord;
  C_slo_contracts : gmap RequestId SloContract;
  C_route_decisions : gmap AttemptId RouteDecision;
  C_transfers : gmap StateTransferId TransferRecord;
  C_flows : gmap FlowId FlowRecord;
  C_flows_by_request : gmap RequestId (list FlowId);
  C_flows_by_transfer : gmap StateTransferId (list FlowId);
  C_transfers_by_request : gmap RequestId (list StateTransferId);
  C_defers : gmap Z DeferRecord;
  C_completions : gmap RequestId PublishOutcome;
  C_completion_order : list RequestId;
  C_ledger : RequestLedger;
  C_transfer_class_accounting : list ClassAccounting;
  C_boot_count : Z;
  C_bulk_in_flight_bytes : Z;
  C_streaming_deferrals : Z;
  C_transfers_started : Z;
  C_transfers_completed : Z;
  C_transfers_refused : Z;
  C_next_flow_sequence : Z;
}.

#[export] Instance C_eta : Eta Coordinator := fun r =>
  MkCoordinator (C_config r) (C_epoch r) (C_incarnation r) (C_authority_sequence r) (C_policy r)
    (C_topology r) (C_topology_present r) (C_models r) (C_states r)
    (C_slo_contracts r) (C_route_decisions r) (C_transfers r) (C_flows r)
    (C_flows_by_request r) (C_flows_by_transfer r) (C_transfers_by_request r)
    (C_defers r) (C_completions r) (C_completion_order r) (C_ledger r)
    (C_transfer_class_accounting r) (C_boot_count r) (C_bulk_in_flight_bytes r)
    (C_streaming_deferrals r) (C_transfers_started r) (C_transfers_completed r)
    (C_transfers_refused r) (C_next_flow_sequence r).
#[export] Instance C_set_config : Setter C_config. Proof. mk_setter. Defined.
#[export] Instance C_set_epoch : Setter C_epoch. Proof. mk_setter. Defined.
#[export] Instance C_set_incarnation : Setter C_incarnation. Proof. mk_setter. Defined.
#[export] Instance C_set_authority_sequence : Setter C_authority_sequence. Proof. mk_setter. Defined.
#[export] Instance C_set_policy : Setter C_policy. Proof. mk_setter. Defined.
#[export] Instance C_set_topology : Setter C_topology. Proof. mk_setter. Defined.
#[export] Instance C_set_topology_present : Setter C_topology_present. Proof. mk_setter. Defined.
#[export] Instance C_set_models : Setter C_models. Proof. mk_setter. Defined.
#[export] Instance C_set_states : Setter C_states. Proof. mk_setter. Defined.
#[export] Instance C_set_slo_contracts : Setter C_slo_contracts. Proof. mk_setter. Defined.
#[export] Instance C_set_route_decisions : Setter C_route_decisions. Proof. mk_setter. Defined.
#[export] Instance C_set_transfers : Setter C_transfers. Proof. mk_setter. Defined.
#[export] Instance C_set_flows : Setter C_flows. Proof. mk_setter. Defined.
#[export] Instance C_set_flows_by_request : Setter C_flows_by_request. Proof. mk_setter. Defined.
#[export] Instance C_set_flows_by_transfer : Setter C_flows_by_transfer. Proof. mk_setter. Defined.
#[export] Instance C_set_transfers_by_request : Setter C_transfers_by_request. Proof. mk_setter. Defined.
#[export] Instance C_set_defers : Setter C_defers. Proof. mk_setter. Defined.
#[export] Instance C_set_completions : Setter C_completions. Proof. mk_setter. Defined.
#[export] Instance C_set_completion_order : Setter C_completion_order. Proof. mk_setter. Defined.
#[export] Instance C_set_ledger : Setter C_ledger. Proof. mk_setter. Defined.
#[export] Instance C_set_transfer_class_accounting : Setter C_transfer_class_accounting. Proof. mk_setter. Defined.
#[export] Instance C_set_boot_count : Setter C_boot_count. Proof. mk_setter. Defined.
#[export] Instance C_set_bulk_in_flight_bytes : Setter C_bulk_in_flight_bytes. Proof. mk_setter. Defined.
#[export] Instance C_set_streaming_deferrals : Setter C_streaming_deferrals. Proof. mk_setter. Defined.
#[export] Instance C_set_transfers_started : Setter C_transfers_started. Proof. mk_setter. Defined.
#[export] Instance C_set_transfers_completed : Setter C_transfers_completed. Proof. mk_setter. Defined.
#[export] Instance C_set_transfers_refused : Setter C_transfers_refused. Proof. mk_setter. Defined.
#[export] Instance C_set_next_flow_sequence : Setter C_next_flow_sequence. Proof. mk_setter. Defined.

(** A policy without a generation is given the first one. *)
Definition ensure_generation (p : PolicyConfig) : PolicyConfig :=
  if is_unset (pc_generation p) then p <| pc_generation := 1 |> else p.

Definition make_coordinator (config : CoordinatorConfig) : Coordinator :=
  MkCoordinator config 0 nil_id 0 (ensure_generation (cf_policy config)) empty_topology false
    ∅ ∅ ∅ ∅ ∅ ∅ ∅ ∅ ∅ ∅ ∅ [] (make_ledger (cl_ledger (cf_limits config)))
    (replicate kTrafficClassCount empty_class_accounting) 0 0 0 0 0 0 0.

(** [x.is_unset() ? from(1) : x.next()], the step every generation takes. *)
Definition advance (g : Z) : Z := if is_unset g then 1 else next g.

Definition current_stamp (c : Coordinator) : AuthorityStamp :=
  MkStamp (C_epoch c) (C_incarnation c) (pc_generation (C_policy c)) (C_authority_sequence c).

Definition mint_stamp_locked (c : Coordinator) : AuthorityStamp * Coordinator :=
  let c := c <| C_authority_sequence := advance (C_authority_sequence c) |> in
  (current_stamp c, c).

(** ** Boot and restoration *)

(** [make_random_id] on two consecutive draws. *)
Definition make_random_id (draws : Z * Z) : BootId :=
  let '(h, l) := draws in if (h ≟ 0) && (l ≟ 0) then MkId h 1 else MkId h l.

(** The seed of a boot: the boot counter is mixed into the configured one. *)
Definition boot_engine_seed (boot_seed boot_count : Z) : Z :=
  add64 boot_seed (mul64 boot_count 0x9E3779B97F4A7C15).

(** With a boot seed the engine is seeded anew and the identity is its first two
    outputs; [draws] are the next two outputs of an engine that was seeded by the
    random device, which is what runs without one. *)
Definition boot_identity (boot_seed boot_count : Z) (draws : Z * Z) : BootId :=
  make_random_id (if boot_seed ≠? 0 then seeded_draws (boot_engine_seed boot_seed boot_count) else draws).

Arguments boot_identity : simpl never.
Arguments boot_engine_seed : simpl never.

Definition reseed_boot_identity_locked (c : Coordinator) (draws : Z * Z) : Coordinator :=
  c <| C_incarnation := boot_identity (cf_boot_seed (C_config c)) (C_boot_count c) draws |>.

(** Keeps the configuration, the identity, the sequence, the policy, the boot
    counter and the contents of the topology field. *)
Definition clear_state_locked (c : Coordinator) : Coordinator :=
  {| C_config := C_config c; C_epoch := C_epoch c; C_incarnation := C_incarnation c;
     C_authority_sequence := C_authority_sequence c; C_policy := C_policy c;
     C_topology := C_topology c; C_topology_present := false; C_models := ∅; C_states := ∅;
     C_slo_contracts := ∅; C_route_decisions := ∅; C_transfers := ∅; C_flows := ∅;
     C_flows_by_request := ∅; C_flows_by_transfer := ∅; C_transfers_by_request := ∅;
     C_defers := ∅; C_completions := ∅; C_completion_order := [];
     C_ledger := clear (C_ledger c);
     C_transfer_class_accounting := replicate kTrafficClassCount empty_class_accounting;
     C_boot_count := C_boot_count c; C_bulk_in_flight_bytes := 0; C_streaming_deferrals := 0;
     C_transfers_started := 0; C_transfers_completed := 0; C_transfers_refused := 0;
     C_next_flow_sequence := 0 |}.

Definition boot_fresh (c : Coordinator) (draws : Z * Z) : Result Z * Coordinator :=
  let c := clear_state_locked (c <| C_epoch := 1 |>) in
  let c := c <| C_boot_count := add64 (C_boot_count c) 1 |> in
  let c := reseed_boot_identity_locked c draws in
  let c := c <| C_authority_sequence := 1 |> in
  let c := c <| C_policy := ensure_generation (cf_policy (C_config c)) |> in
  (Success (C_epoch c), c).

Definition kSnapshotFormatVersion : Z := 1.

Record PersistedCoordinatorState := MkPersisted {
  ps_format_version : Z;
  ps_epoch : Z;
  ps_previous_incarnation : BootId;
  ps_boot_count : Z;
  ps_policy : PolicyConfig;
  ps_topology_present : bool;
  ps_topology : TopologyEvidence;
  ps_models : list ModelState;
  ps_states : list StateGenerationRecord;
  ps_terminal_requests : list RequestRecord;
  ps_interrupted_requests : list RequestRecord;
}.

#[export] Instance ps_eta : Eta PersistedCoordinatorState := fun r =>
  MkPersisted (ps_format_version r) (ps_epoch r) (ps_previous_incarnation r) (ps_boot_count r)
    (ps_policy r) (ps_topology_present r) (ps_topology r) (ps_models r) (ps_states r)
    (ps_terminal_requests r) (ps_interrupted_requests r).
#[export] Instance ps_set_epoch : Setter ps_epoch. Proof. mk_setter. Defined.
#[export] Instance ps_set_policy : Setter ps_policy. Proof. mk_setter. Defined.
#[export] Instance ps_set_terminal_requests : Setter ps_terminal_requests. Proof. mk_setter. Defined.
#[export] Instance ps_set_interrupted_requests : Setter ps_interrupted_requests. Proof. mk_setter. Defined.

(** The lambda [inspect]: scans records against the identities seen so far. *)
Fixpoint inspect_records (records : list RequestRecord) (seen : list RequestId)
    : Result (list RequestId) :=
  match records with
  | [] => Success seen
  | record :: rest =>
      if is_nil (rr_id record) then Failure StatusCode.MalformedInput
      else if (kMaxAttemptsPerRequest <? rr_attempt_count record)%nat
        then Failure StatusCode.MalformedInput
      else if bool_decide (rr_id record ∈ seen) then Failure StatusCode.AlreadyExists
      else inspect_records rest (seen ++ [rr_id record])
  end.

Definition validate_restored_state_locked (c : Coordinator) (state : PersistedCoordinatorState)
    : Status :=
  let limits := cf_limits (C_config c) in
  if ps_format_version state ≠? kSnapshotFormatVersion then Failure StatusCode.UnsupportedVersion
  else if validate (ps_policy state) ≠? PolicyVerdict.Valid then Failure StatusCode.PolicyInvalid
  else if is_unset (pc_generation (ps_policy state)) then Failure StatusCode.MalformedInput
  else if cl_max_model_records limits <? Z.of_nat (length (ps_models state))
    then Failure StatusCode.BoundsExceeded
  else if negb (forallb model_is_valid (ps_models state)) then Failure StatusCode.MalformedInput
  else if cl_max_state_records limits <? Z.of_nat (length (ps_states state))
    then Failure StatusCode.BoundsExceeded
  else if negb (forallb state_is_valid (ps_states state)) then Failure StatusCode.MalformedInput
  else if ps_topology_present state && negb (topology_is_authoritative (ps_topology state))
    then Failure StatusCode.MalformedInput
  else match inspect_records (ps_terminal_requests state) [] with
  | Failure e => Failure e
  | Success seen =>
      match inspect_records (ps_interrupted_requests state) seen with
      | Failure e => Failure e
      | Success _ => Success tt
      end
  end.

(** The two loops over request records stop at the first refusal. *)
Fixpoint restore_records (records : list RequestRecord) (L : RequestLedger)
    : Status * RequestLedger :=
  match records with
  | [] => (Success tt, L)
  | record :: rest =>
      match restore_record L record with
      | (Success _, L) => restore_records rest L
      | (Failure e, L) => (Failure e, L)
      end
  end.

Definition restore_model (models : gmap Z ModelState) (entry : ModelState) : gmap Z ModelState :=
  map_emplace (ms_model_hash entry) (entry <| ms_requires_revalidation := true |>) models.

Definition restore_generation (states : gmap Z StateGenerationRecord)
    (entry : StateGenerationRecord) : gmap Z StateGenerationRecord :=
  map_emplace (sg_state_hash entry) (entry <| sg_requires_revalidation := true |>) states.

Definition restore_state (c : Coordinator) (state : PersistedCoordinatorState)
    : Status * Coordinator :=
  match validate_restored_state_locked c state with
  | Failure e => refuse c e
  | Success _ =>
      let c := c <| C_policy := (ps_policy state)
                     <| pc_generation := advance (pc_generation (ps_policy state)) |> |> in
      let c := c <| C_models := foldl restore_model (C_models c) (ps_models state) |> in
      let c := c <| C_states := foldl restore_generation (C_states c) (ps_states state) |> in
      let c := if ps_topology_present state
        then c <| C_topology := ps_topology state |> <| C_topology_present := true |> else c in
      match restore_records (ps_terminal_requests state) (C_ledger c) with
      | (Failure e, L) => (Failure e, c <| C_ledger := L |>)
      | (Success _, L) =>
          let '(status, L) := restore_records (ps_interrupted_requests state) L in
          (status, c <| C_ledger := L |>)
      end
  end.

Definition boot_from (c : Coordinator) (restored : PersistedCoordinatorState) (draws : Z * Z)
    : Result Z * Coordinator :=
  let c := clear_state_locked c in
  match restore_state c restored with
  | (Failure e, c) => (Failure e, clear_state_locked c)
  | (Success _, c) =>
      let c := c <| C_boot_count := add64 (Z.max (ps_boot_count restored) (C_boot_count c)) 1 |>
                 <| C_epoch := advance (ps_epoch restored) |> in
      let c := reseed_boot_identity_locked c draws in
      let c := c <| C_authority_sequence := 1 |> in
      (Success (C_epoch c), c)
  end.

(** ** Policy and topology *)

Definition apply_policy (c : Coordinator) (policy : PolicyConfig) : Status * Coordinator :=
  if validate policy ≠? PolicyVerdict.Valid then refuse c StatusCode.PolicyInvalid
  else (Success tt,
        c <| C_policy := policy <| pc_generation := advance (pc_generation policy) |> |>).

Definition publish_topology (c : Coordinator) (evidence : TopologyEvidence) (now : Z)
    : Result Z * Coordinator :=
  if te_provenance evidence ≟ EvidenceProvenance.Unknown
    then refuse c StatusCode.InvalidArgument
  else if te_node_count evidence ≟ 0 then refuse c StatusCode.InvalidArgument
  else
    let evidence := evidence
      <| te_generation := if C_topology_present c then next (te_generation (C_topology c)) else 1 |>
      <| te_observed_boot := C_incarnation c |>
      <| te_observed_at_nanos := now |> in
    let evidence := if te_max_age_nanos evidence ≟ 0
      then evidence <| te_max_age_nanos := cf_default_evidence_max_age_nanos (C_config c) |>
      else evidence in
    if negb (topology_is_authoritative evidence) then refuse c StatusCode.InvalidArgument
    else (Success (te_generation evidence),
          c <| C_topology := evidence |> <| C_topology_present := true |>).

Definition topology_state_locked (c : Coordinator) (now : Z) : EvidenceState.t :=
  let t := C_topology c in
  if negb (C_topology_present c) then EvidenceState.Unknown
  else if te_observed_boot t ≠? C_incarnation c then EvidenceState.RevalidationRequired
  else if (te_max_age_nanos t >? 0) && (now >? te_observed_at_nanos t)
          && (to_u64 (now - te_observed_at_nanos t) >? te_max_age_nanos t)
    then EvidenceState.Stale
  else EvidenceState.Current.

Definition topology (c : Coordinator) : option TopologyEvidence :=
  if negb (C_topology_present c) then None else Some (C_topology c).

(** ** SLO contracts and route decisions *)

Definition register_slo_contract (c : Coordinator) (request : RequestId)
    (tail_latency_budget_nanos registration_deadline_nanos min_stream_share_per_mille : Z)
    : Result SloContract * Coordinator :=
  if is_nil request then refuse c StatusCode.InvalidArgument
  else if negb (contains (C_ledger c) request) then refuse c StatusCode.NotFound
  else if tail_latency_budget_nanos ≟ 0 then refuse c StatusCode.InvalidArgument
  else
    let existing := C_slo_contracts c !! request in
    if match existing with None => true | Some _ => false end
       && (cl_max_slo_contracts (cf_limits (C_config c)) <=? size_of (C_slo_contracts c))
    then refuse c StatusCode.CapacityExhausted
    else
      let contract := MkSlo
        (match existing with None => 1 | Some old => next (slo_generation old) end)
        request tail_latency_budget_nanos registration_deadline_nanos
        (if min_stream_share_per_mille >? 1000 then 1000 else min_stream_share_per_mille) in
      if negb (slo_is_valid contract) then refuse c StatusCode.InvalidArgument
      else (Success contract,
            c <| C_slo_contracts := <[request := contract]> (C_slo_contracts c) |>).

Definition issue_route_decision (c : Coordinator) (request : RequestId) (attempt : AttemptId)
    (target_node : Z) (lateral disaggregated_handoff : bool) : Result RouteDecision * Coordinator :=
  match snapshot_request (C_ledger c) request with
  | None => refuse c StatusCode.NotFound
  | Some record =>
      match find_attempt record attempt with
      | None => refuse c StatusCode.NotFound
      | Some _ =>
          let existing := C_route_decisions c !! attempt in
          if match existing with None => true | Some _ => false end
             && (cl_max_route_decisions (cf_limits (C_config c)) <=? size_of (C_route_decisions c))
          then refuse c StatusCode.CapacityExhausted
          else
            let decision := MkRoute
              (match existing with None => 1 | Some old => next (rd_generation old) end)
              request attempt target_node lateral disaggregated_handoff in
            if negb (route_is_valid decision) then refuse c StatusCode.InvalidArgument
            else (Success decision,
                  c <| C_route_decisions := <[attempt := decision]> (C_route_decisions c) |>)
      end
  end.

(** ** Model and state generations: compare and set *)

Definition set_model_generation (c : Coordinator) (model_hash : Z) (expected_current : option Z)
    : Result Z * Coordinator :=
  let store generation :=
    (Success generation,
     c <| C_models := <[model_hash := MkModel model_hash generation false]> (C_models c) |>) in
  if model_hash ≟ 0 then refuse c StatusCode.InvalidArgument
  else match C_models c !! model_hash with
  | None =>
      match expected_current with
      | Some _ => refuse c StatusCode.Conflict
      | None =>
          if cl_max_model_records (cf_limits (C_config c)) <=? size_of (C_models c)
          then refuse c StatusCode.CapacityExhausted else store 1
      end
  | Some existing =>
      if ms_requires_revalidation existing then refuse c StatusCode.RevalidationRequired
      else if match expected_current with
              | Some e => ms_generation existing ≠? e
              | None => false
              end then refuse c StatusCode.Conflict
      else store (next (ms_generation existing))
  end.

Definition revalidate_model_generation (c : Coordinator) (model_hash : Z)
    : Result Z * Coordinator :=
  match C_models c !! model_hash with
  | None => refuse c StatusCode.NotFound
  | Some existing =>
      (Success (ms_generation existing),
       c <| C_models := <[model_hash := existing <| ms_requires_revalidation := false |>]>
                          (C_models c) |>)
  end.

Definition advance_state_generation (c : Coordinator) (state_hash : Z)
    (expected_current : option Z) : Result Z * Coordinator :=
  let store generation :=
    (Success generation,
     c <| C_states := <[state_hash := MkStateGen state_hash generation false]> (C_states c) |>) in
  if state_hash ≟ 0 then refuse c StatusCode.InvalidArgument
  else match C_states c !! state_hash with
  | None =>
      match expected_current with
      | Some _ => refuse c StatusCode.Conflict
      | None =>
          if cl_max_state_records (cf_limits (C_config c)) <=? size_of (C_states c)
          then refuse c StatusCode.CapacityExhausted else store 1
      end
  | Some existing =>
      if sg_requires_revalidation existing then refuse c StatusCode.RevalidationRequired
      else if match expected_current with
              | Some e => sg_generation existing ≠? e
              | None => false
              end then refuse c StatusCode.Conflict
      else store (next (sg_generation existing))
  end.

Definition revalidate_state_generation (c : Coordinator) (state_hash : Z)
    : Result Z * Coordinator :=
  match C_states c !! state_hash with
  | None => refuse c StatusCode.NotFound
  | Some existing =>
      (Success (sg_generation existing),
       c <| C_states := <[state_hash := existing <| sg_requires_revalidation := false |>]>
                          (C_states c) |>)
  end.

Definition require_model_generation_locked (c : Coordinator) (model_hash : Z) : Result Z :=
  match C_models c !! model_hash with
  | None => Failure StatusCode.NotFound
  | Some m => if ms_requires_revalidation m then Failure StatusCode.RevalidationRequired
              else Success (ms_generation m)
  end.

Definition require_state_generation_locked (c : Coordinator) (state_hash : Z) : Result Z :=
  match C_states c !! state_hash with
  | None => Failure StatusCode.NotFound
  | Some s => if sg_requires_revalidation s then Failure StatusCode.RevalidationRequired
              else Success (sg_generation s)
  end.

(** ** Calls that go to the ledger *)

(** Runs a ledger operation on the coordinator's ledger. *)
Definition on_ledger {A} (c : Coordinator) (m : A * RequestLedger) : A * Coordinator :=
  (m.1, c <| C_ledger := m.2 |>).

Definition coord_register_request (c : Coordinator) (request : RequestId) (now : Z)
    : Result Z * Coordinator :=
  on_ledger c (register_request (C_ledger c) request now).

(** The optional model binding of a new attempt. *)
Definition resolve_model (c : Coordinator) (model_hash : Z) : Result Z :=
  if model_hash ≠? 0 then require_model_generation_locked c model_hash else Success 0.

Definition coord_register_attempt (c : Coordinator) (request : RequestId) (attempt : AttemptId)
    (model_hash now : Z) : Result Z * Coordinator :=
  match resolve_model c model_hash with
  | Failure e => refuse c e
  | Success model_generation =>
      on_ledger c (register_attempt (C_ledger c) request attempt model_hash model_generation 0 now)
  end.

Definition coord_revalidate_request (c : Coordinator) (request : RequestId) (attempt : AttemptId)
    (now : Z) : Result Z * Coordinator :=
  on_ledger c (revalidate_request (C_ledger c) request attempt now).

Definition coord_advance_stage (c : Coordinator) (request : RequestId) (attempt : AttemptId)
    (target : ServingStage) (now : Z) : Status * Coordinator :=
  on_ledger c (advance_stage (C_ledger c) request attempt target now).
