(* ===== verification/Restore.v ===== *)
(** * What a restart restores

    The ledger after the records of a snapshot have been restored, record by
    record, and the registries, policy and topology of a coordinator that restored
    a whole snapshot. *)

From S2P Require Import Prelude Ids Traffic Decision Policy Ledger Coordinator.

(** ** The scan of a snapshot's records *)

(** What the scan of restored records guarantees. *)
Lemma inspect_spec rs seen seen' :
  inspect_records rs seen = Success seen' →
  seen' = seen ++ (rr_id <$> rs) ∧ NoDup (rr_id <$> rs) ∧
  (∀ r, r ∈ rs → is_nil (rr_id r) = false ∧ (rr_attempt_count r ≤ kMaxAttemptsPerRequest)%nat
     ∧ rr_id r ∉ seen).
Proof.
  revert seen. induction rs as [|r rs IH]; intros seen; cbn [inspect_records].
  { intros [= ->]. split_and!; [by rewrite app_nil_r|constructor|]. intros r Hr. by apply not_elem_of_nil in Hr. }
  destruct (is_nil (rr_id r)) eqn:Hn; [done|].
  destruct (Nat.ltb_spec kMaxAttemptsPerRequest (rr_attempt_count r)); [done|].
  case_bool_decide as Hin; [done|]. intros (-> & Hnd & Hall)%IH. split_and!.
  - by rewrite fmap_cons, <- app_assoc.
  - rewrite fmap_cons. constructor; [|done]. intros (r' & Hr' & Hin')%list_elem_of_fmap.
    destruct (Hall r' Hin') as (_ & _ & Hni). apply Hni. rewrite <- Hr'. apply elem_of_app. right. by left.
  - intros r' [->|Hr']%elem_of_cons; [done|]. destruct (Hall r' Hr') as (? & ? & Hni). split_and!; try done.
    intros Hs. apply Hni, elem_of_app. by left.
Qed.

(** ** Eviction *)

(** How many entries a queue of [n] is over its limit. *)
Definition excess (limit : Z) (n : nat) : nat := Z.to_nat (Z.of_nat n - limit).

Lemma evict_loop_exact order L :
  (∀ id r, id ∈ order → L_requests L !! id = Some r → request_is_terminal (rr_lifecycle r) = true) →
  let n := excess (ll_max_retained_terminal_requests (L_limits L)) (length order) in
  L_terminal_order (evict_loop order L) = drop n order ∧
  L_limits (evict_loop order L) = L_limits L ∧
  ∀ id, L_requests (evict_loop order L) !! id =
    if decide (id ∈ take n order) then None else L_requests L !! id.
Proof.
  unfold excess. revert L. induction order as [|v rest IH]; intros L Ht; cbn [evict_loop length].
  { by rewrite drop_nil, take_nil. }
  rewrite Z.gtb_ltb. destruct (Z.ltb_spec (ll_max_retained_terminal_requests (L_limits L)) (Z.of_nat (S (length rest)))).
  2:{ replace (Z.to_nat _) with 0%nat by lia. done. }
  replace (Z.to_nat (Z.of_nat (S (length rest)) - ll_max_retained_terminal_requests (L_limits L)))
    with (S (excess (ll_max_retained_terminal_requests (L_limits L)) (length rest)))
    by (unfold excess; lia). cbn [drop take].
  destruct (L_requests L !! v) as [r|] eqn:Ev.
  - rewrite (Ht v r) by (done || left). cbn [negb].
    edestruct (IH (L <| L_requests := delete v (L_requests L) |> ▸ bump as_requests_evicted)) as (Ho&Hl&Hq).
    { intros id r' Hid. cbn. rewrite lookup_delete_Some. intros [_ ?]. eapply Ht; [by right|done]. }
    split_and!; [exact Ho|by rewrite Hl|]. intros id. rewrite Hq. cbn.
    destruct (decide (id = v)) as [->|Hne].
    + rewrite lookup_delete_eq, (decide_True (P := v ∈ v :: _)) by left. by case_decide.
    + rewrite lookup_delete_ne by done. by repeat case_decide; set_solver.
  - destruct (IH L) as (Ho&Hl&Hq); [intros id r' Hid; apply Ht; by right|].
    split_and!; [exact Ho|exact Hl|]. intros id. rewrite Hq.
    destruct (decide (id = v)) as [->|Hne]; [rewrite Ev; by repeat case_decide|].
    by repeat case_decide; set_solver.
Qed.

(** ** Restored records *)

(** A restored record: a terminal one is closed, any other is interrupted and waits
    for revalidation; neither has a flow. The attempt slots in use are kept. *)
Definition restored_form (r : RequestRecord) : RequestRecord :=
  let n := rr_attempt_count r in
  let r := r <| rr_attempts := take n (rr_attempts r)
                ++ replicate (kMaxAttemptsPerRequest - n) empty_attempt |>
             <| rr_active_flows := 0 |> in
  if request_is_terminal (rr_lifecycle r) then r <| rr_accounting_closed := true |>
  else r <| rr_lifecycle := RequestLifecycle.Interrupted |> <| rr_requires_revalidation := true |>
         <| rr_accounting_closed := false |>.

Definition terminal_record (r : RequestRecord) : bool := request_is_terminal (rr_lifecycle r).

(** The terminal records within the retention limit: the last ones. *)
Definition retained (limit : Z) (rs : list RequestRecord) : list RequestRecord :=
  let ended := filter terminal_record rs in drop (excess limit (length ended)) ended.

(** The records of a snapshot that a restart keeps. *)
Definition kept (limit : Z) (rs : list RequestRecord) : list RequestRecord :=
  filter (fun r => ¬ terminal_record r) rs ++ retained limit rs.

(** The ledger holds exactly the records kept of [rs], in their restored form. *)
Record holds (rs : list RequestRecord) (L : RequestLedger) : Prop := {
  ho_requests : ∀ id r', L_requests L !! id = Some r' ↔
    ∃ r, r ∈ kept (ll_max_retained_terminal_requests (L_limits L)) rs ∧ id = rr_id r ∧ r' = restored_form r;
  ho_order : L_terminal_order L = rr_id <$> retained (ll_max_retained_terminal_requests (L_limits L)) rs;
}.

Lemma restored_form_terminal r :
  request_is_terminal (rr_lifecycle (restored_form r)) = terminal_record r.
Proof. unfold restored_form, terminal_record. cbn. by destruct (request_is_terminal (rr_lifecycle r)) eqn:E; cbn. Qed.

Lemma retained_subset limit rs r : r ∈ retained limit rs → terminal_record r ∧ r ∈ rs.
Proof.
  intros H. apply (list_elem_of_filter terminal_record). eapply elem_of_sublist; [exact H|apply sublist_drop].
Qed.

Lemma kept_subset limit rs r : r ∈ kept limit rs → r ∈ rs.
Proof. unfold kept. rewrite elem_of_app, list_elem_of_filter. intros [[_ ?]|?%retained_subset]; naive_solver. Qed.

(** Retention keeps what it kept before, up to the limit. *)
Lemma retained_snoc limit rs r :
  retained limit (rs ++ [r]) =
    let queue := retained limit rs ++ (if terminal_record r then [r] else []) in
    drop (excess limit (length queue)) queue.
Proof.
  unfold retained, excess. cbv zeta. rewrite filter_app, filter_cons, filter_nil.
  set (ended := filter terminal_record rs). set (k := Z.to_nat (Z.of_nat (length ended) - limit)).
  assert (∀ tail : list RequestRecord, (length tail ≤ 1)%nat →
    drop (Z.to_nat (Z.of_nat (length (ended ++ tail)) - limit)) (ended ++ tail)
    = drop (Z.to_nat (Z.of_nat (length (drop k ended ++ tail)) - limit)) (drop k ended ++ tail)) as H.
  { intros tail Ht. rewrite !length_app, length_drop.
    destruct (decide (k ≤ length ended)%nat) as [Hk|Hk].
    - rewrite <- drop_app_le, drop_drop by done. f_equal. lia.
    - rewrite !drop_ge; rewrite ?length_app, ?length_drop; try done; lia. }
  destruct (decide (terminal_record r)) as [Hd|Hd].
  - apply Is_true_true in Hd. rewrite Hd. apply H. simpl. lia.
  - apply Is_true_false in Hd. rewrite Hd. apply H. simpl. lia.
Qed.

Lemma same_id rs r1 r2 :
  NoDup (rr_id <$> rs) → r1 ∈ rs → r2 ∈ rs → rr_id r1 = rr_id r2 → r1 = r2.
Proof.
  intros Hnd [i Hi]%list_elem_of_lookup [j Hj]%list_elem_of_lookup E.
  assert (i = j) as ->; [|congruence].
  eapply NoDup_lookup; [exact Hnd|rewrite list_lookup_fmap, Hi; done|rewrite list_lookup_fmap, Hj; simpl; by rewrite E].
Qed.

(** ** Restoring records *)

Lemma restore_record_shape L r :
  is_nil (rr_id r) = false → (rr_attempt_count r ≤ kMaxAttemptsPerRequest)%nat →
  L_requests L !! rr_id r = None →
  ∃ X, restore_record L r = (Success tt, evict_if_needed X) ∧
    L_requests X = <[rr_id r := restored_form r]> (L_requests L) ∧ L_limits X = L_limits L ∧
    L_terminal_order X = L_terminal_order L ++ (if terminal_record r then [rr_id r] else []).
Proof.
  intros Hn Hc Hr. unfold restore_record, restored_form, terminal_record. rewrite Hn, Hr.
  destruct (Nat.ltb_spec kMaxAttemptsPerRequest (rr_attempt_count r)); [lia|].
  cbn [rr_lifecycle setter rr_set_attempts rr_set_active_flows].
  destruct (request_is_terminal (rr_lifecycle r)) eqn:Ht; eexists; (split; [reflexivity|]).
  - repeat case_bool_decide; done.
  - cbn. by rewrite app_nil_r.
Qed.

Lemma queue_nodup limit rs r :
  NoDup (rr_id <$> rs ++ [r]) → NoDup (retained limit rs ++ (if terminal_record r then [r] else [])).
Proof.
  intros H%NoDup_fmap_1. apply NoDup_app in H as (H1&H2&_). apply NoDup_app. split_and!.
  - eapply sublist_NoDup; [|apply sublist_drop]. by apply NoDup_filter.
  - intros x [_ Hx]%retained_subset. apply H2 in Hx. destruct (terminal_record r); set_solver.
  - destruct (terminal_record r); [apply NoDup_singleton|constructor].
Qed.

(** What a ledger that holds [rs] holds with one more record, before it evicts. *)
Lemma pool_elem limit rs r r0 :
  r0 ∈ filter (fun r => ¬ terminal_record r) (rs ++ [r])
    ∨ r0 ∈ retained limit rs ++ (if terminal_record r then [r] else []) ↔
  r0 ∈ kept limit rs ∨ r0 = r.
Proof.
  unfold kept. rewrite filter_app, filter_cons, filter_nil, !elem_of_app.
  destruct (terminal_record r); cbn [Is_true]; case_decide; try tauto; rewrite list_elem_of_singleton;
    set_solver.
Qed.

(** What is left of a pool of records when the first [n] of its queue are evicted. *)
Lemma evicted_elem all queue n r0 :
  NoDup (rr_id <$> all) → NoDup queue → (∀ q, q ∈ queue → terminal_record q ∧ q ∈ all) →
  r0 ∈ filter (fun r => ¬ terminal_record r) all ∨ r0 ∈ drop n queue ↔
  (r0 ∈ filter (fun r => ¬ terminal_record r) all ∨ r0 ∈ queue) ∧ rr_id r0 ∉ take n (rr_id <$> queue).
Proof.
  intros Hnd HQ Hqueue. rewrite <- fmap_take, list_elem_of_filter.
  rewrite <- (take_drop n queue) in HQ, Hqueue. apply NoDup_app in HQ as (_&Hsep&_).
  setoid_rewrite elem_of_app in Hqueue. rewrite <- (take_drop n queue) at 2. rewrite elem_of_app. split.
  - intros H0. split; [tauto|]. intros (q&E&Hq)%list_elem_of_fmap. destruct (Hqueue q) as [Ht Hin]; [by left|].
    assert (r0 ∈ all) as H0' by (destruct H0 as [[_ ?]|?]; [done|by apply Hqueue; right]).
    apply (same_id _ _ _ Hnd) in E as ->; try done. destruct H0 as [[? _]|?]; [done|]. by apply (Hsep q).
  - intros [[?|[Hq|?]] Hn]; [tauto| |tauto]. destruct Hn. by apply list_elem_of_fmap_2.
Qed.

Lemma restore_record_holds rs L r :
  holds rs L → NoDup (rr_id <$> rs ++ [r]) →
  is_nil (rr_id r) = false → (rr_attempt_count r ≤ kMaxAttemptsPerRequest)%nat →
  ∃ L', restore_record L r = (Success tt, L') ∧ holds (rs ++ [r]) L' ∧ L_limits L' = L_limits L.
Proof.
  intros [Hq Ho] Hnd Hn Hc. set (limit := ll_max_retained_terminal_requests (L_limits L)) in *.
  assert (rr_id r ∉ rr_id <$> rs) as Hfresh.
  { rewrite fmap_app in Hnd. apply NoDup_app in Hnd as (_&Hd&_). intros Hin. apply (Hd _ Hin). by left. }
  destruct (restore_record_shape L r Hn Hc) as (X&->&EX&LX&OX).
  { destruct (L_requests L !! rr_id r) as [r'|] eqn:E; [|done]. apply Hq in E as (r0&Hk%kept_subset&E&_).
    destruct Hfresh. rewrite E. by apply list_elem_of_fmap_2. }
  set (queue := retained limit rs ++ (if terminal_record r then [r] else [])).
  assert (L_terminal_order X = rr_id <$> queue) as OQ.
  { rewrite OX, Ho. unfold queue. rewrite fmap_app. by destruct (terminal_record r). }
  assert (∀ q, q ∈ queue → terminal_record q ∧ q ∈ rs ++ [r]) as Hqueue.
  { intros q. unfold queue. rewrite !elem_of_app. intros [[? ?]%retained_subset|Hl]; [tauto|].
    destruct (terminal_record r) eqn:E; [|by apply not_elem_of_nil in Hl].
    apply list_elem_of_singleton in Hl as ->. rewrite E. split; [done|]. right. by left. }
  assert (NoDup queue) as HQ by (by apply queue_nodup).
  assert (∀ r0, r0 ∈ kept limit rs ∨ r0 = r → r0 ∈ rs ++ [r]) as Hpool.
  { intros r0. rewrite elem_of_app, list_elem_of_singleton. intros [?%kept_subset|?]; tauto. }
  assert (∀ id r', L_requests X !! id = Some r' ↔
    ∃ r0, (r0 ∈ kept limit rs ∨ r0 = r) ∧ id = rr_id r0 ∧ r' = restored_form r0) as HX.
  { intros id r'. rewrite EX, lookup_insert. case_decide as Ei; [subst id; split|rewrite Hq; naive_solver].
    - intros [= <-]. eauto.
    - intros (r0&H0&Ei&->). by rewrite (same_id _ r r0 Hnd) by (try apply Hpool; auto). }
  destruct (evict_loop_exact (L_terminal_order X) X) as (EO&EL&ER).
  { rewrite OQ. intros id r' (q&->&[Ht Hin]%Hqueue)%list_elem_of_fmap (r0&H0&E&->)%HX.
    rewrite restored_form_terminal, <- (same_id _ q r0 Hnd); auto. by apply Is_true_true. }
  rewrite LX in EO, EL, ER. fold limit in EO, ER. rewrite OQ in EO, EL, ER. rewrite length_fmap in EO, ER.
  eexists. split; [reflexivity|].
  unfold evict_if_needed, refresh_request_counts. rewrite OQ. split; [|exact EL].
  split; cbn [L_requests L_terminal_order L_limits setter L_set_accounting]; rewrite EL; fold limit.
  - intros id r'. rewrite ER. unfold kept at 1. rewrite retained_snoc. fold queue. cbv zeta.
    setoid_rewrite elem_of_app. setoid_rewrite (evicted_elem _ queue _ _ Hnd HQ Hqueue).
    unfold queue; setoid_rewrite pool_elem; fold queue. case_decide as Hd.
    + split; [done|]. by intros (r0&[_ Hn']&->&_).
    + rewrite HX. split; [intros (r0&H0&->&->)|intros (r0&[H0 _]&->&->)]; by exists r0.
  - rewrite EO, retained_snoc. by rewrite fmap_drop.
Qed.

Lemma holds_clear L : holds [] (clear L).
Proof.
  split.
  - intros id r'. cbn [clear L_requests]. rewrite lookup_empty. split; [done|].
    intros (r&Hr%kept_subset&_). by apply not_elem_of_nil in Hr.
  - unfold retained. cbn. by rewrite drop_nil.
Qed.

Lemma restore_records_holds rs done L :
  holds done L → NoDup (rr_id <$> done ++ rs) →
  (∀ r, r ∈ rs → is_nil (rr_id r) = false ∧ (rr_attempt_count r ≤ kMaxAttemptsPerRequest)%nat) →
  ∃ L', restore_records rs L = (Success tt, L') ∧ holds (done ++ rs) L' ∧ L_limits L' = L_limits L.
Proof.
  revert done L. induction rs as [|r rs IH]; intros done L Hh Hnd Hok.
  { exists L. by rewrite app_nil_r. }
  replace (done ++ r :: rs) with ((done ++ [r]) ++ rs) in * by (by rewrite <- app_assoc). destruct (Hok r) as [Hn Hc]; [by left|].
  destruct (restore_record_holds done L r) as (L1&E1&H1&L1e); try done.
  { rewrite fmap_app in Hnd. by apply NoDup_app in Hnd as (?&_). }
  destruct (IH (done ++ [r]) L1) as (L2&E2&H2&L2e); try done.
  { intros r' Hr'. apply Hok. by right. }
  exists L2. cbn [restore_records]. rewrite E1. split_and!; congruence.
Qed.

(** ** Restoring a snapshot *)

(** Entries put into a registry one after the other: the first with a key stays. *)
Lemma foldl_emplace {A B} (key : A → Z) (mark : A → B) l m0 h :
  foldl (fun m e => map_emplace (key e) (mark e) m) m0 l !! h =
    match m0 !! h with Some m => Some m | None => mark <$> find (fun e => key e =? h) l end.
Proof.
  revert m0. induction l as [|e l IH]; intros m0; cbn [foldl find]; [by destruct (m0 !! h)|].
  rewrite IH. unfold map_emplace. destruct (Z.eqb_spec (key e) h) as [<-|Hne].
  - by destruct (m0 !! key e) eqn:E; rewrite ?lookup_insert_eq, ?E.
  - destruct (m0 !! key e); [done|]. by rewrite lookup_insert_ne.
Qed.

(** A coordinator with everything a snapshot has, and nothing else in its ledger and
    registries. *)
Record restored (state : PersistedCoordinatorState) (c : Coordinator) : Prop := {
  rs_policy : C_policy c = (ps_policy state) <| pc_generation := advance (pc_generation (ps_policy state)) |>;
  rs_models : ∀ h, C_models c !! h =
    (fun m => m <| ms_requires_revalidation := true |>)
      <$> find (fun m => ms_model_hash m =? h) (ps_models state);
  rs_states : ∀ h, C_states c !! h =
    (fun m => m <| sg_requires_revalidation := true |>)
      <$> find (fun m => sg_state_hash m =? h) (ps_states state);
  rs_topology_present : C_topology_present c = ps_topology_present state;
  rs_topology : ps_topology_present state = true → C_topology c = ps_topology state;
  rs_requests : holds (ps_terminal_requests state ++ ps_interrupted_requests state) (C_ledger c);
}.

(** A validated document always applies to a cleared coordinator. *)
Lemma validated_state_restores c state :
  validate_restored_state_locked c state = Success tt →
  ∃ c1, restore_state (clear_state_locked c) state = (Success tt, c1) ∧ restored state c1
    ∧ L_limits (C_ledger c1) = L_limits (C_ledger c).
Proof.
  intros Hv. unfold restore_state.
  change (validate_restored_state_locked (clear_state_locked c) state) with (validate_restored_state_locked c state).
  rewrite Hv.
  assert (∃ s1, inspect_records (ps_terminal_requests state) [] = Success s1 ∧
    ∃ s2, inspect_records (ps_interrupted_requests state) s1 = Success s2) as (s1 & I1 & s2 & I2).
  { revert Hv. unfold validate_restored_state_locked. repeat case_match; try done. eauto. }
  apply inspect_spec in I1 as (-> & N1 & A1). apply inspect_spec in I2 as (_ & N2 & A2).
  set (c1 := if ps_topology_present state then _ else _).
  assert (C_ledger c1 = clear (C_ledger c)) as E by (unfold c1; by case_match).
  destruct (restore_records_holds (ps_terminal_requests state) [] (C_ledger c1)) as (L1 & E1 & H1 & L1e).
  { rewrite E. apply holds_clear. }
  { done. }
  { intros r Hr. destruct (A1 r Hr) as (?&?&_). done. }
  destruct (restore_records_holds (ps_interrupted_requests state) (ps_terminal_requests state) L1) as (L2 & E2 & H2 & L2e).
  { done. }
  { rewrite fmap_app. apply NoDup_app. split_and!; [done| |done].
    intros x Hx (r&->&Hr)%list_elem_of_fmap. by destruct (A2 r Hr) as (_&_&?). }
  { intros r Hr. destruct (A2 r Hr) as (?&?&_). done. }
  rewrite E1, E2. eexists. split; [reflexivity|].
  split; [|cbn; by rewrite L2e, L1e, E].
  split; try exact H2; unfold c1; case_match; try done; intros h.
  all: unfold restore_model, restore_generation; cbn; by rewrite foldl_emplace, lookup_empty.
Qed.

(** Restoration leaves the boot identity and the sequence to [boot_from]. *)
Lemma restore_state_quiet c state :
  let c1 := (restore_state c state).2 in
  C_flows c1 = C_flows c ∧ C_transfers c1 = C_transfers c ∧ C_defers c1 = C_defers c ∧
  C_route_decisions c1 = C_route_decisions c ∧ C_slo_contracts c1 = C_slo_contracts c ∧
  C_epoch c1 = C_epoch c ∧ C_incarnation c1 = C_incarnation c ∧
  C_authority_sequence c1 = C_authority_sequence c ∧
  C_config c1 = C_config c ∧ C_boot_count c1 = C_boot_count c.
Proof. unfold restore_state. repeat case_match; done. Qed.

(** ** The boot identity *)

(** The multiplier is odd: no two boot counts give the engine the same seed. *)
Lemma boot_seeds_differ boot_seed a b :
  is_u64 a → is_u64 b → boot_engine_seed boot_seed a = boot_engine_seed boot_seed b → a = b.
Proof.
  unfold is_u64, boot_engine_seed, add64, mul64, wrap64, two64. intros Ha Hb E.
  set (M := 18446744073709551616) in *. set (G := 0x9E3779B97F4A7C15) in *.
  assert (M ≠ 0) as HM by done. rewrite !Z.add_mod_idemp_r in E by done.
  pose proof (Z.div_mod (boot_seed + a * G) M HM) as E1. pose proof (Z.div_mod (boot_seed + b * G) M HM) as E2.
  set (t := (boot_seed + a * G) `div` M - (boot_seed + b * G) `div` M).
  assert ((a - b) * G = M * t) as Et by (unfold t; lia).
  assert (a - b = M * (t * 17428512612931826493 - (a - b) * 10771413168148108919)) as Ed by (unfold M, G in *; lia).
  unfold M in *; lia.
Qed.
