(* ===== verification/Evaluate.v ===== *)
(** * Evaluation of traffic requests

    Models [Coordinator::evaluate_locked] of src/coordinator.cpp with the
    deferral records it keeps. The body of the source is a sequence of checks,
    each of which may append to the explanation log and may end the evaluation
    with a rejection; each check is one definition here, and [admission] composes them
    in the order of the source. *)

From S2P Require Import Prelude Ids Traffic Decision Policy Ledger Coordinator.

(** ** Computations that log and may reject *)

(** A rejection carries its reason and the class it is accounted to. *)
Definition Eval (A : Type) : Type :=
  list ExplanationStep → list ExplanationStep * ((ReasonCode * TrafficClass) + A).

Definition eval_ret {A} (a : A) : Eval A := fun log => (log, inr a).

Definition eval_bind {A B} (m : Eval A) (k : A → Eval B) : Eval B := fun log =>
  match m log with
  | (log, inl r) => (log, inl r)
  | (log, inr a) => k a log
  end.

Definition explain (rule : ExplanationRule.t) (value secondary : Z) : Eval unit := fun log =>
  (log_add rule (to_i64 value) (to_i64 secondary) log, inr tt).

Definition reject {A} (reason : ReasonCode) (traffic : TrafficClass) : Eval A := fun log =>
  (log, inl (reason, traffic)).

Notation "'let!' x ':=' m 'in' k" := (eval_bind m (fun x => k))
  (at level 10, x name, m at level 100, k at level 200) : itf_scope.
Notation "m ;; k" := (eval_bind m (fun _ => k)) (at level 100, k at level 200, right associativity)
  : itf_scope.

(** A caller-supplied expectation that is present and differs. *)
Definition stale (expected : option Z) (actual : Z) : bool :=
  match expected with Some e => e ≠? actual | None => false end.

(** The recurring fence: a stale expectation is logged and rejected. *)
Definition fence (expected : option Z) (actual : Z) (rule : ExplanationRule.t)
    (reason : ReasonCode) (traffic : TrafficClass) : Eval unit :=
  match expected with
  | Some e => if e ≠? actual then explain rule e actual ;; reject reason traffic else eval_ret tt
  | None => eval_ret tt
  end.

(** ** Who the request is about *)

Definition check_binding (c : Coordinator) (request : TrafficRequest) : Eval TrafficSubject :=
  let cls := tr_declared_class request in
  match tr_subject request with
  | Some subject =>
      if negb (structurally_valid request) then
        explain ExplanationRule.RequestLookup 0 0 ;;
        reject ReasonCode.RejectedSubjectKindMismatch cls
      else
        fence (gb_coordinator_epoch (tr_binding request)) (C_epoch c)
          ExplanationRule.AuthorityBinding ReasonCode.RejectedStaleEpoch cls ;;
        fence (gb_policy (tr_binding request)) (pc_generation (C_policy c))
          ExplanationRule.AuthorityBinding ReasonCode.RejectedStalePolicyGeneration cls ;;
        eval_ret subject
  | None =>
      explain ExplanationRule.RequestLookup 0 0 ;;
      reject ReasonCode.RejectedSubjectKindMismatch cls
  end.

(** What the subject resolved to. *)
Inductive Resolved : Type :=
| RServing (record : RequestRecord) (attempt : AttemptRecord)
| RTransfer (transfer : TransferRecord).

Definition resolve_serving (c : Coordinator) (request : TrafficRequest) (subject : TrafficSubject)
    : Eval Resolved :=
  let cls := tr_declared_class request in
  match snapshot_request (C_ledger c) (sub_request subject) with
  | None => explain ExplanationRule.RequestLookup 0 0 ;;
            reject ReasonCode.RejectedUnknownRequest cls
  | Some record =>
      explain ExplanationRule.RequestLookup (rr_generation record)
        (RequestLifecycle.value (rr_lifecycle record)) ;;
      if rr_lifecycle record ≟ RequestLifecycle.Cancelled then
        explain ExplanationRule.TerminalState (RequestLifecycle.value (rr_lifecycle record)) 1 ;;
        reject ReasonCode.RejectedRequestCancelled cls
      else if rr_requires_revalidation record then
        explain ExplanationRule.RequestLookup 0 1 ;;
        reject ReasonCode.RejectedRevalidationRequired cls
      else if request_is_terminal (rr_lifecycle record) then
        explain ExplanationRule.TerminalState (RequestLifecycle.value (rr_lifecycle record)) 0 ;;
        reject ReasonCode.RejectedRequestTerminal cls
      else match find_attempt record (sub_attempt subject) with
      | None => reject ReasonCode.RejectedUnknownAttempt cls
      | Some (_, attempt) =>
          if negb (is_current_attempt record (sub_attempt subject))
            then reject ReasonCode.RejectedStaleAttempt cls
          else
            fence (gb_request_generation (tr_binding request)) (rr_generation record)
              ExplanationRule.RequestLookup ReasonCode.RejectedStaleRequestGeneration cls ;;
            explain ExplanationRule.StageResolution (ServingStage.value (at_stage attempt))
              (ServingStage.value (tr_declared_stage request)) ;;
            eval_ret (RServing record attempt)
      end
  end.

(** A generation that cannot be read: it waits for revalidation or is unknown. *)
Definition unreadable_reason (e : StatusCode.t) (otherwise : ReasonCode) : ReasonCode :=
  if e ≟ StatusCode.RevalidationRequired then ReasonCode.RejectedRevalidationRequired
  else otherwise.

(** The model registry entry of a transfer, unless it names no model. *)
Definition check_transfer_model (c : Coordinator) (transfer : TransferRecord) : Eval unit :=
  if tx_model_hash transfer ≠? 0 then
    match require_model_generation_locked c (tx_model_hash transfer) with
    | Failure e =>
        reject (unreadable_reason e ReasonCode.RejectedStaleModelGeneration)
          (tx_declared_class transfer)
    | Success model =>
        if tx_model_generation transfer ≠? model then
          explain ExplanationRule.ModelGeneration (tx_model_generation transfer) model ;;
          reject ReasonCode.RejectedStaleModelGeneration (tx_declared_class transfer)
        else eval_ret tt
    end
  else eval_ret tt.

Definition check_transfer_state (c : Coordinator) (transfer : TransferRecord) : Eval unit :=
  match require_state_generation_locked c (tx_state_hash transfer) with
  | Failure e =>
      reject (unreadable_reason e ReasonCode.RejectedStaleStateGeneration)
        (tx_declared_class transfer)
  | Success state =>
      if tx_state_generation transfer ≠? state then
        explain ExplanationRule.StateGeneration (tx_state_generation transfer) state ;;
        reject ReasonCode.RejectedStaleStateGeneration (tx_declared_class transfer)
      else eval_ret tt
  end.

Definition resolve_transfer (c : Coordinator) (request : TrafficRequest) (subject : TrafficSubject)
    : Eval Resolved :=
  match C_transfers c !! sub_transfer subject with
  | None => reject ReasonCode.RejectedUnknownTransfer (tr_declared_class request)
  | Some transfer =>
      let cls := tx_declared_class transfer in
      explain ExplanationRule.TransferBinding (TransferState.value (tx_state transfer)) 0 ;;
      if transfer_is_over (tx_state transfer)
        then reject ReasonCode.RejectedTransferAlreadyTerminal cls
      else if negb (is_nil (tx_request transfer)) && is_cancelled (C_ledger c) (tx_request transfer)
        then reject ReasonCode.RejectedRequestCancelled cls
      else
        check_transfer_model c transfer ;;
        check_transfer_state c transfer ;;
        if stale (gb_model_generation (tr_binding request)) (tx_model_generation transfer)
          then reject ReasonCode.RejectedStaleModelGeneration cls
        else if stale (gb_state_generation (tr_binding request)) (tx_state_generation transfer)
          then reject ReasonCode.RejectedStaleStateGeneration cls
        else eval_ret (RTransfer transfer)
  end.

Definition resolve (c : Coordinator) (request : TrafficRequest) (subject : TrafficSubject)
    : Eval Resolved :=
  match sub_kind subject with
  | SubjectKind.Serving => resolve_serving c request subject
  | SubjectKind.Transfer => resolve_transfer c request subject
  | SubjectKind.Unknown | SubjectKind.Count =>
      reject ReasonCode.RejectedSubjectKindMismatch (tr_declared_class request)
  end.

(** ** Which class it gets

    The pair [degraded], [degrade_reason] of the source is an option: the source
    sets the two together. *)

(** The class a legal stage gives, with the degradation it implies. *)
Definition classify_active (c : Coordinator) (request : TrafficRequest) (stage : ServingStage)
    : Eval (TrafficClass * option ReasonCode) :=
  let declared := tr_declared_class request in
  let degrade :=
    if (tr_declared_stage request ≠? ServingStage.Unknown) && (tr_declared_stage request ≠? stage)
    then Some ReasonCode.DegradedStageClaimOverridden else None in
  let derived := canonical_class_for_stage stage in
  let! x :=
    (if declared ≟ TrafficClass.Unknown then
       explain ExplanationRule.ClassClassification (TrafficClass.value derived) 0 ;;
       eval_ret (derived, degrade)
     else if negb (is_class_legal_for_stage declared stage) then
       explain ExplanationRule.ClassClassification (TrafficClass.value declared)
         (TrafficClass.value derived) ;;
       eval_ret (derived, Some ReasonCode.DegradedClassRederived)
     else eval_ret (declared, degrade)) in
  if x.1 ≟ TrafficClass.Unknown then
    if negb (pc_allow_unknown_traffic_class (C_policy c))
      then reject ReasonCode.RejectedUnknownClass declared
    else eval_ret (x.1, Some ReasonCode.AdmittedConservative)
  else eval_ret x.

Definition classify_serving (c : Coordinator) (request : TrafficRequest) (stage : ServingStage)
    : Eval (TrafficClass * option ReasonCode) :=
  let declared := tr_declared_class request in
  if negb (is_serving_active stage) then
    if stage ≠? ServingStage.Unknown then
      explain ExplanationRule.TerminalState (ServingStage.value stage) 0 ;;
      reject ReasonCode.RejectedRequestTerminal declared
    else if negb (pc_allow_unknown_stage (C_policy c)) then
      explain ExplanationRule.StageResolution 0 0 ;;
      reject ReasonCode.RejectedUnknownStage declared
    else
      explain ExplanationRule.StageResolution 0 2 ;;
      eval_ret (TrafficClass.Unknown, Some ReasonCode.AdmittedConservative)
  else classify_active c request stage.

Definition classify_transfer (c : Coordinator) (request : TrafficRequest)
    (transfer : TransferRecord) : Eval (TrafficClass * option ReasonCode) :=
  let effective := if tr_declared_class request ≟ TrafficClass.Unknown
                   then tx_declared_class transfer else tr_declared_class request in
  if negb (is_transfer_class effective) then
    if negb (pc_allow_unknown_traffic_class (C_policy c))
      then reject ReasonCode.RejectedClassNotLegalForStage effective
    else eval_ret (effective, Some ReasonCode.AdmittedConservative)
  else if effective ≠? tx_declared_class transfer then
    explain ExplanationRule.ClassClassification (TrafficClass.value effective)
      (TrafficClass.value (tx_declared_class transfer)) ;;
    eval_ret (tx_declared_class transfer, Some ReasonCode.DegradedClassRederived)
  else eval_ret (effective, None).

Definition classify (c : Coordinator) (request : TrafficRequest) (resolved : Resolved)
    : Eval (TrafficClass * option ReasonCode) :=
  match resolved with
  | RServing _ attempt => classify_serving c request (at_stage attempt)
  | RTransfer transfer => classify_transfer c request transfer
  end.

(** ** Policy, topology, SLO, route, model and deadline *)

Definition check_rule (c : Coordinator) (effective : TrafficClass) : Eval ClassPolicyRule :=
  let rule := policy_rule (C_policy c) effective in
  if negb (pr_enabled rule) then
    explain ExplanationRule.PolicyRule (TrafficClass.value effective) 0 ;;
    reject ReasonCode.RejectedClassDisabled effective
  else
    explain ExplanationRule.PolicyRule (PriorityClass.value (pr_priority rule))
      (pr_reserved_weight rule) ;;
    eval_ret rule.

(** Stale evidence within the policy's grace period. *)
Definition topology_grace (c : Coordinator) (now : Z) : bool :=
  let t := C_topology c in
  (pc_stale_evidence_grace_nanos (C_policy c) >? 0) && C_topology_present c
  && (now >? te_observed_at_nanos t)
  && (to_u64 (now - te_observed_at_nanos t) <=? pc_stale_evidence_grace_nanos (C_policy c)).

Definition check_topology (c : Coordinator) (request : TrafficRequest) (rule : ClassPolicyRule)
    (effective : TrafficClass) (now : Z) (degrade : option ReasonCode)
    : Eval (option ReasonCode) :=
  let evidence := topology_state_locked c now in
  if pr_requires_current_topology rule then
    if evidence ≟ EvidenceState.Unknown then
      explain ExplanationRule.TopologyEvidence 0 0 ;;
      reject ReasonCode.RejectedEvidenceUnknown effective
    else
      let! degrade :=
        (if evidence ≠? EvidenceState.Current then
           if negb (topology_grace c now) then
             explain ExplanationRule.TopologyEvidence (EvidenceState.value evidence) 0 ;;
             reject (if evidence ≟ EvidenceState.RevalidationRequired
                     then ReasonCode.RejectedRevalidationRequired
                     else ReasonCode.RejectedEvidenceStale) effective
           else
             explain ExplanationRule.TopologyEvidence (EvidenceState.value evidence) 1 ;;
             eval_ret (Some ReasonCode.DegradedStaleTopology)
         else eval_ret degrade) in
      fence (gb_topology (tr_binding request)) (te_generation (C_topology c))
        ExplanationRule.TopologyEvidence ReasonCode.RejectedStaleTopologyGeneration effective ;;
      eval_ret degrade
  else eval_ret degrade.

(** A transfer inherits the contract of the request that owns it. *)
Definition find_slo (c : Coordinator) (subject : TrafficSubject) (resolved : Resolved)
    : option SloContract :=
  match resolved with
  | RServing _ _ => C_slo_contracts c !! sub_request subject
  | RTransfer transfer =>
      if negb (is_nil (tx_request transfer)) then C_slo_contracts c !! tx_request transfer else None
  end.

Definition check_slo (request : TrafficRequest) (rule : ClassPolicyRule)
    (effective : TrafficClass) (slo : option SloContract) : Eval unit :=
  if pr_requires_slo_contract rule then
    match slo with
    | None =>
        explain ExplanationRule.SloContract 0 0 ;;
        reject ReasonCode.RejectedStaleSloContract effective
    | Some contract =>
        fence (gb_slo_contract (tr_binding request)) (slo_generation contract)
          ExplanationRule.SloContract ReasonCode.RejectedStaleSloContract effective
    end
  else eval_ret tt.

Definition route_attempt (subject : TrafficSubject) (resolved : Resolved) : AttemptId :=
  match resolved with
  | RServing _ _ => sub_attempt subject
  | RTransfer transfer => tx_attempt transfer
  end.

Definition check_route (c : Coordinator) (request : TrafficRequest) (rule : ClassPolicyRule)
    (effective : TrafficClass) (attempt : AttemptId) : Eval unit :=
  if pr_requires_current_route rule && negb (is_nil attempt) then
    match C_route_decisions c !! attempt with
    | None =>
        explain ExplanationRule.RouteDecision 0 0 ;;
        reject ReasonCode.RejectedStaleRouteDecision effective
    | Some route =>
        fence (gb_route_decision (tr_binding request)) (rd_generation route)
          ExplanationRule.RouteDecision ReasonCode.RejectedStaleRouteDecision effective
    end
  else eval_ret tt.

Definition check_model (c : Coordinator) (request : TrafficRequest) (rule : ClassPolicyRule)
    (effective : TrafficClass) (resolved : Resolved) : Eval unit :=
  match resolved with
  | RServing _ attempt =>
      if pr_requires_model_generation rule then
        if at_model_hash attempt ≟ 0 then
          explain ExplanationRule.ModelGeneration 0 0 ;;
          reject ReasonCode.RejectedStaleModelGeneration effective
        else match require_model_generation_locked c (at_model_hash attempt) with
        | Failure e =>
            reject (unreadable_reason e ReasonCode.RejectedStaleModelGeneration) effective
        | Success model =>
            if at_model_generation attempt ≠? model then
              explain ExplanationRule.ModelGeneration (at_model_generation attempt) model ;;
              reject ReasonCode.RejectedStaleModelGeneration effective
            else if stale (gb_model_generation (tr_binding request)) (at_model_generation attempt)
              then reject ReasonCode.RejectedStaleModelGeneration effective
            else eval_ret tt
        end
      else eval_ret tt
  | RTransfer _ => eval_ret tt
  end.

(** The time the request record was registered; a transfer has none. *)
Definition registered_at (resolved : Resolved) : Z :=
  match resolved with RServing record _ => rr_registered_at_nanos record | RTransfer _ => 0 end.

(** The deadline: the caller's, a relative one capped at an hour, or the one the
    SLO contract gives. The sum with the tail budget is a signed addition whose
    overflow the language leaves undefined; the model takes the exact sum. *)
Definition effective_deadline (request : TrafficRequest) (resolved : Resolved)
    (slo : option SloContract) (now : Z) : Z :=
  let deadline := tr_deadline request in
  let deadline :=
    if negb (Instant_is_set deadline) && (tr_deadline_after_nanos request >? 0) then
      Instant_from_now now
        (if tr_deadline_after_nanos request >? 3600000000000 then 3600000000000
         else tr_deadline_after_nanos request)
    else deadline in
  match slo with
  | Some contract =>
      if negb (Instant_is_set deadline) && (slo_tail_latency_budget_nanos contract >? 0)
         && (registered_at resolved >? 0)
      then Instant_at (registered_at resolved + to_i64 (slo_tail_latency_budget_nanos contract))
      else deadline
  | None => deadline
  end.

Definition check_deadline (rule : ClassPolicyRule) (effective : TrafficClass)
    (deadline now : Z) (degrade : option ReasonCode) : Eval (option ReasonCode) :=
  if Instant_is_set deadline && Instant_expired_at deadline now then
    explain ExplanationRule.Deadline deadline now ;;
    reject ReasonCode.RejectedDeadlineExpired effective
  else if pr_requires_deadline rule && negb (Instant_is_set deadline) then
    explain ExplanationRule.Deadline 0 1 ;;
    eval_ret (Some ReasonCode.DegradedMissingSloContract)
  else eval_ret degrade.

(** ** The checks in the order of the source *)

Record Admission := MkAdmission {
  ad_subject : TrafficSubject;
  ad_resolved : Resolved;
  ad_effective : TrafficClass;
  ad_rule : ClassPolicyRule;
  ad_degrade : option ReasonCode;
}.

Definition admission (c : Coordinator) (request : TrafficRequest) (now : Z) : Eval Admission :=
  explain ExplanationRule.AuthorityBinding (C_epoch c) (pc_generation (C_policy c)) ;;
  let! subject := check_binding c request in
  let! resolved := resolve c request subject in
  let! x := classify c request resolved in
  let! rule := check_rule c x.1 in
  let! degrade := check_topology c request rule x.1 now x.2 in
  let slo := find_slo c subject resolved in
  check_slo request rule x.1 slo ;;
  check_route c request rule x.1 (route_attempt subject resolved) ;;
  check_model c request rule x.1 resolved ;;
  let deadline := effective_deadline request resolved slo now in
  let! degrade := check_deadline rule x.1 deadline now degrade in
  eval_ret (MkAdmission subject resolved x.1 rule degrade).

(** ** Deferral records *)

Definition defer_key (subject : TrafficSubject) (traffic : TrafficClass) : Z :=
  let key := mix64 (add64 (mul64 (TrafficClass.value traffic) 0x9E3779B97F4A7C15)
                          0x165667B19E3779F9) in
  if sub_kind subject ≟ SubjectKind.Serving then
    let key := Z.lxor key (mix64 (Z.lxor (high (sub_request subject)) 0xD6E8FEB86659FD93)) in
    let key := Z.lxor key (mix64 (add64 (low (sub_request subject)) 0x9E3779B97F4A7C15)) in
    let key := Z.lxor key (mix64 (add64 (high (sub_attempt subject)) 0xBF58476D1CE4E5B9)) in
    Z.lxor key (mix64 (Z.lxor (low (sub_attempt subject)) 0x94D049BB133111EB))
  else
    let key := Z.lxor key (mix64 (add64 (high (sub_transfer subject)) 0x2545F4914F6CDD1D)) in
    Z.lxor key (mix64 (Z.lxor (low (sub_transfer subject)) 0x9E3779B97F4A7C15)).

Definition defer_matches (record : DeferRecord) (subject : TrafficSubject) : bool :=
  if df_kind record ≠? sub_kind subject then false
  else if sub_kind subject ≟ SubjectKind.Serving then
    (df_request record ≟ sub_request subject) && (df_attempt record ≟ sub_attempt subject)
  else df_transfer record ≟ sub_transfer subject.

(** [defers_.begin()]: which entry a hash map lists first is the container's
    business; it lists one of those it holds. *)
Class HashOrder := {
  defers_begin : gmap Z DeferRecord → option Z;
  defers_begin_present : ∀ m, m ≠ ∅ → ∃ k r, defers_begin m = Some k ∧ m !! k = Some r;
}.

(** Erasing an entry under its key, the streaming counter following. *)
Definition drop_defer (c : Coordinator) (key : Z) (record : DeferRecord) : Coordinator :=
  let c := if df_starvation_class record && (C_streaming_deferrals c >? 0)
           then c <| C_streaming_deferrals := sub32 (C_streaming_deferrals c) 1 |> else c in
  c <| C_defers := delete key (C_defers c) |>.

Section deferral.
Context `{!HashOrder}.

Definition evict_defer_records_locked (c : Coordinator) : Coordinator :=
  match defers_begin (C_defers c) with
  | Some key =>
      match C_defers c !! key with
      | Some record => drop_defer c key record
      | None => c
      end
  | None => c
  end.

Definition note_defer_locked (c : Coordinator) (subject : TrafficSubject) (traffic : TrafficClass)
    (now : Z) : Z * Coordinator :=
  let starvation_class := pr_starvation_protected (policy_rule (C_policy c) traffic) in
  let key := defer_key subject traffic in
  let c := match C_defers c !! key with
           | Some record => if defer_matches record subject then c else drop_defer c key record
           | None => c
           end in
  match C_defers c !! key with
  | None =>
      let c := if cl_max_defer_records (cf_limits (C_config c)) <=? size_of (C_defers c)
               then evict_defer_records_locked c else c in
      let record := MkDefer (sub_kind subject) (sub_request subject) (sub_attempt subject)
                      (sub_transfer subject) traffic 1 now now starvation_class in
      let c := c <| C_defers := map_emplace key record (C_defers c) |> in
      let c := if starvation_class
               then c <| C_streaming_deferrals := add32 (C_streaming_deferrals c) 1 |> else c in
      (1, c)
  | Some record =>
      let record := record <| df_count := add32 (df_count record) 1 |>
                           <| df_last_defer_nanos := now |> in
      (df_count record, c <| C_defers := <[key := record]> (C_defers c) |>)
  end.
End deferral.

Definition clear_defer_locked (c : Coordinator) (subject : TrafficSubject)
    (traffic : TrafficClass) : Coordinator :=
  let key := defer_key subject traffic in
  match C_defers c !! key with
  | None => c
  | Some record => if negb (defer_matches record subject) then c else drop_defer c key record
  end.

Definition streaming_pressure_locked (c : Coordinator) : bool := C_streaming_deferrals c >? 0.

(** ** Building a decision *)

Definition account_decision_locked (c : Coordinator) (traffic : TrafficClass)
    (outcome : DecisionOutcome) (bytes : Z) : Coordinator :=
  c <| C_transfer_class_accounting :=
        alter (account_class outcome bytes) (tc_index traffic) (C_transfer_class_accounting c) |>.

(** The lambda [build]: mints the stamp, copies the explanation within its limit
    and accounts the decision. *)
Definition build (c : Coordinator) (request : TrafficRequest) (log : list ExplanationStep)
    (outcome : DecisionOutcome) (reason : ReasonCode) (traffic : TrafficClass)
    : Decision * Coordinator :=
  let subject := default empty_subject (tr_subject request) in
  let '(stamp, c) := mint_stamp_locked c in
  let limit := (Z.to_nat (pc_max_explanation_steps (C_policy c)) `min` kMaxExplanationSteps)%nat in
  let decision := MkDecision outcome reason empty_treatment subject (tr_binding request) stamp 0
                    (take limit log) in
  if (sub_kind subject ≟ SubjectKind.Serving) && contains (C_ledger c) (sub_request subject) then
    (decision,
     c <| C_ledger := (record_decision (C_ledger c) (sub_request subject) (sub_attempt subject)
                         traffic outcome reason (tr_payload_bytes request)).2 |>)
  else (decision, account_decision_locked c traffic outcome (tr_payload_bytes request)).

(** ** Deferral, the starvation guard and the treatment *)

(** Why the traffic would have to wait; [Unknown] when it need not. *)
Definition defer_reason (c : Coordinator) (request : TrafficRequest) (rule : ClassPolicyRule)
    (now : Z) : ReasonCode :=
  let congested := (topology_state_locked c now ≟ EvidenceState.Current) && C_topology_present c
                   && te_congestion_signalled (C_topology c) in
  if pr_yields_to_latency rule then
    if congested && pc_congestion_yields_bulk (C_policy c) then ReasonCode.DeferredCongestion
    else if streaming_pressure_locked c then ReasonCode.DeferredBulkYield
    else if (pc_bulk_in_flight_cap_bytes (C_policy c) >? 0) && (tr_payload_bytes request >? 0)
            && (add64 (C_bulk_in_flight_bytes c) (tr_payload_bytes request)
                >? pc_bulk_in_flight_cap_bytes (C_policy c))
      then ReasonCode.DeferredBulkCapacity
    else ReasonCode.Unknown
  else if congested && (pc_congestion_queue_depth (C_policy c) <=? te_queue_depth (C_topology c))
          && (pr_reserved_weight rule ≟ 0)
    then ReasonCode.DeferredCongestion
  else ReasonCode.Unknown.

(** The guard's two budgets, on the record [note_defer_locked] left. *)
Definition starvation_exhausted (rule : ClassPolicyRule) (count first now : Z) : bool :=
  let count_exhausted := (pr_max_defer_count rule >? 0) && (pr_max_defer_count rule <=? count) in
  let time_exhausted := (pr_max_defer_horizon_nanos rule >? 0) && (now >? first)
    && (pr_max_defer_horizon_nanos rule <=? to_u64 (now - first)) in
  count_exhausted || time_exhausted.

Definition first_defer (c : Coordinator) (key now : Z) : Z :=
  match C_defers c !! key with Some r => df_first_defer_nanos r | None => now end.

(** The treatment of admitted traffic, the degradation it ends with and the log. *)
Definition make_treatment (request : TrafficRequest) (a : Admission) (log : list ExplanationStep)
    : TrafficTreatment * option ReasonCode * list ExplanationStep :=
  let rule := ad_rule a in
  let treatment := empty_treatment
    <| tt_traffic_class := ad_effective a |> <| tt_priority := pr_priority rule |>
    <| tt_pacing := pr_pacing rule |> <| tt_integrity := pr_integrity rule |>
    <| tt_isolation := pr_isolation rule |> <| tt_reserved_weight := pr_reserved_weight rule |>
    <| tt_max_burst_bytes := pr_max_burst_bytes rule |>
    <| tt_rate_limit_bytes_per_sec := pr_rate_limit_bytes_per_sec rule |> in
  let treatment := match ad_resolved a with
    | RTransfer transfer =>
        treatment <| tt_integrity := max_integrity (pr_integrity rule) (tx_required_integrity transfer) |>
    | RServing _ _ => treatment
    end in
  let degrade := ad_degrade a in
  let treatment := if degrade ≟ Some ReasonCode.DegradedMissingSloContract
    then treatment <| tt_pacing := PacingClass.BestEffort |> <| tt_reserved_weight := 0 |>
    else treatment in
  let lowered := (tr_priority_hint request ≟ PriorityHint.Background)
    && (PriorityClass.value (tt_priority treatment) <? PriorityClass.value PriorityClass.Background) in
  let '(treatment, degrade, log) :=
    if lowered then
      (treatment <| tt_priority := PriorityClass.Background |>,
       match degrade with Some r => Some r | None => Some ReasonCode.DegradedPriorityLowered end,
       log_add ExplanationRule.PolicyRule (PriorityHint.value PriorityHint.Background) 1 log)
    else (treatment, degrade, log) in
  let treatment := if degrade ≟ Some ReasonCode.AdmittedConservative
    then treatment <| tt_pacing := PacingClass.BestEffort |> <| tt_reserved_weight := 0 |>
           <| tt_isolation := IsolationDomain.Background |>
    else treatment in
  (treatment, degrade, log).

Definition admitted (c : Coordinator) (request : TrafficRequest) (a : Admission)
    (admitted_by_guard : bool) (log : list ExplanationStep) : Decision * Coordinator :=
  let '(treatment, degrade, log) := make_treatment request a log in
  let outcome := if admitted_by_guard then DecisionOutcome.Allowed
    else match degrade with Some _ => DecisionOutcome.Degraded | None => DecisionOutcome.Allowed end in
  let reason := if admitted_by_guard then ReasonCode.AdmittedStarvationGuard
    else match degrade with Some r => r | None => ReasonCode.Admitted_ end in
  let '(decision, c) := build c request log outcome reason (ad_effective a) in
  (decision <| dec_treatment := treatment |>, c).

(** The decision that makes the caller wait, with the hold the policy suggests. *)
Definition deferred (c : Coordinator) (request : TrafficRequest) (a : Admission)
    (reason : ReasonCode) (count now : Z) (log : list ExplanationStep) : Decision * Coordinator :=
  let rule := ad_rule a in
  let hint := pc_defer_hint_nanos (C_policy c) in
  let '(decision, c) := build c request log DecisionOutcome.Deferred reason (ad_effective a) in
  (decision <| dec_defer_hint_nanos := hint |>
     <| dec_treatment := (dec_treatment decision)
          <| tt_traffic_class := ad_effective a |> <| tt_priority := pr_priority rule |>
          <| tt_pacing := pr_pacing rule |> <| tt_integrity := pr_integrity rule |>
          <| tt_isolation := pr_isolation rule |>
          <| tt_hold_until := Instant_from_now now (to_i64 hint) |>
          <| tt_defer_count := count |> |>, c).

Section evaluation.
Context `{!HashOrder}.

Definition evaluate_locked (c : Coordinator) (request : TrafficRequest) (now : Z)
    : Decision * Coordinator :=
  match admission c request now [] with
  | (log, inl (reason, traffic)) =>
      build c request log DecisionOutcome.Rejected reason traffic
  | (log, inr a) =>
      let reason := defer_reason c request (ad_rule a) now in
      if reason ≟ ReasonCode.Unknown then
        admitted (clear_defer_locked c (ad_subject a) (ad_effective a)) request a false log
      else
        let '(count, c) := note_defer_locked c (ad_subject a) (ad_effective a) now in
        let log := log_add ExplanationRule.DeferState count (ReasonCode.value reason) log in
        let first := first_defer c (defer_key (ad_subject a) (ad_effective a)) now in
        if pr_starvation_protected (ad_rule a) && starvation_exhausted (ad_rule a) count first now
        then
          let log := log_add ExplanationRule.StarvationGuard count (now - first) log in
          admitted (clear_defer_locked c (ad_subject a) (ad_effective a)) request a true log
        else deferred c request a reason count now log
  end.
End evaluation.
