(* ===== verification/Flows.v ===== *)
(** * Flows, transfers and completions of the coordinator

    Models the remaining operations of src/coordinator.cpp: validation of a
    decision before it is used, the flow table with its two reverse indexes, the
    ways a request ends, the transfer state machine and completion publication. *)

From S2P Require Import Prelude Ids Traffic Decision Policy Ledger Coordinator Evaluate.

(** ** Validation of a decision *)

Definition validate_serving (c : Coordinator) (decision : Decision) : Status :=
  let subject := dec_subject decision in
  match snapshot_request (C_ledger c) (sub_request subject) with
  | None => Failure StatusCode.NotFound
  | Some record =>
      if rr_lifecycle record ≟ RequestLifecycle.Cancelled then Failure StatusCode.Cancelled
      else if rr_requires_revalidation record then Failure StatusCode.RevalidationRequired
      else if request_is_terminal (rr_lifecycle record) then Failure StatusCode.Conflict
      else if negb (is_current_attempt record (sub_attempt subject))
        then Failure StatusCode.StaleGeneration
      else if negb (is_unset (rr_authority_floor record))
              && (st_sequence (dec_authority decision) <=? rr_authority_floor record)
        then Failure StatusCode.StaleAuthority
      else Success tt
  end.

Definition validate_transfer (c : Coordinator) (decision : Decision) : Status :=
  match C_transfers c !! sub_transfer (dec_subject decision) with
  | None => Failure StatusCode.NotFound
  | Some transfer =>
      let model := if tx_model_hash transfer ≠? 0 then
          match require_model_generation_locked c (tx_model_hash transfer) with
          | Failure e => Failure e
          | Success model => if model ≠? tx_model_generation transfer
                             then Failure StatusCode.StaleGeneration else Success tt
          end
        else Success tt in
      let state :=
        match require_state_generation_locked c (tx_state_hash transfer) with
        | Failure e => Failure e
        | Success state => if state ≠? tx_state_generation transfer
                           then Failure StatusCode.StaleGeneration else Success tt
        end in
      if transfer_is_over (tx_state transfer) then Failure StatusCode.Conflict
      else match model with Failure e => Failure e | Success _ => state end
  end.

Definition validate_decision_locked (c : Coordinator) (decision : Decision) : Status :=
  match validate_authority (dec_authority decision) (C_epoch c) (C_incarnation c)
          (pc_generation (C_policy c)) with
  | AuthorityVerdict.StaleEpoch => Failure StatusCode.StaleEpoch
  | AuthorityVerdict.StalePolicy => Failure StatusCode.StaleGeneration
  | AuthorityVerdict.StaleIncarnation => Failure StatusCode.StaleEpoch
  | AuthorityVerdict.Absent | AuthorityVerdict.Unknown | AuthorityVerdict.Count =>
      Failure StatusCode.StaleAuthority
  | AuthorityVerdict.Current =>
      if negb (permits_traffic decision) then Failure StatusCode.Refused
      else match sub_kind (dec_subject decision) with
      | SubjectKind.Serving => validate_serving c decision
      | SubjectKind.Transfer => validate_transfer c decision
      | SubjectKind.Unknown | SubjectKind.Count => Success tt
      end
  end.

(** ** The flow table *)

Definition put_transfer (id : StateTransferId) (t : TransferRecord) (c : Coordinator) : Coordinator :=
  c <| C_transfers := <[id := t]> (C_transfers c) |>.

(** The entries every opened flow makes. *)
Definition store_flow (flow : FlowRecord) (c : Coordinator) : Coordinator :=
  let c := c <| C_flows := map_emplace (fl_id flow) flow (C_flows c) |> in
  let c := if negb (is_nil (fl_request flow))
    then c <| C_flows_by_request := mm_emplace (C_flows_by_request c) (fl_request flow) (fl_id flow) |>
    else c in
  let c := if negb (is_nil (fl_transfer flow))
    then c <| C_flows_by_transfer := mm_emplace (C_flows_by_transfer c) (fl_transfer flow) (fl_id flow) |>
    else c in
  if fl_bulk flow
  then c <| C_bulk_in_flight_bytes := add64 (C_bulk_in_flight_bytes c) (fl_declared_bytes flow) |>
  else c.

Definition transfer_flow_id (transfer : StateTransferId) (sequence : Z) : FlowId :=
  MkId sequence (mix64 (Z.lxor (low transfer) (add64 (high transfer) 0xA24BAED4963EE407))).

Definition open_flow_locked (c : Coordinator) (decision : Decision) (declared_bytes now : Z)
    : Result FlowId * Coordinator :=
  match validate_decision_locked c decision with
  | Failure e => refuse c e
  | Success _ =>
      let policy := C_policy c in
      let traffic := tt_traffic_class (dec_treatment decision) in
      let bulk := pr_yields_to_latency (policy_rule policy traffic) in
      if declared_bytes >? cl_max_single_payload_bytes (cf_limits (C_config c))
        then refuse c StatusCode.BoundsExceeded
      else if bulk && (pc_bulk_in_flight_cap_bytes policy >? 0)
              && (add64 (C_bulk_in_flight_bytes c) declared_bytes
                  >? pc_bulk_in_flight_cap_bytes policy)
        then refuse c StatusCode.CapacityExhausted
      else
        let subject := dec_subject decision in
        let flow := MkFlow nil_id nil_id nil_id nil_id traffic declared_bytes 0
                      (st_sequence (dec_authority decision)) bulk in
        if sub_kind subject ≟ SubjectKind.Serving then
          let flow := flow <| fl_request := sub_request subject |>
                           <| fl_attempt := sub_attempt subject |> in
          match open_flow (C_ledger c) (fl_request flow) (fl_attempt flow) traffic
                  declared_bytes now with
          | (Failure e, L) => (Failure e, c <| C_ledger := L |>)
          | (Success id, L) =>
              (Success id, store_flow (flow <| fl_id := id |>) (c <| C_ledger := L |>))
          end
        else
          match C_transfers c !! sub_transfer subject with
          | None => refuse c StatusCode.NotFound
          | Some transfer =>
              if negb (is_nil (tx_flow transfer)) then (Success (tx_flow transfer), c)
              else
                let c := c <| C_next_flow_sequence := add64 (C_next_flow_sequence c) 1 |> in
                let id := transfer_flow_id (sub_transfer subject) (C_next_flow_sequence c) in
                let flow := flow <| fl_transfer := sub_transfer subject |> <| fl_id := id |> in
                (Success id,
                 store_flow flow
                   (put_transfer (sub_transfer subject) (transfer <| tx_flow := id |>) c))
          end
  end.

Definition release_flow_locked (c : Coordinator) (flow : FlowRecord) : Coordinator :=
  let c := if fl_bulk flow then
      c <| C_bulk_in_flight_bytes :=
            if fl_declared_bytes flow <=? C_bulk_in_flight_bytes c
            then sub64 (C_bulk_in_flight_bytes c) (fl_declared_bytes flow) else 0 |>
    else c in
  let c := c <| C_flows := delete (fl_id flow) (C_flows c) |> in
  let c := if negb (is_nil (fl_request flow)) then
      c <| C_flows_by_request :=
            mm_erase_one (C_flows_by_request c) (fl_request flow) (fl_id flow) |>
        <| C_ledger := (release_flow (C_ledger c) (fl_id flow)).2 |>
    else c in
  if negb (is_nil (fl_transfer flow)) then
    let c := c <| C_flows_by_transfer :=
                    mm_erase_one (C_flows_by_transfer c) (fl_transfer flow) (fl_id flow) |> in
    match C_transfers c !! fl_transfer flow with
    | Some transfer =>
        if tx_flow transfer ≟ fl_id flow
        then put_transfer (fl_transfer flow) (transfer <| tx_flow := nil_id |>) c else c
    | None => c
    end
  else c.

(** One iteration of the loops over [victims]. *)
Definition release_victim (c : Coordinator) (id : FlowId) : Coordinator :=
  match C_flows c !! id with Some flow => release_flow_locked c flow | None => c end.

(** The transfer of a request that ends: its flow is a victim, and a transfer
    that is not over yet is abandoned. *)
Definition abandon_owned (acc : list FlowId * Coordinator) (id : StateTransferId)
    : list FlowId * Coordinator :=
  let '(victims, c) := acc in
  match C_transfers c !! id with
  | None => (victims, c)
  | Some transfer =>
      (if negb (is_nil (tx_flow transfer)) then victims ++ [tx_flow transfer] else victims,
       if negb (transfer_is_over (tx_state transfer)) then
         put_transfer id (transfer <| tx_state := TransferState.Abandoned |>
                            <| tx_terminal_reason := ReasonCode.RejectedRequestTerminal |>) c
       else c)
  end.

Definition coord_release_request_flows (c : Coordinator) (request : RequestId) : Coordinator :=
  if is_nil request then c
  else
    let '(victims, c) := foldl abandon_owned (mm_range (C_flows_by_request c) request, c)
                           (mm_range (C_transfers_by_request c) request) in
    foldl release_victim c victims.

Definition release_transfer_flows_locked (c : Coordinator) (transfer : StateTransferId)
    : Coordinator :=
  if is_nil transfer then c
  else foldl release_victim c (mm_range (C_flows_by_transfer c) transfer).

Definition coord_release_flow (c : Coordinator) (flow : FlowId) : Status * Coordinator :=
  match C_flows c !! flow with
  | None => refuse c StatusCode.NotFound
  | Some record => (Success tt, release_flow_locked c record)
  end.

Definition coord_record_flow_bytes (c : Coordinator) (flow : FlowId) (bytes : Z) (inbound : bool)
    : Status * Coordinator :=
  match C_flows c !! flow with
  | None => refuse c StatusCode.NotFound
  | Some record =>
      match checked_add (fl_observed_bytes record) bytes with
      | None => refuse c StatusCode.BoundsExceeded
      | Some updated =>
          let c := c <| C_flows := <[flow := record <| fl_observed_bytes := updated |>]>
                                     (C_flows c) |> in
          if negb (is_nil (fl_request record))
          then on_ledger c (record_flow_bytes (C_ledger c) flow bytes inbound)
          else (Success tt, c)
      end
  end.

(** ** Ending a request *)

Definition coord_cancel_request (c : Coordinator) (request : RequestId) (reason : ReasonCode)
    (now : Z) : Status * Coordinator :=
  let sequence := advance (C_authority_sequence c) in
  let c := c <| C_authority_sequence := sequence |> in
  let '(status, c) := on_ledger c (cancel_request (C_ledger c) request reason sequence now) in
  (status, if ok status then coord_release_request_flows c request else c).

(** [None] is the dangling read of the ledger's [fail_attempt]. *)
Definition coord_fail_attempt (c : Coordinator) (request : RequestId) (attempt : AttemptId)
    (reason : ReasonCode) (now : Z) : option (Result Z) * Coordinator :=
  let '(outcome, c) := on_ledger c (fail_attempt (C_ledger c) request attempt reason now) in
  match outcome with
  | Some (Failure e) => (Some (Failure e), c)
  | _ => (outcome, coord_release_request_flows c request)
  end.

Definition coord_replace_attempt (c : Coordinator) (request : RequestId)
    (superseded replacement : AttemptId) (model_hash now : Z) : Result Z * Coordinator :=
  match resolve_model c model_hash with
  | Failure e => refuse c e
  | Success model_generation =>
      let '(outcome, c) :=
        on_ledger c (supersede_attempt (C_ledger c) request superseded replacement now) in
      match outcome with
      | Failure e => (Failure e, c)
      | Success generation =>
          let c := coord_release_request_flows c request in
          let c := c <| C_ledger := (set_attempt_model (C_ledger c) request replacement model_hash
                                       model_generation).2 |>
                     <| C_route_decisions := delete superseded (C_route_decisions c) |> in
          (Success generation, c)
      end
  end.

(** ** Transfers *)

Definition register_transfer (c : Coordinator) (g : TransferRegistration) (now : Z)
    : Result StateTransferId * Coordinator :=
  let limits := cf_limits (C_config c) in
  if is_nil (tg_id g) then refuse c StatusCode.InvalidArgument
  else if negb (is_transfer_class (tg_declared_class g)) then refuse c StatusCode.InvalidArgument
  else if tg_payload_bytes g >? cl_max_single_payload_bytes limits
    then refuse c StatusCode.BoundsExceeded
  else match C_transfers c !! tg_id g with
  | Some _ => refuse c StatusCode.AlreadyExists
  | None =>
      if cl_max_transfer_records limits <=? size_of (C_transfers c)
        then refuse c StatusCode.CapacityExhausted
      else match require_model_generation_locked c (tg_model_hash g) with
      | Failure e => refuse c e
      | Success model =>
          match require_state_generation_locked c (tg_state_hash g) with
          | Failure e => refuse c e
          | Success state =>
              if negb (is_nil (tg_request g)) && is_cancelled (C_ledger c) (tg_request g)
                then refuse c StatusCode.Cancelled
              else
                let record := MkTransfer (tg_id g) (tg_state_hash g) (tg_model_hash g)
                  (tg_payload_bytes g) 0 model state (tg_request g) (tg_attempt g)
                  (tg_declared_class g) (tg_direction g) (tg_required_integrity g)
                  TransferState.Registered ReasonCode.Unknown (tg_deadline g) (Instant_at now)
                  nil_id in
                let c := c <| C_transfers := map_emplace (tx_id record) record (C_transfers c) |> in
                let c := if negb (is_nil (tx_request record))
                  then c <| C_transfers_by_request :=
                             mm_emplace (C_transfers_by_request c) (tx_request record) (tx_id record) |>
                  else c in
                (Success (tx_id record), c)
          end
      end
  end.

(** Marks a transfer refused. *)
Definition refuse_transfer (id : StateTransferId) (t : TransferRecord) (reason : ReasonCode)
    (c : Coordinator) : Coordinator :=
  put_transfer id (t <| tx_state := TransferState.Refused |> <| tx_terminal_reason := reason |>) c.

Definition count_refused (c : Coordinator) : Coordinator :=
  c <| C_transfers_refused := add64 (C_transfers_refused c) 1 |>.

(** [now] is read before the evaluation and [now_eval] by it. *)
Definition authorize_transfer `{!HashOrder} (c : Coordinator) (request : TrafficRequest)
    (now now_eval : Z) : Result TransferAuthorization * Coordinator :=
  match tr_subject request with
  | None => refuse c StatusCode.InvalidArgument
  | Some subject =>
      if sub_kind subject ≠? SubjectKind.Transfer then refuse c StatusCode.InvalidArgument
      else
        let '(decision, c) := evaluate_locked c request now_eval in
        let treatment := dec_treatment decision in
        let authorization := MkAuthorization (sub_transfer subject) (tt_traffic_class treatment)
          (tt_integrity treatment) (tt_pacing treatment) (tt_priority treatment)
          (dec_authority decision) (dec_reason decision) (permits_traffic decision) nil_id in
        if negb (ta_authorized authorization) then
          let c := match C_transfers c !! sub_transfer subject with
            | Some t => release_transfer_flows_locked
                          (refuse_transfer (sub_transfer subject) t (dec_reason decision) c)
                          (sub_transfer subject)
            | None => c
            end in
          (Success authorization, count_refused c)
        else match C_transfers c !! sub_transfer subject with
        | None => refuse c StatusCode.NotFound
        | Some transfer =>
            match open_flow_locked c decision (tx_payload_bytes transfer) now with
            | (Failure _, c) =>
                let c := match C_transfers c !! sub_transfer subject with
                  | Some t => refuse_transfer (sub_transfer subject) t ReasonCode.RejectedFlowLimit c
                  | None => c
                  end in
                (Success (authorization <| ta_authorized := false |>
                                        <| ta_reason := ReasonCode.RejectedFlowLimit |>),
                 count_refused c)
            | (Success flow, c) =>
                let c := match C_transfers c !! sub_transfer subject with
                  | Some t => put_transfer (sub_transfer subject)
                      (t <| tx_state := TransferState.Authorized |> <| tx_flow := flow |>) c
                  | None => c
                  end in
                (Success (authorization <| ta_flow := flow |>),
                 c <| C_transfers_started := add64 (C_transfers_started c) 1 |>)
            end
        end
  end.

Definition start_transfer (c : Coordinator) (transfer_id : StateTransferId)
    (authorization : TransferAuthorization) : Status * Coordinator :=
  match C_transfers c !! transfer_id with
  | None => refuse c StatusCode.NotFound
  | Some transfer =>
      if ta_transfer authorization ≠? transfer_id then refuse c StatusCode.InvalidArgument
      else if negb (ta_authorized authorization) then refuse c StatusCode.NotAuthorized
      else if tx_state transfer ≟ TransferState.InProgress then (Success tt, c)
      else if tx_state transfer ≠? TransferState.Authorized then refuse c StatusCode.Conflict
      else (Success tt,
            put_transfer transfer_id (transfer <| tx_state := TransferState.InProgress |>) c)
  end.

Definition complete_transfer (c : Coordinator) (transfer_id : StateTransferId)
    (verified_bytes : Z) : Status * Coordinator :=
  match C_transfers c !! transfer_id with
  | None => refuse c StatusCode.NotFound
  | Some record =>
      let mismatch :=
        (Failure StatusCode.IntegrityMismatch,
         count_refused (release_transfer_flows_locked
           (refuse_transfer transfer_id record ReasonCode.RejectedIntegrityUnavailable c)
           transfer_id)) in
      if (tx_state record ≠? TransferState.Authorized)
         && (tx_state record ≠? TransferState.InProgress)
        then refuse c StatusCode.Conflict
      else if (tx_required_integrity record ≟ IntegrityClass.ChecksumAndVerify)
              && (verified_bytes ≠? tx_payload_bytes record) then mismatch
      else if verified_bytes >? tx_payload_bytes record then mismatch
      else
        let c := put_transfer transfer_id (record <| tx_verified_bytes := verified_bytes |>
                   <| tx_state := TransferState.Completed |>
                   <| tx_terminal_reason := ReasonCode.CommittedCompletion |>) c in
        let c := release_transfer_flows_locked c transfer_id in
        (Success tt, c <| C_transfers_completed := add64 (C_transfers_completed c) 1 |>)
  end.

Definition abandon_transfer (c : Coordinator) (transfer_id : StateTransferId)
    (reason : ReasonCode) : Status * Coordinator :=
  match C_transfers c !! transfer_id with
  | None => refuse c StatusCode.NotFound
  | Some transfer =>
      if tx_state transfer ≟ TransferState.Completed then refuse c StatusCode.Conflict
      else
        let c := put_transfer transfer_id (transfer <| tx_state := TransferState.Abandoned |>
                   <| tx_terminal_reason := reason |>) c in
        (Success tt, count_refused (release_transfer_flows_locked c transfer_id))
  end.

(** ** Completions *)

(** The loop that keeps the remembered outcomes within their limit. *)
Fixpoint trim_completions (order : list RequestId) (limit : Z)
    (completions : gmap RequestId PublishOutcome) : list RequestId * gmap RequestId PublishOutcome :=
  match order with
  | [] => ([], completions)
  | victim :: rest =>
      if Z.of_nat (length order) >? limit
      then trim_completions rest limit (delete victim completions)
      else (order, completions)
  end.

Definition coord_publish_completion (c : Coordinator) (publication : CompletionPublication)
    (now : Z) : Result PublishOutcome * Coordinator :=
  let request := cp_request publication in
  match on_ledger c (publish_completion (C_ledger c) publication now) with
  | (Failure e, c) => (Failure e, c)
  | (Success value, c) =>
      if po_disposition value ≟ Disposition.Committed then
        let c := coord_release_request_flows c request in
        let '(order, completions) :=
          trim_completions (C_completion_order c ++ [request])
            (cf_max_retained_completion_records (C_config c))
            (<[request := value]> (C_completions c)) in
        (Success value, c <| C_completions := completions |> <| C_completion_order := order |>)
      else
        (Success match C_completions c !! request with
                 | Some existing =>
                     if po_disposition value ≟ Disposition.DuplicateSuppressed
                     then value <| po_accounted_bytes_in := po_accounted_bytes_in existing |>
                                <| po_accounted_bytes_out := po_accounted_bytes_out existing |>
                     else value
                 | None => value
                 end, c)
  end.
