(* ===== verification/CoordAudit.v ===== *)
(** * Snapshots and audits of the coordinator

    The read-only operations of src/coordinator.cpp: status, the accounting
    snapshot, the run-time audit [verify_invariants] and the exported durable
    state. *)

From stdpp Require Import sorting.
From S2P Require Import Prelude Ids Traffic Decision Policy Ledger Coordinator Evaluate Flows.

(** ** Accounting *)

(** Flows the ledger does not know: those of transfers. *)
Definition is_transfer_flow (f : FlowRecord) : bool := is_nil (fl_request f).

Definition flow_list (c : Coordinator) : list FlowRecord := snd <$> map_to_list (C_flows c).

Definition accounting_unlocked_active_flows (c : Coordinator) (snapshot : AccountingSnapshot) : Z :=
  foldl (fun total f => if is_transfer_flow f then add32 total 1 else total)
    (as_active_flows_total snapshot) (flow_list c).

Definition merge_class (base extra : ClassAccounting) : ClassAccounting :=
  base <| ca_allowed := add64 (ca_allowed base) (ca_allowed extra) |>
       <| ca_degraded := add64 (ca_degraded base) (ca_degraded extra) |>
       <| ca_deferred := add64 (ca_deferred base) (ca_deferred extra) |>
       <| ca_rejected := add64 (ca_rejected base) (ca_rejected extra) |>
       <| ca_bytes_allowed := add64 (ca_bytes_allowed base) (ca_bytes_allowed extra) |>
       <| ca_bytes_deferred := add64 (ca_bytes_deferred base) (ca_bytes_deferred extra) |>
       <| ca_bytes_rejected := add64 (ca_bytes_rejected base) (ca_bytes_rejected extra) |>
       <| ca_starvation_admissions :=
            add32 (ca_starvation_admissions base) (ca_starvation_admissions extra) |>.

Definition count_transfer_flow (s : AccountingSnapshot) (f : FlowRecord) : AccountingSnapshot :=
  if negb (is_transfer_flow f) then s
  else s <| as_active_flows_total := add32 (as_active_flows_total s) 1 |>
         <| as_per_class :=
              alter (fun e => e <| ca_active_flows := add32 (ca_active_flows e) 1 |>)
                (tc_index (fl_traffic f)) (as_per_class s) |>.

Definition accounting (c : Coordinator) : AccountingSnapshot :=
  let s := L_accounting (C_ledger c) in
  let s := s <| as_per_class :=
                  zip_with merge_class (as_per_class s) (C_transfer_class_accounting c) |> in
  let s := foldl count_transfer_flow s (flow_list c) in
  let s := if as_active_flows_total s >? as_peak_active_flows_total s
           then s <| as_peak_active_flows_total := as_active_flows_total s |> else s in
  s <| as_transfers_started := C_transfers_started c |>
    <| as_transfers_completed := C_transfers_completed c |>
    <| as_transfers_refused := C_transfers_refused c |>
    <| as_pending_deferrals := wrap32 (size_of (C_defers c)) |>.

(** ** Status *)

Record CoordinatorStatus := MkStatus {
  cs_epoch : Z;
  cs_incarnation : BootId;
  cs_policy_generation : Z;
  cs_topology_generation : Z;
  cs_topology_state : EvidenceState.t;
  cs_topology_provenance : EvidenceProvenance.t;
  cs_live_requests : Z;
  cs_transfers : Z;
  cs_active_flows : Z;
  cs_authority_sequence : Z;
}.

Definition status (c : Coordinator) (now : Z) : CoordinatorStatus :=
  let snapshot := L_accounting (C_ledger c) in
  MkStatus (C_epoch c) (C_incarnation c) (pc_generation (C_policy c))
    (te_generation (C_topology c)) (topology_state_locked c now)
    (if C_topology_present c then te_provenance (C_topology c) else EvidenceProvenance.Unknown)
    (as_live_requests snapshot) (size_of (C_transfers c))
    (accounting_unlocked_active_flows c snapshot) (C_authority_sequence c).

(** ** The audit

    Every failing branch of the source returns the same code, so the order in
    which the hash map is walked does not show. *)

Definition serving_flow_ok (c : Coordinator) (f : FlowRecord) : bool :=
  match snapshot_request (C_ledger c) (fl_request f) with
  | None => false
  | Some record => rr_lifecycle record ≠? RequestLifecycle.Cancelled
  end.

Definition transfer_flow_ok (c : Coordinator) (f : FlowRecord) : bool :=
  match C_transfers c !! fl_transfer f with
  | None => false
  | Some transfer =>
      negb (transfer_is_over (tx_state transfer))
      && (if negb (is_nil (tx_request transfer)) then
            match snapshot_request (C_ledger c) (tx_request transfer) with
            | Some owner => negb (request_is_terminal (rr_lifecycle owner))
            | None => true
            end
          else true)
  end.

Definition flow_ok (c : Coordinator) (f : FlowRecord) : bool :=
  if is_nil (fl_request f) && is_nil (fl_transfer f) then false
  else if negb (is_nil (fl_request f)) then serving_flow_ok c f else transfer_flow_ok c f.

Definition count_serving (total : Z) (f : FlowRecord) : Z :=
  if negb (is_nil (fl_request f)) then add32 total 1 else total.

Definition count_bulk (total : Z) (f : FlowRecord) : Z :=
  if fl_bulk f then add64 total (fl_declared_bytes f) else total.

Definition count_starvation (total : Z) (d : DeferRecord) : Z :=
  if df_starvation_class d then add32 total 1 else total.

Definition verify_invariants (c : Coordinator) : Status :=
  let limits := cf_limits (C_config c) in
  match verify_closure (C_ledger c) with
  | Failure e => Failure e
  | Success _ =>
      if negb (forallb (flow_ok c) (flow_list c)) then Failure StatusCode.Internal
      else if foldl count_serving 0 (flow_list c)
              ≠? as_active_flows_total (L_accounting (C_ledger c))
        then Failure StatusCode.Internal
      else if foldl count_bulk 0 (flow_list c) ≠? C_bulk_in_flight_bytes c
        then Failure StatusCode.Internal
      else if foldl count_starvation 0 (snd <$> map_to_list (C_defers c))
              ≠? C_streaming_deferrals c
        then Failure StatusCode.Internal
      else if size_of (C_defers c) >? cl_max_defer_records limits
        then Failure StatusCode.Internal
      else if size_of (C_flows c) >? ll_max_active_flows_total (cl_ledger limits)
        then Failure StatusCode.Internal
      else Success tt
  end.

(** ** Export *)

Definition model_le (a b : ModelState) : Prop := ms_model_hash a ≤ ms_model_hash b.
Definition state_le (a b : StateGenerationRecord) : Prop := sg_state_hash a ≤ sg_state_hash b.

#[global] Instance model_le_dec : RelDecision model_le.
Proof. unfold RelDecision, model_le. apply _. Defined.
#[global] Instance state_le_dec : RelDecision state_le.
Proof. unfold RelDecision, state_le. apply _. Defined.

Definition export_state (c : Coordinator) : PersistedCoordinatorState :=
  MkPersisted kSnapshotFormatVersion (C_epoch c) (C_incarnation c) (C_boot_count c) (C_policy c)
    (C_topology_present c) (C_topology c)
    (merge_sort model_le (snd <$> map_to_list (C_models c)))
    (merge_sort state_le (snd <$> map_to_list (C_states c)))
    (export_terminal_records (C_ledger c)
       (Z.to_nat (ll_max_retained_terminal_requests (cl_ledger (cf_limits (C_config c))))))
    (export_live_records (C_ledger c)).
