(* ===== verification/Serialize.v ===== *)
(** * Records on the wire and on disk

    Models src/serialize.cpp: for each record an encoder, the overload of [encode]
    the source picks by type, and its decoder. An encoder lists its writes in the
    order of the source; a decoder lists its reads, then checks. An array of which
    the source uses a prefix is a list, its count the length of that prefix. *)

From S2P Require Import Prelude Ids Traffic Decision Policy Bytes Codec Ledger Coordinator CoordAudit.
From S2P Require Import CodecProps PolicyCodec Format.

(** ** Helpers of the anonymous namespace *)

Definition write_id (value : Id128) : Writer.t → Writer.t :=
  Writer.u64 (high value) ⨾ Writer.u64 (low value).

(** Unlike [Reader.id] this accepts the nil identity. *)
Definition read_id (r : Reader.t) : Id128 * Reader.t :=
  let '(h, r) := Reader.u64 r in
  let '(l, r) := Reader.u64 r in
  if negb (Reader.ok r) then (nil_id, r) else (MkId h l, r).

Definition write_optional_id (value : Id128) : Writer.t → Writer.t :=
  Writer.boolean (negb (is_nil value)) ⨾ (if negb (is_nil value) then write_id value else fun w => w).

Definition read_optional_id (r : Reader.t) : Id128 * Reader.t :=
  let '(present, r) := Reader.boolean r in
  if negb (Reader.ok r) then (nil_id, r)
  else if negb present then (nil_id, r)
  else read_id r.

Definition write_generation (value : Z) : Writer.t → Writer.t := Writer.u64 value.
Definition read_generation : Reader.t → Z * Reader.t := Reader.u64.

Definition write_optional_generation (value : option Z) : Writer.t → Writer.t :=
  match value with
  | Some 0 => Writer.boolean true ⨾ Writer.u64 0
  | Some v => Writer.boolean true ⨾ Writer.u64 v
  | None => Writer.boolean false
  end.

Definition read_optional_generation (r : Reader.t) : option Z * Reader.t :=
  let '(present, r) := Reader.boolean r in
  if negb (Reader.ok r) then (None, r)
  else if negb present then (None, r)
  else
    let '(value, r) := Reader.u64 r in
    if negb (Reader.ok r) || (value ≟ 0) then (None, Reader.fail StatusCode.MalformedInput r)
    else (Some value, r).

Definition write_instant (value : Z) : Writer.t → Writer.t :=
  Writer.boolean (Instant_is_set value) ⨾ (if Instant_is_set value then Writer.i64 value else fun w => w).

Definition read_instant (r : Reader.t) : Z * Reader.t :=
  let '(present, r) := Reader.boolean r in
  if negb (Reader.ok r) then (kUnset, r)
  else if negb present then (kUnset, r)
  else let '(nanos, r) := Reader.i64 r in (Instant_at nanos, r).

(** A status code in a [uint16] field, [static_cast] both ways. *)
Definition write_status_code (value : StatusCode.t) : Writer.t → Writer.t :=
  Writer.u16 (StatusCode.value value).

Definition status_of_code (value : Z) : StatusCode.t := default StatusCode.Ok (enum_of_code value).

(** ** Subjects, bindings, requests *)

Definition encode_traffic_subject (value : TrafficSubject) : Writer.t → Writer.t :=
  Writer.enumeration (sub_kind value)
  ⨾ write_id (sub_request value)
  ⨾ write_id (sub_attempt value)
  ⨾ write_generation (sub_request_generation value)
  ⨾ write_id (sub_transfer value).

Definition decode_traffic_subject : Reader.t → Result TrafficSubject * Reader.t :=
  let~ kind := Reader.enumeration SubjectKind.Unknown SubjectKind.Count in
  let~ request := read_id in
  let~ attempt := read_id in
  let~ request_generation := read_generation in
  let~ transfer := read_id in
  check_then
    (if (kind ≟ SubjectKind.Serving)
        && (is_nil request || is_nil attempt || is_unset request_generation)
       then answer (Failure StatusCode.MalformedInput)
     else if (kind ≟ SubjectKind.Transfer) && is_nil transfer
       then answer (Failure StatusCode.MalformedInput)
     else answer (Success (MkSubject kind request attempt request_generation transfer))).

Definition encode_generation_binding (value : GenerationBinding) : Writer.t → Writer.t :=
  write_optional_generation (gb_request_generation value)
  ⨾ write_optional_generation (gb_model_generation value)
  ⨾ write_optional_generation (gb_state_generation value)
  ⨾ write_optional_generation (gb_route_decision value)
  ⨾ write_optional_generation (gb_slo_contract value)
  ⨾ write_optional_generation (gb_topology value)
  ⨾ write_optional_generation (gb_policy value)
  ⨾ write_optional_generation (gb_coordinator_epoch value).

Definition decode_generation_binding : Reader.t → Result GenerationBinding * Reader.t :=
  let~ request_generation := read_optional_generation in
  let~ model_generation := read_optional_generation in
  let~ state_generation := read_optional_generation in
  let~ route_decision := read_optional_generation in
  let~ slo_contract := read_optional_generation in
  let~ topology := read_optional_generation in
  let~ policy := read_optional_generation in
  let~ coordinator_epoch := read_optional_generation in
  check_then (answer (Success (MkBinding request_generation model_generation state_generation
    route_decision slo_contract topology policy coordinator_epoch))).

Definition encode_traffic_request (value : TrafficRequest) : Writer.t → Writer.t :=
  Writer.boolean (has_value (tr_subject value))
  ⨾ write_optional encode_traffic_subject (tr_subject value)
  ⨾ Writer.enumeration (tr_declared_class value)
  ⨾ Writer.enumeration (tr_declared_stage value)
  ⨾ Writer.enumeration (tr_direction value)
  ⨾ Writer.enumeration (tr_priority_hint value)
  ⨾ Writer.u64 (tr_payload_bytes value)
  ⨾ Writer.u64 (tr_observed_bytes value)
  ⨾ Writer.u32 (tr_token_count value)
  ⨾ Writer.u32 (tr_chunk_index value)
  ⨾ Writer.u32 (tr_total_chunks value)
  ⨾ Writer.u64 (tr_tenant_hash value)
  ⨾ Writer.u64 (tr_model_hash value)
  ⨾ Writer.u64 (tr_adapter_hash value)
  ⨾ write_instant (tr_deadline value)
  ⨾ Writer.u64 (tr_deadline_after_nanos value)
  ⨾ encode_generation_binding (tr_binding value).

Definition decode_traffic_request : Reader.t → Result TrafficRequest * Reader.t :=
  let~ has_subject := Reader.boolean in
  check_then
  (let! subject := decode_when has_subject decode_traffic_subject in
   let~ declared_class := Reader.enumeration TrafficClass.Unknown TrafficClass.Count in
   let~ declared_stage := Reader.enumeration ServingStage.Unknown ServingStage.Count in
   let~ direction := Reader.enumeration FlowDirection.Unknown FlowDirection.Count in
   let~ priority_hint := Reader.enumeration PriorityHint.None PriorityHint.Count in
   let~ payload_bytes := Reader.u64 in
   let~ observed_bytes := Reader.u64 in
   let~ token_count := Reader.u32 in
   let~ chunk_index := Reader.u32 in
   let~ total_chunks := Reader.u32 in
   let~ tenant_hash := Reader.u64 in
   let~ model_hash := Reader.u64 in
   let~ adapter_hash := Reader.u64 in
   let~ deadline := read_instant in
   let~ deadline_after_nanos := Reader.u64 in
   let! binding := decode_generation_binding in
   check_then
     (let request := MkTrafficRequest subject declared_class declared_stage direction priority_hint
        payload_bytes observed_bytes token_count chunk_index total_chunks tenant_hash model_hash
        adapter_hash deadline deadline_after_nanos binding in
      if negb (structurally_valid request) then answer (Failure StatusCode.MalformedInput)
      else answer (Success request))).

(** ** Treatments, stamps, decisions *)

Definition encode_traffic_treatment (value : TrafficTreatment) : Writer.t → Writer.t :=
  Writer.enumeration (tt_traffic_class value)
  ⨾ Writer.enumeration (tt_priority value)
  ⨾ Writer.enumeration (tt_pacing value)
  ⨾ Writer.enumeration (tt_integrity value)
  ⨾ Writer.enumeration (tt_isolation value)
  ⨾ Writer.u32 (tt_reserved_weight value)
  ⨾ Writer.u64 (tt_max_burst_bytes value)
  ⨾ Writer.u64 (tt_rate_limit_bytes_per_sec value)
  ⨾ write_id (tt_flow value)
  ⨾ write_instant (tt_hold_until value)
  ⨾ Writer.u32 (tt_defer_count value).

Definition decode_traffic_treatment : Reader.t → Result TrafficTreatment * Reader.t :=
  let~ traffic_class := Reader.enumeration TrafficClass.Unknown TrafficClass.Count in
  let~ priority := Reader.enumeration PriorityClass.Unknown PriorityClass.Count in
  let~ pacing := Reader.enumeration PacingClass.Unknown PacingClass.Count in
  let~ integrity := Reader.enumeration IntegrityClass.Unknown IntegrityClass.Count in
  let~ isolation := Reader.enumeration IsolationDomain.Unknown IsolationDomain.Count in
  let~ reserved_weight := Reader.u32 in
  let~ max_burst_bytes := Reader.u64 in
  let~ rate_limit_bytes_per_sec := Reader.u64 in
  let~ flow := read_id in
  let~ hold_until := read_instant in
  let~ defer_count := Reader.u32 in
  check_then (answer (Success (MkTreatment traffic_class priority pacing integrity isolation
    reserved_weight max_burst_bytes rate_limit_bytes_per_sec flow hold_until defer_count))).

Definition encode_explanation_step (value : ExplanationStep) : Writer.t → Writer.t :=
  Writer.enumeration (step_rule value)
  ⨾ Writer.i64 (step_value value)
  ⨾ Writer.i64 (step_secondary value).

(** The body of the loop of [decode_decision]. *)
Definition decode_explanation_step : Reader.t → Result ExplanationStep * Reader.t :=
  let~ rule := Reader.enumeration ExplanationRule.Unknown ExplanationRule.Count in
  let~ value := Reader.i64 in
  let~ secondary := Reader.i64 in
  check_then (answer (Success (MkStep rule value secondary))).

Definition encode_authority_stamp (value : AuthorityStamp) : Writer.t → Writer.t :=
  write_generation (st_epoch value)
  ⨾ write_id (st_incarnation value)
  ⨾ write_generation (st_policy value)
  ⨾ write_generation (st_sequence value).

Definition decode_authority_stamp : Reader.t → Result AuthorityStamp * Reader.t :=
  let~ epoch := read_generation in
  let~ incarnation := read_id in
  let~ policy := read_generation in
  let~ sequence := read_generation in
  check_then
    (let stamp := MkStamp epoch incarnation policy sequence in
     if negb (stamp_is_valid stamp) then answer (Failure StatusCode.MalformedInput)
     else answer (Success stamp)).

Definition encode_decision (value : Decision) : Writer.t → Writer.t :=
  let count := (length (dec_explanation value) `min` kMaxExplanationSteps)%nat in
  Writer.enumeration (dec_outcome value)
  ⨾ Writer.enumeration (dec_reason value)
  ⨾ encode_traffic_treatment (dec_treatment value)
  ⨾ Writer.boolean (subject_is_valid (dec_subject value))
  ⨾ (if subject_is_valid (dec_subject value) then encode_traffic_subject (dec_subject value)
     else fun w => w)
  ⨾ encode_generation_binding (dec_binding value)
  ⨾ encode_authority_stamp (dec_authority value)
  ⨾ Writer.u64 (dec_defer_hint_nanos value)
  ⨾ Writer.u32 (Z.of_nat count)
  ⨾ encode_list encode_explanation_step (take count (dec_explanation value)).

Definition decode_decision : Reader.t → Result Decision * Reader.t :=
  let~ outcome := Reader.enumeration DecisionOutcome.Unknown DecisionOutcome.Count in
  let~ reason := Reader.enumeration ReasonCode.Unknown ReasonCode.Count in
  let! treatment := decode_traffic_treatment in
  let~ has_subject := Reader.boolean in
  check_then
  (let! subject := decode_when has_subject decode_traffic_subject in
   let! binding := decode_generation_binding in
   let! stamp := decode_authority_stamp in
   let~ defer_hint_nanos := Reader.u64 in
   let~ count := Reader.count (Z.of_nat kMaxExplanationSteps) in
   check_then
     (if count >? Z.of_nat kMaxExplanationSteps then answer (Failure StatusCode.BoundsExceeded)
      else
        let! explanation := decode_list (Z.to_nat count) decode_explanation_step in
        answer (Success (MkDecision outcome reason treatment (default empty_subject subject) binding
          stamp defer_hint_nanos explanation)))).

(** ** Accounting *)

Definition encode_class_accounting (value : ClassAccounting) : Writer.t → Writer.t :=
  Writer.u64 (ca_allowed value)
  ⨾ Writer.u64 (ca_degraded value)
  ⨾ Writer.u64 (ca_deferred value)
  ⨾ Writer.u64 (ca_rejected value)
  ⨾ Writer.u64 (ca_bytes_allowed value)
  ⨾ Writer.u64 (ca_bytes_deferred value)
  ⨾ Writer.u64 (ca_bytes_rejected value)
  ⨾ Writer.u32 (ca_active_flows value)
  ⨾ Writer.u32 (ca_peak_active_flows value)
  ⨾ Writer.u32 (ca_starvation_admissions value).

Definition decode_class_accounting : Reader.t → ClassAccounting * Reader.t :=
  let~ allowed := Reader.u64 in
  let~ degraded := Reader.u64 in
  let~ deferred := Reader.u64 in
  let~ rejected := Reader.u64 in
  let~ bytes_allowed := Reader.u64 in
  let~ bytes_deferred := Reader.u64 in
  let~ bytes_rejected := Reader.u64 in
  let~ active_flows := Reader.u32 in
  let~ peak_active_flows := Reader.u32 in
  let~ starvation_admissions := Reader.u32 in
  answer (MkClassAcc allowed degraded deferred rejected bytes_allowed bytes_deferred bytes_rejected
    active_flows peak_active_flows starvation_admissions).

Definition encode_accounting_snapshot (value : AccountingSnapshot) : Writer.t → Writer.t :=
  Writer.u16 (Z.of_nat kTrafficClassCount)
  ⨾ encode_list encode_class_accounting (as_per_class value)
  ⨾ Writer.u64 (as_requests_registered value)
  ⨾ Writer.u64 (as_requests_completed value)
  ⨾ Writer.u64 (as_requests_cancelled value)
  ⨾ Writer.u64 (as_requests_failed value)
  ⨾ Writer.u64 (as_requests_interrupted value)
  ⨾ Writer.u64 (as_requests_evicted value)
  ⨾ Writer.u64 (as_attempts_registered value)
  ⨾ Writer.u64 (as_attempts_completed value)
  ⨾ Writer.u64 (as_attempts_failed value)
  ⨾ Writer.u64 (as_attempts_superseded value)
  ⨾ Writer.u64 (as_completions_committed value)
  ⨾ Writer.u64 (as_completions_suppressed value)
  ⨾ Writer.u64 (as_completions_refused value)
  ⨾ Writer.u64 (as_transfers_started value)
  ⨾ Writer.u64 (as_transfers_completed value)
  ⨾ Writer.u64 (as_transfers_refused value)
  ⨾ Writer.u32 (as_active_flows_total value)
  ⨾ Writer.u32 (as_peak_active_flows_total value)
  ⨾ Writer.u32 (as_pending_deferrals value)
  ⨾ Writer.u64 (as_live_requests value)
  ⨾ Writer.u64 (as_retained_requests value).

Definition decode_accounting_snapshot : Reader.t → Result AccountingSnapshot * Reader.t :=
  let~ class_count := Reader.u16 in
  check_then
  (if class_count ≠? Z.of_nat kTrafficClassCount then answer (Failure StatusCode.MalformedInput)
   else
   let~ per_class := read_list kTrafficClassCount decode_class_accounting in
   let~ requests_registered := Reader.u64 in
   let~ requests_completed := Reader.u64 in
   let~ requests_cancelled := Reader.u64 in
   let~ requests_failed := Reader.u64 in
   let~ requests_interrupted := Reader.u64 in
   let~ requests_evicted := Reader.u64 in
   let~ attempts_registered := Reader.u64 in
   let~ attempts_completed := Reader.u64 in
   let~ attempts_failed := Reader.u64 in
   let~ attempts_superseded := Reader.u64 in
   let~ completions_committed := Reader.u64 in
   let~ completions_suppressed := Reader.u64 in
   let~ completions_refused := Reader.u64 in
   let~ transfers_started := Reader.u64 in
   let~ transfers_completed := Reader.u64 in
   let~ transfers_refused := Reader.u64 in
   let~ active_flows_total := Reader.u32 in
   let~ peak_active_flows_total := Reader.u32 in
   let~ pending_deferrals := Reader.u32 in
   let~ live_requests := Reader.u64 in
   let~ retained_requests := Reader.u64 in
   check_then (answer (Success (MkAccounting per_class requests_registered requests_completed
     requests_cancelled requests_failed requests_interrupted requests_evicted attempts_registered
     attempts_completed attempts_failed attempts_superseded completions_committed
     completions_suppressed completions_refused transfers_started transfers_completed
     transfers_refused active_flows_total peak_active_flows_total pending_deferrals live_requests
     retained_requests)))).

(** ** Requests and attempts *)

Definition encode_attempt_record (value : AttemptRecord) : Writer.t → Writer.t :=
  write_id (at_id value)
  ⨾ write_generation (at_generation value)
  ⨾ Writer.enumeration (at_stage value)
  ⨾ Writer.enumeration (at_lifecycle value)
  ⨾ Writer.u64 (at_model_hash value)
  ⨾ write_generation (at_model_generation value)
  ⨾ write_generation (at_route_generation value)
  ⨾ Writer.boolean (at_success_published value)
  ⨾ Writer.boolean (at_failure_published value)
  ⨾ Writer.enumeration (at_terminal_reason value)
  ⨾ Writer.u64 (at_bytes_in value)
  ⨾ Writer.u64 (at_bytes_out value)
  ⨾ Writer.u32 (at_decisions value)
  ⨾ Writer.u32 (at_defers value)
  ⨾ Writer.u32 (at_rejections value)
  ⨾ Writer.i64 (at_registered_at_nanos value)
  ⨾ Writer.i64 (at_updated_at_nanos value).

(** The out parameter [ok] becomes the failure its caller returns for it. *)
Definition decode_attempt_record : Reader.t → Result AttemptRecord * Reader.t :=
  let~ id := read_id in
  let~ generation := read_generation in
  let~ stage := Reader.enumeration ServingStage.Unknown ServingStage.Count in
  let~ lifecycle := Reader.enumeration AttemptLifecycle.Unknown AttemptLifecycle.Count in
  let~ model_hash := Reader.u64 in
  let~ model_generation := read_generation in
  let~ route_generation := read_generation in
  let~ success_published := Reader.boolean in
  let~ failure_published := Reader.boolean in
  let~ terminal_reason := Reader.enumeration ReasonCode.Unknown ReasonCode.Count in
  let~ bytes_in := Reader.u64 in
  let~ bytes_out := Reader.u64 in
  let~ decisions := Reader.u32 in
  let~ defers := Reader.u32 in
  let~ rejections := Reader.u32 in
  let~ registered_at_nanos := Reader.i64 in
  let~ updated_at_nanos := Reader.i64 in
  check_then (answer (Success (MkAttempt id generation stage lifecycle model_hash model_generation
    route_generation success_published failure_published terminal_reason bytes_in bytes_out decisions
    defers rejections registered_at_nanos updated_at_nanos))).

Definition encode_request_record (value : RequestRecord) : Writer.t → Writer.t :=
  let attempt_count := (rr_attempt_count value `min` kMaxAttemptsPerRequest)%nat in
  write_id (rr_id value)
  ⨾ write_generation (rr_generation value)
  ⨾ Writer.enumeration (rr_lifecycle value)
  ⨾ Writer.enumeration (rr_stage value)
  ⨾ write_id (rr_current_attempt value)
  ⨾ write_generation (rr_current_attempt_generation value)
  ⨾ Writer.u32 (Z.of_nat attempt_count)
  ⨾ encode_list encode_attempt_record (take attempt_count (rr_attempts value))
  ⨾ Writer.enumeration (rr_terminal_reason value)
  ⨾ Writer.i64 (rr_registered_at_nanos value)
  ⨾ Writer.i64 (rr_terminal_at_nanos value)
  ⨾ Writer.boolean (rr_requires_revalidation value)
  ⨾ Writer.boolean (rr_accounting_closed value)
  ⨾ Writer.u64 (rr_bytes_in value)
  ⨾ Writer.u64 (rr_bytes_out value)
  ⨾ Writer.u32 (rr_decisions value)
  ⨾ Writer.u32 (rr_defers value)
  ⨾ Writer.u32 (rr_rejections value)
  ⨾ Writer.u32 (rr_active_flows value)
  ⨾ write_generation (rr_authority_floor value).

(** The attempts read fill a prefix of the array, the rest keeps its default. *)
Definition attempt_array (attempts : list AttemptRecord) : list AttemptRecord :=
  attempts ++ replicate (kMaxAttemptsPerRequest - length attempts) empty_attempt.

Definition decode_request_record : Reader.t → Result RequestRecord * Reader.t :=
  let~ id := read_id in
  let~ generation := read_generation in
  let~ lifecycle := Reader.enumeration RequestLifecycle.Unknown RequestLifecycle.Count in
  let~ stage := Reader.enumeration ServingStage.Unknown ServingStage.Count in
  let~ current_attempt := read_id in
  let~ current_attempt_generation := read_generation in
  let~ attempt_count := Reader.count (Z.of_nat kMaxAttemptsPerRequest) in
  check_then
  (let! attempts := decode_list (Z.to_nat attempt_count) decode_attempt_record in
   let~ terminal_reason := Reader.enumeration ReasonCode.Unknown ReasonCode.Count in
   let~ registered_at_nanos := Reader.i64 in
   let~ terminal_at_nanos := Reader.i64 in
   let~ requires_revalidation := Reader.boolean in
   let~ accounting_closed := Reader.boolean in
   let~ bytes_in := Reader.u64 in
   let~ bytes_out := Reader.u64 in
   let~ decisions := Reader.u32 in
   let~ defers := Reader.u32 in
   let~ rejections := Reader.u32 in
   let~ active_flows := Reader.u32 in
   let~ authority_floor := read_generation in
   check_then
     (if is_nil id then answer (Failure StatusCode.MalformedInput)
      else if (attempt_count >? 0) && is_nil current_attempt
        then answer (Failure StatusCode.MalformedInput)
      else if (lifecycle ≠? RequestLifecycle.Unknown) && (attempt_count ≟ 0)
              && (lifecycle ≠? RequestLifecycle.Registered)
        then answer (Failure StatusCode.MalformedInput)
      else answer (Success (MkRequest id generation lifecycle stage current_attempt
        current_attempt_generation (Z.to_nat attempt_count) (attempt_array attempts) terminal_reason
        registered_at_nanos terminal_at_nanos requires_revalidation accounting_closed bytes_in
        bytes_out decisions defers rejections active_flows authority_floor)))).

(** ** Evidence *)

Definition encode_model_state (value : ModelState) : Writer.t → Writer.t :=
  Writer.u64 (ms_model_hash value)
  ⨾ write_generation (ms_generation value)
  ⨾ Writer.boolean (ms_requires_revalidation value).

Definition decode_model_state : Reader.t → Result ModelState * Reader.t :=
  let~ model_hash := Reader.u64 in
  let~ generation := read_generation in
  let~ requires_revalidation := Reader.boolean in
  check_then
    (let value := MkModel model_hash generation requires_revalidation in
     if negb (model_is_valid value) then answer (Failure StatusCode.MalformedInput)
     else answer (Success value)).

Definition encode_state_generation_record (value : StateGenerationRecord) : Writer.t → Writer.t :=
  Writer.u64 (sg_state_hash value)
  ⨾ write_generation (sg_generation value)
  ⨾ Writer.boolean (sg_requires_revalidation value).

Definition decode_state_generation_record : Reader.t → Result StateGenerationRecord * Reader.t :=
  let~ state_hash := Reader.u64 in
  let~ generation := read_generation in
  let~ requires_revalidation := Reader.boolean in
  check_then
    (let value := MkStateGen state_hash generation requires_revalidation in
     if negb (state_is_valid value) then answer (Failure StatusCode.MalformedInput)
     else answer (Success value)).

Definition encode_topology_evidence (value : TopologyEvidence) : Writer.t → Writer.t :=
  write_generation (te_generation value)
  ⨾ Writer.enumeration (te_provenance value)
  ⨾ write_id (te_observed_boot value)
  ⨾ Writer.i64 (te_observed_at_nanos value)
  ⨾ Writer.u64 (te_max_age_nanos value)
  ⨾ Writer.u32 (te_node_count value)
  ⨾ Writer.u32 (te_accelerator_count value)
  ⨾ Writer.u32 (te_link_count value)
  ⨾ Writer.u64 (te_fabric_bytes_per_sec value)
  ⨾ Writer.u32 (te_queue_depth value)
  ⨾ Writer.boolean (te_congestion_signalled value)
  ⨾ Writer.boolean (te_disaggregated value).

Definition decode_topology_evidence (validate : bool) : Reader.t → Result TopologyEvidence * Reader.t :=
  let~ generation := read_generation in
  let~ provenance := Reader.enumeration EvidenceProvenance.Unknown EvidenceProvenance.Count in
  let~ observed_boot := read_id in
  let~ observed_at_nanos := Reader.i64 in
  let~ max_age_nanos := Reader.u64 in
  let~ node_count := Reader.u32 in
  let~ accelerator_count := Reader.u32 in
  let~ link_count := Reader.u32 in
  let~ fabric_bytes_per_sec := Reader.u64 in
  let~ queue_depth := Reader.u32 in
  let~ congestion_signalled := Reader.boolean in
  let~ disaggregated := Reader.boolean in
  check_then
    (let value := MkTopology generation provenance observed_boot observed_at_nanos max_age_nanos
       node_count accelerator_count link_count fabric_bytes_per_sec queue_depth congestion_signalled
       disaggregated in
     if validate && negb (topology_is_valid value) then answer (Failure StatusCode.MalformedInput)
     else answer (Success value)).

Definition encode_slo_contract (value : SloContract) : Writer.t → Writer.t :=
  write_generation (slo_generation value)
  ⨾ write_id (slo_request value)
  ⨾ Writer.u64 (slo_tail_latency_budget_nanos value)
  ⨾ Writer.u64 (slo_registration_deadline_nanos value)
  ⨾ Writer.u32 (slo_min_stream_share_per_mille value).

Definition decode_slo_contract : Reader.t → Result SloContract * Reader.t :=
  let~ generation := read_generation in
  let~ request := read_id in
  let~ tail_latency_budget_nanos := Reader.u64 in
  let~ registration_deadline_nanos := Reader.u64 in
  let~ min_stream_share_per_mille := Reader.u32 in
  check_then
    (let value := MkSlo generation request tail_latency_budget_nanos registration_deadline_nanos
       min_stream_share_per_mille in
     if negb (slo_is_valid value) then answer (Failure StatusCode.MalformedInput)
     else answer (Success value)).

Definition encode_route_decision (value : RouteDecision) : Writer.t → Writer.t :=
  write_generation (rd_generation value)
  ⨾ write_id (rd_request value)
  ⨾ write_id (rd_attempt value)
  ⨾ Writer.u32 (rd_target_node value)
  ⨾ Writer.boolean (rd_lateral value)
  ⨾ Writer.boolean (rd_disaggregated_handoff value).

Definition decode_route_decision : Reader.t → Result RouteDecision * Reader.t :=
  let~ generation := read_generation in
  let~ request := read_id in
  let~ attempt := read_id in
  let~ target_node := Reader.u32 in
  let~ lateral := Reader.boolean in
  let~ disaggregated_handoff := Reader.boolean in
  check_then
    (let value := MkRoute generation request attempt target_node lateral disaggregated_handoff in
     if negb (route_is_valid value) then answer (Failure StatusCode.MalformedInput)
     else answer (Success value)).

(** ** Transfers and completions *)

Definition encode_transfer_registration (value : TransferRegistration) : Writer.t → Writer.t :=
  write_id (tg_id value)
  ⨾ Writer.u64 (tg_state_hash value)
  ⨾ Writer.u64 (tg_model_hash value)
  ⨾ Writer.u64 (tg_payload_bytes value)
  ⨾ Writer.enumeration (tg_declared_class value)
  ⨾ Writer.enumeration (tg_direction value)
  ⨾ Writer.enumeration (tg_required_integrity value)
  ⨾ write_optional_id (tg_request value)
  ⨾ write_optional_id (tg_attempt value)
  ⨾ write_instant (tg_deadline value).

Definition decode_transfer_registration : Reader.t → Result TransferRegistration * Reader.t :=
  let~ id := read_id in
  let~ state_hash := Reader.u64 in
  let~ model_hash := Reader.u64 in
  let~ payload_bytes := Reader.u64 in
  let~ declared_class := Reader.enumeration TrafficClass.Unknown TrafficClass.Count in
  let~ direction := Reader.enumeration FlowDirection.Unknown FlowDirection.Count in
  let~ required_integrity := Reader.enumeration IntegrityClass.Unknown IntegrityClass.Count in
  let~ request := read_optional_id in
  let~ attempt := read_optional_id in
  let~ deadline := read_instant in
  check_then
    (if is_nil id then answer (Failure StatusCode.MalformedInput)
     else answer (Success (MkRegistration id state_hash model_hash payload_bytes declared_class
       direction required_integrity request attempt deadline))).

Definition encode_transfer_authorization (value : TransferAuthorization) : Writer.t → Writer.t :=
  write_id (ta_transfer value)
  ⨾ Writer.enumeration (ta_traffic_class value)
  ⨾ Writer.enumeration (ta_integrity value)
  ⨾ Writer.enumeration (ta_pacing value)
  ⨾ Writer.enumeration (ta_priority value)
  ⨾ encode_authority_stamp (ta_authority value)
  ⨾ Writer.enumeration (ta_reason value)
  ⨾ Writer.boolean (ta_authorized value)
  ⨾ write_id (ta_flow value).

Definition decode_transfer_authorization : Reader.t → Result TransferAuthorization * Reader.t :=
  let~ transfer := read_id in
  let~ traffic_class := Reader.enumeration TrafficClass.Unknown TrafficClass.Count in
  let~ integrity := Reader.enumeration IntegrityClass.Unknown IntegrityClass.Count in
  let~ pacing := Reader.enumeration PacingClass.Unknown PacingClass.Count in
  let~ priority := Reader.enumeration PriorityClass.Unknown PriorityClass.Count in
  let! authority := decode_authority_stamp in
  let~ reason := Reader.enumeration ReasonCode.Unknown ReasonCode.Count in
  let~ authorized := Reader.boolean in
  let~ flow := read_id in
  check_then (answer (Success (MkAuthorization transfer traffic_class integrity pacing priority
    authority reason authorized flow))).

Definition encode_completion_publication (value : CompletionPublication) : Writer.t → Writer.t :=
  write_id (cp_request value)
  ⨾ write_id (cp_attempt value)
  ⨾ write_generation (cp_attempt_generation value)
  ⨾ Writer.boolean (cp_success value)
  ⨾ Writer.enumeration (cp_reason value)
  ⨾ Writer.u64 (cp_bytes_in value)
  ⨾ Writer.u64 (cp_bytes_out value).

Definition decode_completion_publication : Reader.t → Result CompletionPublication * Reader.t :=
  let~ request := read_id in
  let~ attempt := read_id in
  let~ attempt_generation := read_generation in
  let~ success := Reader.boolean in
  let~ reason := Reader.enumeration ReasonCode.Unknown ReasonCode.Count in
  let~ bytes_in := Reader.u64 in
  let~ bytes_out := Reader.u64 in
  check_then
    (if is_nil request || is_nil attempt then answer (Failure StatusCode.MalformedInput)
     else answer (Success (MkPublication request attempt attempt_generation success reason bytes_in
       bytes_out))).

Definition encode_publish_outcome (value : PublishOutcome) : Writer.t → Writer.t :=
  Writer.enumeration (po_disposition value)
  ⨾ write_status_code (po_refusal value)
  ⨾ Writer.enumeration (po_reason value)
  ⨾ Writer.u64 (po_accounted_bytes_in value)
  ⨾ Writer.u64 (po_accounted_bytes_out value)
  ⨾ Writer.u32 (po_released_flows value).

(** The refusal, and the failure of the reader when it is not a status code. *)
Definition read_refusal (r : Reader.t) : StatusCode.t * Reader.t :=
  let '(refusal, r) := Reader.u16 r in
  (status_of_code refusal,
   if refusal >? StatusCode.value StatusCode.Refused
   then Reader.fail StatusCode.MalformedInput r else r).

Definition decode_publish_outcome : Reader.t → Result PublishOutcome * Reader.t :=
  let~ disposition := Reader.enumeration Disposition.Unknown Disposition.Count in
  let~ refusal := read_refusal in
  let~ reason := Reader.enumeration ReasonCode.Unknown ReasonCode.Count in
  let~ accounted_bytes_in := Reader.u64 in
  let~ accounted_bytes_out := Reader.u64 in
  let~ released_flows := Reader.u32 in
  check_then (answer (Success (MkOutcome disposition refusal reason accounted_bytes_in
    accounted_bytes_out released_flows))).

(** ** Status *)

Definition encode_coordinator_status (value : CoordinatorStatus) : Writer.t → Writer.t :=
  write_generation (cs_epoch value)
  ⨾ write_id (cs_incarnation value)
  ⨾ write_generation (cs_policy_generation value)
  ⨾ write_generation (cs_topology_generation value)
  ⨾ Writer.enumeration (cs_topology_state value)
  ⨾ Writer.enumeration (cs_topology_provenance value)
  ⨾ Writer.u64 (cs_live_requests value)
  ⨾ Writer.u64 (cs_transfers value)
  ⨾ Writer.u32 (cs_active_flows value)
  ⨾ Writer.u64 (cs_authority_sequence value).

Definition decode_coordinator_status : Reader.t → Result CoordinatorStatus * Reader.t :=
  let~ epoch := read_generation in
  let~ incarnation := read_id in
  let~ policy_generation := read_generation in
  let~ topology_generation := read_generation in
  let~ topology_state := Reader.enumeration EvidenceState.Unknown EvidenceState.Count in
  let~ topology_provenance := Reader.enumeration EvidenceProvenance.Unknown EvidenceProvenance.Count in
  let~ live_requests := Reader.u64 in
  let~ transfers := Reader.u64 in
  let~ active_flows := Reader.u32 in
  let~ authority_sequence := Reader.u64 in
  check_then (answer (Success (MkStatus epoch incarnation policy_generation topology_generation
    topology_state topology_provenance live_requests transfers active_flows authority_sequence))).

Definition encode_instant : Z → Writer.t → Writer.t := write_instant.

(** Answers a success from a reader that has failed, too. *)
Definition decode_instant (r : Reader.t) : Result Z * Reader.t :=
  let '(value, r) := read_instant r in (Success value, r).
