(* ===== verification/SerializeProps.v ===== *)
(** * Round trips and soundness of the record codecs

    For each record of src/serialize.cpp: the values that survive encoding and
    decoding ([.._ok], every field within its type and what the decoder checks),
    that they do and in how many bytes, and that a decoder fed with arbitrary
    bytes answers such a value or an error. *)

From S2P Require Import Prelude Ids Traffic Decision Policy Bytes Codec Ledger Coordinator CoordAudit.
From S2P Require Import CodecProps PolicyCodec Format Serialize.

(** ** Sentinels *)

#[export] Instance TrafficClass_sentinel : Sentinel TrafficClass.Count. Proof. solve_sentinel. Qed.
#[export] Instance ServingStage_sentinel : Sentinel ServingStage.Count. Proof. solve_sentinel. Qed.
#[export] Instance FlowDirection_sentinel : Sentinel FlowDirection.Count. Proof. solve_sentinel. Qed.
#[export] Instance PriorityClass_sentinel : Sentinel PriorityClass.Count. Proof. solve_sentinel. Qed.
#[export] Instance PacingClass_sentinel : Sentinel PacingClass.Count. Proof. solve_sentinel. Qed.
#[export] Instance IntegrityClass_sentinel : Sentinel IntegrityClass.Count. Proof. solve_sentinel. Qed.
#[export] Instance IsolationDomain_sentinel : Sentinel IsolationDomain.Count. Proof. solve_sentinel. Qed.
#[export] Instance PriorityHint_sentinel : Sentinel PriorityHint.Count. Proof. solve_sentinel. Qed.
#[export] Instance SubjectKind_sentinel : Sentinel SubjectKind.Count. Proof. solve_sentinel. Qed.
#[export] Instance DecisionOutcome_sentinel : Sentinel DecisionOutcome.Count. Proof. solve_sentinel. Qed.
#[export] Instance ReasonCode_sentinel : Sentinel ReasonCode.Count. Proof. solve_sentinel. Qed.
#[export] Instance ExplanationRule_sentinel : Sentinel ExplanationRule.Count. Proof. solve_sentinel. Qed.
#[export] Instance EvidenceState_sentinel : Sentinel EvidenceState.Count. Proof. solve_sentinel. Qed.
#[export] Instance EvidenceProvenance_sentinel : Sentinel EvidenceProvenance.Count. Proof. solve_sentinel. Qed.
#[export] Instance RequestLifecycle_sentinel : Sentinel RequestLifecycle.Count. Proof. solve_sentinel. Qed.
#[export] Instance AttemptLifecycle_sentinel : Sentinel AttemptLifecycle.Count. Proof. solve_sentinel. Qed.
#[export] Instance Disposition_sentinel : Sentinel Disposition.Count. Proof. solve_sentinel. Qed.
#[export] Instance TransferState_sentinel : Sentinel TransferState.Count. Proof. solve_sentinel. Qed.

(** ** Fields of this file *)

Definition generation_ok (o : option Z) : Prop := ∀ g, o = Some g → is_u64 g ∧ g ≠ 0.

Section fields.
#[local] Opaque le_bytes.

Lemma reads_read_id x : id_ok x → reads read_id (id_bytes x) x.
Proof.
  intros [Hh Hlo] limit pre rest Hl. unfold read_id, id_bytes in *. rewrite <- !app_assoc in *.
  rewrite reads_u64 by done. rewrite reads_u64 by (done || by rewrite <- app_assoc).
  rewrite reading_ok, <- app_assoc. by destruct x.
Qed.

Lemma carries_write_id x : id_ok x → carries (write_id x) read_id x 16.
Proof.
  intros. apply (carries_intro _ _ (id_bytes x)); [apply writes_id|by apply reads_read_id|apply id_bytes_bytes|].
  unfold len, id_bytes. by rewrite length_app, !length_le_bytes.
Qed.

(** A flag, then a field when the flag is set. *)
Lemma reads_flag {A} (b : bool) (y : A) (m : Reader.t → A * Reader.t) l x :
  (if b then reads m l x else l = [] ∧ x = y) →
  reads (fun r => let '(present, r) := Reader.boolean r in
    if negb (Reader.ok r) then (y, r) else if negb present then (y, r) else m r) (bool_bytes b ++ l) x.
Proof.
  intros H. eapply (reads_bind Reader.boolean); [apply reads_boolean|]. apply reads_check.
  destruct b; [done|]. destruct H as [-> ->]. apply reads_ret.
Qed.

Lemma carries_flag {A} (b : bool) (y : A) f (m : Reader.t → A * Reader.t) x n :
  0 ≤ n → (b = true → carries f m x n) → (b = false → x = y) →
  carries (Writer.boolean b ⨾ (if b then f else fun w => w))
    (fun r => let '(present, r) := Reader.boolean r in
      if negb (Reader.ok r) then (y, r) else if negb present then (y, r) else m r) x (1 + n).
Proof.
  intros Hn Ht Hf. destruct b.
  - destruct (Ht eq_refl) as (l&W&R&Hb&L). apply (carries_intro _ _ (bool_bytes true ++ l)).
    + exact (writes_seq _ f _ _ (writes_boolean true) W).
    + by apply reads_flag.
    + apply Forall_app. split; [by apply Forall_singleton|done].
    + rewrite len_app. change (len (bool_bytes true)) with 1. lia.
  - apply (carries_intro _ _ (bool_bytes false ++ [])).
    + exact (writes_seq _ _ _ _ (writes_boolean false) writes_nil).
    + apply (reads_flag false); auto.
    + by apply Forall_singleton.
    + change (len (bool_bytes false ++ [])) with 1. lia.
Qed.

Lemma carries_optional_id x : id_ok x → carries (write_optional_id x) read_optional_id x 17.
Proof.
  intros. apply (carries_flag (negb (is_nil x)) nil_id (write_id x) read_id x 16); [done|..].
  - intros _. by apply carries_write_id.
  - intros E%negb_false_iff. by apply is_nil_spec in E.
Qed.

Lemma carries_instant v : is_i64 v → carries (write_instant v) read_instant v 9.
Proof.
  intros Hv. apply (carries_flag (Instant_is_set v) kUnset (Writer.i64 v) _ v 8); [done|..].
  - intros _. eapply (carries_last _ Reader.i64 (fun n r => (Instant_at n, r))); [by apply carries_i64|].
    apply reads_ret.
  - unfold Instant_is_set. intros E%negb_false_iff. by apply bool_decide_eq_true in E.
Qed.

Lemma carries_optional_generation o :
  generation_ok o → carries (write_optional_generation o) read_optional_generation o 9.
Proof.
  intros Ho. set (b := has_value o).
  pose proof (carries_flag b None (Writer.u64 (default 0 o)) (fun r => let '(value, r) := Reader.u64 r in
    if negb (Reader.ok r) || (value ≟ 0) then (None, Reader.fail StatusCode.MalformedInput r)
    else (Some value, r)) o 8 ltac:(done)) as H.
  destruct o as [g|]; [|by apply H].
  destruct (Ho g eq_refl) as [Hg Hne]. destruct g as [|p|p]; [done| |by destruct Hg]. apply H; [intros _|done].
  eapply (carries_last _ Reader.u64 (fun value r =>
    if negb (Reader.ok r) || (value ≟ 0) then (None, Reader.fail StatusCode.MalformedInput r)
    else (Some value, r))); [by apply carries_u64|]. cbn beta.
  intros limit pre rest _. rewrite reading_ok, app_nil_r. done.
Qed.

End fields.

Lemma carries_write_generation g : is_u64 g → carries (write_generation g) read_generation g 8.
Proof. apply carries_u64. Qed.

Lemma status_code_range c : 0 ≤ StatusCode.value c ≤ 29.
Proof. by destruct c. Qed.

Lemma status_of_code_value c : status_of_code (StatusCode.value c) = c.
Proof. by destruct c. Qed.

Lemma carries_refusal c : carries (write_status_code c) read_refusal c 2.
Proof.
  pose proof (status_code_range c). unfold write_status_code.
  eapply (carries_last _ Reader.u16 (fun refusal r => (status_of_code refusal,
    if refusal >? StatusCode.value StatusCode.Refused then Reader.fail StatusCode.MalformedInput r else r)));
    [apply carries_u16; lia|]. cbn beta.
  intros limit pre rest _. rewrite status_of_code_value, app_nil_r.
  rewrite Z.gtb_ltb. change (StatusCode.value StatusCode.Refused) with 29.
  destruct (Z.ltb_spec 29 (StatusCode.value c)); [lia|done].
Qed.

Lemma yields_read_id : yields read_id id_ok.
Proof.
  unfold read_id. eapply yields_bind; [apply yields_u64|]. intros h.
  eapply yields_bind; [apply yields_u64|]. intros l. apply (yields_check (fun r => (MkId h l, r)) (fun _ => nil_id)).
  apply yields_ret. by intros Hl Hh.
Qed.

Lemma yields_flag {A} (y : A) (m : Reader.t → A * Reader.t) (P : A → Prop) :
  P y → yields m P →
  yields (fun r => let '(present, r) := Reader.boolean r in
    if negb (Reader.ok r) then (y, r) else if negb present then (y, r) else m r) P.
Proof.
  intros Hy Hm. eapply (yields_bind Reader.boolean (fun present r =>
    if negb (Reader.ok r) then (y, r) else if negb present then (y, r) else m r)); [apply yields_boolean|].
  intros b. apply (yields_check _ (fun _ => y)). destruct b; simpl; [|by apply yields_ret].
  by eapply yields_weaken; [exact Hm|].
Qed.

Lemma yields_optional_id : yields read_optional_id id_ok.
Proof. by apply yields_flag; [|apply yields_read_id]. Qed.

Lemma yields_instant : yields read_instant is_i64.
Proof.
  apply yields_flag; [done|]. eapply yields_bind; [apply yields_i64|]. intros v. by apply yields_ret.
Qed.

Lemma yields_optional_generation : yields read_optional_generation generation_ok.
Proof.
  apply yields_flag; [done|]. intros r Hr. destruct (yields_u64 r Hr) as [M1 P1].
  destruct (Reader.u64 r) as [v r1]. simpl in *.
  destruct (negb (Reader.ok r1) || (v ≟ 0)) eqn:E; simpl.
  - split; [by eapply moves_trans, moves_fail, M1|]. intros H. by rewrite ok_fail in H.
  - apply orb_false_iff in E as [E1%negb_false_iff E2%bool_decide_eq_false].
    split; [done|]. intros _ g [= <-]. auto.
Qed.

Lemma yields_read_generation : yields read_generation is_u64.
Proof. apply yields_u64. Qed.

Lemma yields_refusal : yields read_refusal (fun _ => True).
Proof.
  intros r Hr. unfold read_refusal. destruct (yields_u16 r Hr) as [M1 P1].
  destruct (Reader.u16 r) as [v r1]. simpl in *. split; [|done]. case_match; [|done].
  by eapply moves_trans, moves_fail, M1.
Qed.

#[export] Hint Resolve carries_write_id carries_optional_id carries_instant carries_optional_generation
  carries_write_generation carries_refusal : wire.
#[export] Hint Resolve yields_read_id yields_optional_id yields_instant yields_optional_generation
  yields_read_generation yields_refusal : wire.

(** Ends a round trip: the checks of the decoder pass and the record read is the
    record written. *)
Ltac carry_done := by repeat apply reads_check_then; apply reads_answer.

(** The same when the last check is a validity test that [H] says passes. *)
Ltac carry_valid H :=
  lazymatch goal with
  | |- context [if negb ?b then _ else _] => replace b with true by (symmetry; exact H)
  end; carry_done.

(** Ends a soundness proof: each check that refuses answers an error. *)
Ltac decode_done :=
  repeat (apply decodes_if; intros ?); try (by apply decodes_failure); apply decodes_success; intros.

(** The same, and turns the checks that passed into propositions. *)
Ltac decode_checked :=
  decode_done;
  repeat match goal with
  | H : negb _ = false |- _ => apply negb_false_iff in H
  | H : bool_decide _ = true |- _ => apply bool_decide_eq_true in H
  | H : bool_decide _ = false |- _ => apply bool_decide_eq_false in H
  | H : (_ >? _) = false |- _ => rewrite Z.gtb_ltb in H; apply Z.ltb_ge in H
  | H : (_ <=? _) = false |- _ => apply Z.leb_gt in H
  | H : _ || _ = false |- _ => apply orb_false_iff in H as [? ?]
  end.

(** ** Subjects, bindings, requests *)

Record subject_ok (s : TrafficSubject) : Prop := {
  so_kind : sub_kind s ≠ SubjectKind.Count;
  so_request : id_ok (sub_request s);
  so_attempt : id_ok (sub_attempt s);
  so_request_generation : is_u64 (sub_request_generation s);
  so_transfer : id_ok (sub_transfer s);
  (** A subject of a known kind carries the identities of its kind. *)
  so_valid : sub_kind s ≠ SubjectKind.Unknown → subject_is_valid s = true;
}.

Lemma carries_traffic_subject s :
  subject_ok s → carries (encode_traffic_subject s) decode_traffic_subject (Success s) 58.
Proof.
  intros []. unfold encode_traffic_subject, decode_traffic_subject. carry_fields.
  - destruct s as [[] q a g t]; try done; simpl in *; unfold subject_is_valid in *; simpl in *;
      try specialize (so_valid0 ltac:(done)); destruct (is_nil q), (is_nil a), (is_unset g), (is_nil t); carry_done.
  - done.
Qed.

Lemma decodes_traffic_subject : decodes false decode_traffic_subject subject_ok.
Proof.
  unfold decode_traffic_subject. decode_fields. decode_done. split; try done. simpl.
  intros Hk. unfold subject_is_valid. simpl.
  destruct x; try done; simpl in *; destruct_or?;
    repeat match goal with H : _ = false |- _ => apply orb_false_iff in H as [? ?] end;
    repeat match goal with H : ?e = false |- context [?e] => rewrite H end; done.
Qed.
#[export] Hint Resolve carries_traffic_subject decodes_traffic_subject : wire.

Record binding_ok (b : GenerationBinding) : Prop := {
  bo_request_generation : generation_ok (gb_request_generation b);
  bo_model_generation : generation_ok (gb_model_generation b);
  bo_state_generation : generation_ok (gb_state_generation b);
  bo_route_decision : generation_ok (gb_route_decision b);
  bo_slo_contract : generation_ok (gb_slo_contract b);
  bo_topology : generation_ok (gb_topology b);
  bo_policy : generation_ok (gb_policy b);
  bo_coordinator_epoch : generation_ok (gb_coordinator_epoch b);
}.

Lemma carries_generation_binding b :
  binding_ok b → carries (encode_generation_binding b) decode_generation_binding (Success b) 72.
Proof.
  intros []. unfold encode_generation_binding, decode_generation_binding. carry_fields; [|done].
  destruct b. carry_done.
Qed.

Lemma decodes_generation_binding : decodes false decode_generation_binding binding_ok.
Proof. unfold decode_generation_binding. decode_fields. decode_done. by split. Qed.
#[export] Hint Resolve carries_generation_binding decodes_generation_binding : wire.

Record request_ok (r : TrafficRequest) : Prop := {
  qo_subject : ∀ s, tr_subject r = Some s → subject_ok s;
  qo_class : tr_declared_class r ≠ TrafficClass.Count;
  qo_stage : tr_declared_stage r ≠ ServingStage.Count;
  qo_direction : tr_direction r ≠ FlowDirection.Count;
  qo_hint : tr_priority_hint r ≠ PriorityHint.Count;
  qo_payload_bytes : is_u64 (tr_payload_bytes r);
  qo_observed_bytes : is_u64 (tr_observed_bytes r);
  qo_token_count : is_u32 (tr_token_count r);
  qo_chunk_index : is_u32 (tr_chunk_index r);
  qo_total_chunks : is_u32 (tr_total_chunks r);
  qo_tenant_hash : is_u64 (tr_tenant_hash r);
  qo_model_hash : is_u64 (tr_model_hash r);
  qo_adapter_hash : is_u64 (tr_adapter_hash r);
  qo_deadline : is_i64 (tr_deadline r);
  qo_deadline_after_nanos : is_u64 (tr_deadline_after_nanos r);
  qo_binding : binding_ok (tr_binding r);
  qo_valid : structurally_valid r = true;
}.

Lemma carries_traffic_request r :
  request_ok r → carries (encode_traffic_request r) decode_traffic_request (Success r) 208.
Proof.
  intros []. unfold encode_traffic_request, decode_traffic_request.
  eapply carries_weaken. do 2 carry_field.
  { eapply carries_then.
    - apply (carries_optional _ _ _ 58); [done|]. auto with wire.
    - repeat carry_field. destruct r. carry_valid qo_valid0. }
  done.
Qed.

Lemma decodes_traffic_request : decodes false decode_traffic_request request_ok.
Proof.
  unfold decode_traffic_request. decode_field. decode_field.
  eapply decodes_then; [apply decodes_when, decodes_any, decodes_traffic_subject|]. intros ? [_ ?].
  decode_fields. decode_done. split; try done. by apply negb_false_iff.
Qed.
#[export] Hint Resolve carries_traffic_request decodes_traffic_request : wire.

(** ** Treatments, stamps, decisions *)

Record treatment_ok (t : TrafficTreatment) : Prop := {
  to_class : tt_traffic_class t ≠ TrafficClass.Count;
  to_priority : tt_priority t ≠ PriorityClass.Count;
  to_pacing : tt_pacing t ≠ PacingClass.Count;
  to_integrity : tt_integrity t ≠ IntegrityClass.Count;
  to_isolation : tt_isolation t ≠ IsolationDomain.Count;
  to_reserved_weight : is_u32 (tt_reserved_weight t);
  to_max_burst_bytes : is_u64 (tt_max_burst_bytes t);
  to_rate_limit : is_u64 (tt_rate_limit_bytes_per_sec t);
  to_flow : id_ok (tt_flow t);
  to_hold_until : is_i64 (tt_hold_until t);
  to_defer_count : is_u32 (tt_defer_count t);
}.

Lemma carries_traffic_treatment t :
  treatment_ok t → carries (encode_traffic_treatment t) decode_traffic_treatment (Success t) 59.
Proof.
  intros []. unfold encode_traffic_treatment, decode_traffic_treatment. carry_fields; [|done].
  destruct t. carry_done.
Qed.

Lemma decodes_traffic_treatment : decodes false decode_traffic_treatment treatment_ok.
Proof. unfold decode_traffic_treatment. decode_fields. decode_done. by split. Qed.
#[export] Hint Resolve carries_traffic_treatment decodes_traffic_treatment : wire.

Record step_ok (s : ExplanationStep) : Prop := {
  eo_rule : step_rule s ≠ ExplanationRule.Count;
  eo_value : is_i64 (step_value s);
  eo_secondary : is_i64 (step_secondary s);
}.

Lemma carries_explanation_step s :
  step_ok s → carries (encode_explanation_step s) decode_explanation_step (Success s) 18.
Proof.
  intros []. unfold encode_explanation_step, decode_explanation_step. carry_fields; [|done].
  destruct s. carry_done.
Qed.

Lemma decodes_explanation_step : decodes false decode_explanation_step step_ok.
Proof. unfold decode_explanation_step. decode_fields. decode_done. by split. Qed.
#[export] Hint Resolve carries_explanation_step decodes_explanation_step : wire.

Record stamp_ok (s : AuthorityStamp) : Prop := {
  mo_epoch : is_u64 (st_epoch s);
  mo_incarnation : id_ok (st_incarnation s);
  mo_policy : is_u64 (st_policy s);
  mo_sequence : is_u64 (st_sequence s);
  mo_valid : stamp_is_valid s = true;
}.

Lemma carries_authority_stamp s :
  stamp_ok s → carries (encode_authority_stamp s) decode_authority_stamp (Success s) 40.
Proof.
  intros []. unfold encode_authority_stamp, decode_authority_stamp. carry_fields; [|done].
  destruct s. carry_valid mo_valid0.
Qed.

Lemma decodes_authority_stamp : decodes false decode_authority_stamp stamp_ok.
Proof.
  unfold decode_authority_stamp. decode_fields. decode_done. split; try done. by apply negb_false_iff.
Qed.
#[export] Hint Resolve carries_authority_stamp decodes_authority_stamp : wire.

(** The fields of a decision within their types, as any decoded one has them. *)
Record decision_typed (d : Decision) : Prop := {
  do_outcome : dec_outcome d ≠ DecisionOutcome.Count;
  do_reason : dec_reason d ≠ ReasonCode.Count;
  do_treatment : treatment_ok (dec_treatment d);
  do_subject : subject_ok (dec_subject d);
  do_binding : binding_ok (dec_binding d);
  do_authority : stamp_ok (dec_authority d);
  do_defer_hint : is_u64 (dec_defer_hint_nanos d);
  do_explanation : Forall step_ok (dec_explanation d);
  do_steps : (length (dec_explanation d) ≤ kMaxExplanationSteps)%nat;
}.

(** An invalid subject is not written, so that only the empty one comes back. *)
Definition decision_ok (d : Decision) : Prop :=
  decision_typed d ∧ (subject_is_valid (dec_subject d) = true ∨ dec_subject d = empty_subject).

Lemma carries_steps l :
  Forall step_ok l →
  carries (encode_list encode_explanation_step l) (decode_list (length l) decode_explanation_step)
    (Success l) (18 * len l).
Proof. intros Hl. apply carries_list. intros x Hx. rewrite Forall_forall in Hl. auto with wire. Qed.

Lemma carries_decision d :
  decision_ok d → carries (encode_decision d) decode_decision (Success d) 678.
Proof.
  intros [[] Hs]. unfold encode_decision, decode_decision.
  rewrite Nat.min_l, firstn_all by done. eapply carries_weaken. do 5 carry_field.
  { eapply carries_then; [apply (carries_when _ _ _ (dec_subject d) 58); auto with wire lia|].
    cbn beta. do 3 carry_field.
    eapply carries_bind; [apply carries_count; unfold kMaxExplanationSteps, two32 in *; lia|].
    cbn beta. carry_field. rewrite Z.gtb_ltb, (proj2 (Z.ltb_ge _ _)), Nat2Z.id by lia.
    eapply carries_then_last; [by apply carries_steps|].
    destruct d; simpl in *. destruct Hs as [-> | ->]; carry_done. }
  unfold len, kMaxExplanationSteps in *. lia.
Qed.

Lemma empty_subject_ok : subject_ok empty_subject.
Proof. by split. Qed.

Lemma decodes_decision : decodes false decode_decision decision_typed.
Proof.
  unfold decode_decision. do 5 decode_field.
  eapply decodes_then; [apply decodes_when, decodes_any, decodes_traffic_subject|]. intros o [_ ?].
  do 5 decode_field. apply decodes_if; intros Hc; [by apply decodes_failure|].
  eapply decodes_then; [apply decodes_list, decodes_any, decodes_explanation_step|]. intros l [Hl Hall].
  decode_done. split; try done; simpl.
  - destruct o; simpl; auto using empty_subject_ok.
  - rewrite Hl, Z.gtb_ltb in *. apply Z.ltb_ge in Hc. unfold kMaxExplanationSteps in *. lia.
Qed.
#[export] Hint Resolve carries_decision decodes_decision : wire.

(** ** Accounting *)

Record class_accounting_ok (a : ClassAccounting) : Prop := {
  co_allowed : is_u64 (ca_allowed a);
  co_degraded : is_u64 (ca_degraded a);
  co_deferred : is_u64 (ca_deferred a);
  co_rejected : is_u64 (ca_rejected a);
  co_bytes_allowed : is_u64 (ca_bytes_allowed a);
  co_bytes_deferred : is_u64 (ca_bytes_deferred a);
  co_bytes_rejected : is_u64 (ca_bytes_rejected a);
  co_active_flows : is_u32 (ca_active_flows a);
  co_peak_active_flows : is_u32 (ca_peak_active_flows a);
  co_starvation_admissions : is_u32 (ca_starvation_admissions a);
}.

Lemma carries_class_accounting a :
  class_accounting_ok a → carries (encode_class_accounting a) decode_class_accounting a 68.
Proof.
  intros []. unfold encode_class_accounting, decode_class_accounting. carry_fields; [|done].
  destruct a. carry_done.
Qed.

Lemma yields_class_accounting : yields decode_class_accounting class_accounting_ok.
Proof.
  unfold decode_class_accounting.
  do 10 (eapply yields_bind; [by auto with wire|intros ?]). apply yields_ret. intros. by split.
Qed.

Record accounting_ok (a : AccountingSnapshot) : Prop := {
  ao_classes : length (as_per_class a) = kTrafficClassCount;
  ao_per_class : Forall class_accounting_ok (as_per_class a);
  ao_requests_registered : is_u64 (as_requests_registered a);
  ao_requests_completed : is_u64 (as_requests_completed a);
  ao_requests_cancelled : is_u64 (as_requests_cancelled a);
  ao_requests_failed : is_u64 (as_requests_failed a);
  ao_requests_interrupted : is_u64 (as_requests_interrupted a);
  ao_requests_evicted : is_u64 (as_requests_evicted a);
  ao_attempts_registered : is_u64 (as_attempts_registered a);
  ao_attempts_completed : is_u64 (as_attempts_completed a);
  ao_attempts_failed : is_u64 (as_attempts_failed a);
  ao_attempts_superseded : is_u64 (as_attempts_superseded a);
  ao_completions_committed : is_u64 (as_completions_committed a);
  ao_completions_suppressed : is_u64 (as_completions_suppressed a);
  ao_completions_refused : is_u64 (as_completions_refused a);
  ao_transfers_started : is_u64 (as_transfers_started a);
  ao_transfers_completed : is_u64 (as_transfers_completed a);
  ao_transfers_refused : is_u64 (as_transfers_refused a);
  ao_active_flows_total : is_u32 (as_active_flows_total a);
  ao_peak_active_flows_total : is_u32 (as_peak_active_flows_total a);
  ao_pending_deferrals : is_u32 (as_pending_deferrals a);
  ao_live_requests : is_u64 (as_live_requests a);
  ao_retained_requests : is_u64 (as_retained_requests a);
}.

Lemma carries_per_class l :
  length l = kTrafficClassCount → Forall class_accounting_ok l →
  carries (encode_list encode_class_accounting l) (read_list kTrafficClassCount decode_class_accounting) l 816.
Proof.
  intros Hl Hall. rewrite <- Hl. eapply carries_weaken.
  - apply carries_read_list. intros x Hx. apply carries_class_accounting. by eapply Forall_forall.
  - unfold len. by rewrite Hl.
Qed.

Lemma yields_per_class :
  yields (read_list kTrafficClassCount decode_class_accounting)
    (fun l => length l = kTrafficClassCount ∧ Forall class_accounting_ok l).
Proof. apply yields_list, yields_class_accounting. Qed.
#[local] Hint Resolve carries_per_class yields_per_class : wire.

Lemma carries_accounting_snapshot a :
  accounting_ok a → carries (encode_accounting_snapshot a) decode_accounting_snapshot (Success a) 974.
Proof.
  intros []. unfold encode_accounting_snapshot, decode_accounting_snapshot.
  eapply carries_weaken.
  - eapply carries_bind; [by apply carries_u16|]. cbn beta. carry_field.
    change (Z.of_nat kTrafficClassCount ≠? Z.of_nat kTrafficClassCount) with false. cbn [negb].
    repeat carry_field. destruct a. carry_done.
  - done.
Qed.

Lemma decodes_accounting_snapshot : decodes false decode_accounting_snapshot accounting_ok.
Proof.
  unfold decode_accounting_snapshot. do 2 decode_field. apply decodes_if; intros ?; [by apply decodes_failure|].
  decode_fields. decode_done. destruct_and!. by split.
Qed.
#[export] Hint Resolve carries_accounting_snapshot decodes_accounting_snapshot : wire.

(** ** Requests and attempts *)

Record attempt_ok (a : AttemptRecord) : Prop := {
  po_id : id_ok (at_id a);
  po_generation : is_u64 (at_generation a);
  po_stage : at_stage a ≠ ServingStage.Count;
  po_lifecycle : at_lifecycle a ≠ AttemptLifecycle.Count;
  po_model_hash : is_u64 (at_model_hash a);
  po_model_generation : is_u64 (at_model_generation a);
  po_route_generation : is_u64 (at_route_generation a);
  po_terminal_reason : at_terminal_reason a ≠ ReasonCode.Count;
  po_bytes_in : is_u64 (at_bytes_in a);
  po_bytes_out : is_u64 (at_bytes_out a);
  po_decisions : is_u32 (at_decisions a);
  po_defers : is_u32 (at_defers a);
  po_rejections : is_u32 (at_rejections a);
  po_registered_at : is_i64 (at_registered_at_nanos a);
  po_updated_at : is_i64 (at_updated_at_nanos a);
}.

Lemma carries_attempt_record a :
  attempt_ok a → carries (encode_attempt_record a) decode_attempt_record (Success a) 100.
Proof.
  intros []. unfold encode_attempt_record, decode_attempt_record. carry_fields; [|done].
  destruct a. carry_done.
Qed.

Lemma decodes_attempt_record : decodes false decode_attempt_record attempt_ok.
Proof. unfold decode_attempt_record. decode_fields. decode_done. by split. Qed.
#[export] Hint Resolve carries_attempt_record decodes_attempt_record : wire.

Record request_record_ok (r : RequestRecord) : Prop := {
  ro_id : id_ok (rr_id r);
  ro_generation : is_u64 (rr_generation r);
  ro_lifecycle : rr_lifecycle r ≠ RequestLifecycle.Count;
  ro_stage : rr_stage r ≠ ServingStage.Count;
  ro_current_attempt : id_ok (rr_current_attempt r);
  ro_current_attempt_generation : is_u64 (rr_current_attempt_generation r);
  ro_attempt_count : (rr_attempt_count r ≤ kMaxAttemptsPerRequest)%nat;
  (** A used prefix of the array of eight, default records after it. *)
  ro_attempts : ∃ l, rr_attempts r = attempt_array l ∧ length l = rr_attempt_count r ∧ Forall attempt_ok l;
  ro_terminal_reason : rr_terminal_reason r ≠ ReasonCode.Count;
  ro_registered_at : is_i64 (rr_registered_at_nanos r);
  ro_terminal_at : is_i64 (rr_terminal_at_nanos r);
  ro_bytes_in : is_u64 (rr_bytes_in r);
  ro_bytes_out : is_u64 (rr_bytes_out r);
  ro_decisions : is_u32 (rr_decisions r);
  ro_defers : is_u32 (rr_defers r);
  ro_rejections : is_u32 (rr_rejections r);
  ro_active_flows : is_u32 (rr_active_flows r);
  ro_authority_floor : is_u64 (rr_authority_floor r);
  (** What the decoder insists on. *)
  ro_named : rr_id r ≠ nil_id;
  ro_current : (0 < rr_attempt_count r)%nat → rr_current_attempt r ≠ nil_id;
  ro_started : rr_attempt_count r = 0%nat →
    rr_lifecycle r = RequestLifecycle.Unknown ∨ rr_lifecycle r = RequestLifecycle.Registered;
}.

Lemma carries_attempts l :
  Forall attempt_ok l →
  carries (encode_list encode_attempt_record l) (decode_list (length l) decode_attempt_record)
    (Success l) (100 * len l).
Proof. intros Hl. apply carries_list. intros x Hx. rewrite Forall_forall in Hl. auto with wire. Qed.

(** The three checks at the end of the decoder pass. *)
Lemma request_checks r {A} (x y : A) :
  request_record_ok r →
  (if is_nil (rr_id r) then x
   else if (Z.of_nat (rr_attempt_count r) >? 0) && is_nil (rr_current_attempt r) then x
   else if (rr_lifecycle r ≠? RequestLifecycle.Unknown) && (Z.of_nat (rr_attempt_count r) ≟ 0)
           && (rr_lifecycle r ≠? RequestLifecycle.Registered) then x
   else y) = y.
Proof.
  intros []. rewrite (proj2 (is_nil_false _)) by done.
  destruct (rr_attempt_count r) as [|n] eqn:E.
  - simpl. destruct (ro_started0 eq_refl) as [-> | ->]; done.
  - rewrite (proj2 (is_nil_false (rr_current_attempt r))) by (apply ro_current0; lia).
    rewrite andb_false_r. rewrite (bool_decide_false (Z.of_nat (S n) = 0)) by lia.
    by rewrite andb_false_r.
Qed.

Lemma carries_request_record r :
  request_record_ok r → carries (encode_request_record r) decode_request_record (Success r) 916.
Proof.
  intros Hr. pose proof (fun A (x y : A) => request_checks r x y Hr) as Hc.
  destruct Hr, ro_attempts0 as (l&El&Hl&Hall). unfold encode_request_record, decode_request_record.
  rewrite Nat.min_l by done.
  assert (take (rr_attempt_count r) (rr_attempts r) = l) as ->.
  { rewrite El, <- Hl. unfold attempt_array. by rewrite take_app_length. }
  eapply carries_weaken.
  - do 6 carry_field. eapply carries_bind; [apply carries_count; unfold kMaxAttemptsPerRequest, two32 in *; lia|].
    cbn beta. carry_field. rewrite Nat2Z.id, <- Hl at 1.
    eapply carries_then; [by apply carries_attempts|]. cbn beta. repeat carry_field. rewrite Hc, Nat2Z.id.
    destruct r; simpl in *; subst; carry_done.
  - unfold len. rewrite Hl. unfold kMaxAttemptsPerRequest in *. lia.
Qed.

Lemma decodes_request_record : decodes false decode_request_record request_record_ok.
Proof.
  unfold decode_request_record. do 8 decode_field.
  eapply decodes_then; [apply decodes_list, decodes_any, decodes_attempt_record|]. intros l [Hl Hall].
  decode_fields. apply decodes_if; intros Hid; [by apply decodes_failure|].
  apply decodes_if; intros Hcur; [by apply decodes_failure|].
  apply decodes_if; intros Hlife; [by apply decodes_failure|].
  apply decodes_success. intros. split; try done; simpl.
  - unfold kMaxAttemptsPerRequest in *. lia.
  - by exists l.
  - by apply is_nil_false.
  - intros Hpos. apply is_nil_false. rewrite Z.gtb_ltb, (proj2 (Z.ltb_lt _ _)) in Hcur by lia. done.
  - intros Hzero. rewrite (bool_decide_true (_ = 0)), andb_true_r in Hlife by lia.
    destruct (decide (x1 = RequestLifecycle.Unknown)) as [|N1]; [by left|right].
    rewrite (bool_decide_false _ N1) in Hlife. by apply negb_false_iff, bool_decide_eq_true in Hlife.
Qed.
#[export] Hint Resolve carries_request_record decodes_request_record : wire.

(** ** Evidence *)

Record model_ok (m : ModelState) : Prop := {
  lo_model_hash : is_u64 (ms_model_hash m);
  lo_generation : is_u64 (ms_generation m);
  lo_valid : model_is_valid m = true;
}.

Lemma carries_model_state m :
  model_ok m → carries (encode_model_state m) decode_model_state (Success m) 17.
Proof.
  intros []. unfold encode_model_state, decode_model_state. carry_fields; [|done].
  destruct m. carry_valid lo_valid0.
Qed.

Lemma decodes_model_state : decodes false decode_model_state model_ok.
Proof. unfold decode_model_state. decode_fields. decode_done. split; try done. by apply negb_false_iff. Qed.
#[export] Hint Resolve carries_model_state decodes_model_state : wire.

Record state_generation_ok (m : StateGenerationRecord) : Prop := {
  no_state_hash : is_u64 (sg_state_hash m);
  no_generation : is_u64 (sg_generation m);
  no_valid : state_is_valid m = true;
}.

Lemma carries_state_generation_record m :
  state_generation_ok m →
  carries (encode_state_generation_record m) decode_state_generation_record (Success m) 17.
Proof.
  intros []. unfold encode_state_generation_record, decode_state_generation_record. carry_fields; [|done].
  destruct m. carry_valid no_valid0.
Qed.

Lemma decodes_state_generation_record : decodes false decode_state_generation_record state_generation_ok.
Proof.
  unfold decode_state_generation_record. decode_fields. decode_done. split; try done. by apply negb_false_iff.
Qed.
#[export] Hint Resolve carries_state_generation_record decodes_state_generation_record : wire.

Record topology_ok (validate : bool) (e : TopologyEvidence) : Prop := {
  yo_generation : is_u64 (te_generation e);
  yo_provenance : te_provenance e ≠ EvidenceProvenance.Count;
  yo_observed_boot : id_ok (te_observed_boot e);
  yo_observed_at : is_i64 (te_observed_at_nanos e);
  yo_max_age : is_u64 (te_max_age_nanos e);
  yo_node_count : is_u32 (te_node_count e);
  yo_accelerator_count : is_u32 (te_accelerator_count e);
  yo_link_count : is_u32 (te_link_count e);
  yo_fabric : is_u64 (te_fabric_bytes_per_sec e);
  yo_queue_depth : is_u32 (te_queue_depth e);
  yo_valid : validate = true → topology_is_valid e = true;
}.

Lemma carries_topology_evidence validate e :
  topology_ok validate e →
  carries (encode_topology_evidence e) (decode_topology_evidence validate) (Success e) 68.
Proof.
  intros []. unfold encode_topology_evidence, decode_topology_evidence. carry_fields; [|done].
  destruct validate; [|destruct e; carry_done]. specialize (yo_valid0 eq_refl). cbn [andb].
  destruct e. carry_valid yo_valid0.
Qed.

Lemma decodes_topology_evidence validate :
  decodes false (decode_topology_evidence validate) (topology_ok validate).
Proof.
  unfold decode_topology_evidence. decode_fields. decode_done. split; try done.
  intros ->. by apply negb_false_iff.
Qed.
#[export] Hint Resolve carries_topology_evidence decodes_topology_evidence : wire.

Record slo_ok (c : SloContract) : Prop := {
  zo_generation : is_u64 (slo_generation c);
  zo_request : id_ok (slo_request c);
  zo_budget : is_u64 (slo_tail_latency_budget_nanos c);
  zo_deadline : is_u64 (slo_registration_deadline_nanos c);
  zo_share : is_u32 (slo_min_stream_share_per_mille c);
  zo_valid : slo_is_valid c = true;
}.

Lemma carries_slo_contract c :
  slo_ok c → carries (encode_slo_contract c) decode_slo_contract (Success c) 44.
Proof.
  intros []. unfold encode_slo_contract, decode_slo_contract. carry_fields; [|done].
  destruct c. carry_valid zo_valid0.
Qed.

Lemma decodes_slo_contract : decodes false decode_slo_contract slo_ok.
Proof. unfold decode_slo_contract. decode_fields. decode_done. split; try done. by apply negb_false_iff. Qed.
#[export] Hint Resolve carries_slo_contract decodes_slo_contract : wire.

Record route_ok (d : RouteDecision) : Prop := {
  uo_generation : is_u64 (rd_generation d);
  uo_request : id_ok (rd_request d);
  uo_attempt : id_ok (rd_attempt d);
  uo_target_node : is_u32 (rd_target_node d);
  uo_valid : route_is_valid d = true;
}.

Lemma carries_route_decision d :
  route_ok d → carries (encode_route_decision d) decode_route_decision (Success d) 46.
Proof.
  intros []. unfold encode_route_decision, decode_route_decision. carry_fields; [|done].
  destruct d. carry_valid uo_valid0.
Qed.

Lemma decodes_route_decision : decodes false decode_route_decision route_ok.
Proof. unfold decode_route_decision. decode_fields. decode_done. split; try done. by apply negb_false_iff. Qed.
#[export] Hint Resolve carries_route_decision decodes_route_decision : wire.

(** ** Transfers and completions *)

Record registration_ok (g : TransferRegistration) : Prop := {
  go_id : id_ok (tg_id g);
  go_named : tg_id g ≠ nil_id;
  go_state_hash : is_u64 (tg_state_hash g);
  go_model_hash : is_u64 (tg_model_hash g);
  go_payload_bytes : is_u64 (tg_payload_bytes g);
  go_class : tg_declared_class g ≠ TrafficClass.Count;
  go_direction : tg_direction g ≠ FlowDirection.Count;
  go_integrity : tg_required_integrity g ≠ IntegrityClass.Count;
  go_request : id_ok (tg_request g);
  go_attempt : id_ok (tg_attempt g);
  go_deadline : is_i64 (tg_deadline g);
}.

Lemma carries_transfer_registration g :
  registration_ok g → carries (encode_transfer_registration g) decode_transfer_registration (Success g) 89.
Proof.
  intros []. unfold encode_transfer_registration, decode_transfer_registration. carry_fields; [|done].
  rewrite (proj2 (is_nil_false _)) by done. destruct g. carry_done.
Qed.

Lemma decodes_transfer_registration : decodes false decode_transfer_registration registration_ok.
Proof.
  unfold decode_transfer_registration. decode_fields. decode_done. split; try done. by apply is_nil_false.
Qed.
#[export] Hint Resolve carries_transfer_registration decodes_transfer_registration : wire.

Record authorization_ok (a : TransferAuthorization) : Prop := {
  ho_transfer : id_ok (ta_transfer a);
  ho_class : ta_traffic_class a ≠ TrafficClass.Count;
  ho_integrity : ta_integrity a ≠ IntegrityClass.Count;
  ho_pacing : ta_pacing a ≠ PacingClass.Count;
  ho_priority : ta_priority a ≠ PriorityClass.Count;
  ho_authority : stamp_ok (ta_authority a);
  ho_reason : ta_reason a ≠ ReasonCode.Count;
  ho_flow : id_ok (ta_flow a);
}.

Lemma carries_transfer_authorization a :
  authorization_ok a → carries (encode_transfer_authorization a) decode_transfer_authorization (Success a) 83.
Proof.
  intros []. unfold encode_transfer_authorization, decode_transfer_authorization. carry_fields; [|done].
  destruct a. carry_done.
Qed.

Lemma decodes_transfer_authorization : decodes false decode_transfer_authorization authorization_ok.
Proof. unfold decode_transfer_authorization. decode_fields. decode_done. by split. Qed.
#[export] Hint Resolve carries_transfer_authorization decodes_transfer_authorization : wire.

Record publication_ok (p : CompletionPublication) : Prop := {
  ko_request : id_ok (cp_request p);
  ko_attempt : id_ok (cp_attempt p);
  ko_named : cp_request p ≠ nil_id ∧ cp_attempt p ≠ nil_id;
  ko_attempt_generation : is_u64 (cp_attempt_generation p);
  ko_reason : cp_reason p ≠ ReasonCode.Count;
  ko_bytes_in : is_u64 (cp_bytes_in p);
  ko_bytes_out : is_u64 (cp_bytes_out p);
}.

Lemma carries_completion_publication p :
  publication_ok p → carries (encode_completion_publication p) decode_completion_publication (Success p) 59.
Proof.
  intros []. unfold encode_completion_publication, decode_completion_publication. carry_fields; [|done].
  destruct ko_named0. rewrite !(proj2 (is_nil_false _)) by done. destruct p. carry_done.
Qed.

Lemma decodes_completion_publication : decodes false decode_completion_publication publication_ok.
Proof.
  unfold decode_completion_publication. decode_fields. apply decodes_if; intros E; [by apply decodes_failure|].
  apply orb_false_iff in E as [E1%is_nil_false E2%is_nil_false]. decode_done. by split.
Qed.
#[export] Hint Resolve carries_completion_publication decodes_completion_publication : wire.

Record outcome_ok (o : PublishOutcome) : Prop := {
  xo_disposition : po_disposition o ≠ Disposition.Count;
  xo_reason : po_reason o ≠ ReasonCode.Count;
  xo_bytes_in : is_u64 (po_accounted_bytes_in o);
  xo_bytes_out : is_u64 (po_accounted_bytes_out o);
  xo_released_flows : is_u32 (po_released_flows o);
}.

Lemma carries_publish_outcome o :
  outcome_ok o → carries (encode_publish_outcome o) decode_publish_outcome (Success o) 26.
Proof.
  intros []. unfold encode_publish_outcome, decode_publish_outcome. carry_fields; [|done].
  destruct o. carry_done.
Qed.

Lemma decodes_publish_outcome : decodes false decode_publish_outcome outcome_ok.
Proof. unfold decode_publish_outcome. decode_fields. decode_done. by split. Qed.
#[export] Hint Resolve carries_publish_outcome decodes_publish_outcome : wire.

Record status_ok (s : CoordinatorStatus) : Prop := {
  vo_epoch : is_u64 (cs_epoch s);
  vo_incarnation : id_ok (cs_incarnation s);
  vo_policy_generation : is_u64 (cs_policy_generation s);
  vo_topology_generation : is_u64 (cs_topology_generation s);
  vo_state : cs_topology_state s ≠ EvidenceState.Count;
  vo_provenance : cs_topology_provenance s ≠ EvidenceProvenance.Count;
  vo_live_requests : is_u64 (cs_live_requests s);
  vo_transfers : is_u64 (cs_transfers s);
  vo_active_flows : is_u32 (cs_active_flows s);
  vo_authority_sequence : is_u64 (cs_authority_sequence s);
}.

Lemma carries_coordinator_status s :
  status_ok s → carries (encode_coordinator_status s) decode_coordinator_status (Success s) 72.
Proof.
  intros []. unfold encode_coordinator_status, decode_coordinator_status. carry_fields; [|done].
  destruct s. carry_done.
Qed.

Lemma decodes_coordinator_status : decodes false decode_coordinator_status status_ok.
Proof. unfold decode_coordinator_status. decode_fields. decode_done. by split. Qed.
#[export] Hint Resolve carries_coordinator_status decodes_coordinator_status : wire.

(** ** The policy document, in the terms of [Format] *)

Lemma bool_is_bytes b : Forall is_byte (bool_bytes b).
Proof. by destruct b; apply Forall_singleton. Qed.

Lemma rule_is_bytes rule : Forall is_byte (rule_bytes rule).
Proof.
  unfold rule_bytes. rewrite !Forall_app.
  split_and!; first [apply le_bytes_bytes | apply bool_is_bytes | constructor].
Qed.

Lemma policy_is_bytes p : Forall is_byte (policy_bytes p).
Proof.
  unfold policy_bytes. rewrite !Forall_app.
  split_and!; try first [apply le_bytes_bytes | apply bool_is_bytes | constructor].
  apply Forall_bind, Forall_forall. intros rule _. apply rule_is_bytes.
Qed.

Lemma carries_policy p :
  policy_sound p → carries (policy_encode p) policy_decode (Success p) kPolicyBytes.
Proof.
  intros [Ht Hv Hg Hs]. apply (carries_intro _ _ (policy_bytes p)).
  - apply writes_policy.
  - apply reads_policy; [done|done|lia|done].
  - apply policy_is_bytes.
  - by rewrite len_policy by apply Ht.
Qed.

Lemma decodes_policy : decodes false policy_decode policy_sound.
Proof.
  intros r Hr _. destruct (yields_policy r Hr) as [M P].
  pose proof (policy_decode_conclusive r) as C. unfold conclusive in C. split; [done|].
  destruct (policy_decode r) as [[p|c] r']; simpl in *; [|done]. split; [done|]. by apply P.
Qed.
#[export] Hint Resolve carries_policy decodes_policy : wire.
