(* ===== verification/Messages.v ===== *)
(** * Message bodies

    Models include/itf/messages.hpp and src/messages.cpp: what travels in the
    payload of a frame. A message that holds one record and nothing else is that
    record; the three queries are their reserved word; a string is the list of
    its bytes. *)

From S2P Require Import Prelude Ids Traffic Decision Policy Bytes Codec Wire Ledger Coordinator CoordAudit.
From S2P Require Import CodecProps PolicyCodec Format Serialize.

Definition kApiVersion : Z := 1.
Definition kMaxChunkBytes : Z := 256 * 1024.

(** A decoded record and the check that follows it. *)
Definition decode_whole {A} (m : Reader.t → Result A * Reader.t) : Reader.t → Result A * Reader.t :=
  let! x := m in check_then (answer (Success x)).

(** ** Sessions *)

Record HelloRequest := MkHelloRequest {
  hq_protocol_version : Z;
  hq_client_api_version : Z;
  hq_peer_name : list Z;
  hq_auth_token : list Z;
  hq_client_version : list Z;
  hq_client_boot : BootId;
  hq_max_frame_payload : Z;
}.

Definition encode_hello_request (m : HelloRequest) : Writer.t → Writer.t :=
  Writer.u16 (hq_protocol_version m)
  ⨾ Writer.u32 (hq_client_api_version m)
  ⨾ Writer.string_field (hq_peer_name m)
  ⨾ Writer.string_field (hq_auth_token m)
  ⨾ Writer.string_field (hq_client_version m)
  ⨾ write_id (hq_client_boot m)
  ⨾ Writer.u32 (hq_max_frame_payload m).

Definition decode_hello_request : Reader.t → Result HelloRequest * Reader.t :=
  let~ protocol_version := Reader.u16 in
  let~ client_api_version := Reader.u32 in
  let~ peer_name := Reader.string_field in
  let~ auth_token := Reader.string_field in
  let~ client_version := Reader.string_field in
  let~ client_boot := Reader.id in
  let~ max_frame_payload := Reader.u32 in
  check_then
    (if protocol_version ≠? kWireProtocolVersion then answer (Failure StatusCode.UnsupportedVersion)
     else if client_api_version ≠? kApiVersion then answer (Failure StatusCode.UnsupportedVersion)
     else if negb (is_safe_label peer_name) then answer (Failure StatusCode.MalformedInput)
     else if (len client_version >? 128) || negb (is_valid_utf8 client_version)
       then answer (Failure StatusCode.MalformedInput)
     else if len auth_token >? 256 then answer (Failure StatusCode.BoundsExceeded)
     else if max_frame_payload >? kAbsoluteMaxPayloadBytes then answer (Failure StatusCode.BoundsExceeded)
     else answer (Success (MkHelloRequest protocol_version client_api_version peer_name auth_token
       client_version client_boot max_frame_payload))).

Record HelloResponse := MkHelloResponse {
  hr_protocol_version : Z;
  hr_server_api_version : Z;
  hr_session : Id128;
  hr_peer : Id128;
  hr_coordinator_boot : BootId;
  hr_epoch : Z;
  hr_policy_generation : Z;
  hr_topology_generation : Z;
  hr_topology_state : EvidenceState.t;
  hr_max_frame_payload : Z;
  hr_authority_sequence : Z;
  hr_server_version : list Z;
}.

Definition encode_hello_response (m : HelloResponse) : Writer.t → Writer.t :=
  Writer.u16 (hr_protocol_version m)
  ⨾ Writer.u32 (hr_server_api_version m)
  ⨾ write_id (hr_session m)
  ⨾ write_id (hr_peer m)
  ⨾ write_id (hr_coordinator_boot m)
  ⨾ write_generation (hr_epoch m)
  ⨾ write_generation (hr_policy_generation m)
  ⨾ write_generation (hr_topology_generation m)
  ⨾ Writer.enumeration (hr_topology_state m)
  ⨾ Writer.u32 (hr_max_frame_payload m)
  ⨾ Writer.u64 (hr_authority_sequence m)
  ⨾ Writer.string_field (hr_server_version m).

Definition decode_hello_response : Reader.t → Result HelloResponse * Reader.t :=
  let~ protocol_version := Reader.u16 in
  let~ server_api_version := Reader.u32 in
  let~ session := Reader.id in
  let~ peer := Reader.id in
  let~ coordinator_boot := read_id in
  let~ epoch := read_generation in
  let~ policy_generation := read_generation in
  let~ topology_generation := read_generation in
  let~ topology_state := Reader.enumeration EvidenceState.Unknown EvidenceState.Count in
  let~ max_frame_payload := Reader.u32 in
  let~ authority_sequence := Reader.u64 in
  let~ server_version := Reader.string_field in
  check_then
    (if protocol_version ≠? kWireProtocolVersion then answer (Failure StatusCode.UnsupportedVersion)
     else if server_api_version ≠? kApiVersion then answer (Failure StatusCode.UnsupportedVersion)
     else if (max_frame_payload ≟ 0) || (max_frame_payload >? kAbsoluteMaxPayloadBytes)
       then answer (Failure StatusCode.BoundsExceeded)
     else answer (Success (MkHelloResponse protocol_version server_api_version session peer
       coordinator_boot epoch policy_generation topology_generation topology_state max_frame_payload
       authority_sequence server_version))).

Record ErrorResponse := MkErrorResponse {
  er_code : StatusCode.t;
  er_offending_type : Z;
  er_detail : list Z;
}.

Definition encode_error_response (m : ErrorResponse) : Writer.t → Writer.t :=
  write_status_code (er_code m)
  ⨾ Writer.u16 (er_offending_type m)
  ⨾ Writer.string_field (er_detail m).

Definition decode_error_response : Reader.t → Result ErrorResponse * Reader.t :=
  let~ code := Reader.u16 in
  let~ offending := Reader.u16 in
  let~ detail := Reader.string_field in
  check_then
    (if code >? StatusCode.value StatusCode.Refused then answer (Failure StatusCode.MalformedInput)
     else if MessageType.Count <=? offending then answer (Failure StatusCode.MalformedInput)
     else answer (Success (MkErrorResponse (status_of_code code) offending detail))).

Record SimpleAck := MkAck {
  ak_code : StatusCode.t;
  ak_detail : list Z;
}.

Definition encode_simple_ack (m : SimpleAck) : Writer.t → Writer.t :=
  write_status_code (ak_code m) ⨾ Writer.string_field (ak_detail m).

Definition decode_simple_ack : Reader.t → Result SimpleAck * Reader.t :=
  let~ code := Reader.u16 in
  let~ detail := Reader.string_field in
  check_then
    (if code >? StatusCode.value StatusCode.Refused then answer (Failure StatusCode.MalformedInput)
     else answer (Success (MkAck (status_of_code code) detail))).

(** ** Requests and attempts *)

Record RegisterRequestMessage := MkRegisterRequest {
  rq_request : RequestId;
  rq_deadline_after_nanos : Z;
}.

Definition encode_register_request (m : RegisterRequestMessage) : Writer.t → Writer.t :=
  write_id (rq_request m) ⨾ Writer.u64 (rq_deadline_after_nanos m).

Definition decode_register_request : Reader.t → Result RegisterRequestMessage * Reader.t :=
  let~ request := Reader.id in
  let~ deadline_after_nanos := Reader.u64 in
  check_then (answer (Success (MkRegisterRequest request deadline_after_nanos))).

Record RegisterRequestResponse := MkRegisterRequestResponse {
  rs_request : RequestId;
  rs_generation : Z;
  rs_authority : AuthorityStamp;
}.

Definition encode_register_request_response (m : RegisterRequestResponse) : Writer.t → Writer.t :=
  write_id (rs_request m)
  ⨾ write_generation (rs_generation m)
  ⨾ encode_authority_stamp (rs_authority m).

Definition decode_register_request_response : Reader.t → Result RegisterRequestResponse * Reader.t :=
  let~ request := Reader.id in
  let~ generation := Reader.generation in
  let! stamp := decode_authority_stamp in
  check_then (answer (Success (MkRegisterRequestResponse request generation stamp))).

Record RegisterAttemptMessage := MkRegisterAttempt {
  aq_request : RequestId;
  aq_attempt : AttemptId;
  aq_model_hash : Z;
}.

Definition encode_register_attempt (m : RegisterAttemptMessage) : Writer.t → Writer.t :=
  write_id (aq_request m) ⨾ write_id (aq_attempt m) ⨾ Writer.u64 (aq_model_hash m).

Definition decode_register_attempt : Reader.t → Result RegisterAttemptMessage * Reader.t :=
  let~ request := Reader.id in
  let~ attempt := Reader.id in
  let~ model_hash := Reader.u64 in
  check_then (answer (Success (MkRegisterAttempt request attempt model_hash))).

Record RegisterAttemptResponse := MkRegisterAttemptResponse {
  ar_request : RequestId;
  ar_attempt : AttemptId;
  ar_generation : Z;
  ar_model_generation : Z;
  ar_route_generation : Z;
  ar_slo_generation : Z;
  ar_authority : AuthorityStamp;
}.

Definition encode_register_attempt_response (m : RegisterAttemptResponse) : Writer.t → Writer.t :=
  write_id (ar_request m)
  ⨾ write_id (ar_attempt m)
  ⨾ write_generation (ar_generation m)
  ⨾ write_generation (ar_model_generation m)
  ⨾ write_generation (ar_route_generation m)
  ⨾ write_generation (ar_slo_generation m)
  ⨾ encode_authority_stamp (ar_authority m).

Definition decode_register_attempt_response : Reader.t → Result RegisterAttemptResponse * Reader.t :=
  let~ request := Reader.id in
  let~ attempt := Reader.id in
  let~ generation := Reader.generation in
  let~ model_generation := read_generation in
  let~ route_generation := read_generation in
  let~ slo_generation := read_generation in
  let! stamp := decode_authority_stamp in
  check_then (answer (Success (MkRegisterAttemptResponse request attempt generation model_generation
    route_generation slo_generation stamp))).

Record StageUpdateMessage := MkStageUpdate {
  su_request : RequestId;
  su_attempt : AttemptId;
  su_stage : ServingStage;
}.

Definition encode_stage_update (m : StageUpdateMessage) : Writer.t → Writer.t :=
  write_id (su_request m) ⨾ write_id (su_attempt m) ⨾ Writer.enumeration (su_stage m).

Definition decode_stage_update : Reader.t → Result StageUpdateMessage * Reader.t :=
  let~ request := Reader.id in
  let~ attempt := Reader.id in
  let~ stage := Reader.enumeration ServingStage.Unknown ServingStage.Count in
  check_then (answer (Success (MkStageUpdate request attempt stage))).

Record CancelRequestMessage := MkCancelRequest {
  cq_request : RequestId;
  cq_reason : ReasonCode;
}.

Definition encode_cancel_request (m : CancelRequestMessage) : Writer.t → Writer.t :=
  write_id (cq_request m) ⨾ Writer.enumeration (cq_reason m).

Definition decode_cancel_request : Reader.t → Result CancelRequestMessage * Reader.t :=
  let~ request := Reader.id in
  let~ reason := Reader.enumeration ReasonCode.Unknown ReasonCode.Count in
  check_then (answer (Success (MkCancelRequest request reason))).

Record FailAttemptMessage := MkFailAttempt {
  fa_request : RequestId;
  fa_attempt : AttemptId;
  fa_reason : ReasonCode;
}.

Definition encode_fail_attempt (m : FailAttemptMessage) : Writer.t → Writer.t :=
  write_id (fa_request m) ⨾ write_id (fa_attempt m) ⨾ Writer.enumeration (fa_reason m).

Definition decode_fail_attempt : Reader.t → Result FailAttemptMessage * Reader.t :=
  let~ request := Reader.id in
  let~ attempt := Reader.id in
  let~ reason := Reader.enumeration ReasonCode.Unknown ReasonCode.Count in
  check_then (answer (Success (MkFailAttempt request attempt reason))).

Record ReplaceAttemptMessage := MkReplaceAttempt {
  ra_request_id : RequestId;
  ra_superseded : AttemptId;
  ra_replacement : AttemptId;
  ra_model_hash : Z;
}.

Definition encode_replace_attempt (m : ReplaceAttemptMessage) : Writer.t → Writer.t :=
  write_id (ra_request_id m)
  ⨾ write_id (ra_superseded m)
  ⨾ write_id (ra_replacement m)
  ⨾ Writer.u64 (ra_model_hash m).

Definition decode_replace_attempt : Reader.t → Result ReplaceAttemptMessage * Reader.t :=
  let~ request := Reader.id in
  let~ superseded := Reader.id in
  let~ replacement := Reader.id in
  let~ model_hash := Reader.u64 in
  check_then (answer (Success (MkReplaceAttempt request superseded replacement model_hash))).

(** ** Decisions and flows *)

Definition encode_evaluate_traffic : TrafficRequest → Writer.t → Writer.t := encode_traffic_request.
Definition decode_evaluate_traffic := decode_whole decode_traffic_request.

Definition encode_decision_response : Decision → Writer.t → Writer.t := encode_decision.
Definition decode_decision_response := decode_whole decode_decision.

Record OpenFlowMessage := MkOpenFlow {
  of_decision : Decision;
  of_declared_bytes : Z;
}.

Definition encode_open_flow (m : OpenFlowMessage) : Writer.t → Writer.t :=
  encode_decision (of_decision m) ⨾ Writer.u64 (of_declared_bytes m).

Definition decode_open_flow : Reader.t → Result OpenFlowMessage * Reader.t :=
  let! decision := decode_decision in
  let~ declared_bytes := Reader.u64 in
  check_then (answer (Success (MkOpenFlow decision declared_bytes))).

Record OpenFlowResponse := MkOpenFlowResponse {
  or_flow : FlowId;
  or_authority : AuthorityStamp;
}.

Definition encode_open_flow_response (m : OpenFlowResponse) : Writer.t → Writer.t :=
  Writer.id (or_flow m) ⨾ encode_authority_stamp (or_authority m).

Definition decode_open_flow_response : Reader.t → Result OpenFlowResponse * Reader.t :=
  let~ flow := Reader.id in
  let! stamp := decode_authority_stamp in
  check_then (answer (Success (MkOpenFlowResponse flow stamp))).

(** ** Transfers *)

Definition encode_register_transfer : TransferRegistration → Writer.t → Writer.t :=
  encode_transfer_registration.
Definition decode_register_transfer := decode_whole decode_transfer_registration.

Record RegisterTransferResponse := MkRegisterTransferResponse {
  xr_transfer : StateTransferId;
  xr_model_generation : Z;
  xr_state_generation : Z;
  xr_state : TransferState.t;
  xr_authority : AuthorityStamp;
}.

Definition encode_register_transfer_response (m : RegisterTransferResponse) : Writer.t → Writer.t :=
  write_id (xr_transfer m)
  ⨾ write_generation (xr_model_generation m)
  ⨾ write_generation (xr_state_generation m)
  ⨾ Writer.enumeration (xr_state m)
  ⨾ encode_authority_stamp (xr_authority m).

Definition decode_register_transfer_response : Reader.t → Result RegisterTransferResponse * Reader.t :=
  let~ transfer := Reader.id in
  let~ model_generation := read_generation in
  let~ state_generation := read_generation in
  let~ state := Reader.enumeration TransferState.Unknown TransferState.Count in
  let! stamp := decode_authority_stamp in
  check_then (answer (Success (MkRegisterTransferResponse transfer model_generation state_generation
    state stamp))).

Definition encode_authorize_transfer : TrafficRequest → Writer.t → Writer.t := encode_traffic_request.
Definition decode_authorize_transfer := decode_whole decode_traffic_request.

Record TransferDecisionResponse := MkTransferDecision {
  td_authorization : TransferAuthorization;
  td_subject : TrafficSubject;
  td_binding : GenerationBinding;
  td_authority : AuthorityStamp;
}.

Definition encode_transfer_decision (m : TransferDecisionResponse) : Writer.t → Writer.t :=
  encode_transfer_authorization (td_authorization m)
  ⨾ encode_traffic_subject (td_subject m)
  ⨾ encode_generation_binding (td_binding m)
  ⨾ encode_authority_stamp (td_authority m).

Definition decode_transfer_decision : Reader.t → Result TransferDecisionResponse * Reader.t :=
  let! authorization := decode_transfer_authorization in
  let! subject := decode_traffic_subject in
  let! binding := decode_generation_binding in
  let! stamp := decode_authority_stamp in
  check_then (answer (Success (MkTransferDecision authorization subject binding stamp))).

Record TransferCompleteMessage := MkTransferComplete {
  tc_transfer : StateTransferId;
  tc_verified_bytes : Z;
}.

Definition encode_transfer_complete (m : TransferCompleteMessage) : Writer.t → Writer.t :=
  write_id (tc_transfer m) ⨾ Writer.u64 (tc_verified_bytes m).

Definition decode_transfer_complete : Reader.t → Result TransferCompleteMessage * Reader.t :=
  let~ transfer := Reader.id in
  let~ verified_bytes := Reader.u64 in
  check_then (answer (Success (MkTransferComplete transfer verified_bytes))).

(** ** Completions, accounting, queries *)

Definition encode_completion_publish : CompletionPublication → Writer.t → Writer.t :=
  encode_completion_publication.
Definition decode_completion_publish := decode_whole decode_completion_publication.

Definition encode_completion_response : PublishOutcome → Writer.t → Writer.t := encode_publish_outcome.
Definition decode_completion_response := decode_whole decode_publish_outcome.

(** [AccountingQueryMessage], [StatusQueryMessage] and [PolicyQueryMessage]. *)
Definition encode_query (reserved : Z) : Writer.t → Writer.t := Writer.u32 reserved.
Definition decode_query : Reader.t → Result Z * Reader.t :=
  let~ reserved := Reader.u32 in check_then (answer (Success reserved)).

Definition encode_accounting_response : AccountingSnapshot → Writer.t → Writer.t :=
  encode_accounting_snapshot.
Definition decode_accounting_response := decode_whole decode_accounting_snapshot.

Definition encode_status_response : CoordinatorStatus → Writer.t → Writer.t :=
  encode_coordinator_status.
Definition decode_status_response := decode_whole decode_coordinator_status.

Definition encode_policy_response : PolicyConfig → Writer.t → Writer.t := policy_encode.
Definition decode_policy_response := decode_whole policy_decode.

(** ** Registries *)

Definition encode_topology_publish : TopologyEvidence → Writer.t → Writer.t := encode_topology_evidence.
Definition decode_topology_publish := decode_whole (decode_topology_evidence true).

Record TopologyResponseMessage := MkTopologyResponse {
  tp_generation : Z;
  tp_state : EvidenceState.t;
  tp_provenance : EvidenceProvenance.t;
}.

Definition encode_topology_response (m : TopologyResponseMessage) : Writer.t → Writer.t :=
  write_generation (tp_generation m)
  ⨾ Writer.enumeration (tp_state m)
  ⨾ Writer.enumeration (tp_provenance m).

Definition decode_topology_response : Reader.t → Result TopologyResponseMessage * Reader.t :=
  let~ generation := read_generation in
  let~ state := Reader.enumeration EvidenceState.Unknown EvidenceState.Count in
  let~ provenance := Reader.enumeration EvidenceProvenance.Unknown EvidenceProvenance.Count in
  check_then (answer (Success (MkTopologyResponse generation state provenance))).

Record PublishSloContractMessage := MkPublishSlo {
  sl_request : RequestId;
  sl_tail_latency_budget_nanos : Z;
  sl_registration_deadline_nanos : Z;
  sl_min_stream_share_per_mille : Z;
}.

Definition encode_publish_slo (m : PublishSloContractMessage) : Writer.t → Writer.t :=
  write_id (sl_request m)
  ⨾ Writer.u64 (sl_tail_latency_budget_nanos m)
  ⨾ Writer.u64 (sl_registration_deadline_nanos m)
  ⨾ Writer.u32 (sl_min_stream_share_per_mille m).

Definition decode_publish_slo : Reader.t → Result PublishSloContractMessage * Reader.t :=
  let~ request := Reader.id in
  let~ tail_latency_budget_nanos := Reader.u64 in
  let~ registration_deadline_nanos := Reader.u64 in
  let~ min_stream_share_per_mille := Reader.u32 in
  check_then (answer (Success (MkPublishSlo request tail_latency_budget_nanos
    registration_deadline_nanos min_stream_share_per_mille))).

Definition encode_slo_response : SloContract → Writer.t → Writer.t := encode_slo_contract.
Definition decode_slo_response := decode_whole decode_slo_contract.

Record IssueRouteDecisionMessage := MkIssueRoute {
  ir_request : RequestId;
  ir_attempt : AttemptId;
  ir_target_node : Z;
  ir_lateral : bool;
  ir_disaggregated_handoff : bool;
}.

Definition encode_issue_route (m : IssueRouteDecisionMessage) : Writer.t → Writer.t :=
  write_id (ir_request m)
  ⨾ write_id (ir_attempt m)
  ⨾ Writer.u32 (ir_target_node m)
  ⨾ Writer.boolean (ir_lateral m)
  ⨾ Writer.boolean (ir_disaggregated_handoff m).

Definition decode_issue_route : Reader.t → Result IssueRouteDecisionMessage * Reader.t :=
  let~ request := Reader.id in
  let~ attempt := Reader.id in
  let~ target_node := Reader.u32 in
  let~ lateral := Reader.boolean in
  let~ disaggregated_handoff := Reader.boolean in
  check_then (answer (Success (MkIssueRoute request attempt target_node lateral disaggregated_handoff))).

Definition encode_route_response : RouteDecision → Writer.t → Writer.t := encode_route_decision.
Definition decode_route_response := decode_whole decode_route_decision.

Record AdvanceGenerationMessage := MkAdvanceGeneration {
  ag_target_hash : Z;
  ag_expected_generation : Z;
  ag_has_expected : bool;
  ag_revalidate_only : bool;
  ag_state_target : bool;
}.

Definition encode_advance_generation (m : AdvanceGenerationMessage) : Writer.t → Writer.t :=
  Writer.u64 (ag_target_hash m)
  ⨾ Writer.u64 (ag_expected_generation m)
  ⨾ Writer.boolean (ag_has_expected m)
  ⨾ Writer.boolean (ag_revalidate_only m)
  ⨾ Writer.boolean (ag_state_target m).

Definition decode_advance_generation : Reader.t → Result AdvanceGenerationMessage * Reader.t :=
  let~ target_hash := Reader.u64 in
  let~ expected_generation := Reader.u64 in
  let~ has_expected := Reader.boolean in
  let~ revalidate_only := Reader.boolean in
  let~ state_target := Reader.boolean in
  check_then
    (if target_hash ≟ 0 then answer (Failure StatusCode.MalformedInput)
     else answer (Success (MkAdvanceGeneration target_hash expected_generation has_expected
       revalidate_only state_target))).

Record ModelGenerationResponse := MkModelGeneration {
  mg_model_hash : Z;
  mg_generation : Z;
  mg_state_generation : Z;
  mg_requires_revalidation : bool;
}.

Definition encode_model_generation (m : ModelGenerationResponse) : Writer.t → Writer.t :=
  Writer.u64 (mg_model_hash m)
  ⨾ write_generation (mg_generation m)
  ⨾ write_generation (mg_state_generation m)
  ⨾ Writer.boolean (mg_requires_revalidation m).

Definition decode_model_generation : Reader.t → Result ModelGenerationResponse * Reader.t :=
  let~ model_hash := Reader.u64 in
  let~ generation := read_generation in
  let~ state_generation := read_generation in
  let~ requires_revalidation := Reader.boolean in
  check_then (answer (Success (MkModelGeneration model_hash generation state_generation
    requires_revalidation))).

(** [HeartbeatMessage]. *)
Definition encode_heartbeat (client_time_nanos : Z) : Writer.t → Writer.t := Writer.u64 client_time_nanos.
Definition decode_heartbeat : Reader.t → Result Z * Reader.t :=
  let~ client_time_nanos := Reader.u64 in check_then (answer (Success client_time_nanos)).

(** ** Data plane *)

Record DataChunkMessage := MkDataChunk {
  dc_transfer : StateTransferId;
  dc_chunk_index : Z;
  dc_total_chunks : Z;
  dc_total_bytes : Z;
  dc_data : list Z;
}.

Definition encode_data_chunk (m : DataChunkMessage) : Writer.t → Writer.t :=
  let bounded := if len (dc_data m) >? kMaxChunkBytes then kMaxChunkBytes else len (dc_data m) in
  write_id (dc_transfer m)
  ⨾ Writer.u32 (dc_chunk_index m)
  ⨾ Writer.u32 (dc_total_chunks m)
  ⨾ Writer.u64 (dc_total_bytes m)
  ⨾ Writer.bytes_field (take (Z.to_nat bounded) (dc_data m)).

Definition decode_data_chunk : Reader.t → Result DataChunkMessage * Reader.t :=
  let~ transfer := Reader.id in
  let~ chunk_index := Reader.u32 in
  let~ total_chunks := Reader.u32 in
  let~ total_bytes := Reader.u64 in
  let~ data := Reader.bytes_field in
  check_then
    (if len data >? kMaxChunkBytes then answer (Failure StatusCode.BoundsExceeded)
     else if (total_chunks ≟ 0) || (total_chunks <=? chunk_index)
       then answer (Failure StatusCode.MalformedInput)
     else if len data ≟ 0 then answer (Failure StatusCode.MalformedInput)
     else answer (Success (MkDataChunk transfer chunk_index total_chunks total_bytes data))).

Record DataAckMessage := MkDataAck {
  da_transfer : StateTransferId;
  da_chunk_index : Z;
  da_received_bytes : Z;
  da_code : StatusCode.t;
}.

Definition encode_data_ack (m : DataAckMessage) : Writer.t → Writer.t :=
  write_id (da_transfer m)
  ⨾ Writer.u32 (da_chunk_index m)
  ⨾ Writer.u64 (da_received_bytes m)
  ⨾ write_status_code (da_code m).

Definition decode_data_ack : Reader.t → Result DataAckMessage * Reader.t :=
  let~ transfer := Reader.id in
  let~ chunk_index := Reader.u32 in
  let~ received_bytes := Reader.u64 in
  let~ code := Reader.u16 in
  check_then
    (if code >? StatusCode.value StatusCode.Refused then answer (Failure StatusCode.MalformedInput)
     else answer (Success (MkDataAck transfer chunk_index received_bytes (status_of_code code)))).

Record DataCompleteMessage := MkDataComplete {
  dd_transfer : StateTransferId;
  dd_total_bytes : Z;
  dd_total_chunks : Z;
  dd_content_crc32c : Z;
}.

Definition encode_data_complete (m : DataCompleteMessage) : Writer.t → Writer.t :=
  write_id (dd_transfer m)
  ⨾ Writer.u64 (dd_total_bytes m)
  ⨾ Writer.u32 (dd_total_chunks m)
  ⨾ Writer.u32 (dd_content_crc32c m).

Definition decode_data_complete : Reader.t → Result DataCompleteMessage * Reader.t :=
  let~ transfer := Reader.id in
  let~ total_bytes := Reader.u64 in
  let~ total_chunks := Reader.u32 in
  let~ content_crc32c := Reader.u32 in
  check_then
    (if total_chunks ≟ 0 then answer (Failure StatusCode.MalformedInput)
     else answer (Success (MkDataComplete transfer total_bytes total_chunks content_crc32c))).
