(* ===== verification/MessagesProps.v ===== *)
(** * Round trips and soundness of the message bodies

    Every message body survives its own encoding when its fields are within
    their types and pass the checks of its decoder, in a number of bytes that fits
    a frame; and a decoder fed with arbitrary bytes answers such a message or an
    error. The two theorems at the end range over all of them ([Body]). *)

From S2P Require Import Prelude Ids Traffic Decision Policy Bytes Codec Wire Ledger Coordinator CoordAudit.
From S2P Require Import CodecProps PolicyCodec Format Serialize SerializeProps Messages.

(** ** Fields of this file *)

(** An identity that must not be nil. *)
Definition named_id (x : Id128) : Prop := id_ok x ∧ x ≠ nil_id.

Lemma carries_named_id x : named_id x → carries (write_id x) Reader.id x 16.
Proof. intros []. by apply carries_id. Qed.

Lemma carries_issued_generation g :
  is_u64 g ∧ g ≠ 0 → carries (write_generation g) Reader.generation g 8.
Proof. intros []. by apply carries_generation. Qed.

Lemma carries_status_code c : carries (write_status_code c) Reader.u16 (StatusCode.value c) 2.
Proof. pose proof (status_code_range c). apply carries_u16. lia. Qed.

Lemma yields_named_id : yields Reader.id named_id.
Proof. apply yields_id. Qed.

#[local] Hint Resolve carries_named_id carries_issued_generation carries_status_code yields_named_id : wire.

Lemma status_code_checked {A} c (x y : A) :
  (if StatusCode.value c >? StatusCode.value StatusCode.Refused then x else y) = y.
Proof.
  pose proof (status_code_range c). change (StatusCode.value StatusCode.Refused) with 29.
  rewrite Z.gtb_ltb. by destruct (Z.ltb_spec 29 (StatusCode.value c)); [lia|].
Qed.

(** A message that is one record. *)
Lemma carries_whole {A} f (m : Reader.t → Result A * Reader.t) x n :
  carries f m (Success x) n → carries f (decode_whole m) (Success x) n.
Proof. intros H. unfold decode_whole. eapply carries_then_last; [exact H|]. carry_done. Qed.

Lemma decodes_whole {A} (m : Reader.t → Result A * Reader.t) Q :
  decodes false m Q → decodes false (decode_whole m) Q.
Proof.
  intros H. unfold decode_whole. eapply decodes_then; [exact H|]. intros x Hx.
  apply decodes_check. by apply decodes_success.
Qed.

(** ** Sessions *)

Record hello_request_ok (m : HelloRequest) : Prop := {
  hqo_protocol_version : hq_protocol_version m = kWireProtocolVersion;
  hqo_api_version : hq_client_api_version m = kApiVersion;
  hqo_peer_name : text_ok (hq_peer_name m) ∧ is_safe_label (hq_peer_name m) = true;
  hqo_auth_token : text_ok (hq_auth_token m) ∧ len (hq_auth_token m) ≤ 256;
  hqo_client_version : text_ok (hq_client_version m) ∧ len (hq_client_version m) ≤ 128;
  hqo_client_boot : named_id (hq_client_boot m);
  hqo_max_frame_payload : 0 ≤ hq_max_frame_payload m ≤ kAbsoluteMaxPayloadBytes;
}.

Lemma carries_hello_request m :
  hello_request_ok m → carries (encode_hello_request m) decode_hello_request (Success m) 12326.
Proof.
  intros [Hp Ha [Hn Hs] [Ht Ht'] [Hv Hv'] Hb Hm]. unfold encode_hello_request, decode_hello_request.
  rewrite Hp, Ha.
  assert (is_u32 (hq_max_frame_payload m)) by (unfold is_u32, two32, kAbsoluteMaxPayloadBytes in *; lia).
  eapply carries_weaken.
  - eapply carries_bind; [by apply carries_u16|]. eapply carries_bind; [by apply carries_u32|].
    cbn beta. repeat carry_field. destruct m; simpl in *. subst. cbn [negb].
    destruct Hv as (_&_&->). rewrite Hs, !Z.gtb_ltb, !(proj2 (Z.ltb_ge _ _)) by lia. carry_done.
  - done.
Qed.

Lemma decodes_hello_request : decodes false decode_hello_request hello_request_ok.
Proof.
  unfold decode_hello_request. decode_fields. decode_checked.
  split; try done. simpl. unfold is_u32 in *. lia.
Qed.

Record hello_response_ok (m : HelloResponse) : Prop := {
  hro_protocol_version : hr_protocol_version m = kWireProtocolVersion;
  hro_api_version : hr_server_api_version m = kApiVersion;
  hro_session : named_id (hr_session m);
  hro_peer : named_id (hr_peer m);
  hro_coordinator_boot : id_ok (hr_coordinator_boot m);
  hro_epoch : is_u64 (hr_epoch m);
  hro_policy_generation : is_u64 (hr_policy_generation m);
  hro_topology_generation : is_u64 (hr_topology_generation m);
  hro_topology_state : hr_topology_state m ≠ EvidenceState.Count;
  hro_max_frame_payload : 0 < hr_max_frame_payload m ≤ kAbsoluteMaxPayloadBytes;
  hro_authority_sequence : is_u64 (hr_authority_sequence m);
  hro_server_version : text_ok (hr_server_version m);
}.

Lemma carries_hello_response m :
  hello_response_ok m → carries (encode_hello_response m) decode_hello_response (Success m) 4192.
Proof.
  intros [Hp Ha]. unfold encode_hello_response, decode_hello_response. rewrite Hp, Ha.
  assert (is_u32 (hr_max_frame_payload m)) by (unfold is_u32, two32, kAbsoluteMaxPayloadBytes in *; lia).
  eapply carries_weaken.
  - eapply carries_bind; [by apply carries_u16|]. eapply carries_bind; [by apply carries_u32|].
    cbn beta. repeat carry_field. destruct m; simpl in *. subst. cbn [negb].
    rewrite (bool_decide_false (_ = 0)) by lia.
    rewrite Z.gtb_ltb, (proj2 (Z.ltb_ge _ _)) by lia. carry_done.
  - done.
Qed.

Lemma decodes_hello_response : decodes false decode_hello_response hello_response_ok.
Proof.
  unfold decode_hello_response. decode_fields. decode_checked.
  split; try done. simpl. unfold is_u32 in *. lia.
Qed.

Record error_response_ok (m : ErrorResponse) : Prop := {
  ero_type : 0 ≤ er_offending_type m < MessageType.Count;
  ero_detail : text_ok (er_detail m);
}.

Lemma carries_error_response m :
  error_response_ok m → carries (encode_error_response m) decode_error_response (Success m) 4104.
Proof.
  intros []. unfold encode_error_response, decode_error_response.
  assert (0 ≤ er_offending_type m < 65536) by (unfold MessageType.Count in *; lia). carry_fields; [|done].
  rewrite status_code_checked, status_of_code_value, (proj2 (Z.leb_gt _ _)) by lia. destruct m. carry_done.
Qed.

Lemma decodes_error_response : decodes false decode_error_response error_response_ok.
Proof.
  unfold decode_error_response. decode_fields. decode_checked. split; simpl; [lia|done].
Qed.

Definition ack_ok (m : SimpleAck) : Prop := text_ok (ak_detail m).

Lemma carries_simple_ack m :
  ack_ok m → carries (encode_simple_ack m) decode_simple_ack (Success m) 4102.
Proof.
  unfold ack_ok. intros. unfold encode_simple_ack, decode_simple_ack. carry_fields; [|done].
  rewrite status_code_checked, status_of_code_value. destruct m. carry_done.
Qed.

Lemma decodes_simple_ack : decodes false decode_simple_ack ack_ok.
Proof. unfold decode_simple_ack. decode_fields. by decode_done. Qed.

(** ** Requests and attempts *)

Record register_request_ok (m : RegisterRequestMessage) : Prop := {
  rqo_request : named_id (rq_request m);
  rqo_deadline : is_u64 (rq_deadline_after_nanos m);
}.

Lemma carries_register_request m :
  register_request_ok m → carries (encode_register_request m) decode_register_request (Success m) 24.
Proof.
  intros []. unfold encode_register_request, decode_register_request. carry_fields; [|done].
  destruct m. carry_done.
Qed.

Lemma decodes_register_request : decodes false decode_register_request register_request_ok.
Proof. unfold decode_register_request. decode_fields. decode_done. by split. Qed.

Record register_request_response_ok (m : RegisterRequestResponse) : Prop := {
  rso_request : named_id (rs_request m);
  rso_generation : is_u64 (rs_generation m) ∧ rs_generation m ≠ 0;
  rso_authority : stamp_ok (rs_authority m);
}.

Lemma carries_register_request_response m :
  register_request_response_ok m →
  carries (encode_register_request_response m) decode_register_request_response (Success m) 64.
Proof.
  intros []. unfold encode_register_request_response, decode_register_request_response.
  carry_fields; [|done]. destruct m. carry_done.
Qed.

Lemma decodes_register_request_response :
  decodes false decode_register_request_response register_request_response_ok.
Proof. unfold decode_register_request_response. decode_fields. decode_done. by split. Qed.

Record register_attempt_ok (m : RegisterAttemptMessage) : Prop := {
  aqo_request : named_id (aq_request m);
  aqo_attempt : named_id (aq_attempt m);
  aqo_model_hash : is_u64 (aq_model_hash m);
}.

Lemma carries_register_attempt m :
  register_attempt_ok m → carries (encode_register_attempt m) decode_register_attempt (Success m) 40.
Proof.
  intros []. unfold encode_register_attempt, decode_register_attempt. carry_fields; [|done].
  destruct m. carry_done.
Qed.

Lemma decodes_register_attempt : decodes false decode_register_attempt register_attempt_ok.
Proof. unfold decode_register_attempt. decode_fields. decode_done. by split. Qed.

Record register_attempt_response_ok (m : RegisterAttemptResponse) : Prop := {
  aro_request : named_id (ar_request m);
  aro_attempt : named_id (ar_attempt m);
  aro_generation : is_u64 (ar_generation m) ∧ ar_generation m ≠ 0;
  aro_model_generation : is_u64 (ar_model_generation m);
  aro_route_generation : is_u64 (ar_route_generation m);
  aro_slo_generation : is_u64 (ar_slo_generation m);
  aro_authority : stamp_ok (ar_authority m);
}.

Lemma carries_register_attempt_response m :
  register_attempt_response_ok m →
  carries (encode_register_attempt_response m) decode_register_attempt_response (Success m) 104.
Proof.
  intros []. unfold encode_register_attempt_response, decode_register_attempt_response.
  carry_fields; [|done]. destruct m. carry_done.
Qed.

Lemma decodes_register_attempt_response :
  decodes false decode_register_attempt_response register_attempt_response_ok.
Proof. unfold decode_register_attempt_response. decode_fields. decode_done. by split. Qed.

Record stage_update_ok (m : StageUpdateMessage) : Prop := {
  suo_request : named_id (su_request m);
  suo_attempt : named_id (su_attempt m);
  suo_stage : su_stage m ≠ ServingStage.Count;
}.

Lemma carries_stage_update m :
  stage_update_ok m → carries (encode_stage_update m) decode_stage_update (Success m) 34.
Proof.
  intros []. unfold encode_stage_update, decode_stage_update. carry_fields; [|done].
  destruct m. carry_done.
Qed.

Lemma decodes_stage_update : decodes false decode_stage_update stage_update_ok.
Proof. unfold decode_stage_update. decode_fields. decode_done. by split. Qed.

Record cancel_request_ok (m : CancelRequestMessage) : Prop := {
  cqo_request : named_id (cq_request m);
  cqo_reason : cq_reason m ≠ ReasonCode.Count;
}.

Lemma carries_cancel_request m :
  cancel_request_ok m → carries (encode_cancel_request m) decode_cancel_request (Success m) 18.
Proof.
  intros []. unfold encode_cancel_request, decode_cancel_request. carry_fields; [|done].
  destruct m. carry_done.
Qed.

Lemma decodes_cancel_request : decodes false decode_cancel_request cancel_request_ok.
Proof. unfold decode_cancel_request. decode_fields. decode_done. by split. Qed.

Record fail_attempt_ok (m : FailAttemptMessage) : Prop := {
  fao_request : named_id (fa_request m);
  fao_attempt : named_id (fa_attempt m);
  fao_reason : fa_reason m ≠ ReasonCode.Count;
}.

Lemma carries_fail_attempt m :
  fail_attempt_ok m → carries (encode_fail_attempt m) decode_fail_attempt (Success m) 34.
Proof.
  intros []. unfold encode_fail_attempt, decode_fail_attempt. carry_fields; [|done].
  destruct m. carry_done.
Qed.

Lemma decodes_fail_attempt : decodes false decode_fail_attempt fail_attempt_ok.
Proof. unfold decode_fail_attempt. decode_fields. decode_done. by split. Qed.

Record replace_attempt_ok (m : ReplaceAttemptMessage) : Prop := {
  rao_request : named_id (ra_request_id m);
  rao_superseded : named_id (ra_superseded m);
  rao_replacement : named_id (ra_replacement m);
  rao_model_hash : is_u64 (ra_model_hash m);
}.

Lemma carries_replace_attempt m :
  replace_attempt_ok m → carries (encode_replace_attempt m) decode_replace_attempt (Success m) 56.
Proof.
  intros []. unfold encode_replace_attempt, decode_replace_attempt. carry_fields; [|done].
  destruct m. carry_done.
Qed.

Lemma decodes_replace_attempt : decodes false decode_replace_attempt replace_attempt_ok.
Proof. unfold decode_replace_attempt. decode_fields. decode_done. by split. Qed.

(** ** Flows and transfers *)

Definition open_flow_typed (m : OpenFlowMessage) : Prop :=
  decision_typed (of_decision m) ∧ is_u64 (of_declared_bytes m).

Definition open_flow_ok (m : OpenFlowMessage) : Prop :=
  decision_ok (of_decision m) ∧ is_u64 (of_declared_bytes m).

Lemma carries_open_flow m :
  open_flow_ok m → carries (encode_open_flow m) decode_open_flow (Success m) 686.
Proof.
  intros []. unfold encode_open_flow, decode_open_flow. carry_fields; [|done]. destruct m. carry_done.
Qed.

Lemma decodes_open_flow : decodes false decode_open_flow open_flow_typed.
Proof. unfold decode_open_flow. decode_fields. decode_done. by split. Qed.

Record open_flow_response_ok (m : OpenFlowResponse) : Prop := {
  oro_flow : named_id (or_flow m);
  oro_authority : stamp_ok (or_authority m);
}.

Lemma carries_open_flow_response m :
  open_flow_response_ok m → carries (encode_open_flow_response m) decode_open_flow_response (Success m) 56.
Proof.
  intros [[]]. unfold encode_open_flow_response, decode_open_flow_response. carry_fields; [|done].
  destruct m. carry_done.
Qed.

Lemma decodes_open_flow_response : decodes false decode_open_flow_response open_flow_response_ok.
Proof. unfold decode_open_flow_response. decode_fields. decode_done. by split. Qed.

Record register_transfer_response_ok (m : RegisterTransferResponse) : Prop := {
  xro_transfer : named_id (xr_transfer m);
  xro_model_generation : is_u64 (xr_model_generation m);
  xro_state_generation : is_u64 (xr_state_generation m);
  xro_state : xr_state m ≠ TransferState.Count;
  xro_authority : stamp_ok (xr_authority m);
}.

Lemma carries_register_transfer_response m :
  register_transfer_response_ok m →
  carries (encode_register_transfer_response m) decode_register_transfer_response (Success m) 74.
Proof.
  intros []. unfold encode_register_transfer_response, decode_register_transfer_response.
  carry_fields; [|done]. destruct m. carry_done.
Qed.

Lemma decodes_register_transfer_response :
  decodes false decode_register_transfer_response register_transfer_response_ok.
Proof. unfold decode_register_transfer_response. decode_fields. decode_done. by split. Qed.

Record transfer_decision_ok (m : TransferDecisionResponse) : Prop := {
  tdo_authorization : authorization_ok (td_authorization m);
  tdo_subject : subject_ok (td_subject m);
  tdo_binding : binding_ok (td_binding m);
  tdo_authority : stamp_ok (td_authority m);
}.

Lemma carries_transfer_decision m :
  transfer_decision_ok m → carries (encode_transfer_decision m) decode_transfer_decision (Success m) 253.
Proof.
  intros []. unfold encode_transfer_decision, decode_transfer_decision. carry_fields; [|done].
  destruct m. carry_done.
Qed.

Lemma decodes_transfer_decision : decodes false decode_transfer_decision transfer_decision_ok.
Proof. unfold decode_transfer_decision. decode_fields. decode_done. by split. Qed.

Record transfer_complete_ok (m : TransferCompleteMessage) : Prop := {
  tco_transfer : named_id (tc_transfer m);
  tco_verified_bytes : is_u64 (tc_verified_bytes m);
}.

Lemma carries_transfer_complete m :
  transfer_complete_ok m → carries (encode_transfer_complete m) decode_transfer_complete (Success m) 24.
Proof.
  intros []. unfold encode_transfer_complete, decode_transfer_complete. carry_fields; [|done].
  destruct m. carry_done.
Qed.

Lemma decodes_transfer_complete : decodes false decode_transfer_complete transfer_complete_ok.
Proof. unfold decode_transfer_complete. decode_fields. decode_done. by split. Qed.

(** ** Registries and queries *)

Lemma carries_query n : is_u32 n → carries (encode_query n) decode_query (Success n) 4.
Proof. intros. unfold encode_query, decode_query. carry_fields; [|done]. carry_done. Qed.

Lemma decodes_query : decodes false decode_query is_u32.
Proof. unfold decode_query. decode_fields. by decode_done. Qed.

Record topology_response_ok (m : TopologyResponseMessage) : Prop := {
  tpo_generation : is_u64 (tp_generation m);
  tpo_state : tp_state m ≠ EvidenceState.Count;
  tpo_provenance : tp_provenance m ≠ EvidenceProvenance.Count;
}.

Lemma carries_topology_response m :
  topology_response_ok m → carries (encode_topology_response m) decode_topology_response (Success m) 12.
Proof.
  intros []. unfold encode_topology_response, decode_topology_response. carry_fields; [|done].
  destruct m. carry_done.
Qed.

Lemma decodes_topology_response : decodes false decode_topology_response topology_response_ok.
Proof. unfold decode_topology_response. decode_fields. decode_done. by split. Qed.

Record publish_slo_ok (m : PublishSloContractMessage) : Prop := {
  slo_request_named : named_id (sl_request m);
  slo_budget : is_u64 (sl_tail_latency_budget_nanos m);
  slo_deadline : is_u64 (sl_registration_deadline_nanos m);
  slo_share : is_u32 (sl_min_stream_share_per_mille m);
}.

Lemma carries_publish_slo m :
  publish_slo_ok m → carries (encode_publish_slo m) decode_publish_slo (Success m) 36.
Proof.
  intros []. unfold encode_publish_slo, decode_publish_slo. carry_fields; [|done]. destruct m. carry_done.
Qed.

Lemma decodes_publish_slo : decodes false decode_publish_slo publish_slo_ok.
Proof. unfold decode_publish_slo. decode_fields. decode_done. by split. Qed.

Record issue_route_ok (m : IssueRouteDecisionMessage) : Prop := {
  iro_request : named_id (ir_request m);
  iro_attempt : named_id (ir_attempt m);
  iro_target_node : is_u32 (ir_target_node m);
}.

Lemma carries_issue_route m :
  issue_route_ok m → carries (encode_issue_route m) decode_issue_route (Success m) 38.
Proof.
  intros []. unfold encode_issue_route, decode_issue_route. carry_fields; [|done]. destruct m. carry_done.
Qed.

Lemma decodes_issue_route : decodes false decode_issue_route issue_route_ok.
Proof. unfold decode_issue_route. decode_fields. decode_done. by split. Qed.

Record advance_generation_ok (m : AdvanceGenerationMessage) : Prop := {
  ago_target_hash : is_u64 (ag_target_hash m);
  ago_named : ag_target_hash m ≠ 0;
  ago_expected : is_u64 (ag_expected_generation m);
}.

Lemma carries_advance_generation m :
  advance_generation_ok m → carries (encode_advance_generation m) decode_advance_generation (Success m) 19.
Proof.
  intros []. unfold encode_advance_generation, decode_advance_generation. carry_fields; [|done].
  rewrite bool_decide_false by done. destruct m. carry_done.
Qed.

Lemma decodes_advance_generation : decodes false decode_advance_generation advance_generation_ok.
Proof. unfold decode_advance_generation. decode_fields. decode_checked. by split. Qed.

Record model_generation_ok (m : ModelGenerationResponse) : Prop := {
  mgo_model_hash : is_u64 (mg_model_hash m);
  mgo_generation : is_u64 (mg_generation m);
  mgo_state_generation : is_u64 (mg_state_generation m);
}.

Lemma carries_model_generation m :
  model_generation_ok m → carries (encode_model_generation m) decode_model_generation (Success m) 25.
Proof.
  intros []. unfold encode_model_generation, decode_model_generation. carry_fields; [|done].
  destruct m. carry_done.
Qed.

Lemma decodes_model_generation : decodes false decode_model_generation model_generation_ok.
Proof. unfold decode_model_generation. decode_fields. decode_done. by split. Qed.

Lemma carries_heartbeat n : is_u64 n → carries (encode_heartbeat n) decode_heartbeat (Success n) 8.
Proof. intros. unfold encode_heartbeat, decode_heartbeat. carry_fields; [|done]. carry_done. Qed.

Lemma decodes_heartbeat : decodes false decode_heartbeat is_u64.
Proof. unfold decode_heartbeat. decode_fields. by decode_done. Qed.

(** ** Data plane *)

Record data_chunk_ok (m : DataChunkMessage) : Prop := {
  dco_transfer : named_id (dc_transfer m);
  dco_index : 0 ≤ dc_chunk_index m < dc_total_chunks m;
  dco_total_chunks : is_u32 (dc_total_chunks m);
  dco_total_bytes : is_u64 (dc_total_bytes m);
  dco_bytes : Forall is_byte (dc_data m);
  dco_size : 0 < len (dc_data m) ≤ kMaxChunkBytes;
}.

Lemma carries_data_chunk_size m :
  data_chunk_ok m → carries (encode_data_chunk m) decode_data_chunk (Success m) (36 + len (dc_data m)).
Proof.
  intros []. unfold encode_data_chunk, decode_data_chunk. rewrite Z.gtb_ltb, (proj2 (Z.ltb_ge _ _)) by lia.
  unfold len at 1. rewrite Nat2Z.id, firstn_all.
  assert (is_u32 (dc_chunk_index m)) by (unfold is_u32 in *; lia). eapply carries_weaken.
  - do 4 carry_field.
    eapply carries_last; [apply (carries_bytes_field _ (len (dc_data m))); [done|lia|unfold kMaxChunkBytes, kMaxFramePayloadBytes in *; lia]|].
    apply reads_check_then.
    rewrite Z.gtb_ltb, (proj2 (Z.ltb_ge _ _)), (proj2 (Z.leb_gt _ _)) by lia.
    rewrite !(bool_decide_false (_ = 0)) by lia. destruct m. carry_done.
  - lia.
Qed.

Lemma carries_data_chunk m :
  data_chunk_ok m → carries (encode_data_chunk m) decode_data_chunk (Success m) 262180.
Proof.
  intros Hm. eapply carries_weaken; [by apply carries_data_chunk_size|].
  destruct Hm. unfold kMaxChunkBytes in *. lia.
Qed.

Lemma decodes_data_chunk : decodes false decode_data_chunk data_chunk_ok.
Proof.
  unfold decode_data_chunk. decode_fields. decode_checked. split; try done; simpl.
  - unfold is_u32 in *. lia.
  - pose proof (len_nonneg x3). lia.
Qed.

Record data_ack_ok (m : DataAckMessage) : Prop := {
  dao_transfer : named_id (da_transfer m);
  dao_index : is_u32 (da_chunk_index m);
  dao_received_bytes : is_u64 (da_received_bytes m);
}.

Lemma carries_data_ack m :
  data_ack_ok m → carries (encode_data_ack m) decode_data_ack (Success m) 30.
Proof.
  intros []. unfold encode_data_ack, decode_data_ack. carry_fields; [|done].
  rewrite status_code_checked, status_of_code_value. destruct m. carry_done.
Qed.

Lemma decodes_data_ack : decodes false decode_data_ack data_ack_ok.
Proof. unfold decode_data_ack. decode_fields. decode_done. by split. Qed.

Record data_complete_ok (m : DataCompleteMessage) : Prop := {
  ddo_transfer : named_id (dd_transfer m);
  ddo_total_bytes : is_u64 (dd_total_bytes m);
  ddo_total_chunks : is_u32 (dd_total_chunks m);
  ddo_some : dd_total_chunks m ≠ 0;
  ddo_crc : is_u32 (dd_content_crc32c m);
}.

Lemma carries_data_complete m :
  data_complete_ok m → carries (encode_data_complete m) decode_data_complete (Success m) 32.
Proof.
  intros []. unfold encode_data_complete, decode_data_complete. carry_fields; [|done].
  rewrite bool_decide_false by done. destruct m. carry_done.
Qed.

Lemma decodes_data_complete : decodes false decode_data_complete data_complete_ok.
Proof. unfold decode_data_complete. decode_fields. decode_checked. by split. Qed.

(** ** All of them *)

Module Body.
Inductive t : Type :=
| HelloRequest | HelloResponse | ErrorResponse | SimpleAck
| RegisterRequest | RegisterRequestResponse | RegisterAttempt | RegisterAttemptResponse
| StageUpdate | CancelRequest | FailAttempt | ReplaceAttempt
| EvaluateTraffic | DecisionResponse | OpenFlow | OpenFlowResponse
| RegisterTransfer | RegisterTransferResponse | AuthorizeTransfer | TransferDecisionResponse
| TransferComplete | CompletionPublish | CompletionResponse
| AccountingQuery | AccountingResponse | StatusQuery | StatusResponse | PolicyQuery | PolicyResponse
| TopologyPublish | TopologyResponse | PublishSloContract | SloContractResponse
| IssueRouteDecision | RouteDecisionResponse | AdvanceGeneration | ModelGenerationResponse
| Heartbeat | DataChunk | DataAck | DataComplete.

(** The structure of each message, its [encode] and its [decode]. *)
Definition type (k : t) : Type :=
  match k with
  | HelloRequest => Messages.HelloRequest
  | HelloResponse => Messages.HelloResponse
  | ErrorResponse => Messages.ErrorResponse
  | SimpleAck => Messages.SimpleAck
  | RegisterRequest => RegisterRequestMessage
  | RegisterRequestResponse => Messages.RegisterRequestResponse
  | RegisterAttempt => RegisterAttemptMessage
  | RegisterAttemptResponse => Messages.RegisterAttemptResponse
  | StageUpdate => StageUpdateMessage
  | CancelRequest => CancelRequestMessage
  | FailAttempt => FailAttemptMessage
  | ReplaceAttempt => ReplaceAttemptMessage
  | EvaluateTraffic => TrafficRequest
  | DecisionResponse => Decision
  | OpenFlow => OpenFlowMessage
  | OpenFlowResponse => Messages.OpenFlowResponse
  | RegisterTransfer => TransferRegistration
  | RegisterTransferResponse => Messages.RegisterTransferResponse
  | AuthorizeTransfer => TrafficRequest
  | TransferDecisionResponse => Messages.TransferDecisionResponse
  | TransferComplete => TransferCompleteMessage
  | CompletionPublish => CompletionPublication
  | CompletionResponse => PublishOutcome
  | AccountingQuery => Z
  | AccountingResponse => AccountingSnapshot
  | StatusQuery => Z
  | StatusResponse => CoordinatorStatus
  | PolicyQuery => Z
  | PolicyResponse => PolicyConfig
  | TopologyPublish => TopologyEvidence
  | TopologyResponse => TopologyResponseMessage
  | PublishSloContract => PublishSloContractMessage
  | SloContractResponse => SloContract
  | IssueRouteDecision => IssueRouteDecisionMessage
  | RouteDecisionResponse => RouteDecision
  | AdvanceGeneration => AdvanceGenerationMessage
  | ModelGenerationResponse => Messages.ModelGenerationResponse
  | Heartbeat => Z
  | DataChunk => DataChunkMessage
  | DataAck => DataAckMessage
  | DataComplete => DataCompleteMessage
  end.

Definition encode (k : t) : type k → Writer.t → Writer.t :=
  match k with
  | HelloRequest => encode_hello_request
  | HelloResponse => encode_hello_response
  | ErrorResponse => encode_error_response
  | SimpleAck => encode_simple_ack
  | RegisterRequest => encode_register_request
  | RegisterRequestResponse => encode_register_request_response
  | RegisterAttempt => encode_register_attempt
  | RegisterAttemptResponse => encode_register_attempt_response
  | StageUpdate => encode_stage_update
  | CancelRequest => encode_cancel_request
  | FailAttempt => encode_fail_attempt
  | ReplaceAttempt => encode_replace_attempt
  | EvaluateTraffic => encode_evaluate_traffic
  | DecisionResponse => encode_decision_response
  | OpenFlow => encode_open_flow
  | OpenFlowResponse => encode_open_flow_response
  | RegisterTransfer => encode_register_transfer
  | RegisterTransferResponse => encode_register_transfer_response
  | AuthorizeTransfer => encode_authorize_transfer
  | TransferDecisionResponse => encode_transfer_decision
  | TransferComplete => encode_transfer_complete
  | CompletionPublish => encode_completion_publish
  | CompletionResponse => encode_completion_response
  | AccountingQuery | StatusQuery | PolicyQuery => encode_query
  | AccountingResponse => encode_accounting_response
  | StatusResponse => encode_status_response
  | PolicyResponse => encode_policy_response
  | TopologyPublish => encode_topology_publish
  | TopologyResponse => encode_topology_response
  | PublishSloContract => encode_publish_slo
  | SloContractResponse => encode_slo_response
  | IssueRouteDecision => encode_issue_route
  | RouteDecisionResponse => encode_route_response
  | AdvanceGeneration => encode_advance_generation
  | ModelGenerationResponse => encode_model_generation
  | Heartbeat => encode_heartbeat
  | DataChunk => encode_data_chunk
  | DataAck => encode_data_ack
  | DataComplete => encode_data_complete
  end.

Definition decode (k : t) : Reader.t → Result (type k) * Reader.t :=
  match k with
  | HelloRequest => decode_hello_request
  | HelloResponse => decode_hello_response
  | ErrorResponse => decode_error_response
  | SimpleAck => decode_simple_ack
  | RegisterRequest => decode_register_request
  | RegisterRequestResponse => decode_register_request_response
  | RegisterAttempt => decode_register_attempt
  | RegisterAttemptResponse => decode_register_attempt_response
  | StageUpdate => decode_stage_update
  | CancelRequest => decode_cancel_request
  | FailAttempt => decode_fail_attempt
  | ReplaceAttempt => decode_replace_attempt
  | EvaluateTraffic => decode_evaluate_traffic
  | DecisionResponse => decode_decision_response
  | OpenFlow => decode_open_flow
  | OpenFlowResponse => decode_open_flow_response
  | RegisterTransfer => decode_register_transfer
  | RegisterTransferResponse => decode_register_transfer_response
  | AuthorizeTransfer => decode_authorize_transfer
  | TransferDecisionResponse => decode_transfer_decision
  | TransferComplete => decode_transfer_complete
  | CompletionPublish => decode_completion_publish
  | CompletionResponse => decode_completion_response
  | AccountingQuery | StatusQuery | PolicyQuery => decode_query
  | AccountingResponse => decode_accounting_response
  | StatusResponse => decode_status_response
  | PolicyResponse => decode_policy_response
  | TopologyPublish => decode_topology_publish
  | TopologyResponse => decode_topology_response
  | PublishSloContract => decode_publish_slo
  | SloContractResponse => decode_slo_response
  | IssueRouteDecision => decode_issue_route
  | RouteDecisionResponse => decode_route_response
  | AdvanceGeneration => decode_advance_generation
  | ModelGenerationResponse => decode_model_generation
  | Heartbeat => decode_heartbeat
  | DataChunk => decode_data_chunk
  | DataAck => decode_data_ack
  | DataComplete => decode_data_complete
  end.

(** What a decoder answers. *)
Definition typed (k : t) : type k → Prop :=
  match k with
  | HelloRequest => hello_request_ok
  | HelloResponse => hello_response_ok
  | ErrorResponse => error_response_ok
  | SimpleAck => ack_ok
  | RegisterRequest => register_request_ok
  | RegisterRequestResponse => register_request_response_ok
  | RegisterAttempt => register_attempt_ok
  | RegisterAttemptResponse => register_attempt_response_ok
  | StageUpdate => stage_update_ok
  | CancelRequest => cancel_request_ok
  | FailAttempt => fail_attempt_ok
  | ReplaceAttempt => replace_attempt_ok
  | EvaluateTraffic | AuthorizeTransfer => request_ok
  | DecisionResponse => decision_typed
  | OpenFlow => open_flow_typed
  | OpenFlowResponse => open_flow_response_ok
  | RegisterTransfer => registration_ok
  | RegisterTransferResponse => register_transfer_response_ok
  | TransferDecisionResponse => transfer_decision_ok
  | TransferComplete => transfer_complete_ok
  | CompletionPublish => publication_ok
  | CompletionResponse => outcome_ok
  | AccountingQuery | StatusQuery | PolicyQuery => is_u32
  | AccountingResponse => accounting_ok
  | StatusResponse => status_ok
  | PolicyResponse => policy_sound
  | TopologyPublish => topology_ok true
  | TopologyResponse => topology_response_ok
  | PublishSloContract => publish_slo_ok
  | SloContractResponse => slo_ok
  | IssueRouteDecision => issue_route_ok
  | RouteDecisionResponse => route_ok
  | AdvanceGeneration => advance_generation_ok
  | ModelGenerationResponse => model_generation_ok
  | Heartbeat => is_u64
  | DataChunk => data_chunk_ok
  | DataAck => data_ack_ok
  | DataComplete => data_complete_ok
  end.

(** What survives the way through bytes: the same, but that a decision must not
    carry an invalid subject with something in it. *)
Definition ok (k : t) : type k → Prop :=
  match k with
  | DecisionResponse => decision_ok
  | OpenFlow => open_flow_ok
  | k => typed k
  end.

(** The most bytes a body takes. *)
Definition size (k : t) : Z :=
  match k with
  | HelloRequest => 12326 | HelloResponse => 4192 | ErrorResponse => 4104 | SimpleAck => 4102
  | RegisterRequest => 24 | RegisterRequestResponse => 64 | RegisterAttempt => 40
  | RegisterAttemptResponse => 104 | StageUpdate => 34 | CancelRequest => 18 | FailAttempt => 34
  | ReplaceAttempt => 56 | EvaluateTraffic => 208 | DecisionResponse => 678 | OpenFlow => 686
  | OpenFlowResponse => 56 | RegisterTransfer => 89 | RegisterTransferResponse => 74
  | AuthorizeTransfer => 208 | TransferDecisionResponse => 253 | TransferComplete => 24
  | CompletionPublish => 59 | CompletionResponse => 26 | AccountingQuery => 4
  | AccountingResponse => 974 | StatusQuery => 4 | StatusResponse => 72 | PolicyQuery => 4
  | PolicyResponse => kPolicyBytes | TopologyPublish => 68 | TopologyResponse => 12
  | PublishSloContract => 36 | SloContractResponse => 44 | IssueRouteDecision => 38
  | RouteDecisionResponse => 46 | AdvanceGeneration => 19 | ModelGenerationResponse => 25
  | Heartbeat => 8 | DataChunk => 262180 | DataAck => 30 | DataComplete => 32
  end.
End Body.

#[local] Hint Resolve carries_hello_request carries_hello_response carries_error_response
  carries_simple_ack carries_register_request carries_register_request_response
  carries_register_attempt carries_register_attempt_response carries_stage_update
  carries_cancel_request carries_fail_attempt carries_replace_attempt carries_open_flow
  carries_open_flow_response carries_register_transfer_response carries_transfer_decision
  carries_transfer_complete carries_query carries_topology_response carries_publish_slo
  carries_issue_route carries_advance_generation carries_model_generation carries_heartbeat
  carries_data_chunk carries_data_ack carries_data_complete carries_whole : wire.
#[local] Hint Resolve decodes_hello_request decodes_hello_response decodes_error_response
  decodes_simple_ack decodes_register_request decodes_register_request_response
  decodes_register_attempt decodes_register_attempt_response decodes_stage_update
  decodes_cancel_request decodes_fail_attempt decodes_replace_attempt decodes_open_flow
  decodes_open_flow_response decodes_register_transfer_response decodes_transfer_decision
  decodes_transfer_complete decodes_query decodes_topology_response decodes_publish_slo
  decodes_issue_route decodes_advance_generation decodes_model_generation decodes_heartbeat
  decodes_data_chunk decodes_data_ack decodes_data_complete decodes_whole : wire.

(** The messages that are one record. *)
Ltac unfold_whole :=
  unfold encode_evaluate_traffic, decode_evaluate_traffic, encode_decision_response,
    decode_decision_response, encode_register_transfer, decode_register_transfer,
    encode_authorize_transfer, decode_authorize_transfer, encode_completion_publish,
    decode_completion_publish, encode_completion_response, decode_completion_response,
    encode_accounting_response, decode_accounting_response, encode_status_response,
    decode_status_response, encode_policy_response, decode_policy_response,
    encode_topology_publish, decode_topology_publish, encode_slo_response, decode_slo_response,
    encode_route_response, decode_route_response.

Lemma carries_body k (x : Body.type k) :
  Body.ok k x → carries (Body.encode k x) (Body.decode k) (Success x) (Body.size k).
Proof.
  destruct k; cbn [Body.type Body.ok Body.typed Body.encode Body.decode Body.size] in *; intros Hx;
    unfold_whole; by auto with wire.
Qed.

Lemma decodes_body k : decodes false (Body.decode k) (Body.typed k).
Proof.
  destruct k; cbn [Body.type Body.typed Body.decode]; unfold_whole; by auto with wire.
Qed.

Lemma size_fits k : Body.size k ≤ kMaxFramePayloadBytes.
Proof. by destruct k. Qed.

(** C31: Every message body of the protocol, requests and responses alike, that keeps to
    its stated bounds is encoded within the frame ceiling, and decoding the bytes gives
    the same body back and consumes them all. *)
Theorem message_round_trip k (x : Body.type k) :
  Body.ok k x →
  let w := Body.encode k x (Writer.make kMaxFramePayloadBytes) in
  let '(result, r) := Body.decode k (Reader.make (Writer.buffer w) kMaxFramePayloadBytes) in
  Writer.ok w = true ∧ result = Success x ∧ Reader.finish r = Success tt.
Proof. intros Hx. exact (carries_document _ _ x _ _ (carries_body k x Hx) (size_fits k)). Qed.

(** C32: Decoding any message body from arbitrary bytes never reads outside them, and
    answers either a failure code or a body that satisfies the invariants of its type:
    no sentinel enumerator, identities that are set where they must be, strings that are
    valid text, numbers within their width. *)
Theorem decoded_message_is_sound k payload :
  Forall is_byte payload →
  let '(result, r) := Body.decode k (Reader.make payload kMaxFramePayloadBytes) in
  0 ≤ Reader.offset r ≤ len payload ∧
  match result with
  | Success x => Body.typed k x ∧ Reader.ok r = true
  | Failure c => c ≠ StatusCode.Ok
  end.
Proof. apply decodes_document, decodes_body. Qed.
