(* ===== verification/Snapshot.v ===== *)
(** * Durable snapshots

    Models include/itf/persistence.hpp and src/persistence.cpp (its POSIX half):
    the snapshot document, the framed file that holds it, and the loops that move
    bytes through file descriptors.

    The operating system is the parameter [Kernel]: how each call turns out is its
    choice, within what POSIX documents. A write stores at most what it was given, a
    read delivers at least one byte unless the end of the file is reached, and
    either may fail at any time; a rename that succeeds is atomic. Calls are
    numbered, so that the choice may differ from call to call. The disk keeps the
    directory after every call: a process that dies leaves one of those states
    behind, and of a file that was not flushed any contents. *)

From S2P Require Import Prelude Ids Policy Decision Bytes Crc Codec Ledger Coordinator CoordAudit.
From S2P Require Import PolicyCodec Format Serialize.
From stdpp Require Import strings pretty.
#[local] Open Scope Z_scope.
Import Datatypes.

(** ** The document *)

Definition encode_into (state : PersistedCoordinatorState) : Writer.t → Writer.t :=
  Writer.u16 (ps_format_version state)
  ⨾ Writer.generation (ps_epoch state)
  ⨾ Writer.id (ps_previous_incarnation state)
  ⨾ Writer.u64 (ps_boot_count state)
  ⨾ policy_encode (ps_policy state)
  ⨾ Writer.boolean (ps_topology_present state)
  ⨾ encode_topology_evidence (ps_topology state)
  ⨾ Writer.u32 (wrap32 (len (ps_models state)))
  ⨾ encode_list encode_model_state (ps_models state)
  ⨾ Writer.u32 (wrap32 (len (ps_states state)))
  ⨾ encode_list encode_state_generation_record (ps_states state)
  ⨾ Writer.u32 (wrap32 (len (ps_terminal_requests state)))
  ⨾ encode_list encode_request_record (ps_terminal_requests state)
  ⨾ Writer.u32 (wrap32 (len (ps_interrupted_requests state)))
  ⨾ encode_list encode_request_record (ps_interrupted_requests state).

(** The body of the loop over the terminal history. *)
Definition decode_terminal_record : Reader.t → Result RequestRecord * Reader.t :=
  let! record := decode_request_record in
  if negb (request_is_terminal (rr_lifecycle record)) then answer (Failure StatusCode.MalformedInput)
  else if rr_active_flows record ≠? 0 then answer (Failure StatusCode.MalformedInput)
  else answer (Success record).

Definition decode_from : Reader.t → Result PersistedCoordinatorState * Reader.t :=
  let~ format_version := Reader.u16 in
  check_then
  (if format_version ≠? kSnapshotFormatVersion then answer (Failure StatusCode.UnsupportedVersion)
   else
   let~ epoch := Reader.generation in
   let~ previous_incarnation := Reader.id in
   let~ boot_count := Reader.u64 in
   let! policy := policy_decode in
   let~ topology_present := Reader.boolean in
   let! topology := decode_topology_evidence topology_present in
   let~ model_count := Reader.count 65536 in
   check_then
   (let! models := decode_list (Z.to_nat model_count) decode_model_state in
    let~ state_count := Reader.count 65536 in
    check_then
    (let! states := decode_list (Z.to_nat state_count) decode_state_generation_record in
     let~ terminal_count := Reader.count 65536 in
     check_then
     (let! terminal_requests := decode_list (Z.to_nat terminal_count) decode_terminal_record in
      let~ interrupted_count := Reader.count 65536 in
      check_then
      (let! interrupted_requests := decode_list (Z.to_nat interrupted_count) decode_request_record in
       check_then (answer (Success (MkPersisted format_version epoch previous_incarnation boot_count
         policy topology_present topology models states terminal_requests interrupted_requests)))))))).

(** ** The file *)

(** ASCII "ITFS". *)
Definition kSnapshotMagic : list Z := [73; 84; 70; 83].
Definition kSnapshotHeaderBytes : Z := 24.

(** The header up to its own checksum. *)
Definition snapshot_header_body (payload : list Z) : list Z :=
  kSnapshotMagic ++ store 2 kSnapshotFormatVersion ++ store 2 0 ++ store 8 (len payload)
  ++ store 4 (compute payload).

Definition snapshot_header (payload : list Z) : list Z :=
  let body := snapshot_header_body payload in body ++ store 4 (compute body).

(** ** The operating system *)

Record File := MkFile { f_bytes : list Z; f_flushed : bool }.

Abbreviation Directory := (gmap string File).

Record Disk := MkDisk {
  d_files : Directory;
  (** Calls made so far. *)
  d_calls : nat;
  (** The directory after each of them, the latest first. *)
  d_history : list Directory;
  (** [next_temporary_serial]. *)
  d_serial : Z;
}.

Class Kernel := {
  k_process_id : Z;
  k_open : nat → bool;
  k_create : nat → bool;
  k_write : nat → Z;
  k_read : nat → Z;
  k_sync : nat → bool;
  k_rename : nat → bool;
  k_remove : nat → bool;
}.

(** A call that leaves the directory [files] behind. *)
Definition call (files : Directory) (d : Disk) : Disk :=
  MkDisk files (S (d_calls d)) (files :: d_history d) (d_serial d).

Section kernel.
Context `{Kernel}.

(** [open(path, O_RDONLY)]: the handle is the contents and a position. *)
Record ReadHandle := MkReadHandle { h_bytes : list Z; h_offset : nat }.

Definition open_existing (path : string) (d : Disk) : Result ReadHandle * Disk :=
  match d_files d !! path with
  | Some f => if k_open (d_calls d) then (Success (MkReadHandle (f_bytes f) 0), call (d_files d) d)
              else (Failure StatusCode.NotFound, call (d_files d) d)
  | None => (Failure StatusCode.NotFound, call (d_files d) d)
  end.

(** [open(path, O_RDWR | O_CREAT | O_TRUNC)]: the handle is the path. *)
Definition create_truncate (path : string) (d : Disk) : Status * Disk :=
  if k_create (d_calls d) then (Success tt, call (<[path := MkFile [] false]> (d_files d)) d)
  else (Failure StatusCode.IoError, call (d_files d) d).

Definition append_file (path : string) (bytes : list Z) (files : Directory) : Directory :=
  alter (fun f => MkFile (f_bytes f ++ bytes) false) path files.

(** [write(fd, data, size)]: the count it returns, zero or less for a failure. *)
Definition sys_write (path : string) (data : list Z) (d : Disk) : Z * Disk :=
  let written := Z.min (k_write (d_calls d)) (len data) in
  if written <=? 0 then (written, call (d_files d) d)
  else (written, call (append_file path (take (Z.to_nat written) data) (d_files d)) d).

(** The loop of [write_all]; [None] is the loop that has not ended yet. *)
Fixpoint write_loop (fuel : nat) (path : string) (data : list Z) (offset : nat) (d : Disk)
    : option (Status * Disk) :=
  match fuel with
  | O => None
  | S fuel =>
      if (offset <? length data)%nat then
        let '(written, d) := sys_write path (drop offset data) d in
        if written <=? 0 then Some (Failure StatusCode.IoError, d)
        else write_loop fuel path data (offset + Z.to_nat written) d
      else Some (Success tt, d)
  end.

(** Every iteration but the last stores a byte. *)
Definition write_all (path : string) (data : list Z) (d : Disk) : Status * Disk :=
  default (Failure StatusCode.Internal, d) (write_loop (S (length data)) path data 0 d).

(** [read(fd, buffer, size)]: the bytes it delivers, [None] for a failure. *)
Definition sys_read (h : ReadHandle) (size : nat) (d : Disk) : option (list Z) * ReadHandle * Disk :=
  let d' := call (d_files d) d in
  if k_read (d_calls d) <? 0 then (None, h, d')
  else
    let left := drop (h_offset h) (h_bytes h) in
    let n := (Z.to_nat (Z.max 1 (k_read (d_calls d))) `min` size)%nat in
    (Some (take n left), MkReadHandle (h_bytes h) (h_offset h + length (take n left)), d').

Fixpoint read_loop (fuel : nat) (h : ReadHandle) (size : nat) (buffer : list Z) (d : Disk)
    : option (Result (list Z) * ReadHandle * Disk) :=
  match fuel with
  | O => None
  | S fuel =>
      if (length buffer <? size)%nat then
        match sys_read h (size - length buffer) d with
        | (None, h, d) => Some (Failure StatusCode.IoError, h, d)
        | (Some [], h, d) => Some (Failure StatusCode.MalformedInput, h, d)
        | (Some bytes, h, d) => read_loop fuel h size (buffer ++ bytes) d
        end
      else Some (Success buffer, h, d)
  end.

Definition file_read_exact (h : ReadHandle) (size : nat) (d : Disk) : Result (list Z) * ReadHandle * Disk :=
  default (Failure StatusCode.Internal, h, d) (read_loop (S size) h size [] d).

Definition has_more (h : ReadHandle) (d : Disk) : Result bool * Disk :=
  match sys_read h 1 d with
  | (None, _, d) => (Failure StatusCode.IoError, d)
  | (Some bytes, _, d) => (Success (length bytes =? 1)%nat, d)
  end.

Definition sync (path : string) (d : Disk) : Status * Disk :=
  if k_sync (d_calls d)
  then (Success tt, call (alter (fun f => MkFile (f_bytes f) true) path (d_files d)) d)
  else (Failure StatusCode.IoError, call (d_files d) d).

Definition atomic_replace_file (source target : string) (d : Disk) : Status * Disk :=
  match d_files d !! source with
  | Some f => if k_rename (d_calls d)
              then (Success tt, call (<[target := f]> (delete source (d_files d))) d)
              else (Failure StatusCode.IoError, call (d_files d) d)
  | None => (Failure StatusCode.IoError, call (d_files d) d)
  end.

Definition remove_file (path : string) (d : Disk) : Disk :=
  if k_remove (d_calls d) then call (delete path (d_files d)) d else call (d_files d) d.

(** ** The store *)

Record SnapshotStore := MkStore { sn_path : string; sn_max_payload_bytes : Z }.

Definition exists_ (store : SnapshotStore) (d : Disk) : bool * Disk :=
  let '(opened, d) := open_existing (sn_path store) d in (ok opened, d).

Definition next_temporary_serial (d : Disk) : Z * Disk :=
  let serial := add64 (d_serial d) 1 in
  (serial, MkDisk (d_files d) (d_calls d) (d_history d) serial).

Definition temporary_path (path : string) (serial : Z) : string :=
  (path +:+ ".tmp." +:+ pretty k_process_id +:+ "." +:+ pretty serial)%string.

(** The block that writes the temporary file. *)
Definition write_temporary (temporary : string) (payload : list Z) (d : Disk) : Status * Disk :=
  match create_truncate temporary d with
  | (Failure e, d) => (Failure e, d)
  | (Success _, d) =>
      match write_all temporary (snapshot_header payload) d with
      | (Failure e, d) => (Failure e, d)
      | (Success _, d) =>
          match write_all temporary payload d with
          | (Failure e, d) => (Failure e, d)
          | (Success _, d) => sync temporary d
          end
      end
  end.

Definition save_raw (store : SnapshotStore) (payload : list Z) (d : Disk) : Status * Disk :=
  if sn_max_payload_bytes store <? len payload then (Failure StatusCode.BoundsExceeded, d)
  else
    let '(serial, d) := next_temporary_serial d in
    let temporary := temporary_path (sn_path store) serial in
    match write_temporary temporary payload d with
    | (Failure e, d) => (Failure e, d)
    | (Success _, d) =>
        match atomic_replace_file temporary (sn_path store) d with
        | (Failure e, d) => (Failure e, remove_file temporary d)
        | (Success _, d) => (Success tt, d)
        end
    end.

Definition save (store : SnapshotStore) (state : PersistedCoordinatorState) (d : Disk) : Status * Disk :=
  let writer := encode_into state (Writer.make (sn_max_payload_bytes store)) in
  if negb (Writer.ok writer) then (Failure (Writer.failure writer), d)
  else save_raw store (Writer.buffer writer) d.

(** The checks of [load_raw] on the header: the length and the checksum of the
    payload it announces. *)
Definition check_snapshot_header (max_payload_bytes : Z) (header : list Z) : Result (Z * Z) :=
  if take 4 header ≠? kSnapshotMagic then Failure StatusCode.MalformedInput
  else if load 2 header 4 ≠? kSnapshotFormatVersion then Failure StatusCode.UnsupportedVersion
  else if load 4 header 20 ≠? compute (take (Z.to_nat (kSnapshotHeaderBytes - 4)) header)
    then Failure StatusCode.IntegrityMismatch
  else if load 8 header 8 >? max_payload_bytes then Failure StatusCode.BoundsExceeded
  else Success (load 8 header 8, load 4 header 16).

Definition load_raw (store : SnapshotStore) (d : Disk) : Result (list Z) * Disk :=
  match open_existing (sn_path store) d with
  | (Failure e, d) => (Failure e, d)
  | (Success h, d) =>
      match file_read_exact h (Z.to_nat kSnapshotHeaderBytes) d with
      | (Failure _, h, d) => (Failure StatusCode.MalformedInput, d)
      | (Success header, h, d) =>
          match check_snapshot_header (sn_max_payload_bytes store) header with
          | Failure e => (Failure e, d)
          | Success (payload_length, expected_payload_crc) =>
              match file_read_exact h (Z.to_nat payload_length) d with
              | (Failure _, h, d) => (Failure StatusCode.MalformedInput, d)
              | (Success payload, h, d) =>
                  match has_more h d with
                  | (Failure e, d) => (Failure e, d)
                  | (Success true, d) => (Failure StatusCode.TrailingGarbage, d)
                  | (Success false, d) =>
                      if compute payload ≠? expected_payload_crc
                      then (Failure StatusCode.IntegrityMismatch, d)
                      else (Success payload, d)
                  end
              end
          end
      end
  end.

(** The decoder of a whole payload. *)
Definition decode_payload (max_payload_bytes : Z) (payload : list Z) : Result PersistedCoordinatorState :=
  let '(state, r) := decode_from (Reader.make payload max_payload_bytes) in
  match state with
  | Failure e => Failure e
  | Success state => match Reader.finish r with Failure e => Failure e | Success _ => Success state end
  end.

Definition load_snapshot (store : SnapshotStore) (d : Disk) : Result PersistedCoordinatorState * Disk :=
  match load_raw store d with
  | (Failure e, d) => (Failure e, d)
  | (Success payload, d) => (decode_payload (sn_max_payload_bytes store) payload, d)
  end.

Definition sync_file (path : string) (d : Disk) : Status * Disk :=
  match open_existing path d with
  | (Failure e, d) => (Failure e, d)
  | (Success _, d) => sync path d
  end.

End kernel.
