(* ===== verification/SnapshotProps.v ===== *)
(** * Snapshots survive crashes, damage and restarts

    The document round trip, the behaviour of the file loops under every kernel,
    crash atomicity of a save, and refusal of damaged files. *)

From S2P Require Import Prelude Ids Policy Decision Bytes Crc Codec CodecProps Wire Ledger LedgerInv Coordinator.
From S2P Require Import CoordAudit PolicyCodec Format Serialize SerializeProps Snapshot.
From stdpp Require Import strings pretty.
#[local] Open Scope Z_scope.
Import Datatypes.

(** ** The document *)

Definition terminal_ok (r : RequestRecord) : Prop :=
  request_record_ok r ∧ request_is_terminal (rr_lifecycle r) = true ∧ rr_active_flows r = 0.

Record state_ok (s : PersistedCoordinatorState) : Prop := {
  sk_version : ps_format_version s = kSnapshotFormatVersion;
  sk_epoch : is_u64 (ps_epoch s) ∧ ps_epoch s ≠ 0;
  sk_incarnation : id_ok (ps_previous_incarnation s) ∧ ps_previous_incarnation s ≠ nil_id;
  sk_boot_count : is_u64 (ps_boot_count s);
  sk_policy : policy_sound (ps_policy s);
  sk_topology : topology_ok (ps_topology_present s) (ps_topology s);
  sk_models : Forall model_ok (ps_models s) ∧ len (ps_models s) ≤ 65536;
  sk_states : Forall state_generation_ok (ps_states s) ∧ len (ps_states s) ≤ 65536;
  sk_terminal : Forall terminal_ok (ps_terminal_requests s) ∧ len (ps_terminal_requests s) ≤ 65536;
  sk_interrupted :
    Forall request_record_ok (ps_interrupted_requests s) ∧ len (ps_interrupted_requests s) ≤ 65536;
}.

(** The most bytes the document takes. *)
Definition document_size (s : PersistedCoordinatorState) : Z :=
  848 + 17 * len (ps_models s) + 17 * len (ps_states s) + 916 * len (ps_terminal_requests s)
  + 916 * len (ps_interrupted_requests s).

Lemma carries_terminal_record r :
  terminal_ok r → carries (encode_request_record r) decode_terminal_record (Success r) 916.
Proof.
  intros (Hr&Ht&Ha). unfold decode_terminal_record. eapply carries_then_last; [by apply carries_request_record|].
  rewrite Ht, Ha. cbn [negb]. carry_done.
Qed.

Lemma decodes_terminal_record : decodes false decode_terminal_record terminal_ok.
Proof. unfold decode_terminal_record. decode_field. decode_checked. done. Qed.
#[local] Hint Resolve carries_terminal_record decodes_terminal_record : wire.

(** A counted collection: its length, then its entries. *)
Lemma carries_collection {A B} (f : A → Writer.t → Writer.t) (m : Reader.t → Result A * Reader.t)
    (P : A → Prop) l g (k : list A → Reader.t → Result B * Reader.t) y n n' :
  (∀ x, P x → carries (f x) m (Success x) n) → Forall P l ∧ len l ≤ 65536 →
  carries g (k l) y n' →
  carries (Writer.u32 (wrap32 (len l)) ⨾ encode_list f l ⨾ g)
    (let~ count := Reader.count 65536 in
     check_then (let! l := decode_list (Z.to_nat count) m in k l)) y (4 + (n * len l + n')).
Proof.
  intros Hx [Hl Hlen] Hk. pose proof (len_nonneg l).
  rewrite wrap32_id by (unfold is_u32, two32; lia).
  eapply carries_bind; [by apply carries_count|]. apply carries_check. rewrite to_nat_len.
  eapply carries_then; [|exact Hk]. apply carries_list. rewrite Forall_forall in Hl. auto.
Qed.

Lemma carries_state s :
  state_ok s → carries (encode_into s) decode_from (Success s) (document_size s).
Proof.
  intros [Hv [He He'] [Hi Hi'] ? ? ? Hm Hs Ht Hr]. unfold encode_into, decode_from. rewrite Hv.
  eapply carries_weaken.
  - eapply carries_bind; [by apply carries_u16|]. cbn beta. carry_field.
    change (kSnapshotFormatVersion ≠? kSnapshotFormatVersion) with false. cbn iota.
    do 6 carry_field.
    eapply (carries_collection _ _ _ _ _ (fun models => _) _ _ _ carries_model_state Hm).
    eapply (carries_collection _ _ _ _ _ (fun states => _) _ _ _ carries_state_generation_record Hs).
    eapply (carries_collection _ _ _ _ _ (fun terminal => _) _ _ _ carries_terminal_record Ht).
    destruct Hr as [Hr Hlen]. pose proof (len_nonneg (ps_interrupted_requests s)).
    rewrite wrap32_id by (unfold is_u32, two32; lia).
    eapply carries_bind; [by apply carries_count|]. apply carries_check. rewrite to_nat_len.
    eapply carries_then_last.
    { apply carries_list. intros x Hx. apply carries_request_record. rewrite Forall_forall in Hr. auto. }
    destruct s. simpl in *. subst. carry_done.
  - unfold document_size, kPolicyBytes. lia.
Qed.

Lemma decodes_collection {A B} (m : Reader.t → Result A * Reader.t) (P : A → Prop) b
    (k : list A → Reader.t → Result B * Reader.t) Q :
  decodes false m P → (∀ l, Forall P l ∧ len l ≤ 65536 → decodes true (k l) Q) →
  decodes b (let~ count := Reader.count 65536 in
    check_then (let! l := decode_list (Z.to_nat count) m in k l)) Q.
Proof.
  intros Hm Hk r Hs _. unfold bind_read. destruct (yields_count 65536 r Hs) as [M1 P1].
  destruct (Reader.count 65536 r) as [n r1]. simpl in *. unfold check_then.
  destruct (Reader.ok r1) eqn:Ok; simpl; [|by split; [|apply bool_decide_eq_false in Ok]].
  specialize (P1 eq_refl).
  assert (decodes true (let! l := decode_list (Z.to_nat n) m in k l) Q) as HD.
  { eapply decodes_then; [apply decodes_list, decodes_any, Hm|]. intros l [Hl Hall]. apply Hk.
    split; [done|]. unfold len. lia. }
  destruct (HD r1 (mv_safe _ _ M1) ltac:(done)) as [M2 HQ]. split; [by eapply moves_trans|done].
Qed.

Lemma decodes_state : decodes false decode_from state_ok.
Proof.
  unfold decode_from. do 2 decode_field. apply decodes_if; [intros _; by apply decodes_failure|].
  intros Hv%negb_false_iff%bool_decide_eq_true. do 6 decode_field.
  eapply (decodes_collection _ _ _ _ _ decodes_model_state). intros models Hm.
  eapply (decodes_collection _ _ _ _ _ decodes_state_generation_record). intros states Hs.
  eapply (decodes_collection _ _ _ _ _ decodes_terminal_record). intros terminal Ht.
  eapply (decodes_collection _ _ _ _ _ decodes_request_record). intros interrupted Hi.
  decode_field. decode_done. by split.
Qed.

Lemma decode_payload_round_trip s max :
  state_ok s → document_size s ≤ max →
  let w := encode_into s (Writer.make max) in
  Writer.ok w = true ∧ decode_payload max (Writer.buffer w) = Success s.
Proof.
  intros Hs Hmax w. pose proof (carries_document _ _ s _ max (carries_state s Hs) Hmax) as H.
  cbv zeta in H. fold w in H. unfold decode_payload. destruct (decode_from _) as [result r].
  destruct H as (Hok&->&->). done.
Qed.

Lemma decode_payload_sound max payload s :
  Forall is_byte payload → decode_payload max payload = Success s → state_ok s.
Proof.
  intros Hb. pose proof (decodes_document _ _ payload max decodes_state Hb) as H. unfold decode_payload.
  destruct (decode_from _) as [[s'|] r]; [|done]. destruct H as (_&Hs&_).
  case_match; [|done]. by intros [= <-].
Qed.

(** ** The file loops *)

Section kernel.
Context `{Kernel}.

(** What happened between two disks concerns the file [p] alone: every directory
    in between agrees with the first one on all other names. *)
Record only (p : string) (d d' : Disk) : Prop := {
  on_files : ∀ q, q ≠ p → d_files d' !! q = d_files d !! q;
  on_history : ∃ new, d_history d' = new ++ d_history d ∧
    Forall (fun s : Directory => ∀ q, q ≠ p → s !! q = d_files d !! q) new;
}.

Lemma only_refl p d : only p d d.
Proof. split; [done|]. by exists []. Qed.

Lemma only_trans p d1 d2 d3 : only p d1 d2 → only p d2 d3 → only p d1 d3.
Proof.
  intros [F1 (n1&E1&H1)] [F2 (n2&E2&H2)]. split; [intros q Hq; by rewrite F2, F1|].
  exists (n2 ++ n1). split; [by rewrite E2, E1, app_assoc|]. apply Forall_app. split; [|done].
  eapply Forall_impl; [exact H2|]. intros s Hs q Hq. by rewrite Hs, F1.
Qed.

Lemma only_call p files d :
  (∀ q, q ≠ p → files !! q = d_files d !! q) → only p d (call files d).
Proof. intros Hf. split; [done|]. exists [files]. split; [done|]. by constructor. Qed.

Lemma only_same p d : only p d (call (d_files d) d).
Proof. by apply only_call. Qed.

(** A write stores a non-empty prefix of its data, or nothing. *)
Lemma sys_write_spec path data d written d' f :
  d_files d !! path = Some f → sys_write path data d = (written, d') →
  only path d d' ∧ d_calls d' = S (d_calls d) ∧
  (if written <=? 0 then d_files d' !! path = Some f
   else (Z.to_nat written ≤ length data)%nat ∧
        d_files d' !! path = Some (MkFile (f_bytes f ++ take (Z.to_nat written) data) false)).
Proof.
  intros Hf. unfold sys_write. case_match eqn:E; intros [= <- <-]; rewrite E.
  - split; [apply only_same|done].
  - split; [apply only_call; intros q Hq; by apply lookup_alter_ne|]. split; [done|]. simpl. split.
    + unfold len. lia.
    + unfold append_file. by rewrite lookup_alter, Hf, decide_True.
Qed.

(** The loop ends, and with at most one call for each byte; a success has
    appended exactly the data. *)
Lemma write_loop_spec path data : ∀ fuel offset d f,
  (length data < offset + fuel)%nat → (offset ≤ length data)%nat → d_files d !! path = Some f →
  ∃ st d' f', write_loop fuel path data offset d = Some (st, d') ∧ only path d d' ∧
    (d_calls d' ≤ d_calls d + (length data - offset))%nat ∧ d_files d' !! path = Some f' ∧
    (st = Success tt → f_bytes f' = f_bytes f ++ drop offset data).
Proof.
  induction fuel as [|fuel IH]; intros offset d f Hfuel Hoff Hf; [lia|]. cbn [write_loop].
  destruct (Nat.ltb_spec offset (length data)) as [Hlt|Hge].
  2:{ exists (Success tt), d, f. split_and!; [done|apply only_refl|lia|done|].
      intros _. by rewrite drop_ge, app_nil_r. }
  destruct (sys_write path (drop offset data) d) as [written d1] eqn:E.
  destruct (sys_write_spec _ _ _ _ _ f Hf E) as (O1&C1&W). destruct (Z.leb_spec written 0).
  - exists (Failure StatusCode.IoError), d1, f. split_and!; [done|done|lia|done|done].
  - destruct W as [Hw Hf1]. rewrite length_drop in Hw.
    destruct (IH (offset + Z.to_nat written)%nat d1 _ ltac:(lia) ltac:(lia) Hf1) as (st&d'&f'&E'&O2&C2&Hf'&B).
    exists st, d', f'. split_and!; [done|by eapply only_trans|lia|done|].
    intros Hst. rewrite (B Hst). simpl.
    replace (drop (offset + Z.to_nat written) data) with (drop (Z.to_nat written) (drop offset data))
      by (rewrite drop_drop; f_equal; lia).
    by rewrite <- app_assoc, take_drop.
Qed.

Lemma write_all_spec path data d f :
  d_files d !! path = Some f →
  ∃ st d' f', write_all path data d = (st, d') ∧ only path d d' ∧ d_files d' !! path = Some f' ∧
    (st = Success tt → f_bytes f' = f_bytes f ++ data).
Proof.
  intros Hf. destruct (write_loop_spec path data (S (length data)) 0 d f ltac:(lia) ltac:(lia) Hf)
    as (st&d'&f'&E&O&_&Hf'&B).
  exists st, d', f'. unfold write_all. rewrite E. by rewrite drop_0 in B.
Qed.

Lemma take_length_take {A} (l : list A) n : take (length (take n l)) l = take n l.
Proof. revert n. induction l as [|x l IH]; intros [|n]; simpl; try done. by rewrite IH. Qed.

(** A read delivers the next bytes of the file, none only at its end. *)
Lemma sys_read_spec h size d out h' d' :
  (0 < size)%nat → sys_read h size d = (out, h', d') →
  d_files d' = d_files d ∧ d_calls d' = S (d_calls d) ∧
  match out with
  | None => k_read (d_calls d) < 0
  | Some bytes =>
      0 ≤ k_read (d_calls d) ∧ h_bytes h' = h_bytes h ∧ h_offset h' = (h_offset h + length bytes)%nat ∧
      (length bytes ≤ size)%nat ∧ bytes = take (length bytes) (drop (h_offset h) (h_bytes h)) ∧
      (bytes = [] → drop (h_offset h) (h_bytes h) = [])
  end.
Proof.
  intros Hsize. unfold sys_read. destruct (Z.ltb_spec (k_read (d_calls d)) 0); intros [= <- <- <-]; [done|].
  set (left := drop _ _). set (n := (Z.to_nat _ `min` size)%nat).
  assert (0 < n)%nat as Hn by (unfold n; lia). split_and!; try done.
  - rewrite length_take. unfold n. lia.
  - by rewrite take_length_take.
  - destruct left; [done|]. by destruct n; [lia|].
Qed.

(** The loop ends, with at most one call for each byte and one more; a success
    has read exactly the next [size] bytes. *)
Lemma read_loop_spec size : ∀ fuel h buffer d,
  (size < length buffer + fuel)%nat → (length buffer ≤ size)%nat →
  ∃ out h' d', read_loop fuel h size buffer d = Some (out, h', d') ∧ d_files d' = d_files d ∧
    (d_calls d ≤ d_calls d' ≤ d_calls d + (size - length buffer))%nat ∧
    match out with
    | Success bytes =>
        length bytes = size ∧ h_bytes h' = h_bytes h ∧
        bytes = buffer ++ take (size - length buffer) (drop (h_offset h) (h_bytes h)) ∧
        h_offset h' = (h_offset h + (size - length buffer))%nat
    | Failure _ =>
        (∃ n, (d_calls d ≤ n < d_calls d')%nat ∧ k_read n < 0) ∨
        (length buffer + length (drop (h_offset h) (h_bytes h)) < size)%nat
    end.
Proof.
  induction fuel as [|fuel IH]; intros h buffer d Hfuel Hlen; [lia|]. cbn [read_loop].
  destruct (Nat.ltb_spec (length buffer) size) as [Hlt|Hge].
  2:{ exists (Success buffer), h, d. replace (size - length buffer)%nat with 0%nat by lia.
      rewrite take_0, app_nil_r, Nat.add_0_r. split_and!; done || lia. }
  destruct (sys_read h (size - length buffer) d) as [[out h1] d1] eqn:E.
  destruct (sys_read_spec _ (size - length buffer) _ _ _ _ ltac:(lia) E) as (F1&C1&R).
  destruct out as [[|b bytes]|].
  - destruct R as (_&_&_&_&_&Hend). specialize (Hend eq_refl).
    exists (Failure StatusCode.MalformedInput), h1, d1. split_and!; [done|done|lia|lia|].
    right. rewrite Hend. simpl. lia.
  - destruct R as (_&Hb&Ho&Hn&Hbytes&_). set (got := b :: bytes) in *.
    assert (0 < length got)%nat by (unfold got; simpl; lia).
    assert (length (buffer ++ got) = (length buffer + length got)%nat) as El by apply length_app.
    destruct (IH h1 (buffer ++ got) d1) as (out&h'&d'&E'&F2&C2&S2); [rewrite El; lia..|].
    rewrite El in C2. exists out, h', d'. split_and!; [done|congruence|lia|lia|].
    assert (drop (h_offset h1) (h_bytes h1) = drop (length got) (drop (h_offset h) (h_bytes h))) as Ed.
    { by rewrite Ho, Hb, drop_drop. }
    rewrite Ed, Hb, El in S2. destruct out as [res|c].
    + destruct S2 as (L2&B2&R2&O2). split_and!; [done|done| |lia].
      rewrite R2, <- app_assoc. f_equal.
      replace (size - length buffer)%nat with (length got + (size - (length buffer + length got)))%nat by lia.
      rewrite <- take_take_drop. by rewrite <- Hbytes.
    + destruct S2 as [(n&Hn1&Hn2)|S2]; [left; exists n; split; [lia|done]|right].
      apply (f_equal length) in Hbytes. rewrite length_take in Hbytes. rewrite length_drop in S2. lia.
  - exists (Failure StatusCode.IoError), h1, d1. split_and!; [done|done|lia|lia|].
    left. exists (d_calls d). split; [lia|done].
Qed.

Lemma file_read_exact_spec h size d :
  ∃ out h' d', file_read_exact h size d = (out, h', d') ∧ d_files d' = d_files d ∧
    (d_calls d ≤ d_calls d')%nat ∧
    match out with
    | Success bytes =>
        length bytes = size ∧ h_bytes h' = h_bytes h ∧
        bytes = take size (drop (h_offset h) (h_bytes h)) ∧ h_offset h' = (h_offset h + size)%nat
    | Failure _ =>
        (∃ n, (d_calls d ≤ n)%nat ∧ k_read n < 0) ∨
        (length (drop (h_offset h) (h_bytes h)) < size)%nat
    end.
Proof.
  destruct (read_loop_spec size (S size) h [] d ltac:(simpl; lia) ltac:(simpl; lia))
    as (out&h'&d'&E&F&C&S). change (length (A:=Z) []) with 0%nat in *. rewrite Nat.sub_0_r in *.
  exists out, h', d'. unfold file_read_exact. rewrite E. split_and!; [done|done|lia|].
  destruct out; [done|]. destruct S as [(n&?&?)|?]; [left; exists n; split; [lia|done]|by right].
Qed.

(** ** Saving *)

Lemma string_length_append s t : String.length (s +:+ t) = (String.length s + String.length t)%nat.
Proof. induction s as [|c s IH]; [done|]. simpl. by rewrite IH. Qed.

Lemma temporary_is_another path serial : temporary_path path serial ≠ path.
Proof.
  unfold temporary_path. intros E. apply (f_equal String.length) in E.
  rewrite !string_length_append in E. simpl in E. lia.
Qed.

(** The complete file for a payload. *)
Definition snapshot_file (payload : list Z) : list Z := snapshot_header payload ++ payload.

Lemma sync_spec path d st d' f :
  d_files d !! path = Some f → sync path d = (st, d') →
  only path d d' ∧ (st = Success tt → d_files d' !! path = Some (MkFile (f_bytes f) true)).
Proof.
  intros Hf. unfold sync. case_match; intros [= <- <-].
  - split; [apply only_call; intros q Hq; by apply lookup_alter_ne|]. intros _.
    simpl. by rewrite lookup_alter, Hf, decide_True.
  - split; [apply only_same|done].
Qed.

(** Whatever fails, only the temporary file is concerned; a success has put the
    whole file there and flushed it. *)
Lemma write_temporary_spec temporary payload d st d' :
  write_temporary temporary payload d = (st, d') →
  only temporary d d' ∧
  (st = Success tt → d_files d' !! temporary = Some (MkFile (snapshot_file payload) true)).
Proof.
  unfold write_temporary, create_truncate. destruct (k_create (d_calls d)).
  2:{ intros [= <- <-]. split; [apply only_same|done]. }
  set (d1 := call _ d). assert (d_files d1 !! temporary = Some (MkFile [] false)) as F1.
  { simpl. by rewrite lookup_insert, decide_True. }
  assert (only temporary d d1) as O1.
  { apply only_call. intros q Hq. by apply lookup_insert_ne. }
  destruct (write_all_spec temporary (snapshot_header payload) d1 _ F1) as (s2&d2&f2&->&O2&F2&B2).
  destruct s2 as [[]|e2]; [|intros [= <- <-]; split; [by eapply only_trans|done]].
  destruct (write_all_spec temporary payload d2 _ F2) as (s3&d3&f3&->&O3&F3&B3).
  destruct s3 as [[]|e3];
    [|intros [= <- <-]; split; [by eapply only_trans; [|eapply only_trans]|done]].
  intros E. destruct (sync_spec _ _ _ _ _ F3 E) as [O4 B4]. split.
  - eapply only_trans; [exact O1|]. eapply only_trans; [exact O2|]. by eapply only_trans.
  - intros Hs. rewrite (B4 Hs), (B3 eq_refl), (B2 eq_refl). done.
Qed.

(** What the target may hold at any moment of a save: what it held before, or
    the complete file on stable storage. *)
Definition old_or_new (store : SnapshotStore) (payload : list Z) (before now : Directory) : Prop :=
  now !! sn_path store = before !! sn_path store
  ∨ now !! sn_path store = Some (MkFile (snapshot_file payload) true).

Lemma save_raw_spec store payload d st d' :
  save_raw store payload d = (st, d') →
  (st = Success tt → d_files d' !! sn_path store = Some (MkFile (snapshot_file payload) true)) ∧
  (st ≠ Success tt → d_files d' !! sn_path store = d_files d !! sn_path store) ∧
  ∃ new temporary, d_history d' = new ++ d_history d ∧ temporary ≠ sn_path store ∧
    Forall (fun s => old_or_new store payload (d_files d) s ∧
      ∀ q, q ≠ sn_path store → q ≠ temporary → s !! q = d_files d !! q) new.
Proof.
  unfold save_raw. case_match.
  { intros [= <- <-]. split; [done|]. split; [done|]. exists [], (temporary_path (sn_path store) 0).
    split; [done|]. split; [apply temporary_is_another|constructor]. }
  destruct (next_temporary_serial d) as [serial d0] eqn:E0.
  assert (d_files d0 = d_files d ∧ d_history d0 = d_history d) as [F0 Hh0].
  { unfold next_temporary_serial in E0. by injection E0 as _ <-. }
  set (tmp := temporary_path (sn_path store) serial).
  pose proof (temporary_is_another (sn_path store) serial) as Hne. fold tmp in Hne.
  destruct (write_temporary tmp payload d0) as [s1 d1] eqn:E1.
  destruct (write_temporary_spec _ _ _ _ _ E1) as [[O1 (new&En&Hnew)] B1].
  rewrite F0 in *. rewrite Hh0 in En.
  assert (Forall (fun s => old_or_new store payload (d_files d) s ∧
      ∀ q, q ≠ sn_path store → q ≠ tmp → s !! q = d_files d !! q) new) as Hold.
  { eapply Forall_impl; [exact Hnew|]. intros s Hs. split; [left; by apply Hs|auto]. }
  destruct s1 as [[]|e1].
  2:{ intros [= <- <-]. split; [done|]. split; [intros _; by apply O1|]. by exists new, tmp. }
  unfold atomic_replace_file. rewrite (B1 eq_refl). destruct (k_rename (d_calls d1)).
  - intros [= <- <-]. split; [intros _; simpl; by rewrite lookup_insert, decide_True|]. split; [done|].
    eexists (_ :: new), tmp. split; [simpl; by rewrite En|]. split; [done|]. constructor; [|done]. split.
    + right. by rewrite lookup_insert, decide_True.
    + intros q Hq Hqt. rewrite lookup_insert_ne, lookup_delete_ne by done. by apply O1.
  - intros [= <- <-]. unfold remove_file.
    split; [done|]. split.
    { intros _. simpl. case_match; simpl; rewrite ?lookup_delete_ne by done; by apply O1. }
    assert (∀ files : Directory, (∀ q, q ≠ tmp → files !! q = d_files d1 !! q) →
      old_or_new store payload (d_files d) files ∧
      ∀ q, q ≠ sn_path store → q ≠ tmp → files !! q = d_files d !! q) as Hsame.
    { intros files Hf. split; [left; rewrite Hf by done; by apply O1|]. intros q ? Hq. rewrite Hf by done. by apply O1. }
    case_match; simpl; eexists (_ :: _ :: new), tmp; (split; [simpl; by rewrite En|]; split; [done|]);
      (constructor; [apply Hsame; intros q Hq; done || by apply lookup_delete_ne|]);
      (constructor; [by apply Hsame|done]).
Qed.

(** ** Loading *)

Lemma header_body_length payload : length (snapshot_header_body payload) = 20%nat.
Proof. unfold snapshot_header_body. rewrite !store_le. done. Qed.

Lemma snapshot_header_length payload : length (snapshot_header payload) = 24%nat.
Proof. unfold snapshot_header. rewrite length_app, header_body_length, store_le, length_le_bytes. done. Qed.

Lemma header_body_is_bytes payload : Forall is_byte (snapshot_header_body payload).
Proof.
  unfold snapshot_header_body. rewrite !store_le, !Forall_app. split_and!; try apply le_bytes_bytes.
  by repeat constructor.
Qed.

(** The header of a payload announces that payload. *)
Lemma check_own_header max payload :
  Forall is_byte payload → len payload ≤ max → len payload < two64 →
  check_snapshot_header max (snapshot_header payload) = Success (len payload, compute payload).
Proof.
  intros Hb Hmax H64. pose proof (compute_range payload Hb) as Hc.
  pose proof (compute_range _ (header_body_is_bytes payload)) as Hc'. pose proof (len_nonneg payload).
  assert (len (snapshot_header payload) = 24) as Hlen by (unfold len; by rewrite snapshot_header_length).
  assert (take 20 (snapshot_header payload) = snapshot_header_body payload) as H20.
  { apply take_app_length'. by rewrite header_body_length. }
  assert (take 4 (snapshot_header payload) = kSnapshotMagic
    ∧ take 2 (drop 4 (snapshot_header payload)) = le_bytes 2 kSnapshotFormatVersion
    ∧ take 8 (drop 8 (snapshot_header payload)) = le_bytes 8 (len payload)
    ∧ take 4 (drop 16 (snapshot_header payload)) = le_bytes 4 (compute payload)
    ∧ take 4 (drop 20 (snapshot_header payload)) = le_bytes 4 (compute (snapshot_header_body payload)))
    as (F0&F4&F8&F16&F20).
  { unfold snapshot_header. generalize (compute (snapshot_header_body payload)). intros c.
    unfold snapshot_header_body. rewrite !store_le. generalize (compute payload), (len payload). done. }
  unfold check_snapshot_header. change (Z.to_nat (kSnapshotHeaderBytes - 4)) with 20%nat.
  rewrite F0, H20, (load_field 2 _ 4 _ F4), (load_field 8 _ 8 _ F8), (load_field 4 _ 16 _ F16),
    (load_field 4 _ 20 _ F20) by (unfold two64, kSnapshotFormatVersion in *; simpl; lia).
  rewrite !bool_decide_true by done. cbn [negb].
  rewrite Z.gtb_ltb, (proj2 (Z.ltb_ge _ _)) by lia. done.
Qed.

(** Files hold bytes. *)
Definition disk_ok (d : Disk) : Prop := ∀ path f, d_files d !! path = Some f → Forall is_byte (f_bytes f).

Lemma load_nonneg n data offset :
  Forall is_byte data → 0 ≤ offset → offset + Z.of_nat n ≤ len data → 0 ≤ load n data offset.
Proof.
  intros Hb Ho Hl. rewrite load_le by done.
  apply le_word_range. by apply Forall_take, Forall_drop.
Qed.

(** What a successful load says about the file, whatever the kernel did. *)
Lemma load_raw_inv store d payload d' :
  disk_ok d → load_raw store d = (Success payload, d') →
  ∃ f header, d_files d !! sn_path store = Some f ∧ f_bytes f = header ++ payload ∧
    length header = 24%nat ∧
    check_snapshot_header (sn_max_payload_bytes store) header = Success (len payload, compute payload).
Proof.
  intros Hdisk. unfold load_raw, open_existing.
  destruct (d_files d !! sn_path store) as [f|] eqn:Hf; [|done]. apply Hdisk in Hf as Hbytes.
  destruct (k_open (d_calls d)); [|done].
  destruct (file_read_exact_spec (MkReadHandle (f_bytes f) 0) (Z.to_nat kSnapshotHeaderBytes)
    (call (d_files d) d)) as (out&h1&d1&->&_&_&S1). destruct out as [header|]; [|done].
  destruct S1 as (L1&B1&R1&O1). simpl in B1, R1, O1. rewrite drop_0 in R1.
  destruct (check_snapshot_header _ header) as [[n crc]|] eqn:Hc; [|done].
  destruct (file_read_exact_spec h1 (Z.to_nat n) d1) as (out&h2&d2&->&_&_&S2).
  destruct out as [p|]; [|done]. destruct S2 as (L2&B2&R2&O2).
  unfold has_more. destruct (sys_read h2 1 d2) as [[out h3] d3] eqn:E3.
  destruct (sys_read_spec h2 1 d2 _ _ _ ltac:(lia) E3) as (_&_&S3). destruct out as [rest|]; [|done].
  destruct S3 as (_&_&_&Hsize&_&Hend). destruct (Nat.eqb_spec (length rest) 1); [done|].
  assert (rest = []) as -> by (destruct rest; [done|simpl in *; lia]). specialize (Hend eq_refl).
  destruct (bool_decide_reflect (compute p = crc)) as [Hcrc|]; [|done]. intros [= <- <-].
  exists f, header. split_and!; [done| |done|].
  - rewrite B2, B1, O2, O1 in Hend. rewrite B1, O1 in R2. rewrite R1 at 1. rewrite R2.
    rewrite <- (take_drop (Z.to_nat kSnapshotHeaderBytes) (f_bytes f)) at 1. f_equal.
    rewrite <- (take_drop (Z.to_nat n) (drop _ (f_bytes f))) at 1.
    rewrite drop_drop. simpl in Hend. simpl. rewrite Hend. by rewrite app_nil_r.
  - rewrite Hc, Hcrc. repeat f_equal. unfold len. rewrite L2.
    unfold check_snapshot_header in Hc. repeat case_match; try done. injection Hc as <- <-.
    rewrite Z2Nat.id; [done|]. apply load_nonneg; [|done|unfold len; rewrite L1; done].
    rewrite R1. by apply Forall_take.
Qed.

(** From this call on, files open and reads do not fail. *)
Definition readable_from (n : nat) : Prop := ∀ m, (n ≤ m)%nat → k_open m = true ∧ 0 ≤ k_read m.

Lemma file_read_enough h size d :
  readable_from (d_calls d) → (size ≤ length (drop (h_offset h) (h_bytes h)))%nat →
  ∃ d', file_read_exact h size d
    = (Success (take size (drop (h_offset h) (h_bytes h))), MkReadHandle (h_bytes h) (h_offset h + size), d')
    ∧ (d_calls d ≤ d_calls d')%nat.
Proof.
  intros Hr Hs. destruct (file_read_exact_spec h size d) as (out&h'&d'&->&_&C&S).
  destruct out as [bytes|].
  - destruct S as (_&Hb&->&Ho). exists d'. destruct h'; simpl in *; by subst.
  - exfalso. destruct S as [(n&Hn&Hneg)|S]; [|lia]. destruct (Hr n Hn). lia.
Qed.

Lemma load_raw_ok store d payload flushed :
  readable_from (d_calls d) → Forall is_byte payload → len payload ≤ sn_max_payload_bytes store →
  len payload < two64 → d_files d !! sn_path store = Some (MkFile (snapshot_file payload) flushed) →
  (load_raw store d).1 = Success payload.
Proof.
  intros Hr Hb Hmax H64 Hf. unfold load_raw, open_existing. rewrite Hf.
  destruct (Hr (d_calls d)) as [-> _]; [done|]. simpl f_bytes.
  set (h := MkReadHandle (snapshot_file payload) 0). set (d0 := call (d_files d) d).
  assert (readable_from (d_calls d0)) as Hr0 by (intros m Hm; apply Hr; simpl in Hm; lia).
  destruct (file_read_enough h (Z.to_nat kSnapshotHeaderBytes) d0 Hr0) as (d1&->&C1).
  { change (24 ≤ length (drop 0 (snapshot_file payload)))%nat. rewrite drop_0. unfold snapshot_file.
    rewrite length_app, snapshot_header_length. lia. }
  cbn [h h_bytes h_offset]. rewrite drop_0.
  assert (take (Z.to_nat kSnapshotHeaderBytes) (snapshot_file payload) = snapshot_header payload) as ->.
  { apply take_app_length'. by rewrite snapshot_header_length. }
  rewrite check_own_header by done. rewrite to_nat_len.
  assert (drop (Z.to_nat kSnapshotHeaderBytes) (snapshot_file payload) = payload) as Hd.
  { apply drop_app_length'. by rewrite snapshot_header_length. }
  assert (readable_from (d_calls d1)) as Hr1 by (intros m Hm; apply Hr0; lia).
  edestruct (file_read_enough (MkReadHandle (snapshot_file payload) (0 + Z.to_nat kSnapshotHeaderBytes))
    (length payload) d1 Hr1) as (d2&->&C2); [simpl h_offset; simpl h_bytes; by rewrite Hd|].
  cbn [h_bytes h_offset]. change (0 + Z.to_nat kSnapshotHeaderBytes)%nat with (Z.to_nat kSnapshotHeaderBytes).
  rewrite Hd, take_ge by done. unfold has_more. set (h2 := MkReadHandle _ _).
  destruct (sys_read h2 1 d2) as [[out h3] d3] eqn:E3.
  destruct (sys_read_spec h2 1 d2 _ _ _ ltac:(lia) E3) as (_&_&S3). destruct out as [rest|].
  - destruct S3 as (_&_&_&_&Hrest&_). cbn [h2 h_bytes h_offset] in Hrest.
    rewrite (drop_ge (snapshot_file payload)), take_nil in Hrest.
    + rewrite Hrest. simpl. by rewrite bool_decide_true.
    + unfold snapshot_file. rewrite length_app, snapshot_header_length. unfold kSnapshotHeaderBytes. lia.
  - destruct (Hr1 (d_calls d2) ltac:(lia)). lia.
Qed.

(** ** Damage *)

(** Two byte strings that differ in at most four adjacent places. *)
Definition damaged (l l' : list Z) : Prop :=
  ∃ pre x y post, l = pre ++ x ++ post ∧ l' = pre ++ y ++ post ∧ length x = length y ∧ (length x ≤ 4)%nat.

Lemma damaged_length l l' : damaged l l' → length l = length l'.
Proof. intros (pre&x&y&post&->&->&Hl&_). by rewrite !length_app, Hl. Qed.

Lemma damaged_take n l l' : damaged l l' → damaged (take n l) (take n l').
Proof.
  intros (pre&x&y&post&->&->&Hl&H4).
  exists (take n pre), (take (n - length pre) x), (take (n - length pre) y),
    (take (n - length pre - length x) post).
  rewrite !take_app, Hl. split_and!; [done|done| |]; rewrite !length_take; lia.
Qed.

Lemma damaged_drop n l l' : damaged l l' → damaged (drop n l) (drop n l').
Proof.
  intros (pre&x&y&post&->&->&Hl&H4).
  exists (drop n pre), (drop (n - length pre) x), (drop (n - length pre) y),
    (drop (n - length pre - length x) post).
  rewrite !drop_app, Hl. split_and!; [done|done| |]; rewrite !length_drop; lia.
Qed.

Lemma damaged_detected l l' :
  damaged l l' → Forall is_byte l → Forall is_byte l' → compute l = compute l' → l = l'.
Proof.
  intros (pre&x&y&post&->&->&Hl&H4) [Hpre [Hx Hpost]%Forall_app]%Forall_app
    [_ [Hy _]%Forall_app]%Forall_app E.
  by rewrite (burst_errors_detected pre x y post Hpre Hx Hy Hpost Hl H4 E).
Qed.

(** An accepted header has the fixed checksum. *)
Lemma header_residue max header n crc :
  Forall is_byte header → length header = 24%nat →
  check_snapshot_header max header = Success (n, crc) → compute header = residue.
Proof.
  intros Hb Hl. unfold check_snapshot_header. change (Z.to_nat (kSnapshotHeaderBytes - 4)) with 20%nat.
  do 2 (case_match; [done|]).
  destruct (bool_decide_reflect (load 4 header 20 = compute (take 20 header))) as [E|]; [intros _|done].
  rewrite load_le in E by (unfold len; lia). change (Z.to_nat 20) with 20%nat in E.
  assert (length (take 4 (drop 20 header)) = 4%nat) as H4.
  { apply length_take_le. rewrite length_drop. lia. }
  pose proof (proj1 (compute_residue (take 20 header) (take 4 (drop 20 header)) (Forall_take _ _ _ Hb)
    (Forall_take _ _ _ (Forall_drop _ _ _ Hb)) H4) (eq_sym E)) as R.
  rewrite <- R. f_equal. rewrite (take_ge (drop 20 header)) by (rewrite length_drop; lia).
  by rewrite take_drop.
Qed.

Lemma load_raw_unique store d1 d2 p1 p2 d1' d2' f1 f2 :
  disk_ok d1 → disk_ok d2 →
  d_files d1 !! sn_path store = Some f1 → d_files d2 !! sn_path store = Some f2 →
  damaged (f_bytes f1) (f_bytes f2) →
  load_raw store d1 = (Success p1, d1') → load_raw store d2 = (Success p2, d2') → f_bytes f1 = f_bytes f2.
Proof.
  intros K1 K2 F1 F2 Hd L1 L2. pose proof (K1 _ _ F1) as B1. pose proof (K2 _ _ F2) as B2.
  destruct (load_raw_inv _ _ _ _ K1 L1) as (?&h1&F1'&E1&H1&C1).
  destruct (load_raw_inv _ _ _ _ K2 L2) as (?&h2&F2'&E2&H2&C2). simplify_eq.
  rewrite E1, E2 in *. apply Forall_app in B1 as [Bh1 Bp1]. apply Forall_app in B2 as [Bh2 Bp2].
  pose proof (damaged_take 24 _ _ Hd) as Dh. pose proof (damaged_drop 24 _ _ Hd) as Dp.
  rewrite !take_app_length' in Dh by done. rewrite !drop_app_length' in Dp by done.
  assert (h1 = h2) as -> by (apply damaged_detected; [done..|];
    by rewrite (header_residue _ _ _ _ Bh1 H1 C1), (header_residue _ _ _ _ Bh2 H2 C2)).
  rewrite C1 in C2. injection C2 as _ C2. f_equal. by apply damaged_detected.
Qed.

End kernel.

(** ** Properties *)

(** C40: The loops that write and read files terminate under every kernel: with a call
    per byte as fuel they return, and they make at most one system call per byte. *)
Theorem file_loops_terminate (K : Kernel) path data size h d f :
  d_files d !! path = Some f →
  (∃ st d', write_loop (S (length data)) path data 0 d = Some (st, d') ∧
     (d_calls d' ≤ d_calls d + length data)%nat) ∧
  (∃ out h' d', read_loop (S size) h size [] d = Some (out, h', d') ∧
     (d_calls d' ≤ d_calls d + size)%nat).
Proof.
  intros Hf. split.
  - destruct (write_loop_spec path data (S (length data)) 0 d f ltac:(lia) ltac:(lia) Hf)
      as (st&d'&f'&E&_&C&_). exists st, d'. split; [done|lia].
  - destruct (read_loop_spec size (S size) h [] d ltac:(simpl; lia) ltac:(simpl; lia))
      as (out&h'&d'&E&_&C&_). exists out, h', d'. split; [done|]. simpl in C. lia.
Qed.

(** C22: Saving a snapshot is atomic under crashes and failing system calls: after every
    single call the target holds either what it held before or the complete new
    document, no other file than the temporary one is touched, a success leaves the new
    document flushed in place, and a failure leaves the old one. *)
Theorem save_is_atomic (K : Kernel) store state d st d' :
  save store state d = (st, d') →
  let payload := Writer.buffer (encode_into state (Writer.make (sn_max_payload_bytes store))) in
  (st = Success tt → d_files d' !! sn_path store = Some (MkFile (snapshot_file payload) true)) ∧
  (st ≠ Success tt → d_files d' !! sn_path store = d_files d !! sn_path store) ∧
  ∃ new temporary, d_history d' = new ++ d_history d ∧ temporary ≠ sn_path store ∧
    Forall (fun s => old_or_new store payload (d_files d) s ∧
      ∀ q, q ≠ sn_path store → q ≠ temporary → s !! q = d_files d !! q) new.
Proof.
  cbv zeta. unfold save. case_match; [|apply save_raw_spec]. intros [= <- <-]. split; [done|].
  split; [done|]. exists [], (sn_path store +:+ ".")%string. split; [done|]. split; [|constructor].
  intros E. apply (f_equal String.length) in E. rewrite string_length_append in E. simpl in E. lia.
Qed.

(** A file that holds the document of a state is read back as that state. *)
Lemma load_written `{Kernel} store state d flushed :
  state_ok state → document_size state ≤ sn_max_payload_bytes store → sn_max_payload_bytes store < two64 →
  d_files d !! sn_path store = Some (MkFile (snapshot_file
    (Writer.buffer (encode_into state (Writer.make (sn_max_payload_bytes store))))) flushed) →
  readable_from (d_calls d) → (load_snapshot store d).1 = Success state.
Proof.
  intros Hs Hmax H64 Hf Hr. destruct (decode_payload_round_trip state _ Hs Hmax) as [_ Hdec].
  destruct (carries_buffer _ _ _ _ _ (carries_state state Hs) Hmax) as [Hbytes Hlen].
  set (payload := Writer.buffer _) in *.
  pose proof (load_raw_ok store d payload flushed Hr Hbytes ltac:(lia) ltac:(lia) Hf) as HL.
  unfold load_snapshot. destruct (load_raw store d) as [[p|] d2]; simpl in *; [|done].
  injection HL as ->. exact Hdec.
Qed.

(** C25: A snapshot that was saved successfully is loaded back as the same state, for
    every state within the document's bounds and however the kernel splits reads and
    writes. *)
Theorem snapshot_round_trip (K : Kernel) store state d d' :
  state_ok state → document_size state ≤ sn_max_payload_bytes store →
  sn_max_payload_bytes store < two64 →
  save store state d = (Success tt, d') → readable_from (d_calls d') →
  (load_snapshot store d').1 = Success state.
Proof.
  intros Hs Hmax H64 Hsave Hr. destruct (decode_payload_round_trip state _ Hs Hmax) as [Hok _].
  unfold save in Hsave. rewrite Hok in Hsave. apply save_raw_spec in Hsave as [Hf _].
  eapply load_written; try done. by apply Hf.
Qed.

(** C24: When a snapshot file loads, a file that differs from it in up to four adjacent
    bytes anywhere, header and checksums included, is refused. *)
Theorem corrupted_snapshot_refused (K : Kernel) store d1 d2 payload d1' pre x y post b b' :
  disk_ok d1 → disk_ok d2 →
  d_files d1 !! sn_path store = Some (MkFile (pre ++ x ++ post) b) →
  d_files d2 !! sn_path store = Some (MkFile (pre ++ y ++ post) b') →
  length x = length y → (length x ≤ 4)%nat → x ≠ y →
  load_raw store d1 = (Success payload, d1') →
  ∃ c, (load_snapshot store d2).1 = Failure c.
Proof.
  intros K1 K2 F1 F2 Hl H4 Hne L1. unfold load_snapshot.
  destruct (load_raw store d2) as [[p|c] d2'] eqn:L2; [|by exists c].
  exfalso. apply Hne. assert (damaged (pre ++ x ++ post) (pre ++ y ++ post)) as Hd by by exists pre, x, y, post.
  pose proof (load_raw_unique _ _ _ _ _ _ _ _ _ K1 K2 F1 F2 Hd L1 L2) as E. simpl in E.
  apply app_inv_head in E. by apply app_inv_tail in E.
Qed.

Lemma loaded_typed `{Kernel} store d state d' :
  disk_ok d → load_snapshot store d = (Success state, d') →
  state_ok state ∧ Forall record_typed (ps_terminal_requests state)
  ∧ Forall record_typed (ps_interrupted_requests state).
Proof.
  intros Hdisk. unfold load_snapshot. destruct (load_raw store d) as [[p|] d1] eqn:L; [|done].
  intros [= Hdec <-]. destruct (load_raw_inv _ _ _ _ Hdisk L) as (f&header&Hf&E&_).
  apply Hdisk in Hf. rewrite E in Hf. apply Forall_app in Hf as [_ Hb].
  pose proof (decode_payload_sound _ _ _ Hb Hdec) as Hs. split; [done|].
  assert (∀ r, request_record_ok r → record_typed r) as Hty.
  { intros r Hr. destruct (ro_attempts r Hr) as (l&Hl&Hn&_). pose proof (ro_attempt_count r Hr).
    unfold record_typed. rewrite Hl. unfold attempt_array. rewrite length_app, length_replicate. lia. }
  destruct (sk_terminal _ Hs) as [Ht _], (sk_interrupted _ Hs) as [Hi _].
  split; eapply Forall_impl; [exact Ht| |exact Hi|done]. intros r [Hr _]. auto.
Qed.

(** C23: Whatever bytes the files hold, a snapshot that loads satisfies every invariant
    of the document: version, identities, a valid policy, authoritative topology,
    bounded registries, terminal records that are terminal and hold no flow, and attempt
    arrays of their fixed length. *)
Theorem loaded_snapshot_is_sound (K : Kernel) store d state d' :
  disk_ok d → load_snapshot store d = (Success state, d') →
  state_ok state ∧ Forall record_typed (ps_terminal_requests state)
  ∧ Forall record_typed (ps_interrupted_requests state).
Proof. apply loaded_typed. Qed.
