(* ===== verification/Net.v ===== *)
(** * Byte streams over sockets

    Models the loops of [TcpStream] in src/net.cpp. What the network does is a
    script that the stream follows: the arrivals, in the order in which waiting and
    receiving meet them, and the outcomes of sending. A socket call that fails, a
    peer that closes, a wait that elapses and a [close] from another thread are
    entries of the script; when it has run out, nothing more arrives and every
    send is accepted. *)

From S2P Require Import Prelude Bytes Codec.

(** What a wait for input and the receive after it meet. *)
Inductive Arrival : Type :=
| Data (bytes : list Z)  (** the bytes now in the receive buffer; none: the peer has closed *)
| Elapsed                (** the wait elapses *)
| WaitFailed
| ReceiveFailed
| Stopped.               (** another thread closes the stream *)

(** The outcome of one [send]. *)
Inductive Delivery : Type :=
| Sent (count : Z)       (** what the call returns; zero or less is a failure *)
| Blocked (ready : bool). (** it would block; whether the socket gets ready in time *)

Record TcpStream := MkStream {
  ts_arrivals : list Arrival;
  ts_deliveries : list Delivery;
  ts_sent : list Z;
}.

#[export] Instance ts_eta : Eta TcpStream := fun r =>
  MkStream (ts_arrivals r) (ts_deliveries r) (ts_sent r).
#[export] Instance ts_set_arrivals : Setter ts_arrivals. Proof. mk_setter. Defined.
#[export] Instance ts_set_deliveries : Setter ts_deliveries. Proof. mk_setter. Defined.
#[export] Instance ts_set_sent : Setter ts_sent. Proof. mk_setter. Defined.

Definition clamp_select_timeout (timeout_nanos : Z) : Z :=
  if timeout_nanos <=? 0 then 0
  else if timeout_nanos >? 3600 * 1000000000 then 3600 * 1000000000 else timeout_nanos.

(** The loop of [read_exact] over the arrivals, for [size] more bytes: the bytes
    read, and the arrivals that are left. Bytes read before a failure are lost
    with the buffer. *)
Fixpoint read_arrivals (size : nat) (arrivals : list Arrival) : Result (list Z) * list Arrival :=
  if (size =? 0)%nat then (Success [], arrivals)
  else match arrivals with
  | [] => (Failure StatusCode.NotFound, [])
  | Elapsed :: rest => (Failure StatusCode.NotFound, rest)
  | WaitFailed :: rest => (Failure StatusCode.Closed, rest)
  | ReceiveFailed :: rest => (Failure StatusCode.IoError, rest)
  | Stopped :: rest => (Failure StatusCode.Closed, arrivals)
  | Data [] :: rest => (Failure StatusCode.Closed, rest)
  | Data bytes :: rest =>
      if (length bytes <=? size)%nat then
        match read_arrivals (size - length bytes) rest with
        | (Success more, rest) => (Success (bytes ++ more), rest)
        | (Failure e, rest) => (Failure e, rest)
        end
      else (Success (take size bytes), Data (drop size bytes) :: rest)
  end.

Definition read_exact (size : nat) (s : TcpStream) : Result (list Z) * TcpStream :=
  let '(result, rest) := read_arrivals size (ts_arrivals s) in (result, s <| ts_arrivals := rest |>).

(** The loop of [write_all]: how many bytes of the buffer were taken. *)
Fixpoint send_all (buffer : list Z) (deliveries : list Delivery) : Status * list Z * list Delivery :=
  match buffer, deliveries with
  | [], _ => (Success tt, [], deliveries)
  | _, [] => (Success tt, buffer, [])
  | _, Sent count :: rest =>
      if count <=? 0 then (Failure StatusCode.IoError, [], rest)
      else
        let taken := (Z.to_nat count `min` length buffer)%nat in
        let '(status, sent, rest) := send_all (drop taken buffer) rest in
        (status, take taken buffer ++ sent, rest)
  | _, Blocked ready :: rest =>
      if ready then send_all buffer rest else (Failure StatusCode.IoError, [], rest)
  end.

Definition write_all_stream (buffer : list Z) (s : TcpStream) : Status * TcpStream :=
  let '(status, sent, rest) := send_all buffer (ts_deliveries s) in
  (status, s <| ts_sent := ts_sent s ++ sent |> <| ts_deliveries := rest |>).

Definition is_loopback_address (address : list Z) : bool :=
  bool_decide (address = [58; 58; 49])
  || bool_decide (address = [108; 111; 99; 97; 108; 104; 111; 115; 116])
  || ((4 <=? len address) && bool_decide (take 4 address = [49; 50; 55; 46])).

(** ** Lemmas *)

(** What is left to arrive: a unit for each entry and one for each byte. *)
Definition weight (arrivals : list Arrival) : nat :=
  sum_list_with (fun a => match a with Data bytes => S (length bytes) | _ => 1%nat end) arrivals.

(** Reading makes progress: it uses up arrivals, unless it asks for nothing, the
    stream was stopped or nothing is left. *)
Lemma read_arrivals_weight size arrivals result rest :
  (0 < size)%nat → read_arrivals size arrivals = (result, rest) →
  match result with
  | Success bytes => (weight rest + size ≤ weight arrivals)%nat ∧ length bytes = size
  | Failure StatusCode.NotFound => arrivals = [] ∨ (weight rest < weight arrivals)%nat
  | Failure _ => True
  end.
Proof.
  revert size result rest. induction arrivals as [|a arrivals IH]; intros size result rest Hs.
  { destruct size; [lia|]. intros [= <- <-]. by left. }
  cbn [read_arrivals]. rewrite (proj2 (Nat.eqb_neq _ _)) by lia.
  destruct a as [[|b bytes]| | | |]; try (intros [= <- <-]; simpl; lia || done).
  set (got := b :: bytes). assert (0 < length got)%nat by (unfold got; simpl; lia).
  change (weight (Data got :: arrivals)) with (S (length got) + weight arrivals)%nat. clearbody got.
  destruct (Nat.leb_spec (length got) size).
  - destruct (read_arrivals (size - length got) arrivals) as [r rest'] eqn:E.
    destruct (Nat.eq_dec (size - length got) 0) as [Ez|Ez].
    + rewrite Ez in E. assert (r = Success [] ∧ rest' = arrivals) as [-> ->].
      { destruct arrivals as [|[]]; simpl in E; by injection E as <- <-. }
      intros [= <- <-]. rewrite length_app. simpl. lia.
    + pose proof (IH (size - length got)%nat _ _ ltac:(lia) E) as HI. destruct r as [more|e]; intros [= <- <-].
      * rewrite length_app. lia.
      * destruct e; try done. destruct HI as [->|]; [|right; lia].
        destruct (size - length got)%nat; [lia|]. injection E as <-. right. simpl. lia.
  - intros [= <- <-]. rewrite length_take.
    change (weight (Data (drop size got) :: arrivals)) with (S (length (drop size got)) + weight arrivals)%nat.
    rewrite length_drop. lia.
Qed.

(** ** Fragmentation does not matter *)

Definition all_data (arrivals : list Arrival) : Prop :=
  Forall (fun a => match a with Data [] => False | Data _ => True | _ => False end) arrivals.

Definition bytes_of (arrivals : list Arrival) : list Z :=
  arrivals ≫= fun a => match a with Data bytes => bytes | _ => [] end.

(** However the bytes are cut into arrivals, a read delivers the next ones and
    leaves the others. *)
Lemma read_arrivals_data size arrivals :
  all_data arrivals → (size ≤ length (bytes_of arrivals))%nat →
  ∃ rest, read_arrivals size arrivals = (Success (take size (bytes_of arrivals)), rest) ∧
    all_data rest ∧ bytes_of rest = drop size (bytes_of arrivals).
Proof.
  intros Hd. revert size. induction Hd as [|a arrivals Ha Hd IH]; intros size Hs.
  { simpl in Hs. assert (size = 0)%nat as -> by lia. exists []. split_and!; [done|constructor|done]. }
  destruct a as [[|b bytes]| | | |]; try done. set (got := b :: bytes) in *.
  assert (0 < length got)%nat by (unfold got; simpl; lia).
  change (bytes_of (Data got :: arrivals)) with (got ++ bytes_of arrivals) in *. rewrite length_app in Hs.
  destruct (Nat.eq_dec size 0) as [->|Hne].
  { exists (Data got :: arrivals). rewrite take_0, drop_0. split_and!; [done|by constructor; [unfold got|]|done]. }
  unfold got. cbn [read_arrivals]. fold got. rewrite (proj2 (Nat.eqb_neq _ _)) by lia.
  destruct (Nat.leb_spec (length got) size).
  - destruct (IH (size - length got)%nat ltac:(lia)) as (rest&->&Hr&Hb). exists rest.
    rewrite (take_app_ge got), (drop_app_ge got) by lia. done.
  - exists (Data (drop size got) :: arrivals). rewrite (take_app_le got), (drop_app_le got) by lia. split_and!; [done| |done].
    constructor; [|done]. destruct (drop size got) eqn:E; [|done].
    apply (f_equal length) in E. rewrite length_drop in E. change (length (A:=Z) []) with 0%nat in E. lia.
Qed.

(** A success has sent exactly the buffer, a failure a part of it. *)
Lemma send_all_spec buffer deliveries status sent rest :
  send_all buffer deliveries = (status, sent, rest) →
  sent `prefix_of` buffer ∧ (status = Success tt → sent = buffer).
Proof.
  revert buffer status sent rest. induction deliveries as [|a deliveries IH]; intros buffer status sent rest.
  { destruct buffer; simpl; intros [= <- <- <-]; (split; [done|done]). }
  destruct buffer as [|b buffer']; [simpl; intros [= <- <- <-]; done|]. set (buffer := b :: buffer').
  unfold buffer. cbn [send_all]. fold buffer. destruct a as [count|ready].
  - destruct (Z.leb_spec count 0); [intros [= <- <- <-]; split; [apply prefix_nil|done]|].
    destruct (send_all (drop _ buffer) deliveries) as [[st s] r] eqn:E. intros [= <- <- <-].
    destruct (IH _ _ _ _ E) as [Hp He]. split.
    + rewrite <- (take_drop (Z.to_nat count `min` length buffer) buffer) at 2. by apply prefix_app.
    + intros Hst. rewrite (He Hst). apply take_drop.
  - destruct ready; [apply IH|]. intros [= <- <- <-]. split; [apply prefix_nil|done].
Qed.
