(* ===== verification/Session.v ===== *)
(** * Sessions

    Models include/itf/session.hpp and src/session.cpp: one session of the server,
    from its first frame to its end, with the counters it shares with the others.
    The handler is the interface [MessageHandler]; random identities are drawn
    before the session starts, one for the session and one for the peer. A status
    carries no text in this development, so that the text of an error that comes
    with a status is the parameter [describe]. *)

From S2P Require Import Prelude Ids Traffic Decision Bytes Crc Codec Wire Ledger Coordinator CoordAudit.
From S2P Require Import CodecProps PolicyCodec Format Serialize Messages Net.
From Stdlib Require Import String Ascii.
#[local] Open Scope Z_scope.
Import Datatypes.

Definition text (s : String.string) : list Z :=
  (fun c => Z.of_N (N_of_ascii c)) <$> String.list_ascii_of_string s.

Definition kVersionString : list Z := text "1.0.0"%string.

(** ** Helpers of the anonymous namespace *)

Definition next_random_id (draws : Z * Z) : Id128 :=
  if (draws.1 ≟ 0) && (draws.2 ≟ 0) then MkId draws.1 1 else MkId draws.1 draws.2.

(** Every byte is compared; the length alone ends the comparison early. *)
Definition secret_matches (expected provided : list Z) : bool :=
  if len expected ≠? len provided then false
  else foldl (fun difference pair => Z.lor difference (Z.lxor pair.1 pair.2)) 0 (zip expected provided) ≟ 0.

(** ** Configuration and counters *)

Record SessionStats := MkStats {
  ss_accepted : Z;
  ss_rejected_capacity : Z;
  ss_rejected_auth : Z;
  ss_rejected_protocol : Z;
  ss_frames_in : Z;
  ss_frames_out : Z;
  ss_frames_invalid : Z;
  ss_replays_rejected : Z;
  ss_duplicates_served : Z;
  ss_bytes_in : Z;
  ss_bytes_out : Z;
  ss_active_sessions : Z;
  ss_peak_sessions : Z;
}.

#[export] Instance ss_eta : Eta SessionStats := fun r =>
  MkStats (ss_accepted r) (ss_rejected_capacity r) (ss_rejected_auth r) (ss_rejected_protocol r)
    (ss_frames_in r) (ss_frames_out r) (ss_frames_invalid r) (ss_replays_rejected r)
    (ss_duplicates_served r) (ss_bytes_in r) (ss_bytes_out r) (ss_active_sessions r)
    (ss_peak_sessions r).
#[export] Instance ss_set_rejected_auth : Setter ss_rejected_auth. Proof. mk_setter. Defined.
#[export] Instance ss_set_rejected_protocol : Setter ss_rejected_protocol. Proof. mk_setter. Defined.
#[export] Instance ss_set_frames_in : Setter ss_frames_in. Proof. mk_setter. Defined.
#[export] Instance ss_set_frames_out : Setter ss_frames_out. Proof. mk_setter. Defined.
#[export] Instance ss_set_frames_invalid : Setter ss_frames_invalid. Proof. mk_setter. Defined.
#[export] Instance ss_set_replays_rejected : Setter ss_replays_rejected. Proof. mk_setter. Defined.
#[export] Instance ss_set_bytes_in : Setter ss_bytes_in. Proof. mk_setter. Defined.
#[export] Instance ss_set_bytes_out : Setter ss_bytes_out. Proof. mk_setter. Defined.

Definition empty_stats : SessionStats := MkStats 0 0 0 0 0 0 0 0 0 0 0 0 0.

Record ServerConfig := MkServerConfig {
  sv_max_sessions : Z;
  sv_max_frame_payload : Z;
  sv_idle_timeout_nanos : Z;
  sv_io_timeout_nanos : Z;
  sv_auth_token : list Z;
  sv_require_auth : bool;
}.

#[export] Instance sv_eta : Eta ServerConfig := fun r =>
  MkServerConfig (sv_max_sessions r) (sv_max_frame_payload r) (sv_idle_timeout_nanos r)
    (sv_io_timeout_nanos r) (sv_auth_token r) (sv_require_auth r).
#[export] Instance sv_set_max_sessions : Setter sv_max_sessions. Proof. mk_setter. Defined.
#[export] Instance sv_set_max_frame_payload : Setter sv_max_frame_payload. Proof. mk_setter. Defined.

(** The constructor of [Server]. *)
Definition make_server_config (config : ServerConfig) : ServerConfig :=
  let config := if sv_max_sessions config ≟ 0 then config <| sv_max_sessions := 1 |> else config in
  if (sv_max_frame_payload config ≟ 0) || (sv_max_frame_payload config >? kAbsoluteMaxPayloadBytes)
  then config <| sv_max_frame_payload := kAbsoluteMaxPayloadBytes |> else config.

(** The checks of [start] before it touches a socket. *)
Definition start_checks (running : bool) (config : ServerConfig) : Status :=
  if running then Failure StatusCode.Conflict
  else if sv_require_auth config && (len (sv_auth_token config) ≟ 0) then Failure StatusCode.InvalidArgument
  else Success tt.

(** ** The handler *)

Record Context := MkContext {
  cx_session : Id128;
  cx_peer : Id128;
  cx_peer_name : list Z;
  cx_peer_boot : BootId;
  cx_max_frame_payload : Z;
}.

Definition empty_context : Context := MkContext nil_id nil_id [] nil_id 0.

Class MessageHandler (H : Type) := {
  handle : Context → Z → list Z → H → Result (list Z) * H;
  describe_authority : H → HelloResponse → HelloResponse;
  on_session_closed : Context → H → H;
}.

(** ** One session *)

Record Session (H : Type) := MkSession {
  se_max_payload : Z;
  se_inbound_sequence : Z;
  se_outbound_sequence : Z;
  se_replays : Z;
  se_handshaken : bool;
  se_context : Context;
  se_stream : TcpStream;
  se_stats : SessionStats;
  se_handler : H;
  (** Not in the source: the greeting that was accepted, and the frames that
      reached the handler (sequence, type and payload) in order. *)
  se_hello : option HelloRequest;
  se_handled : list (Z * Z * list Z);
}.
Arguments MkSession {H}.
Arguments se_max_payload {H}.
Arguments se_inbound_sequence {H}.
Arguments se_outbound_sequence {H}.
Arguments se_replays {H}.
Arguments se_handshaken {H}.
Arguments se_context {H}.
Arguments se_stream {H}.
Arguments se_stats {H}.
Arguments se_handler {H}.
Arguments se_hello {H}.
Arguments se_handled {H}.

#[export] Instance se_eta {H} : Eta (Session H) := fun r =>
  MkSession (se_max_payload r) (se_inbound_sequence r) (se_outbound_sequence r) (se_replays r)
    (se_handshaken r) (se_context r) (se_stream r) (se_stats r) (se_handler r) (se_hello r)
    (se_handled r).
#[export] Instance se_set_max_payload {H} : Setter (@se_max_payload H). Proof. mk_setter. Defined.
#[export] Instance se_set_inbound {H} : Setter (@se_inbound_sequence H). Proof. mk_setter. Defined.
#[export] Instance se_set_outbound {H} : Setter (@se_outbound_sequence H). Proof. mk_setter. Defined.
#[export] Instance se_set_replays {H} : Setter (@se_replays H). Proof. mk_setter. Defined.
#[export] Instance se_set_handshaken {H} : Setter (@se_handshaken H). Proof. mk_setter. Defined.
#[export] Instance se_set_context {H} : Setter (@se_context H). Proof. mk_setter. Defined.
#[export] Instance se_set_stream {H} : Setter (@se_stream H). Proof. mk_setter. Defined.
#[export] Instance se_set_stats {H} : Setter (@se_stats H). Proof. mk_setter. Defined.
#[export] Instance se_set_handler {H} : Setter (@se_handler H). Proof. mk_setter. Defined.
#[export] Instance se_set_hello {H} : Setter (@se_hello H). Proof. mk_setter. Defined.
#[export] Instance se_set_handled {H} : Setter (@se_handled H). Proof. mk_setter. Defined.

Section session.
Context {H : Type} `{MessageHandler H}.
Variable config : ServerConfig.
(** What the random source answers for the two identities. *)
Variable draws : (Z * Z) * (Z * Z).
Variable describe : StatusCode.t → list Z.

Implicit Types s : Session H.

Definition new_session (stream : TcpStream) (stats : SessionStats) (handler : H) : Session H :=
  MkSession (wrap32 (sv_max_frame_payload config)) 0 0 0 false empty_context stream stats handler None [].

(** The lambda [bump_stat]. *)
Definition bump_stat (f : SessionStats → SessionStats) s : Session H := s <| se_stats := f (se_stats s) |>.

(** The lambda [send]. *)
Definition send (type : Z) (payload : list Z) (correlation : Z) s : Status * Session H :=
  let s := s <| se_outbound_sequence := add64 (se_outbound_sequence s) 1 |> in
  let frame := MkHeader kWireProtocolVersion type 0 (wrap32 (len payload)) (se_outbound_sequence s)
                 correlation (compute payload) in
  let header := encode_header frame (replicate (Z.to_nat kHeaderBytes) 0) in
  let '(status, stream) := write_all_stream header (se_stream s) in
  let '(status, stream) :=
    if ok status && negb (len payload ≟ 0) then write_all_stream payload stream else (status, stream) in
  let s := s <| se_stream := stream |> in
  if ok status
  then (status, bump_stat (fun st => st <| ss_frames_out := add64 (ss_frames_out st) 1 |>
                                   <| ss_bytes_out := add64 (ss_bytes_out st) (len header + len payload) |>) s)
  else (status, s).

(** The lambda [send_error]. *)
Definition send_error (code : StatusCode.t) (offending : Z) (detail : list Z) (correlation : Z) s : Session H :=
  let writer := encode_error_response (MkErrorResponse code offending detail)
                  (Writer.make kMaxFramePayloadBytes) in
  (send MessageType.ErrorResponse (Writer.buffer writer) correlation s).2.

(** What a turn of the loop ends with. *)
Inductive Turn : Type := Continue | Break.

(** The body of the handshake, after the frame was accepted. *)
Definition greet (frame : FrameHeader) (body : list Z) s : Turn * Session H :=
  if fh_type frame ≠? MessageType.HelloRequest then
    let s := bump_stat (fun st => st <| ss_rejected_protocol := add64 (ss_rejected_protocol st) 1 |>) s in
    (Break, send_error StatusCode.NotAuthorized (fh_type frame) (text "session handshake is required")
              (fh_sequence frame) s)
  else
    let '(hello, reader) := decode_hello_request (Reader.make body kMaxFramePayloadBytes) in
    match hello, Reader.finish reader with
    | Success hello, Success _ =>
        if sv_require_auth config && negb (secret_matches (sv_auth_token config) (hq_auth_token hello)) then
          let s := bump_stat (fun st => st <| ss_rejected_auth := add64 (ss_rejected_auth st) 1 |>) s in
          (Break, send_error StatusCode.NotAuthorized (fh_type frame) (text "session secret was not accepted")
                    (fh_sequence frame) s)
        else
          let max_payload := Z.min (wrap32 (sv_max_frame_payload config)) (hq_max_frame_payload hello) in
          let max_payload := if max_payload ≟ 0 then wrap32 (sv_max_frame_payload config) else max_payload in
          let context := MkContext (next_random_id draws.1) (next_random_id draws.2) (hq_peer_name hello)
                           (hq_client_boot hello) max_payload in
          let s := s <| se_max_payload := max_payload |> <| se_context := context |> in
          let response := MkHelloResponse kWireProtocolVersion kApiVersion (cx_session context)
                            (cx_peer context) nil_id 0 0 0 EvidenceState.Unknown max_payload 0 kVersionString in
          let response := describe_authority (se_handler s) response in
          let writer := encode_hello_response response (Writer.make kMaxFramePayloadBytes) in
          match send MessageType.HelloResponse (Writer.buffer writer) (fh_sequence frame) s with
          | (Failure _, s) => (Break, s)
          | (Success _, s) => (Continue, s <| se_handshaken := true |> <| se_hello := Some hello |>)
          end
    | hello, _ =>
        let s := bump_stat (fun st => st <| ss_rejected_protocol := add64 (ss_rejected_protocol st) 1 |>) s in
        (Break, send_error (match hello with Success _ => StatusCode.TrailingGarbage | Failure c => c end)
                  (fh_type frame) (text "handshake body is not acceptable") (fh_sequence frame) s)
    end.

(** The body of the loop for a frame of an established session. [Server::start]
    refuses a server without a handler, so that the source's test for one here never
    finds it missing. *)
Definition dispatch (frame : FrameHeader) (body : list Z) s : Turn * Session H :=
  if fh_type frame ≟ MessageType.HelloRequest then
    (Continue, send_error StatusCode.AlreadyExists (fh_type frame) (text "session is already established")
                 (fh_sequence frame) s)
  else
    let '(response, h) := handle (se_context s) (fh_type frame) body (se_handler s) in
    let s := s <| se_handler := h |>
               <| se_handled := se_handled s ++ [(fh_sequence frame, fh_type frame, body)] |> in
    match response with
    | Failure c => (Continue, send_error c (fh_type frame) (describe c) (fh_sequence frame) s)
    | Success reply =>
        let reply_type := response_type_for (fh_type frame) in
        if reply_type ≟ MessageType.Invalid then
          (Continue, send_error StatusCode.Unsupported (fh_type frame)
                       (text "message type has no response mapping") (fh_sequence frame) s)
        else match send reply_type reply (fh_sequence frame) s with
             | (Success _, s) => (Continue, s)
             | (Failure _, s) => (Break, s)
             end
    end.

(** A frame whose header was accepted and whose payload was read. *)
Definition accept_frame (frame : FrameHeader) (payload : list Z) s : Turn * Session H :=
  let s := bump_stat (fun st => st <| ss_frames_in := add64 (ss_frames_in st) 1 |>
                              <| ss_bytes_in := add64 (ss_bytes_in st) (kHeaderBytes + len payload) |>) s in
  if compute payload ≠? fh_payload_crc32c frame then
    let s := bump_stat (fun st => st <| ss_frames_invalid := add64 (ss_frames_invalid st) 1 |>) s in
    (Break, send_error StatusCode.IntegrityMismatch (fh_type frame) (text "frame payload checksum mismatch")
              (fh_sequence frame) s)
  else if fh_sequence frame <=? se_inbound_sequence s then
    let s := s <| se_replays := add64 (se_replays s) 1 |> in
    let s := bump_stat (fun st => st <| ss_replays_rejected := add64 (ss_replays_rejected st) 1 |>) s in
    let s := send_error StatusCode.ReplayRejected (fh_type frame)
               (text "frame sequence is not greater than the last accepted sequence") (fh_sequence frame) s in
    (if se_replays s >? 8 then Break else Continue, s)
  else
    let s := s <| se_inbound_sequence := fh_sequence frame |> in
    if negb (se_handshaken s) then greet frame payload s else dispatch frame payload s.

(** One turn of the loop of [serve_session]. *)
Definition serve_turn s : Turn * Session H :=
  match ts_arrivals (se_stream s) with
  | Stopped :: _ => (Break, s)
  | _ =>
      let '(read_header, stream) := read_exact (Z.to_nat kHeaderBytes) (se_stream s) in
      let s := s <| se_stream := stream |> in
      match read_header with
      | Failure c => (if c ≟ StatusCode.NotFound then Continue else Break, s)
      | Success header =>
          match decode_header header (se_max_payload s) with
          | Failure c =>
              let s := bump_stat (fun st => st <| ss_frames_invalid := add64 (ss_frames_invalid st) 1 |>
                                          <| ss_bytes_in := add64 (ss_bytes_in st) (len header) |>) s in
              (Break, send_error c MessageType.Invalid (describe c) 0 s)
          | Success frame =>
              let '(read_payload, stream) := read_exact (Z.to_nat (fh_payload_length frame)) (se_stream s) in
              let s := s <| se_stream := stream |> in
              match read_payload with
              | Failure _ =>
                  (Break, bump_stat (fun st => st <| ss_frames_invalid := add64 (ss_frames_invalid st) 1 |>) s)
              | Success payload => accept_frame frame payload s
              end
          end
      end
  end.

(** The loop: [None] when the fuel runs out, otherwise whether the loop was left
    and the session then. It stays in the loop when nothing more arrives. *)
Fixpoint serve_loop (fuel : nat) s : option (Turn * Session H) :=
  match fuel with
  | O => None
  | S fuel =>
      match ts_arrivals (se_stream s) with
      | [] => Some (Continue, s)
      | _ => match serve_turn s with
             | (Break, s) => Some (Break, s)
             | (Continue, s) => serve_loop fuel s
             end
      end
  end.

(** What follows the loop. *)
Definition close_session s : Session H :=
  if se_handshaken s then s <| se_handler := on_session_closed (se_context s) (se_handler s) |> else s.

Definition serve_session s : option (Session H) :=
  match serve_loop (S (weight (ts_arrivals (se_stream s)))) s with
  | None => None
  | Some (Continue, s) => Some s
  | Some (Break, s) => Some (close_session s)
  end.

End session.
