(* ===== verification/SessionProps.v ===== *)
(** * What a session guarantees its handler

    Nothing reaches the handler before a greeting with the right secret, and then
    every frame at most once and in the order of its sequence numbers, whatever
    bytes arrive; every well-formed frame that does arrive is handed over, however
    the network cuts the bytes; and the loop ends with its input. *)

From S2P Require Import Prelude Ids Traffic Decision Bytes Crc Codec Wire Ledger Coordinator CoordAudit.
From S2P Require Import CodecProps PolicyCodec Format Serialize SerializeProps Messages MessagesProps Net Session.
From Stdlib Require Import Sorting.Sorted String.
#[local] Open Scope Z_scope.
Import Datatypes.

(** ** The secret *)

Lemma secret_fold a b acc : length a = length b →
  foldl (fun difference pair => Z.lor difference (Z.lxor pair.1 pair.2)) acc (zip a b) = 0 ↔ acc = 0 ∧ a = b.
Proof.
  revert b acc. induction a as [|x a IH]; intros [|y b] acc Hl; try done.
  { simpl. naive_solver. }
  cbn [zip zip_with foldl]. rewrite IH by (simpl in Hl; lia). rewrite Z.lor_eq_0_iff, Z.lxor_eq_0_iff.
  simpl. naive_solver.
Qed.

Lemma secret_matches_spec expected provided : secret_matches expected provided = true ↔ expected = provided.
Proof.
  unfold secret_matches. destruct (bool_decide_reflect (len expected = len provided)) as [E|E]; cbn [negb].
  - rewrite bool_decide_eq_true, secret_fold by (unfold len in E; lia). naive_solver.
  - split; [done|]. by intros ->.
Qed.

(** ** Frames on the wire *)

Definition header_of (type sequence correlation : Z) (payload : list Z) : FrameHeader :=
  MkHeader kWireProtocolVersion type 0 (wrap32 (len payload)) sequence correlation (compute payload).

Definition frame_bytes (type sequence correlation : Z) (payload : list Z) : list Z :=
  encode_header (header_of type sequence correlation payload) (replicate (Z.to_nat kHeaderBytes) 0) ++ payload.

(** What a sender keeps to under a limit on the payload. *)
Record frame_ok (limit type sequence correlation : Z) (payload : list Z) : Prop := {
  fo_type : 0 < type < MessageType.Count;
  fo_sequence : is_u64 sequence;
  fo_correlation : is_u64 correlation;
  fo_bytes : Forall is_byte payload;
  fo_length : len payload ≤ kAbsoluteMaxPayloadBytes;
  fo_limit : len payload ≤ limit;
}.

(** However a frame is cut up on its way, its header and its payload are read off
    and the bytes after it are left. *)
Lemma frame_read limit type sequence correlation payload rest arrivals :
  frame_ok limit type sequence correlation payload → all_data arrivals →
  bytes_of arrivals = frame_bytes type sequence correlation payload ++ rest →
  ∃ header arrivals1 arrivals2,
    read_arrivals (Z.to_nat kHeaderBytes) arrivals = (Success header, arrivals1)
    ∧ decode_header header limit = Success (header_of type sequence correlation payload)
    ∧ read_arrivals (Z.to_nat (len payload)) arrivals1 = (Success payload, arrivals2)
    ∧ all_data arrivals2 ∧ bytes_of arrivals2 = rest.
Proof.
  intros [Ht Hs Hc Hb Hl Hm] Hd E. unfold frame_bytes in E.
  set (h := header_of type sequence correlation payload) in *.
  assert (is_u32 (len payload)) as H32.
  { pose proof (len_nonneg payload). unfold is_u32, two32, kAbsoluteMaxPayloadBytes in *. lia. }
  assert (header_ok limit h) as Hh.
  { pose proof (len_nonneg payload). split; simpl; rewrite ?wrap32_id by done; done || by apply compute_range. }
  destruct (encode_header_spec h (replicate (Z.to_nat kHeaderBytes) 0) limit Hh) as (Hdec&Hlen&_); [done|].
  set (header := encode_header h _) in *. rewrite length_replicate in Hlen. rewrite <- app_assoc in E.
  destruct (read_arrivals_data (Z.to_nat kHeaderBytes) arrivals Hd) as (a1&R1&D1&B1).
  { rewrite E, length_app. lia. }
  rewrite E, drop_app_length' in B1 by done. rewrite E, take_app_length' in R1 by done.
  destruct (read_arrivals_data (Z.to_nat (len payload)) a1 D1) as (a2&R2&D2&B2).
  { rewrite B1, length_app. unfold len. lia. }
  assert (Z.to_nat (len payload) = length payload) as El by (unfold len; lia).
  rewrite B1, El, take_app_length in R2. rewrite B1, El, drop_app_length in B2. rewrite <- El in R2.
  by exists header, a1, a2.
Qed.

(** A header and its payload, written to a stream that takes everything. *)
Lemma write_frame {A} header payload t (k : Status → TcpStream → A) :
  ts_deliveries t = [] →
  (let '(status, stream) := write_all_stream header t in
   let '(status, stream) :=
     if ok status && negb (len payload ≟ 0) then write_all_stream payload stream else (status, stream) in
   k status stream)
  = k (Success tt) (t <| ts_sent := ts_sent t ++ header ++ payload |> <| ts_deliveries := [] |>).
Proof.
  intros Hd. assert (∀ buffer (t : TcpStream), ts_deliveries t = [] →
    write_all_stream buffer t = (Success tt, t <| ts_sent := ts_sent t ++ buffer |> <| ts_deliveries := [] |>)) as Hw.
  { intros buffer t' Ht. unfold write_all_stream. rewrite Ht. by destruct buffer. }
  rewrite Hw by done. cbn [ok andb]. destruct (bool_decide_reflect (len payload = 0)) as [E|E]; cbn [negb].
  - assert (payload = []) as -> by by destruct payload. by rewrite app_nil_r.
  - rewrite Hw by done. destruct t. simpl. by rewrite app_assoc.
Qed.

Section session.
Context {H : Type} `{MessageHandler H}.
Variable config : ServerConfig.
Variable draws : (Z * Z) * (Z * Z).
Variable describe : StatusCode.t → list Z.

Implicit Types s : Session H.

Abbreviation turn := (serve_turn config draws describe).
Abbreviation loop := (serve_loop config draws describe).

(** ** Sending *)

(** What sending leaves alone: everything but the outbound counter, the output
    and the counters of the server. *)
Record sends s s' : Prop := {
  sd_max_payload : se_max_payload s' = se_max_payload s;
  sd_inbound : se_inbound_sequence s' = se_inbound_sequence s;
  sd_replays : se_replays s' = se_replays s;
  sd_handshaken : se_handshaken s' = se_handshaken s;
  sd_context : se_context s' = se_context s;
  sd_handler : se_handler s' = se_handler s;
  sd_hello : se_hello s' = se_hello s;
  sd_handled : se_handled s' = se_handled s;
  sd_arrivals : ts_arrivals (se_stream s') = ts_arrivals (se_stream s);
  sd_deliveries : ts_deliveries (se_stream s) = [] → ts_deliveries (se_stream s') = [];
}.

Lemma sends_refl s : sends s s.
Proof. by split. Qed.

Lemma sends_trans s1 s2 s3 : sends s1 s2 → sends s2 s3 → sends s1 s3.
Proof. intros [] []. split; try congruence. auto. Qed.

Lemma sends_bump f s : sends s (bump_stat f s).
Proof. by split. Qed.

Lemma write_all_stream_spec buffer t status t' :
  write_all_stream buffer t = (status, t') →
  ts_arrivals t' = ts_arrivals t ∧ (ts_deliveries t = [] → status = Success tt ∧ ts_deliveries t' = []).
Proof.
  unfold write_all_stream. destruct (send_all buffer (ts_deliveries t)) as [[st sent] rest] eqn:E.
  intros [= <- <-]. split; [done|]. intros Hd. rewrite Hd in E. by destruct buffer; injection E as <- <- <-.
Qed.

Lemma send_spec type payload correlation s status s' :
  send type payload correlation s = (status, s') →
  sends s s' ∧ (ts_deliveries (se_stream s) = [] → status = Success tt).
Proof.
  unfold send. set (header := encode_header _ _). cbv zeta.
  destruct (write_all_stream header _) as [st1 t1] eqn:E1. apply write_all_stream_spec in E1 as [A1 D1].
  simpl in A1, D1.
  destruct (if ok st1 && negb (len payload ≟ 0) then write_all_stream payload t1 else (st1, t1))
    as [st2 t2] eqn:E2.
  assert (ts_arrivals t2 = ts_arrivals t1 ∧
    (ts_deliveries t1 = [] → st1 = Success tt → st2 = Success tt ∧ ts_deliveries t2 = [])) as [A2 D2].
  { destruct (ok st1 && _); [apply write_all_stream_spec in E2 as [? ?]; split; auto|].
    by injection E2 as <- <-. }
  assert (sends s (s <| se_outbound_sequence := add64 (se_outbound_sequence s) 1 |> <| se_stream := t2 |>)) as HS.
  { split; try done; simpl; [congruence|]. intros Hd. destruct (D1 Hd) as [? ?]. by apply D2. }
  destruct (ok st2) eqn:E; intros [= <- <-].
  - split; [by eapply sends_trans, sends_bump|]. intros Hd. destruct (D1 Hd) as [? ?]. by apply D2.
  - split; [done|]. intros Hd. destruct (D1 Hd) as [? ?]. by apply D2.
Qed.

Lemma sends_send_error code offending detail correlation s :
  sends s (send_error code offending detail correlation s).
Proof. unfold send_error. destruct (send _ _ _ s) as [st s'] eqn:E. by apply send_spec in E as [? _]. Qed.

(** ** The invariant *)

Definition run_handler (context : Context) (h : H) (handled : list (Z * Z * list Z)) : H :=
  foldl (fun h f => (handle context f.1.2 f.2 h).2) h handled.

Definition sequences (handled : list (Z * Z * list Z)) : list Z := (fun f => f.1.1) <$> handled.

(** A greeting that was decoded and, where secrets are required, carries the
    secret. *)
Definition authentic (hello : HelloRequest) : Prop :=
  (∃ body, (decode_hello_request (Reader.make body kMaxFramePayloadBytes)).1 = Success hello) ∧
  (sv_require_auth config = true → hq_auth_token hello = sv_auth_token config).

Definition frame_fit (f : Z * Z * list Z) : Prop :=
  is_known_message_type f.1.2 = true ∧ f.1.2 ≠ MessageType.HelloRequest
  ∧ len f.2 ≤ kAbsoluteMaxPayloadBytes.

Record session_inv (h0 : H) s : Prop := {
  si_replays : 0 ≤ se_replays s ≤ 9;
  si_handler : se_handler s = run_handler (se_context s) h0 (se_handled s);
  si_sorted : StronglySorted Z.lt (sequences (se_handled s));
  si_bounded : Forall (fun n => n ≤ se_inbound_sequence s) (sequences (se_handled s));
  si_fit : Forall frame_fit (se_handled s);
  si_greeted : se_handshaken s = true → ∃ hello, se_hello s = Some hello ∧ authentic hello;
  si_silent : se_handshaken s = false → se_handled s = [];
}.

Lemma session_inv_sends h0 s s' : session_inv h0 s → sends s s' → session_inv h0 s'.
Proof. intros [] []. by split; rewrite ?sd_replays0, ?sd_handler0, ?sd_context0, ?sd_handled0,
  ?sd_inbound0, ?sd_handshaken0, ?sd_hello0. Qed.

Lemma session_inv_stream h0 s t : session_inv h0 s → session_inv h0 (s <| se_stream := t |>).
Proof. intros []. by split. Qed.

Lemma session_inv_inbound h0 s n :
  session_inv h0 s → se_inbound_sequence s ≤ n → session_inv h0 (s <| se_inbound_sequence := n |>).
Proof.
  intros [] Hn. split; try done. eapply Forall_impl; [exact si_bounded0|]. simpl. intros. lia.
Qed.

Lemma strongly_sorted_snoc l x :
  StronglySorted Z.lt l → Forall (fun y => y < x) l → StronglySorted Z.lt (l ++ [x]).
Proof.
  induction 1 as [|y l Hs IH Hy]; intros Hx; simpl.
  { by repeat constructor. }
  inversion Hx; subst. constructor; [by apply IH|]. apply Forall_app. split; [done|by repeat constructor].
Qed.

(** ** Preservation *)

(** What a turn does to the input: only reading uses it up. *)
Definition same_input s s' : Prop := ts_arrivals (se_stream s') = ts_arrivals (se_stream s).

Lemma answered_spec h0 s s' :
  session_inv h0 s → sends s s' → session_inv h0 s' ∧ same_input s s' ∧ se_replays s' = se_replays s.
Proof. intros Hi HS. split_and!; [by eapply session_inv_sends|apply HS|apply HS]. Qed.

(** Counting and answering an error. *)
Lemma refused_spec h0 s f code offending detail correlation :
  session_inv h0 s →
  let s' := send_error code offending detail correlation (bump_stat f s) in
  session_inv h0 s' ∧ same_input s s' ∧ se_replays s' = se_replays s.
Proof.
  intros Hi. apply answered_spec; [done|]. eapply sends_trans; [apply sends_bump|apply sends_send_error].
Qed.

Lemma greet_spec h0 frame body s t s' :
  session_inv h0 s → se_handshaken s = false → greet config draws frame body s = (t, s') →
  session_inv h0 s' ∧ same_input s s' ∧ se_replays s' = se_replays s.
Proof.
  intros Hi Hh. unfold greet.
  destruct (bool_decide_reflect (fh_type frame = MessageType.HelloRequest)); cbn [negb];
    [|intros [= <- <-]; by apply refused_spec].
  destruct (decode_hello_request _) as [hello reader] eqn:Ed. destruct hello as [hello|c];
    [destruct (Reader.finish reader)|]; try (intros [= <- <-]; by apply refused_spec).
  destruct (sv_require_auth config && _) eqn:Ea; [intros [= <- <-]; by apply refused_spec|].
  assert (authentic hello) as Hauth.
  { split; [exists body; by rewrite Ed|]. intros Hreq. rewrite Hreq in Ea. simpl in Ea.
    apply negb_false_iff, secret_matches_spec in Ea. done. }
  pose proof (si_silent _ _ Hi Hh) as Hnil.
  set (s3 := s <| se_max_payload := _ |> <| se_context := _ |>).
  assert (session_inv h0 s3) as Hi3.
  { destruct Hi. rewrite Hnil in *. by split; simpl; rewrite ?Hnil. }
  destruct (send _ _ _ s3) as [st s4] eqn:Es. apply send_spec in Es as [HS _].
  pose proof (session_inv_sends _ _ _ Hi3 HS) as Hi4.
  destruct st; intros [= <- <-]; (split_and!; [|apply HS|apply HS]); [|done].
  destruct Hi4. split; try done. simpl. intros _. by exists hello.
Qed.

Lemma dispatch_spec h0 frame body s t s' :
  session_inv h0 s → se_handshaken s = true → is_known_message_type (fh_type frame) = true →
  len body ≤ kAbsoluteMaxPayloadBytes →
  Forall (fun n => n < fh_sequence frame) (sequences (se_handled s)) →
  fh_sequence frame ≤ se_inbound_sequence s → dispatch describe frame body s = (t, s') →
  session_inv h0 s' ∧ same_input s s' ∧ se_replays s' = se_replays s.
Proof.
  intros Hi Hh Hk Hl Hseq Hin. unfold dispatch.
  destruct (bool_decide_reflect (fh_type frame = MessageType.HelloRequest)) as [|Hne].
  { intros [= <- <-]. apply answered_spec; [done|apply sends_send_error]. }
  destruct (handle (se_context s) (fh_type frame) body (se_handler s)) as [response h] eqn:Eh.
  set (s1 := s <| se_handler := h |> <| se_handled := _ |>).
  assert (session_inv h0 s1) as Hi1.
  { destruct Hi. split; simpl; try done.
    - unfold run_handler in *. rewrite foldl_app. simpl. by rewrite <- si_handler0, Eh.
    - unfold sequences in *. rewrite fmap_app. by apply strongly_sorted_snoc.
    - unfold sequences in *. rewrite fmap_app. apply Forall_app. split; [done|by repeat constructor].
    - apply Forall_app. split; [done|]. by repeat constructor.
    - congruence. }
  assert (∀ s2, sends s1 s2 → session_inv h0 s2 ∧ same_input s s2 ∧ se_replays s2 = se_replays s) as Hsent.
  { intros s2 HS. split_and!; [by eapply session_inv_sends|apply HS|apply HS]. }
  destruct response as [reply|c]; [|intros [= <- <-]; apply Hsent, sends_send_error].
  case_match; [intros [= <- <-]; apply Hsent, sends_send_error|].
  destruct (send _ reply _ s1) as [st s2] eqn:Es. apply send_spec in Es as [HS _].
  destruct st; intros [= <- <-]; by apply Hsent.
Qed.

Lemma accept_frame_spec h0 frame payload s t s' :
  session_inv h0 s → se_replays s ≤ 8 → is_known_message_type (fh_type frame) = true →
  len payload ≤ kAbsoluteMaxPayloadBytes → accept_frame config draws describe frame payload s = (t, s') →
  session_inv h0 s' ∧ same_input s s' ∧ (t = Continue → se_replays s' ≤ 8).
Proof.
  intros Hi Hr Hk Hl. unfold accept_frame. set (s1 := bump_stat _ s).
  assert (session_inv h0 s1) as Hi1 by (eapply session_inv_sends, sends_bump; exact Hi).
  destruct (bool_decide_reflect (compute payload = fh_payload_crc32c frame)); cbn [negb].
  2:{ intros [= <- <-]. edestruct (refused_spec h0 s1) as (I&S&R); [exact Hi1|]. by split_and!. }
  destruct (Z.leb_spec (fh_sequence frame) (se_inbound_sequence s1)).
  - set (s2 := bump_stat _ (s1 <| se_replays := _ |>)). set (s3 := send_error _ _ _ _ s2).
    assert (sends s2 s3) as HS by apply sends_send_error. pose proof (si_replays _ _ Hi) as Hr0.
    assert (se_replays s2 = se_replays s + 1) as E2.
    { simpl. apply wrap64_id. unfold is_u64, two64. lia. }
    assert (session_inv h0 s2) as Hi2.
    { destruct Hi1. split; try done. rewrite E2. lia. }
    intros [= <- <-]. split_and!; [by eapply session_inv_sends|apply HS|].
    rewrite Z.gtb_ltb. by destruct (Z.ltb_spec 8 (se_replays s3)).
  - set (s2 := s1 <| se_inbound_sequence := fh_sequence frame |>).
    assert (session_inv h0 s2) as Hi2 by (apply session_inv_inbound; [done|lia]).
    destruct (se_handshaken s2) eqn:Eh; cbn [negb]; intros E.
    + assert (Forall (fun n => n < fh_sequence frame) (sequences (se_handled s2))) as Hlt.
      { eapply Forall_impl; [exact (si_bounded _ _ Hi1)|]. intros n Hn. cbv beta in *. lia. }
      destruct (dispatch_spec h0 _ _ _ _ _ Hi2 Eh Hk Hl Hlt (Z.le_refl _) E) as (I&S&R).
      split_and!; [done|done|]. intros _. rewrite R. simpl. lia.
    + destruct (greet_spec h0 _ _ _ _ _ Hi2 Eh E) as (I&S&R). split_and!; [done|done|].
      intros _. rewrite R. simpl. lia.
Qed.

Lemma read_exact_length size stream bytes stream' :
  read_exact size stream = (Success bytes, stream') →
  length bytes = size ∧ (weight (ts_arrivals stream') + size ≤ weight (ts_arrivals stream))%nat.
Proof.
  unfold read_exact. destruct (read_arrivals size (ts_arrivals stream)) as [r rest] eqn:E.
  intros [= -> <-]. simpl. destruct size as [|size].
  - assert (Success bytes = Success [] ∧ rest = ts_arrivals stream) as [[= ->] ->].
    { destruct (ts_arrivals stream) as [|[]]; simpl in E; by injection E as <- <-. }
    simpl. lia.
  - pose proof (read_arrivals_weight (S size) _ _ _ ltac:(lia) E) as [? ?]. done.
Qed.

(** A turn keeps the invariant, and one that goes on has used up input. *)
Lemma serve_turn_spec h0 s t s' :
  session_inv h0 s → se_replays s ≤ 8 → ts_arrivals (se_stream s) ≠ [] → turn s = (t, s') →
  session_inv h0 s' ∧
  (t = Continue → se_replays s' ≤ 8 ∧
    (weight (ts_arrivals (se_stream s')) < weight (ts_arrivals (se_stream s)))%nat).
Proof.
  intros Hi Hr Ha. unfold serve_turn.
  assert (∀ x : Turn * Session H, (x = (t, s') → session_inv h0 s' ∧
     (t = Continue → se_replays s' ≤ 8 ∧
    (weight (ts_arrivals (se_stream s')) < weight (ts_arrivals (se_stream s)))%nat)) →
    match ts_arrivals (se_stream s) with Stopped :: _ => (Break, s) | _ => x end = (t, s') →
    session_inv h0 s' ∧ (t = Continue → se_replays s' ≤ 8 ∧
    (weight (ts_arrivals (se_stream s')) < weight (ts_arrivals (se_stream s)))%nat)) as Hstop.
  { intros x Hx. destruct (ts_arrivals (se_stream s)) as [|[]]; try done. by intros [= <- <-]. }
  apply Hstop. clear Hstop.
  destruct (read_exact _ (se_stream s)) as [read_header t1] eqn:E1. set (s1 := s <| se_stream := t1 |>).
  assert (session_inv h0 s1) as Hi1 by by apply session_inv_stream.
  destruct read_header as [header|c].
  2:{ unfold read_exact in E1. destruct (read_arrivals _ _) as [r rest] eqn:E.
      injection E1 as -> <-. pose proof (read_arrivals_weight 40 _ _ _ ltac:(lia) E) as Hw.
      intros [= <- <-]. split; [done|]. destruct c; try done. intros _. simpl. destruct Hw; [done|]. lia. }
  apply read_exact_length in E1 as [L1 W1].
  destruct (decode_header header (se_max_payload s1)) as [frame|c] eqn:Ed.
  2:{ intros [= <- <-]. edestruct (refused_spec h0 s1) as (I&S&R); [exact Hi1|]. by split. }
  apply decode_header_inv in Ed as (_&_&Hk&_&_&Hlen&_&_&_).
  destruct (read_exact _ (se_stream s1)) as [read_payload t2] eqn:E2. set (s2 := s1 <| se_stream := t2 |>).
  assert (session_inv h0 s2) as Hi2 by by apply session_inv_stream.
  destruct read_payload as [payload|c].
  2:{ intros [= <- <-]. split; [|done]. by eapply session_inv_sends, sends_bump. }
  apply read_exact_length in E2 as [L2 W2]. simpl in W2.
  intros E. destruct (accept_frame_spec h0 frame payload s2 t s' Hi2) as (I&S&R); try done.
  { unfold len. rewrite L2. unfold kAbsoluteMaxPayloadBytes in *. lia. }
  split; [done|]. intros Ht. split; [by apply R|]. rewrite S. simpl.
  change (Z.to_nat kHeaderBytes) with 40%nat in W1. lia.
Qed.

(** With a unit of fuel for what is left to arrive the loop ends, and what it
    leaves satisfies the invariant. *)
Lemma serve_loop_spec h0 fuel s :
  session_inv h0 s → se_replays s ≤ 8 → (weight (ts_arrivals (se_stream s)) < fuel)%nat →
  ∃ t s', loop fuel s = Some (t, s') ∧ session_inv h0 s'.
Proof.
  revert s. induction fuel as [|fuel IH]; intros s Hi Hr Hw; [lia|]. cbn [serve_loop].
  destruct (turn s) as [t s'] eqn:E.
  destruct (ts_arrivals (se_stream s)) as [|a rest] eqn:Ea; [by eauto|].
  rewrite <- Ea in Hw. destruct (serve_turn_spec h0 s t s' Hi Hr) as [Hi' Hc]; [by rewrite Ea|done|].
  destruct t; [|by eauto]. destruct (Hc eq_refl) as [Hr' Hw']. apply IH; [done|done|lia].
Qed.

(** The session then goes on with the frame. *)
Lemma serve_turn_frame s type sequence correlation payload rest :
  frame_ok (se_max_payload s) type sequence correlation payload → all_data (ts_arrivals (se_stream s)) →
  bytes_of (ts_arrivals (se_stream s)) = frame_bytes type sequence correlation payload ++ rest →
  ∃ arrivals, all_data arrivals ∧ bytes_of arrivals = rest ∧
    turn s = accept_frame config draws describe (header_of type sequence correlation payload) payload
               (s <| se_stream := (se_stream s) <| ts_arrivals := arrivals |> |>).
Proof.
  intros Hf Hd E. destruct (frame_read _ _ _ _ _ rest _ Hf Hd E) as (header&a1&a2&R1&Dh&R2&D2&B2).
  exists a2. split_and!; [done|done|]. unfold serve_turn.
  assert (∀ x : Turn * Session H, match ts_arrivals (se_stream s) with Stopped :: _ => (Break, s) | _ => x end = x)
    as Hns.
  { intros x. destruct Hd as [|[]]; done. }
  rewrite Hns. unfold read_exact at 1. rewrite R1. cbv zeta. simpl se_max_payload. rewrite Dh.
  unfold read_exact. simpl ts_arrivals. simpl fh_payload_length.
  rewrite wrap32_id, R2; [done|]. destruct Hf. pose proof (len_nonneg payload).
  unfold is_u32, two32, kAbsoluteMaxPayloadBytes in *. lia.
Qed.

(** ** What is sent *)

Lemma send_sent type payload correlation s :
  ts_deliveries (se_stream s) = [] →
  let n := add64 (se_outbound_sequence s) 1 in
  let '(status, s') := send type payload correlation s in
  status = Success tt ∧ sends s s' ∧ se_outbound_sequence s' = n
  ∧ ts_sent (se_stream s') = ts_sent (se_stream s) ++ frame_bytes type n correlation payload
  ∧ ts_deliveries (se_stream s') = [].
Proof.
  intros Hd n. destruct (send type payload correlation s) as [status s'] eqn:E.
  pose proof (send_spec _ _ _ _ _ _ E) as [HS Hok]. specialize (Hok Hd). subst status.
  split; [done|]. split; [done|]. revert E. unfold send. simpl se_outbound_sequence. fold n.
  change (MkHeader _ _ _ _ _ _ _) with (header_of type n correlation payload).
  unfold frame_bytes. set (header := encode_header _ _). clearbody header. cbv zeta.
  change (se_stream (s <| se_outbound_sequence := n |>)) with (se_stream s).
  rewrite (write_frame header payload (se_stream s) (fun status stream =>
    if ok status then (status, bump_stat _ (s <| se_outbound_sequence := n |> <| se_stream := stream |>))
    else (status, s <| se_outbound_sequence := n |> <| se_stream := stream |>)) Hd).
  cbn [ok]. intros [= <-]. done.
Qed.

(** The frame that answers one of an established session. *)
Definition reply_of (type : Z) (response : Result (list Z)) : Z * list Z :=
  let error code detail := (MessageType.ErrorResponse,
    Writer.buffer (encode_error_response (MkErrorResponse code type detail) (Writer.make kMaxFramePayloadBytes))) in
  match response with
  | Failure c => error c (describe c)
  | Success reply =>
      if response_type_for type ≟ MessageType.Invalid
      then error StatusCode.Unsupported (text "message type has no response mapping"%string)
      else (response_type_for type, reply)
  end.

(** What an established session does with a frame it takes up: the handler saw it
    once, and its answer went out, correlated with it. *)
Record taken_up s (type sequence : Z) (payload : list Z) (reply : Z * list Z) (h : H) s' : Prop := {
  tu_handshaken : se_handshaken s' = true;
  tu_context : se_context s' = se_context s;
  tu_max_payload : se_max_payload s' = se_max_payload s;
  tu_hello : se_hello s' = se_hello s;
  tu_inbound : se_inbound_sequence s' = sequence;
  tu_outbound : se_outbound_sequence s' = add64 (se_outbound_sequence s) 1;
  tu_handled : se_handled s' = se_handled s ++ [(sequence, type, payload)];
  tu_handler : se_handler s' = h;
  tu_arrivals : ts_arrivals (se_stream s') = ts_arrivals (se_stream s);
  tu_deliveries : ts_deliveries (se_stream s') = [];
  tu_sent : ts_sent (se_stream s') =
    ts_sent (se_stream s) ++ frame_bytes reply.1 (se_outbound_sequence s') sequence reply.2;
}.

Lemma send_taken_up s s3 type sequence payload reply h :
  s3 = s <| se_handler := h |> <| se_handled := se_handled s ++ [(sequence, type, payload)] |> →
  se_handshaken s = true → se_inbound_sequence s = sequence → ts_deliveries (se_stream s) = [] →
  let '(status, s') := send reply.1 reply.2 sequence s3 in
  status = Success tt ∧ taken_up s type sequence payload reply h s'.
Proof.
  intros -> Hh Hs Hd. set (s3 := s <| se_handler := h |> <| se_handled := _ |>).
  pose proof (send_sent reply.1 reply.2 sequence s3 Hd) as HS. cbv zeta in HS.
  destruct (send _ _ _ s3) as [status s']. destruct HS as (->&[]&Ho&Hsent&Hdel). split; [done|].
  split; try done; [by rewrite sd_handshaken0|by rewrite sd_inbound0|by rewrite Ho].
Qed.

Lemma dispatch_established s type sequence correlation payload :
  se_handshaken s = true → type ≠ MessageType.HelloRequest → se_inbound_sequence s = sequence →
  ts_deliveries (se_stream s) = [] →
  let '(response, h) := handle (se_context s) type payload (se_handler s) in
  let '(t, s') := dispatch describe (header_of type sequence correlation payload) payload s in
  t = Continue ∧ taken_up s type sequence payload (reply_of type response) h s'.
Proof.
  intros Hh Ht Hs Hd. destruct (handle (se_context s) type payload (se_handler s)) as [response h] eqn:Eh.
  unfold dispatch. cbn [fh_sequence fh_type header_of]. rewrite bool_decide_false by done. rewrite Eh.
  set (s3 := s <| se_handler := h |> <| se_handled := _ |>).
  pose proof (fun reply => send_taken_up s s3 type sequence payload reply h eq_refl Hh Hs Hd) as Hsend.
  specialize (Hsend (reply_of type response)). unfold send_error, reply_of in *.
  destruct response as [body|c]; [destruct (response_type_for type ≟ MessageType.Invalid)|]; cbv zeta in *; cbn [fst snd] in Hsend;
    destruct (send _ _ _ s3) as [status s']; by destruct Hsend as [-> ?].
Qed.

(** The frame at the head of what is left to arrive, on an established session. *)
Lemma serve_turn_established s type sequence correlation payload rest :
  se_handshaken s = true → type ≠ MessageType.HelloRequest → se_inbound_sequence s < sequence →
  ts_deliveries (se_stream s) = [] → frame_ok (se_max_payload s) type sequence correlation payload →
  all_data (ts_arrivals (se_stream s)) →
  bytes_of (ts_arrivals (se_stream s)) = frame_bytes type sequence correlation payload ++ rest →
  ∃ arrivals s', turn s = (Continue, s') ∧ all_data arrivals ∧ bytes_of arrivals = rest ∧
    let '(response, h) := handle (se_context s) type payload (se_handler s) in
    taken_up (s <| se_stream := (se_stream s) <| ts_arrivals := arrivals |> |>)
      type sequence payload (reply_of type response) h s'.
Proof.
  intros Hh Ht Hs Hd Hf Ha E. destruct (serve_turn_frame s _ _ _ _ _ Hf Ha E) as (arrivals&Ha'&Er&->).
  exists arrivals. set (s1 := s <| se_stream := _ |>).
  unfold accept_frame. cbn [fh_payload_crc32c fh_sequence fh_type header_of].
  rewrite bool_decide_true by done. cbn [negb]. cbv zeta. set (s2 := bump_stat _ s1).
  destruct (Z.leb_spec sequence (se_inbound_sequence s2)); [simpl in *; lia|].
  set (s3 := s2 <| se_inbound_sequence := sequence |>).
  assert (se_handshaken s3 = true) as Hh3 by done. rewrite Hh3. cbn [negb].
  pose proof (dispatch_established s3 type sequence correlation payload Hh3 Ht eq_refl Hd) as D.
  change (handle (se_context s3) type payload (se_handler s3)) with
    (handle (se_context s) type payload (se_handler s)) in D.
  destruct (handle (se_context s) type payload (se_handler s)) as [response h].
  destruct (dispatch _ _ _ s3) as [t s']. destruct D as [-> []]. exists s'. by split_and!.
Qed.

(** ** Delivery *)

Lemma no_bytes_left arrivals : all_data arrivals → bytes_of arrivals = [] → arrivals = [].
Proof. intros Ha E. destruct Ha as [|[[]| | | |]]; done. Qed.

Lemma frame_bytes_length type sequence correlation payload :
  (0 < length (frame_bytes type sequence correlation payload))%nat.
Proof.
  unfold frame_bytes, encode_header. cbn [len]. destruct (Z.ltb_spec (len (replicate (Z.to_nat kHeaderBytes) 0)) kHeaderBytes).
  - done.
  - rewrite !length_app, length_header_body. lia.
Qed.

Definition frames_bytes (frames : list (Z * Z * list Z)) : list Z :=
  frames ≫= fun f => frame_bytes f.1.2 f.1.1 0 f.2.

Definition frames_ok (limit : Z) (frames : list (Z * Z * list Z)) : Prop :=
  Forall (fun f => frame_ok limit f.1.2 f.1.1 0 f.2 ∧ f.1.2 ≠ MessageType.HelloRequest) frames.

(** The frames that answer them: numbered on from [outbound], each correlated with
    the one it answers. *)
Fixpoint replies (context : Context) (h : H) (outbound : Z) (frames : list (Z * Z * list Z)) : list Z :=
  match frames with
  | [] => []
  | (sequence, type, payload) :: frames =>
      let '(response, h) := handle context type payload h in
      let reply := reply_of type response in
      frame_bytes reply.1 (add64 outbound 1) sequence reply.2 ++ replies context h (add64 outbound 1) frames
  end.

(** The loop on an established session hands over every frame that arrives, and
    sends the answers. *)
Lemma serve_loop_frames frames fuel s :
  se_handshaken s = true → ts_deliveries (se_stream s) = [] → frames_ok (se_max_payload s) frames →
  StronglySorted Z.lt (se_inbound_sequence s :: sequences frames) →
  all_data (ts_arrivals (se_stream s)) → bytes_of (ts_arrivals (se_stream s)) = frames_bytes frames →
  (length frames < fuel)%nat →
  ∃ s', loop fuel s = Some (Continue, s') ∧ se_handled s' = se_handled s ++ frames
    ∧ se_handler s' = run_handler (se_context s) (se_handler s) frames ∧ se_context s' = se_context s
    ∧ ts_sent (se_stream s') =
        ts_sent (se_stream s) ++ replies (se_context s) (se_handler s) (se_outbound_sequence s) frames.
Proof.
  revert fuel s. induction frames as [|[[sequence type] payload] frames IH]; intros fuel s Hh Hd Hf Hs Ha Hb Hfuel.
  { destruct fuel as [|fuel]; [simpl in Hfuel; lia|]. cbn [serve_loop].
    rewrite (no_bytes_left _ Ha Hb). exists s. cbn [replies]. rewrite !app_nil_r. done. }
  destruct fuel as [|fuel]; [lia|]. inversion Hf as [|? ? [Hf1 Hne] Hf2]; subst. cbn [fst snd] in Hf1, Hne.
  inversion Hs as [|? ? Hs2 Hlt]; subst. inversion Hlt as [|? ? Hlt1 _]; subst.
  change (frames_bytes ((sequence, type, payload) :: frames)) with
    (frame_bytes type sequence 0 payload ++ frames_bytes frames) in Hb.
  destruct (serve_turn_established s type sequence 0 payload _ Hh Hne Hlt1 Hd Hf1 Ha Hb) as (arrivals&s'&Et&Ha'&Hb'&T).
  destruct (handle (se_context s) type payload (se_handler s)) as [response h] eqn:Eh.
  destruct T as [T1 T2 T3 T4 T5 T6 T7 T8 T9 T10 T11].
  cbn [se_context se_max_payload se_handled] in *.
  change (ts_arrivals (se_stream s') = arrivals) in T9.
  destruct (IH fuel s') as (s2&El&Ehd&Ehl&Ec&Esent); try (by rewrite ?T9); try (by rewrite T3); try (by rewrite T5).
  { simpl in Hfuel. lia. }
  exists s2. split_and!.
  - cbn [serve_loop]. destruct (ts_arrivals (se_stream s)); [|by rewrite Et].
    apply (f_equal length) in Hb. rewrite length_app in Hb.
    pose proof (frame_bytes_length type sequence 0 payload). simpl in Hb. lia.
  - rewrite Ehd, T7. simpl. by rewrite <- app_assoc.
  - rewrite Ehl, T8, T2. unfold run_handler. simpl. by rewrite Eh.
  - rewrite Ec, T2. done.
  - rewrite Esent, T11, T6, T2, T8. cbn [replies]. rewrite Eh. symmetry. apply app_assoc.
Qed.

Lemma weight_bytes arrivals : (length (bytes_of arrivals) ≤ weight arrivals)%nat.
Proof.
  induction arrivals as [|a arrivals IH]; [done|].
  change (bytes_of (a :: arrivals)) with
    ((match a with Data bytes => bytes | _ => [] end) ++ bytes_of arrivals).
  rewrite length_app. destruct a; simpl; lia.
Qed.

Lemma frames_bytes_length frames : (length frames ≤ length (frames_bytes frames))%nat.
Proof.
  induction frames as [|[[n t] p] frames IH]; [done|].
  change (frames_bytes ((n, t, p) :: frames)) with (frame_bytes t n 0 p ++ frames_bytes frames).
  rewrite length_app. pose proof (frame_bytes_length t n 0 p). simpl. lia.
Qed.

(** The body of a greeting. *)
Definition hello_body (hello : HelloRequest) : list Z :=
  Writer.buffer (encode_hello_request hello (Writer.make kMaxFramePayloadBytes)).

(** The limit the two sides agree on. *)
Definition negotiated (hello : HelloRequest) : Z :=
  let limit := Z.min (wrap32 (sv_max_frame_payload config)) (hq_max_frame_payload hello) in
  if limit ≟ 0 then wrap32 (sv_max_frame_payload config) else limit.

Lemma greet_accepts hello sequence correlation s :
  hello_request_ok hello → (sv_require_auth config = true → hq_auth_token hello = sv_auth_token config) →
  ts_deliveries (se_stream s) = [] →
  ∃ s', greet config draws (header_of MessageType.HelloRequest sequence correlation (hello_body hello))
          (hello_body hello) s = (Continue, s')
    ∧ se_handshaken s' = true ∧ se_max_payload s' = negotiated hello
    ∧ se_inbound_sequence s' = se_inbound_sequence s ∧ se_handler s' = se_handler s
    ∧ se_handled s' = se_handled s ∧ ts_arrivals (se_stream s') = ts_arrivals (se_stream s)
    ∧ ts_deliveries (se_stream s') = [].
Proof.
  intros Hok Hauth Hd. pose proof (carries_document _ _ hello _ kMaxFramePayloadBytes (carries_hello_request hello Hok)
    ltac:(done)) as Hdoc. cbv zeta in Hdoc. fold (hello_body hello) in Hdoc. unfold greet.
  cbn [fh_sequence fh_type header_of]. rewrite bool_decide_true by done. cbn [negb].
  destruct (decode_hello_request _) as [result reader]. destruct Hdoc as (_&->&->).
  assert (sv_require_auth config && negb (secret_matches (sv_auth_token config) (hq_auth_token hello)) = false) as ->.
  { destruct (sv_require_auth config); [|done]. rewrite (Hauth eq_refl). simpl. apply negb_false_iff.
    by apply secret_matches_spec. }
  fold (negotiated hello). cbv zeta. set (s1 := s <| se_max_payload := _ |> <| se_context := _ |>).
  pose proof (send_sent MessageType.HelloResponse) as HS.
  match goal with |- context [send _ ?p _ s1] => specialize (HS p sequence s1 Hd) end. cbv zeta in HS.
  destruct (send _ _ _ s1) as [status s2]. destruct HS as (->&[]&_&_&Hd2).
  eexists. split; [reflexivity|]. by split_and!.
Qed.

Lemma serve_session_frames hello sequence frames stream stats h0 :
  hello_request_ok hello → (sv_require_auth config = true → hq_auth_token hello = sv_auth_token config) →
  frame_ok (wrap32 (sv_max_frame_payload config)) MessageType.HelloRequest sequence 0 (hello_body hello) →
  frames_ok (negotiated hello) frames → StronglySorted Z.lt (0 :: sequence :: sequences frames) →
  all_data (ts_arrivals stream) → ts_deliveries stream = [] →
  bytes_of (ts_arrivals stream) =
    frame_bytes MessageType.HelloRequest sequence 0 (hello_body hello) ++ frames_bytes frames →
  ∃ s', serve_session config draws describe (new_session config stream stats h0) = Some s'
    ∧ se_handled s' = frames ∧ se_handler s' = run_handler (se_context s') h0 frames.
Proof.
  intros Hok Hauth Hfo Hf Hs Ha Hd Hb. unfold serve_session. set (s := new_session config stream stats h0).
  destruct (serve_turn_frame s _ _ _ _ _ Hfo Ha Hb) as (arrivals&Ha'&Hb'&Et).
  inversion Hs as [|? ? Hs2 Hlt]; subst. inversion Hlt as [|? ? Hlt1 _]; subst.
  revert Et. unfold accept_frame. cbn [fh_payload_crc32c fh_sequence fh_type header_of].
  rewrite bool_decide_true by done. cbn [negb]. cbv zeta. set (s1 := s <| se_stream := _ |>). set (s2 := bump_stat _ s1).
  destruct (Z.leb_spec sequence (se_inbound_sequence s2)); [change (se_inbound_sequence s2) with 0 in *; lia|].
  set (s3 := s2 <| se_inbound_sequence := sequence |>). change (negb (se_handshaken s3)) with true. cbn match.
  destruct (greet_accepts hello sequence 0 s3 Hok Hauth Hd) as (s4&->&Hh4&Hm4&Hi4&Hl4&Hn4&Ha4&Hd4). intros Et.
  cbn [serve_loop]. change (ts_arrivals (se_stream s)) with (ts_arrivals stream).
  pose proof (weight_bytes (ts_arrivals stream)) as Hw. pose proof (frames_bytes_length frames) as Hw2.
  pose proof (frame_bytes_length MessageType.HelloRequest sequence 0 (hello_body hello)) as Hw1.
  rewrite Hb, length_app in Hw. rewrite Et.
  change (ts_arrivals (se_stream s4) = arrivals) in Ha4.
  destruct (serve_loop_frames frames (weight (ts_arrivals stream)) s4) as (s5&->&Hd5&Hl5&Hc5&_);
    rewrite ?Ha4, ?Hm4, ?Hi4; try done; [lia|].
  exists s5. destruct (ts_arrivals stream); [change (weight []) with 0%nat in Hw; lia|].
  split_and!; [done|by rewrite Hd5, Hn4|]. by rewrite Hl5, Hc5, Hl4.
Qed.

End session.

(** ** The two promises *)

Lemma session_sees_frames {H} `{MessageHandler H} config draws describe stream stats h0 :
  ∃ s', serve_session config draws describe (new_session config stream stats h0) = Some s'
    ∧ (let h := run_handler (se_context s') h0 (se_handled s') in
       se_handler s' = h ∨ se_handler s' = on_session_closed (se_context s') h)
    ∧ StronglySorted Z.lt (sequences (se_handled s')) ∧ Forall frame_fit (se_handled s')
    ∧ (se_handled s' ≠ [] → ∃ hello, se_hello s' = Some hello ∧ authentic config hello)
    ∧ se_replays s' ≤ 9.
Proof.
  set (s := new_session config stream stats h0).
  assert (session_inv config h0 s) as Hi by by repeat constructor.
  destruct (serve_loop_spec config draws describe h0 (S (weight (ts_arrivals (se_stream s)))) s Hi)
    as (t&s'&E&Hi'); [done|lia|].
  unfold serve_session. rewrite E.
  assert (∀ b, se_handshaken s' = b → se_handled s' ≠ [] →
    ∃ hello, se_hello s' = Some hello ∧ authentic config hello) as Hg.
  { intros [] Hb Hne; [by apply Hi'|]. by rewrite (si_silent _ _ _ Hi' Hb) in Hne. }
  pose proof (si_handler _ _ _ Hi') as Hh.
  destruct t; eexists; (split; [reflexivity|]).
  - split_and!; [by left|apply Hi'|apply Hi'|by eapply Hg|apply Hi'].
  - unfold close_session. destruct (se_handshaken s') eqn:Es; split_and!; try apply Hi'; try by eapply Hg.
    + right. simpl. by rewrite Hh.
    + by left.
Qed.

(** C5: Whatever arrives at a session, in whatever pieces, with whatever failures of the
    socket, the session ends with its input, and its handler has then seen exactly the
    frames that were taken up, with strictly increasing sequence numbers, each of a
    known type other than a greeting and within the payload ceiling; none unless a
    greeting was decoded that carries the required secret; and at most nine replays were
    tolerated. *)
Theorem handler_sees_authentic_ordered_frames {H} `{MessageHandler H} config draws describe stream stats h0 :
  ∃ s', serve_session config draws describe (new_session config stream stats h0) = Some s'
    ∧ (let h := run_handler (se_context s') h0 (se_handled s') in
       se_handler s' = h ∨ se_handler s' = on_session_closed (se_context s') h)
    ∧ StronglySorted Z.lt (sequences (se_handled s')) ∧ Forall frame_fit (se_handled s')
    ∧ (se_handled s' ≠ [] → ∃ hello, se_hello s' = Some hello ∧ authentic config hello)
    ∧ se_replays s' ≤ 9.
Proof. apply session_sees_frames. Qed.

(** C10: Every frame of a well-behaved peer reaches the handler: when the bytes of an
    acceptable greeting and of any number of well-formed frames within the negotiated
    payload limit, with increasing sequence numbers and correlation zero, arrive cut
    into pieces in any way, with no pause between them that runs into a time limit and
    every answer written, the session hands all of them to the handler, in order. *)
Theorem session_delivers_every_frame {H} `{MessageHandler H} config draws describe hello sequence frames stream stats h0 :
  hello_request_ok hello → (sv_require_auth config = true → hq_auth_token hello = sv_auth_token config) →
  frame_ok (wrap32 (sv_max_frame_payload config)) MessageType.HelloRequest sequence 0 (hello_body hello) →
  frames_ok (negotiated config hello) frames → StronglySorted Z.lt (0 :: sequence :: sequences frames) →
  all_data (ts_arrivals stream) → ts_deliveries stream = [] →
  bytes_of (ts_arrivals stream) =
    frame_bytes MessageType.HelloRequest sequence 0 (hello_body hello) ++ frames_bytes frames →
  ∃ s', serve_session config draws describe (new_session config stream stats h0) = Some s'
    ∧ se_handled s' = frames ∧ se_handler s' = run_handler (se_context s') h0 frames.
Proof. apply serve_session_frames. Qed.
