(* ===== verification/Service.v ===== *)
(** * The coordinator service

    Models tools/service.hpp and tools/service.cpp: the messages of a session
    translated into coordinator calls, the durable document written after a change,
    start and stop. Readings of the clock are numbered, [clock] is what they answer,
    and a call that may read it is given a reading of its own; [draws] is what the random source answers to a boot. Messages
    are taken one after the other, as the coordinator's lock makes them. *)

From S2P Require Import Prelude Ids Traffic Decision Policy Bytes Crc Codec Wire Ledger Coordinator Evaluate Flows CoordAudit.
From S2P Require Import CodecProps PolicyCodec Format Serialize Messages Snapshot Net Session.
From stdpp Require Import strings.
#[local] Open Scope Z_scope.
Import Datatypes.

Record ServiceConfig := MkServiceConfig {
  svc_server : ServerConfig;
  svc_coordinator : CoordinatorConfig;
  svc_snapshot_path : string;
  svc_snapshot_interval_nanos : Z;
  svc_persist : bool;
  svc_loopback_only : bool;
}.

Record CoordinatorService := MkService {
  sv_coordinator : Coordinator;
  sv_disk : Disk;
  (** Readings of the clock so far. *)
  sv_readings : nat;
  sv_shutdown_requested : bool;
  sv_last_snapshot_nanos : Z;
  sv_last_snapshot_error : option StatusCode.t;
}.

#[export] Instance sv_svc_eta : Eta CoordinatorService := fun r =>
  MkService (sv_coordinator r) (sv_disk r) (sv_readings r) (sv_shutdown_requested r)
    (sv_last_snapshot_nanos r) (sv_last_snapshot_error r).
#[export] Instance sv_set_coordinator : Setter sv_coordinator. Proof. mk_setter. Defined.
#[export] Instance sv_set_disk : Setter sv_disk. Proof. mk_setter. Defined.
#[export] Instance sv_set_readings : Setter sv_readings. Proof. mk_setter. Defined.
#[export] Instance sv_set_shutdown : Setter sv_shutdown_requested. Proof. mk_setter. Defined.
#[export] Instance sv_set_last_snapshot : Setter sv_last_snapshot_nanos. Proof. mk_setter. Defined.
#[export] Instance sv_set_last_error : Setter sv_last_snapshot_error. Proof. mk_setter. Defined.

(** ** Helpers of the anonymous namespace *)

Definition build_body (fn : Writer.t → Writer.t) : Result (list Z) :=
  let writer := fn (Writer.make kMaxFramePayloadBytes) in
  if Writer.ok writer then Success (Writer.buffer writer) else Failure (Writer.failure writer).

Definition decode_body {A} (payload : list Z) (decoder : Reader.t → Result A * Reader.t) : Result A :=
  let '(value, reader) := decoder (Reader.make payload kMaxFramePayloadBytes) in
  match value with
  | Failure c => Failure c
  | Success x => match Reader.finish reader with Success _ => Success x | Failure c => Failure c end
  end.

(** A step of the handler: it may end the call with a failure. *)
Definition Step (A : Type) : Type := CoordinatorService → Result A * CoordinatorService.

Definition step_ret {A} (x : A) : Step A := fun s => (Success x, s).
Definition step_lift {A} (r : Result A) : Step A := fun s => (r, s).
Definition step_bind {A B} (m : Step A) (k : A → Step B) : Step B := fun s =>
  match m s with
  | (Success x, s) => k x s
  | (Failure c, s) => (Failure c, s)
  end.
(** A step whose failure is not the call's. *)
Definition attempt_step {A} (m : Step A) : Step (Result A) := fun s =>
  let '(r, s) := m s in (Success r, s).

Notation "'let*' x := m 'in' k" := (step_bind m (fun x => k))
  (at level 10, x pattern, m at level 200, k at level 200) : itf_scope.

Section service.
Context `{!Kernel, !HashOrder}.
Variable config : ServiceConfig.
Variable clock : nat → Z.

Implicit Types s : CoordinatorService.

Definition make_service (disk : Disk) : CoordinatorService :=
  MkService (make_coordinator (svc_coordinator config)) disk 0 false 0 None.

Definition now_nanos : Step Z := fun s =>
  (Success (clock (sv_readings s)), s <| sv_readings := S (sv_readings s) |>).

(** A call of the coordinator, and a look at it. *)
Definition coordinate {A} (f : Coordinator → Result A * Coordinator) : Step A := fun s =>
  let '(r, c) := f (sv_coordinator s) in (r, s <| sv_coordinator := c |>).
Definition inspect {A} (f : Coordinator → A) : Step A := fun s => (Success (f (sv_coordinator s)), s).

Definition persists : bool := svc_persist config && bool_decide (svc_snapshot_path config ≠ "").

Definition snapshot_store : SnapshotStore := MkStore (svc_snapshot_path config) kMaxSnapshotPayloadBytes.

(** ** Durable state *)

Definition save_snapshot : Step unit := fun s =>
  if negb persists then (Failure StatusCode.Unsupported, s)
  else
    let '(saved, disk) := save snapshot_store (export_state (sv_coordinator s)) (sv_disk s) in
    let s := s <| sv_disk := disk |> in
    match saved with
    | Failure c => (Failure c, s <| sv_last_snapshot_error := Some c |>)
    | Success _ =>
        let now := clock (sv_readings s) in
        (Success tt, s <| sv_readings := S (sv_readings s) |> <| sv_last_snapshot_nanos := now |>
                       <| sv_last_snapshot_error := None |>)
    end.

Definition maybe_snapshot (mutated : bool) s : CoordinatorService :=
  if negb mutated || negb persists then s
  else
    let now := clock (sv_readings s) in
    let s := s <| sv_readings := S (sv_readings s) |> in
    if (sv_last_snapshot_nanos s ≠? 0) && (now - sv_last_snapshot_nanos s <? svc_snapshot_interval_nanos config)
    then s else (save_snapshot s).2.

Definition boot_outcome (booted : Result Z * Coordinator) : Step unit := fun s =>
  let s := s <| sv_coordinator := booted.2 |> in
  match booted.1 with Success _ => (Success tt, s) | Failure c => (Failure c, s) end.

(** What [start] does before it starts the server. *)
Definition boot_service (draws : Z * Z) : Step unit := fun s =>
  if persists then
    let '(loaded, disk) := load_snapshot snapshot_store (sv_disk s) in
    let s := s <| sv_disk := disk |> in
    match loaded with
    | Success state => boot_outcome (boot_from (sv_coordinator s) state draws) s
    | Failure StatusCode.NotFound => boot_outcome (boot_fresh (sv_coordinator s) draws) s
    | Failure c => (Failure c, s)
    end
  else boot_outcome (boot_fresh (sv_coordinator s) draws) s.

(** [start], with what the random source answers and what starting the server
    answers. *)
Definition start (draws : Z * Z) (server_start : Status) : Step unit :=
  let* _ := boot_service draws in step_lift server_start.

(** [stop], which the destructor calls too: the sessions have ended by then. *)
Definition stop s : CoordinatorService := if persists then (save_snapshot s).2 else s.

(** [run_coordinator_service] around what the sessions do while it waits. *)
Definition run_service (draws : Z * Z) (server_start : Status)
    (sessions : CoordinatorService → CoordinatorService) s : Z * CoordinatorService :=
  match start draws server_start s with
  | (Failure _, s) => (2, stop s)
  | (Success _, s) => (0, stop (stop (sessions s)))
  end.

(** [describe_authority]: its reading of the clock only goes into the response. *)
Definition describe_service (greeting_clock : nat → Z) s (response : HelloResponse) : HelloResponse :=
  let stamp := current_stamp (sv_coordinator s) in
  let status := status (sv_coordinator s) (greeting_clock (sv_readings s)) in
  MkHelloResponse (hr_protocol_version response) (hr_server_api_version response) (hr_session response)
    (hr_peer response) (st_incarnation stamp) (st_epoch stamp) (st_policy stamp)
    (cs_topology_generation status) (cs_topology_state status) (hr_max_frame_payload response)
    (st_sequence stamp) (hr_server_version response).

(** ** The messages

    A case answers the body of the response and whether it changed anything; a
    failure ends the call at once, before a snapshot is considered. *)

Definition Answer : Type := Result (list Z) * bool.

Definition acknowledge (detail : list Z) : Result (list Z) :=
  build_body (encode_simple_ack (MkAck StatusCode.Ok detail)).

Definition on_heartbeat (payload : list Z) : Step Answer :=
  let* _ := step_lift (decode_body payload decode_heartbeat) in
  step_ret (acknowledge [], false).

Definition on_register_request (payload : list Z) : Step Answer :=
  let* body := step_lift (decode_body payload decode_register_request) in
  let* now := now_nanos in
  let* generation := coordinate (fun c => coord_register_request c (rq_request body) now) in
  let* authority := inspect current_stamp in
  step_ret (build_body (encode_register_request_response
    (MkRegisterRequestResponse (rq_request body) generation authority)), true).

Definition on_register_attempt (payload : list Z) : Step Answer :=
  let* body := step_lift (decode_body payload decode_register_attempt) in
  let* now := now_nanos in
  let* generation := coordinate (fun c =>
    coord_register_attempt c (aq_request body) (aq_attempt body) (aq_model_hash body) now) in
  let* model_generation :=
    if aq_model_hash body ≠? 0
    then inspect (fun c => match require_model_generation_locked c (aq_model_hash body) with
                           | Success g => g | Failure _ => 0 end)
    else step_ret 0 in
  let* authority := inspect current_stamp in
  step_ret (build_body (encode_register_attempt_response
    (MkRegisterAttemptResponse (aq_request body) (aq_attempt body) generation model_generation 0 0 authority)),
    true).

Definition on_stage_update (payload : list Z) : Step Answer :=
  let* body := step_lift (decode_body payload decode_stage_update) in
  let* now := now_nanos in
  let* _ := coordinate (fun c => coord_advance_stage c (su_request body) (su_attempt body) (su_stage body) now) in
  step_ret (acknowledge [], true).

Definition on_cancel_request (payload : list Z) : Step Answer :=
  let* body := step_lift (decode_body payload decode_cancel_request) in
  let* now := now_nanos in
  let* _ := coordinate (fun c => coord_cancel_request c (cq_request body) (cq_reason body) now) in
  step_ret (acknowledge [], true).

Definition on_fail_attempt (payload : list Z) : Step Answer :=
  let* body := step_lift (decode_body payload decode_fail_attempt) in
  let* now := now_nanos in
  let* _ := coordinate (fun c =>
    let '(outcome, c) := coord_fail_attempt c (fa_request body) (fa_attempt body) (fa_reason body) now in
    (match outcome with Some (Failure e) => Failure e | _ => Success tt end, c)) in
  step_ret (acknowledge [], true).

Definition on_replace_attempt (payload : list Z) : Step Answer :=
  let* body := step_lift (decode_body payload decode_replace_attempt) in
  let* now := now_nanos in
  let* generation := coordinate (fun c => coord_replace_attempt c (ra_request_id body) (ra_superseded body)
                                            (ra_replacement body) (ra_model_hash body) now) in
  let* authority := inspect current_stamp in
  step_ret (build_body (encode_register_attempt_response
    (MkRegisterAttemptResponse (ra_request_id body) (ra_replacement body) generation 0 0 0 authority)), true).

Definition on_evaluate_traffic (payload : list Z) : Step Answer :=
  let* request := step_lift (decode_body payload decode_evaluate_traffic) in
  let* now := now_nanos in
  let* decision := coordinate (fun c => let '(decision, c) := evaluate_locked c request now in (Success decision, c)) in
  step_ret (build_body (encode_decision_response decision), false).

Definition on_open_flow (payload : list Z) : Step Answer :=
  let* body := step_lift (decode_body payload decode_open_flow) in
  let* now := now_nanos in
  let* flow := coordinate (fun c => open_flow_locked c (of_decision body) (of_declared_bytes body) now) in
  let* authority := inspect current_stamp in
  step_ret (build_body (encode_open_flow_response (MkOpenFlowResponse flow authority)), true).

Definition on_register_transfer (payload : list Z) : Step Answer :=
  let* registration := step_lift (decode_body payload decode_register_transfer) in
  let* now := now_nanos in
  let* transfer := coordinate (fun c => register_transfer c registration now) in
  let* model := inspect (fun c => match require_model_generation_locked c (tg_model_hash registration) with
                                  | Success g => g | Failure _ => 0 end) in
  let* state := inspect (fun c => match require_state_generation_locked c (tg_state_hash registration) with
                                  | Success g => g | Failure _ => 0 end) in
  let* authority := inspect current_stamp in
  step_ret (build_body (encode_register_transfer_response
    (MkRegisterTransferResponse transfer model state TransferState.Registered authority)), true).

Definition on_authorize_transfer (payload : list Z) : Step Answer :=
  let* request := step_lift (decode_body payload decode_authorize_transfer) in
  let* now := now_nanos in
  let* now_eval := now_nanos in
  let* authorization := coordinate (fun c => authorize_transfer c request now now_eval) in
  step_ret (build_body (encode_transfer_decision
    (MkTransferDecision authorization (default empty_subject (tr_subject request)) (tr_binding request)
       (ta_authority authorization))), true).

Definition on_transfer_complete (payload : list Z) : Step Answer :=
  let* body := step_lift (decode_body payload decode_transfer_complete) in
  let* _ := coordinate (fun c => complete_transfer c (tc_transfer body) (tc_verified_bytes body)) in
  step_ret (acknowledge [], true).

Definition on_completion_publish (payload : list Z) : Step Answer :=
  let* publication := step_lift (decode_body payload decode_completion_publish) in
  let* now := now_nanos in
  let* outcome := coordinate (fun c => coord_publish_completion c publication now) in
  step_ret (build_body (encode_completion_response outcome), true).

Definition on_accounting_query (payload : list Z) : Step Answer :=
  let* _ := step_lift (decode_body payload decode_query) in
  let* snapshot := inspect accounting in
  step_ret (build_body (encode_accounting_response snapshot), false).

Definition on_status_query (payload : list Z) : Step Answer :=
  let* _ := step_lift (decode_body payload decode_query) in
  let* now := now_nanos in
  let* status := inspect (fun c => status c now) in
  step_ret (build_body (encode_status_response status), false).

Definition on_policy_query (payload : list Z) : Step Answer :=
  let* _ := step_lift (decode_body payload decode_query) in
  let* policy := inspect C_policy in
  step_ret (build_body (encode_policy_response policy), false).

Definition on_topology_publish (payload : list Z) : Step Answer :=
  let* evidence := step_lift (decode_body payload decode_topology_publish) in
  let* now := now_nanos in
  let* generation := coordinate (fun c => publish_topology c evidence now) in
  step_ret (build_body (encode_topology_response
    (MkTopologyResponse generation EvidenceState.Current (te_provenance evidence))), true).

Definition on_publish_slo (payload : list Z) : Step Answer :=
  let* body := step_lift (decode_body payload decode_publish_slo) in
  let* contract := coordinate (fun c => register_slo_contract c (sl_request body)
    (sl_tail_latency_budget_nanos body) (sl_registration_deadline_nanos body) (sl_min_stream_share_per_mille body)) in
  step_ret (build_body (encode_slo_response contract), true).

Definition on_issue_route (payload : list Z) : Step Answer :=
  let* body := step_lift (decode_body payload decode_issue_route) in
  let* decision := coordinate (fun c => issue_route_decision c (ir_request body) (ir_attempt body)
    (ir_target_node body) (ir_lateral body) (ir_disaggregated_handoff body)) in
  step_ret (build_body (encode_route_response decision), true).

Definition on_advance_generation (payload : list Z) : Step Answer :=
  let* body := step_lift (decode_body payload decode_advance_generation) in
  let hash := ag_target_hash body in
  let expected := if ag_has_expected body then Some (ag_expected_generation body) else None in
  let answer generation state_generation : Step Answer :=
    step_ret (build_body (encode_model_generation (MkModelGeneration hash generation state_generation false)), true) in
  if ag_state_target body then
    let* state := coordinate (fun c => if ag_revalidate_only body then revalidate_state_generation c hash
                                       else advance_state_generation c hash expected) in
    answer 0 state
  else if ag_revalidate_only body then
    let* model := attempt_step (coordinate (fun c => revalidate_model_generation c hash)) in
    let* state := attempt_step (coordinate (fun c => revalidate_state_generation c hash)) in
    match model, state with
    | Failure c, Failure _ => step_lift (Failure c)
    | _, _ => answer (match model with Success g => g | Failure _ => 0 end)
                     (match state with Success g => g | Failure _ => 0 end)
    end
  else
    let* model := coordinate (fun c => set_model_generation c hash expected) in
    answer model 0.

Definition on_shutdown : Step Answer := fun s =>
  let s := s <| sv_shutdown_requested := true |> in
  (Success (acknowledge (text "shutdown accepted"%string), false), s).

(** The switch. *)
Definition handle_message (type : Z) (payload : list Z) : Step Answer :=
  if type ≟ MessageType.Heartbeat then on_heartbeat payload
  else if type ≟ MessageType.RegisterRequest then on_register_request payload
  else if type ≟ MessageType.RegisterAttempt then on_register_attempt payload
  else if type ≟ MessageType.StageUpdate then on_stage_update payload
  else if type ≟ MessageType.CancelRequest then on_cancel_request payload
  else if type ≟ MessageType.FailAttempt then on_fail_attempt payload
  else if type ≟ MessageType.ReplaceAttempt then on_replace_attempt payload
  else if type ≟ MessageType.EvaluateTraffic then on_evaluate_traffic payload
  else if type ≟ MessageType.OpenFlow then on_open_flow payload
  else if type ≟ MessageType.RegisterTransfer then on_register_transfer payload
  else if type ≟ MessageType.AuthorizeTransfer then on_authorize_transfer payload
  else if type ≟ MessageType.TransferComplete then on_transfer_complete payload
  else if type ≟ MessageType.CompletionPublish then on_completion_publish payload
  else if type ≟ MessageType.AccountingQuery then on_accounting_query payload
  else if type ≟ MessageType.StatusQuery then on_status_query payload
  else if type ≟ MessageType.PolicyQuery then on_policy_query payload
  else if type ≟ MessageType.TopologyPublish then on_topology_publish payload
  else if type ≟ MessageType.PublishSloContract then on_publish_slo payload
  else if type ≟ MessageType.IssueRouteDecision then on_issue_route payload
  else if type ≟ MessageType.AdvanceModelGeneration then on_advance_generation payload
  else if type ≟ MessageType.Shutdown then on_shutdown
  else step_lift (Failure StatusCode.Unsupported).

Definition service_handle (type : Z) (payload : list Z) s : Result (list Z) * CoordinatorService :=
  match handle_message type payload s with
  | (Failure c, s) => (Failure c, s)
  | (Success (result, mutated), s) => (result, maybe_snapshot mutated s)
  end.

(** The handler the service installs in its server. *)
Definition service_handler (greeting_clock : nat → Z) : MessageHandler CoordinatorService := {|
  handle _ type payload s := service_handle type payload s;
  Session.describe_authority s response := describe_service greeting_clock s response;
  on_session_closed _ s := s;
|}.

End service.
