(* ===== verification/EvaluateProps.v ===== *)
(** * Properties of the evaluation

    Inversion of the evaluation monad, check by check, and what a decision that
    permits traffic implies about the state it was taken in; the canonical policy
    gives no reason to defer a protected class. *)

From S2P Require Import Prelude Ids Traffic Decision Policy Ledger Coordinator Evaluate.

(** ** Inversion of the evaluation monad *)

Lemma eval_bind_inr {A B} (m : Eval A) (k : A → Eval B) log log' b :
  eval_bind m k log = (log', inr b) →
  ∃ log1 a, m log = (log1, inr a) ∧ k a log1 = (log', inr b).
Proof.
  unfold eval_bind. destruct (m log) as [log1 [r|a]] eqn:E; [by intros [= _ _]|]. eauto.
Qed.

Lemma fence_inr e actual rule reason cls log log' u :
  fence e actual rule reason cls log = (log', inr u) → stale e actual = false.
Proof.
  unfold fence, stale. destruct e as [e|]; [|done]. case_bool_decide; [done|].
  by intros (? & ? & _ & ?)%eval_bind_inr.
Qed.

(** Walks through a successful computation, one bind, fence or condition at a
    time, and discards the branches that reject. *)
Ltac eval_inv :=
  repeat match goal with
  | H : eval_bind _ _ _ = (_, inr _) |- _ =>
      let l := fresh "log" in let a := fresh "a" in
      apply eval_bind_inr in H as (l & a & ? & ?)
  | H : reject _ _ _ = (_, inr _) |- _ => discriminate H
  | H : eval_ret _ _ = (_, inr _) |- _ => injection H as ? ?
  | H : explain _ _ _ _ = (_, inr _) |- _ => clear H
  | H : fence _ _ _ _ _ _ = (_, inr _) |- _ => apply fence_inr in H
  | H : (if ?b then _ else _) _ = (_, inr _) |- _ => destruct b eqn:?
  | H : match ?x with _ => _ end _ = (_, inr _) |- _ => destruct x eqn:?
  end; simplify_eq/=.

(** ** What admission establishes *)

(** A live request with a current attempt, both of the generation the caller
    expects. *)
Record serving_authorised (c : Coordinator) (request : TrafficRequest) (subject : TrafficSubject)
    (record : RequestRecord) (attempt : AttemptRecord) : Prop := {
  sa_record : L_requests (C_ledger c) !! sub_request subject = Some record;
  sa_live : request_is_terminal (rr_lifecycle record) = false;
  sa_revalidated : rr_requires_revalidation record = false;
  sa_attempt : ∃ i, find_attempt record (sub_attempt subject) = Some (i, attempt);
  sa_current : is_current_attempt record (sub_attempt subject) = true;
  sa_generation : stale (gb_request_generation (tr_binding request)) (rr_generation record) = false;
}.

(** A transfer that is not over, whose owner is not cancelled and whose model and
    state generations are the registered ones. *)
Record transfer_authorised (c : Coordinator) (request : TrafficRequest) (subject : TrafficSubject)
    (t : TransferRecord) : Prop := {
  xa_record : C_transfers c !! sub_transfer subject = Some t;
  xa_open : transfer_is_over (tx_state t) = false;
  xa_owner : is_nil (tx_request t) = false → is_cancelled (C_ledger c) (tx_request t) = false;
  xa_model : tx_model_hash t ≠ 0 →
    require_model_generation_locked c (tx_model_hash t) = Success (tx_model_generation t);
  xa_state : require_state_generation_locked c (tx_state_hash t) = Success (tx_state_generation t);
  xa_model_bound : stale (gb_model_generation (tr_binding request)) (tx_model_generation t) = false;
  xa_state_bound : stale (gb_state_generation (tr_binding request)) (tx_state_generation t) = false;
}.

Definition resolved_authorised (c : Coordinator) (request : TrafficRequest)
    (subject : TrafficSubject) (resolved : Resolved) : Prop :=
  match resolved with
  | RServing record attempt =>
      sub_kind subject = SubjectKind.Serving ∧ serving_authorised c request subject record attempt
  | RTransfer t => sub_kind subject = SubjectKind.Transfer ∧ transfer_authorised c request subject t
  end.

Lemma check_binding_inr c request log log' subject :
  check_binding c request log = (log', inr subject) →
  tr_subject request = Some subject ∧ structurally_valid request = true ∧
  stale (gb_coordinator_epoch (tr_binding request)) (C_epoch c) = false ∧
  stale (gb_policy (tr_binding request)) (pc_generation (C_policy c)) = false.
Proof. unfold check_binding. intros H. eval_inv. bool_to_prop. done. Qed.

Lemma resolve_serving_inr c request subject log log' resolved :
  resolve_serving c request subject log = (log', inr resolved) →
  ∃ record attempt, resolved = RServing record attempt ∧
    serving_authorised c request subject record attempt.
Proof.
  unfold resolve_serving. intros H. eval_inv. bool_to_prop. eexists _, _. split; [done|].
  split; eauto.
Qed.

Lemma check_transfer_model_inr c t log log' u :
  check_transfer_model c t log = (log', inr u) → tx_model_hash t ≠ 0 →
  require_model_generation_locked c (tx_model_hash t) = Success (tx_model_generation t).
Proof. unfold check_transfer_model. intros H Hne. eval_inv; bool_to_prop; congruence. Qed.

Lemma check_transfer_state_inr c t log log' u :
  check_transfer_state c t log = (log', inr u) →
  require_state_generation_locked c (tx_state_hash t) = Success (tx_state_generation t).
Proof. unfold check_transfer_state. intros H. eval_inv; bool_to_prop; congruence. Qed.

Lemma resolve_transfer_inr c request subject log log' resolved :
  resolve_transfer c request subject log = (log', inr resolved) →
  ∃ t, resolved = RTransfer t ∧ transfer_authorised c request subject t.
Proof.
  unfold resolve_transfer. intros H. eval_inv. eexists. split; [done|]. split; try done.
  - intros Hn. match goal with H : negb _ && _ = false |- _ => by rewrite Hn in H end.
  - by eapply check_transfer_model_inr.
  - by eapply check_transfer_state_inr.
Qed.

Lemma resolve_inr c request subject log log' resolved :
  resolve c request subject log = (log', inr resolved) →
  resolved_authorised c request subject resolved.
Proof.
  unfold resolve. destruct (sub_kind subject) eqn:Hk; try done.
  - intros (r & a & -> & H)%resolve_serving_inr. done.
  - intros (t & -> & H)%resolve_transfer_inr. done.
Qed.

(** Whether the policy lets traffic of class [cls] through without a class. *)
Definition class_admissible (c : Coordinator) (cls : TrafficClass) : Prop :=
  cls = TrafficClass.Unknown → pc_allow_unknown_traffic_class (C_policy c) = true.

(** The class of admitted traffic. At an active stage of the attempt, as the ledger
    has it, it is the declared class when that is legal at the stage, and the
    canonical class of the stage otherwise. An unknown stage has no class. A transfer
    has the class it was registered with; only a policy that allows unknown classes
    lets another class than a transfer class stand. *)
Definition class_given (c : Coordinator) (request : TrafficRequest) (resolved : Resolved)
    (cls : TrafficClass) : Prop :=
  let declared := tr_declared_class request in
  match resolved with
  | RServing _ attempt =>
      let stage := at_stage attempt in
      if is_serving_active stage then
        class_admissible c cls ∧
        cls = (if bool_decide (declared ≠ TrafficClass.Unknown) && is_class_legal_for_stage declared stage
               then declared else canonical_class_for_stage stage)
      else stage = ServingStage.Unknown ∧ pc_allow_unknown_stage (C_policy c) = true
           ∧ cls = TrafficClass.Unknown
  | RTransfer t =>
      let claimed := if bool_decide (declared = TrafficClass.Unknown) then tx_declared_class t else declared in
      if is_transfer_class claimed then cls = tx_declared_class t
      else pc_allow_unknown_traffic_class (C_policy c) = true ∧ cls = claimed
  end.

Lemma classify_inr c request resolved log log' x :
  classify c request resolved log = (log', inr x) → class_given c request resolved x.1.
Proof.
  unfold classify, class_given. destruct resolved as [record attempt|t].
  - unfold classify_serving, classify_active, class_admissible. intros H.
    destruct (is_serving_active (at_stage attempt)); cbn [negb] in H; [|by eval_inv; bool_to_prop].
    eval_inv; bool_to_prop; (split; [congruence|]).
    all: case_bool_decide; try done; cbn [andb].
    all: try (match goal with H : is_class_legal_for_stage _ _ = _ |- _ => by rewrite H end).
  - unfold classify_transfer. intros H. case_bool_decide; eval_inv; bool_to_prop; by case_match.
Qed.

(** Everything a request has passed when it reaches the deferral stage. *)
Record authorised (c : Coordinator) (request : TrafficRequest) (now : Z) (a : Admission) : Prop := {
  au_subject : tr_subject request = Some (ad_subject a);
  au_valid : structurally_valid request = true;
  au_epoch : stale (gb_coordinator_epoch (tr_binding request)) (C_epoch c) = false;
  au_policy : stale (gb_policy (tr_binding request)) (pc_generation (C_policy c)) = false;
  au_resolved : resolved_authorised c request (ad_subject a) (ad_resolved a);
  au_class : class_given c request (ad_resolved a) (ad_effective a);
  au_rule : ad_rule a = policy_rule (C_policy c) (ad_effective a);
  au_enabled : pr_enabled (ad_rule a) = true;
  au_topology : pr_requires_current_topology (ad_rule a) = true →
    (topology_state_locked c now = EvidenceState.Current ∨
     topology_state_locked c now ≠ EvidenceState.Unknown ∧ topology_grace c now = true) ∧
    stale (gb_topology (tr_binding request)) (te_generation (C_topology c)) = false;
  au_slo : pr_requires_slo_contract (ad_rule a) = true →
    ∃ s, find_slo c (ad_subject a) (ad_resolved a) = Some s ∧
      stale (gb_slo_contract (tr_binding request)) (slo_generation s) = false;
  au_route : pr_requires_current_route (ad_rule a) = true →
    is_nil (route_attempt (ad_subject a) (ad_resolved a)) = false →
    ∃ d, C_route_decisions c !! route_attempt (ad_subject a) (ad_resolved a) = Some d ∧
      stale (gb_route_decision (tr_binding request)) (rd_generation d) = false;
  au_model : pr_requires_model_generation (ad_rule a) = true →
    ∀ record attempt, ad_resolved a = RServing record attempt →
      at_model_hash attempt ≠ 0 ∧
      require_model_generation_locked c (at_model_hash attempt) = Success (at_model_generation attempt)
      ∧ stale (gb_model_generation (tr_binding request)) (at_model_generation attempt) = false;
  au_deadline : Instant_expired_at (effective_deadline request (ad_resolved a)
      (find_slo c (ad_subject a) (ad_resolved a)) now) now = false;
}.

Lemma check_rule_inr c cls log log' rule :
  check_rule c cls log = (log', inr rule) →
  rule = policy_rule (C_policy c) cls ∧ pr_enabled rule = true.
Proof. unfold check_rule. intros H. eval_inv. bool_to_prop. done. Qed.

Lemma check_topology_inr c request rule cls now degrade log log' d :
  check_topology c request rule cls now degrade log = (log', inr d) →
  pr_requires_current_topology rule = true →
  (topology_state_locked c now = EvidenceState.Current ∨
   topology_state_locked c now ≠ EvidenceState.Unknown ∧ topology_grace c now = true) ∧
  stale (gb_topology (tr_binding request)) (te_generation (C_topology c)) = false.
Proof. unfold check_topology. intros H Hr. rewrite Hr in H. eval_inv; bool_to_prop; auto. Qed.

Lemma check_slo_inr request rule cls slo log log' u :
  check_slo request rule cls slo log = (log', inr u) → pr_requires_slo_contract rule = true →
  ∃ s, slo = Some s ∧ stale (gb_slo_contract (tr_binding request)) (slo_generation s) = false.
Proof. unfold check_slo. intros H Hr. rewrite Hr in H. eval_inv; eauto. Qed.

Lemma check_route_inr c request rule cls x log log' u :
  check_route c request rule cls x log = (log', inr u) →
  pr_requires_current_route rule = true → is_nil x = false →
  ∃ d, C_route_decisions c !! x = Some d ∧
    stale (gb_route_decision (tr_binding request)) (rd_generation d) = false.
Proof. unfold check_route. intros H Hr Hn. rewrite Hr, Hn in H. eval_inv; eauto. Qed.

Lemma check_model_inr c request rule cls record attempt log log' u :
  check_model c request rule cls (RServing record attempt) log = (log', inr u) →
  pr_requires_model_generation rule = true →
  at_model_hash attempt ≠ 0 ∧
  require_model_generation_locked c (at_model_hash attempt) = Success (at_model_generation attempt)
  ∧ stale (gb_model_generation (tr_binding request)) (at_model_generation attempt) = false.
Proof.
  unfold check_model. intros H Hr. rewrite Hr in H. eval_inv; bool_to_prop.
  split_and!; congruence.
Qed.

Lemma check_deadline_inr rule cls deadline now degrade log log' d :
  check_deadline rule cls deadline now degrade log = (log', inr d) →
  Instant_expired_at deadline now = false.
Proof.
  unfold check_deadline. intros H.
  assert (Instant_is_set deadline && Instant_expired_at deadline now = false) as E
    by (by destruct (_ && _); eval_inv).
  revert E. unfold Instant_expired_at. destruct (Instant_is_set deadline); done.
Qed.

Lemma admit_inr c request now log log' a :
  admission c request now log = (log', inr a) → authorised c request now a.
Proof.
  unfold admission. intros H. eval_inv.
  repeat match goal with
  | H : check_binding _ _ _ = _ |- _ => apply check_binding_inr in H as (? & ? & ? & ?)
  | H : resolve _ _ _ _ = _ |- _ => apply resolve_inr in H
  | H : classify _ _ _ _ = _ |- _ => apply classify_inr in H
  | H : check_rule _ _ _ = _ |- _ => apply check_rule_inr in H as [-> ?]
  end.
  split; simpl; try done.
  - by eapply check_topology_inr.
  - by eapply check_slo_inr.
  - by eapply check_route_inr.
  - intros Hm r t ->. by eapply check_model_inr.
  - by eapply check_deadline_inr.
Qed.

(** ** What a computation returns or rejects with *)

Definition any {A} (_ : A) : Prop := True.

(** Every rejection has a rejection reason and every result satisfies [P]. *)
Definition eval_spec {A} (m : Eval A) (P : A → Prop) : Prop :=
  ∀ log, match (m log).2 with inl (r, _) => is_rejection r = true | inr a => P a end.

Lemma spec_ret {A} (a : A) (P : A → Prop) : P a → eval_spec (eval_ret a) P.
Proof. intros H log. done. Qed.

Lemma spec_bind {A B} (m : Eval A) (k : A → Eval B) (P : A → Prop) (Q : B → Prop) :
  eval_spec m P → (∀ a, P a → eval_spec (k a) Q) → eval_spec (eval_bind m k) Q.
Proof.
  intros Hm Hk log. specialize (Hm log). unfold eval_bind.
  destruct (m log) as [log1 [[r cls]|a]]; [done|]. by apply Hk.
Qed.

Lemma spec_explain rule v w : eval_spec (explain rule v w) any.
Proof. done. Qed.

Lemma spec_reject {A} r cls (P : A → Prop) : is_rejection r = true → eval_spec (reject r cls) P.
Proof. intros H log. done. Qed.

Lemma spec_fence e v rule r cls :
  is_rejection r = true → eval_spec (fence e v rule r cls) any.
Proof.
  intros H log. unfold fence. destruct e as [e|]; [|done]. by case_bool_decide.
Qed.

(** Applies the rules along the structure of a computation. *)
Ltac spec_step :=
  lazymatch goal with
  | |- eval_spec (eval_bind _ _) _ => apply (spec_bind _ _ any); [|intros ? _]
  | |- eval_spec (if ?b then _ else _) _ => destruct b eqn:?
  | |- eval_spec (match ?x with _ => _ end) _ => destruct x eqn:?
  | |- eval_spec (explain _ _ _) _ => apply spec_explain
  | |- eval_spec (reject _ _) _ => apply spec_reject
  | |- eval_spec (fence _ _ _ _ _) _ => apply spec_fence
  | |- eval_spec (eval_ret _) _ => apply spec_ret
  end.
Ltac spec_steps := repeat spec_step; try done.

(** A degradation is one of the admission reasons. *)
Definition degrade_ok (d : option ReasonCode) : Prop :=
  match d with Some r => is_admission r = true | None => True end.

Lemma unreadable_rejection e r :
  is_rejection r = true → is_rejection (unreadable_reason e r) = true.
Proof. intros H. unfold unreadable_reason. by case_match. Qed.

Lemma spec_check_binding c request : eval_spec (check_binding c request) any.
Proof. unfold check_binding. spec_steps. Qed.

Lemma spec_resolve c request subject : eval_spec (resolve c request subject) any.
Proof.
  unfold resolve, resolve_serving, resolve_transfer, check_transfer_model, check_transfer_state.
  spec_steps; by apply unreadable_rejection.
Qed.

Lemma spec_classify c request resolved :
  eval_spec (classify c request resolved) (fun x => degrade_ok x.2).
Proof.
  unfold classify, classify_serving, classify_active, classify_transfer.
  destruct resolved as [record attempt|t]; [|spec_steps].
  spec_step; [by spec_steps|].
  eapply (spec_bind _ _ (fun x => degrade_ok x.2)); [|intros [cls d] Hd; spec_steps].
  spec_steps; simpl; case_match; done.
Qed.

Lemma spec_check_rule c cls : eval_spec (check_rule c cls) any.
Proof. unfold check_rule. spec_steps. Qed.

Lemma spec_check_topology c request rule cls now d :
  degrade_ok d → eval_spec (check_topology c request rule cls now d) degrade_ok.
Proof.
  intros Hd. unfold check_topology. spec_step; [|by spec_step]. spec_step; [by spec_steps|].
  eapply (spec_bind _ _ degrade_ok); [spec_steps; by case_match|intros d' Hd'; spec_steps].
Qed.

Lemma spec_check_slo request rule cls slo : eval_spec (check_slo request rule cls slo) any.
Proof. unfold check_slo. spec_steps. Qed.

Lemma spec_check_route c request rule cls x : eval_spec (check_route c request rule cls x) any.
Proof. unfold check_route. spec_steps. Qed.

Lemma spec_check_model c request rule cls x : eval_spec (check_model c request rule cls x) any.
Proof. unfold check_model. spec_steps; by apply unreadable_rejection. Qed.

Lemma spec_check_deadline rule cls deadline now d :
  degrade_ok d → eval_spec (check_deadline rule cls deadline now d) degrade_ok.
Proof. intros Hd. unfold check_deadline. spec_steps. Qed.

Lemma spec_admit c request now : eval_spec (admission c request now) (fun a => degrade_ok (ad_degrade a)).
Proof.
  unfold admission.
  eapply spec_bind; [apply spec_explain|intros _ _].
  eapply spec_bind; [apply spec_check_binding|intros subject _].
  eapply spec_bind; [apply spec_resolve|intros resolved _].
  eapply spec_bind; [apply spec_classify|intros x Hx].
  eapply spec_bind; [apply spec_check_rule|intros rule _].
  eapply spec_bind; [by apply spec_check_topology|intros d Hd].
  eapply spec_bind; [apply spec_check_slo|intros _ _].
  eapply spec_bind; [apply spec_check_route|intros _ _].
  eapply spec_bind; [apply spec_check_model|intros _ _].
  eapply spec_bind; [by apply spec_check_deadline|intros d' Hd']. by apply spec_ret.
Qed.

Lemma admit_rejection c request now log log' r cls :
  admission c request now log = (log', inl (r, cls)) → is_rejection r = true.
Proof. intros E. pose proof (spec_admit c request now log) as H. by rewrite E in H. Qed.

Lemma admit_degrade c request now log log' a :
  admission c request now log = (log', inr a) → degrade_ok (ad_degrade a).
Proof. intros E. pose proof (spec_admit c request now log) as H. by rewrite E in H. Qed.

Lemma defer_reason_deferral c request rule now :
  defer_reason c request rule now ≠ ReasonCode.Unknown →
  is_deferral (defer_reason c request rule now) = true.
Proof. unfold defer_reason. repeat case_match; done. Qed.

Lemma treatment_degrade request a log :
  degrade_ok (ad_degrade a) → degrade_ok (make_treatment request a log).1.2.
Proof.
  intros H. unfold make_treatment. destruct (_ && (_ <? _)); simpl; [|done].
  by destruct (ad_degrade a).
Qed.

Lemma treatment_class request a log :
  tt_traffic_class (make_treatment request a log).1.1 = ad_effective a.
Proof.
  unfold make_treatment. destruct (ad_resolved a), (bool_decide (ad_degrade a = _)), (_ && (_ <? _));
    cbn [fst]; by repeat case_bool_decide.
Qed.

(** ** The shape of a built decision *)

Lemma build_decision c request log outcome reason cls :
  let d := (build c request log outcome reason cls).1 in
  dec_outcome d = outcome ∧ dec_reason d = reason ∧
  dec_subject d = default empty_subject (tr_subject request) ∧
  dec_binding d = tr_binding request ∧
  dec_authority d = (mint_stamp_locked c).1 ∧
  (length (dec_explanation d) ≤ kMaxExplanationSteps)%nat.
Proof.
  unfold build. cbn [mint_stamp_locked]. case_match; simpl; split_and!; try done.
  all: rewrite length_take; lia.
Qed.

Section evaluation.
Context {HO : HashOrder}.

(** The four ways an evaluation ends. *)
Inductive evaluation (c : Coordinator) (request : TrafficRequest) (now : Z)
    : Decision * Coordinator → Prop :=
| EvRejected log reason cls :
    admission c request now [] = (log, inl (reason, cls)) →
    evaluation c request now (build c request log DecisionOutcome.Rejected reason cls)
| EvAdmitted log a :
    admission c request now [] = (log, inr a) →
    defer_reason c request (ad_rule a) now = ReasonCode.Unknown →
    evaluation c request now
      (admitted (clear_defer_locked c (ad_subject a) (ad_effective a)) request a false log)
| EvGuard log log' a count c1 :
    admission c request now [] = (log, inr a) →
    note_defer_locked c (ad_subject a) (ad_effective a) now = (count, c1) →
    pr_starvation_protected (ad_rule a) = true →
    starvation_exhausted (ad_rule a) count
      (first_defer c1 (defer_key (ad_subject a) (ad_effective a)) now) now = true →
    evaluation c request now
      (admitted (clear_defer_locked c1 (ad_subject a) (ad_effective a)) request a true log')
| EvDeferred log log' a count c1 reason :
    admission c request now [] = (log, inr a) →
    reason = defer_reason c request (ad_rule a) now → reason ≠ ReasonCode.Unknown →
    note_defer_locked c (ad_subject a) (ad_effective a) now = (count, c1) →
    (pr_starvation_protected (ad_rule a) = true →
     starvation_exhausted (ad_rule a) count
       (first_defer c1 (defer_key (ad_subject a) (ad_effective a)) now) now = false) →
    evaluation c request now (deferred c1 request a reason count now log').

Lemma evaluate_cases c request now : evaluation c request now (evaluate_locked c request now).
Proof.
  unfold evaluate_locked.
  destruct (admission c request now []) as [log [[reason cls]|a]] eqn:E; [by constructor|].
  case_bool_decide as Hu; [by apply EvAdmitted|].
  destruct (note_defer_locked _ _ _ _) as [count c1] eqn:Hn.
  destruct (pr_starvation_protected (ad_rule a)) eqn:Hp; cbn [andb].
  - destruct (starvation_exhausted _ _ _ _) eqn:Hs; [by eapply EvGuard|by eapply EvDeferred].
  - eapply EvDeferred; [done..|]. congruence.
Qed.

Lemma admitted_decision c request a g log :
  let d := (admitted c request a g log).1 in
  permits_traffic d = true ∧ dec_authority d = (mint_stamp_locked c).1 ∧
  dec_subject d = default empty_subject (tr_subject request) ∧
  dec_binding d = tr_binding request ∧
  (length (dec_explanation d) ≤ kMaxExplanationSteps)%nat ∧
  tt_traffic_class (dec_treatment d) = ad_effective a ∧
  dec_outcome d = (if g then DecisionOutcome.Allowed else
    match (make_treatment request a log).1.2 with
    | Some _ => DecisionOutcome.Degraded | None => DecisionOutcome.Allowed end) ∧
  dec_reason d = (if g then ReasonCode.AdmittedStarvationGuard else
    match (make_treatment request a log).1.2 with
    | Some r => r | None => ReasonCode.Admitted_ end).
Proof.
  unfold admitted. pose proof (treatment_class request a log) as Ht.
  destruct (make_treatment request a log) as [[t degrade] log1]. cbn [fst] in Ht.
  match goal with |- context [build ?c ?r ?l ?o ?re ?cl] =>
    pose proof (build_decision c r l o re cl) as H; destruct (build c r l o re cl) as [d c'] end.
  destruct H as (H1 & H2 & H3 & H4 & H5 & H6). simpl in *.
  unfold permits_traffic. simpl. rewrite H1. split_and!; try done.
  destruct g; [done|]. by destruct degrade.
Qed.

Lemma deferred_decision c request a reason count now log :
  let d := (deferred c request a reason count now log).1 in
  dec_outcome d = DecisionOutcome.Deferred ∧ dec_reason d = reason ∧
  dec_authority d = (mint_stamp_locked c).1 ∧
  dec_subject d = default empty_subject (tr_subject request) ∧
  dec_binding d = tr_binding request ∧
  (length (dec_explanation d) ≤ kMaxExplanationSteps)%nat ∧
  tt_traffic_class (dec_treatment d) = ad_effective a ∧
  tt_defer_count (dec_treatment d) = count.
Proof.
  unfold deferred.
  match goal with |- context [build ?c ?r ?l ?o ?re ?cl] =>
    pose proof (build_decision c r l o re cl) as H; destruct (build c r l o re cl) as [d c'] end.
  destruct H as (H1 & H2 & H3 & H4 & H5 & H6). simpl in *. split_and!; done.
Qed.

Lemma permitted_facts c request now :
  permits_traffic (evaluate_locked c request now).1 = true →
  ∃ a, authorised c request now a ∧
    dec_subject (evaluate_locked c request now).1 = ad_subject a ∧
    tt_traffic_class (dec_treatment (evaluate_locked c request now).1) = ad_effective a.
Proof.
  destruct (evaluate_cases c request now) as [log reason cls E|log a E _|log log' a count c1 E _ _ _
    |log log' a count c1 reason E _ _ _ _].
  - destruct (build_decision c request log DecisionOutcome.Rejected reason cls) as (H & _).
    unfold permits_traffic. by rewrite H.
  - intros _. apply admit_inr in E. exists a. split; [done|].
    destruct (admitted_decision (clear_defer_locked c (ad_subject a) (ad_effective a)) request a false log)
      as (_ & _ & -> & _ & _ & -> & _). by rewrite (au_subject _ _ _ _ E).
  - intros _. apply admit_inr in E. exists a. split; [done|].
    destruct (admitted_decision (clear_defer_locked c1 (ad_subject a) (ad_effective a)) request a true log')
      as (_ & _ & -> & _ & _ & -> & _). by rewrite (au_subject _ _ _ _ E).
  - destruct (deferred_decision c1 request a reason count now log') as (H & _).
    unfold permits_traffic. by rewrite H.
Qed.

End evaluation.

(** ** The shipped policy *)

(** Under the canonical policy no class with starvation protection is ever given a
    reason to defer, whatever the congestion, pressure and bulk bytes in flight. *)
Theorem canonical_policy_never_defers_protected c request cls now g :
  C_policy c = canonical_defaults g →
  pr_starvation_protected (policy_rule (C_policy c) cls) = true →
  defer_reason c request (policy_rule (C_policy c) cls) now = ReasonCode.Unknown.
Proof.
  intros -> Hp.
  assert (pr_yields_to_latency (policy_rule (canonical_defaults g) cls) = false ∧
          (pr_reserved_weight (policy_rule (canonical_defaults g) cls) ≟ 0) = false) as [H1 H2].
  { destruct cls; (discriminate Hp || split; reflexivity). }
  unfold defer_reason. by rewrite H1, H2, andb_false_r.
Qed.
