(* ===== verification/EvaluateState.v ===== *)
(** * What an evaluation changes

    An evaluation mints a stamp, keeps the deferral records and counts; it leaves
    every flow, transfer, registry and lifecycle alone. On top of that frame: the
    shape of every decision and the bounds of a treatment. *)

From S2P Require Import Prelude Ids Traffic Decision Policy Ledger LedgerEvolve Coordinator.
From S2P Require Import Evaluate EvaluateProps.

(** ** The frame *)

(** An attempt and a request with their decision counters blanked. *)
Definition blank_attempt (a : AttemptRecord) : AttemptRecord :=
  a <| at_decisions := 0 |> <| at_defers := 0 |> <| at_rejections := 0 |>.

Definition blank_counters (r : RequestRecord) : RequestRecord :=
  r <| rr_decisions := 0 |> <| rr_defers := 0 |> <| rr_rejections := 0 |>
    <| rr_attempts := blank_attempt <$> rr_attempts r |>.

Record ledger_frame (L L' : RequestLedger) : Prop := {
  lf_limits_kept : L_limits L' = L_limits L;
  lf_order_kept : L_terminal_order L' = L_terminal_order L;
  lf_flows_kept : L_flows L' = L_flows L;
  lf_index_kept : L_flows_by_request L' = L_flows_by_request L;
  lf_sequence_kept : L_next_flow_sequence L' = L_next_flow_sequence L;
  lf_requests_kept : blank_counters <$> L_requests L' = blank_counters <$> L_requests L;
}.

Record eval_frame (c c' : Coordinator) : Prop := {
  ef_config : C_config c' = C_config c;
  ef_epoch : C_epoch c' = C_epoch c;
  ef_incarnation : C_incarnation c' = C_incarnation c;
  ef_policy : C_policy c' = C_policy c;
  ef_topology : C_topology c' = C_topology c ∧ C_topology_present c' = C_topology_present c;
  ef_generations : C_models c' = C_models c ∧ C_states c' = C_states c;
  ef_contracts : C_slo_contracts c' = C_slo_contracts c ∧ C_route_decisions c' = C_route_decisions c;
  ef_transfers : C_transfers c' = C_transfers c ∧ C_transfers_by_request c' = C_transfers_by_request c;
  ef_flows : C_flows c' = C_flows c ∧ C_flows_by_request c' = C_flows_by_request c
    ∧ C_flows_by_transfer c' = C_flows_by_transfer c;
  ef_completions : C_completions c' = C_completions c ∧ C_completion_order c' = C_completion_order c;
  ef_counters : C_boot_count c' = C_boot_count c ∧ C_bulk_in_flight_bytes c' = C_bulk_in_flight_bytes c
    ∧ C_next_flow_sequence c' = C_next_flow_sequence c;
  ef_transfer_counters : C_transfers_started c' = C_transfers_started c
    ∧ C_transfers_completed c' = C_transfers_completed c
    ∧ C_transfers_refused c' = C_transfers_refused c;
  ef_ledger : ledger_frame (C_ledger c) (C_ledger c');
}.

#[global] Instance ledger_frame_preorder : PreOrder ledger_frame.
Proof. split; [by split|]. intros L1 L2 L3 [] []. split; congruence. Qed.

#[global] Instance eval_frame_preorder : PreOrder eval_frame.
Proof.
  split; [intros c; by split|]. intros c1 c2 c3 [] []. split; try congruence.
  all: try (destruct_and!; split_and!; congruence). by etrans.
Qed.

Lemma count_attempt_blank o a : blank_attempt (count_attempt_decision o a) = blank_attempt a.
Proof. by destruct o. Qed.

Lemma count_request_blank o r : blank_counters (count_request_decision o r) = blank_counters r.
Proof. by destruct o. Qed.

Lemma count_request_attempts o r : rr_attempts (count_request_decision o r) = rr_attempts r.
Proof. by destruct o. Qed.

Lemma set_attempt_blank r i e e' :
  rr_attempts r !! i = Some e → blank_attempt e' = blank_attempt e →
  blank_counters (set_attempt r i e') = blank_counters r.
Proof.
  intros He Hb. unfold blank_counters, set_attempt. simpl.
  rewrite list_fmap_insert, Hb, list_insert_id; [done|]. by rewrite list_lookup_fmap, He.
Qed.

Lemma record_decision_frame L id a t o reason b :
  ledger_frame L (record_decision L id a t o reason b).2.
Proof.
  unfold record_decision. destruct (L_requests L !! id) as [r|] eqn:Hr; [|done].
  cbn [snd]. split; try done. simpl. rewrite fmap_insert.
  match goal with |- <[_ := ?x]> _ = _ => assert (x = blank_counters r) as -> end.
  { destruct (find_attempt _ a) as [[i e]|] eqn:Hf.
    - rewrite (set_attempt_blank _ _ e).
      + apply count_request_blank.
      + by eapply find_attempt_lookup.
      + apply count_attempt_blank.
    - apply count_request_blank. }
  apply insert_id. by rewrite lookup_fmap, Hr.
Qed.

Lemma mint_frame c : eval_frame c (mint_stamp_locked c).2.
Proof. by split. Qed.

Lemma build_frame c request log o reason cls :
  eval_frame c (build c request log o reason cls).2.
Proof.
  unfold build. cbn [mint_stamp_locked].
  case_match; cbn [snd]; split; simpl; try done. apply record_decision_frame.
Qed.

Lemma build_sequence c request log o reason cls :
  C_authority_sequence (build c request log o reason cls).2 = advance (C_authority_sequence c).
Proof. unfold build. cbn [mint_stamp_locked]. by case_match. Qed.

Lemma drop_defer_frame c key r : eval_frame c (drop_defer c key r).
Proof. unfold drop_defer. by case_match; split. Qed.

Lemma drop_defer_sequence c key r :
  C_authority_sequence (drop_defer c key r) = C_authority_sequence c.
Proof. unfold drop_defer. by case_match. Qed.

(** Either nothing changed or one deferral record was dropped. *)
Ltac drop_cases :=
  repeat case_match; split;
  first [reflexivity | apply drop_defer_frame | apply drop_defer_sequence].

Lemma clear_defer_frame c subject cls :
  eval_frame c (clear_defer_locked c subject cls) ∧
  C_authority_sequence (clear_defer_locked c subject cls) = C_authority_sequence c.
Proof.
  unfold clear_defer_locked. drop_cases.
Qed.

Section order.
Context {HO : HashOrder}.

Lemma evict_defer_frame c :
  eval_frame c (evict_defer_records_locked c) ∧
  C_authority_sequence (evict_defer_records_locked c) = C_authority_sequence c.
Proof.
  unfold evict_defer_records_locked.
  drop_cases.
Qed.

Lemma note_defer_frame c subject cls now :
  eval_frame c (note_defer_locked c subject cls now).2 ∧
  C_authority_sequence (note_defer_locked c subject cls now).2 = C_authority_sequence c.
Proof.
  unfold note_defer_locked.
  set (c1 := match C_defers c !! _ with Some _ => _ | None => _ end).
  assert (eval_frame c c1 ∧ C_authority_sequence c1 = C_authority_sequence c) as [H1 <-].
  { unfold c1. drop_cases. }
  destruct (C_defers c1 !! _) as [r|]; cbn [snd].
  { split; [|done]. etrans; [exact H1|]. by split. }
  set (c2 := if _ <=? _ then _ else _).
  assert (eval_frame c1 c2 ∧ C_authority_sequence c2 = C_authority_sequence c1) as [H2 <-].
  { unfold c2. case_match; [apply evict_defer_frame|done]. }
  split; [|by case_match]. etrans; [exact H1|]. etrans; [exact H2|]. by case_match; split.
Qed.

Lemma admitted_frame c request a g log :
  eval_frame c (admitted c request a g log).2 ∧
  C_authority_sequence (admitted c request a g log).2 = advance (C_authority_sequence c).
Proof.
  unfold admitted. destruct (make_treatment request a log) as [[t d] l].
  match goal with |- context [build ?c ?r ?l ?o ?re ?cl] =>
    pose proof (build_frame c r l o re cl) as H1; pose proof (build_sequence c r l o re cl) as H2;
    destruct (build c r l o re cl) end. done.
Qed.

Lemma deferred_frame c request a reason count now log :
  eval_frame c (deferred c request a reason count now log).2 ∧
  C_authority_sequence (deferred c request a reason count now log).2 = advance (C_authority_sequence c).
Proof.
  unfold deferred.
  match goal with |- context [build ?c ?r ?l ?o ?re ?cl] =>
    pose proof (build_frame c r l o re cl) as H1; pose proof (build_sequence c r l o re cl) as H2;
    destruct (build c r l o re cl) end. done.
Qed.

Lemma evaluate_frame c request now :
  eval_frame c (evaluate_locked c request now).2 ∧
  C_authority_sequence (evaluate_locked c request now).2 = advance (C_authority_sequence c).
Proof.
  destruct (evaluate_cases c request now) as [log reason cls E|log a E _|log log' a count c1 E Hn _ _
    |log log' a count c1 reason E _ _ Hn _].
  - split; [apply build_frame|apply build_sequence].
  - destruct (clear_defer_frame c (ad_subject a) (ad_effective a)) as [H1 <-].
    destruct (admitted_frame (clear_defer_locked c (ad_subject a) (ad_effective a)) request a false log)
      as [H2 ->]. split; [by etrans|done].
  - destruct (note_defer_frame c (ad_subject a) (ad_effective a) now) as [H0 <-]. rewrite Hn in *. cbn [snd] in *.
    destruct (clear_defer_frame c1 (ad_subject a) (ad_effective a)) as [H1 <-].
    destruct (admitted_frame (clear_defer_locked c1 (ad_subject a) (ad_effective a)) request a true log')
      as [H2 ->]. split; [|done]. etrans; [exact H0|]. by etrans.
  - destruct (note_defer_frame c (ad_subject a) (ad_effective a) now) as [H0 <-]. rewrite Hn in *. cbn [snd] in *.
    destruct (deferred_frame c1 request a reason count now log') as [H2 ->].
    split; [by etrans|done].
Qed.

(** The stamp of the decision is the one the coordinator now carries. *)
Lemma evaluate_stamp c request now :
  dec_authority (evaluate_locked c request now).1 = current_stamp (evaluate_locked c request now).2.
Proof.
  destruct (evaluate_frame c request now) as [[_ E1 E2 E3 _ _ _ _ _ _ _ _ _] E4].
  unfold current_stamp. rewrite E1, E2, E3, E4.
  destruct (evaluate_cases c request now) as [log reason cls E|log a E _|log log' a count c1 E Hn _ _
    |log log' a count c1 reason E _ _ Hn _].
  - by destruct (build_decision c request log DecisionOutcome.Rejected reason cls) as (_&_&_&_&->&_).
  - destruct (admitted_decision (clear_defer_locked c (ad_subject a) (ad_effective a)) request a false log)
      as (_&->&_). destruct (clear_defer_frame c (ad_subject a) (ad_effective a)) as [[] H].
    unfold mint_stamp_locked, current_stamp. simpl. congruence.
  - destruct (admitted_decision (clear_defer_locked c1 (ad_subject a) (ad_effective a)) request a true log')
      as (_&->&_). destruct (clear_defer_frame c1 (ad_subject a) (ad_effective a)) as [[] H].
    destruct (note_defer_frame c (ad_subject a) (ad_effective a) now) as [[] H0]. rewrite Hn in *. cbn [snd] in *.
    unfold mint_stamp_locked, current_stamp. simpl in *. congruence.
  - destruct (deferred_decision c1 request a reason count now log') as (_&_&->&_).
    destruct (note_defer_frame c (ad_subject a) (ad_effective a) now) as [[] H0]. rewrite Hn in *. cbn [snd] in *.
    unfold mint_stamp_locked, current_stamp. simpl in *. congruence.
Qed.

(** C27: Every evaluation, on every branch, returns a decision whose reason belongs to
    the family of its outcome, whose subject and binding are the caller's, whose
    explanation has at most 24 steps, and whose stamp is the coordinator's authority
    after the sequence advanced by exactly one step. *)
Theorem decision_well_formed c request now :
  let '(d, c') := evaluate_locked c request now in
  match dec_outcome d with
  | DecisionOutcome.Allowed | DecisionOutcome.Degraded => is_admission (dec_reason d) = true
  | DecisionOutcome.Deferred => is_deferral (dec_reason d) = true
  | DecisionOutcome.Rejected => is_rejection (dec_reason d) = true
  | DecisionOutcome.Unknown | DecisionOutcome.Count => False
  end ∧
  dec_subject d = default empty_subject (tr_subject request) ∧ dec_binding d = tr_binding request ∧
  (length (dec_explanation d) ≤ kMaxExplanationSteps)%nat ∧
  dec_authority d = current_stamp c' ∧
  C_authority_sequence c' = advance (C_authority_sequence c).
Proof.
  pose proof (evaluate_stamp c request now) as Hs. destruct (evaluate_frame c request now) as [_ Hq].
  destruct (evaluate_cases c request now) as [log reason cls E|log a E _|log log' a count c1 E Hn _ _
    |log log' a count c1 reason E Er Hr Hn _].
  - pose proof (build_decision c request log DecisionOutcome.Rejected reason cls) as H.
    destruct (build _ _ _ _ _ _) as [d c']. simpl in *. destruct H as (-> & -> & ? & ? & ? & ?).
    split_and!; try done. by eapply admit_rejection.
  - match type of Hs with dec_authority (admitted ?c ?r ?a ?g ?l).1 = _ =>
      pose proof (admitted_decision c r a g l) as H; destruct (admitted c r a g l) as [d c'] end.
    simpl in *. destruct H as (_ & _ & ? & ? & ? & _ & -> & ->).
    pose proof (treatment_degrade request a log (admit_degrade _ _ _ _ _ _ E)) as Hd.
    destruct (make_treatment request a log) as [[t [r|]] l]; simpl in *; split_and!; done.
  - match type of Hs with dec_authority (admitted ?c ?r ?a ?g ?l).1 = _ =>
      pose proof (admitted_decision c r a g l) as H; destruct (admitted c r a g l) as [d c'] end.
    simpl in *. destruct H as (_ & _ & ? & ? & ? & _ & -> & ->). done.
  - match type of Hs with dec_authority (deferred ?c ?r ?a ?g ?n ?t ?l).1 = _ =>
      pose proof (deferred_decision c r a g n t l) as H; destruct (deferred c r a g n t l) as [d c'] end.
    simpl in *. destruct H as (-> & -> & ? & ? & ? & ? & _ & _). split_and!; try done.
    subst reason. by apply defer_reason_deferral.
Qed.

(** C28: Evaluating a request changes nothing but counters and deferral records: the
    configuration, identity, policy, registries, transfers, flows and the lifecycle,
    attempts and authority floor of every request are unchanged. *)
Theorem evaluation_changes_no_authority c request now :
  eval_frame c (evaluate_locked c request now).2.
Proof. apply evaluate_frame. Qed.
End order.

(** ** The treatment never exceeds the rule *)

Lemma max_integrity_ge a b :
  IntegrityClass.value a ≤ IntegrityClass.value (max_integrity a b) ∧
  IntegrityClass.value b ≤ IntegrityClass.value (max_integrity a b).
Proof. unfold max_integrity. case_match; bool_to_prop; lia. Qed.

Definition rule_weight_ok (rule : ClassPolicyRule) : Prop := 0 ≤ pr_reserved_weight rule.

(** The treatment of admitted traffic never exceeds its class rule: its reserved
    weight and priority are at most the rule's, its integrity is at least the rule's and
    at least what the transfer requires, and its burst and rate limits are the rule's.
    *)
Theorem treatment_within_rule request a log :
  rule_weight_ok (ad_rule a) →
  let t := (make_treatment request a log).1.1 in
  tt_traffic_class t = ad_effective a ∧
  tt_reserved_weight t ≤ pr_reserved_weight (ad_rule a) ∧
  PriorityClass.value (pr_priority (ad_rule a)) ≤ PriorityClass.value (tt_priority t) ∧
  IntegrityClass.value (pr_integrity (ad_rule a)) ≤ IntegrityClass.value (tt_integrity t) ∧
  (∀ x, ad_resolved a = RTransfer x →
     IntegrityClass.value (tx_required_integrity x) ≤ IntegrityClass.value (tt_integrity t)) ∧
  tt_max_burst_bytes t = pr_max_burst_bytes (ad_rule a) ∧
  tt_rate_limit_bytes_per_sec t = pr_rate_limit_bytes_per_sec (ad_rule a).
Proof.
  unfold rule_weight_ok. intros Hw. unfold make_treatment.
  destruct (ad_resolved a) as [r e|x] eqn:Hx; cbn zeta.
  - destruct (ad_degrade a ≟ _), (_ && (_ <? _)) eqn:Hl; cbn;
      destruct (bool_decide (_ = Some ReasonCode.AdmittedConservative)); cbn.
    all: cbn in Hl; bool_to_prop; split_and!; try done; try lia.
  - destruct (max_integrity_ge (pr_integrity (ad_rule a)) (tx_required_integrity x)) as [H1 H2].
    destruct (ad_degrade a ≟ _), (_ && (_ <? _)) eqn:Hl; cbn;
      destruct (bool_decide (_ = Some ReasonCode.AdmittedConservative)); cbn.
    all: cbn in Hl; bool_to_prop; split_and!; try done; try lia; intros ? [= <-]; done.
Qed.
