(* ===== verification/Deferral.v ===== *)
(** * Deferral records

    The streaming-pressure counter equals the number of protected deferral
    records, the record map stays within its ceiling, and traffic of a protected
    class cannot be deferred as often as its budget allows. *)

From S2P Require Import Prelude Ids Traffic Decision Policy Ledger LedgerEvolve Coordinator.
From S2P Require Import Evaluate EvaluateProps EvaluateState.

(** ** The invariant *)

Definition protected (m : gmap Z DeferRecord) : nat :=
  size (filter (fun kv : Z * DeferRecord => df_starvation_class kv.2 = true) m).

(** How many records the table may have: room is made for the record that is added,
    so that a limit of zero leaves one. *)
Definition defer_room (config : CoordinatorConfig) : Z := Z.max 1 (cl_max_defer_records (cf_limits config)).

Record defers_inv (c : Coordinator) : Prop := {
  di_limit : 0 ≤ cl_max_defer_records (cf_limits (C_config c)) < two32;
  di_size : size_of (C_defers c) ≤ defer_room (C_config c);
  di_pressure : C_streaming_deferrals c = Z.of_nat (protected (C_defers c));
}.

Lemma protected_insert m k d :
  m !! k = None →
  protected (<[k := d]> m) = (if df_starvation_class d then S (protected m) else protected m).
Proof.
  intros Hk. unfold protected. destruct (df_starvation_class d) eqn:E.
  - rewrite map_filter_insert_True by done. apply map_size_insert_None.
    rewrite map_lookup_filter. by rewrite Hk.
  - rewrite map_filter_insert_False by (simpl; congruence). by rewrite delete_id.
Qed.

Lemma protected_delete m k d :
  m !! k = Some d →
  protected m = (if df_starvation_class d then S (protected (delete k m)) else protected (delete k m)).
Proof.
  intros Hk. rewrite <- (insert_delete_id m k d Hk) at 1.
  by rewrite protected_insert by apply lookup_delete_eq.
Qed.

Lemma protected_update m k d d' :
  m !! k = Some d → df_starvation_class d' = df_starvation_class d →
  protected (<[k := d']> m) = protected m.
Proof.
  intros Hk E. rewrite (protected_delete m k d Hk), <- insert_delete_eq.
  rewrite protected_insert by apply lookup_delete_eq. by rewrite E.
Qed.

Lemma protected_le_size m : (protected m ≤ size m)%nat.
Proof. apply map_size_filter. Qed.

Lemma size_delete_Some (m : gmap Z DeferRecord) k d : m !! k = Some d → size m = S (size (delete k m)).
Proof.
  intros Hk. rewrite <- (insert_delete_id m k d Hk) at 1. apply map_size_insert_None, lookup_delete_eq.
Qed.

(** ** The operations on deferral records *)

Lemma drop_defer_inv c key d :
  defers_inv c → C_defers c !! key = Some d →
  defers_inv (drop_defer c key d) ∧
  size_of (C_defers (drop_defer c key d)) = size_of (C_defers c) - 1.
Proof.
  intros [Hl Hs Hp] Hk. pose proof (protected_delete _ _ _ Hk) as Hd.
  pose proof (size_delete_Some _ _ _ Hk) as Hz. pose proof (protected_le_size (C_defers c)) as Hle.
  unfold size_of, drop_defer, defer_room in *. rewrite Hp, Z.gtb_ltb.
  destruct (df_starvation_class d); cbn [andb].
  - destruct (Z.ltb_spec 0 (Z.of_nat (protected (C_defers c)))); [|lia].
    split; [split|]; simpl; unfold size_of, defer_room; simpl; [lia|lia| |lia]. rewrite sub32_small; lia.
  - split; [split|]; simpl; unfold size_of, defer_room; simpl; lia.
Qed.

Lemma clear_defer_inv c subject cls : defers_inv c → defers_inv (clear_defer_locked c subject cls).
Proof.
  intros Hi. unfold clear_defer_locked. destruct (C_defers c !! _) eqn:E; [|done].
  case_match; [done|]. by apply drop_defer_inv.
Qed.

(** The invariant only reads these fields. *)
Lemma defers_inv_view c c' :
  defers_inv c → C_config c' = C_config c → C_defers c' = C_defers c →
  C_streaming_deferrals c' = C_streaming_deferrals c → defers_inv c'.
Proof. intros [] E1 E2 E3. split; rewrite ?E1, ?E2, ?E3; done. Qed.

Section order.
Context {HO : HashOrder}.

(** Eviction makes room whatever entry the container lists first. *)
Lemma evict_defer_inv c :
  defers_inv c → size_of (C_defers c) ≠ 0 →
  defers_inv (evict_defer_records_locked c) ∧
  size_of (C_defers (evict_defer_records_locked c)) = size_of (C_defers c) - 1.
Proof.
  intros Hi Hne. unfold evict_defer_records_locked.
  destruct (defers_begin_present (C_defers c)) as (k & r & -> & Hk).
  { intros E. apply Hne. unfold size_of. by rewrite E, map_size_empty. }
  rewrite Hk. by apply drop_defer_inv.
Qed.

Lemma evict_defer_nothing c : size_of (C_defers c) = 0 → evict_defer_records_locked c = c.
Proof.
  intros Hz. assert (C_defers c = ∅) as E by (apply map_size_empty_iff; unfold size_of in Hz; lia).
  unfold evict_defer_records_locked. rewrite E. case_match; [|done]. by rewrite lookup_empty.
Qed.

(** Adding a record when there is room for it. *)
Lemma add_defer_inv c key d :
  defers_inv c → C_defers c !! key = None →
  size_of (C_defers c) < defer_room (C_config c) →
  defers_inv (let c := c <| C_defers := <[key := d]> (C_defers c) |> in
    if df_starvation_class d
    then c <| C_streaming_deferrals := add32 (C_streaming_deferrals c) 1 |> else c).
Proof.
  intros [Hl Hs Hp] Hk Hroom. pose proof (protected_le_size (C_defers c)) as Hle.
  unfold size_of, defer_room in *. pose proof (protected_insert (C_defers c) key d Hk) as Hi.
  cbn zeta. destruct (df_starvation_class d); split; simpl; unfold size_of, defer_room; simpl;
    rewrite ?map_size_insert_None by done; rewrite ?Hi; try lia.
  assert (1 < two32) by done. rewrite Hp, add32_small; lia.
Qed.

Lemma evict_defer_absent c key :
  C_defers c !! key = None → C_defers (evict_defer_records_locked c) !! key = None.
Proof.
  intros Hk. unfold evict_defer_records_locked. repeat case_match; try done.
  unfold drop_defer. case_match; simpl; rewrite lookup_delete; by case_decide.
Qed.

Lemma drop_defer_absent c key d : C_defers (drop_defer c key d) !! key = None.
Proof. unfold drop_defer. case_match; simpl; apply lookup_delete_eq. Qed.

(** The record an evaluation that defers leaves behind, and its count. *)
Definition previous_count (c : Coordinator) (subject : TrafficSubject) (cls : TrafficClass) : Z :=
  match C_defers c !! defer_key subject cls with
  | Some d => if defer_matches d subject then df_count d else 0
  | None => 0
  end.

Lemma matches_fresh subject cls n t1 t2 b :
  defer_matches (MkDefer (sub_kind subject) (sub_request subject) (sub_attempt subject)
    (sub_transfer subject) cls n t1 t2 b) subject = true.
Proof.
  unfold defer_matches. cbn [df_kind df_request df_attempt df_transfer].
  rewrite (bool_decide_true (sub_kind subject = sub_kind subject)) by done. cbn [negb].
  case_match; by rewrite !bool_decide_true.
Qed.

Lemma note_defer_inv c subject cls now :
  defers_inv c → defers_inv (note_defer_locked c subject cls now).2.
Proof.
  intros Hi. unfold note_defer_locked.
  set (key := defer_key subject cls).
  set (c1 := match C_defers c !! key with Some _ => _ | None => _ end).
  assert (defers_inv c1) as Hi1.
  { unfold c1. destruct (C_defers c !! key) eqn:E; [|done]. case_match; [done|]. by apply drop_defer_inv. }
  destruct (C_defers c1 !! key) as [d|] eqn:Hk.
  - cbn [snd]. destruct Hi1 as [Hl Hs Hp]. split; simpl.
    + done.
    + unfold size_of in *. by rewrite map_size_insert_Some by eauto.
    + by erewrite protected_update.
  - cbn [snd]. set (c2 := if _ <=? _ then _ else _).
    assert (defers_inv c2 ∧ C_defers c2 !! key = None ∧
      size_of (C_defers c2) < defer_room (C_config c2)) as (Hi2 & Hk2 & Hr).
    { unfold c2. pose proof (di_limit _ Hi1). pose proof (di_size _ Hi1). unfold defer_room in *.
      destruct (Z.leb_spec (cl_max_defer_records (cf_limits (C_config c1)))
        (size_of (C_defers c1))) as [Hfull|Hroom]; [|split_and!; done || lia].
      destruct (decide (size_of (C_defers c1) = 0)) as [Hz|Hz].
      { rewrite evict_defer_nothing by done. split_and!; done || lia. }
      destruct (evict_defer_inv c1 Hi1 Hz) as [H1 H2]. split_and!; [done|by apply evict_defer_absent|].
      destruct (evict_defer_frame c1) as [[-> _ _ _ _ _ _ _ _ _ _ _ _] _]. lia. }
    rewrite map_emplace_fresh by done.
    exact (add_defer_inv c2 key (MkDefer _ _ _ _ cls 1 now now _) Hi2 Hk2 Hr).
Qed.

(** The build step leaves the deferral records alone. *)
Lemma build_defers c request log o reason cls :
  let c' := (build c request log o reason cls).2 in
  C_defers c' = C_defers c ∧ C_streaming_deferrals c' = C_streaming_deferrals c
  ∧ C_config c' = C_config c.
Proof. unfold build. cbn [mint_stamp_locked]. by case_match. Qed.

Lemma admitted_defers c request a g log :
  let c' := (admitted c request a g log).2 in
  C_defers c' = C_defers c ∧ C_streaming_deferrals c' = C_streaming_deferrals c
  ∧ C_config c' = C_config c.
Proof.
  unfold admitted. destruct (make_treatment request a log) as [[t d] l].
  match goal with |- context [build ?c ?r ?l ?o ?re ?cl] =>
    pose proof (build_defers c r l o re cl) as H1; destruct (build c r l o re cl) end. exact H1.
Qed.

Lemma deferred_defers c request a reason count now log :
  let c' := (deferred c request a reason count now log).2 in
  C_defers c' = C_defers c ∧ C_streaming_deferrals c' = C_streaming_deferrals c
  ∧ C_config c' = C_config c.
Proof.
  unfold deferred.
  match goal with |- context [build ?c ?r ?l ?o ?re ?cl] =>
    pose proof (build_defers c r l o re cl) as H1; destruct (build c r l o re cl) end. exact H1.
Qed.

Lemma evaluate_defers_inv c request now :
  defers_inv c → defers_inv (evaluate_locked c request now).2.
Proof.
  intros Hi. destruct (evaluate_cases c request now) as [log reason cls E|log a E _
    |log log' a count c1 E Hn _ _|log log' a count c1 reason E _ _ Hn _].
  - destruct (build_defers c request log DecisionOutcome.Rejected reason cls) as (?&?&?).
    by eapply defers_inv_view.
  - destruct (admitted_defers (clear_defer_locked c (ad_subject a) (ad_effective a)) request a false log)
      as (?&?&?). eapply defers_inv_view; [|done..]. by apply clear_defer_inv.
  - destruct (admitted_defers (clear_defer_locked c1 (ad_subject a) (ad_effective a)) request a true log')
      as (?&?&?). eapply defers_inv_view; [|done..]. apply clear_defer_inv.
    pose proof (note_defer_inv c (ad_subject a) (ad_effective a) now Hi) as H'. by rewrite Hn in H'.
  - destruct (deferred_defers c1 request a reason count now log') as (?&?&?).
    eapply defers_inv_view; [|done..].
    pose proof (note_defer_inv c (ad_subject a) (ad_effective a) now Hi) as H'. by rewrite Hn in H'.
Qed.

(** ** The starvation bound *)

Lemma note_defer_count c subject cls now :
  let '(count, c1) := note_defer_locked c subject cls now in
  count = add32 (previous_count c subject cls) 1 ∧ previous_count c1 subject cls = count.
Proof.
  unfold note_defer_locked. set (key := defer_key subject cls).
  set (c1 := match C_defers c !! key with Some _ => _ | None => _ end).
  destruct (C_defers c1 !! key) as [d|] eqn:Hk.
  - assert (C_defers c !! key = Some d ∧ defer_matches d subject = true) as [Hc Hm].
    { unfold c1 in Hk. destruct (C_defers c !! key) as [d0|] eqn:E; [|congruence].
      destruct (defer_matches d0 subject) eqn:Em; [|by rewrite drop_defer_absent in Hk].
      rewrite E in Hk. by simplify_eq. }
    unfold previous_count. fold key. rewrite Hc, Hm. split; [done|].
    cbn [C_defers setter C_set_defers]. rewrite lookup_insert_eq.
    change (defer_matches (d <| df_count := add32 (df_count d) 1 |> <| df_last_defer_nanos := now |>)
              subject) with (defer_matches d subject). by rewrite Hm.
  - set (c2 := if _ <=? _ then _ else _).
    assert (C_defers c2 !! key = None) as Hk2
      by (unfold c2; case_match; [by apply evict_defer_absent|done]).
    split.
    + unfold previous_count. fold key. destruct (C_defers c !! key) as [d|] eqn:E; [|done].
      unfold c1 in Hk. destruct (defer_matches d subject); [congruence|done].
    + rewrite map_emplace_fresh by done. unfold previous_count. fold key.
      match goal with |- context [C_defers (if ?b then _ else _) !! _] => destruct b end;
        cbn [C_defers setter C_set_defers C_set_streaming_deferrals];
        rewrite lookup_insert_eq, matches_fresh; done.
Qed.

(** One deferred evaluation of a protected class: the count it reports is one
    more than before, is below the budget, and is what the record now holds. *)
Lemma deferred_step c request now subject cls :
  let '(d, c') := evaluate_locked c request now in
  tr_subject request = Some subject →
  dec_outcome d = DecisionOutcome.Deferred → tt_traffic_class (dec_treatment d) = cls →
  pr_starvation_protected (policy_rule (C_policy c) cls) = true →
  0 < pr_max_defer_count (policy_rule (C_policy c) cls) →
  tt_defer_count (dec_treatment d) = add32 (previous_count c subject cls) 1 ∧
  tt_defer_count (dec_treatment d) < pr_max_defer_count (policy_rule (C_policy c) cls) ∧
  previous_count c' subject cls = tt_defer_count (dec_treatment d).
Proof.
  destruct (evaluate_cases c request now) as [log reason k E|log a E _|log log' a count c1 E Hn _ _
    |log log' a count c1 reason E Er Hr Hn Hg].
  - pose proof (build_decision c request log DecisionOutcome.Rejected reason k) as H.
    destruct (build _ _ _ _ _ _) as [d c']. intros _ Hd. destruct H as (H & _). simpl in H. congruence.
  - match goal with |- context [admitted ?c ?r ?a ?g ?l] =>
      pose proof (admitted_decision c r a g l) as H; destruct (admitted c r a g l) as [d c'] end.
    destruct H as (H & _). intros _ Hd. unfold permits_traffic in H. simpl in H. by rewrite Hd in H.
  - match goal with |- context [admitted ?c ?r ?a ?g ?l] =>
      pose proof (admitted_decision c r a g l) as H; destruct (admitted c r a g l) as [d c'] end.
    destruct H as (H & _). intros _ Hd. unfold permits_traffic in H. simpl in H. by rewrite Hd in H.
  - pose proof (deferred_decision c1 request a reason count now log') as H.
    pose proof (deferred_defers c1 request a reason count now log') as (Hdf & _ & _).
    destruct (deferred c1 request a reason count now log') as [d c']. simpl in *.
    destruct H as (_ & _ & _ & _ & _ & _ & Hcls & Hcnt). intros Hs _ <- Hp Hmax.
    apply admit_inr in E. pose proof (au_subject _ _ _ _ E) as Hs'. rewrite Hs in Hs'. injection Hs' as ->.
    pose proof (au_rule _ _ _ _ E) as Hrule. rewrite Hcls in *. rewrite Hcnt.
    pose proof (note_defer_count c (ad_subject a) (ad_effective a) now) as Hnc. rewrite Hn in Hnc.
    destruct Hnc as [Hc1 Hc2]. split_and!; [done| |].
    + rewrite Hrule in Hg. specialize (Hg Hp). unfold starvation_exhausted in Hg.
      apply orb_false_iff in Hg as [Hg _]. rewrite Z.gtb_ltb in Hg.
      apply andb_false_iff in Hg as [?|?]; bool_to_prop; lia.
    + unfold previous_count in *. by rewrite Hdf.
Qed.

(** Evaluating the same request again and again. *)
Fixpoint evaluate_all (c : Coordinator) (request : TrafficRequest) (nows : list Z)
    : list Decision * Coordinator :=
  match nows with
  | [] => ([], c)
  | now :: rest =>
      let '(d, c) := evaluate_locked c request now in
      let '(ds, c) := evaluate_all c request rest in
      (d :: ds, c)
  end.

Definition deferred_as (cls : TrafficClass) (d : Decision) : Prop :=
  dec_outcome d = DecisionOutcome.Deferred ∧ tt_traffic_class (dec_treatment d) = cls.

(** A run of deferrals raises the count by its length and stays below the budget. *)
Lemma starvation_count nows : ∀ c request subject cls,
  tr_subject request = Some subject →
  pr_starvation_protected (policy_rule (C_policy c) cls) = true →
  0 < pr_max_defer_count (policy_rule (C_policy c) cls) < two32 →
  0 ≤ previous_count c subject cls < two32 - 1 →
  Forall (deferred_as cls) (evaluate_all c request nows).1 →
  let c' := (evaluate_all c request nows).2 in
  C_policy c' = C_policy c ∧
  previous_count c' subject cls = previous_count c subject cls + Z.of_nat (length nows) ∧
  (nows ≠ [] → previous_count c' subject cls < pr_max_defer_count (policy_rule (C_policy c) cls)).
Proof.
  induction nows as [|now rest IH]; intros c request subject cls Hs Hp Hm Hc Hall; [simpl; split_and!; done || lia|].
  cbn [evaluate_all] in *.
  pose proof (deferred_step c request now subject cls) as Hstep.
  destruct (evaluate_frame c request now) as [Hf _].
  destruct (evaluate_locked c request now) as [d c'] eqn:Ev. cbn [snd] in Hf.
  pose proof (IH c' request subject cls) as IH'.
  destruct (evaluate_all c' request rest) as [ds c''] eqn:Er. cbn [fst snd] in *.
  apply Forall_cons in Hall as [[Hd Hcls] Hrest].
  destruct (Hstep Hs Hd Hcls Hp) as (H1 & H2 & H3); [lia|].
  rewrite add32_small in H1 by lia.
  rewrite (ef_policy _ _ Hf), H3, H1 in IH'. destruct (IH' Hs Hp Hm) as (E1 & E2 & E3); [lia|done|].
  simpl length. split_and!; [done|lia|]. intros _. destruct rest; [simpl in E2; lia|by apply E3].
Qed.

(** An evaluation that passes the checks, at a count one below the budget of its
    protected class, permits the traffic. *)
Lemma exhausted_budget_permits c request subject cls now log a :
  tr_subject request = Some subject →
  pr_starvation_protected (policy_rule (C_policy c) cls) = true →
  0 < pr_max_defer_count (policy_rule (C_policy c) cls) →
  0 ≤ previous_count c subject cls < two32 - 1 →
  pr_max_defer_count (policy_rule (C_policy c) cls) ≤ previous_count c subject cls + 1 →
  admission c request now [] = (log, inr a) → ad_effective a = cls →
  permits_traffic (evaluate_locked c request now).1 = true.
Proof.
  intros Hs Hp Hm Hc Hb Ha He. pose proof (deferred_step c request now subject cls) as Hstep.
  destruct (evaluate_cases c request now) as [log0 reason k E|log0 a0 E _|log0 log' a0 count c1 E Hn _ _
    |log0 log' a0 count c1 reason E Er Hr Hn Hg]; rewrite Ha in E; simplify_eq.
  - by destruct (admitted_decision (clear_defer_locked c (ad_subject a0) (ad_effective a0)) request a0 false log0) as [? _].
  - by destruct (admitted_decision (clear_defer_locked c1 (ad_subject a0) (ad_effective a0)) request a0 true log') as [? _].
  - pose proof (deferred_decision c1 request a0 (defer_reason c request (ad_rule a0) now) count now log')
      as (Ho & _ & _ & _ & _ & _ & Hk & _).
    destruct (deferred c1 request a0 _ count now log') as [d c']. cbn [fst] in *.
    destruct (Hstep Hs Ho Hk Hp Hm) as (H1 & H2 & _). rewrite add32_small in H1 by lia. lia.
Qed.

(** C9: Traffic of a starvation-protected class is not deferred forever. With a budget
    max_defer_count between 1 and 2^32 - 1 and a recorded count below 2^32 - 1, where
    the 32-bit counter would wrap, consecutive evaluations of one request, at any clock
    values, are deferrals of that class only while the count they reach stays below the
    budget; and the evaluation at which it would reach the budget permits the traffic
    whenever it passes the authority checks with that class. This is one deferral less
    than the documents promise. *)
Theorem protected_traffic_is_not_starved c request subject cls nows :
  let limit := pr_max_defer_count (policy_rule (C_policy c) cls) in
  let decisions := (evaluate_all c request nows).1 in
  let c' := (evaluate_all c request nows).2 in
  tr_subject request = Some subject →
  pr_starvation_protected (policy_rule (C_policy c) cls) = true → 0 < limit < two32 →
  0 ≤ previous_count c subject cls < two32 - 1 →
  Forall (deferred_as cls) decisions →
  (nows ≠ [] → previous_count c subject cls + Z.of_nat (length nows) < limit) ∧
  (previous_count c subject cls + Z.of_nat (length nows) + 1 = limit →
   ∀ now log a, admission c' request now [] = (log, inr a) → ad_effective a = cls →
     permits_traffic (evaluate_locked c' request now).1 = true).
Proof.
  intros limit decisions c' Hs Hp Hm Hc Hall.
  destruct (starvation_count nows c request subject cls Hs Hp Hm Hc Hall) as (Ep & Ec & Hlt).
  fold c' in Ep, Ec, Hlt. fold limit in Hlt. split; [intros Hn; specialize (Hlt Hn); lia|].
  intros Hlim now log a. apply (exhausted_budget_permits c' request subject cls now log a); rewrite ?Ep; fold limit; done || lia.
Qed.
End order.
