(* ===== verification/FlowsProps.v ===== *)
(** * A decision just taken is valid

    The state an evaluation leaves differs from the one it found in counters
    only, so that the checks of [validate_decision_locked] repeat what the
    evaluation established. *)

From S2P Require Import Prelude Ids Traffic Decision Policy Ledger LedgerInv LedgerRun.
From S2P Require Import LedgerEvolve Coordinator Evaluate EvaluateProps EvaluateState Flows.

Lemma frame_record L L' id r :
  ledger_frame L L' → L_requests L !! id = Some r →
  ∃ r', L_requests L' !! id = Some r' ∧ blank_counters r' = blank_counters r.
Proof.
  intros [_ _ _ _ _ H] Hr. assert ((blank_counters <$> L_requests L') !! id = Some (blank_counters r)) as E
    by (by rewrite H, lookup_fmap, Hr).
  rewrite lookup_fmap in E. apply fmap_Some in E as (r' & ? & ?). eauto.
Qed.

(** What the counters do not touch. *)
Lemma blank_fields r r' :
  blank_counters r' = blank_counters r →
  rr_lifecycle r' = rr_lifecycle r ∧ rr_requires_revalidation r' = rr_requires_revalidation r ∧
  rr_current_attempt r' = rr_current_attempt r ∧ rr_authority_floor r' = rr_authority_floor r ∧
  rr_generation r' = rr_generation r ∧ rr_active_flows r' = rr_active_flows r.
Proof. unfold blank_counters. intros E. destruct r, r'. simpl in *. by simplify_eq. Qed.

Lemma advance_small g : 0 ≤ g < two64 - 1 → advance g = g + 1.
Proof.
  intros H. unfold advance, is_unset. destruct (Z.eqb_spec g 0); [lia|].
  apply next_small. unfold is_u64. lia.
Qed.

(** No live request carries an authority floor: only a cancellation raises it. *)
Definition unfenced (L : RequestLedger) : Prop :=
  ∀ id r, L_requests L !! id = Some r → request_is_terminal (rr_lifecycle r) = false →
    rr_authority_floor r = 0.

Record booted (c : Coordinator) : Prop := {
  bo_epoch : C_epoch c ≠ 0;
  bo_incarnation : C_incarnation c ≠ nil_id;
  bo_sequence : 0 ≤ C_authority_sequence c < two64 - 1;
}.

Section order.
Context {HO : HashOrder}.

Lemma permitted_validates c request now :
  booted c → unfenced (C_ledger c) →
  permits_traffic (evaluate_locked c request now).1 = true →
  validate_decision_locked (evaluate_locked c request now).2 (evaluate_locked c request now).1
    = Success tt.
Proof.
  intros [He Hi Hs] Hfl Hp. destruct (permitted_facts c request now Hp) as (a & Ha & Hsub & _).
  destruct (evaluate_frame c request now) as [Hf Hseq].
  pose proof (evaluate_stamp c request now) as Hst.
  destruct (evaluate_locked c request now) as [d c']. cbn [fst snd] in *.
  rewrite advance_small in Hseq by done.
  unfold validate_decision_locked.
  rewrite (proj2 (validate_authority_current _ _ _ _)).
  2: { rewrite Hst. unfold current_stamp. simpl. rewrite (ef_epoch _ _ Hf), (ef_incarnation _ _ Hf), Hseq.
       split_and!; try done. lia. }
  rewrite Hp. cbn [negb]. pose proof (au_resolved _ _ _ _ Ha) as Hr. rewrite Hsub.
  unfold resolved_authorised in Hr. destruct (ad_resolved a) as [record attempt|t].
  - destruct Hr as [-> [Hrec Hlive Hrev _ Hcur0 _]]. unfold validate_serving, snapshot_request. rewrite Hsub.
    destruct (frame_record _ _ _ _ (ef_ledger _ _ Hf) Hrec) as (r' & -> & Hb).
    destruct (blank_fields _ _ Hb) as (-> & -> & Hcur & -> & _).
    rewrite Hlive, Hrev.
    rewrite bool_decide_false by (intros E; by rewrite E in Hlive).
    unfold is_current_attempt in *. rewrite Hcur, Hcur0. cbn [negb].
    rewrite Hst. unfold current_stamp. cbn [st_sequence]. rewrite Hseq.
    pose proof (Hfl _ _ Hrec Hlive). destruct (Z.leb_spec (C_authority_sequence c + 1) (rr_authority_floor record)); [lia|].
    by rewrite andb_false_r.
  - destruct Hr as [-> [Hrec Hopen _ Hmod Hstt _ _]]. unfold validate_transfer. rewrite Hsub.
    destruct (ef_transfers _ _ Hf) as [-> _]. rewrite Hrec, Hopen.
    destruct (ef_generations _ _ Hf) as [Em Es].
    unfold require_model_generation_locked, require_state_generation_locked in *. rewrite Em, Es, Hstt.
    rewrite (bool_decide_true (tx_state_generation t = _)) by done.
    destruct (decide (tx_model_hash t = 0)) as [E|E].
    + by rewrite (bool_decide_true (tx_model_hash t = 0)).
    + rewrite (bool_decide_false (tx_model_hash t = 0)) by done.
      rewrite Hmod by done. by rewrite bool_decide_true.
Qed.
End order.

