(* ===== verification/CoordRun.v ===== *)
(** * Histories of the coordinator refine histories of its ledger

    The public operations of [Coordinator] as one type of commands. Each of them
    acts on the ledger it owns as a finite sequence of the ledger's own public
    operations, listed by [ledger_calls], so that what holds after every ledger
    history holds of the coordinator's ledger after every coordinator history. *)

From S2P Require Import Prelude Ids Traffic Decision Policy Ledger LedgerInv LedgerRun.
From S2P Require Import LedgerEvolve Coordinator Restore Evaluate EvaluateProps EvaluateState Deferral.
From S2P Require Import Flows FlowsProps.

(** ** Commands *)

Inductive CoordOp : Type :=
| CBootFresh (draws : Z * Z)
| CBootFrom (state : PersistedCoordinatorState) (draws : Z * Z)
| CApplyPolicy (policy : PolicyConfig)
| CPublishTopology (evidence : TopologyEvidence) (now : Z)
| CRegisterSlo (request : RequestId) (budget deadline share : Z)
| CIssueRoute (request : RequestId) (attempt : AttemptId) (target : Z) (lateral handoff : bool)
| CSetModel (hash : Z) (expected : option Z)
| CRevalidateModel (hash : Z)
| CAdvanceState (hash : Z) (expected : option Z)
| CRevalidateState (hash : Z)
| CRegisterRequest (request : RequestId) (now : Z)
| CRegisterAttempt (request : RequestId) (attempt : AttemptId) (hash now : Z)
| CRevalidateRequest (request : RequestId) (attempt : AttemptId) (now : Z)
| CAdvanceStage (request : RequestId) (attempt : AttemptId) (target : ServingStage) (now : Z)
| CCancel (request : RequestId) (reason : ReasonCode) (now : Z)
| CFail (request : RequestId) (attempt : AttemptId) (reason : ReasonCode) (now : Z)
| CReplace (request : RequestId) (superseded replacement : AttemptId) (hash now : Z)
| CRegisterTransfer (g : TransferRegistration) (now : Z)
| CAuthorize (order : HashOrder) (request : TrafficRequest) (now now_eval : Z)
| CStart (id : StateTransferId) (authorization : TransferAuthorization)
| CComplete (id : StateTransferId) (verified : Z)
| CAbandon (id : StateTransferId) (reason : ReasonCode)
| CEvaluate (order : HashOrder) (request : TrafficRequest) (now : Z)
| COpenFlow (decision : Decision) (declared now : Z)
| CReleaseFlow (flow : FlowId)
| CRecordBytes (flow : FlowId) (bytes : Z) (inbound : bool)
| CPublish (p : CompletionPublication) (now : Z).

Definition apply_cop (c : Coordinator) (op : CoordOp) : Coordinator :=
  match op with
  | CBootFresh draws => (boot_fresh c draws).2
  | CBootFrom state draws => (boot_from c state draws).2
  | CApplyPolicy policy => (apply_policy c policy).2
  | CPublishTopology evidence now => (publish_topology c evidence now).2
  | CRegisterSlo request budget deadline share =>
      (register_slo_contract c request budget deadline share).2
  | CIssueRoute request attempt target lateral handoff =>
      (issue_route_decision c request attempt target lateral handoff).2
  | CSetModel hash expected => (set_model_generation c hash expected).2
  | CRevalidateModel hash => (revalidate_model_generation c hash).2
  | CAdvanceState hash expected => (advance_state_generation c hash expected).2
  | CRevalidateState hash => (revalidate_state_generation c hash).2
  | CRegisterRequest request now => (coord_register_request c request now).2
  | CRegisterAttempt request attempt hash now => (coord_register_attempt c request attempt hash now).2
  | CRevalidateRequest request attempt now => (coord_revalidate_request c request attempt now).2
  | CAdvanceStage request attempt target now => (coord_advance_stage c request attempt target now).2
  | CCancel request reason now => (coord_cancel_request c request reason now).2
  | CFail request attempt reason now => (coord_fail_attempt c request attempt reason now).2
  | CReplace request superseded replacement hash now =>
      (coord_replace_attempt c request superseded replacement hash now).2
  | CRegisterTransfer g now => (register_transfer c g now).2
  | CAuthorize order request now now_eval => (authorize_transfer c request now now_eval).2
  | CStart id authorization => (start_transfer c id authorization).2
  | CComplete id verified => (complete_transfer c id verified).2
  | CAbandon id reason => (abandon_transfer c id reason).2
  | CEvaluate order request now => (evaluate_locked c request now).2
  | COpenFlow decision declared now => (open_flow_locked c decision declared now).2
  | CReleaseFlow flow => (coord_release_flow c flow).2
  | CRecordBytes flow bytes inbound => (coord_record_flow_bytes c flow bytes inbound).2
  | CPublish p now => (coord_publish_completion c p now).2
  end.

Definition coord_run (c : Coordinator) (ops : list CoordOp) : Coordinator := foldl apply_cop c ops.

(** Arguments the source's types constrain: restored attempt arrays. *)
Definition cop_typed (op : CoordOp) : Prop :=
  match op with
  | CBootFrom state _ =>
      Forall record_typed (ps_terminal_requests state) ∧
      Forall record_typed (ps_interrupted_requests state)
  | _ => True
  end.

(** ** The ledger calls of a command *)

(** Releasing a flow reaches the ledger when the flow serves a request. *)
Definition flow_release (f : FlowRecord) : list LedgerOp :=
  if is_nil (fl_request f) then [] else [OpReleaseFlow (fl_id f)].

(** Releasing the listed flows of a table, each at most once. *)
Fixpoint releases (flows : gmap FlowId FlowRecord) (victims : list FlowId) : list LedgerOp :=
  match victims with
  | [] => []
  | id :: rest =>
      match flows !! id with
      | Some f => flow_release f ++ releases (delete (fl_id f) flows) rest
      | None => releases flows rest
      end
  end.

(** The flow a transfer has. *)
Definition flow_of_transfer (c : Coordinator) (id : StateTransferId) : option FlowId :=
  t ← C_transfers c !! id; if is_nil (tx_flow t) then None else Some (tx_flow t).

(** The flows that end with a request: its own and those of the transfers it owns. *)
Definition request_victims (c : Coordinator) (request : RequestId) : list FlowId :=
  mm_range (C_flows_by_request c) request
  ++ omap (flow_of_transfer c) (mm_range (C_transfers_by_request c) request).

Definition request_releases (c : Coordinator) (request : RequestId) : list LedgerOp :=
  if is_nil request then [] else releases (C_flows c) (request_victims c request).

Definition transfer_releases (c : Coordinator) (t : StateTransferId) : list LedgerOp :=
  if is_nil t then [] else releases (C_flows c) (mm_range (C_flows_by_transfer c) t).

(** The class a decision is accounted under. *)
Definition accounted_class (c : Coordinator) (request : TrafficRequest) (now : Z) : TrafficClass :=
  match (admission c request now []).2 with inl (_, cls) => cls | inr a => ad_effective a end.

(** A decision on a known request is recorded there, with its outcome and reason. *)
Definition decision_calls {HO : HashOrder} (c : Coordinator) (request : TrafficRequest) (now : Z)
    : list LedgerOp :=
  let subject := default empty_subject (tr_subject request) in
  let d := (evaluate_locked c request now).1 in
  if (sub_kind subject ≟ SubjectKind.Serving) && contains (C_ledger c) (sub_request subject)
  then [OpRecordDecision (sub_request subject) (sub_attempt subject) (accounted_class c request now)
          (dec_outcome d) (dec_reason d) (tr_payload_bytes request)]
  else [].

(** Whether the coordinator lets a flow of that size be opened for a decision. *)
Definition flow_admissible (c : Coordinator) (d : Decision) (bytes : Z) : bool :=
  ok (validate_decision_locked c d)
  && (bytes <=? cl_max_single_payload_bytes (cf_limits (C_config c)))
  && negb (pr_yields_to_latency (policy_rule (C_policy c) (tt_traffic_class (dec_treatment d)))
           && (0 <? pc_bulk_in_flight_cap_bytes (C_policy c))
           && (pc_bulk_in_flight_cap_bytes (C_policy c) <? add64 (C_bulk_in_flight_bytes c) bytes)).

Definition open_calls (c : Coordinator) (d : Decision) (bytes now : Z) : list LedgerOp :=
  if flow_admissible c d bytes && (sub_kind (dec_subject d) ≟ SubjectKind.Serving)
  then [OpOpenFlow (sub_request (dec_subject d)) (sub_attempt (dec_subject d))
          (tt_traffic_class (dec_treatment d)) bytes now]
  else [].

(** An authorisation evaluates the transfer and then opens its flow, or releases the
    flows of a transfer that is refused. *)
Definition authorize_calls {HO : HashOrder} (c : Coordinator) (request : TrafficRequest) (now now_eval : Z)
    : list LedgerOp :=
  match tr_subject request with
  | Some subject =>
      if sub_kind subject ≟ SubjectKind.Transfer then
        let '(d, c1) := evaluate_locked c request now_eval in
        decision_calls c request now_eval
        ++ match C_transfers c1 !! sub_transfer subject with
           | Some t => if permits_traffic d then open_calls c1 d (tx_payload_bytes t) now
                       else transfer_releases c1 (sub_transfer subject)
           | None => []
           end
      else []
  | None => []
  end.

(** The calls a command makes on the ledger, in their order. *)
Definition ledger_calls (c : Coordinator) (op : CoordOp) : list LedgerOp :=
  let L := C_ledger c in
  match op with
  | CBootFresh _ => [OpClear]
  | CBootFrom state _ =>
      OpClear :: (if ok (validate_restored_state_locked c state)
                  then OpRestore <$> ps_terminal_requests state ++ ps_interrupted_requests state
                  else [OpClear])
  | CRegisterRequest request now => [OpRegisterRequest request now]
  | CRegisterAttempt request attempt hash now =>
      match resolve_model c hash with
      | Success generation => [OpRegisterAttempt request attempt hash generation 0 now]
      | Failure _ => []
      end
  | CRevalidateRequest request attempt now => [OpRevalidate request attempt now]
  | CAdvanceStage request attempt target now => [OpAdvanceStage request attempt target now]
  | CCancel request reason now =>
      let sequence := advance (C_authority_sequence c) in
      OpCancel request reason sequence now
      :: (if ok (cancel_request L request reason sequence now).1 then request_releases c request else [])
  | CFail request attempt reason now =>
      OpFail request attempt reason now
      :: match (fail_attempt L request attempt reason now).1 with
         | Some (Failure _) => []
         | _ => request_releases c request
         end
  | CReplace request superseded replacement hash now =>
      match resolve_model c hash with
      | Success generation =>
          OpSupersede request superseded replacement now
          :: (if ok (supersede_attempt L request superseded replacement now).1
              then request_releases c request ++ [OpSetModel request replacement hash generation] else [])
      | Failure _ => []
      end
  | CAuthorize order request now now_eval => authorize_calls c request now now_eval
  | CComplete id _ =>
      match C_transfers c !! id with
      | Some t => if (tx_state t ≟ TransferState.Authorized) || (tx_state t ≟ TransferState.InProgress)
                  then transfer_releases c id else []
      | None => []
      end
  | CAbandon id _ =>
      match C_transfers c !! id with
      | Some t => if tx_state t ≟ TransferState.Completed then [] else transfer_releases c id
      | None => []
      end
  | CEvaluate order request now => decision_calls c request now
  | COpenFlow decision declared now => open_calls c decision declared now
  | CReleaseFlow flow => match C_flows c !! flow with Some f => flow_release f | None => [] end
  | CRecordBytes flow bytes inbound =>
      match C_flows c !! flow with
      | Some f => match checked_add (fl_observed_bytes f) bytes with
                  | Some _ => if is_nil (fl_request f) then [] else [OpRecordBytes flow bytes inbound]
                  | None => []
                  end
      | None => []
      end
  | CPublish p now =>
      OpPublish p now
      :: match (publish_completion L p now).1 with
         | Success outcome => if po_disposition outcome ≟ Disposition.Committed
                              then request_releases c (cp_request p) else []
         | Failure _ => []
         end
  | CApplyPolicy _ | CPublishTopology _ _ | CRegisterSlo _ _ _ _ | CIssueRoute _ _ _ _ _ | CSetModel _ _
  | CRevalidateModel _ | CAdvanceState _ _ | CRevalidateState _ | CRegisterTransfer _ _ | CStart _ _ => []
  end.

(** The calls of a history. *)
Fixpoint history_calls (c : Coordinator) (ops : list CoordOp) : list LedgerOp :=
  match ops with
  | [] => []
  | op :: rest => ledger_calls c op ++ history_calls (apply_cop c op) rest
  end.

(** ** What leaves the ledger alone *)

Lemma run_one L op : run L [op] = apply_op L op.
Proof. reflexivity. Qed.

Lemma run_cons L op ops : run L (op :: ops) = run (apply_op L op) ops.
Proof. reflexivity. Qed.

Lemma store_flow_ledger f c : C_ledger (store_flow f c) = C_ledger c.
Proof. unfold store_flow. repeat case_match; done. Qed.

Lemma drop_defer_ledger c k r : C_ledger (drop_defer c k r) = C_ledger c.
Proof. unfold drop_defer. by case_match. Qed.

Lemma clear_defer_ledger c s cls : C_ledger (clear_defer_locked c s cls) = C_ledger c.
Proof. unfold clear_defer_locked. repeat case_match; auto using drop_defer_ledger. Qed.

Lemma evict_defer_ledger {HO : HashOrder} c : C_ledger (evict_defer_records_locked c) = C_ledger c.
Proof. unfold evict_defer_records_locked. repeat case_match; auto using drop_defer_ledger. Qed.

Lemma note_defer_ledger {HO : HashOrder} c s cls now :
  C_ledger (note_defer_locked c s cls now).2 = C_ledger c.
Proof.
  unfold note_defer_locked.
  set (c1 := match C_defers c !! _ with Some _ => _ | None => _ end).
  assert (C_ledger c1 = C_ledger c) as <- by (unfold c1; repeat case_match; auto using drop_defer_ledger).
  destruct (C_defers c1 !! _); [done|]. cbn [snd].
  set (c2 := if _ <=? _ then _ else _).
  assert (C_ledger c2 = C_ledger c1) as <- by (unfold c2; case_match; auto using evict_defer_ledger).
  by case_match.
Qed.

(** ** Flows *)

Lemma release_flow_calls c f :
  C_ledger (release_flow_locked c f) = run (C_ledger c) (flow_release f) ∧
  C_flows (release_flow_locked c f) = delete (fl_id f) (C_flows c).
Proof.
  unfold release_flow_locked, flow_release.
  destruct (is_nil (fl_request f)), (fl_bulk f), (is_nil (fl_transfer f)); cbn; repeat case_match; done.
Qed.

Lemma release_victims_calls l c :
  C_ledger (foldl release_victim c l) = run (C_ledger c) (releases (C_flows c) l).
Proof.
  revert c. induction l as [|id l IH]; intros c; [done|]. cbn [foldl releases]. rewrite IH.
  unfold release_victim. destruct (C_flows c !! id) as [f|]; [|done].
  destruct (release_flow_calls c f) as [-> ->]. by rewrite run_app.
Qed.

(** Abandoning the transfers of a request collects their flows and leaves the ledger
    and the flow table alone. *)
Lemma abandon_owned_spec l victims c :
  (foldl abandon_owned (victims, c) l).1 = victims ++ omap (flow_of_transfer c) l
  ∧ C_ledger (foldl abandon_owned (victims, c) l).2 = C_ledger c
  ∧ C_flows (foldl abandon_owned (victims, c) l).2 = C_flows c.
Proof.
  revert victims c. induction l as [|id l IH]; intros victims c; [by rewrite app_nil_r|].
  cbn [foldl omap list_omap]. destruct (C_transfers c !! id) as [t|] eqn:Et.
  2:{ replace (abandon_owned (victims, c) id) with (victims, c) by (unfold abandon_owned; by rewrite Et).
      replace (flow_of_transfer c id) with (@None FlowId) by (unfold flow_of_transfer; by rewrite Et). apply IH. }
  set (c1 := (abandon_owned (victims, c) id).2).
  assert (abandon_owned (victims, c) id = (victims ++ option_list (flow_of_transfer c id), c1)) as ->.
  { unfold c1, abandon_owned, flow_of_transfer. rewrite Et. cbn. destruct (is_nil (tx_flow t)); [|done].
    by rewrite app_nil_r. }
  assert (C_ledger c1 = C_ledger c ∧ C_flows c1 = C_flows c) as [El Ef]
    by (unfold c1, abandon_owned; rewrite Et; cbn; by case_match).
  assert (∀ id', flow_of_transfer c1 id' = flow_of_transfer c id') as Ht.
  { intros id'. unfold c1, abandon_owned, flow_of_transfer. rewrite Et. cbn. case_match; [|done]. cbn.
    destruct (decide (id' = id)) as [->|Hne]; [by rewrite lookup_insert_eq, Et|by rewrite lookup_insert_ne]. }
  destruct (IH (victims ++ option_list (flow_of_transfer c id)) c1) as (E1&E2&E3).
  rewrite E1, E2, E3, El, Ef. split_and!; try done. rewrite <- app_assoc. f_equal.
  replace (omap (flow_of_transfer c1) l) with (omap (flow_of_transfer c) l)
    by (clear -Ht; induction l as [|x l IHl]; [done|]; cbn; by rewrite Ht, IHl).
  by destruct (flow_of_transfer c id).
Qed.

Lemma release_request_calls c request :
  C_ledger (coord_release_request_flows c request) = run (C_ledger c) (request_releases c request).
Proof.
  unfold coord_release_request_flows, request_releases, request_victims. case_match; [done|].
  match goal with |- context [foldl abandon_owned (?v, c) ?l] =>
    destruct (abandon_owned_spec l v c) as (E1&E2&E3); destruct (foldl abandon_owned (v, c) l) as [victims c1] end.
  cbn [fst snd] in *. subst victims. by rewrite release_victims_calls, E2, E3.
Qed.

Lemma release_transfer_calls c t :
  C_ledger (release_transfer_flows_locked c t) = run (C_ledger c) (transfer_releases c t).
Proof. unfold release_transfer_flows_locked, transfer_releases. case_match; [done|apply release_victims_calls]. Qed.

Lemma open_flow_calls c d bytes now :
  C_ledger (open_flow_locked c d bytes now).2 = run (C_ledger c) (open_calls c d bytes now).
Proof.
  unfold open_flow_locked, open_calls, flow_admissible.
  destruct (validate_decision_locked c d) as [[]|]; [|done]. cbn [ok andb]. rewrite !Z.gtb_ltb.
  rewrite Z.leb_antisym. case_match; cbn [negb andb]; [done|]. case_match; cbn [negb andb]; [done|].
  case_bool_decide as Hk.
  - rewrite run_one. cbn [apply_op fl_request fl_attempt setter fl_set_request fl_set_attempt].
    destruct (open_flow (C_ledger c) _ _ _ _ _) as [[id|e] L]; cbn [snd]; [by rewrite store_flow_ledger|done].
  - destruct (C_transfers c !! _) as [t|]; [|done]. case_match; [done|]. cbn [snd].
    by rewrite store_flow_ledger.
Qed.

(** ** Evaluation *)

Lemma build_calls c request log outcome reason cls :
  C_ledger (build c request log outcome reason cls).2 =
    let subject := default empty_subject (tr_subject request) in
    if (sub_kind subject ≟ SubjectKind.Serving) && contains (C_ledger c) (sub_request subject)
    then apply_op (C_ledger c) (OpRecordDecision (sub_request subject) (sub_attempt subject) cls
           outcome reason (tr_payload_bytes request))
    else C_ledger c.
Proof. unfold build. cbn. by case_match. Qed.

(** The evaluation of [x] records the decision it returns, under the class [cls]. *)
Definition builds (c : Coordinator) (request : TrafficRequest) (cls : TrafficClass) (x : Decision * Coordinator)
    : Prop :=
  ∃ log, C_ledger x.2 = C_ledger (build c request log (dec_outcome x.1) (dec_reason x.1) cls).2.

Lemma build_builds c request log outcome reason cls :
  builds c request cls (build c request log outcome reason cls).
Proof. exists log. by destruct (build_decision c request log outcome reason cls) as (-> & -> & _). Qed.

Lemma admitted_builds c request a g log : builds c request (ad_effective a) (admitted c request a g log).
Proof.
  unfold admitted. destruct (make_treatment request a log) as [[t d] l].
  match goal with |- context [build ?c ?r ?l ?o ?re ?cl] =>
    pose proof (build_builds c r l o re cl) as H; destruct (build c r l o re cl) end. exact H.
Qed.

Lemma deferred_builds c request a reason count now log :
  builds c request (ad_effective a) (deferred c request a reason count now log).
Proof.
  unfold deferred.
  match goal with |- context [build ?c ?r ?l ?o ?re ?cl] =>
    pose proof (build_builds c r l o re cl) as H; destruct (build c r l o re cl) end. exact H.
Qed.

(** Every evaluation records exactly the decision it returns, and only if its subject
    is a request the ledger knows. *)
Lemma evaluate_calls {HO : HashOrder} c request now :
  C_ledger (evaluate_locked c request now).2 = run (C_ledger c) (decision_calls c request now).
Proof.
  assert (∃ c1, C_ledger c1 = C_ledger c ∧
    builds c1 request (accounted_class c request now) (evaluate_locked c request now)) as (c1&El&log&E).
  { unfold accounted_class.
    destruct (evaluate_cases c request now) as [log reason cls E|log a E _|log log' a count c1 E Hn _ _
      |log log' a count c1 reason E _ _ Hn _]; rewrite E; cbn [snd].
    - exists c. split; [done|apply build_builds].
    - eexists. split; [apply clear_defer_ledger|apply admitted_builds].
    - eexists. split; [|apply admitted_builds]. rewrite clear_defer_ledger.
      pose proof (note_defer_ledger c (ad_subject a) (ad_effective a) now) as H. by rewrite Hn in H.
    - eexists. split; [|apply deferred_builds].
      pose proof (note_defer_ledger c (ad_subject a) (ad_effective a) now) as H. by rewrite Hn in H. }
  rewrite E, build_calls, El. unfold decision_calls. cbv zeta. by case_match.
Qed.

(** ** Transfers *)

Lemma authorize_transfer_calls {HO : HashOrder} c request now now_eval :
  C_ledger (authorize_transfer c request now now_eval).2 = run (C_ledger c) (authorize_calls c request now now_eval).
Proof.
  unfold authorize_transfer, authorize_calls. destruct (tr_subject request) as [s|]; [|done].
  case_bool_decide; cbn [negb]; [|done].
  pose proof (evaluate_calls c request now_eval) as He.
  destruct (evaluate_locked c request now_eval) as [d c1]. cbn [snd] in He. rewrite run_app, <- He.
  cbn [ta_authorized]. destruct (C_transfers c1 !! sub_transfer s) as [t|]; [|by case_match].
  destruct (permits_traffic d); cbn [negb snd].
  - pose proof (open_flow_calls c1 d (tx_payload_bytes t) now) as Ho.
    destruct (open_flow_locked c1 d (tx_payload_bytes t) now) as [[f|e] c2]; cbn [snd] in *; rewrite <- Ho; by case_match.
  - cbn. by rewrite release_transfer_calls.
Qed.

Lemma complete_calls c id v :
  C_ledger (complete_transfer c id v).2 = run (C_ledger c) (ledger_calls c (CComplete id v)).
Proof.
  unfold complete_transfer. cbn [ledger_calls]. destruct (C_transfers c !! id) as [t|]; [|done].
  destruct (bool_decide (tx_state t = TransferState.Authorized)), (bool_decide (tx_state t = TransferState.InProgress));
    cbn [negb andb orb]; try done.
  all: case_match; [|case_match]; cbn [snd]; cbn; by rewrite release_transfer_calls.
Qed.

Lemma abandon_calls c id reason :
  C_ledger (abandon_transfer c id reason).2 = run (C_ledger c) (ledger_calls c (CAbandon id reason)).
Proof.
  unfold abandon_transfer. cbn [ledger_calls]. destruct (C_transfers c !! id) as [t|]; [|done].
  case_match; [done|]. cbn. by rewrite release_transfer_calls.
Qed.

(** ** Ends of requests and completions *)

Lemma cancel_calls c request reason now :
  C_ledger (coord_cancel_request c request reason now).2 = run (C_ledger c) (ledger_calls c (CCancel request reason now)).
Proof.
  unfold coord_cancel_request, on_ledger. cbn [snd ledger_calls]. rewrite run_cons. cbn [apply_op].
  change (C_ledger (c <| C_authority_sequence := _ |>)) with (C_ledger c).
  case_match; [|done]. by rewrite release_request_calls.
Qed.

Lemma fail_calls c request attempt reason now :
  C_ledger (coord_fail_attempt c request attempt reason now).2
    = run (C_ledger c) (ledger_calls c (CFail request attempt reason now)).
Proof.
  unfold coord_fail_attempt, on_ledger. cbn [ledger_calls]. rewrite run_cons. cbn [apply_op].
  destruct (fail_attempt _ _ _ _ _) as [[[g|e]|] L]; cbn [fst snd]; try done; by rewrite release_request_calls.
Qed.

Lemma replace_calls c request a b hash now :
  C_ledger (coord_replace_attempt c request a b hash now).2
    = run (C_ledger c) (ledger_calls c (CReplace request a b hash now)).
Proof.
  unfold coord_replace_attempt, on_ledger. cbn [ledger_calls]. destruct (resolve_model c hash) as [g|e]; [|done].
  rewrite run_cons. cbn [apply_op]. destruct (supersede_attempt _ _ _ _ _) as [[g'|e] L]; cbn [fst snd ok]; [|done].
  rewrite run_app, run_one. cbn. by rewrite release_request_calls.
Qed.

Lemma publish_calls c p now :
  C_ledger (coord_publish_completion c p now).2 = run (C_ledger c) (ledger_calls c (CPublish p now)).
Proof.
  unfold coord_publish_completion, on_ledger. cbn [ledger_calls]. rewrite run_cons. cbn [apply_op].
  destruct (publish_completion _ _ _) as [[o|e] L]; cbn [fst snd]; [|done]. case_match; [|done].
  match goal with |- context [trim_completions ?o ?l ?m] => destruct (trim_completions o l m) end.
  cbn [snd]. cbn. by rewrite release_request_calls.
Qed.

(** ** Boot *)

Lemma restore_records_calls rs L L' :
  restore_records rs L = (Success tt, L') → L' = run L (OpRestore <$> rs).
Proof.
  revert L. induction rs as [|r rs IH]; intros L; [by intros [= <-]|]. cbn [restore_records].
  destruct (restore_record L r) as [[[]|e] L1] eqn:E; [|done]. intros ->%IH. cbn. by rewrite E.
Qed.

Lemma boot_from_calls c state draws :
  C_ledger (boot_from c state draws).2 = run (C_ledger c) (ledger_calls c (CBootFrom state draws)).
Proof.
  unfold boot_from. cbn [ledger_calls]. destruct (validate_restored_state_locked c state) as [[]|e] eqn:Hv; cbn [ok].
  - destruct (validated_state_restores c state Hv) as (c1 & E & _). rewrite E. cbn. revert E. unfold restore_state.
    change (validate_restored_state_locked (clear_state_locked c) state) with (validate_restored_state_locked c state).
    rewrite Hv. set (c2 := if ps_topology_present state then _ else _).
    assert (C_ledger c2 = clear (C_ledger c)) as -> by (unfold c2; by case_match).
    destruct (restore_records (ps_terminal_requests state) _) as [[[]|e] L1] eqn:E1; [|done].
    destruct (restore_records (ps_interrupted_requests state) L1) as [st L2] eqn:E2. intros [= -> <-]. cbn.
    apply restore_records_calls in E1, E2. by rewrite fmap_app, run_app, <- E1, <- E2.
  - unfold restore_state.
    change (validate_restored_state_locked (clear_state_locked c) state) with (validate_restored_state_locked c state).
    by rewrite Hv.
Qed.

(** ** Every command *)

(** Splits an operation that does not touch the ledger. *)
Ltac same_ledger := cbn [snd]; repeat (case_match; try done).

Lemma apply_cop_calls c op : C_ledger (apply_cop c op) = run (C_ledger c) (ledger_calls c op).
Proof.
  destruct op; cbn [apply_cop].
  - done.
  - apply boot_from_calls.
  - unfold apply_policy. same_ledger.
  - unfold publish_topology. same_ledger.
  - unfold register_slo_contract. same_ledger.
  - unfold issue_route_decision. same_ledger.
  - unfold set_model_generation. same_ledger.
  - unfold revalidate_model_generation. same_ledger.
  - unfold advance_state_generation. same_ledger.
  - unfold revalidate_state_generation. same_ledger.
  - done.
  - unfold coord_register_attempt. cbn [ledger_calls]. by destruct (resolve_model c hash).
  - done.
  - done.
  - apply cancel_calls.
  - apply fail_calls.
  - apply replace_calls.
  - unfold register_transfer. same_ledger.
  - apply authorize_transfer_calls.
  - unfold start_transfer. same_ledger.
  - apply complete_calls.
  - apply abandon_calls.
  - apply evaluate_calls.
  - apply open_flow_calls.
  - unfold coord_release_flow. cbn [ledger_calls]. destruct (C_flows c !! flow) as [f|]; [|done].
    apply release_flow_calls.
  - unfold coord_record_flow_bytes. cbn [ledger_calls]. destruct (C_flows c !! flow) as [f|]; [|done].
    destruct (checked_add _ _); [|done]. by destruct (is_nil (fl_request f)).
  - apply publish_calls.
Qed.

Lemma history_calls_run ops c : C_ledger (coord_run c ops) = run (C_ledger c) (history_calls c ops).
Proof.
  revert c. induction ops as [|op ops IH]; intros c; [done|]. cbn [history_calls]. rewrite run_app, <- apply_cop_calls.
  apply IH.
Qed.

(** ** Answers *)

Definition status_of {A} (r : Result A) : Status :=
  match r with Success _ => Success tt | Failure e => Failure e end.

(** The answer of a ledger call; [None] is the dangling read of [fail_attempt]. *)
Definition op_answer (L : RequestLedger) (op : LedgerOp) : option Status :=
  match op with
  | OpRegisterRequest id now => Some (status_of (register_request L id now).1)
  | OpRegisterAttempt id a mh mg rg now => Some (status_of (register_attempt L id a mh mg rg now).1)
  | OpRevalidate id a now => Some (status_of (revalidate_request L id a now).1)
  | OpAdvanceStage id a target now => Some (status_of (advance_stage L id a target now).1)
  | OpFail id a reason now => status_of <$> (fail_attempt L id a reason now).1
  | OpSupersede id a b now => Some (status_of (supersede_attempt L id a b now).1)
  | OpCancel id reason seq now => Some (status_of (cancel_request L id reason seq now).1)
  | OpPublish p now => Some (status_of (publish_completion L p now).1)
  | OpOpenFlow id a t b now => Some (status_of (open_flow L id a t b now).1)
  | OpRecordBytes f b inb => Some (status_of (record_flow_bytes L f b inb).1)
  | _ => Some (Success tt)
  end.

(** The commands that answer for the ledger. *)
Definition delegates (c : Coordinator) (op : CoordOp) : bool :=
  match op with
  | CRegisterRequest _ _ | CRegisterAttempt _ _ _ _ | CRevalidateRequest _ _ _ | CAdvanceStage _ _ _ _
  | CCancel _ _ _ | CFail _ _ _ _ | CReplace _ _ _ _ _ | CPublish _ _ => true
  | COpenFlow decision _ _ => sub_kind (dec_subject decision) ≟ SubjectKind.Serving
  | CRecordBytes flow _ _ =>
      match C_flows c !! flow with Some f => negb (is_nil (fl_request f)) | None => true end
  | _ => false
  end.

(** The answer of such a command. *)
Definition cop_answer (c : Coordinator) (op : CoordOp) : option Status :=
  match op with
  | CRegisterRequest request now => Some (status_of (coord_register_request c request now).1)
  | CRegisterAttempt request attempt hash now =>
      Some (status_of (coord_register_attempt c request attempt hash now).1)
  | CRevalidateRequest request attempt now => Some (status_of (coord_revalidate_request c request attempt now).1)
  | CAdvanceStage request attempt target now =>
      Some (status_of (coord_advance_stage c request attempt target now).1)
  | CCancel request reason now => Some (status_of (coord_cancel_request c request reason now).1)
  | CFail request attempt reason now => status_of <$> (coord_fail_attempt c request attempt reason now).1
  | CReplace request superseded replacement hash now =>
      Some (status_of (coord_replace_attempt c request superseded replacement hash now).1)
  | CPublish p now => Some (status_of (coord_publish_completion c p now).1)
  | COpenFlow decision declared now => Some (status_of (open_flow_locked c decision declared now).1)
  | CRecordBytes flow bytes inbound => Some (status_of (coord_record_flow_bytes c flow bytes inbound).1)
  | _ => None
  end.

(** The answer is that of the first ledger call; a command that makes none fails. *)
Definition answered (L : RequestLedger) (calls : list LedgerOp) (answer : option Status) : Prop :=
  match calls with
  | op :: _ => answer = op_answer L op
  | [] => ∃ e, answer = Some (Failure e)
  end.

Lemma cop_answered c op :
  delegates c op = true → answered (C_ledger c) (ledger_calls c op) (cop_answer c op).
Proof.
  destruct op; try done; cbn [delegates ledger_calls cop_answer]; intros Hd.
  - unfold coord_register_attempt. destruct (resolve_model c hash); [done|]. by eexists.
  - unfold coord_fail_attempt, on_ledger. cbn [answered op_answer].
    by destruct (fail_attempt _ _ _ _ _) as [[[g|e]|] L].
  - unfold coord_replace_attempt, on_ledger. destruct (resolve_model c hash); [|by eexists]. cbn [answered op_answer].
    by destruct (supersede_attempt _ _ _ _ _) as [[g'|e] L].
  - unfold open_flow_locked, open_calls, flow_admissible. rewrite Hd, andb_true_r.
    destruct (validate_decision_locked c decision) as [[]|]; [|by eexists]. cbn [ok andb]. rewrite Z.leb_antisym, !Z.gtb_ltb.
    destruct (_ <? declared); cbn [negb andb]; [by eexists|].
    destruct (pr_yields_to_latency _ && _ && _); cbn [negb andb]; [by eexists|]. cbn [answered op_answer].
    cbn [fl_request fl_attempt setter fl_set_request fl_set_attempt].
    by destruct (open_flow (C_ledger c) _ _ _ _ _) as [[id|e] L].
  - unfold coord_record_flow_bytes. destruct (C_flows c !! flow) as [f|]; [|by eexists].
    destruct (checked_add _ _); [|by eexists]. by destruct (is_nil (fl_request f)).
  - unfold coord_publish_completion, on_ledger. cbn [answered op_answer].
    destruct (publish_completion _ _ _) as [[o|e] L]; cbn [fst snd]; [|done]. case_match; [|done].
    by match goal with |- context [trim_completions ?o ?l ?m] => destruct (trim_completions o l m) end.
Qed.


(** ** Which calls a history makes *)

(** Ledger calls that add a record. *)
Definition creates (op : LedgerOp) : bool :=
  match op with OpRegisterRequest _ _ | OpRestore _ => true | _ => false end.

Definition op_allowed (creating : bool) (op : LedgerOp) : Prop :=
  op_typed op ∧ (creating = false → creates op = false).

(** The ledger of [c'] is the ledger of [c] after a history with at most [n]
    calls that open a flow; unless [b], no call of it adds a record. *)
Definition sim (b : bool) (n : nat) (c c' : Coordinator) : Prop :=
  ∃ ops, Forall (op_allowed b) ops ∧ C_ledger c' = run (C_ledger c) ops ∧ (opens ops ≤ n)%nat.

Lemma sim_same b n c c' : C_ledger c' = C_ledger c → sim b n c c'.
Proof. intros E. exists []. split_and!; [constructor|done|unfold opens; simpl; lia]. Qed.

Lemma sim_trans b n m c1 c2 c3 : sim b n c1 c2 → sim b m c2 c3 → sim b (n + m) c1 c3.
Proof.
  intros (o1 & T1 & E1 & N1) (o2 & T2 & E2 & N2). exists (o1 ++ o2). split_and!.
  - by apply Forall_app.
  - by rewrite run_app, <- E1.
  - rewrite opens_app. lia.
Qed.

Lemma sim_creating b n c c' : sim b n c c' → sim true n c c'.
Proof.
  intros (ops & H & ? & ?). exists ops. split_and!; try done. eapply Forall_impl; [exact H|].
  intros op [? _]. by split.
Qed.

Definition cop_opens (op : CoordOp) : nat :=
  match op with COpenFlow _ _ _ | CAuthorize _ _ _ _ => 1 | _ => 0 end.

Definition calls_opening (ops : list CoordOp) : nat := sum_list (cop_opens <$> ops).

(** Commands that may add a record to the ledger. *)
Definition cop_creates (op : CoordOp) : bool :=
  match op with CBootFrom _ _ | CRegisterRequest _ _ => true | _ => false end.

(** Calls that neither add a record nor open a flow. *)
Definition inner (op : LedgerOp) : Prop := creates op = false ∧ is_open op = false.

Lemma releases_inner l flows : Forall inner (releases flows l).
Proof.
  revert flows. induction l as [|id l IH]; intros flows; [constructor|]. cbn [releases].
  destruct (flows !! id) as [f|]; [|apply IH]. apply Forall_app. split; [|apply IH].
  unfold flow_release. case_match; by repeat constructor.
Qed.

Lemma request_releases_inner c request : Forall inner (request_releases c request).
Proof. unfold request_releases. case_match; [constructor|apply releases_inner]. Qed.

Lemma transfer_releases_inner c t : Forall inner (transfer_releases c t).
Proof. unfold transfer_releases. case_match; [constructor|apply releases_inner]. Qed.

Lemma inner_allowed b ops : Forall inner ops → Forall (op_allowed b) ops ∧ opens ops = 0%nat.
Proof.
  induction 1 as [|op ops [Hc Ho] _ [IH1 IH2]]; [by split|]. rewrite opens_cons, Ho, IH2. split; [|done].
  constructor; [|done]. split; [by destruct op|done].
Qed.

Lemma inner_sim b n c c' ops : Forall inner ops → C_ledger c' = run (C_ledger c) ops → sim b n c c'.
Proof. intros [H1 H2]%(inner_allowed b) E. exists ops. split_and!; [done|done|lia]. Qed.

Lemma decision_calls_inner {HO : HashOrder} c request now : Forall inner (decision_calls c request now).
Proof. unfold decision_calls. cbv zeta. case_match; by repeat constructor. Qed.

Lemma release_request_sim b c request : sim b 0 c (coord_release_request_flows c request).
Proof. eapply inner_sim; [apply request_releases_inner|apply release_request_calls]. Qed.

Create HintDb calls.
#[local] Hint Resolve request_releases_inner transfer_releases_inner decision_calls_inner : calls.

(** The calls of a command that creates no record and opens no flow. *)
Lemma inner_calls c op : cop_creates op = false → cop_opens op = 0%nat → Forall inner (ledger_calls c op).
Proof.
  intros Hc Ho. destruct op; try done; cbn [ledger_calls]; repeat case_match; repeat constructor; auto with calls.
  - apply Forall_app. split; [auto with calls|by repeat constructor].
  - unfold flow_release. case_match; by repeat constructor.
Qed.

(** At most one call opens a flow. *)
Lemma open_calls_allowed b c d bytes now :
  Forall (op_allowed b) (open_calls c d bytes now) ∧ (opens (open_calls c d bytes now) ≤ 1)%nat.
Proof. unfold open_calls. case_match; split; try (by repeat constructor); unfold opens; cbn; lia. Qed.

Lemma authorize_calls_allowed {HO : HashOrder} b c request now now_eval :
  Forall (op_allowed b) (authorize_calls c request now now_eval)
  ∧ (opens (authorize_calls c request now now_eval) ≤ 1)%nat.
Proof.
  assert (Forall (op_allowed b) [] ∧ (opens [] ≤ 1)%nat) as Hnil by (split; [constructor|unfold opens; cbn; lia]).
  unfold authorize_calls. destruct (tr_subject request) as [s|]; [|done]. case_match; [|done].
  destruct (evaluate_locked c request now_eval) as [d c1].
  destruct (inner_allowed b _ (decision_calls_inner c request now_eval)) as [H1 H2].
  rewrite Forall_app, opens_app, H2. cbn [Nat.add].
  destruct (C_transfers c1 !! sub_transfer s) as [t|]; [|by split_and!; [|apply Hnil..]].
  destruct (permits_traffic d).
  - destruct (open_calls_allowed b c1 d (tx_payload_bytes t) now). done.
  - destruct (inner_allowed b _ (transfer_releases_inner c1 (sub_transfer s))) as [H3 ->]. split; [done|lia].
Qed.

Lemma apply_cop_sim c op : cop_typed op → sim (cop_creates op) (cop_opens op) c (apply_cop c op).
Proof.
  intros Hty. pose proof (apply_cop_calls c op) as E.
  destruct (decide (cop_creates op = false ∧ cop_opens op = 0%nat)) as [[Hc Ho]|Hn].
  { eapply inner_sim; [by apply inner_calls|exact E]. }
  destruct op; try (destruct Hn; done); cbn [ledger_calls cop_creates cop_opens] in *.
  - exists (ledger_calls c (CBootFrom state draws)). split_and!; [|exact E|]; cbn [ledger_calls].
    + destruct Hty as [H1 H2]. constructor; [done|]. case_match; [|by repeat constructor].
      apply Forall_fmap, Forall_app. split; eapply Forall_impl; try eassumption; by intros r Hr.
    + rewrite opens_cons. case_match; [|done]. cbn [is_open]. generalize (ps_terminal_requests state ++ ps_interrupted_requests state).
      intros rs. enough (opens (OpRestore <$> rs) = 0%nat) by lia. induction rs as [|r rs IH]; [done|]. by rewrite fmap_cons, opens_cons.
  - exists [OpRegisterRequest request now]. split_and!; [by repeat constructor|exact E|done].
  - destruct (authorize_calls_allowed false c request now now_eval). by exists (authorize_calls c request now now_eval).
  - destruct (open_calls_allowed false c decision declared now). by exists (open_calls c decision declared now).
Qed.

Lemma coord_run_sim ops c : Forall cop_typed ops → sim true (calls_opening ops) c (coord_run c ops).
Proof.
  revert c. induction ops as [|op ops IH]; intros c Hty; [by apply sim_same|].
  inversion_clear Hty. eapply (sim_trans _ (cop_opens op) (calls_opening ops)).
  { by eapply sim_creating, apply_cop_sim. }
  by apply IH.
Qed.

Lemma closure_after_history config ops :
  limits_typed (cl_ledger (cf_limits config)) → Forall cop_typed ops →
  Z.of_nat (calls_opening ops) < two64 →
  verify_closure (C_ledger (coord_run (make_coordinator config) ops)) = Success tt.
Proof.
  intros Hl Hty Hn.
  destruct (coord_run_sim ops (make_coordinator config) Hty) as (lops & T & -> & O).
  apply flows_inv_closure, run_inv.
  - by apply flows_inv_empty, make_ledger_limits.
  - eapply Forall_impl; [exact T|]. by intros op [? _].
  - cbn. lia.
Qed.

(** The closure audit of the ledger succeeds after any sequence of coordinator
    operations, boots included, on a fresh coordinator with well-typed limits, when
    fewer than 2^64 calls open a flow. *)
Theorem ledger_audit_after_coordinator_history config ops :
  limits_typed (cl_ledger (cf_limits config)) → Forall cop_typed ops →
  Z.of_nat (calls_opening ops) < two64 →
  verify_closure (C_ledger (coord_run (make_coordinator config) ops)) = Success tt.
Proof. apply closure_after_history. Qed.

(** ** What only evaluations and boots change *)

Record calm (c c' : Coordinator) : Prop := {
  ca_config_kept : C_config c' = C_config c;
  ca_defers_kept : C_defers c' = C_defers c;
  ca_streaming_kept : C_streaming_deferrals c' = C_streaming_deferrals c;
  ca_sequence_kept : C_authority_sequence c' = C_authority_sequence c;
  ca_boot_kept : C_epoch c' = C_epoch c ∧ C_incarnation c' = C_incarnation c;
}.

#[global] Instance calm_preorder : PreOrder calm.
Proof.
  split; [by split|]. intros c1 c2 c3 [? ? ? ? [? ?]] [? ? ? ? [? ?]].
  split; try congruence. split; congruence.
Qed.

Lemma release_flow_calm c f : calm c (release_flow_locked c f).
Proof.
  unfold release_flow_locked. destruct (fl_bulk f), (is_nil (fl_request f)), (is_nil (fl_transfer f));
    cbn; repeat case_match; by split.
Qed.

Lemma release_victims_calm l c : calm c (foldl release_victim c l).
Proof.
  revert c. induction l as [|f l IH]; intros c; [done|]. cbn [foldl]. etrans; [|apply IH].
  unfold release_victim. case_match; [apply release_flow_calm|done].
Qed.

Lemma abandon_owned_calm l acc : calm acc.2 (foldl abandon_owned acc l).2.
Proof.
  revert acc. induction l as [|t l IH]; intros [v c]; [done|]. cbn [foldl]. etrans; [|apply IH].
  unfold abandon_owned. repeat case_match; by split.
Qed.

Lemma release_request_calm c request : calm c (coord_release_request_flows c request).
Proof.
  unfold coord_release_request_flows. case_match; [done|].
  match goal with |- context [foldl abandon_owned ?acc ?l] =>
    pose proof (abandon_owned_calm l acc) as E; destruct (foldl abandon_owned acc l) as [v c1] end.
  etrans; [exact E|apply release_victims_calm].
Qed.

Lemma release_transfer_calm c t : calm c (release_transfer_flows_locked c t).
Proof. unfold release_transfer_flows_locked. case_match; [done|apply release_victims_calm]. Qed.

Lemma store_flow_calm f c : calm c (store_flow f c).
Proof. unfold store_flow. repeat case_match; by split. Qed.

Lemma open_flow_calm c d b now : calm c (open_flow_locked c d b now).2.
Proof.
  unfold open_flow_locked. destruct (validate_decision_locked c d); [|done].
  case_match; [done|]. case_match; [done|]. case_match.
  - destruct (open_flow _ _ _ _ _ _) as [[id|e] L]; cbn [snd]; [|by split].
    etrans; [|apply store_flow_calm]. by split.
  - case_match; [|done]. case_match; [done|]. cbn [snd]. etrans; [|apply store_flow_calm]. by split.
Qed.

(** A release of flows between two field updates. *)
Ltac calm_release :=
  match goal with
  | |- context [release_transfer_flows_locked ?X ?t] =>
      transitivity (release_transfer_flows_locked X t);
      [transitivity X; [|apply release_transfer_calm]|]
  | |- context [coord_release_request_flows ?X ?t] =>
      transitivity (coord_release_request_flows X t);
      [transitivity X; [|apply release_request_calm]|]
  end; by split.

Lemma authorize_calm {HO : HashOrder} c request now now' :
  (authorize_transfer c request now now').2 = c ∨
  calm (evaluate_locked c request now').2 (authorize_transfer c request now now').2.
Proof.
  unfold authorize_transfer. destruct (tr_subject request) as [s|]; [|by left].
  case_match; [by left|right]. destruct (evaluate_locked c request now') as [d c1]. cbn [snd].
  case_match.
  - destruct (C_transfers c1 !! sub_transfer s) as [t|]; [|by split].
    calm_release.
  - destruct (C_transfers c1 !! sub_transfer s) as [t|]; [|done].
    pose proof (open_flow_calm c1 d (tx_payload_bytes t) now) as Ho.
    destruct (open_flow_locked c1 d (tx_payload_bytes t) now) as [[f|e] c2]; cbn [snd] in *;
      (etrans; [exact Ho|]); case_match; by split.
Qed.

Definition is_boot (op : CoordOp) : bool :=
  match op with CBootFresh _ | CBootFrom _ _ => true | _ => false end.

(** The commands that take a new authority sequence. *)
Definition mints (op : CoordOp) : bool :=
  match op with CEvaluate _ _ _ | CAuthorize _ _ _ _ | CCancel _ _ _ => true | _ => false end.

Ltac calm_split := repeat (cbn [snd refuse]; first [reflexivity | by split | case_match]).

Lemma apply_cop_calm c op : is_boot op = false → mints op = false → calm c (apply_cop c op).
Proof.
  intros Hb Hm. destruct op; try done; cbn [apply_cop].
  - unfold apply_policy. calm_split.
  - unfold publish_topology. calm_split.
  - unfold register_slo_contract. calm_split.
  - unfold issue_route_decision. calm_split.
  - unfold set_model_generation. calm_split.
  - unfold revalidate_model_generation. calm_split.
  - unfold advance_state_generation. calm_split.
  - unfold revalidate_state_generation. calm_split.
  - unfold coord_register_attempt. calm_split.
  - unfold coord_fail_attempt, on_ledger. repeat case_match; cbn [snd]; try (by split);
      calm_release.
  - unfold coord_replace_attempt, on_ledger. case_match; [|done]. case_match; cbn [snd]; [|by split].
    calm_release.
  - unfold register_transfer. calm_split.
  - unfold start_transfer. calm_split.
  - unfold complete_transfer. case_match; [|done]. case_match; [done|].
    case_match; [|case_match]; cbn [snd]; calm_release.
  - unfold abandon_transfer. case_match; [|done]. case_match; [done|]. cbn [snd].
    calm_release.
  - apply open_flow_calm.
  - unfold coord_release_flow. case_match; [apply release_flow_calm|done].
  - unfold coord_record_flow_bytes. calm_split.
  - unfold coord_publish_completion, on_ledger. case_match; cbn [snd]; [|by split]. case_match; [|by split].
    match goal with |- context [trim_completions ?o ?l ?m] => destruct (trim_completions o l m) end.
    cbn [snd]. calm_release.
Qed.

Lemma cancel_calm c request reason now :
  calm (c <| C_authority_sequence := advance (C_authority_sequence c) |>)
    (coord_cancel_request c request reason now).2.
Proof.
  unfold coord_cancel_request, on_ledger. cbn [snd]. case_match; [|by split].
  calm_release.
Qed.

Lemma defers_inv_calm c c' : calm c c' → defers_inv c → defers_inv c'.
Proof. intros [] Hi. by eapply defers_inv_view. Qed.

Lemma boot_defers c :
  0 ≤ cl_max_defer_records (cf_limits (C_config c)) < two32 → defers_inv (clear_state_locked c).
Proof. intros H. split; [done| |done]. unfold size_of, defer_room. simpl. rewrite map_size_empty. lia. Qed.

Lemma restore_state_frame c state :
  C_config (restore_state c state).2 = C_config c ∧
  C_defers (restore_state c state).2 = C_defers c ∧
  C_streaming_deferrals (restore_state c state).2 = C_streaming_deferrals c.
Proof.
  unfold restore_state. case_match; [|done].
  set (c1 := if ps_topology_present state then _ else _).
  assert (C_config c1 = C_config c ∧ C_defers c1 = C_defers c ∧
    C_streaming_deferrals c1 = C_streaming_deferrals c) as (<- & <- & <-) by (unfold c1; by case_match).
  repeat case_match; done.
Qed.

Lemma apply_cop_defers c op : defers_inv c → defers_inv (apply_cop c op).
Proof.
  intros Hi. destruct (is_boot op || mints op) eqn:E.
  2: { apply orb_false_iff in E as [? ?]. eapply defers_inv_calm; [by apply apply_cop_calm|done]. }
  destruct op; try done; cbn [apply_cop].
  - eapply defers_inv_view; [by apply boot_defers, Hi|done..].
  - unfold boot_from. destruct (restore_state_frame (clear_state_locked c) state) as (E1 & E2 & E3).
    destruct (restore_state (clear_state_locked c) state) as [[u|e] c1]; cbn [snd] in *.
    + eapply (defers_inv_view (clear_state_locked c)); [by apply boot_defers, Hi|done..].
    + apply boot_defers. rewrite E1. apply Hi.
  - eapply defers_inv_calm; [apply cancel_calm|]. by eapply defers_inv_view.
  - destruct (authorize_calm c request now now_eval) as [-> |H]; [done|].
    eapply defers_inv_calm; [exact H|]. by apply evaluate_defers_inv.
  - by apply evaluate_defers_inv.
Qed.

(** C16: After any sequence of coordinator operations on a fresh coordinator, for every
    32-bit limit and every order in which the hash container lists its entries, the
    streaming-deferral counter equals the number of deferral records of protected
    classes and there are no more records than max_defer_records, or one when that limit
    is zero. *)
Theorem deferral_invariant_after_history config ops :
  0 ≤ cl_max_defer_records (cf_limits config) < two32 →
  defers_inv (coord_run (make_coordinator config) ops).
Proof.
  intros H. assert (defers_inv (make_coordinator config)) as Hi.
  { split; [done| |done]. unfold size_of, defer_room. simpl. rewrite map_size_empty. lia. }
  unfold coord_run. revert Hi. generalize (make_coordinator config).
  induction ops as [|op ops IH]; intros c Hi; [done|]. apply IH. by apply apply_cop_defers.
Qed.

(** ** Sequences *)

Lemma apply_cop_sequence c op :
  is_boot op = false → 0 ≤ C_authority_sequence c < two64 - 1 →
  C_authority_sequence (apply_cop c op) = C_authority_sequence c + (if mints op then 1 else 0) ∨
  apply_cop c op = c.
Proof.
  intros Hb Hs. destruct (mints op) eqn:Hm.
  2: { left. destruct (apply_cop_calm c op Hb Hm). lia. }
  destruct op; try done; cbn [apply_cop].
  - left. destruct (cancel_calm c request reason now) as [_ _ _ -> _]. simpl. by apply advance_small.
  - destruct (authorize_calm c request now now_eval) as [-> |[_ _ _ -> _]]; [by right|left].
    destruct (evaluate_frame c request now_eval) as [_ ->]. by apply advance_small.
  - left. destruct (evaluate_frame c request now) as [_ ->]. by apply advance_small.
Qed.
