(* ===== verification/CoordSafety.v ===== *)
(** * Safety of the coordinator along its histories

    Finality of cancellation as clients see it, the order of authority
    sequences, validity of fresh decisions, and what a restart fences. *)

From S2P Require Import Prelude Ids Traffic Decision Policy Ledger LedgerInv LedgerRun.
From S2P Require Import LedgerEvolve LedgerBounds Coordinator Evaluate EvaluateProps.
From S2P Require Import EvaluateState Deferral Flows CoordAudit FlowsProps CoordRun Restore.

(** ** Ledger calls that add no record *)

Definition no_new (L L' : RequestLedger) : Prop :=
  ∀ id, L_requests L !! id = None → L_requests L' !! id = None.

Lemma no_new_bump L X f `{!Setter f} : no_new L X → no_new L (bump f X).
Proof. done. Qed.

Lemma no_new_evict L X : no_new L X → no_new L (evict_if_needed X).
Proof. intros H id Hn. destruct (evict_lookup X id) as [->| ->]; [done|]. by apply H. Qed.

Lemma no_new_put L X id r r' :
  L_requests X = L_requests L → L_requests L !! id = Some r → no_new L (put_record id r' X).
Proof. intros E Hr id' Hn. simpl. rewrite E, lookup_insert_ne by congruence. done. Qed.

Lemma no_new_terminate L id r r' : L_requests L !! id = Some r → no_new L (terminate id r' L).
Proof. intros Hr id' Hn. rewrite terminate_lookup, decide_False by congruence. done. Qed.

Lemma no_new_same L X : L_requests X = L_requests L → no_new L X.
Proof. intros E id. by rewrite E. Qed.

Ltac no_new_step :=
  lazymatch goal with
  | |- no_new _ (evict_if_needed _) => apply no_new_evict
  | |- no_new _ (bump _ _) => apply no_new_bump
  | |- no_new ?L (put_record _ _ _) =>
      match goal with H : L_requests L !! _ = Some _ |- _ =>
        eapply no_new_put; [reflexivity | exact H] end
  | |- no_new ?L (terminate _ _ _) =>
      match goal with H : L_requests L !! _ = Some _ |- _ => eapply no_new_terminate; exact H end
  | |- no_new _ _ => apply no_new_same; reflexivity
  end.
Ltac no_new_solve := result_guards; repeat no_new_step.

Lemma apply_op_no_new L op : creates op = false → no_new L (apply_op L op).
Proof.
  intros Hg. destruct op; try done; cbn [apply_op].
  - unfold register_attempt. no_new_solve.
  - unfold revalidate_request. no_new_solve.
  - unfold advance_stage. no_new_solve.
  - unfold fail_attempt. no_new_solve.
  - unfold supersede_attempt. no_new_solve.
  - unfold set_attempt_model. no_new_solve.
  - unfold cancel_request. no_new_solve.
  - unfold mark_request_interrupted.
    destruct (L_requests L !! id) as [r|] eqn:Hr; [|no_new_step]. case_match; [no_new_step|].
    cbn [release_request_flows snd]. no_new_step. eapply no_new_put; [|exact Hr]. simpl.
    by destruct (close_flows_frame (mm_range (L_flows_by_request L) (rr_id r)) L) as (_&E&_).
  - unfold publish_completion, publish_failure, publish_success, refuse_publication,
      suppress_publication. no_new_solve.
  - unfold open_flow. no_new_solve.
  - unfold release_flow. destruct (L_flows L !! f); [|no_new_step].
    cbn [L_requests setter L_set_accounting L_set_flows L_set_flows_by_request]. no_new_solve.
  - unfold record_flow_bytes. destruct (L_flows L !! f); [|no_new_step].
    destruct (checked_add _ _); [|no_new_step].
    cbn [L_requests setter L_set_accounting L_set_flows L_set_flows_by_request]. no_new_solve.
  - unfold record_decision. no_new_solve.
Qed.

Lemma run_keeps ops L :
  Forall (fun op => creates op = false) ops → keeps L (run L ops) ∧ no_new L (run L ops).
Proof.
  revert L. induction ops as [|op ops IH]; intros L Hf; [by split; [apply keeps_same|apply no_new_same]|].
  inversion_clear Hf as [|?? Hc Hrest]. cbn [run foldl]. destruct (IH (apply_op L op) Hrest) as [K N].
  unfold run in *. split.
  - intros id r Hr. destruct (keeps_op L op id r Hr) as [Hn|(r1 & Hr1 & He)].
    + left. by apply N.
    + destruct (K id r1 Hr1) as [Hn|(r2 & Hr2 & He2)]; [by left|right].
      exists r2. split; [done|by etrans].
  - intros id Hn. apply N. by apply apply_op_no_new.
Qed.

(** ** Records along a coordinator history without a restart *)

Lemma apply_cop_keeps c op :
  is_boot op = false → cop_typed op → keeps (C_ledger c) (C_ledger (apply_cop c op)).
Proof.
  intros Hb Hty. destruct (cop_creates op) eqn:Hc.
  - destruct op; try done. exact (keeps_op (C_ledger c) (OpRegisterRequest request now)).
  - pose proof (apply_cop_sim c op Hty) as Hs. rewrite Hc in Hs. destruct Hs as (lops & T & -> & _).
    apply run_keeps. eapply Forall_impl; [exact T|]. intros o [_ H]. by apply H.
Qed.

Definition no_boot (ops : list CoordOp) : Prop := Forall (fun op => is_boot op = false) ops.

(** The request is known after every prefix of the history. *)
Definition known_through (c : Coordinator) (ops : list CoordOp) (id : RequestId) : Prop :=
  ∀ k, is_Some (L_requests (C_ledger (coord_run c (take k ops))) !! id).

Lemma coord_run_evolves ops c id r :
  L_requests (C_ledger c) !! id = Some r → no_boot ops → Forall cop_typed ops →
  known_through c ops id →
  ∃ r', L_requests (C_ledger (coord_run c ops)) !! id = Some r' ∧ evolves r r'.
Proof.
  revert c r. induction ops as [|op ops IH]; intros c r Hr Hb Hty Hk; [by exists r|].
  inversion_clear Hb. inversion_clear Hty.
  destruct (apply_cop_keeps c op ltac:(done) ltac:(done) id r Hr) as [Hn|(r1 & Hr1 & He)].
  - destruct (Hk 1%nat) as [r1 Hr1]. simpl in Hr1. congruence.
  - destruct (IH (apply_cop c op) r1 Hr1) as (r' & Hr' & He'); [done|done| |].
    + intros k. exact (Hk (S k)).
    + exists r'. split; [done|by etrans].
Qed.

(** Releasing flows leaves every record's lifecycle and floor. *)
Lemma cancel_records c id reason now :
  keeps (cancel_request (C_ledger c) id reason (advance (C_authority_sequence c)) now).2
    (C_ledger (coord_cancel_request c id reason now).2) ∧
  no_new (cancel_request (C_ledger c) id reason (advance (C_authority_sequence c)) now).2
    (C_ledger (coord_cancel_request c id reason now).2).
Proof.
  unfold coord_cancel_request, on_ledger. cbn [snd].
  match goal with |- context [coord_release_request_flows ?c1 _] => set (c1' := c1) end.
  change (cancel_request (C_ledger c) id reason (advance (C_authority_sequence c)) now).2 with (C_ledger c1').
  case_match; [|by split; [apply keeps_same|apply no_new_same]].
  destruct (release_request_sim false c1' id) as (lops & T & -> & _).
  apply run_keeps. eapply Forall_impl; [exact T|]. intros o [_ H']. by apply H'.
Qed.

(** C1: Cancelling a live request through the coordinator permanently removes its
    network authority: after any later sequence of coordinator operations that does not
    boot and while the request is still known, no decision about the request validates
    or opens a flow, and no evaluation of the request permits traffic. The authority
    sequence must not be at its last value, 2^64 - 1, when the request is cancelled. *)
Theorem cancelled_request_stays_refused c id reason now r ops :
  L_requests (C_ledger c) !! id = Some r → request_is_terminal (rr_lifecycle r) = false →
  0 ≤ C_authority_sequence c < two64 - 1 →
  no_boot ops → Forall cop_typed ops →
  let c1 := (coord_cancel_request c id reason now).2 in
  known_through c1 ops id →
  let c2 := coord_run c1 ops in
  (∀ d, sub_kind (dec_subject d) = SubjectKind.Serving → sub_request (dec_subject d) = id →
     ok (validate_decision_locked c2 d) = false ∧
     ∀ bytes now', ok (open_flow_locked c2 d bytes now').1 = false) ∧
  (∀ (order : HashOrder) request s now', tr_subject request = Some s →
     sub_kind s = SubjectKind.Serving → sub_request s = id →
     permits_traffic (evaluate_locked c2 request now').1 = false).
Proof.
  intros Hr Ht Hseq Hb Hty c1 Hk c2.
  assert (∃ r2, L_requests (C_ledger c2) !! id = Some r2 ∧ rr_lifecycle r2 = RequestLifecycle.Cancelled)
    as (r2 & Hr2 & Hc2).
  { destruct (Hk 0%nat) as [r1 Hr1]. change (L_requests (C_ledger c1) !! id = Some r1) in Hr1.
    destruct (cancel_records c id reason now) as [K N]. fold c1 in K, N.
    destruct (L_requests (cancel_request (C_ledger c) id reason (advance (C_authority_sequence c)) now).2 !! id)
      as [r0|] eqn:H0; [|apply N in H0; congruence].
    destruct (cancel_settles (C_ledger c) id reason (advance (C_authority_sequence c)) now r Hr Ht)
      with (r' := r0) as [Hset _]; [rewrite advance_small; lia|done|].
    destruct (K id r0 H0) as [?|(r1' & Hr1' & He)]; [congruence|].
    destruct (ev_settled _ _ He _ Hset) as (Hset1 & _).
    destruct (coord_run_evolves ops c1 id r1' Hr1' Hb Hty Hk) as (r2 & Hr2 & He2).
    destruct (ev_settled _ _ He2 _ Hset1) as ((Hlc & _) & _). eauto. }
  assert (∀ d, sub_kind (dec_subject d) = SubjectKind.Serving → sub_request (dec_subject d) = id →
    ok (validate_decision_locked c2 d) = false) as Hval.
  { intros d Hkind Hid. unfold validate_decision_locked. rewrite Hkind.
    unfold validate_serving, snapshot_request. rewrite Hid, Hr2, Hc2. repeat case_match; done. }
  split.
  - intros d Hkind Hid. split; [by apply Hval|]. intros bytes now'. unfold open_flow_locked.
    specialize (Hval d Hkind Hid). by destruct (validate_decision_locked c2 d).
  - intros order request s now' Hs Hkind Hid.
    destruct (permits_traffic _) eqn:Hp; [|done].
    destruct (permitted_facts c2 request now' Hp) as (a & Ha & _).
    pose proof (au_subject _ _ _ _ Ha) as Hs'. rewrite Hs in Hs'. injection Hs' as ->.
    pose proof (au_resolved _ _ _ _ Ha) as Hres. unfold resolved_authorised in Hres.
    destruct (ad_resolved a); [|destruct Hres; congruence].
    destruct Hres as [_ [Hrec Hlive _ _ _ _]]. rewrite Hid, Hr2 in Hrec. injection Hrec as <-.
    by rewrite Hc2 in Hlive.
Qed.

(** ** Authority sequences *)

Lemma coord_run_sequence ops c :
  no_boot ops → 0 ≤ C_authority_sequence c →
  C_authority_sequence c + Z.of_nat (length ops) < two64 - 1 →
  C_authority_sequence c ≤ C_authority_sequence (coord_run c ops)
    ≤ C_authority_sequence c + Z.of_nat (length ops).
Proof.
  revert c. induction ops as [|op ops IH]; intros c Hb H0 Hs; [simpl; lia|].
  inversion_clear Hb. simpl length in Hs. cbn [coord_run foldl].
  assert (C_authority_sequence c ≤ C_authority_sequence (apply_cop c op) ≤ C_authority_sequence c + 1) as Hstep.
  { destruct (apply_cop_sequence c op) as [-> | ->]; [done|lia| |lia]. destruct (mints op); lia. }
  specialize (IH (apply_cop c op)). unfold coord_run in IH. lapply IH; [|done]. intros IH'.
  specialize (IH' ltac:(lia) ltac:(lia)). simpl length. lia.
Qed.

(** Between boots a decision minted later carries a strictly larger authority
    sequence than one minted earlier, whatever operations run in between, as long as the
    64-bit sequence is not exhausted. *)
Theorem later_decision_outranks_earlier (o o' : HashOrder) c request request' now now' ops :
  no_boot ops → 0 ≤ C_authority_sequence c →
  C_authority_sequence c + Z.of_nat (length ops) + 2 < two64 - 1 →
  let '(d, c1) := @evaluate_locked o c request now in
  let '(d', _) := @evaluate_locked o' (coord_run c1 ops) request' now' in
  st_sequence (dec_authority d) < st_sequence (dec_authority d').
Proof.
  intros Hb H0 Hs.
  pose proof (@evaluate_stamp o c request now) as E1. destruct (@evaluate_frame o c request now) as [_ S1].
  destruct (@evaluate_locked o c request now) as [d c1]. cbn [fst snd] in *.
  rewrite advance_small in S1 by lia.
  pose proof (coord_run_sequence ops c1 Hb ltac:(lia) ltac:(lia)) as S2.
  pose proof (@evaluate_stamp o' (coord_run c1 ops) request' now') as E3.
  destruct (@evaluate_frame o' (coord_run c1 ops) request' now') as [_ S3].
  destruct (@evaluate_locked o' (coord_run c1 ops) request' now') as [d' c3]. cbn [fst snd] in *.
  rewrite advance_small in S3 by lia. rewrite E1, E3. unfold current_stamp. simpl. lia.
Qed.

(** ** Decisions are valid when they are taken *)

Definition floor_unset (r : RequestRecord) : Prop :=
  request_is_terminal (rr_lifecycle r) = false → rr_authority_floor r = 0.

(** The snapshots a history boots from hold no fenced live request. *)
Definition cop_unfenced (op : CoordOp) : Prop :=
  match op with
  | CBootFrom state _ =>
      Forall floor_unset (ps_terminal_requests state) ∧
      Forall floor_unset (ps_interrupted_requests state)
  | _ => True
  end.

Lemma unfenced_empty L : L_requests L = ∅ → unfenced L.
Proof. intros E id r. by rewrite E, lookup_empty. Qed.

Lemma unfenced_evict L : unfenced L → unfenced (evict_if_needed L).
Proof. intros H id r. destruct (evict_lookup L id) as [->| ->]; [done|]. apply H. Qed.

Lemma unfenced_keeps L L' : keeps L L' → no_new L L' → unfenced L → unfenced L'.
Proof.
  intros K N H id r' Hr' Hl. destruct (L_requests L !! id) as [r|] eqn:Hr.
  - destruct (K id r Hr) as [Hn|(r2 & Hr2 & [[_ Hf] _ Ht _])]; [congruence|]. simplify_eq.
    rewrite Hf by done. apply (H id r Hr). apply not_true_is_false. intros Hc. apply Ht in Hc. congruence.
  - apply N in Hr. congruence.
Qed.

Lemma unfenced_put L id r : unfenced L → floor_unset r → unfenced (put_record id r L).
Proof.
  intros H Hr id' r'. cbn. rewrite lookup_insert. case_decide; [by intros [= <-]|apply H].
Qed.

Lemma unfenced_restore L r : floor_unset r → unfenced L → unfenced (restore_record L r).2.
Proof.
  intros Hr HL. unfold restore_record. repeat (case_match; [done|]).
  cbn [rr_lifecycle setter rr_set_attempts].
  destruct (request_is_terminal (rr_lifecycle r)) eqn:Ht; cbn [snd]; apply unfenced_evict.
  all: refine (unfenced_put _ _ _ _ _).
  all: repeat case_match; try exact HL.
  all: unfold floor_unset; cbn; first [congruence | by intros; apply Hr].
Qed.

Lemma unfenced_restores rs L :
  Forall floor_unset rs → unfenced L → unfenced (restore_records rs L).2.
Proof.
  revert L. induction rs as [|r rs IH]; intros L Hrs HL; [done|]. inversion_clear Hrs.
  cbn [restore_records]. pose proof (unfenced_restore L r ltac:(done) HL) as H1.
  destruct (restore_record L r) as [[u|e] L1]; cbn [snd] in *; [by apply IH|done].
Qed.

Lemma unfenced_boot c state draws :
  cop_unfenced (CBootFrom state draws) → unfenced (C_ledger (boot_from c state draws).2).
Proof.
  intros [H1 H2]. unfold boot_from, restore_state.
  destruct (validate_restored_state_locked _ _); [|by apply unfenced_empty].
  set (c1 := if ps_topology_present state then _ else _).
  assert (unfenced (C_ledger c1)) as Hc1 by (apply unfenced_empty; unfold c1; by case_match).
  pose proof (unfenced_restores _ _ H1 Hc1) as R1.
  destruct (restore_records (ps_terminal_requests state) _) as [[u|e] L1]; [|by apply unfenced_empty].
  pose proof (unfenced_restores _ _ H2 R1) as R2.
  destruct (restore_records (ps_interrupted_requests state) _) as [[u2|e] L2]; [done|by apply unfenced_empty].
Qed.

Lemma unfenced_cop c op :
  cop_typed op → cop_unfenced op → unfenced (C_ledger c) → unfenced (C_ledger (apply_cop c op)).
Proof.
  intros Hty Hu Hc. destruct (cop_creates op) eqn:Hcr.
  - destruct op; try done; cbn [apply_cop]; [by apply unfenced_boot|].
    unfold coord_register_request, on_ledger, register_request. cbn [snd C_ledger setter C_set_ledger].
    repeat case_match; try done. cbn [snd]. by refine (unfenced_put _ _ _ Hc _).
  - pose proof (apply_cop_sim c op Hty) as Hs. rewrite Hcr in Hs. destruct Hs as (lops & T & -> & _).
    destruct (run_keeps lops (C_ledger c)) as [K N].
    { eapply Forall_impl; [exact T|]. intros o [_ H]. by apply H. }
    by eapply unfenced_keeps.
Qed.

Lemma unfenced_run ops c :
  Forall cop_typed ops → Forall cop_unfenced ops → unfenced (C_ledger c) →
  unfenced (C_ledger (coord_run c ops)).
Proof.
  revert c. induction ops as [|op ops IH]; intros c H1 H2 Hc; [done|].
  inversion_clear H1. inversion_clear H2. apply IH; [done..|]. by apply unfenced_cop.
Qed.

(** C17: In every reachable state of a booted coordinator, restarts from snapshots
    included, a decision that permits traffic validates in the state its evaluation
    left, so that a caller who acts at once is never refused by validate_decision;
    snapshots may hold no live request with an authority floor, which exported snapshots
    never do. *)
Theorem fresh_decision_is_valid (o : HashOrder) config ops request now :
  Forall cop_typed ops → Forall cop_unfenced ops →
  let c := coord_run (make_coordinator config) ops in
  booted c →
  let '(d, c') := evaluate_locked c request now in
  permits_traffic d = true → validate_decision_locked c' d = Success tt.
Proof.
  intros Hty Hu c Hb. pose proof (permitted_validates c request now Hb) as H.
  destruct (evaluate_locked c request now) as [d c']. apply H.
  by apply unfenced_run, unfenced_empty.
Qed.

Lemma export_loop_unfenced L order max out :
  unfenced L → Forall floor_unset out → Forall floor_unset (export_loop L order max out).
Proof.
  intros HL. revert out. induction order as [|id order IH]; intros out Hout; [done|].
  cbn [export_loop]. case_match; [|done]. case_match; [|by apply IH].
  apply IH, Forall_app. split; [done|]. apply Forall_singleton. red. by eapply HL.
Qed.

(** A snapshot the coordinator exports satisfies that hypothesis again. *)
Lemma export_unfenced c :
  unfenced (C_ledger c) →
  Forall floor_unset (ps_terminal_requests (export_state c)) ∧
  Forall floor_unset (ps_interrupted_requests (export_state c)).
Proof.
  intros HL. split; cbn [export_state ps_terminal_requests ps_interrupted_requests].
  - by apply export_loop_unfenced.
  - apply Forall_forall. intros r (_ & Hin)%list_elem_of_filter.
    apply list_elem_of_fmap in Hin as ([id r'] & -> & Hin%elem_of_map_to_list). red. by eapply HL.
Qed.

(** C18: When a snapshot passes validation the boot succeeds and restores all of it: the
    policy at the next generation, the topology evidence, every model and state record,
    awaiting revalidation, and in the ledger exactly the records of the snapshot, the
    live ones as interrupted and awaiting revalidation, the terminal ones closed, of
    these the last max_retained_terminal_requests. The epoch advances, the sequence
    restarts at 1, the boot counter is above both the snapshot's and its own (as long as
    it does not wrap), no flow, transfer, deferral, route or SLO contract survives and
    no model or state generation is current. The identity is the first two outputs of
    the engine seeded with the boot seed and the boot counter, a seed that no other boot
    counter gives, or two draws of the random device's engine when no boot seed is
    configured. *)
Theorem restart_is_all_or_nothing c state draws :
  validate_restored_state_locked c state = Success tt →
  ∃ c', boot_from c state draws = (Success (advance (ps_epoch state)), c') ∧
    C_epoch c' = advance (ps_epoch state) ∧ C_authority_sequence c' = 1 ∧
    C_boot_count c' = add64 (Z.max (ps_boot_count state) (C_boot_count c)) 1 ∧
    C_incarnation c' = boot_identity (cf_boot_seed (C_config c)) (C_boot_count c') draws ∧
    (∀ count, is_u64 count → boot_engine_seed (cf_boot_seed (C_config c)) count
       = boot_engine_seed (cf_boot_seed (C_config c)) (C_boot_count c') → count = C_boot_count c') ∧
    restored state c' ∧ L_limits (C_ledger c') = L_limits (C_ledger c) ∧
    C_flows c' = ∅ ∧ C_transfers c' = ∅ ∧ C_defers c' = ∅ ∧ C_route_decisions c' = ∅ ∧
    C_slo_contracts c' = ∅ ∧
    (∀ h, ok (require_model_generation_locked c' h) = false) ∧
    (∀ h, ok (require_state_generation_locked c' h) = false).
Proof.
  intros Hv. unfold boot_from. destruct (validated_state_restores c state Hv) as (c1 & E & R & EL).
  pose proof (restore_state_quiet (clear_state_locked c) state) as Q. rewrite E in *. cbn [snd] in Q.
  destruct Q as (Q1 & Q2 & Q3 & Q4 & Q5 & _ & _ & _ & Q6 & Q7).
  eexists. split; [reflexivity|].
  cbn. rewrite Q6, Q7. split_and!; try done.
  - intros count Hc. apply boot_seeds_differ; [done|]. apply wrap64_range.
  - by destruct R.
  - intros h. unfold require_model_generation_locked. cbn. rewrite (rs_models _ _ R).
    by destruct (find _ _).
  - intros h. unfold require_state_generation_locked. cbn. rewrite (rs_states _ _ R).
    by destruct (find _ _).
Qed.

Lemma clear_state_idem c : clear_state_locked (clear_state_locked c) = clear_state_locked c.
Proof. reflexivity. Qed.

(** A boot is refused only because the snapshot failed validation, and a refused
    boot leaves exactly the cleared coordinator: no restored record, and the epoch,
    identity, policy and sequence it had. *)
Theorem refused_restart_changes_no_authority c state draws e :
  (boot_from c state draws).1 = Failure e →
  validate_restored_state_locked c state = Failure e ∧
  (boot_from c state draws).2 = clear_state_locked c.
Proof.
  unfold boot_from.
  destruct (validate_restored_state_locked c state) as [[]|e'] eqn:Hv.
  - destruct (validated_state_restores c state Hv) as (c1 & E & _). by rewrite E.
  - unfold restore_state. change (validate_restored_state_locked (clear_state_locked c) state)
      with (validate_restored_state_locked c state). rewrite Hv. cbn [refuse fst snd].
    intros He. injection He as ->. split; [reflexivity|apply clear_state_idem].
Qed.

(** C26: After a successful restart from a snapshot whose epoch is not the last one,
    2^64 - 1, every decision with a set identity that is stamped with an epoch from 1 up
    to the one in the snapshot fails validation with StaleEpoch. *)
Theorem restart_fences_earlier_decisions c state draws d :
  ok (boot_from c state draws).1 = true →
  0 < st_epoch (dec_authority d) ≤ ps_epoch state → ps_epoch state < two64 - 1 →
  st_incarnation (dec_authority d) ≠ nil_id →
  validate_decision_locked (boot_from c state draws).2 d = Failure StatusCode.StaleEpoch.
Proof.
  intros Hok Hd He Hi.
  destruct (validate_restored_state_locked c state) as [[]|e'] eqn:Hv.
  - assert (C_epoch (boot_from c state draws).2 = advance (ps_epoch state)) as E.
    { unfold boot_from in *. destruct (restore_state _ _) as [[u|e] c1]; done. }
    unfold validate_decision_locked, validate_authority. rewrite E, advance_small by lia.
    unfold is_unset. destruct (Z.eqb_spec (st_epoch (dec_authority d)) 0); [lia|].
    rewrite (proj2 (is_nil_false _) Hi). cbn [orb].
    rewrite bool_decide_false by lia. done.
  - unfold boot_from, restore_state in Hok.
    change (validate_restored_state_locked (clear_state_locked c) state)
      with (validate_restored_state_locked c state) in Hok. by rewrite Hv in Hok.
Qed.
