(* ===== verification/CoordMirror.v ===== *)
(** * The coordinator's flow table mirrors the ledger's

    The coordinator and its ledger each keep a table of the open flows, the
    coordinator two indexes and a sum of bulk bytes besides. Shown here: in histories
    in which no transfer is authorised and flows are opened for serving decisions only
    the two tables agree after every command, the index and the sum are exact, and the run-time audit [verify_invariants] succeeds.
    With transfers the audit can fail; [CoordFindings] has the histories. *)

From S2P Require Import Prelude Ids Traffic Decision Policy Ledger LedgerInv LedgerRun LedgerEvolve Coordinator Evaluate Flows CoordAudit.
From S2P Require Import EvaluateState Deferral CoordRun CoordSafety.

(** ** What ledger calls do to the flow table *)

Lemma evict_flows L : L_flows (evict_if_needed L) = L_flows L.
Proof.
  unfold evict_if_needed. cbn [refresh_request_counts L_flows setter L_set_accounting].
  generalize (L_terminal_order L) as order. intros order. revert L.
  induction order as [|v rest IH]; intros L; cbn [evict_loop]; [done|].
  repeat case_match; try done; by rewrite IH.
Qed.

Lemma release_flow_flows L f : L_flows (release_flow L f).2 = delete f (L_flows L).
Proof.
  unfold release_flow. destruct (L_flows L !! f) eqn:E; [|by rewrite delete_id].
  by repeat case_match.
Qed.

(** The flows of [L'] are those of [L], or some flows of the request are gone. *)
Definition drops (id : RequestId) (L L' : RequestLedger) : Prop :=
  ∀ f, L_flows L' !! f = L_flows L !! f
       ∨ (∃ fr, L_flows L !! f = Some fr ∧ lf_request fr = id ∧ L_flows L' !! f = None).

Lemma terminate_drops id r L :
  flows_inv L → rr_id r = id → drops id L (terminate id r L).
Proof.
  intros Hi Hr f. unfold terminate, release_request_flows.
  cbn [put_record push_terminal L_flows setter L_set_requests L_set_terminal_order L_set_flows_by_request].
  rewrite close_flows_lookup, Hr. case_decide as D; [|by left]. right.
  apply (fi_index L Hi) in D as (fr & Hf & E). by exists fr.
Qed.

(** Calls that leave the table alone. *)
Definition flowless (op : LedgerOp) : bool :=
  match op with
  | OpRegisterRequest _ _ | OpRegisterAttempt _ _ _ _ _ _ | OpRevalidate _ _ _ | OpAdvanceStage _ _ _ _
  | OpSupersede _ _ _ _ | OpSetModel _ _ _ _ | OpRecordDecision _ _ _ _ _ _ | OpRestore _ => true
  | _ => false
  end.

Lemma flowless_flows L op : flowless op = true → L_flows (apply_op L op) = L_flows L.
Proof.
  intros Hf. destruct op; try done; cbn [apply_op].
  - unfold register_request. by result_guards.
  - unfold register_attempt. by result_guards.
  - unfold revalidate_request. by result_guards.
  - unfold advance_stage. by result_guards.
  - unfold supersede_attempt. by result_guards.
  - unfold set_attempt_model. by result_guards.
  - unfold record_decision. by result_guards.
  - unfold restore_record. repeat (case_match; try done).
    all: match goal with H : (_, _) = (_, _) |- _ => injection H as <- <- end; cbn [snd]; by rewrite evict_flows.
Qed.

Lemma drops_evict id L X : drops id L X → drops id L (evict_if_needed X).
Proof. intros H f. rewrite evict_flows. apply H. Qed.

Lemma drops_bump id L X f `{!Setter f} : drops id L X → drops id L (bump f X).
Proof. done. Qed.

Lemma stored_id L id r : flows_inv L → L_requests L !! id = Some r → rr_id r = id.
Proof. intros Hi Hr. apply (fi_records L Hi id r Hr). Qed.

Ltac drops_solve :=
  repeat first [apply drops_evict | apply drops_bump];
  match goal with Hi : flows_inv ?L, H : L_requests ?L !! _ = Some _ |- drops _ ?L (terminate _ _ _) =>
    apply terminate_drops; [exact Hi|exact (stored_id _ _ _ Hi H)] end.

Lemma cancel_flows L id reason seq now :
  flows_inv L →
  let '(status, L') := cancel_request L id reason seq now in
  if ok status then is_Some (L_requests L !! id) ∧ drops id L L' else L_flows L' = L_flows L.
Proof.
  intros Hi. unfold cancel_request. destruct (L_requests L !! id) as [r|] eqn:E; [|done].
  destruct (rr_lifecycle r ≟ RequestLifecycle.Cancelled); [split; [done|by left]|].
  destruct (request_is_terminal _); [done|]. split; [done|].
  apply drops_evict, drops_bump, terminate_drops; [done|]. rewrite <- (stored_id L id r Hi E).
  unfold raise_floor. by case_match.
Qed.

Lemma fail_flows L id a reason now :
  flows_inv L →
  let '(outcome, L') := fail_attempt L id a reason now in
  match outcome with
  | Some (Failure _) => L_flows L' = L_flows L
  | _ => is_Some (L_requests L !! id) ∧ drops id L L'
  end.
Proof.
  intros Hi. unfold fail_attempt. destruct (L_requests L !! id) as [r|] eqn:E; [|done].
  destruct (find_attempt r a) as [[i e]|]; [|done].
  destruct (is_current_attempt r a); [|done]. cbn [negb].
  destruct (attempt_is_terminal (at_lifecycle e)).
  { destruct (at_lifecycle e ≟ AttemptLifecycle.Failed); [split; [done|by left]|done]. }
  set (L' := evict_if_needed _). assert (drops id L L') as Hd by drops_solve.
  by destruct (L_requests L' !! id).
Qed.

Lemma publish_flows L p now :
  flows_inv L →
  let '(outcome, L') := publish_completion L p now in
  match outcome with
  | Success value =>
      if po_disposition value ≟ Disposition.Committed
      then is_Some (L_requests L !! cp_request p) ∧ drops (cp_request p) L L' else L_flows L' = L_flows L
  | Failure _ => L_flows L' = L_flows L
  end.
Proof.
  intros Hi. unfold publish_completion. destruct (is_nil _ || is_nil _); [done|].
  destruct (L_requests L !! cp_request p) as [r|] eqn:E; [|done].
  destruct (find_attempt r (cp_attempt p)) as [[i e]|]; [|done].
  repeat (match goal with |- context [if ?b then refuse_publication _ _ _ else _] => destruct b; [done|]
          | |- context [if ?b then suppress_publication _ else _] => destruct b; [done|] end).
  destruct (cp_success p); cbn [negb].
  - unfold publish_success. destruct (at_success_published e); [done|]. split; [done|]. drops_solve.
  - unfold publish_failure. destruct (at_failure_published e); [done|]. split; [done|]. drops_solve.
Qed.

(** No request has the empty identity. *)
Definition named (L : RequestLedger) : Prop := L_requests L !! nil_id = None.

Lemma apply_op_named L op : named L → named (apply_op L op).
Proof.
  intros Hn. destruct (creates op) eqn:E; [|by apply apply_op_no_new].
  destruct op; try done; cbn [apply_op].
  - unfold register_request. result_guards; try done.
    unfold named. cbn. apply lookup_insert_None. split; [done|]. by intros ->.
  - unfold restore_record. case_match eqn:Er; [done|]. repeat (case_match; try done).
    all: match goal with H : (_, _) = (_, _) |- _ => injection H as <- <- end.
    all: cbn [snd]; match goal with |- named (evict_if_needed ?X) =>
      unfold named; destruct (evict_lookup X nil_id) as [->| ->]; [done|] end.
    all: cbn; apply lookup_insert_None; split; [done|]; intros E1; by rewrite E1 in Er.
Qed.

Lemma run_named ops L : named L → named (run L ops).
Proof. revert L. induction ops as [|op ops IH]; intros L Hn; [done|]. apply IH. by apply apply_op_named. Qed.

(** ** Sums, and the sum of bulk bytes *)

Definition sum_of {A} (w : A → Z) (l : list A) : Z := foldr (fun x total => w x + total) 0 l.

#[global] Instance sum_of_proper {A} (w : A → Z) : Proper ((≡ₚ) ==> eq) (sum_of w).
Proof. intros l l' Hp. unfold sum_of. induction Hp; simpl; lia. Qed.

Lemma sum_of_nonneg {A} (w : A → Z) l : Forall (fun x => 0 ≤ w x) l → 0 ≤ sum_of w l.
Proof. induction 1; simpl; lia. Qed.

Definition bulk_bytes (f : FlowRecord) : Z := if fl_bulk f then fl_declared_bytes f else 0.
Definition bulk_of (m : gmap FlowId FlowRecord) : Z := sum_of bulk_bytes (snd <$> map_to_list m).

Lemma bulk_of_insert m id f : m !! id = None → bulk_of (<[id := f]> m) = bulk_bytes f + bulk_of m.
Proof. intros Hn. unfold bulk_of. by rewrite (map_to_list_insert m id f Hn). Qed.

Lemma bulk_of_delete m id f : m !! id = Some f → bulk_of m = bulk_bytes f + bulk_of (delete id m).
Proof.
  intros Hf. rewrite <- (insert_delete_id m id f Hf) at 1. apply bulk_of_insert, lookup_delete_eq.
Qed.

Definition declared_within (limit : Z) (f : FlowRecord) : Prop := 0 ≤ fl_declared_bytes f ≤ limit.

Lemma bulk_sum_bound limit l :
  Forall (declared_within limit) l → 0 ≤ sum_of bulk_bytes l ≤ limit * Z.of_nat (length l).
Proof.
  induction 1 as [|f l [Hf Hf'] Hl IH]; [simpl; lia|]. change (sum_of bulk_bytes (f :: l)) with (bulk_bytes f + sum_of bulk_bytes l).
  cbn [length]. rewrite Nat2Z.inj_succ.
  assert (0 ≤ bulk_bytes f ≤ limit) by (unfold bulk_bytes; destruct (fl_bulk f); lia). lia.
Qed.

Lemma bulk_of_bound limit m :
  (∀ id f, m !! id = Some f → declared_within limit f) → 0 ≤ bulk_of m ≤ limit * size_of m.
Proof.
  intros Hm. unfold bulk_of, size_of. rewrite <- length_map_to_list, <- (length_fmap snd).
  apply bulk_sum_bound. apply Forall_fmap, Forall_forall. intros [id f] Hf. apply (Hm id). by apply elem_of_map_to_list.
Qed.

(** ** The tables agree *)

(** The tables agree but for flows of a request in [P], which the ledger may have
    dropped already; no transfer holds a flow. *)
Record mirrored (P : RequestId → Prop) (c : Coordinator) : Prop := {
  mr_same : ∀ id, fl_request <$> C_flows c !! id = lf_request <$> L_flows (C_ledger c) !! id
    ∨ (∃ f, C_flows c !! id = Some f ∧ P (fl_request f) ∧ L_flows (C_ledger c) !! id = None);
  mr_id : ∀ id f, C_flows c !! id = Some f → fl_id f = id;
  mr_serving : ∀ id f, C_flows c !! id = Some f → is_nil (fl_request f) = false ∧ is_nil (fl_transfer f) = true;
  mr_declared : ∀ id f, C_flows c !! id = Some f →
    declared_within (cl_max_single_payload_bytes (cf_limits (C_config c))) f;
  mr_index : ∀ r id, id ∈ mm_range (C_flows_by_request c) r ↔ ∃ f, C_flows c !! id = Some f ∧ fl_request f = r;
  mr_nodup : ∀ r, NoDup (mm_range (C_flows_by_request c) r);
  mr_bulk : C_bulk_in_flight_bytes c = bulk_of (C_flows c);
  mr_small : bulk_of (C_flows c) < two64;
  mr_idle : ∀ id t, C_transfers c !! id = Some t → is_nil (tx_flow t) = true;
  mr_quiet : ∀ t, mm_range (C_flows_by_transfer c) t = [];
}.

Definition nobody (_ : RequestId) : Prop := False.

Lemma mirrored_weaken (P P' : RequestId → Prop) c : (∀ r, P r → P' r) → mirrored P c → mirrored P' c.
Proof.
  intros Hp []. split; try done. intros id. destruct (mr_same0 id) as [->|(f&?&?&?)]; [by left|right].
  exists f. split_and!; [done|by apply Hp|done].
Qed.

(** What the invariant reads of a coordinator, but for the ledger and transfers. *)
Definition table (c : Coordinator) :=
  (C_config c, C_flows c, C_flows_by_request c, C_flows_by_transfer c, C_bulk_in_flight_bytes c).

Lemma mirrored_view P c c' :
  mirrored P c → table c' = table c → L_flows (C_ledger c') = L_flows (C_ledger c) →
  (∀ id t, C_transfers c' !! id = Some t → is_nil (tx_flow t) = true) → mirrored P c'.
Proof. intros [] [= E1 E2 E3 E4 E5] E6 E7. split; rewrite ?E1, ?E2, ?E3, ?E4, ?E5, ?E6; done. Qed.

(** The ledger drops flows of a request. *)
Lemma mirrored_drops r c L' :
  mirrored nobody c → drops r (C_ledger c) L' → mirrored (eq r) (c <| C_ledger := L' |>).
Proof.
  intros [] Hd. split; try done. intros id. cbn [C_flows C_ledger setter C_set_ledger].
  destruct (mr_same0 id) as [E|(?&_&[]&_)]. destruct (Hd id) as [->|(fr&Hf&Hr&Hn)]; [by left|right].
  rewrite Hf in E. destruct (C_flows c !! id) as [f|]; [|done]. exists f. simpl in E. injection E as E. by rewrite E.
Qed.

(** Releasing a flow of the table. *)
Lemma release_fields c f :
  is_nil (fl_request f) = false → is_nil (fl_transfer f) = true →
  let c' := release_flow_locked c f in
  C_config c' = C_config c ∧ C_flows c' = delete (fl_id f) (C_flows c)
  ∧ C_flows_by_request c' = mm_erase_one (C_flows_by_request c) (fl_request f) (fl_id f)
  ∧ C_flows_by_transfer c' = C_flows_by_transfer c ∧ C_transfers c' = C_transfers c
  ∧ C_ledger c' = (release_flow (C_ledger c) (fl_id f)).2
  ∧ C_bulk_in_flight_bytes c' =
      if fl_bulk f
      then if fl_declared_bytes f <=? C_bulk_in_flight_bytes c
           then sub64 (C_bulk_in_flight_bytes c) (fl_declared_bytes f) else 0
      else C_bulk_in_flight_bytes c.
Proof. intros Hr Ht. unfold release_flow_locked. rewrite Hr, Ht. by destruct (fl_bulk f). Qed.

Lemma release_mirrored P c id f :
  mirrored P c → C_flows c !! id = Some f →
  mirrored P (release_flow_locked c f) ∧ C_flows (release_flow_locked c f) = delete id (C_flows c).
Proof.
  intros [] Hf. pose proof (mr_id0 id f Hf) as <-. destruct (mr_serving0 _ _ Hf) as [Hr Ht].
  destruct (release_fields c f Hr Ht) as (Ec&Ef&Ei&Eb&Et&El&Ek). split; [|done].
  pose proof (bulk_of_delete _ _ _ Hf) as Hsum. unfold bulk_bytes in Hsum.
  assert (0 ≤ bulk_of (delete (fl_id f) (C_flows c))) as Hpos.
  { eapply bulk_of_bound. intros i g Hg. apply lookup_delete_Some in Hg as [_ Hg]. exact (mr_declared0 i g Hg). }
  assert (∀ i g, delete (fl_id f) (C_flows c) !! i = Some g → C_flows c !! i = Some g) as Hsub.
  { intros i g Hg. by apply lookup_delete_Some in Hg as [_ Hg]. }
  destruct (mr_declared0 _ _ Hf) as [Hd0 _].
  split; rewrite ?Ec, ?Ef, ?Ei, ?Eb, ?Et, ?El; try done.
  - intros i. rewrite release_flow_flows, !lookup_delete. case_decide; [by left|apply mr_same0].
  - intros i g Hg. by apply mr_id0, Hsub.
  - intros i g Hg. by apply (mr_serving0 i), Hsub.
  - intros i g Hg. by apply (mr_declared0 i), Hsub.
  - intros r i. rewrite mm_range_erase_one, lookup_delete. case_decide as Dr; [subst r|].
    + destruct (remove_first_NoDup (fl_id f) _ (mr_nodup0 (fl_request f))) as [_ Hnot].
      case_decide as Di; [subst i; split; [by intros H%Hnot|by intros (?&?&_)]|].
      rewrite <- mr_index0. split; [apply elem_of_remove_first|by apply elem_of_remove_first_ne].
    + rewrite mr_index0. case_decide as Di; [|done]. subst i. split; [|by intros (?&?&_)].
      intros (g&Hg&Hgr). congruence.
  - intros r. rewrite mm_range_erase_one. case_decide; [by apply remove_first_NoDup|done].
  - rewrite Ek, mr_bulk0. destruct (fl_bulk f); [|lia]. rewrite (proj2 (Z.leb_le _ _)) by lia.
    unfold sub64. rewrite wrap64_id by (unfold is_u64; lia). lia.
  - case_match; lia.
Qed.

Lemma release_victims_mirrored P l c :
  mirrored P c →
  mirrored P (foldl release_victim c l)
  ∧ ∀ id, C_flows (foldl release_victim c l) !! id = if decide (id ∈ l) then None else C_flows c !! id.
Proof.
  revert c. induction l as [|v l IH]; intros c Hm; cbn [foldl].
  { split; [done|]. intros id. by rewrite decide_False by apply not_elem_of_nil. }
  assert (mirrored P (release_victim c v) ∧ C_flows (release_victim c v) = delete v (C_flows c)) as [H1 E1].
  { unfold release_victim. destruct (C_flows c !! v) as [f|] eqn:E; [by apply release_mirrored|].
    split; [done|by rewrite delete_id]. }
  destruct (IH _ H1) as [H2 E2]. split; [done|]. intros id. rewrite E2, E1, lookup_delete.
  destruct (decide (id ∈ v :: l)) as [D|D]; rewrite elem_of_cons in D.
  - case_decide; [done|]. case_decide; [done|]. by destruct D as [->|].
  - rewrite !decide_False by (intros ?; apply D; auto). done.
Qed.

(** The transfers of a request that ends hold no flow. *)
Lemma abandon_idle l v c :
  (∀ id t, C_transfers c !! id = Some t → is_nil (tx_flow t) = true) →
  let '(v', c') := foldl abandon_owned (v, c) l in
  v' = v ∧ table c' = table c ∧ C_ledger c' = C_ledger c
  ∧ ∀ id t, C_transfers c' !! id = Some t → is_nil (tx_flow t) = true.
Proof.
  revert c. induction l as [|t l IH]; intros c Hc; [done|]. cbn [foldl]. unfold abandon_owned at 2.
  destruct (C_transfers c !! t) as [x|] eqn:E; [|by apply IH]. rewrite (Hc t x E). cbn [negb].
  destruct (transfer_is_over (tx_state x)); cbn [negb]; [by apply IH|].
  set (c1 := put_transfer t _ c). assert (table c1 = table c) as <- by done.
  assert (C_ledger c1 = C_ledger c) as <- by done. apply IH. intros id y.
  unfold c1. cbn [put_transfer C_transfers setter C_set_transfers].
  intros [[<- <-]|[_ Hy]]%lookup_insert_Some; [|by eapply Hc]. exact (Hc t x E).
Qed.

Lemma release_request_mirrored r c :
  is_nil r = false → mirrored (eq r) c → mirrored nobody (coord_release_request_flows c r).
Proof.
  intros Hr Hm. unfold coord_release_request_flows. rewrite Hr.
  pose proof (abandon_idle (mm_range (C_transfers_by_request c) r) (mm_range (C_flows_by_request c) r) c
    (mr_idle _ c Hm)) as Ha.
  destruct (foldl abandon_owned _ _) as [victims c1]. destruct Ha as (->&Et&El&Hidle).
  assert (mirrored (eq r) c1) as Hm1 by (eapply mirrored_view; [exact Hm|done|by rewrite El|done]).
  destruct (release_victims_mirrored (eq r) (mm_range (C_flows_by_request c) r) c1 Hm1) as [Hm2 E2].
  destruct Hm2. split; try done. intros id. destruct (mr_same0 id) as [E|(f&Hf&Hrf&_)]; [by left|]. exfalso.
  rewrite E2 in Hf. case_decide as D; [done|]. apply D. apply (mr_index _ c Hm). exists f. split; [|done].
  injection Et as _ Ef _ _ _. by rewrite <- Ef.
Qed.

Lemma release_request_again r c : mirrored nobody c → mirrored nobody (coord_release_request_flows c r).
Proof.
  intros Hm. destruct (is_nil r) eqn:E; [unfold coord_release_request_flows; by rewrite E|].
  apply release_request_mirrored; [done|]. by eapply mirrored_weaken; [|exact Hm].
Qed.

(** A request that the ledger knows has a name. *)
Lemma known_named L r : named L → is_Some (L_requests L !! r) → is_nil r = false.
Proof.
  intros Hn [x Hx]. apply is_nil_false. intros ->. unfold named in Hn. congruence.
Qed.

Lemma release_transfer_mirrored c t : mirrored nobody c → release_transfer_flows_locked c t = c.
Proof. intros []. unfold release_transfer_flows_locked. case_match; [done|]. by rewrite mr_quiet0. Qed.

(** ** Opening a flow *)

(** The flow that opening makes in the ledger. *)
Lemma open_flow_opened L id a traffic declared now f L' :
  flows_inv L → L_next_flow_sequence L + 1 < two64 → open_flow L id a traffic declared now = (Success f, L') →
  ∃ fr, L_flows L !! f = None ∧ lf_request fr = id ∧ L_flows L' = <[f := fr]> (L_flows L)
    ∧ is_Some (L_requests L !! id).
Proof.
  intros Hi Hs. unfold open_flow. case_match; [done|]. destruct (L_requests L !! id) as [r|]; [|done].
  do 3 (case_match; [done|]). destruct (find_attempt r a) as [[i e]|]; [|done]. do 5 (case_match; [done|]).
  intros [= <- <-]. set (flow := MkId _ _). assert (L_flows L !! flow = None) as Hn.
  { destruct (L_flows L !! flow) as [fr|] eqn:E; [|done]. apply (fi_seq L Hi) in E as [_ E]. simpl in E.
    rewrite add64_small in E by (pose proof (fi_seq_nonneg L Hi); lia). lia. }
  eexists. split; [done|]. split; [|split; [|done]]; [|cbn; by rewrite map_emplace_fresh by done]. done.
Qed.

Lemma open_flow_refused L id a traffic declared now e L' :
  open_flow L id a traffic declared now = (Failure e, L') → L' = L.
Proof.
  unfold open_flow. case_match; [by intros [= _ <-]|]. destruct (L_requests L !! id) as [r|]; [|by intros [= _ <-]].
  do 3 (case_match; [by intros [= _ <-]|]). destruct (find_attempt r a) as [[i x]|]; [|by intros [= _ <-]].
  do 5 (case_match; [by intros [= _ <-]|]). done.
Qed.

Lemma same_size (m : gmap FlowId FlowRecord) (m' : gmap FlowId LFlow) :
  (∀ id, fl_request <$> m !! id = lf_request <$> m' !! id) → size_of m = size_of m'.
Proof.
  intros Hm. unfold size_of. rewrite <- (map_size_fmap fl_request m), <- (map_size_fmap lf_request m'). do 2 f_equal.
  apply map_eq. intros id. by rewrite !lookup_fmap.
Qed.

Lemma mirrored_same c :
  mirrored nobody c → ∀ id, fl_request <$> C_flows c !! id = lf_request <$> L_flows (C_ledger c) !! id.
Proof. intros [] id. by destruct (mr_same0 id) as [|(?&_&[]&_)]. Qed.

Lemma store_fields f c :
  is_nil (fl_request f) = false → is_nil (fl_transfer f) = true →
  let c' := store_flow f c in
  C_config c' = C_config c ∧ C_flows c' = map_emplace (fl_id f) f (C_flows c)
  ∧ C_flows_by_request c' = mm_emplace (C_flows_by_request c) (fl_request f) (fl_id f)
  ∧ C_flows_by_transfer c' = C_flows_by_transfer c ∧ C_transfers c' = C_transfers c
  ∧ C_ledger c' = C_ledger c
  ∧ C_bulk_in_flight_bytes c' =
      if fl_bulk f then add64 (C_bulk_in_flight_bytes c) (fl_declared_bytes f) else C_bulk_in_flight_bytes c.
Proof. intros Hr Ht. unfold store_flow. rewrite Hr, Ht. by destruct (fl_bulk f). Qed.

(** A new flow in both tables. *)
Lemma store_mirrored c f fr L' :
  let limit := cl_max_single_payload_bytes (cf_limits (C_config c)) in
  mirrored nobody c → L_flows (C_ledger c) !! fl_id f = None → lf_request fr = fl_request f →
  L_flows L' = <[fl_id f := fr]> (L_flows (C_ledger c)) →
  is_nil (fl_request f) = false → is_nil (fl_transfer f) = true → declared_within limit f →
  limit * size_of (L_flows L') < two64 → mirrored nobody (store_flow f (c <| C_ledger := L' |>)).
Proof.
  intros limit Hm Hn Hfr EL Hr Ht Hd Hlim. pose proof (mirrored_same c Hm) as Hsame.
  destruct (store_fields f (c <| C_ledger := L' |>) Hr Ht) as (Ec&Ef&Ei&Eb&Et&El&Ek).
  cbn [C_config C_flows C_flows_by_request C_flows_by_transfer C_transfers C_ledger C_bulk_in_flight_bytes setter
       C_set_ledger] in Ec, Ef, Ei, Eb, Et, El, Ek.
  assert (C_flows c !! fl_id f = None) as Hcn.
  { specialize (Hsame (fl_id f)). rewrite Hn in Hsame. by destruct (C_flows c !! fl_id f). }
  rewrite (map_emplace_fresh _ _ _ Hcn) in Ef.
  assert (∀ id, fl_request <$> <[fl_id f := f]> (C_flows c) !! id = lf_request <$> L_flows L' !! id) as Hs'.
  { intros id. rewrite EL, !lookup_insert. case_decide; [simpl; by rewrite Hfr|apply Hsame]. }
  destruct Hm. assert (∀ i g, <[fl_id f := f]> (C_flows c) !! i = Some g → declared_within limit g) as Hdecl.
  { intros i g. rewrite lookup_insert_Some. intros [[_ <-]|[_ Hg]]; [done|by apply (mr_declared0 i)]. }
  pose proof (bulk_of_bound limit _ Hdecl) as Hb. rewrite (same_size _ _ Hs') in Hb.
  pose proof (bulk_of_insert _ _ f Hcn) as Hsum. unfold bulk_bytes in Hsum.
  pose proof (bulk_of_bound limit (C_flows c) mr_declared0) as Hb0.
  split; rewrite ?Ec, ?Ef, ?Ei, ?Eb, ?Et, ?El; try done.
  - intros id. left. apply Hs'.
  - intros i g. rewrite lookup_insert_Some. intros [[<- <-]|[_ Hg]]; [done|by apply mr_id0].
  - intros i g. rewrite lookup_insert_Some. intros [[<- <-]|[_ Hg]]; [done|by apply (mr_serving0 i)].
  - intros r i. rewrite mm_range_emplace, lookup_insert. case_decide as Dr; [subst r|].
    + rewrite elem_of_app, list_elem_of_singleton, mr_index0. case_decide as Di; [subst i|].
      * split; [intros _; by exists f|by right].
      * split; [by intros [?|E]; [|congruence]|by left].
    + rewrite mr_index0. case_decide as Di; [subst i|done]. split; intros (g&Hg&Hgr); congruence.
  - intros r. rewrite mm_range_emplace. case_decide; [|done]. apply NoDup_app. split_and!; [done| |apply NoDup_singleton].
    intros x Hx ->%list_elem_of_singleton. apply mr_index0 in Hx as (g&Hg&_). congruence.
  - rewrite Ek, mr_bulk0, Hsum. destruct (fl_bulk f); [|lia]. rewrite add64_small by lia. lia.
  - lia.
Qed.

Lemma open_mirrored c d bytes now :
  flows_inv (C_ledger c) → named (C_ledger c) → L_next_flow_sequence (C_ledger c) + 1 < two64 →
  mirrored nobody c → sub_kind (dec_subject d) = SubjectKind.Serving → 0 ≤ bytes →
  cl_max_single_payload_bytes (cf_limits (C_config c))
    * size_of (L_flows (C_ledger (open_flow_locked c d bytes now).2)) < two64 →
  mirrored nobody (open_flow_locked c d bytes now).2.
Proof.
  intros Hi Hn Hs Hm Hk Hb. unfold open_flow_locked. destruct (validate_decision_locked c d); [|done].
  cbv zeta. case_match eqn:El; [done|]. case_match; [done|]. rewrite (bool_decide_true _ Hk).
  destruct (open_flow _ _ _ _ _ _) as [[id|e] L'] eqn:E; cbn [snd]; rewrite ?store_flow_ledger;
    cbn [C_ledger setter C_set_ledger fl_request fl_attempt fl_set_request fl_set_attempt] in *.
  - intros Hlim. apply (open_flow_opened _ _ _ _ _ _ _ _ Hi Hs) in E as (fr&Hnone&Hfr&EL&Hknown).
    eapply (store_mirrored c _ fr L'); try done; [by apply (known_named (C_ledger c))|].
    cbn. rewrite Z.gtb_ltb in El. apply Z.ltb_ge in El. done.
  - intros _. apply open_flow_refused in E as ->. eapply mirrored_view; [exact Hm|done|done|apply Hm].
Qed.

(** ** Observed bytes *)

Lemma record_flow_requests L flow bytes inbound id :
  lf_request <$> L_flows (record_flow_bytes L flow bytes inbound).2 !! id = lf_request <$> L_flows L !! id.
Proof.
  unfold record_flow_bytes. destruct (L_flows L !! flow) as [fr|] eqn:E; [|done].
  destruct (checked_add _ _); [|done]. set (L1 := L <| L_flows := _ |>).
  assert (lf_request <$> L_flows L1 !! id = lf_request <$> L_flows L !! id) as E1.
  { unfold L1. cbn. rewrite lookup_insert. case_decide as D; [subst; by rewrite E|done]. }
  by repeat case_match.
Qed.

Lemma record_mirrored c flow bytes inbound :
  mirrored nobody c → mirrored nobody (coord_record_flow_bytes c flow bytes inbound).2.
Proof.
  intros Hm. pose proof (mirrored_same c Hm) as Hsame. unfold coord_record_flow_bytes.
  destruct (C_flows c !! flow) as [f|] eqn:E; [|done]. destruct (checked_add _ _) as [updated|]; [|done].
  set (f' := f <| fl_observed_bytes := updated |>). destruct Hm. destruct (mr_serving0 _ _ E) as [Hr Ht]. rewrite Hr.
  cbn [negb on_ledger snd]. set (L' := (record_flow_bytes _ _ _ _).2).
  assert (∀ i, fl_request <$> <[flow := f']> (C_flows c) !! i = fl_request <$> C_flows c !! i) as Hreq.
  { intros i. rewrite lookup_insert. case_decide; [subst; by rewrite E|done]. }
  assert (∀ i g, <[flow := f']> (C_flows c) !! i = Some g → ∃ g', C_flows c !! i = Some g' ∧ fl_id g = fl_id g'
    ∧ fl_request g = fl_request g' ∧ fl_transfer g = fl_transfer g' ∧ fl_declared_bytes g = fl_declared_bytes g') as Hold.
  { intros i g. rewrite lookup_insert_Some. intros [[<- <-]|[_ Hg]]; [by exists f|by exists g]. }
  assert (bulk_of (<[flow := f']> (C_flows c)) = bulk_of (C_flows c)) as Hsum.
  { rewrite (bulk_of_delete _ _ _ E), <- insert_delete_eq. by rewrite bulk_of_insert by apply lookup_delete_eq. }
  split; cbn [C_config C_flows C_flows_by_request C_flows_by_transfer C_transfers C_ledger C_bulk_in_flight_bytes setter
       C_set_ledger C_set_flows]; try done.
  - intros i. left. unfold L'. rewrite Hreq, record_flow_requests. apply Hsame.
  - intros i g (g'&Hg&->&_)%Hold. by apply mr_id0.
  - intros i g (g'&Hg&_&->&->&_)%Hold. by apply (mr_serving0 i).
  - intros i g (g'&Hg&_&_&_&Hd)%Hold. unfold declared_within. rewrite Hd. by apply (mr_declared0 i).
  - intros r i. rewrite mr_index0. specialize (Hreq i). split.
    + intros (g&Hg&Hgr). rewrite Hg in Hreq. destruct (<[flow := f']> (C_flows c) !! i) as [g'|]; [|done].
      exists g'. split; [done|]. simpl in Hreq. congruence.
    + intros (g&(g'&Hg'&_&Hq&_)%Hold&Hgr). exists g'. split; [done|congruence].
  - by rewrite Hsum.
  - by rewrite Hsum.
Qed.

(** ** Boot *)

Lemma clear_mirrored c : mirrored nobody (clear_state_locked c).
Proof.
  split; cbn; try done.
  - intros id. by left.
  - intros r id. rewrite mm_range_empty. split; [by intros ?%not_elem_of_nil|by intros (?&?&_)].
  - intros r. rewrite mm_range_empty. constructor.
Qed.

Lemma restore_records_flows rs L : L_flows (restore_records rs L).2 = L_flows L.
Proof.
  revert L. induction rs as [|r rs IH]; intros L; [done|]. cbn [restore_records].
  pose proof (flowless_flows L (OpRestore r) eq_refl) as E. cbn [apply_op] in E.
  destruct (restore_record L r) as [[u|e] L1]; [|done]. by rewrite IH.
Qed.

Lemma restore_mirrored c state : mirrored nobody c → mirrored nobody (restore_state c state).2.
Proof.
  intros Hm. unfold restore_state. destruct (validate_restored_state_locked c state); [|done].
  set (c1 := if ps_topology_present state then _ else _).
  assert (mirrored nobody c1) as H1 by (unfold c1; case_match; by eapply mirrored_view; [exact Hm|..|apply Hm]).
  pose proof (restore_records_flows (ps_terminal_requests state) (C_ledger c1)) as E1.
  destruct (restore_records (ps_terminal_requests state) (C_ledger c1)) as [[u|e] L1]; cbn [snd] in *.
  - pose proof (restore_records_flows (ps_interrupted_requests state) L1) as E2.
    destruct (restore_records (ps_interrupted_requests state) L1) as [s L2]. cbn [snd] in *.
    eapply mirrored_view; [exact H1|done|cbn; by rewrite E2|apply H1].
  - eapply mirrored_view; [exact H1|done|done|apply H1].
Qed.

(** ** Every command *)

(** Every command but the authorisation of a transfer and the opening of a flow for a
    decision about one; declared sizes are not negative. *)
Definition serving_op (op : CoordOp) : Prop :=
  match op with
  | CAuthorize _ _ _ _ => False
  | COpenFlow d declared _ => sub_kind (dec_subject d) = SubjectKind.Serving ∧ 0 ≤ declared
  | _ => True
  end.

Ltac view_split Hm :=
  repeat (cbn [snd refuse]; first
    [exact Hm | (eapply mirrored_view; [exact Hm|reflexivity|reflexivity|apply Hm]) | case_match]).

(** A call that passes through to the ledger and leaves its flows. *)
Lemma flowless_mirrored c op :
  mirrored nobody c → flowless op = true → mirrored nobody (c <| C_ledger := apply_op (C_ledger c) op |>).
Proof. intros Hm Hf. eapply mirrored_view; [exact Hm|done|by apply flowless_flows|apply Hm]. Qed.

Lemma ended_mirrored c r L' :
  mirrored nobody c → named (C_ledger c) → is_Some (L_requests (C_ledger c) !! r) → drops r (C_ledger c) L' →
  mirrored nobody (coord_release_request_flows (c <| C_ledger := L' |>) r).
Proof.
  intros Hm Hn Hk Hd. apply release_request_mirrored; [by apply (known_named (C_ledger c))|]. by apply mirrored_drops.
Qed.

Lemma cancel_mirrored c request reason now :
  flows_inv (C_ledger c) → named (C_ledger c) → mirrored nobody c →
  mirrored nobody (coord_cancel_request c request reason now).2.
Proof.
  intros Hi Hn Hm. unfold coord_cancel_request, on_ledger. set (c1 := c <| C_authority_sequence := _ |>).
  assert (mirrored nobody c1) as H1 by (eapply mirrored_view; [exact Hm|done|done|apply Hm]).
  pose proof (cancel_flows (C_ledger c) request reason (advance (C_authority_sequence c)) now Hi) as Hc.
  change (C_ledger c1) with (C_ledger c). destruct (cancel_request _ _ _ _ _) as [status L']. cbn [fst snd].
  destruct (ok status); [destruct Hc; by apply (ended_mirrored c1)|].
  eapply mirrored_view; [exact H1|done|exact Hc|apply H1].
Qed.

Lemma fail_mirrored c request attempt reason now :
  flows_inv (C_ledger c) → named (C_ledger c) → mirrored nobody c →
  mirrored nobody (coord_fail_attempt c request attempt reason now).2.
Proof.
  intros Hi Hn Hm. unfold coord_fail_attempt, on_ledger.
  pose proof (fail_flows (C_ledger c) request attempt reason now Hi) as Hc.
  destruct (fail_attempt _ _ _ _ _) as [outcome L']. cbn [fst snd].
  destruct outcome as [[g|e]|]; cbn [snd]; try (destruct Hc; by apply ended_mirrored).
  eapply mirrored_view; [exact Hm|done|exact Hc|apply Hm].
Qed.

Lemma replace_mirrored c request a a' hash now :
  mirrored nobody c → mirrored nobody (coord_replace_attempt c request a a' hash now).2.
Proof.
  intros Hm. unfold coord_replace_attempt, on_ledger. destruct (resolve_model c hash) as [g|]; [|done].
  pose proof (flowless_mirrored c (OpSupersede request a a' now) Hm eq_refl) as H1. cbn [apply_op] in H1.
  destruct (supersede_attempt _ _ _ _ _) as [[x|e] L']; cbn [fst snd] in *; [|done].
  pose proof (release_request_again request _ H1) as H2. set (c2 := coord_release_request_flows _ _) in *.
  pose proof (flowless_mirrored c2 (OpSetModel request a' hash g) H2 eq_refl) as H3. cbn [apply_op] in H3.
  eapply mirrored_view; [exact H3|done|done|apply H3].
Qed.

Lemma publish_mirrored c p now :
  flows_inv (C_ledger c) → named (C_ledger c) → mirrored nobody c →
  mirrored nobody (coord_publish_completion c p now).2.
Proof.
  intros Hi Hn Hm. unfold coord_publish_completion, on_ledger.
  pose proof (publish_flows (C_ledger c) p now Hi) as Hc.
  destruct (publish_completion _ _ _) as [[value|e] L']; cbn [fst snd].
  2: { eapply mirrored_view; [exact Hm|done|exact Hc|apply Hm]. }
  destruct (po_disposition value ≟ Disposition.Committed).
  - destruct Hc as [Hk Hd]. pose proof (ended_mirrored c _ _ Hm Hn Hk Hd) as H1.
    match goal with |- context [trim_completions ?o ?l ?m] => destruct (trim_completions o l m) end. cbn [snd].
    eapply mirrored_view; [exact H1|done|done|apply H1].
  - eapply mirrored_view; [exact Hm|done|exact Hc|apply Hm].
Qed.

(** A transfer record that changes its state, without a flow. *)
Lemma transfer_mirrored c id t t' :
  mirrored nobody c → C_transfers c !! id = Some t → tx_flow t' = tx_flow t → mirrored nobody (put_transfer id t' c).
Proof.
  intros Hm Ht E. eapply mirrored_view; [exact Hm|done|done|]. intros i x. cbn [put_transfer C_transfers setter C_set_transfers].
  intros [[<- <-]|[_ Hx]]%lookup_insert_Some; [rewrite E|]; by eapply (mr_idle _ c Hm).
Qed.

Lemma settle_mirrored c id t t' :
  mirrored nobody c → C_transfers c !! id = Some t → tx_flow t' = tx_flow t →
  mirrored nobody (release_transfer_flows_locked (put_transfer id t' c) id).
Proof.
  intros Hm Ht E. pose proof (transfer_mirrored c id t t' Hm Ht E) as H1. by rewrite release_transfer_mirrored.
Qed.

(** A counter that the invariant does not read, after a transfer has settled. *)
Ltac settled E := match goal with |- context [put_transfer ?id ?t' ?c] =>
  let H1 := fresh in assert (mirrored nobody (release_transfer_flows_locked (put_transfer id t' c) id)) as H1
    by (by eapply settle_mirrored; [|exact E|]);
  cbn [snd]; eapply mirrored_view; [exact H1|reflexivity|reflexivity|apply H1] end.

Lemma boot_from_mirrored c state draws : mirrored nobody (boot_from c state draws).2.
Proof.
  unfold boot_from. pose proof (restore_mirrored (clear_state_locked c) state (clear_mirrored c)) as Hr.
  destruct (restore_state (clear_state_locked c) state) as [[u|e] c1]; cbn [snd] in *; [|apply clear_mirrored].
  eapply mirrored_view; [exact Hr|done|done|apply Hr].
Qed.

Lemma register_transfer_mirrored c g now : mirrored nobody c → mirrored nobody (register_transfer c g now).2.
Proof.
  intros Hm. unfold register_transfer. cbv zeta. do 3 (case_match; [done|]).
  destruct (C_transfers c !! tg_id g) eqn:E; [done|]. case_match; [done|].
  do 2 (case_match; [|done]). case_match; [done|]. set (record := MkTransfer _ _ _ _ _ _ _ _ _ _ _ _ _ _ _ _ _).
  eapply mirrored_view; [exact Hm|by case_match|by case_match|]. intros id t.
  assert (∀ x y : Coordinator, C_transfers x = C_transfers y → ∀ b : bool, C_transfers (if b then x else y) = C_transfers y)
    as Hif by (by intros x y Hxy []).
  cbn [snd]. rewrite Hif by done. cbn [C_transfers setter C_set_transfers]. rewrite map_emplace_fresh by done.
  intros [[<- <-]|[_ Hx]]%lookup_insert_Some; [done|by eapply (mr_idle _ c Hm)].
Qed.

Lemma apply_cop_mirrored c op :
  flows_inv (C_ledger c) → named (C_ledger c) → mirrored nobody c → serving_op op →
  L_next_flow_sequence (C_ledger c) + Z.of_nat (cop_opens op) < two64 →
  cl_max_single_payload_bytes (cf_limits (C_config c)) * size_of (L_flows (C_ledger (apply_cop c op))) < two64 →
  mirrored nobody (apply_cop c op).
Proof.
  intros Hi Hn Hm Hop Hs Hlim. destruct op; cbn [apply_cop serving_op cop_opens] in *; try done.
  - pose proof (clear_mirrored (c <| C_epoch := 1 |>)) as H1. eapply mirrored_view; [exact H1|done|done|apply H1].
  - apply boot_from_mirrored.
  - unfold apply_policy. view_split Hm.
  - unfold publish_topology. view_split Hm.
  - unfold register_slo_contract. view_split Hm.
  - unfold issue_route_decision. view_split Hm.
  - unfold set_model_generation. view_split Hm.
  - unfold revalidate_model_generation. view_split Hm.
  - unfold advance_state_generation. view_split Hm.
  - unfold revalidate_state_generation. view_split Hm.
  - by apply (flowless_mirrored c (OpRegisterRequest request now)).
  - unfold coord_register_attempt. case_match; [|done].
    by eapply (flowless_mirrored c (OpRegisterAttempt request attempt hash _ 0 now)).
  - by apply (flowless_mirrored c (OpRevalidate request attempt now)).
  - by apply (flowless_mirrored c (OpAdvanceStage request attempt target now)).
  - by apply cancel_mirrored.
  - by apply fail_mirrored.
  - by apply replace_mirrored.
  - by apply register_transfer_mirrored.
  - unfold start_transfer. destruct (C_transfers c !! id) as [t|] eqn:E; [|done]. do 4 (case_match; [done|]).
    by eapply transfer_mirrored.
  - unfold complete_transfer. destruct (C_transfers c !! id) as [t|] eqn:E; [|done]. case_match; [done|].
    case_match; [|case_match]; unfold count_refused, refuse_transfer; settled E.
  - unfold abandon_transfer. destruct (C_transfers c !! id) as [t|] eqn:E; [|done]. case_match; [done|].
    unfold count_refused. settled E.
  - destruct (evaluate_frame c request now) as [[E0 _ _ _ _ _ _ [E5 _] (E1&E2&E3) _ (_&E4&_) _ [_ _ Ef _ _ _]] _].
    eapply mirrored_view; [exact Hm|unfold table; congruence|done|rewrite E5; apply Hm].
  - destruct Hop. by apply open_mirrored.
  - unfold coord_release_flow. destruct (C_flows c !! flow) as [f|] eqn:E; [|done]. by apply (release_mirrored _ c flow f).
  - by apply record_mirrored.
  - by apply publish_mirrored.
Qed.

(** ** Histories *)

Lemma apply_cop_config c op : serving_op op → C_config (apply_cop c op) = C_config c.
Proof.
  intros Hop. destruct (is_boot op || mints op) eqn:E.
  2: { apply orb_false_iff in E as [? ?]. by apply apply_cop_calm. }
  destruct op; try done; cbn [apply_cop].
  - unfold boot_from. destruct (restore_state_frame (clear_state_locked c) state) as (E1 & _ & _).
    destruct (restore_state (clear_state_locked c) state) as [[u|e] c1]; exact E1.
  - by destruct (cancel_calm c request reason now).
  - by destruct (evaluate_frame c request now) as [[] _].
Qed.

Lemma run_limits ops L : L_limits (run L ops) = L_limits L.
Proof.
  unfold run. revert L. induction ops as [|op ops IH]; intros L; [done|]. cbn [foldl]. by rewrite IH, apply_op_limits.
Qed.

(** What a configuration has to allow: a flow, a deferral record, and bulk bytes
    whose sum fits its counter. *)
Record config_ok (config : CoordinatorConfig) : Prop := {
  co_ledger : limits_typed (cl_ledger (cf_limits config));
  co_flows : 0 < ll_max_active_flows_total (cl_ledger (cf_limits config));
  co_defers : 0 < cl_max_defer_records (cf_limits config) < two32;
  co_payload : 0 ≤ cl_max_single_payload_bytes (cf_limits config);
  co_bulk : cl_max_single_payload_bytes (cf_limits config)
            * ll_max_active_flows_total (cl_ledger (cf_limits config)) < two64;
}.

Lemma make_ledger_total l :
  0 < ll_max_active_flows_total l →
  ll_max_active_flows_total (L_limits (make_ledger l)) = ll_max_active_flows_total l.
Proof.
  destruct l as [live att ret req tot]. cbn. intros Hpos. unfold make_ledger. cbn [L_limits].
  destruct (_ || _); cbn; repeat (case_bool_decide; cbn in *); lia.
Qed.

Lemma calls_opening_snoc ops op : calls_opening (ops ++ [op]) = (calls_opening ops + cop_opens op)%nat.
Proof. unfold calls_opening. rewrite fmap_app, sum_list_with_app. simpl. lia. Qed.

(** The ledger after a history. *)
Lemma ledger_after config ops :
  config_ok config → Forall cop_typed ops → Z.of_nat (calls_opening ops) < two64 →
  let L := C_ledger (coord_run (make_coordinator config) ops) in
  flows_inv L ∧ L_next_flow_sequence L ≤ Z.of_nat (calls_opening ops) ∧ named L
  ∧ size_of (L_flows L) ≤ ll_max_active_flows_total (cl_ledger (cf_limits config)).
Proof.
  intros [Hl Hf _ _ _] Hty Hn. destruct (coord_run_sim ops (make_coordinator config) Hty) as (lops & T & -> & O).
  cbv zeta. change (C_ledger (make_coordinator config)) with (make_ledger (cl_ledger (cf_limits config))).
  destruct (run_inv (make_ledger (cl_ledger (cf_limits config))) lops) as [Hi Hs].
  - by apply flows_inv_empty, make_ledger_limits.
  - eapply Forall_impl; [exact T|]. by intros op [? _].
  - cbn. lia.
  - split_and!; [done|cbn in Hs; lia|by apply run_named|].
    pose proof (fi_bound _ Hi) as Hb. by rewrite run_limits, make_ledger_total in Hb.
Qed.

Lemma make_mirrored config : mirrored nobody (make_coordinator config).
Proof.
  eapply mirrored_view; [apply (clear_mirrored (make_coordinator config))|done|done|done].
Qed.

Lemma mirrored_after config ops :
  config_ok config → Forall cop_typed ops → Forall serving_op ops → Z.of_nat (calls_opening ops) < two64 →
  let c := coord_run (make_coordinator config) ops in
  mirrored nobody c ∧ C_config c = config ∧ defers_inv c.
Proof.
  intros Hc. induction ops as [|op ops IH] using rev_ind; intros Hty Hop Hn.
  { split_and!; [apply make_mirrored|done|]. destruct Hc. split; [cbn; lia| |done]. unfold size_of, defer_room. cbn. rewrite map_size_empty. lia. }
  pose proof (ledger_after config _ Hc Hty Hn) as (_&_&_&Hb).
  apply Forall_app in Hty as [Hty Hty1]. apply Forall_app in Hop as [Hop Hop1]. pose proof (Forall_inv Hop1) as Hop2.
  rewrite calls_opening_snoc in Hn. destruct IH as (Hm&Ec&Hd); [done|done|lia|].
  destruct (ledger_after config ops Hc Hty) as (Hi&Hs&Hnm&_); [lia|].
  unfold coord_run in *. rewrite foldl_app in *. cbn [foldl] in *. set (c := foldl apply_cop _ ops) in *.
  split_and!; [|rewrite apply_cop_config; [exact Ec|exact Hop2]|by apply apply_cop_defers].
  apply apply_cop_mirrored; try done; [lia|]. rewrite Ec. destruct Hc. nia.
Qed.

(** ** The audit *)

(** A counter that does not wrap is a sum. *)
Lemma counter_sum {A} (w : A → Z) step bound l start :
  (∀ t x, 0 ≤ t → 0 ≤ w x → t + w x < bound → step t x = t + w x) →
  Forall (fun x => 0 ≤ w x) l → 0 ≤ start → start + sum_of w l < bound →
  foldl step start l = start + sum_of w l.
Proof.
  intros Hstep Hl. revert start. induction Hl as [|x l Hx Hl IH]; intros start H0 Hb; simpl in *; [lia|].
  pose proof (sum_of_nonneg w l Hl). rewrite Hstep, IH by lia. lia.
Qed.

Lemma sum_of_ones {A} (w : A → Z) l : Forall (fun x => w x = 1) l → sum_of w l = Z.of_nat (length l).
Proof. induction 1 as [|x l Hx Hl IH]; [done|]. cbn [sum_of foldr length]. fold (sum_of w l). lia. Qed.

Definition protected_weight (d : DeferRecord) : Z := if df_starvation_class d then 1 else 0.

Lemma protected_sum m :
  Z.of_nat (protected m) = sum_of protected_weight (snd <$> map_to_list m).
Proof.
  induction m as [|k d m Hk IH] using map_ind; [done|]. rewrite protected_insert by done.
  rewrite (map_to_list_insert m k d Hk). cbn [fmap list_fmap snd]. simpl. rewrite <- IH. unfold protected_weight. case_match; lia.
Qed.

(** The index of the ledger holds the flow, so its request is live. *)
Lemma owner_live L f fr :
  flows_inv L → L_flows L !! f = Some fr →
  ∃ r, L_requests L !! lf_request fr = Some r ∧ request_is_terminal (rr_lifecycle r) = false.
Proof.
  intros Hi Hf. destruct (fi_owner L Hi f fr Hf) as [r Hr]. exists r. split; [done|].
  apply (ro_live _ _ _ (fi_records L Hi _ r Hr)). intros E%nil_length_inv.
  apply (not_elem_of_nil f). rewrite <- E. apply (fi_index L Hi). by exists fr.
Qed.

Lemma mirrored_flow_ok c f :
  flows_inv (C_ledger c) → mirrored nobody c → f ∈ flow_list c → flow_ok c f = true.
Proof.
  intros Hi Hm [[id g] [-> Hf%elem_of_map_to_list]]%list_elem_of_fmap. cbn [snd] in *.
  destruct (mr_serving _ c Hm id g Hf) as [Hr _]. unfold flow_ok. rewrite Hr. cbn [andb negb]. unfold serving_flow_ok.
  pose proof (mirrored_same c Hm id) as E. rewrite Hf in E. destruct (L_flows (C_ledger c) !! id) as [fr|] eqn:Hl; [|done].
  simpl in E. injection E as E. destruct (owner_live _ _ _ Hi Hl) as (r&Hq&Ht). unfold snapshot_request. rewrite E, Hq.
  by destruct (rr_lifecycle r).
Qed.

Lemma flow_list_length c : Z.of_nat (length (flow_list c)) = size_of (C_flows c).
Proof. unfold flow_list, size_of. by rewrite length_fmap, length_map_to_list. Qed.

(** The three counts of the audit, without wrapping. *)
Lemma count_serving_size c :
  mirrored nobody c → size_of (C_flows c) < two32 → foldl count_serving 0 (flow_list c) = size_of (C_flows c).
Proof.
  intros Hm Hsmall. rewrite <- flow_list_length in *.
  set (w := fun f => if negb (is_nil (fl_request f)) then 1 else 0).
  assert (sum_of w (flow_list c) = Z.of_nat (length (flow_list c))) as E.
  { apply sum_of_ones, Forall_forall. intros f [[id g] [-> Hf%elem_of_map_to_list]]%list_elem_of_fmap.
    unfold w. cbn [snd]. by destruct (mr_serving _ c Hm id g Hf) as [-> _]. }
  rewrite <- E. apply (counter_sum w count_serving two32); [| |lia|lia].
  - intros t x. unfold count_serving, w. intros ???. destruct (negb _); [apply add32_small|]; lia.
  - apply Forall_forall. intros f _. unfold w. destruct (negb _); lia.
Qed.

Lemma count_bulk_sum c : mirrored nobody c → foldl count_bulk 0 (flow_list c) = C_bulk_in_flight_bytes c.
Proof.
  intros Hm. rewrite (mr_bulk _ c Hm). change (bulk_of (C_flows c)) with (sum_of bulk_bytes (flow_list c)).
  pose proof (mr_small _ c Hm) as Hs. change (bulk_of (C_flows c)) with (sum_of bulk_bytes (flow_list c)) in Hs.
  apply (counter_sum bulk_bytes count_bulk two64); [| |lia|lia].
  - intros t x. unfold count_bulk, bulk_bytes. intros ???. destruct (fl_bulk x); [apply add64_small|]; lia.
  - apply Forall_forall. intros f [[id g] [-> Hf%elem_of_map_to_list]]%list_elem_of_fmap.
    destruct (mr_declared _ c Hm id g Hf). unfold bulk_bytes. cbn [snd]. destruct (fl_bulk g); lia.
Qed.

Lemma count_starvation_sum c :
  defers_inv c → foldl count_starvation 0 (snd <$> map_to_list (C_defers c)) = C_streaming_deferrals c.
Proof.
  intros [Hl Hs ->]. pose proof (protected_le_size (C_defers c)). unfold size_of, defer_room in Hs. assert (1 < two32) by done.
  assert (Z.of_nat (protected (C_defers c)) < two32) as Hp by lia. rewrite protected_sum in *.
  apply (counter_sum protected_weight count_starvation two32); [| |lia|lia].
  - intros t x. unfold count_starvation, protected_weight. intros ???. destruct (df_starvation_class x); [apply add32_small|]; lia.
  - apply Forall_forall. intros d _. unfold protected_weight. destruct (df_starvation_class d); lia.
Qed.

Lemma serving_audit config ops :
  config_ok config → Forall cop_typed ops → Forall serving_op ops → Z.of_nat (calls_opening ops) < two64 →
  verify_invariants (coord_run (make_coordinator config) ops) = Success tt.
Proof.
  intros Hc Hty Hop Hn. destruct (mirrored_after config ops Hc Hty Hop Hn) as (Hm&Ec&Hd).
  destruct (ledger_after config ops Hc Hty Hn) as (Hi&_&_&Hb).
  unfold verify_invariants. rewrite (closure_after_history config ops (co_ledger _ Hc) Hty Hn).
  set (c := coord_run _ _) in *. cbv zeta. rewrite Ec. pose proof (same_size _ _ (mirrored_same c Hm)) as Es.
  assert (forallb (flow_ok c) (flow_list c) = true) as ->.
  { apply forallb_forall. intros f Hf%list_elem_of_In. by apply mirrored_flow_ok. }
  cbn [negb]. pose proof (lo_total _ (fi_limits _ Hi)). pose proof (fi_bound _ Hi).
  rewrite count_serving_size by (done || lia). rewrite (proj1 (fi_counters _ Hi)), Es, bool_decide_true by done.
  rewrite count_bulk_sum, bool_decide_true by done. rewrite count_starvation_sum, bool_decide_true by done.
  pose proof (di_size _ Hd) as Hds. rewrite Ec in Hds. pose proof (co_defers _ Hc). unfold defer_room in Hds.
  rewrite !Z.gtb_ltb, !(proj2 (Z.ltb_ge _ _)) by lia. done.
Qed.

(** C19: The run-time audit of the coordinator succeeds after every history of commands
    in which no transfer is authorised and flows are opened for serving decisions only,
    boots, restarts and refused commands included: every flow belongs to a known request
    that is not cancelled, the flow table agrees with the counters of the ledger, the
    sum of bulk bytes in flight and the streaming-deferral counter are exact, and both
    tables are within their limits. The configuration must allow at least one flow and
    one deferral record, keep the product of its payload and flow limits below 2^64, and
    fewer than 2^64 calls may open a flow; with either limit at zero the audit fails
    after the first flow or deferral. *)
Theorem full_audit_after_serving_history config ops :
  config_ok config → Forall cop_typed ops → Forall serving_op ops → Z.of_nat (calls_opening ops) < two64 →
  verify_invariants (coord_run (make_coordinator config) ops) = Success tt.
Proof. apply serving_audit. Qed.
