(* ===== verification/TransferProps.v ===== *)
(** * Transfers, generations and completions: properties

    Integrity of completed transfers in every reachable state, the limits a flow
    is opened under, the compare-and-set registries of model and state
    generations, and the answer to a duplicate publication. *)

From S2P Require Import Prelude Ids Traffic Decision Policy Ledger LedgerInv LedgerRun.
From S2P Require Import LedgerEvolve Coordinator Evaluate EvaluateProps EvaluateState Deferral.
From S2P Require Import Flows FlowsProps CoordRun.

(** ** Integrity of completed transfers *)

(** What a completed transfer has verified. *)
Definition transfer_ok (t : TransferRecord) : Prop :=
  tx_state t = TransferState.Completed →
  tx_verified_bytes t ≤ tx_payload_bytes t ∧
  (tx_required_integrity t = IntegrityClass.ChecksumAndVerify →
   tx_verified_bytes t = tx_payload_bytes t).

Definition transfers_ok (c : Coordinator) : Prop :=
  ∀ id t, C_transfers c !! id = Some t → transfer_ok t.

Lemma transfers_ok_same c c' : C_transfers c' = C_transfers c → transfers_ok c → transfers_ok c'.
Proof. intros E H id t. rewrite E. apply H. Qed.

Lemma transfers_ok_put c id t : transfers_ok c → transfer_ok t → transfers_ok (put_transfer id t c).
Proof.
  intros H Ht id' t'. simpl. rewrite lookup_insert. case_decide; [by intros [= <-]|apply H].
Qed.

Lemma release_flow_transfers c f : transfers_ok c → transfers_ok (release_flow_locked c f).
Proof.
  intros H. unfold release_flow_locked.
  set (c1 := if negb (is_nil (fl_request f)) then _ else _).
  assert (C_transfers c1 = C_transfers c) as E.
  { unfold c1. destruct (fl_bulk f), (negb (is_nil (fl_request f))); done. }
  destruct (negb (is_nil (fl_transfer f))); [|by eapply transfers_ok_same].
  cbn [C_transfers setter C_set_flows_by_transfer].
  destruct (C_transfers c1 !! fl_transfer f) as [t|] eqn:Ht; [|by eapply transfers_ok_same].
  case_match; [|by eapply transfers_ok_same].
  apply transfers_ok_put; [by eapply transfers_ok_same|]. rewrite E in Ht. exact (H _ _ Ht).
Qed.

Lemma release_victims_transfers l c : transfers_ok c → transfers_ok (foldl release_victim c l).
Proof.
  revert c. induction l as [|f l IH]; intros c H; [done|]. apply IH. unfold release_victim.
  case_match; [by apply release_flow_transfers|done].
Qed.

Lemma abandon_owned_transfers l acc : transfers_ok acc.2 → transfers_ok (foldl abandon_owned acc l).2.
Proof.
  revert acc. induction l as [|id l IH]; intros [v c] H; [done|]. apply IH. unfold abandon_owned.
  case_match; [|done]. cbn [snd]. case_match; [|done]. by apply transfers_ok_put.
Qed.

Lemma release_request_transfers c request :
  transfers_ok c → transfers_ok (coord_release_request_flows c request).
Proof.
  intros H. unfold coord_release_request_flows. case_match; [done|].
  match goal with |- context [foldl abandon_owned ?acc ?l] =>
    pose proof (abandon_owned_transfers l acc H) as E; destruct (foldl abandon_owned acc l) as [v c1] end.
  by apply release_victims_transfers.
Qed.

Lemma release_transfer_transfers c t :
  transfers_ok c → transfers_ok (release_transfer_flows_locked c t).
Proof. intros H. unfold release_transfer_flows_locked. case_match; [done|by apply release_victims_transfers]. Qed.

Lemma store_flow_transfers f c : C_transfers (store_flow f c) = C_transfers c.
Proof. unfold store_flow. repeat case_match; done. Qed.

Lemma open_flow_transfers c d b now : transfers_ok c → transfers_ok (open_flow_locked c d b now).2.
Proof.
  intros H. unfold open_flow_locked. destruct (validate_decision_locked c d); [|done].
  case_match; [done|]. case_match; [done|]. case_match.
  - destruct (open_flow _ _ _ _ _ _) as [[id|e] L]; cbn [snd]; [|done].
    eapply transfers_ok_same; [apply store_flow_transfers|done].
  - destruct (C_transfers c !! _) as [t|] eqn:Ht; [|done]. case_match; [done|]. cbn [snd].
    eapply transfers_ok_same; [apply store_flow_transfers|]. apply transfers_ok_put; [done|].
    exact (H _ _ Ht).
Qed.

Lemma authorize_transfers {HO : HashOrder} c request now now' :
  transfers_ok c → transfers_ok (authorize_transfer c request now now').2.
Proof.
  intros H. unfold authorize_transfer. destruct (tr_subject request) as [s|]; [|done].
  case_match; [done|]. destruct (evaluate_frame c request now') as [Hf _].
  destruct (evaluate_locked c request now') as [d c1]. cbn [snd] in Hf.
  assert (transfers_ok c1) as H1 by (eapply transfers_ok_same; [apply Hf|done]).
  case_match.
  - cbn [snd]. eapply (transfers_ok_same _ (count_refused _)); [reflexivity|].
    destruct (C_transfers c1 !! sub_transfer s) as [t|]; [|done].
    apply release_transfer_transfers. by apply transfers_ok_put.
  - destruct (C_transfers c1 !! sub_transfer s) as [t|]; [|done].
    pose proof (open_flow_transfers c1 d (tx_payload_bytes t) now H1) as Ho.
    destruct (open_flow_locked c1 d (tx_payload_bytes t) now) as [[f|e] c2]; cbn [snd] in *.
    all: destruct (C_transfers c2 !! sub_transfer s); [|exact Ho].
    all: intros id t' Ht'; eapply (transfers_ok_put c2); [done| |exact Ht']; done.
Qed.

Lemma complete_transfers c id v : transfers_ok c → transfers_ok (complete_transfer c id v).2.
Proof.
  intros H. unfold complete_transfer. destruct (C_transfers c !! id) as [t|] eqn:Ht; [|done].
  case_match; [done|].
  assert (transfers_ok (release_transfer_flows_locked
    (refuse_transfer id t ReasonCode.RejectedIntegrityUnavailable c) id)) as Hbad.
  { apply release_transfer_transfers. by apply transfers_ok_put. }
  case_match eqn:E1; [exact Hbad|]. case_match eqn:E2; [exact Hbad|]. cbn [snd].
  match goal with |- transfers_ok (setter C_transfers_completed _ ?X) =>
    apply (transfers_ok_same X); [reflexivity|] end.
  apply release_transfer_transfers, transfers_ok_put; [done|]. intros _. simpl.
  rewrite Z.gtb_ltb in E2. bool_to_prop. split; [done|]. intros Hi.
  apply andb_false_iff in E1 as [E1|E1]; bool_to_prop; [congruence|done].
Qed.

Lemma restore_state_transfers c state : C_transfers (restore_state c state).2 = C_transfers c.
Proof. unfold restore_state. repeat case_match; done. Qed.

Ltac tok_split := repeat (cbn [snd refuse]; first [assumption | case_match]).

Lemma boot_transfers c state draws : transfers_ok (boot_from c state draws).2.
Proof.
  unfold boot_from. pose proof (restore_state_transfers (clear_state_locked c) state) as Hq.
  destruct (restore_state (clear_state_locked c) state) as [[u|e] c1]; cbn [snd] in *; intros id t.
  - cbn. rewrite Hq. cbn. by rewrite lookup_empty.
  - cbn. by rewrite lookup_empty.
Qed.

Lemma register_transfers c g now : transfers_ok c → transfers_ok (register_transfer c g now).2.
Proof.
  intros H. unfold register_transfer. repeat (case_match; [done|]).
  destruct (C_transfers c !! tg_id g); [done|]. repeat (case_match; try done). all: cbn [snd].
  all: intros id t; cbn; unfold map_emplace; case_match; [apply H|]; rewrite lookup_insert;
    (case_decide; [by intros [= <-]|apply H]).
Qed.

Lemma abandon_transfers c id reason : transfers_ok c → transfers_ok (abandon_transfer c id reason).2.
Proof.
  intros H. unfold abandon_transfer. destruct (C_transfers c !! id) as [t|] eqn:Ht; [|done].
  case_match; [done|]. cbn [snd]. match goal with |- transfers_ok (count_refused ?X) =>
    apply (transfers_ok_same X); [reflexivity|] end.
  apply release_transfer_transfers. by apply transfers_ok_put.
Qed.

Lemma publish_transfers c p now : transfers_ok c → transfers_ok (coord_publish_completion c p now).2.
Proof.
  intros H. unfold coord_publish_completion, on_ledger. case_match; cbn [snd]; [|exact H].
  case_match; [|exact H].
  match goal with |- context [trim_completions ?o ?l ?m] => destruct (trim_completions o l m) end.
  cbn [snd]. match goal with |- context [coord_release_request_flows ?X ?r] =>
    exact (release_request_transfers X r H) end.
Qed.

Lemma apply_cop_transfers c op : transfers_ok c → transfers_ok (apply_cop c op).
Proof.
  intros H. destruct op; cbn [apply_cop].
  - intros id t. cbn. by rewrite lookup_empty.
  - apply boot_transfers.
  - unfold apply_policy. tok_split.
  - unfold publish_topology. tok_split.
  - unfold register_slo_contract. tok_split.
  - unfold issue_route_decision. tok_split.
  - unfold set_model_generation. tok_split.
  - unfold revalidate_model_generation. tok_split.
  - unfold advance_state_generation. tok_split.
  - unfold revalidate_state_generation. tok_split.
  - exact H.
  - unfold coord_register_attempt. tok_split.
  - exact H.
  - exact H.
  - unfold coord_cancel_request, on_ledger. cbn [snd]. case_match; [|exact H].
    by apply release_request_transfers.
  - unfold coord_fail_attempt, on_ledger. repeat case_match; cbn [snd]; try exact H;
      by apply release_request_transfers.
  - unfold coord_replace_attempt, on_ledger. case_match; [|done]. case_match; cbn [snd]; [|exact H].
    match goal with |- context [coord_release_request_flows ?X _] =>
      exact (release_request_transfers X request H) end.
  - by apply register_transfers.
  - by apply authorize_transfers.
  - unfold start_transfer. destruct (C_transfers c !! id) as [t|] eqn:Ht; [|done]. tok_split.
    by apply transfers_ok_put.
  - by apply complete_transfers.
  - by apply abandon_transfers.
  - destruct (evaluate_frame c request now) as [Hf _]. eapply transfers_ok_same; [apply Hf|done].
  - by apply open_flow_transfers.
  - unfold coord_release_flow. case_match; [by apply release_flow_transfers|done].
  - unfold coord_record_flow_bytes. tok_split.
  - by apply publish_transfers.
Qed.

(** C29: In every reachable coordinator state a completed transfer verified no more
    bytes than its payload, and exactly its payload when it requires checksum and
    verification. *)
Theorem completed_transfers_are_verified config ops id t :
  C_transfers (coord_run (make_coordinator config) ops) !! id = Some t →
  tx_state t = TransferState.Completed →
  tx_verified_bytes t ≤ tx_payload_bytes t ∧
  (tx_required_integrity t = IntegrityClass.ChecksumAndVerify →
   tx_verified_bytes t = tx_payload_bytes t).
Proof.
  assert (transfers_ok (make_coordinator config)) as H by (intros i t'; cbn; by rewrite lookup_empty).
  intros Ht. refine (_ id t Ht). clear Ht. unfold coord_run. revert H. generalize (make_coordinator config).
  induction ops as [|op ops IH]; intros c H; [done|]. apply IH. by apply apply_cop_transfers.
Qed.

(** ** Generations move by compare and set *)

(** set_model_generation with an expectation is a compare-and-set: it succeeds only
    if the readable generation is the expected one, installs the next one for that model
    alone, and the same expectation is refused with Conflict afterwards. *)
Theorem model_generation_compare_and_set c hash expected g c' :
  set_model_generation c hash (Some expected) = (Success g, c') → next expected ≠ expected →
  require_model_generation_locked c hash = Success expected ∧ g = next expected ∧
  require_model_generation_locked c' hash = Success g ∧
  (∀ h, h ≠ hash → require_model_generation_locked c' h = require_model_generation_locked c h) ∧
  set_model_generation c' hash (Some expected) = (Failure StatusCode.Conflict, c').
Proof.
  unfold set_model_generation, require_model_generation_locked. intros H Hne.
  destruct (bool_decide (hash = 0)) eqn:Hz; [done|].
  destruct (C_models c !! hash) as [m|] eqn:Hm; [|done].
  destruct (ms_requires_revalidation m) eqn:Hr; [done|].
  case_bool_decide as He; [|done]. injection H as <- <-. rewrite He in *. cbn. split_and!; try done.
  - by rewrite lookup_insert_eq.
  - intros h Hh. by rewrite lookup_insert_ne.
  - rewrite lookup_insert_eq. cbn. by rewrite bool_decide_false.
Qed.

(** advance_state_generation with an expectation is a compare-and-set on the state
    registry: success needs the readable generation to be the expected one, advances
    that state alone, and a second writer with the same expectation is refused with
    Conflict. *)
Theorem state_generation_compare_and_set c hash expected g c' :
  advance_state_generation c hash (Some expected) = (Success g, c') → next expected ≠ expected →
  require_state_generation_locked c hash = Success expected ∧ g = next expected ∧
  require_state_generation_locked c' hash = Success g ∧
  (∀ h, h ≠ hash → require_state_generation_locked c' h = require_state_generation_locked c h) ∧
  advance_state_generation c' hash (Some expected) = (Failure StatusCode.Conflict, c').
Proof.
  unfold advance_state_generation, require_state_generation_locked. intros H Hne.
  destruct (bool_decide (hash = 0)) eqn:Hz; [done|].
  destruct (C_states c !! hash) as [m|] eqn:Hm; [|done].
  destruct (sg_requires_revalidation m) eqn:Hr; [done|].
  case_bool_decide as He; [|done]. injection H as <- <-. rewrite He in *. cbn. split_and!; try done.
  - by rewrite lookup_insert_eq.
  - intros h Hh. by rewrite lookup_insert_ne.
  - rewrite lookup_insert_eq. cbn. by rewrite bool_decide_false.
Qed.

(** ** Opening a flow *)

(** A flow is opened only for a decision that validates, with a payload within the
    single-payload limit and, for a yielding class under a bulk cap, with total bulk
    bytes in flight within the cap; the bulk counter grows by exactly the declared bytes
    of a yielding flow and otherwise stays. *)
Theorem opened_flow_respects_limits c d bytes now f c' :
  open_flow_locked c d bytes now = (Success f, c') →
  0 ≤ C_bulk_in_flight_bytes c → C_bulk_in_flight_bytes c + bytes < two64 → 0 ≤ bytes →
  validate_decision_locked c d = Success tt ∧
  bytes ≤ cl_max_single_payload_bytes (cf_limits (C_config c)) ∧
  (pr_yields_to_latency (policy_rule (C_policy c) (tt_traffic_class (dec_treatment d))) = true →
   0 < pc_bulk_in_flight_cap_bytes (C_policy c) →
   C_bulk_in_flight_bytes c + bytes ≤ pc_bulk_in_flight_cap_bytes (C_policy c)) ∧
  (C_bulk_in_flight_bytes c' = C_bulk_in_flight_bytes c ∨
   C_bulk_in_flight_bytes c' = C_bulk_in_flight_bytes c + bytes ∧
   pr_yields_to_latency (policy_rule (C_policy c) (tt_traffic_class (dec_treatment d))) = true).
Proof.
  intros H Hb Hw Hbytes. unfold open_flow_locked in H.
  destruct (validate_decision_locked c d) as [[]|e]; [|done].
  set (bulk := pr_yields_to_latency _) in *.
  destruct (bytes >? _) eqn:E1; [done|]. rewrite Z.gtb_ltb in E1. bool_to_prop.
  destruct (bulk && _ && _) eqn:E2; [done|]. split_and!; try done.
  - intros Hbulk Hcap. rewrite Hbulk, add64_small, !Z.gtb_ltb in E2 by lia.
    rewrite (proj2 (Z.ltb_lt _ _) Hcap) in E2. cbn in E2. bool_to_prop. done.
  - assert (∀ fl cx, fl_bulk fl = bulk → fl_declared_bytes fl = bytes →
      C_bulk_in_flight_bytes cx = C_bulk_in_flight_bytes c →
      C_bulk_in_flight_bytes (store_flow fl cx) = C_bulk_in_flight_bytes c ∨
      C_bulk_in_flight_bytes (store_flow fl cx) = C_bulk_in_flight_bytes c + bytes ∧ bulk = true) as Hst.
    { intros fl cx F1 F2 F3. unfold store_flow. rewrite F1, F2.
      destruct bulk; [right|left]; repeat case_match; cbn; rewrite ?F3, ?add64_small by lia; done. }
    case_match.
    + destruct (open_flow _ _ _ _ _ _) as [[id|e] L]; [|done]. injection H as <- <-. by apply Hst.
    + case_match; [|done]. case_match; [by simplify_eq; left|]. injection H as <- <-. by apply Hst.
Qed.

(** ** Duplicate completions *)

Lemma trim_keeps_last order limit m request v :
  0 < limit → request ∉ order →
  (trim_completions (order ++ [request]) limit (<[request := v]> m)).2 !! request = Some v.
Proof.
  intros Hl. revert m. induction order as [|x order IH]; intros m Hni.
  - cbn [app trim_completions]. rewrite Z.gtb_ltb. destruct (Z.ltb_spec limit (Z.of_nat (length [request]))).
    + simpl in *. lia.
    + apply lookup_insert_eq.
  - apply not_elem_of_cons in Hni as [Hne Hni]. cbn [app trim_completions]. case_match.
    + rewrite delete_insert_ne by done. by apply IH.
    + apply lookup_insert_eq.
Qed.

(** Releasing flows leaves the remembered outcomes alone. *)
Definition same_completions (c c' : Coordinator) : Prop :=
  C_completions c' = C_completions c ∧ C_completion_order c' = C_completion_order c ∧
  C_config c' = C_config c.

#[global] Instance same_completions_preorder : PreOrder same_completions.
Proof. split; [done|]. intros c1 c2 c3 (?&?&?) (?&?&?). unfold same_completions. split_and!; congruence. Qed.

Lemma release_flow_completions c f : same_completions c (release_flow_locked c f).
Proof.
  unfold release_flow_locked. destruct (fl_bulk f), (is_nil (fl_request f)), (is_nil (fl_transfer f));
    cbn; repeat case_match; done.
Qed.

Lemma release_request_completions c request :
  same_completions c (coord_release_request_flows c request).
Proof.
  unfold coord_release_request_flows. case_match; [done|].
  set (acc := (mm_range _ _, c)). set (l := mm_range _ _).
  assert (∀ l acc, same_completions acc.2 (foldl abandon_owned acc l).2) as Ha.
  { clear. induction l as [|t l IH]; intros [v c]; [done|]. cbn [foldl]. etrans; [|apply IH].
    unfold abandon_owned. repeat case_match; done. }
  specialize (Ha l acc). destruct (foldl abandon_owned acc l) as [v c1]. etrans; [exact Ha|].
  clear. revert c1. induction v as [|f v IH]; intros c; [done|]. cbn [foldl]. etrans; [|apply IH].
  unfold release_victim. case_match; [apply release_flow_completions|done].
Qed.

(** The remembered outcome of a commit survives its own bookkeeping. *)
Lemma publish_remembers c p now v c' :
  coord_publish_completion c p now = (Success v, c') → po_disposition v = Disposition.Committed →
  0 < cf_max_retained_completion_records (C_config c) → cp_request p ∉ C_completion_order c →
  C_completions c' !! cp_request p = Some v.
Proof.
  unfold coord_publish_completion, on_ledger. intros H Hd Hl Hni.
  destruct (publish_completion (C_ledger c) p now) as [[v0|e] L]; [|done]. cbn [fst snd] in H.
  case_bool_decide as Hc.
  - set (c1 := coord_release_request_flows _ _) in H.
    assert (C_completions c1 = C_completions c ∧ C_completion_order c1 = C_completion_order c ∧
      C_config c1 = C_config c) as (E1 & E2 & E3)
      by exact (release_request_completions (c <| C_ledger := L |>) (cp_request p)).
    rewrite E1, E2, E3 in H.
    pose proof (trim_keeps_last (C_completion_order c) (cf_max_retained_completion_records (C_config c))
      (C_completions c) (cp_request p) v0 Hl Hni) as Hk.
    destruct (trim_completions _ _ _) as [o m]. injection H as <- <-. exact Hk.
  - injection H as <- <-. exfalso. apply Hc. repeat case_match; exact Hd.
Qed.

(** A duplicate publication answered by the coordinator right after the commit
    reports the byte counts that were committed, not its own, and leaves the remembered
    outcomes unchanged. *)
Theorem duplicate_reports_committed_bytes c p now v c' p' now' o :
  coord_publish_completion c p now = (Success v, c') → po_disposition v = Disposition.Committed →
  0 < cf_max_retained_completion_records (C_config c) → cp_request p ∉ C_completion_order c →
  cp_request p' = cp_request p →
  (publish_completion (C_ledger c') p' now').1 = Success o →
  po_disposition o = Disposition.DuplicateSuppressed →
  ∃ o', (coord_publish_completion c' p' now').1 = Success o' ∧
    po_disposition o' = Disposition.DuplicateSuppressed ∧
    po_accounted_bytes_in o' = po_accounted_bytes_in v ∧
    po_accounted_bytes_out o' = po_accounted_bytes_out v ∧
    C_completions (coord_publish_completion c' p' now').2 = C_completions c'.
Proof.
  intros H Hd Hl Hni Hid Ho Hdup. pose proof (publish_remembers c p now v c' H Hd Hl Hni) as Hrem.
  unfold coord_publish_completion, on_ledger.
  destruct (publish_completion (C_ledger c') p' now') as [[o1|e] L]; cbn in Ho; [|done].
  injection Ho as ->. cbn [fst snd]. rewrite Hdup. cbn. rewrite Hid, Hrem. eexists. split; [done|]. done.
Qed.
