(* ===== verification/CoordFindings.v ===== *)
(** * Concrete coordinator histories

    A working coordinator used by the examples, and histories in which the
    coordinator departs from what its comments and documents state. *)

From S2P Require Import Prelude Ids Traffic Decision Policy Ledger LedgerInv LedgerRun.
From S2P Require Import LedgerFindings Coordinator Evaluate Flows CoordAudit Deferral CoordRun.

(** ** A working coordinator *)

(** A container that lists the entry its map lists first. *)
#[global] Instance first_listed : HashOrder.
Proof.
  refine {| defers_begin := fun m => fst <$> head (map_to_list m) |}.
  intros m Hm. destruct (map_to_list m) as [|[k r] l] eqn:E.
  - by apply map_to_list_empty_iff in E.
  - exists k, r. split; [done|]. apply elem_of_map_to_list. rewrite E. by left.
Defined.

Definition xid (n : Z) : StateTransferId := MkId 3 n.

Definition evidence : TopologyEvidence :=
  MkTopology 0 EvidenceProvenance.Measured nil_id 0 0 2 8 2 100000 0 false false.

Definition congested : TopologyEvidence :=
  MkTopology 0 EvidenceProvenance.Measured nil_id 0 0 2 8 2 100000 100 true false.

(** One request with an attempt that decodes, one model, one state. *)
Definition setup : list CoordOp :=
  [ CBootFresh (7, 9); CPublishTopology evidence 100; CSetModel 11 None; CAdvanceState 22 None;
    CRegisterRequest (rid 1) 100; CRegisterAttempt (rid 1) (aid 1) 11 101;
    CAdvanceStage (rid 1) (aid 1) ServingStage.Admitted_ 102;
    CRegisterSlo (rid 1) 1000000 0 100; CIssueRoute (rid 1) (aid 1) 1 false false ].

Definition working : Coordinator := coord_run (make_coordinator default_config) setup.

Definition serving_request (cls : TrafficClass) : TrafficRequest :=
  empty_request <| tr_subject := Some (MkSubject SubjectKind.Serving (rid 1) (aid 1) 1 nil_id) |>
    <| tr_declared_class := cls |> <| tr_payload_bytes := 10 |>.

Definition transfer_request (n : Z) : TrafficRequest :=
  empty_request <| tr_subject := Some (MkSubject SubjectKind.Transfer nil_id nil_id 0 (xid n)) |>
    <| tr_payload_bytes := 10 |>.

Definition registration (n bytes : Z) (owner : RequestId) (cls : TrafficClass) : TransferRegistration :=
  MkRegistration (xid n) 22 11 bytes cls FlowDirection.Lateral IntegrityClass.ChecksumAndVerify
    owner nil_id kUnset.

Example working_admits :
  dec_outcome (evaluate_locked working (serving_request TrafficClass.RequestIngress) 200).1
    = DecisionOutcome.Allowed.
Proof. vm_compute. reflexivity. Qed.

(** ** Policy generations *)

(** Two documents with the same generation give the same installed generation,
    and a decision taken under the first stays valid under the second, which
    disables the class. *)
Example policy_generation_repeats :
  let strict := (set_rule (canonical_defaults 5) TrafficClass.RequestIngress
                   (canonical_request_ingress <| pr_enabled := false |>)).2 in
  let c1 := (apply_policy working (canonical_defaults 5)).2 in
  let '(d, c2) := evaluate_locked c1 (serving_request TrafficClass.RequestIngress) 200 in
  let c3 := (apply_policy c2 strict).2 in
  pc_generation (C_policy c1) = 6 ∧ pc_generation (C_policy c3) = 6 ∧
  dec_reason (evaluate_locked c3 (serving_request TrafficClass.RequestIngress) 201).1
    = ReasonCode.RejectedClassDisabled ∧
  validate_decision_locked c3 d = Success tt.
Proof. vm_compute. repeat split. Qed.

(** Installing a document at the last generation succeeds and leaves the
    installed policy at the unset generation: the step wraps, and no boundary
    refuses it.  Decisions are then taken and validated under generation 0. *)
Example policy_generation_wraps :
  let '(st, c1) := apply_policy working (canonical_defaults (2 ^ 64 - 1)) in
  let '(d, c2) := evaluate_locked c1 (serving_request TrafficClass.RequestIngress) 200 in
  st = Success tt ∧ is_unset (pc_generation (C_policy c1)) = true ∧
  dec_outcome d = DecisionOutcome.Allowed ∧
  validate_decision_locked c2 d = Success tt.
Proof. vm_compute. repeat split. Qed.

(** ** Transfers *)

Definition with_transfer (cls : TrafficClass) : Coordinator :=
  coord_run working [CRegisterTransfer (registration 1 10 nil_id cls) 150].

Definition state_of (c : Coordinator) (n : Z) : option TransferState.t :=
  tx_state <$> C_transfers c !! xid n.

(** Asking again for a completed transfer turns it into a refused one. *)
Example completed_transfer_becomes_refused :
  let c := coord_run (with_transfer TrafficClass.ModelTransfer)
    [CAuthorize first_listed (transfer_request 1) 200 200; CComplete (xid 1) 10] in
  state_of c 1 = Some TransferState.Completed ∧
  state_of (coord_run c [CAuthorize first_listed (transfer_request 1) 201 201]) 1
    = Some TransferState.Refused.
Proof. vm_compute. repeat split. Qed.

(** Asking again for a transfer in progress takes it back to authorized and counts
    it as started twice. *)
Example authorization_regresses_transfer :
  let c0 := with_transfer TrafficClass.ModelTransfer in
  let '(a, c1) := authorize_transfer c0 (transfer_request 1) 200 200 in
  match a with
  | Success auth =>
      let c2 := (start_transfer c1 (xid 1) auth).2 in
      state_of c2 1 = Some TransferState.InProgress ∧
      let c3 := (authorize_transfer c2 (transfer_request 1) 201 201).2 in
      state_of c3 1 = Some TransferState.Authorized ∧ C_transfers_started c3 = 2
  | Failure _ => False
  end.
Proof. vm_compute. repeat split. Qed.

(** A bulk transfer authorized twice, its payload above half of the cap: the second
    call marks it refused but leaves its flow open, and the audit fails. *)
Example refused_transfer_keeps_flow :
  let tight := (canonical_defaults 1) <| pc_bulk_in_flight_cap_bytes := 15 |> in
  let c0 := coord_run working
    [CApplyPolicy tight; CRegisterTransfer (registration 1 10 nil_id TrafficClass.ModelTransfer) 150] in
  let quiet_request := (transfer_request 1) <| tr_payload_bytes := 0 |> in
  let c1 := coord_run c0 [CAuthorize first_listed quiet_request 200 200] in
  verify_invariants c1 = Success tt ∧
  let c2 := coord_run c1 [CAuthorize first_listed quiet_request 201 201] in
  state_of c2 1 = Some TransferState.Refused ∧ size_of (C_flows c2) = 1 ∧
  verify_invariants c2 = Failure StatusCode.Internal.
Proof. vm_compute. repeat split. Qed.

(** A transfer registered for a request that already failed is authorized, and the
    audit then reports the flow of a terminal request. *)
Example transfer_of_terminal_owner :
  let c := coord_run working
    [CFail (rid 1) (aid 1) ReasonCode.AttemptFailed 140;
     CRegisterTransfer (registration 1 10 (rid 1) TrafficClass.ModelTransfer) 150;
     CAuthorize first_listed (transfer_request 1) 200 200] in
  state_of c 1 = Some TransferState.Authorized ∧ verify_invariants c = Failure StatusCode.Internal.
Proof. vm_compute. repeat split. Qed.

(** Transfer flows are not counted against the flow ceiling the audit checks. *)
Example transfer_flows_exceed_ceiling :
  let one := default_config <| cf_limits := default_coordinator_limits
               <| cl_ledger := default_ledger_limits <| ll_max_active_flows_total := 1 |> |> |> in
  let c := coord_run (make_coordinator one) (setup ++
    [CRegisterTransfer (registration 1 10 nil_id TrafficClass.ModelTransfer) 150;
     CRegisterTransfer (registration 2 10 nil_id TrafficClass.ModelTransfer) 150;
     CAuthorize first_listed (transfer_request 1) 200 200;
     CAuthorize first_listed (transfer_request 2) 200 200]) in
  size_of (C_flows c) = 2 ∧ verify_invariants c = Failure StatusCode.Internal.
Proof. vm_compute. repeat split. Qed.

(** ** Bulk capacity *)

(** The sum of the bytes in flight and the payload wraps, so the largest payload
    passes the capacity test. *)
Example bulk_capacity_wraps :
  let tight := (canonical_defaults 1) <| pc_bulk_in_flight_cap_bytes := 15 |> in
  let c := coord_run working
    [CApplyPolicy tight; CRegisterTransfer (registration 1 10 nil_id TrafficClass.ModelTransfer) 150;
     CRegisterTransfer (registration 2 10 nil_id TrafficClass.ModelTransfer) 150;
     CAuthorize first_listed (transfer_request 1) 200 200] in
  C_bulk_in_flight_bytes c = 10 ∧
  dec_reason (evaluate_locked c ((transfer_request 2) <| tr_payload_bytes := 10 |>) 201).1
    = ReasonCode.DeferredBulkCapacity ∧
  dec_reason (evaluate_locked c ((transfer_request 2) <| tr_payload_bytes := two64 - 1 |>) 201).1
    = ReasonCode.Admitted_.
Proof. vm_compute. repeat split. Qed.

(** ** Deferral pressure *)

(** A policy in which the protected decode stream holds no reserved weight. *)
Definition unreserved : PolicyConfig :=
  (set_rule (canonical_defaults 1) TrafficClass.RequestIngress
     (canonical_request_ingress <| pr_reserved_weight := 0 |>)).2.

(** Cancelling the only deferred request leaves the streaming pressure it caused,
    and bulk traffic keeps being deferred. *)
Example cancelled_request_keeps_pressure :
  let c := coord_run working
    [CApplyPolicy unreserved; CPublishTopology congested 150;
     CEvaluate first_listed (serving_request TrafficClass.RequestIngress) 160;
     CCancel (rid 1) ReasonCode.Cancelled 170;
     CPublishTopology evidence 180;
     CRegisterTransfer (registration 1 10 nil_id TrafficClass.ModelTransfer) 190] in
  C_streaming_deferrals c = 1 ∧
  dec_reason (evaluate_locked c (transfer_request 1) 200).1 = ReasonCode.DeferredBulkYield.
Proof. vm_compute. repeat split. Qed.

(** A coordinator whose protected traffic is deferred under congestion. *)
Definition starving : Coordinator :=
  coord_run working [CApplyPolicy unreserved; CPublishTopology congested 150].

(** The guard admits the evaluation at which the count reaches [max_defer_count], so
    that one deferral less than that is ever made. *)
Example guard_admits_at_the_limit :
  let limit := pr_max_defer_count (policy_rule (C_policy starving) TrafficClass.RequestIngress) in
  let decisions := (evaluate_all starving (serving_request TrafficClass.RequestIngress)
                      (replicate (Z.to_nat limit) 160)).1 in
  1 < limit ∧ Z.of_nat (length decisions) = limit ∧
  Forall (deferred_as TrafficClass.RequestIngress) (take (Z.to_nat (limit - 1)) decisions) ∧
  dec_reason <$> last decisions = Some ReasonCode.AdmittedStarvationGuard.
Proof.
  cbv zeta. split; [vm_compute; reflexivity|]. split; [vm_compute; reflexivity|].
  split; [apply (bool_decide_unpack _); vm_compute; exact I|vm_compute; reflexivity].
Qed.

(** ** Limits of zero *)

(** No limit is refused at construction. With room for no deferral record the first
    deferral leaves one, and the audit reports it. *)
Example deferral_limit_zero :
  let config := default_config <| cf_limits := default_coordinator_limits <| cl_max_defer_records := 0 |> |> in
  let c := coord_run (make_coordinator config) (setup ++ [CApplyPolicy unreserved; CPublishTopology congested 150]) in
  verify_invariants c = Success tt ∧
  verify_invariants (evaluate_locked c (serving_request TrafficClass.RequestIngress) 160).2
    = Failure StatusCode.Internal.
Proof. vm_compute. split; reflexivity. Qed.

(** The ledger raises a flow limit of zero to one; the audit of the coordinator
    compares with the zero. *)
Example flow_limit_zero :
  let ledger := (cl_ledger default_coordinator_limits) <| ll_max_active_flows_total := 0 |> in
  let config := default_config <| cf_limits := default_coordinator_limits <| cl_ledger := ledger |> |> in
  let c := coord_run (make_coordinator config) setup in
  let '(d, c) := evaluate_locked c (serving_request TrafficClass.RequestIngress) 200 in
  let '(opened, c) := open_flow_locked c d 10 201 in
  ok opened = true ∧ verify_closure (C_ledger c) = Success tt ∧ verify_invariants c = Failure StatusCode.Internal.
Proof. vm_compute. repeat split. Qed.

(** ** Deadlines *)

(** A tail budget near the largest integer makes the signed sum leave its type. *)
Example slo_deadline_overflows :
  let c := coord_run working [CRegisterSlo (rid 1) int64_max 0 100] in
  match L_requests (C_ledger c) !! rid 1 with
  | Some record =>
      effective_deadline (serving_request TrafficClass.RequestIngress)
        (RServing record empty_attempt) (C_slo_contracts c !! rid 1) 200 > int64_max
  | None => False
  end.
Proof. vm_compute. reflexivity. Qed.

(** ** Snapshots *)

(** A request that was completed and then failed appears twice in the exported
    terminal history, and the next boot refuses the snapshot. *)
Example exported_state_is_refused :
  let c := coord_run working
    [CRegisterAttempt (rid 1) (aid 2) 11 110;
     CPublish (MkPublication (rid 1) (aid 1) 0 true ReasonCode.Unknown 5 7) 120;
     CFail (rid 1) (aid 2) ReasonCode.AttemptFailed 130] in
  length (ps_terminal_requests (export_state c)) = 2%nat ∧
  (boot_from (make_coordinator default_config) (export_state c) (3, 4)).1
    = Failure StatusCode.AlreadyExists.
Proof. vm_compute. repeat split. Qed.
