(* ===== verification/ServiceProps.v ===== *)
(** * What the service promises

    The messages drive the coordinator through its own operations and nothing
    else, so that what holds after every history of the coordinator holds of the
    service; an acknowledged change is on disk; a restart continues from the
    document or refuses it. *)

From S2P Require Import Prelude Ids Traffic Decision Policy Bytes Crc Codec CodecProps Wire Ledger LedgerInv LedgerRun.
From S2P Require Import Coordinator Evaluate Flows CoordAudit PolicyCodec Format Serialize SerializeProps Messages MessagesProps.
From S2P Require Import Snapshot SnapshotProps Net Session SessionProps Service CoordRun.
From stdpp Require Import strings.
#[local] Open Scope Z_scope.
Import Datatypes.

Section service.
Context `{!Kernel, !HashOrder}.
Variable config : ServiceConfig.
Variable clock : nat → Z.

Implicit Types s : CoordinatorService.

(** ** The specification: a message is a command of the coordinator *)

Definition command {A} (payload : list Z) (decoder : Reader.t → Result A * Reader.t)
    (k : A → list CoordOp) : list CoordOp :=
  match decode_body payload decoder with Success body => k body | Failure _ => [] end.

Definition advance_commands (b : AdvanceGenerationMessage) : list CoordOp :=
  let hash := ag_target_hash b in
  let expected := if ag_has_expected b then Some (ag_expected_generation b) else None in
  match ag_state_target b, ag_revalidate_only b with
  | true, true => [CRevalidateState hash]
  | true, false => [CAdvanceState hash expected]
  | false, true => [CRevalidateModel hash; CRevalidateState hash]
  | false, false => [CSetModel hash expected]
  end.

(** The commands of a message that comes when [n] readings of the clock were
    taken; a body that is not well formed has none. *)
Definition commands (n : nat) (type : Z) (payload : list Z) : list CoordOp :=
  let now := clock n in
  if type ≟ MessageType.Heartbeat then []
  else if type ≟ MessageType.RegisterRequest then
    command payload decode_register_request (fun b => [CRegisterRequest (rq_request b) now])
  else if type ≟ MessageType.RegisterAttempt then
    command payload decode_register_attempt (fun b =>
      [CRegisterAttempt (aq_request b) (aq_attempt b) (aq_model_hash b) now])
  else if type ≟ MessageType.StageUpdate then
    command payload decode_stage_update (fun b => [CAdvanceStage (su_request b) (su_attempt b) (su_stage b) now])
  else if type ≟ MessageType.CancelRequest then
    command payload decode_cancel_request (fun b => [CCancel (cq_request b) (cq_reason b) now])
  else if type ≟ MessageType.FailAttempt then
    command payload decode_fail_attempt (fun b => [CFail (fa_request b) (fa_attempt b) (fa_reason b) now])
  else if type ≟ MessageType.ReplaceAttempt then
    command payload decode_replace_attempt (fun b =>
      [CReplace (ra_request_id b) (ra_superseded b) (ra_replacement b) (ra_model_hash b) now])
  else if type ≟ MessageType.EvaluateTraffic then
    command payload decode_evaluate_traffic (fun request => [CEvaluate _ request now])
  else if type ≟ MessageType.OpenFlow then
    command payload decode_open_flow (fun b => [COpenFlow (of_decision b) (of_declared_bytes b) now])
  else if type ≟ MessageType.RegisterTransfer then
    command payload decode_register_transfer (fun registration => [CRegisterTransfer registration now])
  else if type ≟ MessageType.AuthorizeTransfer then
    command payload decode_authorize_transfer (fun request => [CAuthorize _ request now (clock (S n))])
  else if type ≟ MessageType.TransferComplete then
    command payload decode_transfer_complete (fun b => [CComplete (tc_transfer b) (tc_verified_bytes b)])
  else if type ≟ MessageType.CompletionPublish then
    command payload decode_completion_publish (fun publication => [CPublish publication now])
  else if type ≟ MessageType.AccountingQuery then []
  else if type ≟ MessageType.StatusQuery then []
  else if type ≟ MessageType.PolicyQuery then []
  else if type ≟ MessageType.TopologyPublish then
    command payload decode_topology_publish (fun evidence => [CPublishTopology evidence now])
  else if type ≟ MessageType.PublishSloContract then
    command payload decode_publish_slo (fun b =>
      [CRegisterSlo (sl_request b) (sl_tail_latency_budget_nanos b) (sl_registration_deadline_nanos b)
         (sl_min_stream_share_per_mille b)])
  else if type ≟ MessageType.IssueRouteDecision then
    command payload decode_issue_route (fun b =>
      [CIssueRoute (ir_request b) (ir_attempt b) (ir_target_node b) (ir_lateral b) (ir_disaggregated_handoff b)])
  else if type ≟ MessageType.AdvanceModelGeneration then
    command payload decode_advance_generation advance_commands
  else [].

(** ** Every handler carries out its command *)

(** What a step leaves of the coordinator. *)
Definition drives {A} (m : Step A) s (ops : list CoordOp) : Prop :=
  sv_coordinator (m s).2 = coord_run (sv_coordinator s) ops.

Lemma drives_body {A B} payload decoder (k : A → Step B) s ops :
  (∀ body, drives (k body) s (ops body)) →
  drives (step_bind (step_lift (decode_body payload decoder)) k) s (command payload decoder ops).
Proof. intros Hk. unfold drives, command, step_bind, step_lift in *. by destruct (decode_body payload decoder). Qed.

Lemma drives_now {B} (k : Z → Step B) s ops :
  (∀ t, sv_coordinator t = sv_coordinator s → sv_readings t = S (sv_readings s) →
     drives (k (clock (sv_readings s))) t ops) →
  drives (step_bind (now_nanos clock) k) s ops.
Proof. intros Hk. unfold drives, step_bind, now_nanos in *. by rewrite Hk. Qed.

Lemma drives_coordinate {A B} (f : Coordinator → Result A * Coordinator) (k : A → Step B) s op :
  (∀ c, (f c).2 = apply_cop c op) → (∀ x t, drives (k x) t []) →
  drives (step_bind (coordinate f) k) s [op].
Proof.
  intros Hf Hk. unfold drives, step_bind, coordinate, coord_run in *. cbn [foldl]. rewrite <- Hf.
  destruct (f (sv_coordinator s)) as [[x|c] c']; [by rewrite Hk|done].
Qed.

Lemma drives_attempt {A B} (f : Coordinator → Result A * Coordinator) (k : Result A → Step B) s op ops :
  (∀ c, (f c).2 = apply_cop c op) → (∀ x t, drives (k x) t ops) →
  drives (step_bind (attempt_step (coordinate f)) k) s (op :: ops).
Proof.
  intros Hf Hk. unfold drives, step_bind, attempt_step, coordinate, coord_run in *. cbn [foldl]. rewrite <- Hf.
  destruct (f (sv_coordinator s)) as [r c']. by rewrite Hk.
Qed.

Lemma drives_inspect {A B} (f : Coordinator → A) (k : A → Step B) s ops :
  (∀ x, drives (k x) s ops) → drives (step_bind (inspect f) k) s ops.
Proof. intros Hk. unfold drives, step_bind, inspect in *. by rewrite Hk. Qed.

Lemma drives_ret {A} (x : A) s : drives (step_ret x) s [].
Proof. done. Qed.

Lemma drives_bind_ret {A B} (x : A) (k : A → Step B) s ops :
  drives (k x) s ops → drives (step_bind (step_ret x) k) s ops.
Proof. done. Qed.

Lemma drives_refused {A} c s : drives (step_lift (A := A) (Failure c)) s [].
Proof. done. Qed.

(** A query leaves the coordinator alone. *)
Lemma drives_query {A B} payload decoder (k : A → Step B) s :
  (∀ body, drives (k body) s []) → drives (step_bind (step_lift (decode_body payload decoder)) k) s [].
Proof. intros Hk. unfold drives, step_bind, step_lift in *. by destruct (decode_body payload decoder). Qed.

(** The call of a handler is the command. *)
Ltac same_call :=
  try match goal with E : sv_readings _ = S _ |- context [clock (sv_readings _)] => rewrite E end;
  lazymatch goal with
  | |- (match ?call with _ => _ end).2 = _ => cbn [apply_cop]; by destruct call
  | |- ?call.2 = _ => exact (eq_refl call.2)
  end.

(** Walks down a handler. *)
Ltac drive_step :=
  lazymatch goal with
  | |- drives (step_ret _) _ _ => apply drives_ret
  | |- drives (step_lift (Failure _)) _ _ => apply drives_refused
  | |- drives (step_bind (step_lift (decode_body _ _)) _) _ [] => apply drives_query; intros ?
  | |- drives (step_bind (step_lift (decode_body _ _)) _) _ _ => apply drives_body; intros ?
  | |- drives (step_bind (now_nanos _) _) _ _ => apply drives_now; intros ? ? ?
  | |- drives (step_bind (inspect _) _) _ _ => apply drives_inspect; intros ?
  | |- drives (step_bind (coordinate _) _) _ _ => apply drives_coordinate; [intros ?; same_call|intros ? ?]
  | |- drives (step_bind (attempt_step _) _) _ _ => apply drives_attempt; [intros ?; same_call|intros ? ?]
  | |- drives (step_bind (if ?b then _ else _) _) _ _ => destruct b
  | |- drives (step_bind (step_ret _) _) _ _ => apply drives_bind_ret
  | |- drives (match ?r with Success _ => _ | Failure _ => _ end) _ _ => destruct r
  end.
Ltac drive := repeat drive_step.

Lemma on_advance_generation_drives s payload :
  drives (on_advance_generation payload) s (command payload decode_advance_generation advance_commands).
Proof.
  unfold on_advance_generation, advance_commands. apply drives_body. intros body. cbv zeta.
  destruct (ag_state_target body), (ag_revalidate_only body); drive.
Qed.

Lemma on_shutdown_drives s : drives on_shutdown s [].
Proof. done. Qed.

Create HintDb service.
#[local] Hint Unfold on_heartbeat on_register_request on_register_attempt on_stage_update on_cancel_request
  on_fail_attempt on_replace_attempt on_evaluate_traffic on_open_flow on_register_transfer on_authorize_transfer
  on_transfer_complete on_completion_publish on_accounting_query on_status_query on_policy_query
  on_topology_publish on_publish_slo on_issue_route : service.

Lemma handle_message_drives s type payload :
  drives (handle_message clock type payload) s (commands (sv_readings s) type payload).
Proof.
  unfold handle_message, commands. cbv zeta.
  repeat (lazymatch goal with |- context [type ≟ ?t] =>
      destruct (type ≟ t); [first [apply on_advance_generation_drives|apply on_shutdown_drives|autounfold with service; drive]|] end).
  apply drives_refused.
Qed.

(** ** Persistence leaves the coordinator alone *)

Lemma save_snapshot_coordinator s : sv_coordinator (save_snapshot config clock s).2 = sv_coordinator s.
Proof. unfold save_snapshot. repeat case_match; simplify_eq/=; done. Qed.

Lemma maybe_snapshot_coordinator mutated s :
  sv_coordinator (maybe_snapshot config clock mutated s) = sv_coordinator s.
Proof. unfold maybe_snapshot. repeat case_match; try done. by rewrite save_snapshot_coordinator. Qed.

Lemma service_handle_coordinator type payload s :
  sv_coordinator (service_handle config clock type payload s).2
    = coord_run (sv_coordinator s) (commands (sv_readings s) type payload).
Proof.
  pose proof (handle_message_drives s type payload) as Hd. unfold drives in Hd. unfold service_handle.
  destruct (handle_message clock type payload s) as [[[result mutated]|c] s']; simpl in *; [|done].
  by rewrite maybe_snapshot_coordinator.
Qed.

Definition serve (s : CoordinatorService) (messages : list (Z * list Z)) : CoordinatorService :=
  foldl (fun s m => (service_handle config clock m.1 m.2 s).2) s messages.

(** The commands of a sequence of messages. *)
Fixpoint script s (messages : list (Z * list Z)) : list CoordOp :=
  match messages with
  | [] => []
  | m :: rest =>
      commands (sv_readings s) m.1 m.2 ++ script (service_handle config clock m.1 m.2 s).2 rest
  end.

Lemma serve_coordinator messages s :
  sv_coordinator (serve s messages) = coord_run (sv_coordinator s) (script s messages).
Proof.
  revert s. induction messages as [|m messages IH]; intros s; [done|]. unfold serve in *. cbn [foldl script].
  rewrite IH, service_handle_coordinator. unfold coord_run. by rewrite foldl_app.
Qed.

(** No message boots the coordinator, one opens at most one flow, and the
    commands are typed. *)
Definition plain (op : CoordOp) : Prop :=
  match op with CBootFresh _ | CBootFrom _ _ => False | _ => True end.

Lemma commands_spec n type payload :
  Forall plain (commands n type payload) ∧ (calls_opening (commands n type payload) ≤ 1)%nat.
Proof.
  unfold commands, command, advance_commands, calls_opening.
  repeat case_match; (split; [rewrite ?Forall_cons, ?Forall_nil; by repeat split|simpl; lia]).
Qed.

Lemma calls_opening_app a b : calls_opening (a ++ b) = (calls_opening a + calls_opening b)%nat.
Proof. unfold calls_opening. rewrite fmap_app. apply (sum_list_with_app id). Qed.

Lemma script_spec messages s :
  Forall plain (script s messages) ∧ (calls_opening (script s messages) ≤ length messages)%nat.
Proof.
  revert s. induction messages as [|m messages IH]; intros s; cbn [script].
  { split; [constructor|]. unfold calls_opening. simpl. lia. }
  destruct (commands_spec (sv_readings s) m.1 m.2) as [P C].
  destruct (IH (service_handle config clock m.1 m.2 s).2) as [P' C']. split; [by apply Forall_app|].
  rewrite calls_opening_app. simpl. lia.
Qed.

Lemma plain_typed ops : Forall plain ops → Forall cop_typed ops.
Proof. intros Hp. eapply Forall_impl; [exact Hp|]. by intros []. Qed.

(** ** Starting *)

(** The command a start gives to a new coordinator. *)
Definition boots (disk : Disk) (draws : Z * Z) : list CoordOp :=
  if persists config then
    match (load_snapshot (snapshot_store config) disk).1 with
    | Success state => [CBootFrom state draws]
    | Failure StatusCode.NotFound => [CBootFresh draws]
    | Failure _ => []
    end
  else [CBootFresh draws].

Lemma boot_outcome_coordinator booted s : sv_coordinator (boot_outcome booted s).2 = booted.2.
Proof. unfold boot_outcome. by destruct booted.1. Qed.

Lemma boot_outcome_last booted s :
  sv_last_snapshot_nanos (boot_outcome booted s).2 = sv_last_snapshot_nanos s.
Proof. unfold boot_outcome. by destruct booted.1. Qed.

Lemma start_service draws server_start s :
  (start config draws server_start s).2 = (boot_service config draws s).2.
Proof. unfold start, step_bind, step_lift. by destruct (boot_service config draws s) as [[]]. Qed.

Lemma start_coordinator disk draws server_start :
  sv_coordinator (start config draws server_start (make_service config disk)).2
    = coord_run (make_coordinator (svc_coordinator config)) (boots disk draws).
Proof.
  rewrite start_service. unfold boot_service, boots, coord_run.
  destruct (persists config); [|rewrite boot_outcome_coordinator; reflexivity].
  change (sv_disk (make_service config disk)) with disk.
  destruct (load_snapshot (snapshot_store config) disk) as [[state|c] d]; cbn [fst].
  - rewrite boot_outcome_coordinator. reflexivity.
  - destruct c; first [reflexivity|rewrite boot_outcome_coordinator; reflexivity].
Qed.

Lemma boots_typed disk draws :
  disk_ok disk → Forall cop_typed (boots disk draws) ∧ calls_opening (boots disk draws) = 0%nat.
Proof.
  intros Hd. unfold boots. destruct (persists config); [|by split; [repeat constructor|]].
  destruct (load_snapshot (snapshot_store config) disk) as [[state|c] d] eqn:E; cbn [fst].
  - apply loaded_typed in E; [|done]. split; [|done]. apply Forall_singleton. apply E.
  - destruct c; split; try done; repeat constructor.
Qed.

(** The life of a service up to some message, as a history of its coordinator. *)
Lemma service_history disk draws server_start messages :
  disk_ok disk →
  let s := (start config draws server_start (make_service config disk)).2 in
  let ops := boots disk draws ++ script s messages in
  sv_coordinator (serve s messages) = coord_run (make_coordinator (svc_coordinator config)) ops
  ∧ Forall cop_typed ops ∧ (calls_opening ops ≤ length messages)%nat.
Proof.
  intros Hd s ops. destruct (boots_typed disk draws Hd) as [T0 C0].
  destruct (script_spec messages s) as [P C]. split_and!.
  - unfold ops. rewrite serve_coordinator. unfold s at 1. rewrite start_coordinator.
    unfold coord_run. by rewrite foldl_app.
  - apply Forall_app. split; [done|]. by apply plain_typed.
  - unfold ops. rewrite calls_opening_app. lia.
Qed.

(** ** Durability *)

(** What a document of a state looks like on disk. *)
Definition document (c : Coordinator) : list Z :=
  snapshot_file (Writer.buffer (encode_into (export_state c) (Writer.make kMaxSnapshotPayloadBytes))).

Definition durable s : Prop :=
  d_files (sv_disk s) !! svc_snapshot_path config = Some (MkFile (document (sv_coordinator s)) true).

Lemma save_snapshot_durable s :
  persists config = true → let s' := (save_snapshot config clock s).2 in
  durable s' ∨ ∃ c, sv_last_snapshot_error s' = Some c.
Proof.
  intros Hp s'. unfold s', save_snapshot. rewrite Hp. cbn [negb].
  destruct (save _ _ (sv_disk s)) as [st d'] eqn:E. destruct st as [[]|c]; [|right; by exists c].
  left. unfold durable. simpl. unfold save in E. case_match; [done|].
  apply save_raw_spec in E as [Hf _]. by apply Hf.
Qed.

(** The time of the last snapshot is an earlier reading of the clock. *)
Definition dated s : Prop :=
  sv_last_snapshot_nanos s = 0 ∨ ∃ k, (k < sv_readings s)%nat ∧ sv_last_snapshot_nanos s = clock k.

(** The messages after which a snapshot is due: all that change the coordinator but
    the evaluation of traffic, which records its decision without asking for one. *)
Definition saves (type : Z) : bool :=
  negb (bool_decide (type ∈ [MessageType.Heartbeat; MessageType.EvaluateTraffic; MessageType.AccountingQuery;
    MessageType.StatusQuery; MessageType.PolicyQuery; MessageType.Shutdown])).

(** The messages that only read. *)
Definition reads_only (type : Z) : bool :=
  bool_decide (type ∈ [MessageType.Heartbeat; MessageType.AccountingQuery; MessageType.StatusQuery;
    MessageType.PolicyQuery; MessageType.Shutdown]).

Lemma saves_or_reads type : type ≠ MessageType.EvaluateTraffic → saves type = negb (reads_only type).
Proof.
  intros Hne. unfold saves, reads_only. f_equal. apply bool_decide_ext. rewrite !elem_of_cons. naive_solver.
Qed.

(** What every step of a handler leaves alone. *)
Definition quiet {A} (m : Step A) : Prop := ∀ s,
  sv_last_snapshot_nanos (m s).2 = sv_last_snapshot_nanos s ∧ (sv_readings s ≤ sv_readings (m s).2)%nat
  ∧ sv_disk (m s).2 = sv_disk s.

(** The flag a handler answers. *)
Definition flags (b : bool) (m : Step Answer) : Prop := quiet m ∧ ∀ s result b' s',
  m s = (Success (result, b'), s') → b' = b.

Lemma quiet_lift {A} (r : Result A) : quiet (step_lift r).
Proof. by intros s. Qed.
Lemma quiet_ret {A} (x : A) : quiet (step_ret x).
Proof. by intros s. Qed.
Lemma quiet_now : quiet (now_nanos clock).
Proof. intros s. split_and!; [done|simpl; lia|done]. Qed.
Lemma quiet_inspect {A} (f : Coordinator → A) : quiet (inspect f).
Proof. by intros s. Qed.
Lemma quiet_coordinate {A} (f : Coordinator → Result A * Coordinator) : quiet (coordinate f).
Proof. intros s. unfold coordinate. by destruct (f (sv_coordinator s)). Qed.
Lemma quiet_attempt {A} (m : Step A) : quiet m → quiet (attempt_step m).
Proof. intros Hm s. specialize (Hm s). unfold attempt_step. by destruct (m s). Qed.

Lemma flags_bind {A} (m : Step A) (k : A → Step Answer) b :
  quiet m → (∀ x, flags b (k x)) → flags b (step_bind m k).
Proof.
  intros Hm Hk. unfold step_bind. split.
  - intros s. destruct (Hm s) as (L&R&D). destruct (m s) as [[x|c] s1]; [|done]. simpl in *.
    destruct (proj1 (Hk x) s1) as (L1&R1&D1). split_and!; [congruence|lia|congruence].
  - intros s result b' s'. destruct (m s) as [[x|c] s1]; [|done]. apply (Hk x).
Qed.

Lemma flags_ret b result : flags b (step_ret (result, b)).
Proof. split; [apply quiet_ret|]. by intros s r b' s' [= _ <- _]. Qed.

Lemma flags_lift b c : flags b (step_lift (Failure c)).
Proof. split; [apply quiet_lift|done]. Qed.

Lemma flags_shutdown : flags false on_shutdown.
Proof. split; [by intros s|]. by intros s r b s' [= _ <- _]. Qed.

Ltac flag_step :=
  lazymatch goal with
  | |- flags _ (step_ret _) => apply flags_ret
  | |- flags _ (step_lift (Failure _)) => apply flags_lift
  | |- flags _ (step_bind _ _) => apply flags_bind; [|intros ?]
  | |- flags _ (if ?b then _ else _) => destruct b
  | |- flags _ (match ?r with Success _ => _ | Failure _ => _ end) => destruct r
  | |- quiet (if ?b then _ else _) => destruct b
  | |- quiet _ => first [apply quiet_lift|apply quiet_now|apply quiet_inspect|apply quiet_coordinate
                        |apply quiet_ret|apply quiet_attempt]
  end.

Lemma on_advance_generation_flags payload : flags true (on_advance_generation payload).
Proof. unfold on_advance_generation. flag_step; [flag_step|]. cbv zeta. repeat flag_step. Qed.

Lemma handle_message_flags type payload : flags (saves type) (handle_message clock type payload).
Proof.
  unfold handle_message.
  repeat (lazymatch goal with |- context [type ≟ ?t] =>
      destruct (bool_decide_reflect (type = t)) as [->|]; [first
        [ apply on_advance_generation_flags | apply flags_shutdown | autounfold with service; repeat flag_step ]|] end).
  apply flags_lift.
Qed.

Lemma dated_later s s' :
  dated s → sv_last_snapshot_nanos s' = sv_last_snapshot_nanos s → (sv_readings s ≤ sv_readings s')%nat → dated s'.
Proof.
  intros Hs E Hr. unfold dated in *. rewrite E. destruct Hs as [?|(k&Hk&?)]; [by left|].
  right. exists k. split; [lia|done].
Qed.

Lemma dated_save s : dated s → dated (save_snapshot config clock s).2.
Proof.
  intros Hs. unfold save_snapshot. case_match; [done|]. destruct (save _ _ _) as [[[]|c] d]; [|done].
  right. exists (sv_readings s). split; [simpl; lia|done].
Qed.

Lemma dated_maybe mutated s : dated s → dated (maybe_snapshot config clock mutated s).
Proof.
  intros Hs. unfold maybe_snapshot. case_match; [done|]. set (s1 := s <| sv_readings := _ |>).
  assert (dated s1) by (eapply dated_later; [exact Hs|done|simpl; lia]).
  case_match; [done|]. by apply dated_save.
Qed.

Lemma dated_handle type payload s : dated s → dated (service_handle config clock type payload s).2.
Proof.
  intros Hs. destruct (proj1 (handle_message_flags type payload) s) as (L&R&_). unfold service_handle.
  destruct (handle_message clock type payload s) as [[[result mutated]|c] s1]; simpl in *.
  - apply dated_maybe. by eapply dated_later.
  - by eapply dated_later.
Qed.

Lemma dated_serve messages s : dated s → dated (serve s messages).
Proof.
  revert s. induction messages as [|m messages IH]; intros s Hs; [done|]. apply IH. by apply dated_handle.
Qed.

Lemma dated_start disk draws server_start : dated (start config draws server_start (make_service config disk)).2.
Proof.
  left. rewrite start_service. unfold boot_service.
  destruct (persists config); [|by rewrite boot_outcome_last].
  destruct (load_snapshot _ _) as [[state|c] d]; [by rewrite boot_outcome_last|].
  destruct c; first [reflexivity|by rewrite boot_outcome_last].
Qed.

Lemma maybe_snapshot_durable s :
  (∀ n m, (n ≤ m)%nat → clock n ≤ clock m) → persists config = true →
  svc_snapshot_interval_nanos config ≤ 0 → dated s →
  let s' := maybe_snapshot config clock true s in durable s' ∨ ∃ c, sv_last_snapshot_error s' = Some c.
Proof.
  intros Hmono Hp Hi Hs s'. unfold s', maybe_snapshot. rewrite Hp. cbn [negb orb].
  assert (∀ now, now = clock (sv_readings s) → (sv_last_snapshot_nanos s ≠? 0) &&
    (now - sv_last_snapshot_nanos s <? svc_snapshot_interval_nanos config) = false) as E.
  { intros now ->. destruct Hs as [->|(k&Hk&->)]; [done|]. apply andb_false_iff. right. apply Z.ltb_ge.
    pose proof (Hmono k (sv_readings s) ltac:(lia)). lia. }
  cbv zeta. simpl sv_last_snapshot_nanos. rewrite E by done. by apply save_snapshot_durable.
Qed.

Lemma acknowledged_durable s type payload reply :
  (∀ n m, (n ≤ m)%nat → clock n ≤ clock m) → persists config = true →
  svc_snapshot_interval_nanos config ≤ 0 → dated s → saves type = true →
  (service_handle config clock type payload s).1 = Success reply →
  let s' := (service_handle config clock type payload s).2 in
  durable s' ∨ ∃ c, sv_last_snapshot_error s' = Some c.
Proof.
  intros Hmono Hp Hi Hs Hm. destruct (handle_message_flags type payload) as [Q F].
  specialize (Q s) as (L&R&_). unfold service_handle.
  destruct (handle_message clock type payload s) as [[[result mutated]|c] s1] eqn:E; [|done]. simpl in *. intros _.
  rewrite (F _ _ _ _ E), Hm. apply maybe_snapshot_durable; try done. by eapply dated_later.
Qed.

(** An acknowledged message that only reads leaves the coordinator and the disk. *)
Lemma acknowledged_read s type payload reply :
  reads_only type = true → (service_handle config clock type payload s).1 = Success reply →
  let s' := (service_handle config clock type payload s).2 in
  sv_coordinator s' = sv_coordinator s ∧ sv_disk s' = sv_disk s.
Proof.
  intros Hr Hok s'. split.
  - unfold s'. rewrite service_handle_coordinator. apply bool_decide_eq_true_1 in Hr.
    repeat (apply elem_of_cons in Hr as [->|Hr]; [done|]). by apply not_elem_of_nil in Hr.
  - destruct (handle_message_flags type payload) as [Q F]. specialize (Q s) as (_&_&D). revert Hok. unfold s', service_handle.
    destruct (handle_message clock type payload s) as [[[result mutated]|c] s1] eqn:E; [|done]. simpl in *. intros _.
    rewrite (F _ _ _ _ E), saves_or_reads, Hr.
    + unfold maybe_snapshot. by cbn [negb orb].
    + intros ->. done.
Qed.

(** ** Restarting *)

Lemma restart_boots s disk draws :
  persists config = true → durable s → state_ok (export_state (sv_coordinator s)) →
  document_size (export_state (sv_coordinator s)) ≤ kMaxSnapshotPayloadBytes →
  d_files disk = d_files (sv_disk s) → readable_from (d_calls disk) →
  boots disk draws = [CBootFrom (export_state (sv_coordinator s)) draws].
Proof.
  intros Hp Hd Hs Hsize Hfiles Hr. unfold boots. rewrite Hp.
  rewrite (load_written (snapshot_store config) (export_state (sv_coordinator s)) disk true); try done.
  rewrite Hfiles. exact Hd.
Qed.

(** A document that is refused is replaced, when the service ends, by the
    document of a coordinator that never booted. *)
Lemma refused_document_is_overwritten disk draws server_start sessions e :
  persists config = true → (load_snapshot (snapshot_store config) disk).1 = Failure e → e ≠ StatusCode.NotFound →
  let '(code, s) := run_service config clock draws server_start sessions (make_service config disk) in
  code = 2 ∧ sv_coordinator s = make_coordinator (svc_coordinator config)
  ∧ (durable s ∨ ∃ c, sv_last_snapshot_error s = Some c).
Proof.
  intros Hp He Hne. unfold run_service, start, step_bind, boot_service, stop. rewrite Hp.
  change (sv_disk (make_service config disk)) with disk.
  destruct (load_snapshot (snapshot_store config) disk) as [loaded d]. simpl in He. subst loaded.
  set (s1 := (make_service config disk) <| sv_disk := d |>).
  assert (match e with StatusCode.NotFound => boot_outcome (boot_fresh (sv_coordinator s1) draws) s1
          | _ => (Failure e, s1) end = (Failure e, s1)) as -> by by destruct e.
  split; [done|]. split; [by rewrite save_snapshot_coordinator|]. by apply save_snapshot_durable.
Qed.

End service.

(** ** The promises *)

(** C4: The service refines the coordinator: whatever the disk holds and whatever
    messages arrive, malformed ones included, the coordinator of the service is the one
    obtained by the boot command of the start followed by the command of each well-
    formed message, all of them within the types of the coordinator's operations and
    with at most one opened flow per message; a body that does not decode changes
    nothing. *)
Theorem service_refines_coordinator (K : Kernel) (order : HashOrder) config clock disk draws server_start messages :
  disk_ok disk →
  let s := (start config draws server_start (make_service config disk)).2 in
  let ops := boots config disk draws ++ script config clock s messages in
  sv_coordinator (serve config clock s messages) = coord_run (make_coordinator (svc_coordinator config)) ops
  ∧ Forall cop_typed ops ∧ (calls_opening ops ≤ length messages)%nat.
Proof. apply service_history. Qed.

(** C30: After any start, from any disk, and any sequence of fewer than 2^64 messages of
    any content, the closure audit of the service's ledger succeeds. *)
Theorem service_audit_succeeds (K : Kernel) (order : HashOrder) config clock disk draws server_start messages :
  disk_ok disk → limits_typed (cl_ledger (cf_limits (svc_coordinator config))) →
  Z.of_nat (length messages) < two64 →
  let s := (start config draws server_start (make_service config disk)).2 in
  verify_closure (C_ledger (sv_coordinator (serve config clock s messages))) = Success tt.
Proof.
  intros Hd Hl Hn s. destruct (service_history config clock disk draws server_start messages Hd) as (E&T&C).
  fold s in E, T, C. rewrite E. apply closure_after_history; [done|done|lia].
Qed.

(** C14: With persistence on, a snapshot interval of zero or less and a clock that does
    not run backwards, after any history: when the service acknowledges a message other
    than EvaluateTraffic, then the document on disk is the flushed snapshot of the
    coordinator as it is then, or the service has recorded that the snapshot failed, or
    the message only reads and left the coordinator and the disk as they were. An
    acknowledged EvaluateTraffic changes the exported document without a snapshot. *)
Theorem acknowledged_change_is_durable (K : Kernel) (order : HashOrder) config clock disk draws server_start
    messages type payload reply :
  (∀ n m, (n ≤ m)%nat → clock n ≤ clock m) → persists config = true →
  svc_snapshot_interval_nanos config ≤ 0 → type ≠ MessageType.EvaluateTraffic →
  let s := serve config clock (start config draws server_start (make_service config disk)).2 messages in
  (service_handle config clock type payload s).1 = Success reply →
  let s' := (service_handle config clock type payload s).2 in
  (durable config s' ∨ ∃ c, sv_last_snapshot_error s' = Some c)
  ∨ reads_only type = true ∧ sv_coordinator s' = sv_coordinator s ∧ sv_disk s' = sv_disk s.
Proof.
  intros Hmono Hp Hi Hne s Hr. destruct (reads_only type) eqn:E.
  - right. split; [done|]. by eapply acknowledged_read.
  - left. eapply acknowledged_durable; try done; [apply dated_serve, dated_start|]. by rewrite saves_or_reads, E.
Qed.

(** C15: With persistence on, a snapshot interval of zero or less and a clock that does
    not run backwards: when a service has acknowledged a message after which it takes a
    snapshot, that is any but a heartbeat, a query, a shutdown or EvaluateTraffic, and
    no snapshot failure is recorded, a service restarted with the same configuration on
    the files it left behind boots its coordinator from exactly the state exported then,
    provided the export is within the bounds of the document format and the files can be
    read. *)
Theorem restart_resumes_last_change (K : Kernel) (order : HashOrder) config clock disk draws server_start messages
    type payload reply disk' draws' server_start' :
  (∀ n m, (n ≤ m)%nat → clock n ≤ clock m) → persists config = true →
  svc_snapshot_interval_nanos config ≤ 0 → saves type = true →
  let s := serve config clock (start config draws server_start (make_service config disk)).2 messages in
  let s' := (service_handle config clock type payload s).2 in
  let c := sv_coordinator s' in
  (service_handle config clock type payload s).1 = Success reply → sv_last_snapshot_error s' = None →
  state_ok (export_state c) → document_size (export_state c) ≤ kMaxSnapshotPayloadBytes →
  d_files disk' = d_files (sv_disk s') → readable_from (d_calls disk') →
  sv_coordinator (start config draws' server_start' (make_service config disk')).2
    = (boot_from (make_coordinator (svc_coordinator config)) (export_state c) draws').2.
Proof.
  intros Hmono Hp Hi Hm s s' c Hr He Hs Hsize Hf Hread.
  destruct (acknowledged_durable config clock s type payload reply) as [Hd|[e Hc]]; try done.
  - apply dated_serve, dated_start.
  - fold s' in Hd. rewrite start_coordinator, (restart_boots config s' disk' draws'); done.
  - fold s' in Hc. congruence.
Qed.
