(* ===== verification/Client.v ===== *)
(** * The client

    Models include/itf/client.hpp and src/client.cpp: the handshake, the frames it
    sends and receives, and one operation per request of the protocol. The stream
    is a parameter of [connect], as opening a socket is outside the model, and so
    is what the random source answers. *)

From S2P Require Import Prelude Ids Traffic Decision Policy Bytes Crc Codec Wire Ledger Coordinator CoordAudit.
From S2P Require Import CodecProps PolicyCodec Format Serialize Messages Net Session Service.

Record ClientConfig := MkClientConfig {
  cc_peer_name : list Z;
  cc_auth_token : list Z;
  cc_client_version : list Z;
  cc_max_frame_payload : Z;
}.

Record Client := MkClient {
  (** [stream_.valid()]. *)
  ct_valid : bool;
  ct_stream : TcpStream;
  ct_hello : HelloResponse;
  ct_max_frame_payload : Z;
  ct_send_sequence : Z;
  ct_last_received_sequence : Z;
  ct_frames_sent : Z;
  ct_frames_received : Z;
}.

#[export] Instance ct_eta : Eta Client := fun r =>
  MkClient (ct_valid r) (ct_stream r) (ct_hello r) (ct_max_frame_payload r) (ct_send_sequence r)
    (ct_last_received_sequence r) (ct_frames_sent r) (ct_frames_received r).
#[export] Instance ct_set_valid : Setter ct_valid. Proof. mk_setter. Defined.
#[export] Instance ct_set_stream : Setter ct_stream. Proof. mk_setter. Defined.
#[export] Instance ct_set_hello : Setter ct_hello. Proof. mk_setter. Defined.
#[export] Instance ct_set_max_frame_payload : Setter ct_max_frame_payload. Proof. mk_setter. Defined.
#[export] Instance ct_set_send_sequence : Setter ct_send_sequence. Proof. mk_setter. Defined.
#[export] Instance ct_set_last_received : Setter ct_last_received_sequence. Proof. mk_setter. Defined.
#[export] Instance ct_set_frames_sent : Setter ct_frames_sent. Proof. mk_setter. Defined.
#[export] Instance ct_set_frames_received : Setter ct_frames_received. Proof. mk_setter. Defined.

(** The members' initialisers. *)
Definition empty_hello_response : HelloResponse :=
  MkHelloResponse kWireProtocolVersion kApiVersion nil_id nil_id nil_id 0 0 0 EvidenceState.Unknown
    kAbsoluteMaxPayloadBytes 0 [].

Definition new_client (stream : TcpStream) : Client := MkClient true stream empty_hello_response 0 0 0 0 0.

Definition close (c : Client) : Client := c <| ct_valid := false |>.

(** ** Frames *)

Definition send_frame_raw (type : Z) (payload : list Z) (sequence correlation : Z) (c : Client) : Status * Client :=
  if negb (ct_valid c) then (Failure StatusCode.Closed, c)
  else if len payload >? ct_max_frame_payload c then (Failure StatusCode.BoundsExceeded, c)
  else
    let frame := MkHeader kWireProtocolVersion type 0 (wrap32 (len payload)) sequence correlation (compute payload) in
    let header := encode_header frame (replicate (Z.to_nat kHeaderBytes) 0) in
    let '(status, stream) := write_all_stream header (ct_stream c) in
    let '(status, stream) :=
      if ok status && negb (len payload ≟ 0) then write_all_stream payload stream else (status, stream) in
    let c := c <| ct_stream := stream |> in
    (status, if ok status then c <| ct_frames_sent := add64 (ct_frames_sent c) 1 |> else c).

Definition send_frame (type : Z) (payload : list Z) (c : Client) : Status * Client :=
  let c := c <| ct_send_sequence := add64 (ct_send_sequence c) 1 |> in
  send_frame_raw type payload (ct_send_sequence c) 0 c.

(** A frame whose payload was read. *)
Definition take_frame (expected_type : Z) (frame : FrameHeader) (payload : list Z) (c : Client)
    : Result (list Z) * Client :=
  if compute payload ≠? fh_payload_crc32c frame then (Failure StatusCode.IntegrityMismatch, c)
  else if fh_sequence frame <=? ct_last_received_sequence c then (Failure StatusCode.ReplayRejected, c)
  else
    let c := c <| ct_last_received_sequence := fh_sequence frame |>
               <| ct_frames_received := add64 (ct_frames_received c) 1 |> in
    if fh_type frame ≟ MessageType.ErrorResponse then
      match (decode_error_response (Reader.make payload kMaxFramePayloadBytes)).1 with
      | Failure e => (Failure e, c)
      | Success error => (Failure (er_code error), c)
      end
    else if fh_type frame ≠? expected_type then (Failure StatusCode.MalformedInput, c)
    else (Success payload, c).

Definition receive_frame (expected_type : Z) (c : Client) : Result (list Z) * Client :=
  if negb (ct_valid c) then (Failure StatusCode.Closed, c)
  else
    let '(read_header, stream) := read_exact (Z.to_nat kHeaderBytes) (ct_stream c) in
    let c := c <| ct_stream := stream |> in
    match read_header with
    | Failure e => (Failure e, c)
    | Success header =>
        match decode_header header (ct_max_frame_payload c) with
        | Failure e => (Failure e, c)
        | Success frame =>
            let '(read_payload, stream) := read_exact (Z.to_nat (fh_payload_length frame)) (ct_stream c) in
            let c := c <| ct_stream := stream |> in
            match read_payload with
            | Failure e => (Failure e, c)
            | Success payload => take_frame expected_type frame payload c
            end
        end
    end.

Definition exchange (type : Z) (payload : list Z) (c : Client) : Result (list Z) * Client :=
  let expected := response_type_for type in
  if expected ≟ MessageType.Invalid then (Failure StatusCode.InvalidArgument, c)
  else
    match send_frame type payload c with
    | (Failure e, c) => (Failure e, c)
    | (Success _, c) => receive_frame expected c
    end.

(** ** Connecting *)

Definition handshake (config : ClientConfig) (draws : Z * Z) (c : Client) : Status * Client :=
  let c := c <| ct_max_frame_payload := cc_max_frame_payload config |> in
  let hello := MkHelloRequest kWireProtocolVersion kApiVersion (cc_peer_name config) (cc_auth_token config)
                 (cc_client_version config) (next_random_id draws) (cc_max_frame_payload config) in
  let writer := encode_hello_request hello (Writer.make kMaxFramePayloadBytes) in
  if negb (Writer.ok writer) then (Failure (Writer.failure writer), c)
  else
    match send_frame MessageType.HelloRequest (Writer.buffer writer) c with
    | (Failure e, c) => (Failure e, c)
    | (Success _, c) =>
        match receive_frame MessageType.HelloResponse c with
        | (Failure e, c) => (Failure e, c)
        | (Success payload, c) =>
            match decode_body payload decode_hello_response with
            | Failure e => (Failure e, c)
            | Success response =>
                (Success tt,
                 c <| ct_hello := response |>
                   <| ct_max_frame_payload :=
                        if cc_max_frame_payload config <? hr_max_frame_payload response
                        then cc_max_frame_payload config else hr_max_frame_payload response |>)
            end
        end
    end.

Definition connect (config : ClientConfig) (draws : Z * Z) (stream : Result TcpStream) : Result Client :=
  if negb (is_safe_label (cc_peer_name config)) then Failure StatusCode.InvalidArgument
  else match stream with
  | Failure e => Failure e
  | Success stream =>
      match handshake config draws (new_client stream) with
      | (Failure e, _) => Failure e
      | (Success _, c) => Success c
      end
  end.

(** ** Operations *)

(** The shape all operations share: encode, exchange, decode. *)
Definition request {A} (type : Z) (encode : Writer.t → Writer.t) (decode : Reader.t → Result A * Reader.t)
    (c : Client) : Result A * Client :=
  match exchange type (Writer.buffer (encode (Writer.make kMaxFramePayloadBytes))) c with
  | (Failure e, c) => (Failure e, c)
  | (Success payload, c) => (decode_body payload decode, c)
  end.

(** The operations that look at the writer first. *)
Definition checked_request {A} (type : Z) (encode : Writer.t → Writer.t)
    (decode : Reader.t → Result A * Reader.t) (c : Client) : Result A * Client :=
  let writer := encode (Writer.make kMaxFramePayloadBytes) in
  if negb (Writer.ok writer) then (Failure (Writer.failure writer), c) else request type encode decode c.

Definition client_heartbeat : Client → Result SimpleAck * Client :=
  request MessageType.Heartbeat (encode_heartbeat 0) decode_simple_ack.

Definition client_register_request (id : RequestId) (deadline_after_nanos : Z)
    : Client → Result RegisterRequestResponse * Client :=
  request MessageType.RegisterRequest (encode_register_request (MkRegisterRequest id deadline_after_nanos))
    decode_register_request_response.

Definition client_register_attempt (id : RequestId) (attempt : AttemptId) (model_hash : Z)
    : Client → Result RegisterAttemptResponse * Client :=
  request MessageType.RegisterAttempt (encode_register_attempt (MkRegisterAttempt id attempt model_hash))
    decode_register_attempt_response.

Definition client_advance_stage (id : RequestId) (attempt : AttemptId) (stage : ServingStage)
    : Client → Result SimpleAck * Client :=
  request MessageType.StageUpdate (encode_stage_update (MkStageUpdate id attempt stage)) decode_simple_ack.

Definition client_cancel_request (id : RequestId) (reason : ReasonCode) : Client → Result SimpleAck * Client :=
  request MessageType.CancelRequest (encode_cancel_request (MkCancelRequest id reason)) decode_simple_ack.

Definition client_fail_attempt (id : RequestId) (attempt : AttemptId) (reason : ReasonCode)
    : Client → Result SimpleAck * Client :=
  request MessageType.FailAttempt (encode_fail_attempt (MkFailAttempt id attempt reason)) decode_simple_ack.

Definition client_replace_attempt (id : RequestId) (superseded replacement : AttemptId) (model_hash : Z)
    : Client → Result RegisterAttemptResponse * Client :=
  request MessageType.ReplaceAttempt
    (encode_replace_attempt (MkReplaceAttempt id superseded replacement model_hash))
    decode_register_attempt_response.

Definition client_evaluate (r : TrafficRequest) : Client → Result Decision * Client :=
  checked_request MessageType.EvaluateTraffic (encode_evaluate_traffic r) decode_decision.

Definition client_open_flow (decision : Decision) (declared_bytes : Z) : Client → Result OpenFlowResponse * Client :=
  checked_request MessageType.OpenFlow (encode_open_flow (MkOpenFlow decision declared_bytes))
    decode_open_flow_response.

Definition client_register_transfer (registration : TransferRegistration)
    : Client → Result RegisterTransferResponse * Client :=
  checked_request MessageType.RegisterTransfer (encode_register_transfer registration)
    decode_register_transfer_response.

Definition client_authorize_transfer (r : TrafficRequest) : Client → Result TransferDecisionResponse * Client :=
  request MessageType.AuthorizeTransfer (encode_authorize_transfer r) decode_transfer_decision.

Definition client_publish_completion (publication : CompletionPublication)
    : Client → Result PublishOutcome * Client :=
  request MessageType.CompletionPublish (encode_completion_publish publication) decode_publish_outcome.

Definition client_accounting : Client → Result AccountingSnapshot * Client :=
  request MessageType.AccountingQuery (encode_query 0) decode_accounting_snapshot.

Definition client_status : Client → Result CoordinatorStatus * Client :=
  request MessageType.StatusQuery (encode_query 0) decode_coordinator_status.

Definition client_policy : Client → Result PolicyConfig * Client :=
  request MessageType.PolicyQuery (encode_query 0) policy_decode.

Definition client_publish_topology (evidence : TopologyEvidence)
    : Client → Result TopologyResponseMessage * Client :=
  request MessageType.TopologyPublish (encode_topology_publish evidence) decode_topology_response.

Definition client_publish_slo_contract (id : RequestId)
    (tail_latency_budget_nanos registration_deadline_nanos min_stream_share_per_mille : Z)
    : Client → Result SloContract * Client :=
  request MessageType.PublishSloContract
    (encode_publish_slo (MkPublishSlo id tail_latency_budget_nanos registration_deadline_nanos
       min_stream_share_per_mille)) decode_slo_response.

Definition client_issue_route_decision (id : RequestId) (attempt : AttemptId) (target_node : Z)
    (lateral disaggregated_handoff : bool) : Client → Result RouteDecision * Client :=
  request MessageType.IssueRouteDecision
    (encode_issue_route (MkIssueRoute id attempt target_node lateral disaggregated_handoff))
    decode_route_response.

Definition client_advance_model_generation (model_hash : Z) (expected : option Z) (revalidate_only : bool)
    : Client → Result ModelGenerationResponse * Client :=
  request MessageType.AdvanceModelGeneration
    (encode_advance_generation (MkAdvanceGeneration model_hash (default 0 expected)
       (has_value expected) revalidate_only false)) decode_model_generation.

Definition client_advance_state_generation (state_hash : Z) (expected : option Z) (revalidate_only : bool)
    : Client → Result ModelGenerationResponse * Client :=
  request MessageType.AdvanceModelGeneration
    (encode_advance_generation (MkAdvanceGeneration state_hash (default 0 expected)
       (has_value expected) revalidate_only true)) decode_model_generation.
