(* ===== verification/ClientProps.v ===== *)
(** * A call returns what the handler answered

    The client against a session of the server: whatever way the network cuts the
    bytes of the two directions, the client gets the handler's answer to its own
    request, and the two sides are ready for the next one. *)

From S2P Require Import Prelude Ids Traffic Decision Bytes Crc Codec Wire Ledger Coordinator CoordAudit.
From S2P Require Import CodecProps PolicyCodec Format Serialize SerializeProps Messages MessagesProps Net Session SessionProps Service Client.
From Stdlib Require Import Sorted.

(** ** The two halves of the client *)

Lemma send_frame_sent type payload c :
  ct_valid c = true → len payload ≤ ct_max_frame_payload c → ts_deliveries (ct_stream c) = [] →
  let n := add64 (ct_send_sequence c) 1 in
  ∃ c', send_frame type payload c = (Success tt, c')
    ∧ ct_valid c' = true ∧ ct_max_frame_payload c' = ct_max_frame_payload c ∧ ct_send_sequence c' = n
    ∧ ct_last_received_sequence c' = ct_last_received_sequence c
    ∧ ct_stream c' = MkStream (ts_arrivals (ct_stream c)) []
                       (ts_sent (ct_stream c) ++ frame_bytes type n 0 payload).
Proof.
  intros Hv Hl Hd n. unfold send_frame, send_frame_raw. cbn [ct_valid]. set (c1 := c <| ct_send_sequence := _ |>).
  change (ct_valid c1) with (ct_valid c). rewrite Hv. cbn [negb].
  change (ct_max_frame_payload c1) with (ct_max_frame_payload c). rewrite Z.gtb_ltb, (proj2 (Z.ltb_ge _ _)) by lia.
  change (ct_send_sequence c1) with n. cbv zeta.
  change (MkHeader _ _ _ _ _ _ _) with (header_of type n 0 payload). unfold frame_bytes.
  set (header := encode_header _ _). clearbody header.
  rewrite (write_frame header payload (ct_stream c1) (fun status stream =>
    (status, if ok status then c1 <| ct_stream := stream |> <| ct_frames_sent := _ |> else c1 <| ct_stream := stream |>)) Hd).
  cbn [ok]. eexists. split; [reflexivity|]. by split_and!.
Qed.

Lemma receive_frame_rest expected type sequence correlation payload rest c :
  ct_valid c = true → frame_ok (ct_max_frame_payload c) type sequence correlation payload →
  all_data (ts_arrivals (ct_stream c)) →
  bytes_of (ts_arrivals (ct_stream c)) = frame_bytes type sequence correlation payload ++ rest →
  ∃ arrivals, all_data arrivals ∧ bytes_of arrivals = rest ∧
  receive_frame expected c =
    take_frame expected (header_of type sequence correlation payload) payload
      (c <| ct_stream := (ct_stream c) <| ts_arrivals := arrivals |> |>).
Proof.
  intros Hv Hf Ha E. destruct (frame_read _ _ _ _ _ rest _ Hf Ha E) as (header&a1&a2&R1&Dh&R2&D2&B2).
  exists a2. split_and!; [done..|].
  unfold receive_frame. rewrite Hv. cbn [negb]. unfold read_exact at 1. rewrite R1. cbv zeta.
  change (ct_max_frame_payload (c <| ct_stream := _ |>)) with (ct_max_frame_payload c). rewrite Dh.
  unfold read_exact. simpl ts_arrivals. simpl fh_payload_length. rewrite wrap32_id, R2; [done|].
  destruct Hf. pose proof (len_nonneg payload). unfold is_u32, two32, kAbsoluteMaxPayloadBytes in *. lia.
Qed.

(** What the client makes of an answer. *)
Lemma take_frame_reply describe type n correlation response c :
  response_type_for type ≠ MessageType.Invalid → response_type_for type ≠ MessageType.ErrorResponse →
  0 ≤ type < MessageType.Count → (∀ e, text_ok (describe e)) → ct_last_received_sequence c < n →
  let reply := reply_of describe type response in
  take_frame (response_type_for type) (header_of reply.1 n correlation reply.2) reply.2 c
  = (response, c <| ct_last_received_sequence := n |> <| ct_frames_received := add64 (ct_frames_received c) 1 |>).
Proof.
  intros Hr He Ht Hdesc Hn reply. unfold take_frame. cbn [fh_payload_crc32c fh_sequence fh_type header_of].
  rewrite (bool_decide_true (compute reply.2 = compute reply.2)) by done. cbn [negb].
  destruct (Z.leb_spec n (ct_last_received_sequence c)); [lia|]. cbv zeta.
  unfold reply, reply_of. destruct response as [body|e].
  - rewrite (bool_decide_false _ Hr). cbn [fst snd]. rewrite (bool_decide_false _ He).
    by rewrite (bool_decide_true _ eq_refl).
  - cbn [fst snd]. rewrite (bool_decide_true _ eq_refl).
    assert (error_response_ok (MkErrorResponse e type (describe e))) as Hok.
    { split; [exact Ht|exact (Hdesc e)]. }
    pose proof (carries_document _ _ _ _ kMaxFramePayloadBytes (carries_error_response _ Hok) ltac:(done)) as D.
    cbv zeta in D. destruct (decode_error_response _) as [result r]. by destruct D as (_&->&_).
Qed.

(** The client's half of a call: when the answer to it is the next frame, it is
    what the call returns, and what follows it is left for the next call. *)
Lemma exchange_answered describe type payload response n correlation rest c :
  ct_valid c = true → ts_deliveries (ct_stream c) = [] → len payload ≤ ct_max_frame_payload c →
  response_type_for type ≠ MessageType.Invalid → response_type_for type ≠ MessageType.ErrorResponse →
  0 ≤ type < MessageType.Count → (∀ e, text_ok (describe e)) → ct_last_received_sequence c < n →
  let reply := reply_of describe type response in
  frame_ok (ct_max_frame_payload c) reply.1 n correlation reply.2 →
  all_data (ts_arrivals (ct_stream c)) →
  bytes_of (ts_arrivals (ct_stream c)) = frame_bytes reply.1 n correlation reply.2 ++ rest →
  ∃ c', exchange type payload c = (response, c')
    ∧ ct_valid c' = true ∧ ct_max_frame_payload c' = ct_max_frame_payload c
    ∧ ct_send_sequence c' = add64 (ct_send_sequence c) 1 ∧ ct_last_received_sequence c' = n
    ∧ ts_deliveries (ct_stream c') = [] ∧ all_data (ts_arrivals (ct_stream c'))
    ∧ bytes_of (ts_arrivals (ct_stream c')) = rest
    ∧ ts_sent (ct_stream c') =
        ts_sent (ct_stream c) ++ frame_bytes type (add64 (ct_send_sequence c) 1) 0 payload.
Proof.
  intros Hv Hd Hl Hr He Ht Hdesc Hn reply Hf Ha Hb.
  destruct (send_frame_sent type payload c Hv Hl Hd) as (c1&E1&V1&M1&S1&L1&St1).
  destruct (receive_frame_rest (response_type_for type) reply.1 n correlation reply.2 rest c1) as (arrivals&A1&B1&E2);
    [done|by rewrite M1|by rewrite St1..|].
  unfold reply in E2. rewrite take_frame_reply in E2; try done; [|by rewrite <- L1 in Hn].
  unfold exchange. rewrite (bool_decide_false _ Hr), E1, E2. eexists. split; [reflexivity|].
  split_and!; try done; simpl; by rewrite St1.
Qed.

(** ** A call *)

Section call.
Context {H : Type} `{MessageHandler H}.
Variable config : ServerConfig.
Variable draws : (Z * Z) * (Z * Z).
Variable describe : StatusCode.t → list Z.

(** A client and an established session that are ready for the next call: neither
    side's counters are behind the other's, and nothing is under way. *)
Record in_sync (c : Client) (s : Session H) : Prop := {
  sy_valid : ct_valid c = true;
  sy_established : se_handshaken s = true;
  sy_upward : 0 ≤ se_inbound_sequence s ≤ ct_send_sequence c;
  sy_downward : 0 ≤ ct_last_received_sequence c ≤ se_outbound_sequence s;
  sy_limit : ct_max_frame_payload c = se_max_payload s;
  sy_free : ts_deliveries (ct_stream c) = [] ∧ ts_deliveries (se_stream s) = [];
}.

Lemma call_answered c s type payload response h arrivals arrivals' :
  in_sync c s → ct_send_sequence c + 1 < two64 → se_outbound_sequence s + 1 < two64 →
  response_type_for type ≠ MessageType.Invalid → response_type_for type ≠ MessageType.ErrorResponse →
  type ≠ MessageType.HelloRequest → (∀ e, text_ok (describe e)) →
  frame_ok (se_max_payload s) type (ct_send_sequence c + 1) 0 payload →
  handle (se_context s) type payload (se_handler s) = (response, h) →
  let reply := reply_of describe type response in
  frame_ok (se_max_payload s) reply.1 (se_outbound_sequence s + 1) (ct_send_sequence c + 1) reply.2 →
  all_data arrivals → bytes_of arrivals = frame_bytes type (ct_send_sequence c + 1) 0 payload →
  all_data arrivals' →
  bytes_of arrivals' = frame_bytes reply.1 (se_outbound_sequence s + 1) (ct_send_sequence c + 1) reply.2 →
  ∃ c' s', exchange type payload (c <| ct_stream := (ct_stream c) <| ts_arrivals := arrivals' |> |>) = (response, c')
    ∧ serve_turn config draws describe (s <| se_stream := (se_stream s) <| ts_arrivals := arrivals |> |>)
        = (Continue, s')
    ∧ ts_sent (ct_stream c') = ts_sent (ct_stream c) ++ bytes_of arrivals
    ∧ ts_sent (se_stream s') = ts_sent (se_stream s) ++ bytes_of arrivals'
    ∧ se_handler s' = h ∧ se_handled s' = se_handled s ++ [(ct_send_sequence c + 1, type, payload)]
    ∧ in_sync c' s'.
Proof.
  intros [Hv Hh Hup Hdown Hlim [Hdc Hds]] Hn Hm Hr He Ht Hdesc Hf Eh reply Hf' Ha Hb Ha' Hb'.
  assert (add64 (ct_send_sequence c) 1 = ct_send_sequence c + 1) as En.
  { apply wrap64_id. unfold is_u64. lia. }
  assert (add64 (se_outbound_sequence s) 1 = se_outbound_sequence s + 1) as Em.
  { apply wrap64_id. unfold is_u64. lia. }
  set (c0 := c <| ct_stream := _ |>). set (s0 := s <| se_stream := _ |>).
  rewrite <- (app_nil_r (frame_bytes reply.1 _ _ _)) in Hb'.
  destruct (exchange_answered describe type payload response (se_outbound_sequence s + 1) (ct_send_sequence c + 1) [] c0)
    as (c1&E1&V1&M1&S1&L1&D1&A1&B1&St1); try done.
  { change (ct_max_frame_payload c0) with (ct_max_frame_payload c). rewrite Hlim. apply Hf. }
  { destruct Hf. lia. }
  { change (ct_last_received_sequence c0) with (ct_last_received_sequence c). lia. }
  { change (ct_max_frame_payload c0) with (ct_max_frame_payload c). by rewrite Hlim. }
  rewrite app_nil_r in Hb'.
  change (ct_send_sequence c0) with (ct_send_sequence c) in *. rewrite En in S1, St1.
  rewrite <- (app_nil_r (frame_bytes type _ _ _)) in Hb.
  destruct (serve_turn_established config draws describe s0 type (ct_send_sequence c + 1) 0 payload [])
    as (rest&s'&Et&Ha2&Hb2&T); try done; [simpl; lia|]. rewrite app_nil_r in Hb.
  change (handle (se_context s0) type payload (se_handler s0)) with
    (handle (se_context s) type payload (se_handler s)) in T. rewrite Eh in T.
  destruct T as [T1 T2 T3 T4 T5 T6 T7 T8 T9 T10 T11].
  exists c1, s'. split; [exact E1|]. split; [exact Et|].
  change (se_outbound_sequence s0) with (se_outbound_sequence s) in *. simpl in T6. rewrite Em in T6.
  split_and!; [by rewrite St1, Hb|by rewrite T11, T6, Hb'|done..|].
  split; try done.
  - rewrite T5, S1. lia.
  - rewrite T6, L1. lia.
  - by rewrite M1, T3.
Qed.

End call.

(** ** A sequence of calls *)

Fixpoint exchange_all (requests : list (Z * list Z)) (c : Client) : list (Result (list Z)) * Client :=
  match requests with
  | [] => ([], c)
  | (type, payload) :: requests =>
      let '(response, c) := exchange type payload c in
      let '(responses, c) := exchange_all requests c in (response :: responses, c)
  end.

Lemma exchange_all_app requests requests' c :
  exchange_all (requests ++ requests') c =
    let '(rs, c) := exchange_all requests c in
    let '(rs', c) := exchange_all requests' c in (rs ++ rs', c).
Proof.
  revert c. induction requests as [|[type payload] requests IH]; intros c; cbn [exchange_all app].
  { by destruct (exchange_all requests' c). }
  destruct (exchange type payload c) as [r c1]. rewrite IH. destruct (exchange_all requests c1) as [rs c2].
  by destruct (exchange_all requests' c2).
Qed.

(** The frames of requests that follow the [n]-th. *)
Fixpoint numbered (n : Z) (requests : list (Z * list Z)) : list (Z * Z * list Z) :=
  match requests with
  | [] => []
  | (type, payload) :: requests => (n + 1, type, payload) :: numbered (n + 1) requests
  end.

(** A request that the client may send over frames of at most [limit] bytes. *)
Record callable (limit : Z) (request : Z * list Z) : Prop := {
  cl_answered : response_type_for request.1 ≠ MessageType.Invalid;
  cl_no_error : response_type_for request.1 ≠ MessageType.ErrorResponse;
  cl_type : 0 < request.1 < MessageType.Count;
  cl_not_hello : request.1 ≠ MessageType.HelloRequest;
  cl_bytes : Forall is_byte request.2;
  cl_length : len request.2 ≤ kAbsoluteMaxPayloadBytes;
  cl_limit : len request.2 ≤ limit;
}.

Lemma numbered_ok limit n requests :
  Forall (callable limit) requests → 0 ≤ n → n + len requests < two64 → frames_ok limit (numbered n requests).
Proof.
  intros Hc. revert n. induction Hc as [|[type payload] requests [] Hc IH]; intros n Hn Hl; [constructor|].
  unfold len in Hl. cbn [length] in Hl. cbn [fst snd] in *. constructor; [|apply IH; unfold len; lia].
  cbn [fst snd]. split; [|done]. split; try done; unfold is_u64; lia.
Qed.

Lemma numbered_sorted n m requests : n ≤ m → StronglySorted Z.lt (n :: sequences (numbered m requests)).
Proof.
  revert n m. induction requests as [|[type payload] requests IH]; intros n m Hn; [by repeat constructor|].
  change (sequences (numbered m ((type, payload) :: requests))) with
    (m + 1 :: sequences (numbered (m + 1) requests)).
  pose proof (IH (m + 1) (m + 1) ltac:(lia)) as Hs. constructor; [done|].
  constructor; [lia|]. inversion Hs as [|? ? _ Hf]; subst. eapply Forall_impl; [exact Hf|]. simpl. lia.
Qed.

Section calls.
Context {H : Type} `{MessageHandler H}.
Variable describe : StatusCode.t → list Z.
Hypothesis describe_ok : ∀ e, text_ok (describe e).

(** What the handler answers to them, and that its answers fit into frames. *)
Fixpoint responses (context : Context) (h : H) (requests : list (Z * list Z)) : list (Result (list Z)) :=
  match requests with
  | [] => []
  | (type, payload) :: requests =>
      let '(response, h) := handle context type payload h in response :: responses context h requests
  end.

Fixpoint answers_fit (limit : Z) (context : Context) (h : H) (requests : list (Z * list Z)) : Prop :=
  match requests with
  | [] => True
  | (type, payload) :: requests =>
      let '(response, h) := handle context type payload h in
      let reply := reply_of describe type response in
      (0 < reply.1 < MessageType.Count ∧ Forall is_byte reply.2 ∧ len reply.2 ≤ kAbsoluteMaxPayloadBytes
        ∧ len reply.2 ≤ limit)
      ∧ answers_fit limit context h requests
  end.

(** The client's half of a conversation: it gets the handler's answers in order,
    when they arrive, whatever way they are cut. *)
Lemma exchange_all_answered context requests c h outbound rest :
  ct_valid c = true → ts_deliveries (ct_stream c) = [] → Forall (callable (ct_max_frame_payload c)) requests →
  answers_fit (ct_max_frame_payload c) context h requests → ct_last_received_sequence c ≤ outbound →
  0 ≤ outbound → outbound + len requests < two64 → 0 ≤ ct_send_sequence c →
  ct_send_sequence c + len requests < two64 → all_data (ts_arrivals (ct_stream c)) →
  bytes_of (ts_arrivals (ct_stream c)) =
    replies describe context h outbound (numbered (ct_send_sequence c) requests) ++ rest →
  ∃ c', exchange_all requests c = (responses context h requests, c')
    ∧ bytes_of (ts_arrivals (ct_stream c')) = rest
    ∧ ts_sent (ct_stream c') = ts_sent (ct_stream c) ++ frames_bytes (numbered (ct_send_sequence c) requests).
Proof.
  revert c h outbound. induction requests as [|[type payload] requests IH];
    intros c h outbound Hv Hd Hc Hf Hl Ho Hon Hs Hsn Ha Hb.
  { exists c. cbn. by rewrite app_nil_r. }
  apply Forall_cons in Hc as [[] Hc]. cbn [fst snd] in *. unfold len in Hon, Hsn. cbn [length] in Hon, Hsn.
  cbn [answers_fit numbered replies responses exchange_all] in *.
  destruct (handle context type payload h) as [response h'] eqn:Eh. destruct Hf as [(R1&R2&R3&R4) Hf].
  assert (add64 outbound 1 = outbound + 1) as En by (apply wrap64_id; unfold is_u64; lia).
  assert (add64 (ct_send_sequence c) 1 = ct_send_sequence c + 1) as Em by (apply wrap64_id; unfold is_u64; lia).
  rewrite En, <- app_assoc in Hb.
  destruct (exchange_answered describe type payload response (outbound + 1) (ct_send_sequence c + 1)
    (replies describe context h' (outbound + 1) (numbered (ct_send_sequence c + 1) requests) ++ rest) c)
    as (c1&->&V1&M1&S1&L1&D1&A1&B1&St1); try done; [lia..| |].
  { split; try done; unfold is_u64; lia. }
  rewrite Em in S1, St1.
  destruct (IH c1 h' (outbound + 1)) as (c2&->&B2&St2);
    rewrite ?M1, ?S1, ?L1; try done; unfold len; try lia.
  exists c2. split_and!; [done|done|]. rewrite St2, St1, S1, <- app_assoc. done.
Qed.

End calls.

(** A call of the client against an established session returns the handler's own
    answer to that call, be it a body or a failure code, however the network cuts the
    bytes of the two directions; each side sent exactly the frame the other received,
    and both are ready for the next call. *)
Theorem client_call_returns_answer {H} `{MessageHandler H} config draws describe c (s : Session H) type payload response h arrivals arrivals' :
  in_sync c s → ct_send_sequence c + 1 < two64 → se_outbound_sequence s + 1 < two64 →
  response_type_for type ≠ MessageType.Invalid → response_type_for type ≠ MessageType.ErrorResponse →
  type ≠ MessageType.HelloRequest → (∀ e, text_ok (describe e)) →
  frame_ok (se_max_payload s) type (ct_send_sequence c + 1) 0 payload →
  handle (se_context s) type payload (se_handler s) = (response, h) →
  let reply := reply_of describe type response in
  frame_ok (se_max_payload s) reply.1 (se_outbound_sequence s + 1) (ct_send_sequence c + 1) reply.2 →
  all_data arrivals → bytes_of arrivals = frame_bytes type (ct_send_sequence c + 1) 0 payload →
  all_data arrivals' →
  bytes_of arrivals' = frame_bytes reply.1 (se_outbound_sequence s + 1) (ct_send_sequence c + 1) reply.2 →
  ∃ c' s', exchange type payload (c <| ct_stream := (ct_stream c) <| ts_arrivals := arrivals' |> |>) = (response, c')
    ∧ serve_turn config draws describe (s <| se_stream := (se_stream s) <| ts_arrivals := arrivals |> |>)
        = (Continue, s')
    ∧ ts_sent (ct_stream c') = ts_sent (ct_stream c) ++ bytes_of arrivals
    ∧ ts_sent (se_stream s') = ts_sent (se_stream s) ++ bytes_of arrivals'
    ∧ se_handler s' = h ∧ se_handled s' = se_handled s ++ [(ct_send_sequence c + 1, type, payload)]
    ∧ in_sync c' s'.
Proof. apply call_answered. Qed.
