(* ===== verification/Remote.v ===== *)
(** * A remote call is a local call

    Composes the client, the wire, a session of the server, the service and the
    coordinator: what a call of the client answers, and what it does to the
    coordinator at the other end, is what the coordinator's own method answers and
    does. [local_call] states the meaning of each call of include/itf/client.hpp
    without any of the layers between. *)

From S2P Require Import Prelude Ids Traffic Decision Policy Bytes Crc Codec Wire Ledger Coordinator Evaluate Flows CoordAudit.
From S2P Require Import CodecProps PolicyCodec Format Serialize SerializeProps Messages MessagesProps Snapshot Net.
From S2P Require Import Session SessionProps Service CoordRun ServiceProps Client ClientProps.
#[local] Open Scope Z_scope.

(** ** The calls *)

Module Call.
Inductive t : Type :=
| Heartbeat
| RegisterRequest (request : RequestId) (deadline_after_nanos : Z)
| RegisterAttempt (request : RequestId) (attempt : AttemptId) (model_hash : Z)
| AdvanceStage (request : RequestId) (attempt : AttemptId) (stage : ServingStage)
| CancelRequest (request : RequestId) (reason : ReasonCode)
| FailAttempt (request : RequestId) (attempt : AttemptId) (reason : ReasonCode)
| ReplaceAttempt (request : RequestId) (superseded replacement : AttemptId) (model_hash : Z)
| Evaluate (request : TrafficRequest)
| OpenFlow (decision : Decision) (declared_bytes : Z)
| RegisterTransfer (registration : TransferRegistration)
| AuthorizeTransfer (request : TrafficRequest)
| PublishCompletion (publication : CompletionPublication)
| Accounting
| Status
| Policy
| PublishTopology (evidence : TopologyEvidence)
| PublishSlo (request : RequestId) (tail_latency registration_deadline min_share : Z)
| IssueRoute (request : RequestId) (attempt : AttemptId) (target_node : Z) (lateral handoff : bool)
| AdvanceModel (model_hash : Z) (expected : option Z) (revalidate_only : bool)
| AdvanceState (state_hash : Z) (expected : option Z) (revalidate_only : bool).

Definition type (k : t) : Z :=
  match k with
  | Heartbeat => MessageType.Heartbeat
  | RegisterRequest _ _ => MessageType.RegisterRequest
  | RegisterAttempt _ _ _ => MessageType.RegisterAttempt
  | AdvanceStage _ _ _ => MessageType.StageUpdate
  | CancelRequest _ _ => MessageType.CancelRequest
  | FailAttempt _ _ _ => MessageType.FailAttempt
  | ReplaceAttempt _ _ _ _ => MessageType.ReplaceAttempt
  | Evaluate _ => MessageType.EvaluateTraffic
  | OpenFlow _ _ => MessageType.OpenFlow
  | RegisterTransfer _ => MessageType.RegisterTransfer
  | AuthorizeTransfer _ => MessageType.AuthorizeTransfer
  | PublishCompletion _ => MessageType.CompletionPublish
  | Accounting => MessageType.AccountingQuery
  | Status => MessageType.StatusQuery
  | Policy => MessageType.PolicyQuery
  | PublishTopology _ => MessageType.TopologyPublish
  | PublishSlo _ _ _ _ => MessageType.PublishSloContract
  | IssueRoute _ _ _ _ _ => MessageType.IssueRouteDecision
  | AdvanceModel _ _ _ | AdvanceState _ _ _ => MessageType.AdvanceModelGeneration
  end.

(** The bodies that go out and come back. *)
Definition request (k : t) : Body.t :=
  match k with
  | Heartbeat => Body.Heartbeat
  | RegisterRequest _ _ => Body.RegisterRequest
  | RegisterAttempt _ _ _ => Body.RegisterAttempt
  | AdvanceStage _ _ _ => Body.StageUpdate
  | CancelRequest _ _ => Body.CancelRequest
  | FailAttempt _ _ _ => Body.FailAttempt
  | ReplaceAttempt _ _ _ _ => Body.ReplaceAttempt
  | Evaluate _ => Body.EvaluateTraffic
  | OpenFlow _ _ => Body.OpenFlow
  | RegisterTransfer _ => Body.RegisterTransfer
  | AuthorizeTransfer _ => Body.AuthorizeTransfer
  | PublishCompletion _ => Body.CompletionPublish
  | Accounting => Body.AccountingQuery
  | Status => Body.StatusQuery
  | Policy => Body.PolicyQuery
  | PublishTopology _ => Body.TopologyPublish
  | PublishSlo _ _ _ _ => Body.PublishSloContract
  | IssueRoute _ _ _ _ _ => Body.IssueRouteDecision
  | AdvanceModel _ _ _ | AdvanceState _ _ _ => Body.AdvanceGeneration
  end.

Definition response (k : t) : Body.t :=
  match k with
  | Heartbeat | AdvanceStage _ _ _ | CancelRequest _ _ | FailAttempt _ _ _ => Body.SimpleAck
  | RegisterRequest _ _ => Body.RegisterRequestResponse
  | RegisterAttempt _ _ _ | ReplaceAttempt _ _ _ _ => Body.RegisterAttemptResponse
  | Evaluate _ => Body.DecisionResponse
  | OpenFlow _ _ => Body.OpenFlowResponse
  | RegisterTransfer _ => Body.RegisterTransferResponse
  | AuthorizeTransfer _ => Body.TransferDecisionResponse
  | PublishCompletion _ => Body.CompletionResponse
  | Accounting => Body.AccountingResponse
  | Status => Body.StatusResponse
  | Policy => Body.PolicyResponse
  | PublishTopology _ => Body.TopologyResponse
  | PublishSlo _ _ _ _ => Body.SloContractResponse
  | IssueRoute _ _ _ _ _ => Body.RouteDecisionResponse
  | AdvanceModel _ _ _ | AdvanceState _ _ _ => Body.ModelGenerationResponse
  end.

Definition body (k : t) : Body.type (request k) :=
  match k with
  | Heartbeat => 0
  | RegisterRequest id deadline => MkRegisterRequest id deadline
  | RegisterAttempt id attempt hash => MkRegisterAttempt id attempt hash
  | AdvanceStage id attempt stage => MkStageUpdate id attempt stage
  | CancelRequest id reason => MkCancelRequest id reason
  | FailAttempt id attempt reason => MkFailAttempt id attempt reason
  | ReplaceAttempt id superseded replacement hash => MkReplaceAttempt id superseded replacement hash
  | Evaluate r => r
  | OpenFlow decision bytes => MkOpenFlow decision bytes
  | RegisterTransfer registration => registration
  | AuthorizeTransfer r => r
  | PublishCompletion publication => publication
  | Accounting | Status | Policy => 0
  | PublishTopology evidence => evidence
  | PublishSlo id budget deadline share => MkPublishSlo id budget deadline share
  | IssueRoute id attempt node lateral handoff => MkIssueRoute id attempt node lateral handoff
  | AdvanceModel hash expected only =>
      MkAdvanceGeneration hash (default 0 expected) (has_value expected) only false
  | AdvanceState hash expected only =>
      MkAdvanceGeneration hash (default 0 expected) (has_value expected) only true
  end.

(** The operation of the client. *)
Definition client (k : t) : Client → Result (Body.type (response k)) * Client :=
  match k with
  | Heartbeat => client_heartbeat
  | RegisterRequest id deadline => client_register_request id deadline
  | RegisterAttempt id attempt hash => client_register_attempt id attempt hash
  | AdvanceStage id attempt stage => client_advance_stage id attempt stage
  | CancelRequest id reason => client_cancel_request id reason
  | FailAttempt id attempt reason => client_fail_attempt id attempt reason
  | ReplaceAttempt id superseded replacement hash => client_replace_attempt id superseded replacement hash
  | Evaluate r => client_evaluate r
  | OpenFlow decision bytes => client_open_flow decision bytes
  | RegisterTransfer registration => client_register_transfer registration
  | AuthorizeTransfer r => client_authorize_transfer r
  | PublishCompletion publication => client_publish_completion publication
  | Accounting => client_accounting
  | Status => client_status
  | Policy => client_policy
  | PublishTopology evidence => client_publish_topology evidence
  | PublishSlo id budget deadline share => client_publish_slo_contract id budget deadline share
  | IssueRoute id attempt node lateral handoff => client_issue_route_decision id attempt node lateral handoff
  | AdvanceModel hash expected only => client_advance_model_generation hash expected only
  | AdvanceState hash expected only => client_advance_state_generation hash expected only
  end.

(** What the client decodes an answer with. *)
Definition decode (k : t) : Reader.t → Result (Body.type (response k)) * Reader.t :=
  match k with
  | Evaluate _ => decode_decision
  | PublishCompletion _ => decode_publish_outcome
  | Accounting => decode_accounting_snapshot
  | Status => decode_coordinator_status
  | Policy => policy_decode
  | k => Body.decode (response k)
  end.
End Call.

(** ** What a call means *)

(** The answer that a method's outcome turns into, with a look at the state it left. *)
Definition answered {A B} (f : A → Coordinator → B) (outcome : Result A * Coordinator) : Result B * Coordinator :=
  let '(r, c) := outcome in (match r with Success x => Success (f x c) | Failure e => Failure e end, c).

Definition acknowledged : SimpleAck := MkAck StatusCode.Ok [].

(** A generation, zero when there is none that is current. *)
Definition generation_or_zero (r : Result Z) : Z := match r with Success g => g | Failure _ => 0 end.

Section meaning.
Context {HO : HashOrder}.

Definition local_call (k : Call.t) (now now' : Z) (c : Coordinator)
    : Result (Body.type (Call.response k)) * Coordinator :=
  match k with
  | Call.Heartbeat => (Success acknowledged, c)
  | Call.RegisterRequest id _ =>
      answered (fun generation c => MkRegisterRequestResponse id generation (current_stamp c))
        (coord_register_request c id now)
  | Call.RegisterAttempt id attempt hash =>
      answered (fun generation c =>
          MkRegisterAttemptResponse id attempt generation
            (if hash ≟ 0 then 0 else generation_or_zero (require_model_generation_locked c hash)) 0 0
            (current_stamp c))
        (coord_register_attempt c id attempt hash now)
  | Call.AdvanceStage id attempt stage =>
      answered (fun _ _ => acknowledged) (coord_advance_stage c id attempt stage now)
  | Call.CancelRequest id reason => answered (fun _ _ => acknowledged) (coord_cancel_request c id reason now)
  | Call.FailAttempt id attempt reason =>
      let '(outcome, c) := coord_fail_attempt c id attempt reason now in
      (match outcome with Some (Failure e) => Failure e | _ => Success acknowledged end, c)
  | Call.ReplaceAttempt id superseded replacement hash =>
      answered (fun generation c => MkRegisterAttemptResponse id replacement generation 0 0 0 (current_stamp c))
        (coord_replace_attempt c id superseded replacement hash now)
  | Call.Evaluate r => let '(decision, c) := evaluate_locked c r now in (Success decision, c)
  | Call.OpenFlow decision bytes =>
      answered (fun flow c => MkOpenFlowResponse flow (current_stamp c)) (open_flow_locked c decision bytes now)
  | Call.RegisterTransfer registration =>
      answered (fun transfer c =>
          MkRegisterTransferResponse transfer
            (generation_or_zero (require_model_generation_locked c (tg_model_hash registration)))
            (generation_or_zero (require_state_generation_locked c (tg_state_hash registration)))
            TransferState.Registered (current_stamp c))
        (register_transfer c registration now)
  | Call.AuthorizeTransfer r =>
      answered (fun authorization _ =>
          MkTransferDecision authorization (default empty_subject (tr_subject r)) (tr_binding r)
            (ta_authority authorization))
        (authorize_transfer c r now now')
  | Call.PublishCompletion publication => coord_publish_completion c publication now
  | Call.Accounting => (Success (accounting c), c)
  | Call.Status => (Success (status c now), c)
  | Call.Policy => (Success (C_policy c), c)
  | Call.PublishTopology evidence =>
      answered (fun generation _ => MkTopologyResponse generation EvidenceState.Current (te_provenance evidence))
        (publish_topology c evidence now)
  | Call.PublishSlo id budget deadline share => register_slo_contract c id budget deadline share
  | Call.IssueRoute id attempt node lateral handoff => issue_route_decision c id attempt node lateral handoff
  | Call.AdvanceModel hash expected true =>
      let '(model, c) := revalidate_model_generation c hash in
      let '(state, c) := revalidate_state_generation c hash in
      (match model, state with
       | Failure e, Failure _ => Failure e
       | _, _ => Success (MkModelGeneration hash (generation_or_zero model) (generation_or_zero state) false)
       end, c)
  | Call.AdvanceModel hash expected false =>
      answered (fun model _ => MkModelGeneration hash model 0 false) (set_model_generation c hash expected)
  | Call.AdvanceState hash expected only =>
      answered (fun state _ => MkModelGeneration hash 0 state false)
        (if only then revalidate_state_generation c hash else advance_state_generation c hash expected)
  end.

End meaning.

(** ** The service carries a call out *)

(** The payload that carries a body. *)
Definition payload_of (k : Body.t) (x : Body.type k) : list Z :=
  Writer.buffer (Body.encode k x (Writer.make kMaxFramePayloadBytes)).

Lemma body_written k x : Body.ok k x → Writer.ok (Body.encode k x (Writer.make kMaxFramePayloadBytes)) = true.
Proof.
  intros Hx. pose proof (carries_document _ _ x _ _ (carries_body k x Hx) (size_fits k)) as D.
  cbv zeta in *. destruct (Body.decode k _) as [r rd]. apply D.
Qed.

Lemma build_body_ok k x : Body.ok k x → build_body (Body.encode k x) = Success (payload_of k x).
Proof. intros Hx. unfold build_body. cbv zeta. by rewrite body_written. Qed.

(** Any decoder that carries the body gets it back. *)
Lemma decode_carried {A} f (m : Reader.t → Result A * Reader.t) x n :
  carries f m (Success x) n → n ≤ kMaxFramePayloadBytes →
  decode_body (Writer.buffer (f (Writer.make kMaxFramePayloadBytes))) m = Success x.
Proof.
  intros Hc Hn. pose proof (carries_document f m x n _ Hc Hn) as D. unfold decode_body. cbv zeta in D.
  destruct (m _) as [r rd]. by destruct D as (_ & -> & ->).
Qed.

Lemma decode_body_ok k x : Body.ok k x → decode_body (payload_of k x) (Body.decode k) = Success x.
Proof. intros Hx. exact (decode_carried _ _ _ _ (carries_body k x Hx) (size_fits k)). Qed.

Lemma payload_fits k x : Body.ok k x → Forall is_byte (payload_of k x) ∧ len (payload_of k x) ≤ Body.size k.
Proof. intros Hx. exact (carries_buffer _ _ _ _ _ (carries_body k x Hx) (size_fits k)). Qed.

Section service.
Context `{!Kernel, !HashOrder}.
Variable config : ServiceConfig.
Variable clock : nat → Z.

(** The answer of the service as bytes. *)
Definition encoded (k : Call.t) (r : Result (Body.type (Call.response k))) : Result (list Z) :=
  match r with Success x => build_body (Body.encode _ x) | Failure e => Failure e end.

(** The local meaning of a call at a service, with the readings its clock is about to answer. *)
Definition local_at (k : Call.t) (s : CoordinatorService) : Result (Body.type (Call.response k)) * Coordinator :=
  local_call k (clock (sv_readings s)) (clock (S (sv_readings s))) (sv_coordinator s).

Definition carries_out (k : Call.t) (m : Step Answer) : Prop :=
  ∀ s, match m s with
       | (Success (result, _), s') => result = encoded k (local_at k s).1 ∧ sv_coordinator s' = (local_at k s).2
       | (Failure e, s') => (local_at k s).1 = Failure e ∧ sv_coordinator s' = (local_at k s).2
       end.

Lemma expected_there {A} (expected : option A) (d : A) :
  (if has_value expected then Some (default d expected) else None) = expected.
Proof. by destruct expected. Qed.

(** The case of the switch that a call ends in. *)
Definition handler_of (k : Call.t) : list Z → Step Answer :=
  match k with
  | Call.Heartbeat => on_heartbeat
  | Call.RegisterRequest _ _ => on_register_request clock
  | Call.RegisterAttempt _ _ _ => on_register_attempt clock
  | Call.AdvanceStage _ _ _ => on_stage_update clock
  | Call.CancelRequest _ _ => on_cancel_request clock
  | Call.FailAttempt _ _ _ => on_fail_attempt clock
  | Call.ReplaceAttempt _ _ _ _ => on_replace_attempt clock
  | Call.Evaluate _ => on_evaluate_traffic clock
  | Call.OpenFlow _ _ => on_open_flow clock
  | Call.RegisterTransfer _ => on_register_transfer clock
  | Call.AuthorizeTransfer _ => on_authorize_transfer clock
  | Call.PublishCompletion _ => on_completion_publish clock
  | Call.Accounting => on_accounting_query
  | Call.Status => on_status_query clock
  | Call.Policy => on_policy_query
  | Call.PublishTopology _ => on_topology_publish clock
  | Call.PublishSlo _ _ _ _ => on_publish_slo
  | Call.IssueRoute _ _ _ _ _ => on_issue_route
  | Call.AdvanceModel _ _ _ | Call.AdvanceState _ _ _ => on_advance_generation
  end.

Lemma handle_message_dispatch k payload : handle_message clock (Call.type k) payload = handler_of k payload.
Proof. by destruct k. Qed.

Create HintDb remote.
#[local] Hint Unfold on_heartbeat on_register_request on_register_attempt on_stage_update on_cancel_request
  on_fail_attempt on_replace_attempt on_evaluate_traffic on_open_flow on_register_transfer on_authorize_transfer
  on_completion_publish on_accounting_query on_status_query on_policy_query on_topology_publish on_publish_slo
  on_issue_route : remote.

(** Runs a handler on a body it has decoded, as far as the method it calls. *)
Ltac run_handler Hd :=
  autounfold with remote; unfold step_bind, step_lift, now_nanos, coordinate, inspect, step_ret; rewrite Hd;
  cbn [sv_coordinator sv_readings setter sv_set_readings answered local_call].

Ltac same_answer :=
  unfold generation_or_zero in *;
  cbn [fst snd answered encoded Body.encode Call.response rq_request aq_request aq_attempt aq_model_hash
       su_request su_attempt su_stage cq_request cq_reason fa_request fa_attempt fa_reason
       ra_request_id ra_superseded ra_replacement ra_model_hash
       sv_coordinator setter sv_set_coordinator sv_set_readings];
  first [split; reflexivity | done].

Lemma handler_carries_out k :
  Body.ok (Call.request k) (Call.body k) → carries_out k (handler_of k (payload_of _ (Call.body k))).
Proof.
  intros Hx s. pose proof (decode_body_ok _ _ Hx) as Hd. clear Hx. unfold local_at.
  destruct k; cbn [Call.type Call.request Call.body Body.decode Body.type handler_of] in *.
  - run_handler Hd. same_answer.
  - run_handler Hd. destruct (coord_register_request _ _ _) as [[g|e] c']; same_answer.
  - run_handler Hd. destruct (coord_register_attempt _ _ _ _ _) as [[g|e] c']; [|same_answer].
    cbn [aq_model_hash]. destruct (model_hash ≟ 0); cbn [negb]; same_answer.
  - run_handler Hd. destruct (coord_advance_stage _ _ _ _ _) as [[g|e] c']; same_answer.
  - run_handler Hd. destruct (coord_cancel_request _ _ _ _) as [[g|e] c']; same_answer.
  - run_handler Hd. destruct (coord_fail_attempt _ _ _ _ _) as [[[g|e]|] c']; same_answer.
  - run_handler Hd. destruct (coord_replace_attempt _ _ _ _ _ _) as [[g|e] c']; same_answer.
  - run_handler Hd. destruct (evaluate_locked _ _ _) as [d c']; same_answer.
  - run_handler Hd. destruct (open_flow_locked _ _ _ _) as [[g|e] c']; same_answer.
  - run_handler Hd. destruct (register_transfer _ _ _) as [[g|e] c']; same_answer.
  - run_handler Hd. destruct (authorize_transfer _ _ _ _) as [[g|e] c']; same_answer.
  - run_handler Hd. destruct (coord_publish_completion _ _ _) as [[g|e] c']; same_answer.
  - run_handler Hd. same_answer.
  - run_handler Hd. same_answer.
  - run_handler Hd. same_answer.
  - run_handler Hd. destruct (publish_topology _ _ _) as [[g|e] c']; same_answer.
  - run_handler Hd. destruct (register_slo_contract _ _ _ _ _) as [[g|e] c']; same_answer.
  - run_handler Hd. destruct (issue_route_decision _ _ _ _ _ _) as [[g|e] c']; same_answer.
  - unfold on_advance_generation. run_handler Hd. cbn [ag_state_target ag_revalidate_only].
    destruct revalidate_only; unfold attempt_step, step_bind, coordinate.
    + cbn [ag_target_hash]. destruct (revalidate_model_generation _ _) as [m c1].
      cbn [sv_coordinator setter sv_set_coordinator]. destruct (revalidate_state_generation _ _) as [st c2].
      destruct m, st; same_answer.
    + cbn [ag_has_expected ag_expected_generation ag_target_hash]. rewrite expected_there.
      destruct (set_model_generation _ _ _) as [[g|e] c']; same_answer.
  - unfold on_advance_generation. run_handler Hd. cbn [ag_state_target ag_revalidate_only ag_has_expected
      ag_expected_generation ag_target_hash]. rewrite expected_there. unfold step_bind, coordinate.
    destruct revalidate_only.
    + destruct (revalidate_state_generation _ _) as [[g|e] c']; same_answer.
    + destruct (advance_state_generation _ _ _) as [[g|e] c']; same_answer.
Qed.

Lemma service_carries_out k s :
  Body.ok (Call.request k) (Call.body k) →
  let '(response, s') := service_handle config clock (Call.type k) (payload_of _ (Call.body k)) s in
  response = encoded k (local_at k s).1 ∧ sv_coordinator s' = (local_at k s).2.
Proof.
  intros Hx. pose proof (handler_carries_out k Hx s) as D. unfold service_handle. rewrite handle_message_dispatch.
  destruct (handler_of k _ s) as [[[result mutated]|e] s'].
  - by rewrite maybe_snapshot_coordinator.
  - destruct D as [E1 E2]. by rewrite E1.
Qed.

End service.

(** ** The whole way *)

(** An operation of the client sends the body and decodes the answer. *)
Lemma client_shape k c :
  Body.ok (Call.request k) (Call.body k) →
  Call.client k c = request (Call.type k) (Body.encode _ (Call.body k)) (Call.decode k) c.
Proof.
  intros Hx. pose proof (body_written _ _ Hx) as Hok. clear Hx.
  destruct k; try exact eq_refl; cbn [Call.client Call.request Call.body Body.encode] in *.
  - unfold client_evaluate, checked_request. cbv zeta. rewrite Hok. exact eq_refl.
  - unfold client_open_flow, checked_request. cbv zeta. rewrite Hok. exact eq_refl.
  - unfold client_register_transfer, checked_request. cbv zeta. rewrite Hok. exact eq_refl.
Qed.

Lemma client_carries k x :
  Body.ok (Call.response k) x → carries (Body.encode _ x) (Call.decode k) (Success x) (Body.size (Call.response k)).
Proof.
  destruct k; try exact (carries_body _ x).
  - apply carries_decision.
  - apply carries_publish_outcome.
  - apply carries_accounting_snapshot.
  - apply carries_coordinator_status.
  - apply carries_policy.
Qed.

Lemma call_types k :
  0 < Call.type k < MessageType.Count ∧ Call.type k ≠ MessageType.HelloRequest
  ∧ 0 < response_type_for (Call.type k) < MessageType.Count
  ∧ response_type_for (Call.type k) ≠ MessageType.Invalid ∧ response_type_for (Call.type k) ≠ MessageType.ErrorResponse.
Proof. destruct k; vm_compute; split_and!; congruence. Qed.

(** The most bytes that a call or its answer takes: those of an error with its text. *)
Definition kLargestCall : Z := Body.size Body.ErrorResponse.

Lemma call_sizes k : Body.size (Call.request k) ≤ kLargestCall ∧ Body.size (Call.response k) ≤ kLargestCall.
Proof. destruct k; vm_compute; split; congruence. Qed.

Section remote.
Context `{!Kernel, !HashOrder}.
Variable config : ServiceConfig.
Variable clock greeting_clock : nat → Z.
Variable server : ServerConfig.
Variable draws : (Z * Z) * (Z * Z).
Variable describe : StatusCode.t → list Z.
Hypothesis describe_ok : ∀ e, text_ok (describe e).

#[local] Instance handler : MessageHandler CoordinatorService := service_handler config clock greeting_clock.

(** A frame that carries a body which the limit leaves room for. *)
Lemma body_frame_ok limit type n m k x :
  0 < type < MessageType.Count → is_u64 n → is_u64 m → Body.ok k x → Body.size k ≤ kLargestCall →
  kLargestCall ≤ limit → frame_ok limit type n m (payload_of k x).
Proof.
  intros Ht Hn Hm Hx Hk Hl. destruct (payload_fits k x Hx) as [Hb Hs].
  assert (kLargestCall ≤ kAbsoluteMaxPayloadBytes) by (vm_compute; congruence). split; try done; lia.
Qed.

(** The reply is a frame that the limit leaves room for. *)
Lemma reply_frame_ok limit k (r : Result (Body.type (Call.response k))) n m :
  is_u64 n → is_u64 m → kLargestCall ≤ limit → (∀ x, r = Success x → Body.ok _ x) →
  let reply := reply_of describe (Call.type k) (encoded k r) in frame_ok limit reply.1 n m reply.2.
Proof.
  intros Hn Hm Hl Hr. destruct (call_types k) as (T1&_&T3&T4&_), (call_sizes k) as [_ Hs]. cbv zeta.
  unfold reply_of, encoded. destruct r as [x|e].
  - specialize (Hr x eq_refl). rewrite build_body_ok by done. rewrite bool_decide_false by done.
    by apply body_frame_ok.
  - apply (body_frame_ok limit MessageType.ErrorResponse n m Body.ErrorResponse); try done.
    split; [cbn; lia|apply describe_ok].
Qed.

(** The client gets back from the service's answer what the local call answers. *)
Lemma answer_decoded k (r : Result (Body.type (Call.response k))) :
  (∀ x, r = Success x → Body.ok _ x) →
  match encoded k r with Success payload => decode_body payload (Call.decode k) | Failure e => Failure e end = r.
Proof.
  intros Hr. destruct r as [x|e]; [|done]. specialize (Hr x eq_refl). unfold encoded. rewrite build_body_ok by done.
  exact (decode_carried _ _ _ _ (client_carries k x Hr) (size_fits _)).
Qed.

Lemma remote_call k c (s : Session CoordinatorService) :
  in_sync c s → ct_send_sequence c + 1 < two64 → se_outbound_sequence s + 1 < two64 →
  kLargestCall ≤ se_max_payload s → Body.ok (Call.request k) (Call.body k) →
  let local := local_at clock k (se_handler s) in (∀ x, local.1 = Success x → Body.ok _ x) →
  ∃ upward downward, ∀ arrivals arrivals',
    all_data arrivals → bytes_of arrivals = upward → all_data arrivals' → bytes_of arrivals' = downward →
    ∃ c' s', Call.client k (c <| ct_stream := (ct_stream c) <| ts_arrivals := arrivals' |> |>) = (local.1, c')
      ∧ serve_turn server draws describe (s <| se_stream := (se_stream s) <| ts_arrivals := arrivals |> |>)
          = (Continue, s')
      ∧ ts_sent (ct_stream c') = ts_sent (ct_stream c) ++ upward
      ∧ ts_sent (se_stream s') = ts_sent (se_stream s) ++ downward
      ∧ sv_coordinator (se_handler s') = local.2 ∧ in_sync c' s'.
Proof.
  intros Hy Hn Hm Hl Hx local Hr. destruct (call_types k) as (T1&T2&T3&T4&T5), (call_sizes k) as [Hs _].
  pose proof (service_carries_out config clock k (se_handler s) Hx) as Hc.
  destruct (service_handle config clock (Call.type k) (payload_of _ (Call.body k)) (se_handler s)) as [answer s2] eqn:Eh.
  destruct Hc as [-> E2]. fold local in E2.
  assert (is_u64 (ct_send_sequence c + 1) ∧ is_u64 (se_outbound_sequence s + 1)) as [Hu Hv].
  { destruct Hy as [_ _ ? ? _ _]. unfold is_u64. lia. }
  set (reply := reply_of describe (Call.type k) (encoded k local.1)).
  exists (frame_bytes (Call.type k) (ct_send_sequence c + 1) 0 (payload_of _ (Call.body k))),
    (frame_bytes reply.1 (se_outbound_sequence s + 1) (ct_send_sequence c + 1) reply.2).
  intros arrivals arrivals' Ha Hb Ha' Hb'.
  destruct (call_answered server draws describe c s (Call.type k) (payload_of _ (Call.body k)) (encoded k local.1) s2
    arrivals arrivals') as (c'&s'&Ex&Es&U&D&Hh&_&Hy'); try done.
  { by apply body_frame_ok. }
  { by apply reply_frame_ok. }
  exists c', s'. rewrite client_shape by done. unfold request. fold (payload_of _ (Call.body k)). rewrite Ex.
  split_and!; [|done|by rewrite U, Hb|by rewrite D, Hb'|by rewrite Hh|done].
  pose proof (answer_decoded k local.1 Hr) as Hd. by destruct (encoded k local.1) as [payload|e]; rewrite Hd.
Qed.

End remote.

(** C11: A remote call is a local call: for each of the twenty calls of the client, over
    an established session of the coordinator service, the answer that the client
    decodes is the one that the method of the coordinator gives at the time the clock of
    the service shows, errors included, and the coordinator is left as that method
    leaves it, however the network cuts the bytes of the two directions; each side sent
    exactly the bytes the other received and both are ready for the next call. Assumed
    are bodies within the bounds of the protocol for the request and, where the call
    succeeds, for the answer, a negotiated payload limit that fits the largest call, and
    sequence numbers that do not wrap. *)
Theorem remote_call_is_local_call `{!Kernel, !HashOrder} config clock greeting_clock server draws describe k c
    (s : Session CoordinatorService) :
  (∀ e, text_ok (describe e)) → in_sync c s →
  ct_send_sequence c + 1 < two64 → se_outbound_sequence s + 1 < two64 →
  kLargestCall ≤ se_max_payload s → Body.ok (Call.request k) (Call.body k) →
  let local := local_at clock k (se_handler s) in (∀ x, local.1 = Success x → Body.ok _ x) →
  ∃ upward downward, ∀ arrivals arrivals',
    all_data arrivals → bytes_of arrivals = upward → all_data arrivals' → bytes_of arrivals' = downward →
    ∃ c' s', Call.client k (c <| ct_stream := (ct_stream c) <| ts_arrivals := arrivals' |> |>) = (local.1, c')
      ∧ serve_turn (H0 := service_handler config clock greeting_clock) server draws describe
          (s <| se_stream := (se_stream s) <| ts_arrivals := arrivals |> |>) = (Continue, s')
      ∧ ts_sent (ct_stream c') = ts_sent (ct_stream c) ++ upward
      ∧ ts_sent (se_stream s') = ts_sent (se_stream s) ++ downward
      ∧ sv_coordinator (se_handler s') = local.2 ∧ in_sync c' s'.
Proof. intros Hd. by apply remote_call. Qed.
