(* ===== verification/Server.v ===== *)
(** * The server: accepting, admitting and ending sessions

    Models the acceptor of src/session.cpp and its interleaving with the worker
    threads. The acceptor goes through [accept_loop] one shared access at a time, a
    worker ends in two (the counter, then the flag), and [stop] closes, joins and
    clears; a step is one of these, taken by any thread that can. *)

From S2P Require Import Prelude Ids Traffic Decision Bytes Crc Codec Wire Ledger Coordinator CoordAudit.
From S2P Require Import CodecProps PolicyCodec Format Serialize SerializeProps Messages MessagesProps Net Session SessionProps Service Client ClientProps.
From Stdlib Require Import String.
#[local] Open Scope Z_scope.
Import Datatypes.

(** ** State *)

(** A slot of [sessions_]: admitted but without its worker, served, past the
    decrement of the counter, and past the store to [finished]. *)
Inductive Slot : Type := Prepared | Serving | Leaving | Finished.
#[export] Instance slot_eq : EqDecision Slot.
Proof. solve_decision. Defined.

(** Where the acceptor is. *)
Inductive Acceptor : Type :=
| Polling                  (** at the head of the loop *)
| Admitting                (** past the test of the capacity *)
| Listed                   (** the slot is in [sessions_] *)
| Counted (now_active : Z) (** past [fetch_add] *)
| Ranked                   (** past the loop on [peak_sessions_] *)
| Left.                    (** out of the loop *)

Record Server := MkServer {
  sr_acceptor : Acceptor;
  sr_sessions : list Slot;
  sr_active_sessions : Z;
  sr_peak_sessions : Z;
  sr_accepted : Z;
  sr_rejected_capacity : Z;
  sr_running : bool;
  sr_stopping : bool;
}.

#[export] Instance sr_eta : Eta Server := fun r =>
  MkServer (sr_acceptor r) (sr_sessions r) (sr_active_sessions r) (sr_peak_sessions r) (sr_accepted r)
    (sr_rejected_capacity r) (sr_running r) (sr_stopping r).
#[export] Instance sr_set_acceptor : Setter sr_acceptor. Proof. mk_setter. Defined.
#[export] Instance sr_set_sessions : Setter sr_sessions. Proof. mk_setter. Defined.
#[export] Instance sr_set_active : Setter sr_active_sessions. Proof. mk_setter. Defined.
#[export] Instance sr_set_peak : Setter sr_peak_sessions. Proof. mk_setter. Defined.
#[export] Instance sr_set_accepted : Setter sr_accepted. Proof. mk_setter. Defined.
#[export] Instance sr_set_rejected : Setter sr_rejected_capacity. Proof. mk_setter. Defined.
#[export] Instance sr_set_running : Setter sr_running. Proof. mk_setter. Defined.
#[export] Instance sr_set_stopping : Setter sr_stopping. Proof. mk_setter. Defined.

(** The server that [start] leaves behind. *)
Definition started_server : Server := MkServer Polling [] 0 0 0 0 true false.

Definition reap_finished_sessions (s : Server) : Server :=
  s <| sr_sessions := filter (fun slot => slot ≠ Finished) (sr_sessions s) |>.

(** The refusal a peer gets when the capacity is exhausted. *)
Definition refusal_body : list Z :=
  Writer.buffer (encode_error_response (MkErrorResponse StatusCode.CapacityExhausted MessageType.Invalid
    (text "session capacity is exhausted"%string)) (Writer.make kMaxFramePayloadBytes)).

Definition refuse_connection (stream : TcpStream) : TcpStream :=
  let header := encode_header
    (MkHeader kWireProtocolVersion MessageType.ErrorResponse 0 (wrap32 (len refusal_body)) 1 0 (compute refusal_body))
    (replicate (Z.to_nat kHeaderBytes) 0) in
  let stream := (write_all_stream header stream).2 in
  (write_all_stream refusal_body stream).2.

(** ** Steps *)

Section server.
Variable config : ServerConfig.

Implicit Types s : Server.

(** The acceptor. *)
Inductive accept_step : Server → Server → Prop :=
| accept_stops s :
    sr_acceptor s = Polling → sr_stopping s = true → accept_step s (s <| sr_acceptor := Left |>)
| accept_fails s :
    sr_acceptor s = Polling → accept_step s (reap_finished_sessions s)
| accept_fails_stopping s :
    sr_acceptor s = Polling → sr_stopping s = true →
    accept_step s (reap_finished_sessions s <| sr_acceptor := Left |>)
| accept_refuses s :
    sr_acceptor s = Polling → sv_max_sessions config ≤ sr_active_sessions s →
    accept_step s (reap_finished_sessions s
      <| sr_rejected_capacity := add64 (sr_rejected_capacity s) 1 |>)
| accept_admits s :
    sr_acceptor s = Polling → sr_active_sessions s < sv_max_sessions config →
    accept_step s (reap_finished_sessions s <| sr_acceptor := Admitting |>)
| accept_lists s :
    sr_acceptor s = Admitting →
    accept_step s (s <| sr_sessions := sr_sessions s ++ [Prepared] |> <| sr_acceptor := Listed |>)
| accept_counts s :
    sr_acceptor s = Listed →
    let active := add32 (sr_active_sessions s) 1 in
    accept_step s (s <| sr_active_sessions := active |> <| sr_acceptor := Counted active |>)
| accept_ranks s now_active :
    sr_acceptor s = Counted now_active →
    accept_step s (s <| sr_peak_sessions := if sr_peak_sessions s <? now_active then now_active else sr_peak_sessions s |>
                     <| sr_acceptor := Ranked |>)
| accept_serves s before after :
    sr_acceptor s = Ranked → sr_sessions s = before ++ Prepared :: after →
    accept_step s (s <| sr_accepted := add64 (sr_accepted s) 1 |>
                     <| sr_sessions := before ++ Serving :: after |> <| sr_acceptor := Polling |>).

(** A worker that has left the loop of [serve_session]. *)
Inductive worker_step : Server → Server → Prop :=
| worker_leaves s before after :
    sr_sessions s = before ++ Serving :: after →
    worker_step s (s <| sr_active_sessions := sub32 (sr_active_sessions s) 1 |>
                     <| sr_sessions := before ++ Leaving :: after |>)
| worker_finishes s before after :
    sr_sessions s = before ++ Leaving :: after →
    worker_step s (s <| sr_sessions := before ++ Finished :: after |>).

(** [stop]: it raises the flag, joins the acceptor and then every worker. *)
Inductive stop_step : Server → Server → Prop :=
| stop_begins s :
    sr_running s = true → stop_step s (s <| sr_running := false |> <| sr_stopping := true |>)
| stop_clears s :
    sr_running s = false → sr_acceptor s = Left → Forall (eq Finished) (sr_sessions s) →
    stop_step s (s <| sr_sessions := [] |>).

Definition server_step s s' : Prop := accept_step s s' ∨ worker_step s s' ∨ stop_step s s'.

(** ** The capacity holds *)

Definition count (slot : Slot) (l : list Slot) : Z := len (filter (eq slot) l).

Lemma count_app slot l k : count slot (l ++ k) = count slot l + count slot k.
Proof. unfold count. by rewrite filter_app, len_app. Qed.

Lemma count_cons slot x l : count slot (x :: l) = (if decide (slot = x) then 1 else 0) + count slot l.
Proof. unfold count. rewrite filter_cons. case_decide; [|lia]. unfold len. simpl. lia. Qed.

Lemma count_nil slot : count slot [] = 0.
Proof. done. Qed.

Lemma count_nonneg slot l : 0 ≤ count slot l.
Proof. apply len_nonneg. Qed.

Lemma count_reap slot l : slot ≠ Finished → count slot (filter (fun x => x ≠ Finished) l) = count slot l.
Proof.
  intros Hs. induction l as [|x l IH]; [done|]. rewrite filter_cons. case_decide as Hx.
  - by rewrite !count_cons, IH.
  - rewrite count_cons, IH, decide_False by (intros ->; auto). lia.
Qed.

(** The admission under way, when there is one. *)
Definition admitted_slots (a : Acceptor) : Z :=
  match a with Listed | Counted _ | Ranked => 1 | _ => 0 end.
Definition counted_slots (a : Acceptor) : Z :=
  match a with Counted _ | Ranked => 1 | _ => 0 end.

Record server_inv s : Prop := {
  sn_active : sr_active_sessions s = count Serving (sr_sessions s) + counted_slots (sr_acceptor s);
  sn_prepared : count Prepared (sr_sessions s) = admitted_slots (sr_acceptor s);
  sn_capacity : sr_active_sessions s ≤ sv_max_sessions config;
  sn_room : sr_acceptor s = Admitting ∨ sr_acceptor s = Listed → sr_active_sessions s < sv_max_sessions config;
  sn_counted : ∀ n, sr_acceptor s = Counted n → sr_active_sessions s ≤ n ≤ sv_max_sessions config;
  sn_peak : sr_peak_sessions s ≤ sv_max_sessions config;
  sn_ranked : (∀ n, sr_acceptor s ≠ Counted n) → sr_active_sessions s ≤ sr_peak_sessions s;
  sn_left : sr_acceptor s = Left → sr_stopping s = true;
}.

Context (Hmax : 0 < sv_max_sessions config < two32).

Lemma server_inv_start : server_inv started_server.
Proof. split; simpl; try done; try lia; rewrite ?count_nil; lia. Qed.

(** Rewrites the counts of a list that was split. *)
Ltac counts := rewrite ?count_app, ?count_cons, ?count_nil in *; repeat case_decide; try done.

Lemma accept_step_inv s s' : server_inv s → accept_step s s' → server_inv s'.
Proof.
  intros [] Hs. pose proof (count_nonneg Serving (sr_sessions s)).
  destruct Hs as [s Ha Hst|s Ha|s Ha Hst|s Ha Hc|s Ha Hc|s Ha|s Ha active|s n Ha|s before after Ha El];
    rewrite ?Ha in *; simpl in *.
  all: try (split; simpl; rewrite ?count_reap, ?Ha by done; simpl; naive_solver lia).
  - split; simpl; counts; simpl; naive_solver lia.
  - assert (active = sr_active_sessions s + 1) as E.
    { apply add32_small. pose proof (sn_room0 (or_intror eq_refl)). lia. }
    pose proof (sn_room0 (or_intror eq_refl)).
    split; simpl; rewrite ?E; naive_solver lia.
  - destruct (sn_counted0 n eq_refl). set (peak := if sr_peak_sessions s <? n then n else sr_peak_sessions s).
    assert (peak = Z.max n (sr_peak_sessions s)) as Ep.
    { unfold peak. destruct (Z.ltb_spec (sr_peak_sessions s) n); lia. }
    split; simpl; fold peak; rewrite ?Ep; try done; try naive_solver lia; lia.
  - assert (sr_active_sessions s ≤ sr_peak_sessions s) by (apply sn_ranked0; congruence).
    rewrite El in *. split; simpl; counts; naive_solver lia.
Qed.

Lemma worker_step_inv s s' : server_inv s → worker_step s s' → server_inv s'.
Proof.
  intros [] Hs. destruct Hs as [s before after El|s before after El]; rewrite El in *.
  - pose proof (count_nonneg Serving before). pose proof (count_nonneg Serving after). counts.
    assert (sub32 (sr_active_sessions s) 1 = sr_active_sessions s - 1) as E.
    { apply sub32_small. destruct (sr_acceptor s); simpl in *; lia. }
    split; simpl; rewrite ?E; counts; try lia.
    + intros n Ha. specialize (sn_counted0 n Ha). lia.
    + intros Ha. specialize (sn_ranked0 Ha). lia.
  - split; simpl; counts; naive_solver lia.
Qed.

Lemma stop_step_inv s s' : server_inv s → stop_step s s' → server_inv s'.
Proof.
  intros [] Hs. destruct Hs as [s Hr|s Hr Ha Hf]; [by split|]. rewrite Ha in *.
  assert (count Serving (sr_sessions s) = 0) as E.
  { unfold count. induction Hf as [|x l <- Hf IH]; [done|]. rewrite filter_cons_False by done.
    assert (∀ k, Forall (eq Finished) k → len (filter (eq Serving) k) = 0) as Hk; [|by apply Hk].
    clear. induction 1 as [|x l <- Hf IH]; [done|]. by rewrite filter_cons_False. }
  rewrite E in *. split; simpl; rewrite ?Ha, ?count_nil; naive_solver lia.
Qed.

Lemma server_step_inv s s' : server_inv s → server_step s s' → server_inv s'.
Proof. intros Hi [?|[?|?]]; eauto using accept_step_inv, worker_step_inv, stop_step_inv. Qed.

Lemma server_reachable_inv s : rtc server_step started_server s → server_inv s.
Proof.
  assert (∀ s0, rtc server_step s0 s → server_inv s0 → server_inv s) as Hr.
  { induction 1; eauto using server_step_inv. }
  intros Hs. eapply Hr; [exact Hs|apply server_inv_start].
Qed.

End server.

(** C20: In every interleaving of the acceptor, the workers and stop, the active-session
    counter stays between zero and the configured capacity without wrapping, bounds the
    sessions being served from above, its peak stays within the capacity too, and when
    the acceptor has left and the table is empty the counter is zero. *)
Theorem session_capacity_respected config s :
  0 < sv_max_sessions config < two32 → rtc (server_step config) started_server s →
  0 ≤ sr_active_sessions s ≤ sv_max_sessions config ∧ sr_peak_sessions s ≤ sv_max_sessions config
  ∧ count Serving (sr_sessions s) ≤ sr_active_sessions s
  ∧ count Prepared (sr_sessions s) + count Serving (sr_sessions s) ≤ sv_max_sessions config
  ∧ (sr_acceptor s = Left → sr_sessions s = [] → sr_active_sessions s = 0 ∧ sr_stopping s = true).
Proof.
  intros Hmax Hs. destruct (server_reachable_inv config Hmax s Hs).
  pose proof (count_nonneg Serving (sr_sessions s)). pose proof (count_nonneg Prepared (sr_sessions s)).
  split_and!; try lia.
  - destruct (sr_acceptor s); simpl in *; lia.
  - destruct (sr_acceptor s); simpl in *; lia.
  - destruct (sr_acceptor s); simpl in *; try lia. pose proof (sn_room0 (or_intror eq_refl)). lia.
  - intros Ha E. rewrite Ha, E in *. rewrite count_nil in *. simpl in *. auto with lia.
Qed.
