(* ===== verification/Tools.v ===== *)
(** * What the command-line tools share

    Models the strict decimal parser [parse_u64], of which tools/itf_sim.cpp,
    tools/itfctl.cpp and tools/itf_coordinator.cpp have a copy each, the standard
    library's rendering of unsigned integers, and the parts of a process that may
    end it with an exit code. The parser is compared with the unbounded value of the
    digits, and inverts the rendering. *)

From S2P Require Import Prelude.
From Stdlib Require Import String Ascii.
#[local] Open Scope Z_scope.
Import Datatypes.

(** The loop of [parse_u64]. *)
Fixpoint parse_digits (digits : list ascii) (value : Z) : option Z :=
  match digits with
  | [] => Some value
  | raw :: rest =>
      let code := Z.of_N (N_of_ascii raw) in
      if (code <? 48) || (57 <? code) then None
      else
        let digit := code - 48 in
        if value >? (two64 - 1 - digit) / 10 then None
        else parse_digits rest (add64 (mul64 value 10) digit)
  end.

Definition parse_u64 (digits : list ascii) : option Z :=
  match digits with [] => None | _ => parse_digits digits 0 end.

(** [std::to_string] of an unsigned integer; 20 digits hold 64 bits. *)
Fixpoint decimal_loop (fuel : nat) (n : Z) (acc : list ascii) : list ascii :=
  match fuel with
  | O => acc
  | S fuel =>
      let acc := ascii_of_N (Z.to_N (48 + n mod 10)) :: acc in
      if n / 10 ≟ 0 then acc else decimal_loop fuel (n / 10) acc
  end.

Definition decimal (n : Z) : list ascii := decimal_loop 20 n [].

Definition number (n : Z) : string := string_of_list_ascii (decimal n).

(** What precedes and what follows the last colon. *)
Fixpoint split_last_colon (s : list ascii) : option (list ascii * list ascii) :=
  match s with
  | [] => None
  | c :: rest =>
      match split_last_colon rest with
      | Some (before, after) => Some (c :: before, after)
      | None => if bool_decide (c = ":"%char) then Some ([], rest) else None
      end
  end.

Definition parse_number (value : string) (accepts : Z → bool) : option Z :=
  match parse_u64 (list_ascii_of_string value) with
  | Some n => if accepts n then Some n else None
  | None => None
  end.

Definition is_port (n : Z) : bool := negb (n >? 65535).
Definition is_positive (n : Z) : bool := n ≠? 0.
Definition is_chunk_count (n : Z) : bool := (n ≠? 0) && negb (n >? 65536).
Definition any_number (n : Z) : bool := true.

(** ** Processes *)

(** A part of a process with state [S]: it goes on with a value, or leaves with an
    exit code. *)
Definition Run (S A : Type) : Type := S → (A + Z) * S.

Definition run_ret {S A} (x : A) : Run S A := fun s => (inl x, s).
Definition leave {S A} (code : Z) : Run S A := fun s => (inr code, s).
Definition run_bind {S A B} (m : Run S A) (k : A → Run S B) : Run S B := fun s =>
  match m s with
  | (inl x, s) => k x s
  | (inr code, s) => (inr code, s)
  end.
Definition when {S} (b : bool) (m : Run S unit) : Run S unit := if b then m else run_ret tt.

(** The exit code of a process that returns one. *)
Definition exit_code {S} (m : Run S Z) (s : S) : Z := match (m s).1 with inl code | inr code => code end.

Notation "'let^' x := m 'in' k" := (run_bind m (fun x => k))
  (at level 10, x pattern, m at level 200, k at level 200) : itf_scope.

(** ** The parser is exact *)

(** The value of a text of digits, without a bound. *)
Definition digit_of (raw : ascii) : Z := Z.of_N (N_of_ascii raw) - 48.
Definition is_digit (raw : ascii) : bool := (0 <=? digit_of raw) && (digit_of raw <=? 9).
Definition decimal_value (digits : list ascii) : Z :=
  foldl (fun value raw => value * 10 + digit_of raw) 0 digits.

Lemma value_from digits value :
  foldl (fun value raw => value * 10 + digit_of raw) value digits
  = value * 10 ^ Z.of_nat (length digits) + decimal_value digits.
Proof.
  unfold decimal_value. revert value. induction digits as [|raw digits IH]; intros value; [simpl; lia|].
  cbn [foldl]. rewrite (IH (value * 10 + _)), (IH (0 * 10 + _)). cbn [length].
  rewrite Nat2Z.inj_succ, Z.pow_succ_r by lia. lia.
Qed.

Lemma decimal_value_nonneg digits : forallb is_digit digits → 0 ≤ decimal_value digits.
Proof.
  induction digits as [|raw digits IH]; [done|]. cbn [forallb]. intros [H1 H2]%andb_prop_elim.
  unfold decimal_value. cbn [foldl]. rewrite value_from.
  unfold is_digit in H1. apply andb_prop_elim in H1 as [H1 _]. apply Is_true_true, Z.leb_le in H1.
  pose proof (Z.pow_pos_nonneg 10 (Z.of_nat (length digits)) ltac:(lia) ltac:(lia)).
  specialize (IH H2). nia.
Qed.

(** The loop multiplies and adds without ever wrapping, and stops exactly where
    the next value would no longer fit. *)
Lemma parse_digits_spec digits value :
  is_u64 value →
  let result := foldl (fun value raw => value * 10 + digit_of raw) value digits in
  parse_digits digits value = if forallb is_digit digits && (result <? two64) then Some result else None.
Proof.
  revert value. induction digits as [|raw digits IH]; intros value Hv; cbn [foldl forallb parse_digits].
  { destruct Hv as [_ Hv]. by apply Z.ltb_lt in Hv as ->. }
  cbv zeta. fold (digit_of raw).
  assert ((Z.of_N (N_of_ascii raw) <? 48) || (57 <? Z.of_N (N_of_ascii raw)) = negb (is_digit raw)) as ->.
  { unfold is_digit, digit_of. rewrite negb_andb, !Z.leb_antisym, !negb_involutive. f_equal; apply eq_true_iff_eq; rewrite !Z.ltb_lt; lia. }
  destruct (is_digit raw) eqn:Ed; [|done]. cbn [negb andb].
  unfold is_digit in Ed. apply andb_true_iff in Ed as [E1 E2]. apply Z.leb_le in E1, E2.
  unfold is_u64 in Hv. set (next := value * 10 + digit_of raw).
  rewrite Z.gtb_ltb. destruct (Z.ltb_spec ((two64 - 1 - digit_of raw) / 10) value) as [Hlt|Hge].
  - assert (two64 ≤ next) as Hn.
    { pose proof (Z.mul_succ_div_gt (two64 - 1 - digit_of raw) 10 ltac:(lia)). unfold next. lia. }
    destruct (forallb is_digit digits) eqn:Ef; [|done]. cbn [andb].
    rewrite (proj2 (Z.ltb_ge _ _)); [done|]. rewrite value_from.
    pose proof (decimal_value_nonneg digits ltac:(by rewrite Ef)).
    pose proof (Z.pow_pos_nonneg 10 (Z.of_nat (length digits)) ltac:(lia) ltac:(lia)). nia.
  - assert (is_u64 next) as Hn.
    { pose proof (Z.mul_div_le (two64 - 1 - digit_of raw) 10 ltac:(lia)). unfold is_u64, next. lia. }
    assert (add64 (mul64 value 10) (digit_of raw) = next) as ->; [|by apply IH].
    unfold mul64, add64. rewrite (wrap64_id (value * 10)) by (unfold is_u64, next in *; lia). by apply wrap64_id.
Qed.

(** The decimal parser of the tools is exact: it accepts a text if and only if it is
    not empty, has nothing but digits and a value below 2^64, and then answers
    that value. *)
Lemma parse_u64_spec digits :
  parse_u64 digits =
    if bool_decide (digits ≠ []) && forallb is_digit digits && (decimal_value digits <? two64)
    then Some (decimal_value digits) else None.
Proof.
  destruct digits as [|raw digits]; [done|]. unfold parse_u64.
  rewrite (parse_digits_spec (raw :: digits) 0) by (split; [done|reflexivity]). reflexivity.
Qed.

(** ** Rendering and parsing *)

Lemma digit_rendered n : 0 ≤ n < 10 → digit_of (ascii_of_N (Z.to_N (48 + n))) = n.
Proof. intros Hn. unfold digit_of. rewrite N_ascii_embedding by lia. lia. Qed.

Lemma decimal_loop_spec fuel n acc :
  0 ≤ n < 10 ^ Z.of_nat fuel → (0 < fuel)%nat → forallb is_digit acc →
  forallb is_digit (decimal_loop fuel n acc) ∧ decimal_loop fuel n acc ≠ []
  ∧ decimal_value (decimal_loop fuel n acc) = n * 10 ^ Z.of_nat (length acc) + decimal_value acc.
Proof.
  revert n acc. induction fuel as [|fuel IH]; intros n acc Hn Hf Ha; [lia|].
  rewrite Nat2Z.inj_succ, Z.pow_succ_r in Hn by lia. cbn [decimal_loop].
  pose proof (Z.mod_pos_bound n 10 ltac:(lia)) as Hm. pose proof (Z.div_mod n 10 ltac:(lia)) as Hd.
  set (raw := ascii_of_N _). assert (digit_of raw = n mod 10) as Er by (apply digit_rendered; lia).
  assert (is_digit raw = true) as Hr.
  { unfold is_digit. rewrite Er. apply andb_true_iff. rewrite !Z.leb_le. lia. }
  assert (forallb is_digit (raw :: acc)) as Ha' by (simpl; by rewrite Hr).
  assert (decimal_value (raw :: acc) = n mod 10 * 10 ^ Z.of_nat (length acc) + decimal_value acc) as Ev.
  { unfold decimal_value at 1. cbn [foldl]. by rewrite value_from, Er. }
  case_bool_decide as Ez.
  - split_and!; [done|done|]. rewrite Ev. f_equal. f_equal. lia.
  - pose proof (Z.div_pos n 10 ltac:(lia) ltac:(lia)).
    assert (n / 10 < 10 ^ Z.of_nat fuel) by (apply Z.div_lt_upper_bound; lia).
    destruct fuel as [|fuel']; [simpl in *; lia|].
    destruct (IH (n / 10) (raw :: acc)) as (H1&H2&H3); [lia|lia|done|]. split_and!; [done|done|].
    rewrite H3, Ev. cbn [length]. rewrite Nat2Z.inj_succ, Z.pow_succ_r by lia. lia.
Qed.

Lemma parse_decimal n : is_u64 n → parse_u64 (decimal n) = Some n.
Proof.
  intros Hn. unfold is_u64 in Hn.
  destruct (decimal_loop_spec 20 n []) as (H1&H2&H3); [unfold two64 in Hn; lia|lia|done|].
  fold (decimal n) in *. change (decimal_value []) with 0 in H3. simpl length in H3.
  rewrite parse_u64_spec, bool_decide_true by done. apply Is_true_true in H1. rewrite H1, H3.
  change (10 ^ Z.of_nat 0) with 1. rewrite Z.mul_1_r, Z.add_0_r. cbn [andb].
  by rewrite (proj2 (Z.ltb_lt _ _)) by lia.
Qed.
