(* ===== verification/Render.v ===== *)
(** * Records as text

    Models the [to_string] members of the structures, [Decision::explain] and
    [Coordinator::explain_request], and the names of the enumerations that only they
    use. A text is the concatenation of the parts the source appends. Shown: what
    should be one line is one line of printable characters whatever the record
    holds, an explanation has one line more per step, and the text of an authority
    stamp determines the stamp. *)

From S2P Require Import Prelude Ids Traffic Decision Policy Ledger Coordinator CoordAudit Session Tools.
From Stdlib Require Import String Ascii.
#[local] Open Scope string_scope.
#[local] Open Scope list_scope.
#[local] Open Scope Z_scope.
Import Datatypes.

Definition text_of (parts : list string) : string := foldr String.append "" parts.

Definition flag (b : bool) : string := if b then "true" else "false".

(** [std::to_string] of a signed integer. *)
Definition signed_number (n : Z) : string := if n <? 0 then text_of ["-"; number (- n)] else number n.

Definition id_text (x : Id128) : string := string_of_list_ascii (id_to_string x).

Definition newline : string := String "010"%char EmptyString.

(** ** Names of enumerators *)

Definition status_code_name (code : StatusCode.t) : string :=
  match code with
  | StatusCode.Ok => "OK" | StatusCode.InvalidArgument => "INVALID_ARGUMENT"
  | StatusCode.OutOfRange => "OUT_OF_RANGE" | StatusCode.NotFound => "NOT_FOUND"
  | StatusCode.AlreadyExists => "ALREADY_EXISTS" | StatusCode.BoundsExceeded => "BOUNDS_EXCEEDED"
  | StatusCode.IntegrityMismatch => "INTEGRITY_MISMATCH" | StatusCode.MalformedInput => "MALFORMED_INPUT"
  | StatusCode.TrailingGarbage => "TRAILING_GARBAGE" | StatusCode.UnsupportedVersion => "UNSUPPORTED_VERSION"
  | StatusCode.Unsupported => "UNSUPPORTED" | StatusCode.StaleGeneration => "STALE_GENERATION"
  | StatusCode.StaleEpoch => "STALE_EPOCH" | StatusCode.StaleAuthority => "STALE_AUTHORITY"
  | StatusCode.Cancelled => "CANCELLED" | StatusCode.Conflict => "CONFLICT"
  | StatusCode.NotAuthorized => "NOT_AUTHORIZED" | StatusCode.CapacityExhausted => "CAPACITY_EXHAUSTED"
  | StatusCode.InvalidTransition => "INVALID_TRANSITION" | StatusCode.PolicyInvalid => "POLICY_INVALID"
  | StatusCode.EvidenceUnknown => "EVIDENCE_UNKNOWN" | StatusCode.EvidenceStale => "EVIDENCE_STALE"
  | StatusCode.RevalidationRequired => "REVALIDATION_REQUIRED" | StatusCode.ReplayRejected => "REPLAY_REJECTED"
  | StatusCode.Closed => "CLOSED" | StatusCode.ShuttingDown => "SHUTTING_DOWN"
  | StatusCode.IoError => "IO_ERROR" | StatusCode.Internal => "INTERNAL"
  | StatusCode.DuplicateIgnored => "DUPLICATE_IGNORED" | StatusCode.Refused => "REFUSED"
  end.

Definition request_lifecycle_name (value : RequestLifecycle.t) : string :=
  match value with
  | RequestLifecycle.Unknown => "UNKNOWN" | RequestLifecycle.Registered => "REGISTERED"
  | RequestLifecycle.Active => "ACTIVE" | RequestLifecycle.Completing => "COMPLETING"
  | RequestLifecycle.Completed => "COMPLETED" | RequestLifecycle.Cancelled => "CANCELLED"
  | RequestLifecycle.Failed => "FAILED" | RequestLifecycle.Interrupted => "INTERRUPTED"
  | RequestLifecycle.Count => "COUNT"
  end.

Definition attempt_lifecycle_name (value : AttemptLifecycle.t) : string :=
  match value with
  | AttemptLifecycle.Unknown => "UNKNOWN" | AttemptLifecycle.Registered => "REGISTERED"
  | AttemptLifecycle.Active => "ACTIVE" | AttemptLifecycle.Draining => "DRAINING"
  | AttemptLifecycle.Completed => "COMPLETED" | AttemptLifecycle.Failed => "FAILED"
  | AttemptLifecycle.Cancelled => "CANCELLED" | AttemptLifecycle.Superseded => "SUPERSEDED"
  | AttemptLifecycle.Count => "COUNT"
  end.

Definition policy_verdict_name (value : PolicyVerdict.t) : string :=
  match value with
  | PolicyVerdict.Unknown => "UNKNOWN" | PolicyVerdict.Valid => "VALID"
  | PolicyVerdict.MissingRule => "MISSING_RULE"
  | PolicyVerdict.ReservedWeightOverflow => "RESERVED_WEIGHT_OVERFLOW"
  | PolicyVerdict.BulkReserved => "BULK_RESERVED" | PolicyVerdict.UnsupportedValue => "UNSUPPORTED_VALUE"
  | PolicyVerdict.BoundsExceeded => "BOUNDS_EXCEEDED" | PolicyVerdict.Count => "COUNT"
  end.

Definition describe_rule (value : ExplanationRule.t) : string :=
  match value with
  | ExplanationRule.Unknown => "rule not identified"
  | ExplanationRule.AuthorityBinding => "decision re-validated against the current epoch, incarnation and policy"
  | ExplanationRule.RequestLookup => "request/attempt resolved in the ledger"
  | ExplanationRule.StageResolution => "authoritative serving stage resolved"
  | ExplanationRule.ClassClassification => "traffic class derived from the stage"
  | ExplanationRule.PolicyRule => "per-class policy rule applied"
  | ExplanationRule.TopologyEvidence => "topology evidence freshness consulted"
  | ExplanationRule.SloContract => "SLO contract generation consulted"
  | ExplanationRule.RouteDecision => "route decision generation consulted"
  | ExplanationRule.ModelGeneration => "model generation fence consulted"
  | ExplanationRule.StateGeneration => "state generation fence consulted"
  | ExplanationRule.Capacity => "in-flight capacity compared with demand"
  | ExplanationRule.Congestion => "congestion signal consulted"
  | ExplanationRule.BulkIsolation => "bulk isolation from latency-critical classes"
  | ExplanationRule.StarvationGuard => "starvation guard evaluation"
  | ExplanationRule.Deadline => "deadline feasibility checked"
  | ExplanationRule.DeferState => "per-flow deferral state consulted"
  | ExplanationRule.FlowAccounting => "flow accounting updated"
  | ExplanationRule.TerminalState => "terminal lifecycle state consulted"
  | ExplanationRule.TransferBinding => "transfer generation binding consulted"
  | ExplanationRule.Count => "count"
  end.

(** ** Lines *)

Definition status_text (code : StatusCode.t) (message : string) : string :=
  text_of (status_code_name code :: if String.eqb message "" then [] else [": "; message]).

Definition stamp_text (s : AuthorityStamp) : string :=
  text_of ["epoch="; number (st_epoch s); " incarnation="; id_text (st_incarnation s);
           " policy="; number (st_policy s); " sequence="; number (st_sequence s)].

Definition subject_text (s : TrafficSubject) : string :=
  text_of (SubjectKind.to_string (sub_kind s) ::
    match sub_kind s with
    | SubjectKind.Serving =>
        [" request="; id_text (sub_request s); " attempt="; id_text (sub_attempt s);
         " generation="; number (sub_request_generation s)]
    | SubjectKind.Transfer => [" transfer="; id_text (sub_transfer s)]
    | SubjectKind.Unknown | SubjectKind.Count => []
    end).

(** The lambda [append]. *)
Definition bound_part (name : string) (value : option Z) : list string :=
  match value with None => [] | Some v => [name; "="; number v; " "] end.

Definition binding_text (b : GenerationBinding) : string :=
  let out := text_of (bound_part "request" (gb_request_generation b) ++ bound_part "model" (gb_model_generation b)
    ++ bound_part "state" (gb_state_generation b) ++ bound_part "route" (gb_route_decision b)
    ++ bound_part "slo" (gb_slo_contract b) ++ bound_part "topology" (gb_topology b)
    ++ bound_part "policy" (gb_policy b) ++ bound_part "epoch" (gb_coordinator_epoch b)) in
  if String.eqb out "" then "none" else out.

Definition treatment_text (t : TrafficTreatment) : string :=
  text_of (["class="; traffic_label (tt_traffic_class t); " priority="; PriorityClass.to_string (tt_priority t);
            " pacing="; PacingClass.to_string (tt_pacing t); " integrity="; IntegrityClass.to_string (tt_integrity t);
            " isolation="; IsolationDomain.to_string (tt_isolation t); " reserved="; number (tt_reserved_weight t)]
    ++ (if tt_rate_limit_bytes_per_sec t ≠? 0 then [" rate="; number (tt_rate_limit_bytes_per_sec t)] else [])
    ++ (if negb (is_nil (tt_flow t)) then [" flow="; id_text (tt_flow t)] else [])).

Definition decision_text (d : Decision) : string :=
  text_of [DecisionOutcome.to_string (dec_outcome d); " "; ReasonCode.to_string (dec_reason d);
           " ["; subject_text (dec_subject d); "] "; treatment_text (dec_treatment d);
           " binding{"; binding_text (dec_binding d); "} authority{"; stamp_text (dec_authority d); "}"].

Definition topology_text (e : TopologyEvidence) : string :=
  text_of ["generation="; number (te_generation e); " provenance="; EvidenceProvenance.to_string (te_provenance e);
           " nodes="; number (te_node_count e); " accelerators="; number (te_accelerator_count e);
           " links="; number (te_link_count e); " fabric_bytes_per_sec="; number (te_fabric_bytes_per_sec e);
           " queue_depth="; number (te_queue_depth e); " congested="; flag (te_congestion_signalled e);
           " disaggregated="; flag (te_disaggregated e)].

Definition coordinator_status_text (s : CoordinatorStatus) : string :=
  text_of ["epoch="; number (cs_epoch s); " incarnation="; id_text (cs_incarnation s);
           " policy="; number (cs_policy_generation s); " topology="; number (cs_topology_generation s);
           " topology_state="; EvidenceState.to_string (cs_topology_state s);
           " topology_provenance="; EvidenceProvenance.to_string (cs_topology_provenance s);
           " live_requests="; number (cs_live_requests s); " transfers="; number (cs_transfers s);
           " active_flows="; number (cs_active_flows s); " authority_sequence="; number (cs_authority_sequence s)].

Definition session_stats_text (s : SessionStats) : string :=
  text_of ["accepted="; number (ss_accepted s); " rejected_capacity="; number (ss_rejected_capacity s);
           " rejected_auth="; number (ss_rejected_auth s); " rejected_protocol="; number (ss_rejected_protocol s);
           " frames_in="; number (ss_frames_in s); " frames_out="; number (ss_frames_out s);
           " frames_invalid="; number (ss_frames_invalid s); " replays_rejected="; number (ss_replays_rejected s);
           " duplicates_served="; number (ss_duplicates_served s); " bytes_in="; number (ss_bytes_in s);
           " bytes_out="; number (ss_bytes_out s); " active_sessions="; number (ss_active_sessions s);
           " peak_sessions="; number (ss_peak_sessions s)].

(** The part of one class; a class that was never used is left out. *)
Definition class_part (traffic : TrafficClass) (e : ClassAccounting) : list string :=
  if (ca_allowed e ≟ 0) && (ca_degraded e ≟ 0) && (ca_deferred e ≟ 0) && (ca_rejected e ≟ 0)
     && (ca_active_flows e ≟ 0) then []
  else [" "; traffic_label traffic; "{allowed="; number (ca_allowed e); " degraded="; number (ca_degraded e);
        " deferred="; number (ca_deferred e); " rejected="; number (ca_rejected e);
        " active="; number (ca_active_flows e); "}"].

Definition accounting_text (a : AccountingSnapshot) : string :=
  text_of (["active_flows="; number (as_active_flows_total a);
            " peak_active_flows="; number (as_peak_active_flows_total a);
            " pending_deferrals="; number (as_pending_deferrals a); " live_requests="; number (as_live_requests a);
            " retained_requests="; number (as_retained_requests a);
            " requests{registered="; number (as_requests_registered a);
            " completed="; number (as_requests_completed a); " cancelled="; number (as_requests_cancelled a);
            " failed="; number (as_requests_failed a); " interrupted="; number (as_requests_interrupted a);
            " evicted="; number (as_requests_evicted a);
            "} completions{committed="; number (as_completions_committed a);
            " suppressed="; number (as_completions_suppressed a); " refused="; number (as_completions_refused a); "}"]
    ++ (zip (take kTrafficClassCount enum_all) (as_per_class a) ≫= fun entry => class_part entry.1 entry.2)).

Definition persisted_text (s : PersistedCoordinatorState) : string :=
  text_of (["snapshot format="; number (ps_format_version s); " epoch="; number (ps_epoch s);
            " boot_count="; number (ps_boot_count s);
            " previous_incarnation="; id_text (ps_previous_incarnation s);
            " policy_generation="; number (pc_generation (ps_policy s));
            " topology_present="; flag (ps_topology_present s)]
    ++ (if ps_topology_present s
        then [" topology_generation="; number (te_generation (ps_topology s));
              " topology_provenance="; EvidenceProvenance.to_string (te_provenance (ps_topology s))] else [])
    ++ [" models="; number (Z.of_nat (length (ps_models s))); " states="; number (Z.of_nat (length (ps_states s)));
        " terminal_requests="; number (Z.of_nat (length (ps_terminal_requests s)));
        " interrupted_requests="; number (Z.of_nat (length (ps_interrupted_requests s)))]).

(** ** Texts of several lines *)

Definition step_line (s : ExplanationStep) : string :=
  text_of ["  - "; ExplanationRule.to_string (step_rule s); ": "; describe_rule (step_rule s);
           " [value="; signed_number (step_value s); " secondary="; signed_number (step_secondary s); "]"; newline].

Definition explain_text (d : Decision) : string :=
  text_of (decision_text d :: newline :: (step_line <$> dec_explanation d)).

Definition rule_part (traffic : TrafficClass) (r : ClassPolicyRule) : list string :=
  [newline; " "; " "; traffic_label traffic; if pr_enabled r then " enabled" else " disabled"]
  ++ (if negb (pr_enabled r) then []
      else [" priority="; PriorityClass.to_string (pr_priority r); " pacing="; PacingClass.to_string (pr_pacing r);
            " integrity="; IntegrityClass.to_string (pr_integrity r);
            " isolation="; IsolationDomain.to_string (pr_isolation r); " reserved="; number (pr_reserved_weight r)]
        ++ (if pr_starvation_protected r
            then [" starvation_guard="; number (pr_max_defer_count r); "/"; number (pr_max_defer_horizon_nanos r)]
            else [])
        ++ (if pr_yields_to_latency r then [" yields_to_latency"] else [])).

Definition policy_text (p : PolicyConfig) : string :=
  text_of (["policy generation="; number (pc_generation p);
            " reserved_weight_total="; number (reserved_weight_total p);
            " allow_unknown_stage="; flag (pc_allow_unknown_stage p);
            " allow_unknown_class="; flag (pc_allow_unknown_traffic_class p);
            " bulk_in_flight_cap_bytes="; number (pc_bulk_in_flight_cap_bytes p);
            " defer_hint_nanos="; number (pc_defer_hint_nanos p)]
    ++ (zip (take kTrafficClassCount enum_all) (pc_rules p) ≫= fun entry => rule_part entry.1 entry.2)).

Definition attempt_line (a : AttemptRecord) : string :=
  text_of ["  attempt "; id_text (at_id a); " generation="; number (at_generation a);
           " stage="; stage_label (at_stage a); " lifecycle="; attempt_lifecycle_name (at_lifecycle a);
           " model_generation="; number (at_model_generation a); " route_generation="; number (at_route_generation a);
           " success="; flag (at_success_published a); " failure="; flag (at_failure_published a); newline].

Definition explain_request (c : Coordinator) (request : RequestId) : string :=
  match snapshot_request (C_ledger c) request with
  | None => "request not found"
  | Some r =>
      text_of (["request "; id_text request; " generation="; number (rr_generation r);
                " lifecycle="; request_lifecycle_name (rr_lifecycle r); " stage="; stage_label (rr_stage r);
                " requires_revalidation="; flag (rr_requires_revalidation r);
                " terminal_reason="; ReasonCode.to_string (rr_terminal_reason r);
                " bytes_in="; number (rr_bytes_in r); " bytes_out="; number (rr_bytes_out r);
                " decisions="; number (rr_decisions r); " defers="; number (rr_defers r);
                " rejections="; number (rr_rejections r); " active_flows="; number (rr_active_flows r);
                " authority_floor="; number (rr_authority_floor r); newline]
        ++ (attempt_line <$> take (rr_attempt_count r) (rr_attempts r)))
  end.

(** ** Characters *)

Create HintDb printable.

Definition is_printable (c : ascii) : bool :=
  (32 <=? Z.of_N (N_of_ascii c)) && (Z.of_N (N_of_ascii c) <=? 126).

Definition printable (s : string) : Prop := forallb is_printable (list_ascii_of_string s) = true.

(** The ends of line in a text. *)
Definition lines (s : string) : nat :=
  length (filter (fun c => c = "010"%char) (list_ascii_of_string s)).

Lemma list_ascii_append a b :
  list_ascii_of_string (String.append a b) = list_ascii_of_string a ++ list_ascii_of_string b.
Proof. induction a as [|c a IH]; [done|]. simpl. by rewrite IH. Qed.

Lemma list_ascii_text parts : list_ascii_of_string (text_of parts) = parts ≫= list_ascii_of_string.
Proof. induction parts as [|p parts IH]; [done|]. cbn [text_of foldr]. rewrite list_ascii_append. fold (text_of parts). by rewrite IH. Qed.

Lemma printable_text parts : Forall printable parts → printable (text_of parts).
Proof.
  unfold printable. rewrite list_ascii_text. induction 1 as [|p parts Hp Hf IH]; [done|].
  rewrite bind_cons, forallb_app, Hp, IH. done.
Qed.

Lemma lines_text parts : lines (text_of parts) = sum_list_with lines parts.
Proof.
  unfold lines. rewrite list_ascii_text. induction parts as [|p parts IH]; [done|].
  rewrite bind_cons, filter_app, length_app, IH. done.
Qed.

Lemma lines_printable s : printable s → lines s = 0%nat.
Proof.
  unfold printable, lines. induction (list_ascii_of_string s) as [|c l IH]; [done|].
  cbn [forallb]. intros [Hc Hl]%andb_true_iff. rewrite filter_cons, decide_False; [by apply IH|]. by intros ->.
Qed.

Lemma decimal_printable fuel n acc :
  forallb is_printable acc = true → forallb is_printable (decimal_loop fuel n acc) = true.
Proof.
  revert n acc. induction fuel as [|fuel IH]; intros n acc Ha; [done|]. cbn [decimal_loop]. cbv zeta.
  assert (forallb is_printable (ascii_of_N (Z.to_N (48 + n mod 10)) :: acc) = true) as Hc.
  { cbn [forallb]. rewrite Ha, andb_true_r. pose proof (Z.mod_pos_bound n 10 ltac:(lia)).
    unfold is_printable. rewrite N_ascii_embedding by lia. rewrite Z2N.id by lia.
    apply andb_true_iff. rewrite !Z.leb_le. lia. }
  case_bool_decide; [done|]. by apply IH.
Qed.

Lemma printable_number n : printable (number n).
Proof. unfold printable, number. rewrite list_ascii_of_string_of_list_ascii. by apply decimal_printable. Qed.

Lemma printable_id x : printable (id_text x).
Proof.
  unfold printable, id_text. rewrite list_ascii_of_string_of_list_ascii. unfold id_to_string.
  apply forallb_forall. intros c Hc. apply list_elem_of_In, list_elem_of_fmap in Hc as (i&->&_).
  unfold id_digit. set (v := Z.land _ 15). assert (0 ≤ v < 16) as Hv.
  { unfold v. change 15 with (Z.ones 4). rewrite Z.land_ones by lia. apply Z.mod_pos_bound. lia. }
  clearbody v. unfold hex_digit, is_printable. destruct (Z.ltb_spec v 10);
    (rewrite N_ascii_embedding by lia); rewrite Z2N.id by lia; apply andb_true_iff; rewrite !Z.leb_le; lia.
Qed.

Lemma printable_flag b : printable (flag b).
Proof. by destruct b. Qed.

Lemma printable_signed n : printable (signed_number n).
Proof. unfold signed_number. case_match; [|apply printable_number]. apply printable_text. repeat constructor. apply printable_number. Qed.

Lemma printable_traffic c : printable (traffic_label c).
Proof. by destruct c. Qed.
Lemma printable_stage s : printable (stage_label s).
Proof. by destruct s. Qed.
Lemma printable_kind k : printable (SubjectKind.to_string k).
Proof. by destruct k. Qed.
Lemma printable_priority k : printable (PriorityClass.to_string k).
Proof. by destruct k. Qed.
Lemma printable_pacing k : printable (PacingClass.to_string k).
Proof. by destruct k. Qed.
Lemma printable_integrity k : printable (IntegrityClass.to_string k).
Proof. by destruct k. Qed.
Lemma printable_isolation k : printable (IsolationDomain.to_string k).
Proof. by destruct k. Qed.
Lemma printable_outcome k : printable (DecisionOutcome.to_string k).
Proof. by destruct k. Qed.
Lemma printable_reason k : printable (ReasonCode.to_string k).
Proof. by destruct k. Qed.
Lemma printable_rule k : printable (ExplanationRule.to_string k).
Proof. by destruct k. Qed.
Lemma printable_description k : printable (describe_rule k).
Proof. by destruct k. Qed.
Lemma printable_evidence k : printable (EvidenceState.to_string k).
Proof. by destruct k. Qed.
Lemma printable_provenance k : printable (EvidenceProvenance.to_string k).
Proof. by destruct k. Qed.
Lemma printable_status_code k : printable (status_code_name k).
Proof. by destruct k. Qed.
Lemma printable_request_lifecycle k : printable (request_lifecycle_name k).
Proof. by destruct k. Qed.
Lemma printable_attempt_lifecycle k : printable (attempt_lifecycle_name k).
Proof. by destruct k. Qed.

#[export] Hint Resolve printable_number printable_id printable_flag printable_signed printable_traffic printable_stage
  printable_kind printable_priority printable_pacing printable_integrity printable_isolation printable_outcome
  printable_reason printable_rule printable_description printable_evidence printable_provenance
  printable_status_code printable_request_lifecycle printable_attempt_lifecycle : printable.

(** Parts one by one: literals by evaluation, the rest by the hints. *)
Ltac printable_parts :=
  repeat match goal with
         | |- Forall printable (_ ++ _) => apply Forall_app; split
         | |- Forall printable (_ :: _) => apply Forall_cons; split
         | |- Forall printable [] => apply Forall_nil; exact I
         | |- Forall printable (if ?b then _ else _) => destruct b
         | |- Forall printable (match ?x with _ => _ end) => destruct x
         end; first [solve [auto with printable] | reflexivity | idtac].

Ltac printable_line := apply printable_text; printable_parts.

Lemma printable_stamp s : printable (stamp_text s).
Proof. printable_line. Qed.
Lemma printable_subject s : printable (subject_text s).
Proof. printable_line. Qed.
Lemma printable_binding b : printable (binding_text b).
Proof.
  unfold binding_text. cbv zeta. case_match; [done|].
  assert (∀ name value, printable name → Forall printable (bound_part name value)) as Hp.
  { intros name value Hn. unfold bound_part. printable_parts. }
  apply printable_text. printable_parts; by apply Hp.
Qed.
Lemma printable_treatment t : printable (treatment_text t).
Proof. printable_line. Qed.
#[export] Hint Resolve printable_stamp printable_subject printable_binding printable_treatment : printable.

Lemma printable_decision d : printable (decision_text d).
Proof. printable_line. Qed.

Lemma class_parts_printable entries :
  Forall printable (entries ≫= fun entry : TrafficClass * ClassAccounting => class_part entry.1 entry.2).
Proof. apply Forall_bind, Forall_true. intros [traffic e]. unfold compose, class_part. printable_parts. Qed.

(** ** What a text determines *)

(** Fields are separated by characters that do not occur in them. *)
Lemma fields_split (c : ascii) l l' r r' :
  c ∉ l → c ∉ l' → l ++ c :: r = l' ++ c :: r' → l = l' ∧ r = r'.
Proof.
  revert l'. induction l as [|x l IH]; intros [|y l'] Hl Hl' E; simpl in E.
  - by injection E.
  - injection E as <- _. exfalso. apply Hl'. by constructor.
  - injection E as -> _. exfalso. apply Hl. by constructor.
  - injection E as <- E. apply not_elem_of_cons in Hl as [_ Hl]. apply not_elem_of_cons in Hl' as [_ Hl'].
    destruct (IH _ Hl Hl' E) as [-> ->]. done.
Qed.

Lemma decimal_no_space n : is_u64 n → " "%char ∉ decimal n.
Proof.
  intros Hn Hin. pose proof (parse_decimal n Hn) as Hp. rewrite parse_u64_spec in Hp.
  case_match eqn:Eb; [|done]. rewrite !andb_true_iff in Eb. destruct Eb as [[_ Hd] _].
  rewrite forallb_forall in Hd. by specialize (Hd _ (proj1 (list_elem_of_In _ _) Hin)).
Qed.

Lemma decimal_inj n m : is_u64 n → is_u64 m → decimal n = decimal m → n = m.
Proof. intros Hn Hm E. apply (inj Some). by rewrite <- (parse_decimal n Hn), <- (parse_decimal m Hm), E. Qed.

Lemma id_text_inj x y : id_ok x → id_ok y → id_to_string x = id_to_string y → x = y.
Proof. intros Hx Hy E. apply (inj Some). by rewrite <- (id_parse_to_string x Hx), <- (id_parse_to_string y Hy), E. Qed.

Definition stamp_typed (s : AuthorityStamp) : Prop :=
  is_u64 (st_epoch s) ∧ id_ok (st_incarnation s) ∧ is_u64 (st_policy s) ∧ is_u64 (st_sequence s).

(** The text of a stamp, field by field. *)
Lemma stamp_characters s :
  list_ascii_of_string (stamp_text s) =
    list_ascii_of_string "epoch=" ++ decimal (st_epoch s) ++ " "%char
      :: list_ascii_of_string "incarnation=" ++ id_to_string (st_incarnation s)
      ++ list_ascii_of_string " policy=" ++ decimal (st_policy s) ++ " "%char
      :: list_ascii_of_string "sequence=" ++ decimal (st_sequence s).
Proof.
  unfold stamp_text. rewrite list_ascii_text. cbn [mbind list_bind]. unfold number, id_text.
  rewrite !list_ascii_of_string_of_list_ascii, app_nil_r. cbn. done.
Qed.

(** The text of a stamp determines the stamp: two stamps that differ in the epoch, the
    boot, the policy or the sequence never look alike in a log. *)
Lemma stamp_text_inj s s' :
  stamp_typed s → stamp_typed s' → stamp_text s = stamp_text s' → s = s'.
Proof.
  intros (H1&H2&H3&H4) (G1&G2&G3&G4) E. apply (f_equal list_ascii_of_string) in E. rewrite !stamp_characters in E.
  apply app_inj_1 in E as [_ E]; [|done].
  apply fields_split in E as [E1 E]; [|by apply decimal_no_space..].
  apply app_inj_1 in E as [_ E]; [|done].
  apply app_inj_1 in E as [E2 E]; [|unfold id_to_string; by rewrite !length_fmap].
  apply app_inj_1 in E as [_ E]; [|done].
  apply fields_split in E as [E3 E]; [|by apply decimal_no_space..].
  apply app_inj_1 in E as [_ E4]; [|done].
  apply decimal_inj in E1, E3, E4; [|done..]. apply id_text_inj in E2; [|done..].
  destruct s, s'; simpl in *; congruence.
Qed.

Lemma lines_ended parts : Forall printable parts → lines (text_of (parts ++ [newline])) = 1%nat.
Proof.
  intros Hp. rewrite lines_text, sum_list_with_app, <- lines_text.
  by rewrite (lines_printable _ (printable_text _ Hp)).
Qed.

Lemma step_line_ends s : lines (step_line s) = 1%nat.
Proof. refine (lines_ended [_; _; _; _; _; _; _; _; _] _). printable_parts. Qed.

Lemma step_lines steps : sum_list_with lines (step_line <$> steps) = length steps.
Proof. induction steps as [|s steps IH]; [done|]. rewrite fmap_cons. cbn [sum_list_with length]. by rewrite IH, step_line_ends. Qed.

(** Whatever a record holds, the text that stands for it in a line of output is
    one line of printable characters: decisions, subjects, treatments, bindings,
    stamps, evidence, the status, the accounting, the statistics and the summary of a
    snapshot can neither end the line nor carry control characters; an explanation of
    a decision has one line for the decision and one for each of its steps. *)
Theorem texts_stay_in_their_lines d e status accounting stats persisted :
  printable (decision_text d) ∧ printable (topology_text e) ∧ printable (coordinator_status_text status)
  ∧ printable (accounting_text accounting) ∧ printable (session_stats_text stats)
  ∧ printable (persisted_text persisted)
  ∧ lines (explain_text d) = S (length (dec_explanation d)).
Proof.
  split; [apply printable_decision|]. split; [printable_line|]. split; [printable_line|].
  split; [apply printable_text; apply Forall_app; split; [printable_parts|apply class_parts_printable]|].
  split; [printable_line|]. split; [printable_line|].
  unfold explain_text. rewrite lines_text. cbn [sum_list_with]. rewrite (lines_printable _ (printable_decision d)).
  change (lines newline) with 1%nat. by rewrite step_lines.
Qed.
