(* ===== verification/Logging.v ===== *)
(** * Logging

    Models include/itf/log.hpp and src/log.cpp: the level, the sink, and the line that
    goes to the standard error stream when there is no sink. What a logger has
    written is the list of lines; what it has handed to its sink is the list of
    calls. *)

From S2P Require Import Prelude Tools Render.
From Stdlib Require Import String Ascii.
#[local] Open Scope string_scope.
#[local] Open Scope list_scope.
#[local] Open Scope Z_scope.
Import Datatypes.

Module LogLevel.
Inductive t : Type := kError | kWarn | kInfo | kDebug.

Definition value (x : t) : Z := match x with kError => 0 | kWarn => 1 | kInfo => 2 | kDebug => 3 end.

Definition label (x : t) : string :=
  match x with kError => "error" | kWarn => "warn" | kInfo => "info" | kDebug => "debug" end.
End LogLevel.

Record Logger := MkLogger {
  lg_level : LogLevel.t;
  lg_sink : bool;
  lg_lines : list string;
  lg_calls : list (LogLevel.t * string * string);
}.

#[export] Instance lg_eta : Eta Logger := fun r => MkLogger (lg_level r) (lg_sink r) (lg_lines r) (lg_calls r).
#[export] Instance lg_set_level : Setter lg_level. Proof. mk_setter. Defined.
#[export] Instance lg_set_sink : Setter lg_sink. Proof. mk_setter. Defined.
#[export] Instance lg_set_lines : Setter lg_lines. Proof. mk_setter. Defined.
#[export] Instance lg_set_calls : Setter lg_calls. Proof. mk_setter. Defined.

Definition new_logger : Logger := MkLogger LogLevel.kWarn false [] [].

Definition set_level (level : LogLevel.t) (l : Logger) : Logger := l <| lg_level := level |>.
Definition set_sink (present : bool) (l : Logger) : Logger := l <| lg_sink := present |>.

Definition to_lower (c : ascii) : ascii :=
  let code := Z.of_N (N_of_ascii c) in
  if (65 <=? code) && (code <=? 90) then ascii_of_N (Z.to_N (code - 65 + 97)) else c.

Definition parse_level (text : string) : option LogLevel.t :=
  let lowered := string_of_list_ascii (to_lower <$> list_ascii_of_string text) in
  if String.eqb lowered "error" then Some LogLevel.kError
  else if String.eqb lowered "warn" || String.eqb lowered "warning" then Some LogLevel.kWarn
  else if String.eqb lowered "info" then Some LogLevel.kInfo
  else if String.eqb lowered "debug" then Some LogLevel.kDebug
  else None.

Definition log_line (level : LogLevel.t) (component message : string) : string :=
  text_of (["["; LogLevel.label level; "] "] ++ (if String.eqb component "" then [] else [component; ": "])
    ++ [message; newline]).

Definition log (level : LogLevel.t) (component message : string) (l : Logger) : Logger :=
  if LogLevel.value level >? LogLevel.value (lg_level l) then l
  else if lg_sink l then l <| lg_calls := lg_calls l ++ [(level, component, message)] |>
  else l <| lg_lines := lg_lines l ++ [log_line level component message] |>.

Definition log_error : string → string → Logger → Logger := log LogLevel.kError.
Definition log_warn : string → string → Logger → Logger := log LogLevel.kWarn.
Definition log_info : string → string → Logger → Logger := log LogLevel.kInfo.
Definition log_debug : string → string → Logger → Logger := log LogLevel.kDebug.

(** ** Lemmas *)

(** The name of a level, in any case, is parsed as the level. *)
Lemma parse_level_label level text :
  to_lower <$> list_ascii_of_string text = list_ascii_of_string (LogLevel.label level) → parse_level text = Some level.
Proof. intros E. unfold parse_level. rewrite E, string_of_list_ascii_of_string. by destruct level. Qed.

(** A line of printable text is written as one line. *)
Lemma log_line_ends level component message :
  printable component → printable message → lines (log_line level component message) = 1%nat.
Proof.
  intros Hc Hm. assert (printable (LogLevel.label level)) as Hl by by destruct level. unfold log_line.
  case_match; [apply (lines_ended [_; _; _; _])|apply (lines_ended [_; _; _; _; _; _])]; by repeat constructor.
Qed.

(** Errors are always reported, exactly once. *)
Lemma error_is_reported component message l :
  (length (lg_lines (log_error component message l)) + length (lg_calls (log_error component message l)))%nat
  = S (length (lg_lines l) + length (lg_calls l)).
Proof.
  unfold log_error, log. rewrite Z.gtb_ltb, (proj2 (Z.ltb_ge _ _)) by (destruct (lg_level l); simpl; lia).
  destruct (lg_sink l); simpl; rewrite length_app; simpl; lia.
Qed.
