(* ===== verification/Accel.v ===== *)
(** * The accelerator probe

    Models include/itf/accel.hpp, include/itf/capability.hpp, src/accel_backend.hpp,
    src/accel_cuda.cu, src/accel_cuda_host.cpp, src/accel_stub.cpp and
    src/accel_common.cpp. The CUDA runtime is not part of the repository: what its
    calls answer, the order in which it runs the threads of the kernel and what its
    copy brings to the host are a record, [Cuda]. Shown: a probe that reports a real
    device after running the kernel has compared every word the kernel should have
    written, and asks for every buffer to be taken back; a device whose calls
    succeed passes whatever the order of its threads. *)

From S2P Require Import Prelude Ids Tools Render.
From Stdlib Require Import String Ascii.
From stdpp Require Import functions list.
#[local] Open Scope string_scope.
#[local] Open Scope list_scope.
#[local] Open Scope Z_scope.
Import Datatypes.

Module CapabilityLabel.
Inductive t : Type := Unknown | Real | Synthetic | Unsupported | Count.

Definition value (x : t) : Z :=
  match x with Unknown => 0 | Real => 1 | Synthetic => 2 | Unsupported => 3 | Count => 4 end.

Definition to_string (x : t) : string :=
  match x with
  | Unknown => "UNKNOWN" | Real => "REAL" | Synthetic => "SYNTHETIC" | Unsupported => "UNSUPPORTED" | Count => "COUNT"
  end.
End CapabilityLabel.

(** ** The kernel *)

Definition kElements : Z := 2 ^ 20.
Definition kThreads : Z := 256.

(** The word at an index of the pattern. *)
Definition pattern (index : Z) : Z := add32 (mul32 index 2654435761) 0x9E3779B9.

(** A buffer of words. *)
Abbreviation Words := (Z → Z).

(** One thread of [pattern_kernel]. *)
Definition pattern_kernel (length : Z) (data : Words) (at_ : Z * Z) : Words :=
  let index := add32 (mul32 at_.1 kThreads) at_.2 in
  if index <? length then <[index := pattern index]> data else data.

(** The blocks of the launch, and the threads of all of them. *)
Definition blocks : Z := (kElements + kThreads - 1) / kThreads.
Definition grid : list (Z * Z) := seqZ 0 blocks ≫= fun block => pair block <$> seqZ 0 kThreads.

(** ** The runtime *)

(** The members of [cudaDeviceProp] that are read. *)
Record DeviceProperties := MkDeviceProperties {
  dv_name : string;
  dv_major : Z;
  dv_minor : Z;
  dv_total_global_mem : Z;
  dv_uuid : list Z;
}.

(** What each call answers: nothing for success, or the text of the error. *)
Record Cuda := MkCuda {
  cu_count : option string;
  cu_devices : Z;
  cu_select : option string;
  cu_describe : option string;
  cu_properties : DeviceProperties;
  (** The version, unless the call fails. *)
  cu_driver : option Z;
  cu_malloc : option string;
  cu_memset : option string;
  cu_launch : option string;
  cu_synchronize : option string;
  (** The order in which the threads run. *)
  cu_schedule : list (Z * Z);
  (** Whether the host has memory for the staging buffer. *)
  cu_staging : bool;
  cu_copy : option string;
  (** What the copy brings of a device buffer. *)
  cu_transfer : Words → Words;
  cu_elapsed : Z;
  cu_free : option string;
}.

(** ** The raw probe *)

(** [ItfAccelProbeRaw]. *)
Record Raw := MkRaw {
  rw_status : Z;
  rw_compute_major : Z;
  rw_compute_minor : Z;
  rw_ran_kernel : Z;
  rw_ran_memory_copy : Z;
  rw_device_name : string;
  rw_driver_version : string;
  rw_device_uuid : string;
  rw_error : string;
  rw_device_memory_bytes : Z;
  rw_generation : Z;
  rw_bytes_verified : Z;
  rw_copy_nanos : Z;
  rw_bytes_per_second : Z;
  rw_kernel_launches : Z;
  rw_mismatches : Z;
}.

Definition zero_raw : Raw := MkRaw 0 0 0 0 0 "" "" "" "" 0 0 0 0 0 0 0.

#[export] Instance rw_eta : Eta Raw := fun r =>
  MkRaw (rw_status r) (rw_compute_major r) (rw_compute_minor r) (rw_ran_kernel r) (rw_ran_memory_copy r)
    (rw_device_name r) (rw_driver_version r) (rw_device_uuid r) (rw_error r) (rw_device_memory_bytes r)
    (rw_generation r) (rw_bytes_verified r) (rw_copy_nanos r) (rw_bytes_per_second r) (rw_kernel_launches r)
    (rw_mismatches r).
#[export] Instance rw_set_status : Setter rw_status. Proof. mk_setter. Defined.
#[export] Instance rw_set_compute_major : Setter rw_compute_major. Proof. mk_setter. Defined.
#[export] Instance rw_set_compute_minor : Setter rw_compute_minor. Proof. mk_setter. Defined.
#[export] Instance rw_set_ran_kernel : Setter rw_ran_kernel. Proof. mk_setter. Defined.
#[export] Instance rw_set_ran_memory_copy : Setter rw_ran_memory_copy. Proof. mk_setter. Defined.
#[export] Instance rw_set_device_name : Setter rw_device_name. Proof. mk_setter. Defined.
#[export] Instance rw_set_driver_version : Setter rw_driver_version. Proof. mk_setter. Defined.
#[export] Instance rw_set_device_uuid : Setter rw_device_uuid. Proof. mk_setter. Defined.
#[export] Instance rw_set_error : Setter rw_error. Proof. mk_setter. Defined.
#[export] Instance rw_set_device_memory_bytes : Setter rw_device_memory_bytes. Proof. mk_setter. Defined.
#[export] Instance rw_set_generation : Setter rw_generation. Proof. mk_setter. Defined.
#[export] Instance rw_set_bytes_verified : Setter rw_bytes_verified. Proof. mk_setter. Defined.
#[export] Instance rw_set_copy_nanos : Setter rw_copy_nanos. Proof. mk_setter. Defined.
#[export] Instance rw_set_bytes_per_second : Setter rw_bytes_per_second. Proof. mk_setter. Defined.
#[export] Instance rw_set_kernel_launches : Setter rw_kernel_launches. Proof. mk_setter. Defined.
#[export] Instance rw_set_mismatches : Setter rw_mismatches. Proof. mk_setter. Defined.

(** The output with what the process holds: the device buffers that the runtime has
    not taken back, and the staging buffers; and the calls that made or gave back a
    device buffer. *)
Record Probing := MkProbing {
  pb_raw : Raw;
  pb_device : Z;
  pb_host : Z;
  pb_allocated : Z;
  pb_freed : Z;
}.

Definition new_probing : Probing := MkProbing zero_raw 0 0 0 0.

#[export] Instance pb_eta : Eta Probing := fun r =>
  MkProbing (pb_raw r) (pb_device r) (pb_host r) (pb_allocated r) (pb_freed r).
#[export] Instance pb_set_raw : Setter pb_raw. Proof. mk_setter. Defined.
#[export] Instance pb_set_device : Setter pb_device. Proof. mk_setter. Defined.
#[export] Instance pb_set_host : Setter pb_host. Proof. mk_setter. Defined.
#[export] Instance pb_set_allocated : Setter pb_allocated. Proof. mk_setter. Defined.
#[export] Instance pb_set_freed : Setter pb_freed. Proof. mk_setter. Defined.

#[local] Abbreviation Probe := (Run Probing).

(** [copy_text] to a buffer of that capacity: what the buffer then holds. *)
Fixpoint copy_text (capacity : nat) (source : string) : string :=
  match capacity, source with
  | S (S _ as rest), String c source => String c (copy_text rest source)
  | _, _ => ""
  end.

Definition write_raw (f : Raw → Raw) : Probe unit := fun s => (inl tt, s <| pb_raw := f (pb_raw s) |>).

(** [report_error] with the return that follows it. *)
Definition report_error {A} (message : string) (status : Z) : Probe A :=
  let^ _ := write_raw (fun r => r <| rw_status := status |> <| rw_error := copy_text 256 message |>) in
  leave status.

(** A successful [cudaMalloc]. *)
Definition hold_device : Probe unit := fun s =>
  (inl tt, s <| pb_device := pb_device s + 1 |> <| pb_allocated := pb_allocated s + 1 |>).

(** [cudaFree]: the runtime takes the buffer back unless the call fails. *)
Definition free_device (cu : Cuda) : Probe unit := fun s =>
  (inl tt, s <| pb_freed := pb_freed s + 1 |>
             <| pb_device := match cu_free cu with None => pb_device s - 1 | Some _ => pb_device s end |>).

Definition hold_host (n : Z) : Probe unit := fun s => (inl tt, s <| pb_host := pb_host s + n |>).

(** A call: when it fails, [cleanup] runs and the probe ends with [status]. *)
Definition require (answer : option string) (cleanup : Probe unit) (status : Z) : Probe unit :=
  match answer with
  | None => run_ret tt
  | Some message => let^ _ := cleanup in report_error message status
  end.

Definition mix (value : Z) : Z :=
  let value := Z.lxor value (Z.shiftr value 30) in
  let value := mul64 value 0xBF58476D1CE4E5B9 in
  let value := Z.lxor value (Z.shiftr value 27) in
  let value := mul64 value 0x94D049BB133111EB in
  Z.lxor value (Z.shiftr value 31).

Definition hash_byte (hash byte : Z) : Z := mul64 (Z.lxor hash byte) 0x100000001B3.

Definition device_generation (p : DeviceProperties) : Z :=
  let hash := foldl hash_byte 0xCBF29CE484222325 (dv_uuid p) in
  let hash := foldl hash_byte hash ((fun c => Z.of_N (N_of_ascii c)) <$> list_ascii_of_string (dv_name p)) in
  mix (Z.lxor (Z.lxor hash (wrap64 (Z.shiftl (to_u64 (dv_major p)) 8))) (to_u64 (dv_minor p))).

Definition hex_byte (byte : Z) : string :=
  String (hex_digit (Z.shiftr byte 4)) (String (hex_digit (Z.land byte 15)) "").

(** The sixteen bytes in groups of four, two, two, two and six. *)
Definition uuid_text (uuid : list Z) : string :=
  let part from count := text_of (hex_byte <$> take count (drop from uuid)) in
  text_of [part 0%nat 4%nat; "-"; part 4%nat 2%nat; "-"; part 6%nat 2%nat; "-"; part 8%nat 2%nat; "-"; part 10%nat 6%nat].

Definition driver_text (version : option Z) : string :=
  match version with
  | Some v => copy_text 64 (text_of ["driver API "; signed_number (Z.quot v 1000); ".";
                                     signed_number (Z.quot (Z.rem v 1000) 10)])
  | None => "unknown"
  end.

(** The queries. *)
Definition query_device (cu : Cuda) : Probe unit :=
  let^ _ := require (cu_count cu) (run_ret tt) 1 in
  let^ _ := (if cu_devices cu <=? 0 then report_error "no CUDA device is present" 2 else run_ret tt) in
  let^ _ := require (cu_select cu) (run_ret tt) 3 in
  let^ _ := require (cu_describe cu) (run_ret tt) 4 in
  let p := cu_properties cu in
  write_raw (fun r => r <| rw_device_name := copy_text 256 (dv_name p) |>
    <| rw_compute_major := dv_major p |> <| rw_compute_minor := dv_minor p |>
    <| rw_device_memory_bytes := dv_total_global_mem p |>
    <| rw_driver_version := copy_text 64 (driver_text (cu_driver cu)) |>
    <| rw_generation := device_generation p |>
    <| rw_device_uuid := copy_text 64 (uuid_text (dv_uuid p)) |>).

(** The allocation and the kernel: the device buffer. *)
Definition run_device (cu : Cuda) (run_kernel : bool) : Probe Words :=
  let free := free_device cu in
  let^ _ := require (cu_malloc cu) (run_ret tt) 5 in
  let^ _ := hold_device in
  let^ _ := require (cu_memset cu) free 6 in
  let data : Words := fun _ => 0 in
  if run_kernel then
    let^ _ := require (cu_launch cu) free 7 in
    let data := foldl (pattern_kernel kElements) data (cu_schedule cu) in
    let^ _ := require (cu_synchronize cu) free 8 in
    let^ _ := write_raw (fun r => r <| rw_kernel_launches := 1 |> <| rw_ran_kernel := 1 |>) in
    run_ret data
  else run_ret data.

(** The words that differ from the pattern. *)
Definition count_mismatches (host : Words) : Z :=
  foldl (fun mismatches index => if host index ≠? pattern index then add32 mismatches 1 else mismatches)
    0 (seqZ 0 kElements).

Definition copy_bytes : Z := kElements * 4.

(** The copy, the comparison and the end. *)
Definition verify_copy (cu : Cuda) (run_kernel : bool) (data : Words) : Probe Z :=
  let free := free_device cu in
  let^ _ := (if cu_staging cu then hold_host 1
             else let^ _ := free in report_error "host staging buffer allocation failed" 9) in
  let^ _ := require (cu_copy cu) (let^ _ := hold_host (-1) in free) 10 in
  let host := cu_transfer cu data in
  let elapsed := to_u64 (cu_elapsed cu) in
  let^ _ := write_raw (fun r => r <| rw_copy_nanos := elapsed |> <| rw_bytes_verified := copy_bytes |>
    <| rw_bytes_per_second := if elapsed ≟ 0 then 0 else mul64 copy_bytes 1000000000 / elapsed |>
    <| rw_ran_memory_copy := 1 |>) in
  let mismatches := if run_kernel then count_mismatches host else 0 in
  let^ _ := write_raw (fun r => r <| rw_mismatches := mismatches |>) in
  let^ _ := hold_host (-1) in
  let^ _ := free in
  let^ _ := require (cu_free cu) (run_ret tt) 11 in
  if mismatches ≠? 0 then report_error "device output did not match the expected pattern" 12
  else
    let^ _ := write_raw (fun r => r <| rw_status := 0 |>) in
    run_ret 0.

(** [itf_accel_probe_raw] for an output that is not null. *)
Definition itf_accel_probe_raw (cu : Cuda) (run_kernel : bool) : Probe Z :=
  let^ _ := write_raw (fun _ => zero_raw) in
  let^ _ := query_device cu in
  let^ data := run_device cu run_kernel in
  verify_copy cu run_kernel data.

(** ** The probe *)

Record AcceleratorProbe := MkProbe {
  ap_label : CapabilityLabel.t;
  ap_supported_at_build : bool;
  ap_ran_kernel : bool;
  ap_ran_memory_copy : bool;
  ap_device_name : string;
  ap_driver_version : string;
  ap_toolchain : string;
  ap_unavailable_reason : string;
  ap_compute_capability_major : Z;
  ap_compute_capability_minor : Z;
  ap_device_memory_bytes : Z;
  ap_device_generation : Z;
  ap_bytes_verified : Z;
  ap_copy_nanos : Z;
  ap_bytes_per_second : Z;
  ap_kernel_launches : Z;
  ap_mismatches : Z;
  ap_device_uuid : string;
}.

(** [probe] of the build with a back end: the failure's text is left out. *)
Definition probe_cuda (cu : Cuda) (run_kernel : bool) : Result AcceleratorProbe :=
  let '(result, s) := itf_accel_probe_raw cu run_kernel new_probing in
  let status := match result with inl code | inr code => code end in
  let raw := pb_raw s in
  if status ≠? 0 then Failure StatusCode.Unsupported
  else Success (MkProbe CapabilityLabel.Real true (rw_ran_kernel raw ≠? 0) (rw_ran_memory_copy raw ≠? 0)
    (rw_device_name raw) (rw_driver_version raw) "cuda" "" (rw_compute_major raw) (rw_compute_minor raw)
    (rw_device_memory_bytes raw) (rw_generation raw) (rw_bytes_verified raw) (rw_copy_nanos raw)
    (rw_bytes_per_second raw) (rw_kernel_launches raw) (rw_mismatches raw) (rw_device_uuid raw)).

(** The build without one. *)
Definition probe_stub (run_kernel : bool) : Result AcceleratorProbe := Failure StatusCode.Unsupported.

(** Which of the two is linked. *)
Definition supported_at_build (backend : option Cuda) : bool := match backend with Some _ => true | None => false end.
Definition probe (backend : option Cuda) (run_kernel : bool) : Result AcceleratorProbe :=
  match backend with Some cu => probe_cuda cu run_kernel | None => probe_stub run_kernel end.

Definition quoted (name value : string) : list string :=
  if String.eqb value "" then [] else [name; String "034" ""; value; String "034" ""].

Definition probe_text (p : AcceleratorProbe) : string :=
  text_of (["label="; CapabilityLabel.to_string (ap_label p);
            " supported_at_build="; flag (ap_supported_at_build p);
            " ran_kernel="; flag (ap_ran_kernel p); " ran_memory_copy="; flag (ap_ran_memory_copy p)]
    ++ quoted " device=" (ap_device_name p)
    ++ (if (ap_compute_capability_major p ≠? 0) || (ap_compute_capability_minor p ≠? 0)
        then [" compute_capability="; signed_number (ap_compute_capability_major p); ".";
              signed_number (ap_compute_capability_minor p)] else [])
    ++ (if ap_device_memory_bytes p ≠? 0 then [" device_memory_bytes="; number (ap_device_memory_bytes p)] else [])
    ++ (if ap_device_generation p ≠? 0 then [" device_generation="; number (ap_device_generation p)] else [])
    ++ (if ap_bytes_verified p ≠? 0
        then [" bytes_verified="; number (ap_bytes_verified p); " copy_nanos="; number (ap_copy_nanos p);
              " bytes_per_second="; number (ap_bytes_per_second p)] else [])
    ++ (if ap_kernel_launches p ≠? 0
        then [" kernel_launches="; number (ap_kernel_launches p); " mismatches="; number (ap_mismatches p)] else [])
    ++ quoted " driver=" (ap_driver_version p)
    ++ quoted " toolchain=" (ap_toolchain p)
    ++ (if String.eqb (ap_device_uuid p) "" then [] else [" device_uuid="; ap_device_uuid p])
    ++ quoted " unavailable_reason=" (ap_unavailable_reason p)).

(** ** The grid covers the buffer *)

Lemma grid_index block thread :
  (block, thread) ∈ grid ↔ 0 ≤ block < blocks ∧ 0 ≤ thread < kThreads.
Proof.
  unfold grid. rewrite list_elem_of_bind. split.
  - intros (b&(t&[= -> ->]&Ht)%list_elem_of_fmap&Hb). apply elem_of_seqZ in Ht, Hb. lia.
  - intros [Hb Ht]. exists block. split; [apply list_elem_of_fmap; exists thread; split; [done|]|];
      apply elem_of_seqZ; lia.
Qed.

Lemma thread_index block thread :
  0 ≤ block < blocks → 0 ≤ thread < kThreads → add32 (mul32 block kThreads) thread = block * kThreads + thread.
Proof.
  change blocks with 4096. change kThreads with 256. intros Hb Ht. unfold add32, mul32.
  rewrite (wrap32_id (block * 256)) by (unfold is_u32, two32; lia). apply wrap32_id. unfold is_u32, two32. lia.
Qed.

(** Every index has its thread, so that after all of them, in any order, the buffer
    holds the pattern: threads write nothing else. *)
Lemma threads_write_pattern schedule data index :
  (data index = pattern index ∨ ∃ at_, at_ ∈ schedule ∧ add32 (mul32 at_.1 kThreads) at_.2 = index) →
  0 ≤ index < kElements → foldl (pattern_kernel kElements) data schedule index = pattern index.
Proof.
  revert data. induction schedule as [|at_ schedule IH]; intros data Hd Hi; cbn [foldl].
  { destruct Hd as [Hd|(?&Hin%elem_of_nil&_)]; [exact Hd|destruct Hin]. }
  apply IH; [|done]. unfold pattern_kernel at 1. set (written := add32 _ _).
  destruct (decide (written = index)) as [Ew|Ew].
  - left. rewrite Ew, (proj2 (Z.ltb_lt _ _)) by lia. by rewrite fn_lookup_insert.
  - destruct Hd as [Hd|(x&[->|Hx]%elem_of_cons&Ex)]; [|by destruct Ew|right; by exists x].
    left. case_match; [by rewrite fn_lookup_insert_ne|done].
Qed.

Lemma grid_writes_pattern schedule data index :
  schedule ≡ₚ grid → 0 ≤ index < kElements → foldl (pattern_kernel kElements) data schedule index = pattern index.
Proof.
  intros Hs Hi. apply threads_write_pattern; [|done]. right. exists (index / kThreads, index mod kThreads).
  pose proof (Z.mod_pos_bound index kThreads ltac:(done)). pose proof (Z.div_mod index kThreads ltac:(done)).
  assert (0 ≤ index / kThreads < blocks) as Hb.
  { change blocks with 4096. change kElements with 1048576 in Hi. change kThreads with 256 in *. lia. }
  rewrite Hs. split; [by apply grid_index|]. cbn [fst snd]. rewrite thread_index by done. lia.
Qed.

(** ** The comparison is exact *)

Lemma mismatch_step host l n :
  0 ≤ n → n + Z.of_nat (length l) < two32 →
  let m := foldl (fun m index => if host index ≠? pattern index then add32 m 1 else m) n l in
  n ≤ m ≤ n + Z.of_nat (length l) ∧ (m = n ↔ Forall (fun index => host index = pattern index) l).
Proof.
  revert n. induction l as [|i l IH]; intros n Hn Hl; cbn [foldl length] in *; cbv zeta.
  { split; [lia|]. split; [intros _; apply Forall_nil_2|done]. }
  rewrite Nat2Z.inj_succ in *. case_bool_decide as E; cbn [negb].
  - destruct (IH n ltac:(lia) ltac:(lia)) as [Hb Hm]. split; [lia|]. rewrite Forall_cons, Hm. by split; [intros|intros [_ ?]].
  - assert (add32 n 1 = n + 1) as -> by (unfold add32; apply wrap32_id; unfold is_u32, two32 in *; lia).
    destruct (IH (n + 1) ltac:(lia) ltac:(lia)) as [Hb Hm]. split; [lia|]. rewrite Forall_cons.
    split; [lia|]. intros [H1 _]. done.
Qed.

Lemma count_mismatches_exact host :
  count_mismatches host = 0 ↔ ∀ index, 0 ≤ index < kElements → host index = pattern index.
Proof.
  unfold count_mismatches. assert (0 ≤ kElements < two32) as Hk by done. generalize dependent kElements.
  intros n Hn. pose proof (mismatch_step host (seqZ 0 n) 0 ltac:(done)) as Hm.
  rewrite length_seqZ, Z2Nat.id in Hm by lia. destruct (Hm ltac:(lia)) as [_ Hz].
  etransitivity; [exact Hz|]. rewrite Forall_forall. setoid_rewrite elem_of_seqZ. done.
Qed.

Arguments count_mismatches : simpl never.

(** ** The promises *)

(** A runtime that answers every call, runs each thread of the grid once, in any
    order, and copies what the device holds. *)
Record works (cu : Cuda) : Prop := {
  wk_count : cu_count cu = None;
  wk_devices : 0 < cu_devices cu;
  wk_select : cu_select cu = None;
  wk_describe : cu_describe cu = None;
  wk_malloc : cu_malloc cu = None;
  wk_memset : cu_memset cu = None;
  wk_launch : cu_launch cu = None;
  wk_synchronize : cu_synchronize cu = None;
  wk_schedule : cu_schedule cu ≡ₚ grid;
  wk_staging : cu_staging cu = true;
  wk_copy : cu_copy cu = None;
  wk_transfer : ∀ data, cu_transfer cu data = data;
  wk_free : cu_free cu = None;
}.

(** What the comparison saw. *)
Definition compared (cu : Cuda) : Words :=
  cu_transfer cu (foldl (pattern_kernel kElements) (fun _ => 0) (cu_schedule cu)).

(** No staging buffer is held, [cudaFree] has been called for the device buffer if
    there was one, and the buffer is held only if that call failed. *)
Record settled (cu : Cuda) (s : Probing) : Prop := {
  sd_host : pb_host s = 0;
  sd_allocated : 0 ≤ pb_allocated s ≤ 1;
  sd_freed : pb_freed s = pb_allocated s;
  sd_device : pb_device s = match cu_free cu with None => 0 | Some _ => pb_allocated s end;
}.

(** The device buffer is held. *)
Record holding (s : Probing) : Prop := {
  hg_host : pb_host s = 0;
  hg_allocated : pb_allocated s = 1;
  hg_freed : pb_freed s = 0;
  hg_device : pb_device s = 1;
}.

(** How a part of the probe ends: [Q] of its value, or with a code and an output
    that agree and nothing left to give back. *)
Definition ends {A} (cu : Cuda) (m : Probe A) (s : Probing) (Q : A → Probing → Prop) : Prop :=
  match m s with
  | (inl x, s) => Q x s
  | (inr code, s) => 0 < code ∧ rw_status (pb_raw s) = code ∧ settled cu s
  end.

Lemma ends_bind {A B} cu (m : Probe A) (k : A → Probe B) s Q :
  ends cu m s (fun x s => ends cu (k x) s Q) → ends cu (run_bind m k) s Q.
Proof. unfold ends, run_bind. destruct (m s) as [[x|code] s']; done. Qed.

Lemma ends_ret {A} cu (x : A) s (Q : A → Probing → Prop) : Q x s → ends cu (run_ret x) s Q.
Proof. done. Qed.

Lemma ends_report {A} cu message status s (Q : A → Probing → Prop) :
  0 < status → settled cu s → ends cu (report_error message status) s Q.
Proof. intros Hs []. split; [done|]. split; [done|]. by split. Qed.

Lemma ends_require cu answer cleanup status s (Q : unit → Probing → Prop) :
  0 < status → (answer = None → Q tt s) →
  (answer ≠ None → ends cu cleanup s (fun _ s => settled cu s)) → ends cu (require answer cleanup status) s Q.
Proof.
  intros Hs Hq Hc. destruct answer as [message|]; [|by apply Hq]. apply ends_bind. specialize (Hc ltac:(done)). revert Hc.
  unfold ends. destruct (cleanup s) as [[[]|code] s']; [|done]. intros []. split; [done|]. split; [done|]. by split.
Qed.

Lemma ends_same {A} cu (m : Probe A) s (Q Q' : A → Probing → Prop) :
  ends cu m s Q → (∀ x s, Q x s → Q' x s) → ends cu m s Q'.
Proof. unfold ends. destruct (m s) as [[x|code] s']; [|done]. intros H Hq. by apply Hq. Qed.

Lemma ends_host cu n s (Q : unit → Probing → Prop) :
  Q tt (s <| pb_host := pb_host s + n |>) → ends cu (hold_host n) s Q.
Proof. done. Qed.

Lemma ends_write cu f s (Q : unit → Probing → Prop) : Q tt (s <| pb_raw := f (pb_raw s) |>) → ends cu (write_raw f) s Q.
Proof. done. Qed.

(** Giving back the buffer that is held. *)
Lemma ends_free cu s (Q : unit → Probing → Prop) :
  holding s → (∀ s', settled cu s' → pb_raw s' = pb_raw s → Q tt s') → ends cu (free_device cu) s Q.
Proof.
  intros [Hh Ha Hf Hd] HQ. unfold ends, free_device. apply HQ; [|done].
  split; cbn; [done|lia|lia|destruct (cu_free cu); lia].
Qed.

(** The state before anything is allocated. *)
Record idle (s : Probing) : Prop := {
  id_host : pb_host s = 0;
  id_allocated : pb_allocated s = 0;
  id_freed : pb_freed s = 0;
  id_device : pb_device s = 0;
}.

Lemma idle_settled cu s : idle s → settled cu s.
Proof. intros [H1 H2 H3 H4]. split; [done|lia|lia|]. rewrite H2, H4. by destruct (cu_free cu). Qed.

Lemma query_device_ends cu s :
  idle s →
  ends cu (query_device cu) s (fun _ s' => idle s' ∧ rw_ran_kernel (pb_raw s') = rw_ran_kernel (pb_raw s)
    ∧ rw_generation (pb_raw s') = device_generation (cu_properties cu)).
Proof.
  intros Hi. pose proof (idle_settled cu s Hi) as Hs.
  unfold query_device. apply ends_bind, ends_require; [done|intros _|intros _; by apply ends_ret].
  apply ends_bind. case_match; [by apply ends_report|]. apply ends_ret.
  apply ends_bind, ends_require; [done|intros _|intros _; by apply ends_ret].
  apply ends_bind, ends_require; [done|intros _|intros _; by apply ends_ret].
  apply ends_write. split; [by destruct Hi|done].
Qed.

(** The output of a probe that has run the kernel if it was asked to. *)
Definition output_so_far (cu : Cuda) (run_kernel : bool) (r : Raw) : Prop :=
  rw_ran_kernel r = (if run_kernel then 1 else 0) ∧ rw_generation r = device_generation (cu_properties cu).

Lemma run_device_ends cu run_kernel s :
  idle s → output_so_far cu false (pb_raw s) →
  ends cu (run_device cu run_kernel) s (fun data s' => holding s'
    ∧ output_so_far cu run_kernel (pb_raw s') ∧ (run_kernel = true → cu_transfer cu data = compared cu)).
Proof.
  intros Hi [Hk Hg]. unfold run_device.
  apply ends_bind, ends_require; [done|intros _|intros _; by apply ends_ret, idle_settled].
  apply ends_bind. unfold hold_device at 1, ends at 1.
  set (s1 := s <| pb_device := _ |> <| pb_allocated := _ |>).
  assert (holding s1) as Hold by (destruct Hi; split; cbn; lia).
  assert (pb_raw s1 = pb_raw s) as Hr1 by done. clearbody s1.
  assert (ends cu (free_device cu) s1 (fun _ s => settled cu s)) as Hfree by (by apply ends_free).
  apply ends_bind, ends_require; [done|intros _|done].
  destruct run_kernel; [|apply ends_ret; split_and!; [done|by rewrite Hr1|done]].
  apply ends_bind, ends_require; [done|intros _|done].
  apply ends_bind, ends_require; [done|intros _|done]. apply ends_bind, ends_write, ends_ret.
  split_and!; [by destruct Hold|cbn; by rewrite Hr1|done].
Qed.

(** What a successful probe reports. *)
Record verified_output (cu : Cuda) (run_kernel : bool) (r : Raw) : Prop := {
  vo_status : rw_status r = 0;
  vo_so_far : output_so_far cu run_kernel r;
  vo_copy : rw_ran_memory_copy r = 1;
  vo_bytes : rw_bytes_verified r = copy_bytes;
  vo_mismatches : rw_mismatches r = 0;
  vo_pattern : run_kernel = true → ∀ index, 0 ≤ index < kElements → compared cu index = pattern index;
}.

Lemma verify_copy_ends cu run_kernel data s :
  holding s → output_so_far cu run_kernel (pb_raw s) →
  (run_kernel = true → cu_transfer cu data = compared cu) →
  ends cu (verify_copy cu run_kernel data) s (fun code s' => code = 0 ∧ settled cu s' ∧ cu_free cu = None
    ∧ verified_output cu run_kernel (pb_raw s')).
Proof.
  intros Hold Ho Hc. unfold verify_copy. apply ends_bind. destruct (cu_staging cu).
  2:{ apply ends_bind, ends_free; [done|]. intros s' Hs' _. by apply ends_report. }
  apply ends_host, ends_bind, ends_require; [done|intros _|intros _].
  2:{ apply ends_bind, ends_host, ends_free; [|done]. destruct Hold; split; cbn; lia. }
  apply ends_bind, ends_write, ends_bind, ends_write. set (mismatches := if run_kernel then _ else 0).
  assert (mismatches = 0 → run_kernel = true → ∀ index, 0 ≤ index < kElements → compared cu index = pattern index) as Hp.
  { intros Hm ->. subst mismatches. rewrite <- Hc by done. by apply count_mismatches_exact. }
  clearbody mismatches. apply ends_bind, ends_host, ends_bind, ends_free; [destruct Hold; split; cbn; lia|].
  intros s' Hs' Hr'. apply ends_bind, ends_require; [done|intros Hnone|intros _; by apply ends_ret].
  destruct (bool_decide_reflect (mismatches = 0)) as [Em|Em]; cbn [negb]; [|by apply ends_report].
  apply ends_bind, ends_write, ends_ret. cbn. rewrite Hr'. cbn.
  split_and!; [done|by destruct Hs'|done|]. split; cbn; [done|exact Ho|done|done|done|by apply Hp].
Qed.

(** C38: The accelerator probe is honest: whatever the device runtime answers, and on
    every path, the status in its output is the code it returns, its staging buffer has
    been freed, and cudaFree has been called exactly once if it allocated a device
    buffer and never otherwise, so that no device buffer is held unless the runtime
    refused to take it back. When it returns zero the device buffer has been taken back,
    the copy ran and its size is reported, the output says whether the kernel ran and
    names the generation derived from the device, and, if the kernel ran, every one of
    the words that came back is the one the pattern has there; without the kernel
    nothing was compared. *)
Theorem accelerator_probe_is_honest cu run_kernel :
  let '(result, s) := itf_accel_probe_raw cu run_kernel new_probing in
  let code := match result with inl code | inr code => code end in
  rw_status (pb_raw s) = code ∧ pb_host s = 0 ∧ pb_allocated s ≤ 1 ∧ pb_freed s = pb_allocated s
  ∧ (cu_free cu = None → pb_device s = 0)
  ∧ (code = 0 → pb_device s = 0 ∧ verified_output cu run_kernel (pb_raw s)).
Proof.
  assert (ends cu (itf_accel_probe_raw cu run_kernel) new_probing (fun code s => code = 0 ∧ settled cu s
    ∧ cu_free cu = None ∧ verified_output cu run_kernel (pb_raw s))) as He.
  { unfold itf_accel_probe_raw. apply ends_bind, ends_write, ends_bind.
    eapply ends_same; [by apply query_device_ends|]. intros _ s (Hi&Hk&Hg). apply ends_bind.
    eapply ends_same; [by apply run_device_ends|]. intros data s' (Hd'&Ho&Hc). by apply verify_copy_ends. }
  revert He. unfold ends. destruct (itf_accel_probe_raw cu run_kernel _) as [[code|code] s].
  - intros (->&[Hh Ha Hf Hd]&Hn&Ho). rewrite Hn in Hd. split_and!; [apply Ho|done|lia|done|done|done].
  - intros (Hc&Hs&[Hh Ha Hf Hd]). split_and!; [done|done|lia|done|intros Hn; by rewrite Hn in Hd|lia].
Qed.

(** ** A working device *)

(** A part of the probe that does not leave it. *)
Definition passes {A} (m : Probe A) (s : Probing) (Q : A → Probing → Prop) : Prop :=
  match m s with (inl x, s) => Q x s | (inr _, _) => False end.

Lemma passes_bind {A B} (m : Probe A) (k : A → Probe B) s Q :
  passes m s (fun x s => passes (k x) s Q) → passes (run_bind m k) s Q.
Proof. unfold passes, run_bind. destruct (m s) as [[x|code] s']; done. Qed.

Lemma passes_same {A} (m : Probe A) s (Q Q' : A → Probing → Prop) :
  passes m s Q → (∀ x s, Q x s → Q' x s) → passes m s Q'.
Proof. unfold passes. destruct (m s) as [[x|code] s']; [|done]. intros H Hq. by apply Hq. Qed.

(** A step that always goes on. *)
Lemma passes_step {A} (m : Probe A) s x s' (Q : A → Probing → Prop) : m s = (inl x, s') → Q x s' → passes m s Q.
Proof. intros E H. unfold passes. by rewrite E. Qed.

Ltac pass :=
  lazymatch goal with
  | |- passes (run_bind _ _) _ _ => apply passes_bind
  | |- passes (require None _ _) _ _ => eapply passes_step; [reflexivity|]
  | |- passes (run_ret _) _ _ => eapply passes_step; [reflexivity|]
  | |- passes (write_raw _) _ _ => eapply passes_step; [reflexivity|]
  | |- passes hold_device _ _ => eapply passes_step; [reflexivity|]
  | |- passes (free_device _) _ _ => eapply passes_step; [reflexivity|]
  | |- passes (hold_host _) _ _ => eapply passes_step; [reflexivity|]
  end.

Lemma query_device_passes cu s :
  works cu → passes (query_device cu) s (fun _ s' => rw_ran_kernel (pb_raw s') = rw_ran_kernel (pb_raw s)).
Proof.
  intros []. unfold query_device. rewrite wk_count0, wk_select0, wk_describe0, (proj2 (Z.leb_gt _ _) wk_devices0).
  by repeat pass.
Qed.

Lemma run_device_passes cu run_kernel s :
  works cu → rw_ran_kernel (pb_raw s) = 0 →
  passes (run_device cu run_kernel) s (fun data s' => rw_ran_kernel (pb_raw s') = (if run_kernel then 1 else 0)
    ∧ (run_kernel = true → count_mismatches (cu_transfer cu data) = 0)).
Proof.
  intros [] Hr. unfold run_device. rewrite wk_malloc0, wk_memset0, wk_launch0, wk_synchronize0. cbv zeta.
  repeat pass. destruct run_kernel; repeat pass; [|split; [exact Hr|discriminate]].
  split; [reflexivity|]. intros _. apply count_mismatches_exact. intros index Hi. rewrite wk_transfer0. by apply grid_writes_pattern.
Qed.

Lemma verify_copy_passes cu run_kernel data s :
  works cu → (run_kernel = true → count_mismatches (cu_transfer cu data) = 0) →
  passes (verify_copy cu run_kernel data) s (fun code s' => code = 0 ∧ rw_ran_kernel (pb_raw s') = rw_ran_kernel (pb_raw s)
    ∧ rw_mismatches (pb_raw s') = 0 ∧ rw_bytes_verified (pb_raw s') = copy_bytes
    ∧ (to_u64 (cu_elapsed cu) ≠ 0 →
       rw_bytes_per_second (pb_raw s') = mul64 copy_bytes 1000000000 / to_u64 (cu_elapsed cu))).
Proof.
  intros [] Hm. unfold verify_copy. rewrite wk_staging0, wk_copy0. cbv zeta.
  assert ((if run_kernel then count_mismatches (cu_transfer cu data) else 0) = 0) as -> by (destruct run_kernel; auto).
  rewrite wk_free0. change (bool_decide (0 = 0)) with true. cbn [negb]. repeat pass.
  do 4 (split; [reflexivity|]). intros He.
  transitivity (if to_u64 (cu_elapsed cu) ≟ 0 then 0 else mul64 copy_bytes 1000000000 / to_u64 (cu_elapsed cu)); [reflexivity|].
  by rewrite bool_decide_false.
Qed.

(** C39: A working device passes the probe: when every call of the runtime succeeds,
    each thread of the grid runs exactly once, in whatever order, and the copy brings
    what the device holds, the probe of a build with the back end reports a real device,
    says whether the kernel ran, counts no mismatch among the words of the pattern,
    reports all four mebibytes as copied and, for an elapsed time between 1 and 2^63 - 1
    nanoseconds, a rate that did not overflow. *)
Theorem working_device_is_real cu run_kernel :
  works cu →
  ∃ p, probe (Some cu) run_kernel = Success p ∧ ap_label p = CapabilityLabel.Real ∧ ap_ran_kernel p = run_kernel
    ∧ ap_mismatches p = 0 ∧ ap_bytes_verified p = 4194304
    ∧ (0 < cu_elapsed cu < 2 ^ 63 → ap_bytes_per_second p = 4194304 * 1000000000 / cu_elapsed cu).
Proof.
  intros Hw. cbn [probe]. unfold probe_cuda.
  assert (passes (itf_accel_probe_raw cu run_kernel) new_probing (fun code s => code = 0
    ∧ rw_ran_kernel (pb_raw s) = (if run_kernel then 1 else 0) ∧ rw_mismatches (pb_raw s) = 0
    ∧ rw_bytes_verified (pb_raw s) = copy_bytes
    ∧ (to_u64 (cu_elapsed cu) ≠ 0 →
       rw_bytes_per_second (pb_raw s) = mul64 copy_bytes 1000000000 / to_u64 (cu_elapsed cu)))) as Hp.
  { unfold itf_accel_probe_raw. pass. pass. pass.
    eapply passes_same; [by apply query_device_passes|]. intros [] s1 H1. pass.
    eapply passes_same; [by apply run_device_passes|]. intros data s2 [H2 Hm].
    eapply passes_same; [by apply verify_copy_passes|]. intros code s3 (Hc&H3&H4).
    split; [exact Hc|]. split; [|exact H4]. etransitivity; [exact H3|exact H2]. }
  revert Hp. unfold passes. destruct (itf_accel_probe_raw cu run_kernel new_probing) as [[code|code] s]; [|done].
  intros (->&Hk&Hm&Hb&Hr). eexists. split; [reflexivity|].
  cbn [ap_label ap_ran_kernel ap_mismatches ap_bytes_verified ap_bytes_per_second].
  split_and!; [done|rewrite Hk; by destruct run_kernel|done|done|]. intros He.
  assert (to_u64 (cu_elapsed cu) = cu_elapsed cu) as E by (apply wrap64_id; unfold is_u64, two64; lia).
  rewrite Hr; rewrite E; [done|lia].
Qed.
