(* ===== verification/Simulator.v ===== *)
(** * The serving simulator

    Models tools/itf_sim.cpp: the options, the receiver of a transfer (the role
    [decode], a [MessageHandler] of its own) and its sender (the role [prefill],
    which drives a coordinator and a receiver through two clients). Sockets are
    given as the streams they open, the random words as [draws], and the text of a
    status as [describe]; the result and the progress file are the texts last
    written to them. *)

From S2P Require Import Prelude Ids Traffic Decision Policy Bytes Crc Codec Wire Ledger Coordinator Flows CoordAudit.
From S2P Require Import CodecProps PolicyCodec Format Serialize Messages Net Session Service Client Tools.
From Stdlib Require Import String Ascii.
#[local] Open Scope Z_scope.
Import Datatypes.

(** ** Exit codes *)

Definition kExitOk : Z := 0.
Definition kExitUsage : Z := 2.
Definition kExitTransferFailed : Z := 3.
Definition kExitCoordinator : Z := 4.

(** ** Options *)

Record Options := MkOptions {
  op_coordinator_host : string;
  op_coordinator_port : Z;
  op_token : string;
  op_name : string;
  op_data_port : Z;
  op_peer_port : Z;
  op_bytes : Z;
  op_chunks : Z;
  op_chunk_dwell_ms : Z;
  op_wait_ms : Z;
  op_request_hex : string;
  op_attempt_hex : string;
  op_transfer_hex : string;
  op_model_hash : Z;
  op_state_hash : Z;
  op_stop_after : string;
  op_result_file : string;
  op_progress_file : string;
  op_init_generations : bool;
  op_publish_topology : bool;
  op_register_request : bool;
  op_verbose : bool;
}.

#[export] Instance op_eta : Eta Options := fun r =>
  MkOptions (op_coordinator_host r) (op_coordinator_port r) (op_token r) (op_name r) (op_data_port r)
    (op_peer_port r) (op_bytes r) (op_chunks r) (op_chunk_dwell_ms r) (op_wait_ms r) (op_request_hex r)
    (op_attempt_hex r) (op_transfer_hex r) (op_model_hash r) (op_state_hash r) (op_stop_after r)
    (op_result_file r) (op_progress_file r) (op_init_generations r) (op_publish_topology r)
    (op_register_request r) (op_verbose r).
#[export] Instance op_set_host : Setter op_coordinator_host. Proof. mk_setter. Defined.
#[export] Instance op_set_port : Setter op_coordinator_port. Proof. mk_setter. Defined.
#[export] Instance op_set_token : Setter op_token. Proof. mk_setter. Defined.
#[export] Instance op_set_name : Setter op_name. Proof. mk_setter. Defined.
#[export] Instance op_set_data_port : Setter op_data_port. Proof. mk_setter. Defined.
#[export] Instance op_set_peer_port : Setter op_peer_port. Proof. mk_setter. Defined.
#[export] Instance op_set_bytes : Setter op_bytes. Proof. mk_setter. Defined.
#[export] Instance op_set_chunks : Setter op_chunks. Proof. mk_setter. Defined.
#[export] Instance op_set_dwell : Setter op_chunk_dwell_ms. Proof. mk_setter. Defined.
#[export] Instance op_set_wait : Setter op_wait_ms. Proof. mk_setter. Defined.
#[export] Instance op_set_request : Setter op_request_hex. Proof. mk_setter. Defined.
#[export] Instance op_set_attempt : Setter op_attempt_hex. Proof. mk_setter. Defined.
#[export] Instance op_set_transfer : Setter op_transfer_hex. Proof. mk_setter. Defined.
#[export] Instance op_set_model : Setter op_model_hash. Proof. mk_setter. Defined.
#[export] Instance op_set_state : Setter op_state_hash. Proof. mk_setter. Defined.
#[export] Instance op_set_stop_after : Setter op_stop_after. Proof. mk_setter. Defined.
#[export] Instance op_set_result_file : Setter op_result_file. Proof. mk_setter. Defined.
#[export] Instance op_set_progress_file : Setter op_progress_file. Proof. mk_setter. Defined.
#[export] Instance op_set_init : Setter op_init_generations. Proof. mk_setter. Defined.
#[export] Instance op_set_topology : Setter op_publish_topology. Proof. mk_setter. Defined.
#[export] Instance op_set_register : Setter op_register_request. Proof. mk_setter. Defined.
#[export] Instance op_set_verbose : Setter op_verbose. Proof. mk_setter. Defined.

Definition default_options : Options :=
  MkOptions "127.0.0.1" 7777 "" "sim" 0 0 (2 ^ 20) 16 0 10000 "" "" ""
    0x1111222233334444 0x5555666677778888 "" "" "" false false false false.

(** The options that take a value: [None] when the flag is none of them, [Some
    None] when its value is refused. *)
Definition set_valued (flag value : string) (o : Options) : option (option Options) :=
  let numeric accepts (store : Z → Options) := Some (store <$> parse_number value accepts) in
  if String.eqb flag "--coordinator" then
    Some (match split_last_colon (list_ascii_of_string value) with
          | None => None
          | Some (host, port) =>
              (fun n => o <| op_coordinator_host := string_of_list_ascii host |>
                          <| op_coordinator_port := n |>) <$>
                parse_number (string_of_list_ascii port) is_port
          end)
  else if String.eqb flag "--token" then Some (Some (o <| op_token := value |>))
  else if String.eqb flag "--name" then Some (Some (o <| op_name := value |>))
  else if String.eqb flag "--data-port" then numeric is_port (fun n => o <| op_data_port := n |>)
  else if String.eqb flag "--peer-port" then numeric is_port (fun n => o <| op_peer_port := n |>)
  else if String.eqb flag "--bytes" then numeric is_positive (fun n => o <| op_bytes := n |>)
  else if String.eqb flag "--chunks" then numeric is_chunk_count (fun n => o <| op_chunks := n |>)
  else if String.eqb flag "--chunk-dwell-ms" then numeric any_number (fun n => o <| op_chunk_dwell_ms := n |>)
  else if String.eqb flag "--wait-ms" then numeric is_positive (fun n => o <| op_wait_ms := n |>)
  else if String.eqb flag "--request" then Some (Some (o <| op_request_hex := value |>))
  else if String.eqb flag "--attempt" then Some (Some (o <| op_attempt_hex := value |>))
  else if String.eqb flag "--transfer" then Some (Some (o <| op_transfer_hex := value |>))
  else if String.eqb flag "--model-hash" then numeric any_number (fun n => o <| op_model_hash := n |>)
  else if String.eqb flag "--state-hash" then numeric any_number (fun n => o <| op_state_hash := n |>)
  else if String.eqb flag "--stop-after" then Some (Some (o <| op_stop_after := value |>))
  else if String.eqb flag "--result-file" then Some (Some (o <| op_result_file := value |>))
  else if String.eqb flag "--progress-file" then Some (Some (o <| op_progress_file := value |>))
  else None.

Definition set_switch (flag : string) (o : Options) : option Options :=
  if String.eqb flag "--register-request" then Some (o <| op_register_request := true |>)
  else if String.eqb flag "--init-generations" then Some (o <| op_init_generations := true |>)
  else if String.eqb flag "--publish-topology" then Some (o <| op_publish_topology := true |>)
  else if String.eqb flag "--verbose" then Some (o <| op_verbose := true |>)
  else None.

(** The loop of [parse_options], over the arguments after the role: the options,
    or that they are refused, or that the lambda [next] ended the process. *)
Inductive Parsed : Type :=
| Accepted (options : Options)
| Declined
| MissingValue.

Fixpoint parse_options (arguments : list string) (o : Options) : Parsed :=
  match arguments with
  | [] => Accepted o
  | flag :: rest =>
      match set_switch flag o with
      | Some o => parse_options rest o
      | None =>
          match rest with
          | [] => match set_valued flag "" o with Some _ => MissingValue | None => Declined end
          | value :: rest =>
              match set_valued flag value o with
              | None | Some None => Declined
              | Some (Some o) => parse_options rest o
              end
          end
      end
  end.

(** ** The receiver *)

Record DataPlaneHandler := MkDataPlane {
  dp_expected : StateTransferId;
  (** The state of the member [crc_]. *)
  dp_crc : Z;
  dp_received_bytes : Z;
  dp_expected_bytes : Z;
  dp_received_chunks : Z;
  dp_expected_chunks : Z;
  dp_content_crc : Z;
  dp_complete : bool;
  dp_verified : bool;
  dp_failed : bool;
  dp_reason : string;
}.

#[export] Instance dp_eta : Eta DataPlaneHandler := fun r =>
  MkDataPlane (dp_expected r) (dp_crc r) (dp_received_bytes r) (dp_expected_bytes r) (dp_received_chunks r)
    (dp_expected_chunks r) (dp_content_crc r) (dp_complete r) (dp_verified r) (dp_failed r) (dp_reason r).
#[export] Instance dp_set_crc : Setter dp_crc. Proof. mk_setter. Defined.
#[export] Instance dp_set_received_bytes : Setter dp_received_bytes. Proof. mk_setter. Defined.
#[export] Instance dp_set_expected_bytes : Setter dp_expected_bytes. Proof. mk_setter. Defined.
#[export] Instance dp_set_received_chunks : Setter dp_received_chunks. Proof. mk_setter. Defined.
#[export] Instance dp_set_expected_chunks : Setter dp_expected_chunks. Proof. mk_setter. Defined.
#[export] Instance dp_set_content_crc : Setter dp_content_crc. Proof. mk_setter. Defined.
#[export] Instance dp_set_complete : Setter dp_complete. Proof. mk_setter. Defined.
#[export] Instance dp_set_verified : Setter dp_verified. Proof. mk_setter. Defined.
#[export] Instance dp_set_failed : Setter dp_failed. Proof. mk_setter. Defined.
#[export] Instance dp_set_reason : Setter dp_reason. Proof. mk_setter. Defined.

Definition new_data_plane (expected : StateTransferId) : DataPlaneHandler :=
  MkDataPlane expected crc_init 0 0 0 0 0 false false false "".

(** [failed_] and [reason_], as [fail_with] and the refusals set them. *)
Definition fail_with (reason : string) (h : DataPlaneHandler) : DataPlaneHandler :=
  h <| dp_failed := true |> <| dp_reason := reason |>.

Definition data_ack (chunk_index : Z) (code : StatusCode.t) (h : DataPlaneHandler) : Result (list Z) :=
  build_body (encode_data_ack (MkDataAck (dp_expected h) chunk_index (dp_received_bytes h) code)).

(** The part of [handle_chunk] under the lock. *)
Definition take_chunk (chunk : DataChunkMessage) (h : DataPlaneHandler) : Status * DataPlaneHandler :=
  if dp_complete h then (Failure StatusCode.Conflict, h)
  else if dc_transfer chunk ≠? dp_expected h then
    (Failure StatusCode.NotAuthorized, fail_with "chunk belongs to a different transfer" h)
  else if dc_chunk_index chunk ≠? dp_received_chunks h then
    (Failure StatusCode.MalformedInput, fail_with "chunks arrived out of order" h)
  else
    let h := h <| dp_crc := update (dp_crc h) (dc_data chunk) |>
               <| dp_received_bytes := add64 (dp_received_bytes h) (len (dc_data chunk)) |>
               <| dp_expected_bytes := dc_total_bytes chunk |>
               <| dp_expected_chunks := dc_total_chunks chunk |>
               <| dp_received_chunks := add32 (dp_received_chunks h) 1 |> in
    (Success tt, h <| dp_content_crc := crc_value (dp_crc h) |>).

Definition handle_chunk (payload : list Z) (h : DataPlaneHandler) : Result (list Z) * DataPlaneHandler :=
  match decode_body payload decode_data_chunk with
  | Failure e => (Failure e, h)
  | Success chunk =>
      match take_chunk chunk h with
      | (Failure e, h) => (Failure e, h)
      | (Success _, h) => (data_ack (dc_chunk_index chunk) StatusCode.Ok h, h)
      end
  end.

(** The part of [handle_complete] under the lock: the verdict. *)
Definition conclude (m : DataCompleteMessage) (h : DataPlaneHandler) : StatusCode.t * DataPlaneHandler :=
  let h := h <| dp_content_crc := crc_value (dp_crc h) |> in
  let unverified reason := h <| dp_verified := false |> <| dp_reason := reason |> in
  let '(verdict, h) :=
    if dd_transfer m ≠? dp_expected h then
      (StatusCode.NotAuthorized, unverified "completion names a different transfer"%string)
    else if dp_received_bytes h ≠? dd_total_bytes m then
      (StatusCode.IntegrityMismatch, unverified "received byte count does not match the declared total"%string)
    else if dp_received_chunks h ≠? dd_total_chunks m then
      (StatusCode.IntegrityMismatch, unverified "received chunk count does not match the declared total"%string)
    else if dp_content_crc h ≠? dd_content_crc32c m then
      (StatusCode.IntegrityMismatch, unverified "content checksum does not match"%string)
    else (StatusCode.Ok, h <| dp_verified := true |> <| dp_reason := ""%string |>) in
  (verdict, h <| dp_complete := true |>).

Definition handle_complete (payload : list Z) (h : DataPlaneHandler) : Result (list Z) * DataPlaneHandler :=
  match decode_body payload decode_data_complete with
  | Failure e => (Failure e, h)
  | Success m => let '(verdict, h) := conclude m h in (data_ack (dd_total_chunks m) verdict h, h)
  end.

Definition data_plane_handle (type : Z) (payload : list Z) (h : DataPlaneHandler)
    : Result (list Z) * DataPlaneHandler :=
  if type ≟ MessageType.DataChunk then handle_chunk payload h
  else if type ≟ MessageType.DataComplete then handle_complete payload h
  else (Failure StatusCode.Unsupported, h).

Definition data_plane_closed (h : DataPlaneHandler) : DataPlaneHandler :=
  if negb (dp_complete h) && negb (dp_failed h)
  then fail_with "the data connection closed before the transfer completed" h else h.

#[export] Instance data_plane_handler : MessageHandler DataPlaneHandler := {
  handle _ type payload h := data_plane_handle type payload h;
  describe_authority _ response := response;
  on_session_closed _ h := data_plane_closed h;
}.

(** What [wait_for_outcome] waits for. *)
Definition has_outcome (h : DataPlaneHandler) : bool := dp_complete h || dp_failed h.

(** *** The role [decode] *)

Definition kDefaultTransfer : StateTransferId := MkId 0x1111111122222222 0x3333333344444444.

(** The identity an option names; the default when it is empty. *)
Definition transfer_of (hex : string) : option StateTransferId :=
  if String.eqb hex "" then Some kDefaultTransfer else id_parse (list_ascii_of_string hex).

(** The text of [write_result] and the exit code after the server has stopped. *)
Definition decode_outcome (observed : bool) (h : DataPlaneHandler) : string * Z :=
  if negb observed then ("status=incomplete reason=no transfer arrived"%string, kExitTransferFailed)
  else if negb (dp_complete h) || negb (dp_verified h) then
    (("status=incomplete bytes=" ++ number (dp_received_bytes h) ++ " chunks=" ++ number (dp_received_chunks h)
      ++ " reason=" ++ (if String.eqb (dp_reason h) "" then "transfer did not verify" else dp_reason h))%string,
     kExitTransferFailed)
  else
    (("status=ok bytes=" ++ number (dp_received_bytes h) ++ " chunks=" ++ number (dp_received_chunks h)
      ++ " crc=" ++ number (dp_content_crc h))%string, kExitOk).

(** [server_config] of [run_decode]; the members it leaves out keep their defaults. *)
Definition data_server_config (o : Options) : ServerConfig :=
  MkServerConfig 4 (256 * 1024) 30000000000 1000000000 (text (op_token o)) true.

(** [run_decode]: [served] is what the data server, given its configuration and
    the handler, answers to [start], whether an outcome was seen in time, and the
    handler when it has stopped. *)
Definition run_decode (o : Options) (served : ServerConfig → DataPlaneHandler → Status * bool * DataPlaneHandler)
    : option string * Z :=
  if String.eqb (op_token o) "" then (None, kExitUsage)
  else match transfer_of (op_transfer_hex o) with
  | None => (None, kExitUsage)
  | Some expected =>
      let '(started, observed, h) := served (data_server_config o) (new_data_plane expected) in
      if negb (ok started) then (None, kExitCoordinator)
      else
        let '(line, code) := decode_outcome observed h in
        (if String.eqb (op_result_file o) "" then None else Some line, code)
  end.

(** ** The sender *)

(** The process of the role [prefill] once it has reached the coordinator. *)
Record Worker := MkWorker {
  wk_client : Client;
  wk_result : option string;
  wk_progress : option string;
}.

#[export] Instance wk_eta : Eta Worker := fun r => MkWorker (wk_client r) (wk_result r) (wk_progress r).
#[export] Instance wk_set_client : Setter wk_client. Proof. mk_setter. Defined.
#[export] Instance wk_set_result : Setter wk_result. Proof. mk_setter. Defined.
#[export] Instance wk_set_progress : Setter wk_progress. Proof. mk_setter. Defined.

#[local] Abbreviation Run := (Run Worker).

(** A call of the coordinator's client: with its result ignored, or the process
    leaves when it fails. *)
Definition call_client {A} (f : Client → Result A * Client) : Run (Result A) := fun w =>
  let '(r, c) := f (wk_client w) in (inl r, w <| wk_client := c |>).
Definition ignored {A} (f : Client → Result A * Client) : Run unit :=
  let^ _ := call_client f in run_ret tt.
Definition required {A} (f : Client → Result A * Client) : Run A :=
  let^ r := call_client f in
  match r with Success x => run_ret x | Failure _ => leave kExitCoordinator end.

Definition write_result (o : Options) (line : string) : Run unit := fun w =>
  (inl tt, if String.eqb (op_result_file o) "" then w else w <| wk_result := Some line |>).

(** The lambda [reached], with the return that follows it. *)
Definition stop_at (o : Options) (phase : string) : Run unit :=
  when (negb (String.eqb (op_stop_after o) "") && String.eqb (op_stop_after o) phase) (leave kExitOk).

Definition sim_topology : TopologyEvidence :=
  MkTopology 0 EvidenceProvenance.Synthetic nil_id 0 30000000000 2 1 1 (50 * 1000 * 1000 * 1000) 0 false true.

(** *** Up to the registration of the transfer *)

Definition prepare (o : Options) (request : RequestId) (attempt : AttemptId) : Run RegisterAttemptResponse :=
  let^ _ := when (op_publish_topology o) (ignored (client_publish_topology sim_topology)) in
  let^ _ := when (op_init_generations o)
    (let^ _ := ignored (client_advance_model_generation (op_model_hash o) None false) in
     ignored (client_advance_model_generation (op_state_hash o) None false)) in
  let^ _ := when (op_register_request o)
    (let^ _ := ignored (client_register_request request 5000000000) in
     stop_at o "register-request") in
  let^ registered := required (client_register_attempt request attempt (op_model_hash o)) in
  let^ _ := stop_at o "register-attempt" in
  let^ _ := required (client_issue_route_decision request attempt 1 true (op_peer_port o ≠? 0)) in
  let^ _ := stop_at o "route" in
  let^ _ := required (client_publish_slo_contract request 5000000000 5000000000 200) in
  let^ _ := stop_at o "slo" in
  let^ _ := ignored (client_advance_stage request attempt ServingStage.Admitted_) in
  let^ _ := ignored (client_advance_stage request attempt ServingStage.PrefillQueued) in
  let^ _ := ignored (client_advance_stage request attempt ServingStage.PrefillRunning) in
  let^ _ := ignored (client_advance_stage request attempt ServingStage.HandoffPending) in
  let^ _ := stop_at o "stage" in
  run_ret registered.

Definition sim_registration (o : Options) (request : RequestId) (attempt : AttemptId)
    (transfer : StateTransferId) : TransferRegistration :=
  MkRegistration transfer (op_state_hash o) (op_model_hash o) (op_bytes o) TrafficClass.KvTransfer
    FlowDirection.Lateral IntegrityClass.ChecksumAndVerify request attempt kUnset.

Definition sim_authorization (o : Options) (transfer : StateTransferId) (hello : HelloResponse)
    (registered : RegisterTransferResponse) : TrafficRequest :=
  MkTrafficRequest (Some (MkSubject SubjectKind.Transfer nil_id nil_id 0 transfer)) TrafficClass.KvTransfer
    ServingStage.Unknown FlowDirection.Lateral PriorityHint.None (op_bytes o) 0 0 0 0 0 (op_model_hash o) 0 kUnset 0
    (MkBinding None (Some (xr_model_generation registered)) (Some (xr_state_generation registered)) None None None
       (Some (hr_policy_generation hello)) (Some (hr_epoch hello))).

Definition authorize (o : Options) (request : RequestId) (attempt : AttemptId) (transfer : StateTransferId)
    : Run unit :=
  let^ registered := required (client_register_transfer (sim_registration o request attempt transfer)) in
  let^ _ := stop_at o "register-transfer" in
  let^ authorization := (fun w =>
    required (client_authorize_transfer (sim_authorization o transfer (ct_hello (wk_client w)) registered)) w) in
  if negb (ta_authorized (td_authorization authorization)) then
    let^ _ := write_result o "status=refused" in leave kExitTransferFailed
  else stop_at o "authorize".

(** *** The stream of chunks *)

(** The bytes of a chunk. *)
Definition chunk_payload (chunk_bytes index : Z) : list Z :=
  (fun offset => Z.land (add64 (mul64 index 31) offset) 0xFF) <$> seqZ 0 chunk_bytes.

Definition chunk_message (o : Options) (transfer : StateTransferId) (chunk_bytes index : Z) : DataChunkMessage :=
  MkDataChunk transfer index (op_chunks o) (op_bytes o) (chunk_payload chunk_bytes index).

Definition body_of (encode : Writer.t → Writer.t) : list Z :=
  Writer.buffer (encode (Writer.make kMaxFramePayloadBytes)).

(** The loop over the chunks, with the state of [content_crc], [sent_bytes] and
    the data client; the process leaves when a chunk is refused. *)
Fixpoint stream_chunks (o : Options) (transfer : StateTransferId) (chunk_bytes : Z) (indices : list Z)
    (content_crc sent_bytes : Z) (data : Client) : Run (Z * Z * Client) :=
  match indices with
  | [] => run_ret (content_crc, sent_bytes, data)
  | index :: rest =>
      let content_crc := update content_crc (chunk_payload chunk_bytes index) in
      match exchange MessageType.DataChunk
              (body_of (encode_data_chunk (chunk_message o transfer chunk_bytes index))) data with
      | (Failure _, _) =>
          let^ _ := write_result o "status=peer_refused" in leave kExitTransferFailed
      | (Success _, data) =>
          let sent_bytes := add64 sent_bytes chunk_bytes in
          let^ _ := (fun w => (inl tt,
            if String.eqb (op_progress_file o) "" then w
            else w <| wk_progress := Some ("streaming chunk=" ++ number index ++ " bytes=" ++ number sent_bytes)%string |>)) in
          stream_chunks o transfer chunk_bytes rest content_crc sent_bytes data
      end
  end.

(** The chunks and the message that ends them: the bytes that were sent. *)
Definition stream (o : Options) (transfer : StateTransferId) (chunk_bytes : Z) (data : Client) : Run (Z * Client) :=
  let^ streamed := stream_chunks o transfer chunk_bytes (seqZ 0 (op_chunks o)) crc_init 0 data in
  let '(content_crc, sent_bytes, data) := streamed in
  match exchange MessageType.DataComplete
          (body_of (encode_data_complete (MkDataComplete transfer sent_bytes (op_chunks o) (crc_value content_crc))))
          data with
  | (Failure _, _) => let^ _ := write_result o "status=content_mismatch" in leave kExitTransferFailed
  | (Success _, data) => run_ret (sent_bytes, data)
  end.

(** *** After the stream *)

Definition publication_of (request : RequestId) (attempt : AttemptId) (generation sent_bytes : Z)
    : CompletionPublication :=
  MkPublication request attempt generation true ReasonCode.Unknown 0 sent_bytes.

Section prefill.
(** The text of a failure. *)
Variable describe : StatusCode.t → string.

Definition finish (o : Options) (request : RequestId) (attempt : AttemptId) (transfer : StateTransferId)
    (generation sent_bytes : Z) : Run Z :=
  let^ _ := ignored (client_advance_stage request attempt ServingStage.DecodeRunning) in
  let^ completed := call_client (exchange MessageType.TransferComplete
    (body_of (encode_transfer_complete (MkTransferComplete transfer sent_bytes)))) in
  let^ _ := match completed with
    | Success _ => run_ret tt
    | Failure e =>
        let^ _ := write_result o ("status=refused reason=" ++ describe e) in leave kExitTransferFailed
    end in
  let^ _ := stop_at o "complete" in
  let^ outcome := required (client_publish_completion (publication_of request attempt generation sent_bytes)) in
  if po_disposition outcome ≟ Disposition.Refused then
    let^ _ := write_result o ("status=refused reason=" ++ ReasonCode.to_string (po_reason outcome)) in
    leave kExitTransferFailed
  else
    let^ _ := write_result o ("status=committed disposition=" ++ number (Disposition.value (po_disposition outcome))) in
    run_ret kExitOk.

(** What [run_prefill] does once it is connected to the coordinator; [data] is the
    result of connecting to the receiver. *)
Definition prefill_steps (o : Options) (request : RequestId) (attempt : AttemptId) (transfer : StateTransferId)
    (data : Result Client) : Run Z :=
  let^ registered := prepare o request attempt in
  let^ _ := authorize o request attempt transfer in
  if op_peer_port o ≟ 0 then leave kExitUsage
  else match data with
  | Failure _ => leave kExitCoordinator
  | Success data =>
      let chunk_bytes := op_bytes o / op_chunks o in
      if (chunk_bytes ≟ 0) || (chunk_bytes >? kMaxChunkBytes) then leave kExitUsage
      else
        let^ streamed := stream o transfer chunk_bytes data in
        let^ _ := stop_at o "stream" in
        finish o request attempt transfer (ar_generation registered) streamed.1
  end.

(** The configurations of the two clients. *)
Definition worker_config (o : Options) : ClientConfig :=
  MkClientConfig (text (op_name o)) (text (op_token o)) kVersionString (256 * 1024).
Definition data_config (o : Options) : ClientConfig :=
  MkClientConfig (text (op_name o ++ "-data")) (text (op_token o)) (text "1.0.0") (256 * 1024).

(** [run_prefill]: what was written to the result file, and the exit code. The
    streams are what the sockets answer, the draws what the random source does. *)
Definition run_prefill (o : Options) (control data : Result TcpStream) (draws draws' : Z * Z) : option string * Z :=
  if String.eqb (op_token o) "" then (None, kExitUsage)
  else match id_parse (list_ascii_of_string (op_request_hex o)),
             id_parse (list_ascii_of_string (op_attempt_hex o)), transfer_of (op_transfer_hex o) with
  | Some request, Some attempt, Some transfer =>
      match connect (worker_config o) draws control with
      | Failure _ => (None, kExitCoordinator)
      | Success client =>
          let '(result, w) := prefill_steps o request attempt transfer (connect (data_config o) draws' data)
                                (MkWorker client None None) in
          (wk_result w, match result with inl code => code | inr code => code end)
      end
  | _, _, _ => (None, kExitUsage)
  end.

(** The entry point, over the arguments after the name of the program. *)
Definition sim_main (arguments : list string)
    (served : ServerConfig → DataPlaneHandler → Status * bool * DataPlaneHandler)
    (control data : Result TcpStream) (draws draws' : Z * Z) : option string * Z :=
  match arguments with
  | [] => (None, kExitUsage)
  | role :: rest =>
      match parse_options rest default_options with
      | Accepted o =>
          if String.eqb role "decode" then run_decode o served
          else if String.eqb role "prefill" then run_prefill o control data draws draws'
          else (None, kExitUsage)
      | Declined | MissingValue => (None, kExitUsage)
      end
  end.

End prefill.
