(* ===== verification/SimulatorProps.v ===== *)
(** * What the simulator's data plane promises

    The receiver: a transfer it reports as verified is the concatenation of chunks
    that came in order, with the count, the size and the checksum its sender
    declared. The sender: against such a receiver it delivers every byte, however
    the network cuts the two directions. *)

From S2P Require Import Prelude Ids Traffic Decision Policy Bytes Crc Codec Wire Ledger Coordinator Flows CoordAudit.
From S2P Require Import CodecProps PolicyCodec Format Serialize SerializeProps Messages MessagesProps.
From S2P Require Import Net Session SessionProps Service Client ClientProps Tools Simulator.
From Stdlib Require Import String.
#[local] Open Scope Z_scope.
Import Datatypes.

(** ** The receiver *)

(** What reaches the receiver: a frame of any session, or the end of one. *)
Inductive DataEvent : Type :=
| FrameTaken (type : Z) (payload : list Z)
| SessionEnded.

Definition data_plane_step (h : DataPlaneHandler) (e : DataEvent) : DataPlaneHandler :=
  match e with
  | FrameTaken type payload => (data_plane_handle type payload h).2
  | SessionEnded => data_plane_closed h
  end.

Definition data_plane_run : DataPlaneHandler → list DataEvent → DataPlaneHandler := foldl data_plane_step.

(** The well-formed messages among them. *)
Definition chunk_in (e : DataEvent) : option DataChunkMessage :=
  match e with
  | FrameTaken type payload =>
      if type ≟ MessageType.DataChunk
      then match decode_body payload decode_data_chunk with Success m => Some m | Failure _ => None end
      else None
  | SessionEnded => None
  end.

Definition completion_in (e : DataEvent) : option DataCompleteMessage :=
  match e with
  | FrameTaken type payload =>
      if type ≟ MessageType.DataComplete
      then match decode_body payload decode_data_complete with Success m => Some m | Failure _ => None end
      else None
  | SessionEnded => None
  end.

Definition content (chunks : list DataChunkMessage) : list Z := chunks ≫= dc_data.

(** A completion that describes exactly these chunks. *)
Record describes (expected : StateTransferId) (chunks : list DataChunkMessage) (m : DataCompleteMessage) : Prop := {
  ds_transfer : dd_transfer m = expected;
  ds_bytes : dd_total_bytes m = wrap64 (len (content chunks));
  ds_chunks : dd_total_chunks m = wrap32 (len chunks);
  ds_crc : dd_content_crc32c m = compute (content chunks);
}.

(** Chunks of the transfer, numbered from zero. *)
Definition in_order (expected : StateTransferId) (chunks : list DataChunkMessage) : Prop :=
  ∀ i m, chunks !! i = Some m → dc_transfer m = expected ∧ dc_chunk_index m = wrap32 (Z.of_nat i).

(** The receiver holds these chunks, of those that were offered. *)
Record receiving (expected : StateTransferId) (events : list DataEvent) (chunks : list DataChunkMessage)
    (h : DataPlaneHandler) : Prop := {
  rc_expected : dp_expected h = expected;
  rc_crc : dp_crc h = update crc_init (content chunks);
  rc_bytes : dp_received_bytes h = wrap64 (len (content chunks));
  rc_count : dp_received_chunks h = wrap32 (len chunks);
  rc_order : in_order expected chunks;
  rc_offered : chunks `sublist_of` omap chunk_in events;
  rc_verified : dp_verified h = true →
    dp_content_crc h = compute (content chunks) ∧ ∃ m, m ∈ omap completion_in events ∧ describes expected chunks m;
  rc_complete : dp_verified h = true → dp_complete h = true;
}.

Lemma in_order_snoc expected chunks m :
  in_order expected chunks → dc_transfer m = expected → dc_chunk_index m = wrap32 (len chunks) →
  in_order expected (chunks ++ [m]).
Proof.
  intros Ho Ht Hi i x. rewrite lookup_app. destruct (chunks !! i) eqn:E; [intros [= <-]; by apply Ho|].
  apply lookup_ge_None in E. intros [Hx ->]%list_lookup_singleton_Some.
  split; [done|]. rewrite Hi. unfold len. do 2 f_equal. lia.
Qed.

Lemma wrap_add_l z w : wrap64 (wrap64 z + w) = wrap64 (z + w).
Proof. unfold wrap64. by rewrite Zplus_mod_idemp_l. Qed.

Lemma wrap32_add_l z w : wrap32 (wrap32 z + w) = wrap32 (z + w).
Proof. unfold wrap32. by rewrite Zplus_mod_idemp_l. Qed.

Lemma content_snoc chunks m : content (chunks ++ [m]) = content chunks ++ dc_data m.
Proof. unfold content. rewrite bind_app. simpl. by rewrite app_nil_r. Qed.

Lemma omap_snoc {A B} (f : A → option B) l x :
  omap f (l ++ [x]) = omap f l ++ match f x with Some y => [y] | None => [] end.
Proof. rewrite omap_app. simpl. by destruct (f x). Qed.

(** An event that brings no chunk and leaves the verdict as it is. *)
Lemma receiving_same expected events e chunks h h' :
  receiving expected events chunks h →
  dp_expected h' = dp_expected h → dp_crc h' = dp_crc h → dp_received_bytes h' = dp_received_bytes h →
  dp_received_chunks h' = dp_received_chunks h → dp_verified h' = dp_verified h →
  dp_complete h' = dp_complete h → dp_content_crc h' = dp_content_crc h →
  receiving expected (events ++ [e]) chunks h'.
Proof.
  intros [] E1 E2 E3 E4 E5 E6 E7. split; [congruence..|done| | |by rewrite E5, E6].
  - rewrite omap_snoc. by apply sublist_inserts_r.
  - rewrite E5. intros Hv. destruct (rc_verified0 Hv) as (Hc&m&Hm&Hd). split; [congruence|]. exists m.
    split; [|done]. rewrite omap_snoc. apply elem_of_app. by left.
Qed.

Lemma take_chunk_receiving expected events e chunks m h :
  receiving expected events chunks h → chunk_in e = Some m →
  ∃ chunks', receiving expected (events ++ [e]) chunks' (take_chunk m h).2.
Proof.
  intros Hr He. unfold take_chunk. destruct (dp_complete h) eqn:Ec.
  { exists chunks. by apply receiving_same with h. }
  case_bool_decide as Et; cbn [negb]; [|exists chunks; by apply receiving_same with h].
  case_bool_decide as Ei; cbn [negb]; [|exists chunks; by apply receiving_same with h].
  cbv zeta. exists (chunks ++ [m]). destruct Hr. split; cbn [snd].
  - done.
  - change (update (dp_crc h) (dc_data m) = update crc_init (content (chunks ++ [m]))).
    rewrite content_snoc, rc_crc0. unfold update. by rewrite foldl_app.
  - change (add64 (dp_received_bytes h) (len (dc_data m)) = wrap64 (len (content (chunks ++ [m])))).
    rewrite content_snoc, rc_bytes0, len_app. unfold add64. apply wrap_add_l.
  - change (add32 (dp_received_chunks h) 1 = wrap32 (len (chunks ++ [m]))).
    rewrite rc_count0, len_app. unfold add32. apply wrap32_add_l.
  - apply in_order_snoc; [done|congruence|congruence].
  - rewrite omap_snoc, He. apply sublist_app; done.
  - intros Hv. change (dp_verified h = true) in Hv. rewrite (rc_complete0 Hv) in Ec. done.
  - intros Hv. change (dp_verified h = true) in Hv. rewrite (rc_complete0 Hv) in Ec. done.
Qed.

Lemma conclude_receiving expected events e chunks m h :
  receiving expected events chunks h → completion_in e = Some m →
  receiving expected (events ++ [e]) chunks (conclude m h).2.
Proof.
  intros [] He. unfold conclude. cbv zeta.
  assert (omap chunk_in (events ++ [e]) = omap chunk_in events) as Eo.
  { rewrite omap_snoc. replace (chunk_in e) with (@None DataChunkMessage); [by rewrite app_nil_r|].
    destruct e as [type payload|]; [|done]. revert He. cbn [completion_in chunk_in].
    case_bool_decide as E; [|done]. subst type. done. }
  repeat (case_bool_decide; cbn [negb]);
    (split; [done|done|done|done|done|by rewrite Eo| |]); try done.
  intros _. split; [change (crc_value (dp_crc h) = compute (content chunks)); by rewrite rc_crc0|].
  exists m. split; [rewrite omap_snoc, He; apply elem_of_app; right; by apply list_elem_of_singleton|].
  split.
  - by transitivity (dp_expected h).
  - transitivity (dp_received_bytes h); [by symmetry|done].
  - transitivity (dp_received_chunks h); [by symmetry|done].
  - transitivity (crc_value (dp_crc h)); [by symmetry|by rewrite rc_crc0].
Qed.

Lemma data_plane_step_receiving expected events e chunks h :
  receiving expected events chunks h → ∃ chunks', receiving expected (events ++ [e]) chunks' (data_plane_step h e).
Proof.
  intros Hr. assert (∀ h', h' = h → ∃ chunks', receiving expected (events ++ [e]) chunks' h') as Hsame.
  { intros h' ->. exists chunks. by apply receiving_same with h. }
  destruct e as [type payload|]; cbn [data_plane_step].
  - unfold data_plane_handle. case_bool_decide as Et; [|case_bool_decide as Et'; [|by apply Hsame]].
    + unfold handle_chunk. destruct (decode_body payload decode_data_chunk) as [m|c] eqn:Ed; [|by apply Hsame].
      destruct (take_chunk_receiving expected events (FrameTaken type payload) chunks m h Hr) as [chunks' H'].
      { simpl. by rewrite (bool_decide_true _ Et), Ed. }
      exists chunks'. by destruct (take_chunk m h) as [[]].
    + unfold handle_complete. destruct (decode_body payload decode_data_complete) as [m|c] eqn:Ed; [|by apply Hsame].
      exists chunks. pose proof (conclude_receiving expected events (FrameTaken type payload) chunks m h Hr) as H'.
      destruct (conclude m h). apply H'. cbn [completion_in]. by rewrite (bool_decide_true _ Et'), Ed.
  - exists chunks. unfold data_plane_closed. case_match; by apply receiving_same with h.
Qed.

Lemma data_plane_run_receiving expected events :
  ∃ chunks, receiving expected events chunks (data_plane_run (new_data_plane expected) events).
Proof.
  induction events as [|e events [chunks IH]] using rev_ind.
  - exists []. by split.
  - unfold data_plane_run. rewrite foldl_app. by eapply data_plane_step_receiving.
Qed.

(** ** The receiver never refuses a completion *)

Lemma ack_succeeds chunk_index code h :
  named_id (dp_expected h) → is_u32 chunk_index → is_u64 (dp_received_bytes h) →
  ∃ body, data_ack chunk_index code h = Success body ∧ Forall is_byte body ∧ len body ≤ 30.
Proof.
  intros Ht Hi Hb. unfold data_ack, build_body.
  pose proof (carries_data_ack (MkDataAck (dp_expected h) chunk_index (dp_received_bytes h) code)
    ltac:(by split)) as Hc.
  pose proof (carries_document _ _ _ _ kMaxFramePayloadBytes Hc ltac:(done)) as D. cbv zeta in D.
  destruct (decode_data_ack _) as [? r]. destruct D as (->&_&_).
  eexists. split; [reflexivity|]. exact (carries_buffer _ _ _ _ kMaxFramePayloadBytes Hc ltac:(done)).
Qed.

(** ** The sender against the receiver *)

Section transfer.
Variable o : Options.
Variable transfer : StateTransferId.
Variable chunk_bytes : Z.
Hypothesis transfer_ok : named_id transfer.
Hypothesis chunks_ok : 0 < op_chunks o ≤ 65536.
Hypothesis bytes_ok : is_u64 (op_bytes o).
Hypothesis chunk_ok : 0 < chunk_bytes ≤ kMaxChunkBytes.

(** The first [n] chunks. *)
Definition sent_content (n : Z) : list Z := seqZ 0 n ≫= chunk_payload chunk_bytes.

Definition chunk_request (index : Z) : Z * list Z :=
  (MessageType.DataChunk, body_of (encode_data_chunk (chunk_message o transfer chunk_bytes index))).

Definition completion_message : DataCompleteMessage :=
  MkDataComplete transfer (op_chunks o * chunk_bytes) (op_chunks o) (compute (sent_content (op_chunks o))).

Definition completion_request : Z * list Z :=
  (MessageType.DataComplete, body_of (encode_data_complete completion_message)).

(** All that the sender sends. *)
Definition stream_requests : list (Z * list Z) :=
  (chunk_request <$> seqZ 0 (op_chunks o)) ++ [completion_request].

Lemma chunk_payload_bytes index : Forall is_byte (chunk_payload chunk_bytes index).
Proof.
  unfold chunk_payload. apply Forall_fmap, Forall_true. intros x. cbn. unfold is_byte.
  change 0xFF with (Z.ones 8). rewrite Z.land_ones by lia. apply Z.mod_pos_bound. lia.
Qed.

Lemma chunk_payload_length index : len (chunk_payload chunk_bytes index) = chunk_bytes.
Proof. unfold chunk_payload, len. rewrite length_fmap, length_seqZ. lia. Qed.

Lemma sent_content_snoc n : 0 ≤ n → sent_content (n + 1) = sent_content n ++ chunk_payload chunk_bytes n.
Proof.
  intros Hn. unfold sent_content. rewrite seqZ_app by lia. rewrite bind_app. f_equal.
  rewrite seqZ_cons by lia. cbn. by rewrite app_nil_r.
Qed.

Lemma chunk_message_ok index : 0 ≤ index < op_chunks o → data_chunk_ok (chunk_message o transfer chunk_bytes index).
Proof.
  intros Hi. split; cbn [dc_transfer dc_chunk_index dc_total_chunks dc_total_bytes dc_data chunk_message]; try done.
  - unfold is_u32, two32. lia.
  - apply chunk_payload_bytes.
  - by rewrite chunk_payload_length.
Qed.

(** What the receiver reads off the body of a well-formed message. *)
Lemma decode_body_carried {A} (f : Writer.t → Writer.t) (m : Reader.t → Result A * Reader.t) x n :
  carries f m (Success x) n → n ≤ kMaxFramePayloadBytes → decode_body (body_of f) m = Success x.
Proof.
  intros Hc Hn. pose proof (carries_document _ _ _ _ kMaxFramePayloadBytes Hc Hn) as D. cbv zeta in D.
  unfold decode_body, body_of. destruct (m _) as [r reader]. by destruct D as (_&->&->).
Qed.

Lemma chunk_carried index : 0 ≤ index < op_chunks o →
  carries (encode_data_chunk (chunk_message o transfer chunk_bytes index)) decode_data_chunk
    (Success (chunk_message o transfer chunk_bytes index)) (36 + chunk_bytes).
Proof.
  intros Hi. pose proof (carries_data_chunk_size _ (chunk_message_ok index Hi)) as Hc.
  cbn [dc_data chunk_message] in Hc. by rewrite chunk_payload_length in Hc.
Qed.

(** The receiver after [n] chunks. *)
Record took (n : Z) (h : DataPlaneHandler) : Prop := {
  tk_expected : dp_expected h = transfer;
  tk_crc : dp_crc h = update crc_init (sent_content n);
  tk_bytes : dp_received_bytes h = n * chunk_bytes;
  tk_chunks : dp_received_chunks h = n;
  tk_open : dp_complete h = false;
}.

Lemma stream_bound n : 0 ≤ n ≤ op_chunks o → 0 ≤ n * chunk_bytes < two64.
Proof. intros Hn. unfold kMaxChunkBytes, two64 in *. nia. Qed.

Lemma handle_chunk_took n h :
  took n h → 0 ≤ n < op_chunks o →
  ∃ ack h', data_plane_handle MessageType.DataChunk (chunk_request n).2 h = (Success ack, h')
    ∧ Forall is_byte ack ∧ len ack ≤ 30 ∧ took (n + 1) h'.
Proof.
  intros [] Hn. unfold data_plane_handle. rewrite (bool_decide_true _ eq_refl). unfold handle_chunk, chunk_request. cbn [snd].
  rewrite (decode_body_carried _ _ _ _ (chunk_carried n Hn)) by (unfold kMaxChunkBytes, kMaxFramePayloadBytes in *; lia).
  set (m := chunk_message o transfer chunk_bytes n). unfold take_chunk. rewrite tk_open0.
  rewrite (bool_decide_true (dc_transfer m = dp_expected h)) by done.
  rewrite (bool_decide_true (dc_chunk_index m = dp_received_chunks h)) by done. cbn [negb]. cbv zeta.
  set (h' := _ <| dp_content_crc := _ |>). pose proof (stream_bound (n + 1) ltac:(lia)).
  assert (took (n + 1) h') as Ht.
  { split; try done.
    - change (update (dp_crc h) (chunk_payload chunk_bytes n) = update crc_init (sent_content (n + 1))).
      by rewrite sent_content_snoc, update_app, tk_crc0 by lia.
    - change (add64 (dp_received_bytes h) (len (chunk_payload chunk_bytes n)) = (n + 1) * chunk_bytes).
      rewrite chunk_payload_length, tk_bytes0. unfold add64. rewrite wrap64_id; unfold is_u64; lia.
    - change (add32 (dp_received_chunks h) 1 = n + 1). rewrite tk_chunks0. apply wrap32_id. unfold is_u32, two32. lia. }
  destruct (ack_succeeds n StatusCode.Ok h') as (ack&E&Hb&Hl).
  { by destruct Ht as [-> _ _ _ _]. }
  { unfold is_u32, two32. lia. }
  { destruct Ht as [_ _ -> _ _]. unfold is_u64. lia. }
  exists ack, h'. split_and!; try done. change (dc_chunk_index m) with n. by rewrite E.
Qed.

Lemma compute_u32 n : is_u32 (compute (sent_content n)).
Proof.
  assert (is_crc crc_init) as Hi by (vm_compute; split; congruence).
  assert (is_crc (update crc_init (sent_content n))) as Hu.
  { apply update_word; [done|]. unfold sent_content. apply Forall_bind, Forall_true. intros i. apply chunk_payload_bytes. }
  unfold compute, crc_value. unfold is_u32, two32. apply (lxor_range 32); [lia|done|vm_compute; split; congruence].
Qed.

Lemma completion_ok : data_complete_ok completion_message.
Proof.
  split; cbn [dd_transfer dd_total_bytes dd_total_chunks dd_content_crc32c completion_message]; try done.
  - pose proof (stream_bound (op_chunks o) ltac:(lia)). unfold is_u64. lia.
  - unfold is_u32, two32. lia.
  - lia.
  - apply compute_u32.
Qed.

Lemma handle_complete_took h :
  took (op_chunks o) h →
  ∃ ack h', data_plane_handle MessageType.DataComplete completion_request.2 h = (Success ack, h')
    ∧ Forall is_byte ack ∧ len ack ≤ 30 ∧ dp_complete h' = true ∧ dp_verified h' = true
    ∧ dp_received_bytes h' = op_chunks o * chunk_bytes ∧ dp_received_chunks h' = op_chunks o
    ∧ dp_content_crc h' = compute (sent_content (op_chunks o)).
Proof.
  intros []. unfold data_plane_handle. rewrite (bool_decide_false (MessageType.DataComplete = _)) by done.
  rewrite (bool_decide_true _ eq_refl). unfold handle_complete, completion_request. cbn [snd].
  rewrite (decode_body_carried _ _ _ _ (carries_data_complete _ completion_ok)) by done.
  unfold conclude. set (h1 := h <| dp_content_crc := _ |>). cbv zeta.
  rewrite (bool_decide_true (dd_transfer completion_message = dp_expected h1)) by done.
  rewrite (bool_decide_true (dp_received_bytes h1 = dd_total_bytes completion_message)) by done.
  rewrite (bool_decide_true (dp_received_chunks h1 = dd_total_chunks completion_message)) by done.
  assert (dp_content_crc h1 = compute (sent_content (op_chunks o))) as Ec.
  { change (crc_value (dp_crc h) = compute (sent_content (op_chunks o))). by rewrite tk_crc0. }
  rewrite (bool_decide_true (dp_content_crc h1 = dd_content_crc32c completion_message)) by done. cbn [negb].
  set (h2 := _ <| dp_complete := true |>). pose proof (stream_bound (op_chunks o) ltac:(lia)).
  destruct (ack_succeeds (op_chunks o) StatusCode.Ok h2) as (ack&E&Hb&Hl).
  { change (named_id (dp_expected h)). by rewrite tk_expected0. }
  { unfold is_u32, two32. lia. }
  { change (is_u64 (dp_received_bytes h)). rewrite tk_bytes0. unfold is_u64. lia. }
  exists ack, h2. split; [|by split_and!]. change (dd_total_chunks completion_message) with (op_chunks o). by rewrite E.
Qed.

(** *** The conversation *)

Lemma chunk_callable limit index :
  0 ≤ index < op_chunks o → 36 + chunk_bytes ≤ limit → callable limit (chunk_request index).
Proof.
  intros Hi Hl. destruct (carries_buffer _ _ _ _ kMaxFramePayloadBytes (chunk_carried index Hi)) as [Hb Hn].
  { unfold kMaxChunkBytes, kMaxFramePayloadBytes in *. lia. }
  split; cbn [fst snd chunk_request]; unfold body_of, kMaxChunkBytes, kAbsoluteMaxPayloadBytes in *; done || lia.
Qed.

Lemma completion_callable limit : 32 ≤ limit → callable limit completion_request.
Proof.
  intros Hl. destruct (carries_buffer _ _ _ _ kMaxFramePayloadBytes (carries_data_complete _ completion_ok)) as [Hb Hn];
    [done|]. split; cbn [fst snd completion_request]; unfold body_of, kAbsoluteMaxPayloadBytes in *; done || lia.
Qed.

Lemma requests_callable limit : 36 + chunk_bytes ≤ limit → Forall (callable limit) stream_requests.
Proof.
  intros Hl. apply Forall_app. split; [|constructor; [apply completion_callable; lia|constructor]].
  apply Forall_fmap, Forall_forall. intros index Hi%elem_of_seqZ. apply chunk_callable; lia.
Qed.

Variable describe : StatusCode.t → list Z.
Variable context : Context.

(** An acknowledgement answers a request of the data plane. *)
Lemma ack_fits limit type ack :
  type = MessageType.DataChunk ∨ type = MessageType.DataComplete → 30 ≤ limit →
  Forall is_byte ack → len ack ≤ 30 →
  let reply := reply_of describe type (Success ack) in
  0 < reply.1 < MessageType.Count ∧ Forall is_byte reply.2 ∧ len reply.2 ≤ kAbsoluteMaxPayloadBytes ∧ len reply.2 ≤ limit.
Proof.
  intros Ht Hl Hb Hn. unfold reply_of. destruct Ht; subst type;
    (rewrite bool_decide_false by done); cbn [fst snd]; unfold kAbsoluteMaxPayloadBytes; split_and!; done || lia.
Qed.

(** The receiver takes the chunks that follow the first [k], and is left with the
    requests after them. *)
Lemma chunks_taken limit n k h tail :
  took k h → 0 ≤ k → k + Z.of_nat n ≤ op_chunks o → 30 ≤ limit →
  let requests := chunk_request <$> seqZ k (Z.of_nat n) in
  ∃ h' acks, took (k + Z.of_nat n) h'
    ∧ (answers_fit describe limit context h' tail → answers_fit describe limit context h (requests ++ tail))
    ∧ responses context h (requests ++ tail) = (Success <$> acks) ++ responses context h' tail
    ∧ length acks = n
    ∧ ∀ m, run_handler context h (numbered m (requests ++ tail))
           = run_handler context h' (numbered (m + Z.of_nat n) tail).
Proof.
  revert k h. induction n as [|n IH]; intros k h Ht Hk Hn Hl.
  { exists h, []. rewrite Z.add_0_r. split_and!; try done. intros m. by rewrite Z.add_0_r. }
  destruct (handle_chunk_took k h Ht ltac:(lia)) as (ack&h1&E&Hb&Hlen&Ht1).
  destruct (IH (k + 1) h1 Ht1 ltac:(lia) ltac:(lia) Hl) as (h'&acks&Ht'&Hf&Hr&Ha&Hrun).
  exists h', (ack :: acks). cbv zeta. rewrite seqZ_cons by lia.
  replace (Z.pred (Z.of_nat (S n))) with (Z.of_nat n) by lia. replace (Z.succ k) with (k + 1) by lia.
  replace (k + Z.of_nat (S n)) with (k + 1 + Z.of_nat n) by lia.
  rewrite fmap_cons, <- app_comm_cons. unfold chunk_request at 1 3 5.
  cbn [answers_fit responses numbered handle data_plane_handler]. unfold chunk_request in E. cbn [snd] in E.
  rewrite E. split_and!; try done.
  - intros H. split; [|by apply Hf]. apply (ack_fits limit); [by left|done..].
  - by rewrite Hr.
  - simpl. lia.
  - intros m. replace (m + Z.of_nat (S n)) with (m + 1 + Z.of_nat n) by lia. rewrite <- Hrun.
    unfold run_handler at 1. cbn [foldl fst snd handle data_plane_handler]. by rewrite E.
Qed.

Lemma last_request limit request ack h h' :
  data_plane_handle request.1 request.2 h = (Success ack, h') →
  request.1 = MessageType.DataChunk ∨ request.1 = MessageType.DataComplete → 30 ≤ limit →
  Forall is_byte ack → len ack ≤ 30 →
  answers_fit describe limit context h [request] ∧ responses context h [request] = [Success ack]
  ∧ ∀ m, run_handler context h (numbered m [request]) = h'.
Proof.
  destruct request as [type payload]. cbn [fst snd]. intros E Ht Hl Hb Hn.
  cbn [answers_fit responses numbered handle data_plane_handler]. rewrite E. split; [|split; [done|]].
  - split; [by apply ack_fits|done].
  - intros m. unfold run_handler. cbn [foldl fst snd handle data_plane_handler]. by rewrite E.
Qed.

(** What becomes of the whole stream. *)
Lemma stream_taken limit m :
  30 ≤ limit →
  answers_fit describe limit context (new_data_plane transfer) stream_requests
  ∧ (∃ acks ack, responses context (new_data_plane transfer) stream_requests = (Success <$> acks) ++ [Success ack]
       ∧ len acks = op_chunks o)
  ∧ let h := run_handler context (new_data_plane transfer) (numbered m stream_requests) in
    dp_complete h = true ∧ dp_verified h = true ∧ dp_received_bytes h = op_chunks o * chunk_bytes
    ∧ dp_received_chunks h = op_chunks o ∧ dp_content_crc h = compute (sent_content (op_chunks o)).
Proof.
  intros Hl. assert (took 0 (new_data_plane transfer)) as H0 by by split.
  destruct (chunks_taken limit (Z.to_nat (op_chunks o)) 0 (new_data_plane transfer) [completion_request] H0)
    as (h'&acks&Ht&Hf&Hr&Ha&Hrun); [lia..|done|].
  rewrite Z2Nat.id in Ht, Hf, Hr, Hrun by lia. change (0 + op_chunks o) with (op_chunks o) in Ht.
  destruct (handle_complete_took h' Ht) as (ack&h2&E&Hb&Hlen&P).
  destruct (last_request limit completion_request ack h' h2 E) as (Hf'&Hr'&Hrun'); [by right|done..|].
  rewrite Hr' in Hr. split; [|split].
  - by apply Hf.
  - exists acks, ack. split; [exact Hr|]. unfold len. lia.
  - unfold stream_requests. rewrite Hrun, Hrun'. exact P.
Qed.

(** *** The loop of the sender makes these calls *)

Lemma stream_chunks_calls indices crc sent c w acks c' :
  exchange_all (chunk_request <$> indices) c = (Success <$> acks, c') →
  ∃ w', stream_chunks o transfer chunk_bytes indices crc sent c w =
      (inl (update crc (indices ≫= chunk_payload chunk_bytes),
            foldl (fun sent _ => add64 sent chunk_bytes) sent indices, c'), w')
    ∧ wk_client w' = wk_client w ∧ wk_result w' = wk_result w.
Proof.
  revert crc sent c w acks. induction indices as [|index indices IH]; intros crc sent c w acks E.
  { simpl in E. destruct acks; [|done]. injection E as <-. by exists w. }
  rewrite fmap_cons in E. unfold chunk_request at 1 in E. cbn [exchange_all] in E. cbn [stream_chunks]. cbv zeta.
  destruct (exchange MessageType.DataChunk _ c) as [r c1].
  destruct (exchange_all (chunk_request <$> indices) c1) as [rs c2] eqn:E2.
  destruct acks as [|ack acks]; [done|]. rewrite fmap_cons in E. injection E as -> -> ->.
  unfold run_bind. set (w1 := if String.eqb _ _ then _ else _).
  destruct (IH (update crc (chunk_payload chunk_bytes index)) (add64 sent chunk_bytes) c1 w1 acks E2) as (w'&->&Hc&Hr).
  exists w'. split_and!; [by rewrite bind_cons, update_app| |].
  - rewrite Hc. unfold w1. by case_match.
  - rewrite Hr. unfold w1. by case_match.
Qed.

Lemma sent_sum n : Z.of_nat n ≤ op_chunks o →
  foldl (fun sent _ => add64 sent chunk_bytes) 0 (seqZ 0 (Z.of_nat n)) = Z.of_nat n * chunk_bytes.
Proof.
  induction n as [|n IH]; intros Hn; [done|].
  replace (Z.of_nat (S n)) with (Z.of_nat n + 1) by lia. rewrite seqZ_app, foldl_app, IH by lia.
  rewrite seqZ_cons by lia. cbn [foldl seqZ]. pose proof (stream_bound (Z.of_nat n + 1) ltac:(lia)).
  change (add64 (Z.of_nat n * chunk_bytes) chunk_bytes = (Z.of_nat n + 1) * chunk_bytes).
  unfold add64. rewrite wrap64_id; unfold is_u64; lia.
Qed.

Lemma stream_calls c w acks ack c' :
  len acks = op_chunks o → exchange_all stream_requests c = ((Success <$> acks) ++ [Success ack], c') →
  ∃ w', stream o transfer chunk_bytes c w = (inl (op_chunks o * chunk_bytes, c'), w')
    ∧ wk_client w' = wk_client w ∧ wk_result w' = wk_result w.
Proof.
  intros Ha. unfold stream_requests. rewrite exchange_all_app.
  destruct (exchange_all (chunk_request <$> seqZ 0 (op_chunks o)) c) as [rs c1] eqn:E1.
  cbn [exchange_all]. unfold completion_request. destruct (exchange MessageType.DataComplete _ c1) as [r c2] eqn:E2.
  intros [= [-> [= ->]]%app_inj_2 <-]; [|done].
  destruct (stream_chunks_calls _ crc_init 0 c w acks c1 E1) as (w'&Es&Hc&Hr). exists w'. split; [|done].
  unfold stream, run_bind. rewrite Es. pose proof (sent_sum (Z.to_nat (op_chunks o))) as Hs.
  rewrite Z2Nat.id in Hs by lia. rewrite Hs by lia. fold (sent_content (op_chunks o)).
  change (crc_value (update crc_init (sent_content (op_chunks o)))) with (compute (sent_content (op_chunks o))).
  fold completion_message. by rewrite E2.
Qed.

End transfer.

(** ** The promises *)

(** C12: A transfer that the receiver of the simulator reports as successful arrived
    intact: whatever frames reached it in whatever sessions, chunks of the expected
    transfer were taken in the order of their numbers from zero, a completion for that
    transfer was received that names exactly their count, their size and their checksum,
    and the checksum reported is that of their concatenation. *)
Theorem verified_transfer_is_intact expected events :
  let h := data_plane_run (new_data_plane expected) events in
  (decode_outcome (has_outcome h) h).2 = kExitOk →
  ∃ chunks m, chunks `sublist_of` omap chunk_in events ∧ in_order expected chunks
    ∧ m ∈ omap completion_in events ∧ describes expected chunks m
    ∧ dp_content_crc h = compute (content chunks).
Proof.
  intros h Hexit. destruct (data_plane_run_receiving expected events) as [chunks Hr]. fold h in Hr. destruct Hr.
  assert (dp_verified h = true) as Hv.
  { revert Hexit. unfold decode_outcome. destruct (has_outcome h), (dp_complete h), (dp_verified h); done. }
  destruct (rc_verified0 Hv) as (Hc&m&Hm&Hd). by exists chunks, m.
Qed.

(** C13: A transfer gets through when the payload limit of the session holds a chunk
    with its 36 bytes of header: for 1 to 65536 chunks of at most the largest size, when
    the sender's client and a session of the receiver are in step, their sequence
    numbers do not wrap, and each side gets the bytes the other sent, cut in any way,
    the sender streams all its chunks and its completion without being refused, and the
    receiver ends complete and verified, with the number of chunks, the number of bytes
    and the checksum of what was sent. *)
Theorem transfer_gets_through config draws describe o transfer chunk_bytes c (s : Session DataPlaneHandler) w arrivals arrivals' :
  named_id transfer → 0 < op_chunks o ≤ 65536 → is_u64 (op_bytes o) → 0 < chunk_bytes ≤ kMaxChunkBytes →
  in_sync c s → se_handler s = new_data_plane transfer → (∀ e, text_ok (describe e)) →
  36 + chunk_bytes ≤ se_max_payload s →
  ct_send_sequence c + op_chunks o + 1 < two64 → se_outbound_sequence s + op_chunks o + 1 < two64 →
  let frames := numbered (ct_send_sequence c) (stream_requests o transfer chunk_bytes) in
  let answers := replies describe (se_context s) (se_handler s) (se_outbound_sequence s) frames in
  all_data arrivals → bytes_of arrivals = frames_bytes frames →
  all_data arrivals' → bytes_of arrivals' = answers →
  ∃ c' w' s' fuel,
    stream o transfer chunk_bytes (c <| ct_stream := (ct_stream c) <| ts_arrivals := arrivals' |> |>) w
      = (inl (op_chunks o * chunk_bytes, c'), w')
    ∧ wk_client w' = wk_client w
    ∧ ts_sent (ct_stream c') = ts_sent (ct_stream c) ++ bytes_of arrivals
    ∧ serve_loop config draws describe fuel (s <| se_stream := (se_stream s) <| ts_arrivals := arrivals |> |>)
      = Some (Continue, s')
    ∧ ts_sent (se_stream s') = ts_sent (se_stream s) ++ bytes_of arrivals'
    ∧ (decode_outcome true (se_handler s')).2 = kExitOk
    ∧ dp_received_bytes (se_handler s') = op_chunks o * chunk_bytes
    ∧ dp_received_chunks (se_handler s') = op_chunks o
    ∧ dp_content_crc (se_handler s') = compute (sent_content chunk_bytes (op_chunks o)).
Proof.
  intros Ht Hn Hb Hc [Hv Hhs Hup Hdown Hlim [Hdc Hds]] Eh Hdesc Hl Hs1 Hs2 frames answers Ha Hba Ha' Hba'.
  destruct (stream_taken o transfer chunk_bytes Ht Hn Hb Hc describe (se_context s) (se_max_payload s)
    (ct_send_sequence c) ltac:(lia)) as (Hf&(acks&ack&Er&Hlen)&Hh).
  pose proof (requests_callable o transfer chunk_bytes Ht Hn Hb Hc _ Hl) as Hcall.
  set (requests := stream_requests o transfer chunk_bytes) in *.
  assert (len requests = op_chunks o + 1) as Hr.
  { unfold requests, stream_requests. rewrite len_app. unfold len. rewrite length_fmap, length_seqZ. simpl. lia. }
  unfold answers in Hba'. rewrite Eh in Hba'.
  destruct (exchange_all_answered describe Hdesc (se_context s) requests
    (c <| ct_stream := (ct_stream c) <| ts_arrivals := arrivals' |> |>) (new_data_plane transfer)
    (se_outbound_sequence s) []) as (c'&Ec&_&Est).
  all: change (ct_max_frame_payload (c <| ct_stream := _ |>)) with (ct_max_frame_payload c); rewrite ?Hlim.
  all: change (ct_last_received_sequence (c <| ct_stream := _ |>)) with (ct_last_received_sequence c).
  all: change (ct_send_sequence (c <| ct_stream := _ |>)) with (ct_send_sequence c) in *; try done; try lia.
  { by rewrite app_nil_r. }
  rewrite Er in Ec. destruct (stream_calls o transfer chunk_bytes Hn Hc _ w acks ack c' Hlen Ec) as (w'&Es&Hw&_).
  destruct (serve_loop_frames config draws describe frames (S (length frames))
    (s <| se_stream := (se_stream s) <| ts_arrivals := arrivals |> |>)) as (s'&El&_&Ehl&_&Esent);
    [done..|by apply numbered_ok; [|lia..]|by apply numbered_sorted; simpl; lia|done|done|lia|].
  exists c', w', s', (S (length frames)). split_and!; [done|done| |done| | | | |].
  - rewrite Est, Hba. done.
  - rewrite Esent, Hba'. change (se_handler (s <| se_stream := _ |>)) with (se_handler s). by rewrite Eh.
  - rewrite Ehl. change (se_handler (s <| se_stream := _ |>)) with (se_handler s). rewrite Eh.
    destruct Hh as (H1&H2&_). unfold decode_outcome. change (se_context (s <| se_stream := _ |>)) with (se_context s).
    fold frames in H1, H2. by rewrite H1, H2.
  - rewrite Ehl. change (se_handler (s <| se_stream := _ |>)) with (se_handler s). rewrite Eh. apply Hh.
  - rewrite Ehl. change (se_handler (s <| se_stream := _ |>)) with (se_handler s). rewrite Eh. apply Hh.
  - rewrite Ehl. change (se_handler (s <| se_stream := _ |>)) with (se_handler s). rewrite Eh. apply Hh.
Qed.
