(* ===== verification/Scenarios.v ===== *)
(** * The scenarios of the inspection tool

    Models tools/itfctl.cpp: the harness with its virtual clock, the seven scenarios
    of the command [simulate] and their exit codes, the options, and the commands
    that ask a running coordinator or read a snapshot. What is printed is left out.
    The scenarios are then run: each ends with success. *)

From S2P Require Import Prelude Ids Traffic Decision Policy Bytes Codec Wire Ledger Coordinator Evaluate Flows CoordAudit.
From S2P Require Import CodecProps PolicyCodec Format Serialize Messages Snapshot Net Session Service Client Tools Accel.
From Stdlib Require Import String Ascii.
#[local] Open Scope Z_scope.
Import Datatypes.

Definition kModelHash : Z := 0x1111222233334444.
Definition kStateHash : Z := 0x5555666677778888.
Definition kTenantHash : Z := 0x9999AAAABBBBCCCC.

(** The labels that the usage message names. *)
Definition vocabulary : string :=
  ("stages:  " ++ String.concat " " (stage_label <$> drop 1 (take kServingStageCount enum_all))
   ++ String "010" "classes: " ++ String.concat " " (traffic_label <$> drop 1 (take kTrafficClassCount enum_all))
   ++ String "010" "")%string.

(** ** The harness *)

Record Harness := MkHarness {
  hs_clock : Z;
  hs_coordinator : Coordinator;
}.

#[export] Instance hs_eta : Eta Harness := fun r => MkHarness (hs_clock r) (hs_coordinator r).
#[export] Instance hs_set_clock : Setter hs_clock. Proof. mk_setter. Defined.
#[export] Instance hs_set_coordinator : Setter hs_coordinator. Proof. mk_setter. Defined.

(** The members [request] and [attempt]. *)
Definition hs_request : RequestId := MkId 0x0123456789ABCDEF 0xFEDCBA9876543210.
Definition hs_attempt : AttemptId := MkId 0x1111111111111111 0x2222222222222222.

(** The constructor; the clock starts at zero. *)
Definition make_harness (config : CoordinatorConfig) (draws : Z * Z) : Harness :=
  MkHarness 0 (boot_fresh (make_coordinator config) draws).2.

#[local] Abbreviation Play := (Run Harness).

Definition clock_now : Play Z := fun h => (inl (hs_clock h), h).
Definition advance_clock (delta_nanos : Z) : Play unit := fun h =>
  (inl tt, if delta_nanos >? 0 then h <| hs_clock := hs_clock h + delta_nanos |> else h).

Definition set_clock (nanos : Z) : Play unit := fun h => (inl tt, h <| hs_clock := nanos |>).

(** A call of the coordinator, at the time the clock shows, and a look at it. *)
Definition play {A} (f : Coordinator → Z → A * Coordinator) : Play A := fun h =>
  let '(r, c) := f (hs_coordinator h) (hs_clock h) in (inl r, h <| hs_coordinator := c |>).
Definition look {A} (f : Coordinator → A) : Play A := fun h => (inl (f (hs_coordinator h)), h).

(** [value()] of a failure is undefined in the source; the model leaves with a code
    that no scenario has. *)
Definition kUndefined : Z := 255.
Definition value_of {A} (r : Result A) : Play A :=
  match r with Success x => run_ret x | Failure _ => leave kUndefined end.

Definition harness_topology : TopologyEvidence :=
  MkTopology 0 EvidenceProvenance.Synthetic nil_id 0 1000000000 2 1 1 (25 * 1000 * 1000 * 1000) 0 false true.

Definition publish_harness_topology : Play unit :=
  let^ _ := play (fun c now => publish_topology c harness_topology now) in run_ret tt.

Definition advance_to (stage : ServingStage) : Play unit :=
  let^ _ := play (fun c now => coord_advance_stage c hs_request hs_attempt stage now) in run_ret tt.

Definition register_harness_slo : Play (Result SloContract) :=
  play (fun c _ => register_slo_contract c hs_request 20000000 20000000 200).

Definition prepare_request (stage : ServingStage) : Play unit :=
  let^ _ := play (fun c _ => set_model_generation c kModelHash None) in
  let^ _ := play (fun c _ => advance_state_generation c kStateHash None) in
  let^ _ := play (fun c now => coord_register_request c hs_request now) in
  let^ _ := play (fun c now => coord_register_attempt c hs_request hs_attempt kModelHash now) in
  let^ _ := play (fun c _ => issue_route_decision c hs_request hs_attempt 1 false true) in
  let^ _ := register_harness_slo in
  when (stage ≠? ServingStage.Unknown) (advance_to stage).

Definition make_request (traffic : TrafficClass) (stage : ServingStage) (bytes : Z) : Play TrafficRequest :=
  let^ record := look (fun c => snapshot_request (C_ledger c) hs_request) in
  let current := match record with Some r => rr_current_attempt r | None => nil_id end in
  let attempt := if is_nil current then hs_attempt else current in
  let^ now := clock_now in
  let^ policy := look (fun c => pc_generation (C_policy c)) in
  let^ epoch := look C_epoch in
  let^ model := look (fun c => require_model_generation_locked c kModelHash) in
  let^ model := value_of model in
  let^ route := play (fun c _ => issue_route_decision c hs_request attempt 1 false true) in
  let^ slo := register_harness_slo in
  let^ state := look (fun c => require_state_generation_locked c kStateHash) in
  run_ret
    (MkTrafficRequest (Some (MkSubject SubjectKind.Serving hs_request attempt 1 nil_id)) traffic stage
       FlowDirection.Lateral PriorityHint.None bytes 0 0 0 0 kTenantHash kModelHash 0
       (Instant_from_now now 20000000) 0
       (MkBinding None (Some model)
          (match state with Success g => Some g | Failure _ => None end)
          (match route with Success r => Some (rd_generation r) | Failure _ => None end)
          (match slo with Success s => Some (slo_generation s) | Failure _ => None end)
          None (Some policy) (Some epoch))).

Section scenarios.
Context `{!HashOrder}.
(** What the random source answers to the boots. *)
Variable draws : Z * Z.

Definition evaluate (request : TrafficRequest) : Play Decision := play (fun c now => evaluate_locked c request now).
Definition open_decision (decision : Decision) (bytes : Z) : Play (Result FlowId) :=
  play (fun c now => open_flow_locked c decision bytes now).
Definition publish (publication : CompletionPublication) : Play (Result PublishOutcome) :=
  play (fun c now => coord_publish_completion c publication now).

Definition exit_when (honest : bool) : Play Z := run_ret (if honest then 0 else 1).

Definition run_harness (config : CoordinatorConfig) (m : Play Z) : Z := exit_code m (make_harness config draws).

Definition refused_outcome_of (r : Result PublishOutcome) : Play bool :=
  let^ outcome := value_of r in run_ret (po_disposition outcome ≟ Disposition.Refused).

(** *** basic *)

Definition scenario_basic : Z := run_harness default_config (
  let^ _ := publish_harness_topology in
  let^ _ := prepare_request ServingStage.Admitted_ in
  let^ _ := advance_to ServingStage.PrefillQueued in
  let^ _ := advance_to ServingStage.PrefillRunning in
  let^ _ := advance_to ServingStage.HandoffPending in
  let^ message := make_request TrafficClass.PrefillDecodeHandoff ServingStage.HandoffPending (2 ^ 20) in
  let^ handoff := evaluate message in
  let^ flow := open_decision handoff (tr_payload_bytes message) in
  match flow with
  | Failure _ => leave 1
  | Success flow =>
      let^ _ := play (fun c _ => coord_record_flow_bytes c flow (tr_payload_bytes message) false) in
      let^ _ := play (fun c _ => coord_release_flow c flow) in
      let^ _ := advance_to ServingStage.DecodeRunning in
      let^ _ := advance_to ServingStage.Streaming in
      let^ streaming := make_request TrafficClass.DecodeStream ServingStage.Streaming 4096 in
      let^ _ := evaluate streaming in
      let^ _ := advance_to ServingStage.Completing in
      let^ egress := make_request TrafficClass.ResponseEgress ServingStage.Completing 2048 in
      let^ _ := evaluate egress in
      let^ record := look (fun c => snapshot_request (C_ledger c) hs_request) in
      let generation := match record with Some r => rr_current_attempt_generation r | None => 0 end in
      let^ outcome := publish (MkPublication hs_request hs_attempt generation true ReasonCode.Unknown (2 ^ 20) 2048) in
      if negb (ok outcome) then leave 1
      else
        let^ invariants := look verify_invariants in
        exit_when (ok invariants)
  end).

(** *** cancel *)

Definition scenario_cancel : Z := run_harness default_config (
  let^ _ := publish_harness_topology in
  let^ _ := prepare_request ServingStage.Admitted_ in
  let^ message := make_request TrafficClass.RequestIngress ServingStage.Admitted_ 1024 in
  let^ before := evaluate message in
  let^ _ := open_decision before 1024 in
  let^ _ := play (fun c now => coord_cancel_request c hs_request ReasonCode.Cancelled now) in
  let^ _ := evaluate message in
  let^ reopened := open_decision before 1024 in
  let^ outcome := publish (MkPublication hs_request hs_attempt 1 true ReasonCode.Unknown 1024 0) in
  let^ refused := refused_outcome_of outcome in
  let^ invariants := look verify_invariants in
  exit_when (negb (ok reopened) && refused && ok invariants)).

(** *** stale *)

Definition stale_registration : TransferRegistration :=
  MkRegistration (MkId 0xAAAABBBBCCCCDDDD 0x0102030405060708) kStateHash kModelHash (8 * 2 ^ 20)
    TrafficClass.KvTransfer FlowDirection.Lateral IntegrityClass.ChecksumAndVerify hs_request hs_attempt kUnset.

Definition authorize_now (request : TrafficRequest) : Play (Result TransferAuthorization) :=
  play (fun c now => authorize_transfer c request now now).

(** The bindings both transfer requests take from the coordinator. *)
Definition transfer_request (registration : TransferRegistration) (binding : GenerationBinding) (deadline : Z)
    : TrafficRequest :=
  MkTrafficRequest (Some (MkSubject SubjectKind.Transfer nil_id nil_id 0 (tg_id registration)))
    (tg_declared_class registration) ServingStage.Unknown FlowDirection.Lateral PriorityHint.None
    (tg_payload_bytes registration) 0 0 0 0 0 0 0 deadline 0 binding.

Definition scenario_stale : Z := run_harness default_config (
  let^ _ := publish_harness_topology in
  let^ _ := prepare_request ServingStage.PrefillRunning in
  let^ _ := register_harness_slo in
  let^ registered := play (fun c now => register_transfer c stale_registration now) in
  if negb (ok registered) then leave 1
  else
    let^ policy := look (fun c => pc_generation (C_policy c)) in
    let^ epoch := look C_epoch in
    let^ model := look (fun c => require_model_generation_locked c kModelHash) in
    let^ model := value_of model in
    let^ state := look (fun c => require_state_generation_locked c kStateHash) in
    let^ state := value_of state in
    let^ slo := register_harness_slo in
    let^ slo := value_of slo in
    let^ now := clock_now in
    let message := transfer_request stale_registration
      (MkBinding None (Some model) (Some state) None (Some (slo_generation slo)) None (Some policy) (Some epoch))
      (Instant_from_now now 20000000) in
    let^ authorized := authorize_now message in
    let^ authorized := value_of authorized in
    let^ _ := play (fun c _ => advance_state_generation c kStateHash None) in
    let^ stale := authorize_now message in
    let^ stale := value_of stale in
    let^ _ := evaluate message in
    exit_when (ta_authorized authorized && negb (ta_authorized stale)
               && (ta_reason stale ≟ ReasonCode.RejectedStaleStateGeneration))).

(** *** starvation and bulk-yield *)

Definition streaming_policy (max_defer_count : Z) : PolicyConfig :=
  let policy := canonical_defaults 1 in
  let streaming := (policy_rule policy TrafficClass.DecodeStream)
    <| pr_reserved_weight := 0 |> <| pr_max_defer_count := max_defer_count |>
    <| pr_max_defer_horizon_nanos := 1000000000 |> in
  (set_rule policy TrafficClass.DecodeStream streaming).2 <| pc_congestion_queue_depth := 4 |>.

Definition congested_topology : TopologyEvidence :=
  MkTopology 0 EvidenceProvenance.Synthetic nil_id 0 1000000000 2 0 1 1000000000 64 true false.

(** What both scenarios start with: a streaming request under congestion. *)
Definition congested_streaming : Play TrafficRequest :=
  let^ _ := play (fun c now => publish_topology c congested_topology now) in
  let^ _ := prepare_request ServingStage.Admitted_ in
  let^ _ := advance_to ServingStage.PrefillQueued in
  let^ _ := advance_to ServingStage.PrefillRunning in
  let^ _ := advance_to ServingStage.HandoffPending in
  let^ _ := advance_to ServingStage.DecodeQueued in
  let^ _ := advance_to ServingStage.DecodeRunning in
  let^ _ := advance_to ServingStage.Streaming in
  make_request TrafficClass.DecodeStream ServingStage.Streaming 8192.

(** The loop, for the evaluations that are left: whether the starvation guard let
    the request in. *)
Fixpoint starve (evaluations : nat) (message : TrafficRequest) : Play bool :=
  match evaluations with
  | O => run_ret false
  | S evaluations =>
      let^ decision := evaluate message in
      if permits_traffic decision then run_ret (dec_reason decision ≟ ReasonCode.AdmittedStarvationGuard)
      else
        let^ _ := advance_clock 2000000 in
        starve evaluations message
  end.

Definition scenario_starvation : Z := run_harness (default_config <| cf_policy := streaming_policy 4 |>) (
  let^ message := congested_streaming in
  let^ admitted := starve 8 message in
  exit_when admitted).

Definition bulk_registration : TransferRegistration :=
  MkRegistration (MkId 0x1234123412341234 0x4321432143214321) kStateHash kModelHash (64 * 2 ^ 20)
    TrafficClass.ModelTransfer FlowDirection.Lateral IntegrityClass.Checksum nil_id nil_id kUnset.

Definition scenario_bulk_yield : Z := run_harness (default_config <| cf_policy := streaming_policy 8 |>) (
  let^ message := congested_streaming in
  let^ deferred := evaluate message in
  let^ registered := play (fun c now => register_transfer c bulk_registration now) in
  if negb (ok registered) then leave 1
  else
    let^ policy := look (fun c => pc_generation (C_policy c)) in
    let^ epoch := look C_epoch in
    let^ model := look (fun c => require_model_generation_locked c kModelHash) in
    let^ model := value_of model in
    let^ bulk := evaluate (transfer_request bulk_registration
      (MkBinding None (Some model) None None None None (Some policy) (Some epoch)) kUnset) in
    exit_when ((dec_outcome deferred ≟ DecisionOutcome.Deferred) && (dec_outcome bulk ≟ DecisionOutcome.Deferred))).

(** *** unknown-stage *)

Definition conservative_rule : ClassPolicyRule :=
  default_rule <| pr_enabled := true |> <| pr_priority := PriorityClass.Background |>
    <| pr_pacing := PacingClass.BestEffort |> <| pr_integrity := IntegrityClass.ChecksumAndVerify |>
    <| pr_isolation := IsolationDomain.Background |> <| pr_max_burst_bytes := 65536 |>.

Definition relaxed_policy : PolicyConfig :=
  let policy := (canonical_defaults 1) <| pc_allow_unknown_stage := true |>
                  <| pc_allow_unknown_traffic_class := true |> in
  (set_rule policy TrafficClass.Unknown conservative_rule).2.

Definition unknown_stage_request : Play Decision :=
  let^ _ := publish_harness_topology in
  let^ _ := prepare_request ServingStage.Unknown in
  let^ message := make_request TrafficClass.RequestIngress ServingStage.Unknown 1024 in
  evaluate message.

(** The two harnesses are independent of each other. *)
Definition scenario_unknown_stage : Z :=
  match (unknown_stage_request (make_harness default_config draws)).1,
        (unknown_stage_request (make_harness (default_config <| cf_policy := relaxed_policy |>) draws)).1 with
  | inl strict, inl lenient =>
      if (dec_outcome strict ≟ DecisionOutcome.Rejected) && (dec_reason strict ≟ ReasonCode.RejectedUnknownStage)
         && (dec_outcome lenient ≟ DecisionOutcome.Degraded)
         && (dec_reason lenient ≟ ReasonCode.AdmittedConservative)
         && (tt_reserved_weight (dec_treatment lenient) ≟ 0)
      then 0 else 1
  | inr code, _ | _, inr code => code
  end.

(** *** generations *)

#[export] Instance gb_eta : Eta GenerationBinding := fun r =>
  MkBinding (gb_request_generation r) (gb_model_generation r) (gb_state_generation r) (gb_route_decision r)
    (gb_slo_contract r) (gb_topology r) (gb_policy r) (gb_coordinator_epoch r).
#[export] Instance gb_set_route : Setter gb_route_decision. Proof. mk_setter. Defined.
#[export] Instance gb_set_policy : Setter gb_policy. Proof. mk_setter. Defined.
#[export] Instance gb_set_epoch : Setter gb_coordinator_epoch. Proof. mk_setter. Defined.

Definition with_binding (f : GenerationBinding → GenerationBinding) (r : TrafficRequest) : TrafficRequest :=
  r <| tr_binding := f (tr_binding r) |>.

Definition ingress_request : Play TrafficRequest :=
  make_request TrafficClass.RequestIngress ServingStage.Admitted_ 512.

Definition missing_subject : TrafficSubject :=
  MkSubject SubjectKind.Serving (MkId 0xDEADBEEFDEADBEEF 0xDEADBEEFDEADBEEF)
    (MkId 0xFEEDFACEFEEDFACE 0xFEEDFACEFEEDFACE) 1 nil_id.

Definition scenario_generations : Z := run_harness default_config (
  let^ _ := publish_harness_topology in
  let^ _ := prepare_request ServingStage.Admitted_ in
  let^ stale_policy := ingress_request in
  let^ policy := evaluate (with_binding (fun b => b <| gb_policy := Some 99 |>) stale_policy) in
  let^ stale_epoch := ingress_request in
  let^ epoch := evaluate (with_binding (fun b => b <| gb_coordinator_epoch := Some 99 |>) stale_epoch) in
  let^ stale_route := ingress_request in
  let^ route := evaluate (with_binding (fun b => b <| gb_route_decision := Some 99 |>) stale_route) in
  let^ stale_model := ingress_request in
  let^ _ := evaluate ((with_binding (fun b => b <| gb_route_decision := None |>) stale_model)
    <| tr_declared_class := TrafficClass.PrefillInput |> <| tr_declared_stage := ServingStage.Admitted_ |>) in
  let^ unknown := ingress_request in
  let^ _ := evaluate ((with_binding (fun b => b <| gb_route_decision := None |>) unknown)
    <| tr_subject := Some missing_subject |>) in
  exit_when ((dec_reason policy ≟ ReasonCode.RejectedStalePolicyGeneration)
             && (dec_reason epoch ≟ ReasonCode.RejectedStaleEpoch)
             && (dec_reason route ≟ ReasonCode.RejectedStaleRouteDecision))).

Definition run_scenario (name : string) : Z :=
  if String.eqb name "basic" then scenario_basic
  else if String.eqb name "cancel" then scenario_cancel
  else if String.eqb name "stale" then scenario_stale
  else if String.eqb name "starvation" then scenario_starvation
  else if String.eqb name "unknown-stage" then scenario_unknown_stage
  else if String.eqb name "bulk-yield" then scenario_bulk_yield
  else if String.eqb name "generations" then scenario_generations
  else 2.

End scenarios.

(** ** Options *)

Record CtlOptions := MkCtlOptions {
  co_host : string;
  co_port : Z;
  co_token : string;
  co_stage : string;
  co_traffic_class : string;
  co_bytes : Z;
  co_no_kernel : bool;
}.

#[export] Instance co_eta : Eta CtlOptions := fun r =>
  MkCtlOptions (co_host r) (co_port r) (co_token r) (co_stage r) (co_traffic_class r) (co_bytes r) (co_no_kernel r).
#[export] Instance co_set_host : Setter co_host. Proof. mk_setter. Defined.
#[export] Instance co_set_port : Setter co_port. Proof. mk_setter. Defined.
#[export] Instance co_set_token : Setter co_token. Proof. mk_setter. Defined.
#[export] Instance co_set_stage : Setter co_stage. Proof. mk_setter. Defined.
#[export] Instance co_set_class : Setter co_traffic_class. Proof. mk_setter. Defined.
#[export] Instance co_set_bytes : Setter co_bytes. Proof. mk_setter. Defined.
#[export] Instance co_set_no_kernel : Setter co_no_kernel. Proof. mk_setter. Defined.

Definition default_ctl_options : CtlOptions :=
  MkCtlOptions "127.0.0.1" 7777 "" "ADMITTED" "REQUEST_INGRESS" 4096 false.

(** The options that take a value: [None] when the flag is none of them, [Some
    None] when its value is refused. *)
Definition set_ctl_valued (flag value : string) (o : CtlOptions) : option (option CtlOptions) :=
  if String.eqb flag "--host" then Some (Some (o <| co_host := value |>))
  else if String.eqb flag "--port" then Some ((fun n => o <| co_port := n |>) <$> parse_number value is_port)
  else if String.eqb flag "--token" then Some (Some (o <| co_token := value |>))
  else if String.eqb flag "--stage" then Some (Some (o <| co_stage := value |>))
  else if String.eqb flag "--class" then Some (Some (o <| co_traffic_class := value |>))
  else if String.eqb flag "--bytes" then Some ((fun n => o <| co_bytes := n |>) <$> parse_number value any_number)
  else None.

(** [None] for refused options and for a missing value, which exit alike. *)
Fixpoint parse_ctl_options (arguments : list string) (o : CtlOptions) : option CtlOptions :=
  match arguments with
  | [] => Some o
  | flag :: rest =>
      if String.eqb flag "--no-kernel" then parse_ctl_options rest (o <| co_no_kernel := true |>)
      else match rest with
      | [] => None
      | value :: rest =>
          match set_ctl_valued flag value o with
          | None | Some None => None
          | Some (Some o) => parse_ctl_options rest o
          end
      end
  end.

(** ** Remote commands *)

Section commands.
(** The socket to the coordinator and what the random source answers. *)
Variable stream : Result TcpStream.
Variable draws : Z * Z.

Definition connect_remote (o : CtlOptions) : Result Client :=
  connect (MkClientConfig (text "itfctl") (text (co_token o)) kVersionString (256 * 1024)) draws stream.

(** A command that connects and makes one call. *)
Definition remote_command {A} (o : CtlOptions) (call : Client → Result A * Client) : Z :=
  match connect_remote o with
  | Failure _ => 1
  | Success client => if ok (call client).1 then 0 else 1
  end.

Definition command_status (o : CtlOptions) : Z := remote_command o client_status.
Definition command_accounting (o : CtlOptions) : Z := remote_command o client_accounting.
Definition command_policy (o : CtlOptions) : Z := remote_command o client_policy.

Definition ctl_request (o : CtlOptions) (stage : ServingStage) (traffic : TrafficClass) (hello : HelloResponse)
    : TrafficRequest :=
  empty_request <| tr_declared_class := traffic |> <| tr_declared_stage := stage |>
    <| tr_payload_bytes := co_bytes o |> <| tr_direction := FlowDirection.Ingress |>
    <| tr_binding := MkBinding None None None None None None (Some (hr_policy_generation hello)) (Some (hr_epoch hello)) |>.

Definition command_evaluate (o : CtlOptions) : Z :=
  match serving_stage_from_label (co_stage o), traffic_class_from_label (co_traffic_class o) with
  | Some stage, Some traffic =>
      remote_command o (fun client => client_evaluate (ctl_request o stage traffic (ct_hello client)) client)
  | _, _ => 2
  end.

End commands.

Definition command_snapshot_info `{!Kernel} (path : string) (d : Disk) : Z * Disk :=
  let store := MkStore path kMaxSnapshotPayloadBytes in
  match load_raw store d with
  | (Failure _, d) => (1, d)
  | (Success _, d) =>
      match load_snapshot store d with
      | (Failure _, d) => (1, d)
      | (Success _, d) => (0, d)
      end
  end.

Definition command_accel_probe (backend : option Cuda) (no_kernel : bool) : Z :=
  if ok (probe backend (negb no_kernel)) then 0 else 3.

(** The entry point, over the arguments after the name of the program; [backend] is
    the accelerator back end of the build, if it has one. *)
Definition ctl_main `{!Kernel, !HashOrder} (arguments : list string) (boot_draws : Z * Z) (stream : Result TcpStream)
    (draws : Z * Z) (backend : option Cuda) (d : Disk) : Z :=
  let with_options rest (command : CtlOptions → Z) :=
    match parse_ctl_options rest default_ctl_options with Some o => command o | None => 2 end in
  match arguments with
  | [] => 2
  | command :: rest =>
      if String.eqb command "version" then 0
      else if String.eqb command "help" || String.eqb command "--help" || String.eqb command "-h" then 0
      else if String.eqb command "accel-probe" then
        with_options rest (fun o => command_accel_probe backend (co_no_kernel o))
      else if String.eqb command "simulate" then
        match rest with [] => 2 | name :: _ => run_scenario boot_draws name end
      else if String.eqb command "snapshot-info" then
        match rest with [] => 2 | path :: _ => (command_snapshot_info path d).1 end
      else if String.eqb command "status" then with_options rest (command_status stream draws)
      else if String.eqb command "accounting" then with_options rest (command_accounting stream draws)
      else if String.eqb command "policy" then with_options rest (command_policy stream draws)
      else if String.eqb command "evaluate" then with_options rest (command_evaluate stream draws)
      else 2
  end.
