(* ===== verification/Examples.v ===== *)
(** * The example programs and the consumer

    Models examples/itf_example_lifecycle.cpp, examples/itf_example_policy.cpp,
    examples/itf_example_transport.cpp, examples/itf_example_accel.cpp and
    consumer/main.cpp. The programs with a coordinator of their own are written in the
    monad of the scenarios; what they print is left out but for the decisions and
    outcomes that their printing reports. [value()] of a failure is undefined in the
    source; the model leaves with [kUndefined]. The transport example runs a second
    [MessageHandler] behind a session and talks to it over loopback: a call writes its
    frame, the session takes a turn on it, and the call reads what the session wrote. *)

From S2P Require Import Prelude Ids Traffic Decision Policy Bytes Codec Wire Ledger Coordinator Evaluate Flows CoordAudit.
From S2P Require Import CodecProps PolicyCodec Format Serialize Messages Snapshot Net Session Service Client Tools Accel.
From S2P Require Import Scenarios.
From Stdlib Require Import String Ascii.
#[local] Open Scope Z_scope.
Import Datatypes.

#[export] Instance tr_set_model_hash : Setter tr_model_hash. Proof. mk_setter. Defined.
#[export] Instance gb_set_model : Setter gb_model_generation. Proof. mk_setter. Defined.
#[export] Instance gb_set_slo : Setter gb_slo_contract. Proof. mk_setter. Defined.

#[local] Abbreviation Play := (Run Harness).

(** ** What the programs share *)

(** The subject that each program fills in, of generation 1. *)
Definition serving_subject (request : RequestId) (attempt : AttemptId) (generation : Z) : TrafficSubject :=
  MkSubject SubjectKind.Serving request attempt generation nil_id.

Definition issue (request : RequestId) (attempt : AttemptId) (node : Z) (lateral handoff : bool)
    : Play (Result RouteDecision) :=
  play (fun c _ => issue_route_decision c request attempt node lateral handoff).

Definition contract (request : RequestId) (budget deadline share : Z) : Play (Result SloContract) :=
  play (fun c _ => register_slo_contract c request budget deadline share).

Definition to_stage (request : RequestId) (attempt : AttemptId) (stage : ServingStage) : Play Status :=
  play (fun c now => coord_advance_stage c request attempt stage now).

(** The generations that a binding takes from a route decision and a contract. *)
Definition route_of (m : Play (Result RouteDecision)) : Play Z :=
  let^ r := m in let^ r := value_of r in run_ret (rd_generation r).
Definition contract_of (m : Play (Result SloContract)) : Play Z :=
  let^ s := m in let^ s := value_of s in run_ret (slo_generation s).

(** A measured node with one accelerator. *)
Definition one_node (max_age_nanos : Z) : TopologyEvidence :=
  MkTopology 0 EvidenceProvenance.Measured nil_id 0 max_age_nanos 1 1 0 25000000000 0 false false.

(** What a program leaves: its value, or the code it left with; [draws] is what the
    random source answers to the boot. *)
Definition run_program {A} (config : CoordinatorConfig) (draws : Z * Z) (m : Play A) : A + Z :=
  (m (make_harness config draws)).1.

(** ** examples/itf_example_lifecycle.cpp *)

Module Lifecycle.
Section lifecycle.
Context `{!HashOrder}.

Definition request : RequestId := MkId 0xDEADBEEFCAFEBABE 0x0123456789ABCDEF.
Definition first_attempt : AttemptId := MkId 0xA000000000000001 0x0000000000000001.
Definition second_attempt : AttemptId := MkId 0xA000000000000002 0x0000000000000002.

Definition config : CoordinatorConfig :=
  default_config <| cf_limits := default_coordinator_limits <| cl_ledger :=
    default_ledger_limits <| ll_max_retained_terminal_requests := 4 |> |> |>.

(** Up to the failure of the first attempt: the message, the generation of the
    attempt, the decision, whether the flow opened, and whether the failure was
    recorded. *)
Definition prefill : Play (TrafficRequest * Result Z * Decision * bool * bool) :=
  let^ _ := play (fun c now => publish_topology c (one_node 1000000000) now) in
  let^ _ := play (fun c _ => set_model_generation c kModelHash None) in
  let^ _ := play (fun c _ => advance_state_generation c kStateHash None) in
  let^ _ := play (fun c now => coord_register_request c request now) in
  let^ attempt := play (fun c now => coord_register_attempt c request first_attempt kModelHash now) in
  let^ _ := issue request first_attempt 0 false true in
  let^ _ := contract request 40000000 40000000 250 in
  let^ _ := to_stage request first_attempt ServingStage.Admitted_ in
  let^ _ := to_stage request first_attempt ServingStage.PrefillQueued in
  let^ policy := look (fun c => pc_generation (C_policy c)) in
  let^ epoch := look C_epoch in
  let^ model := look (fun c => require_model_generation_locked c kModelHash) in
  let^ model := value_of model in
  let^ route := route_of (issue request first_attempt 0 false true) in
  let^ slo := contract_of (contract request 40000000 40000000 250) in
  let^ now := clock_now in
  let message := empty_request
    <| tr_subject := Some (serving_subject request first_attempt 1) |>
    <| tr_declared_class := TrafficClass.PrefillInput |> <| tr_declared_stage := ServingStage.PrefillQueued |>
    <| tr_direction := FlowDirection.Ingress |> <| tr_payload_bytes := 2 ^ 21 |>
    <| tr_deadline := Instant_from_now now 40000000 |>
    <| tr_binding := MkBinding None (Some model) None (Some route) (Some slo) None (Some policy) (Some epoch) |> in
  let^ admitted := evaluate message in
  let^ flow := open_decision admitted (tr_payload_bytes message) in
  let^ id := value_of flow in
  let^ _ := play (fun c _ => coord_record_flow_bytes c id (tr_payload_bytes message) true) in
  let^ failed := play (fun c now => coord_fail_attempt c request first_attempt ReasonCode.AttemptFailed now) in
  run_ret (message, attempt, admitted, ok flow, match failed with Some (Failure _) => false | _ => true end).

(** The completion that comes too late. *)
Definition late_publication (message : TrafficRequest) (attempt : Result Z) : Play PublishOutcome :=
  let^ generation := value_of attempt in
  let^ late := publish (MkPublication request first_attempt generation true ReasonCode.Unknown (tr_payload_bytes message) 0) in
  value_of late.

(** The replacement: its generation, and what traffic of the retired attempt gets. *)
Definition replacement (message : TrafficRequest) : Play (Z * Decision) :=
  let^ replaced := play (fun c now => coord_replace_attempt c request first_attempt second_attempt kModelHash now) in
  let^ generation := value_of replaced in
  let^ retired := evaluate message in
  run_ret (generation, retired).

Definition retry (message : TrafficRequest) : Play Decision :=
  let^ record := look (fun c => snapshot_request (C_ledger c) request) in
  let^ record := match record with Some r => run_ret r | None => leave kUndefined end in
  let^ route := route_of (issue request second_attempt 0 false true) in
  let^ slo := contract_of (contract request 40000000 40000000 250) in
  let^ now := clock_now in
  evaluate (message
    <| tr_subject := Some (serving_subject request second_attempt (rr_generation record)) |>
    <| tr_declared_stage := ServingStage.Unknown |> <| tr_declared_class := TrafficClass.Control |>
    <| tr_deadline := Instant_from_now now 40000000 |>
    <| tr_binding := (tr_binding message) <| gb_route_decision := Some route |> <| gb_slo_contract := Some slo |> |>).

Fixpoint to_stages (stages : list ServingStage) : Play unit :=
  match stages with
  | [] => run_ret tt
  | stage :: stages => let^ _ := to_stage request second_attempt stage in to_stages stages
  end.

(** The whole of [main] with the outcomes it prints. *)
Definition main : Play (PublishOutcome * PublishOutcome * PublishOutcome * Status) :=
  let^ (message, attempt, _, _, _) := prefill in
  let^ late := late_publication message attempt in
  let^ (generation, _) := replacement message in
  let^ _ := retry message in
  let^ _ := to_stages [ServingStage.Admitted_; ServingStage.PrefillQueued; ServingStage.PrefillRunning;
    ServingStage.HandoffPending; ServingStage.DecodeQueued; ServingStage.DecodeRunning; ServingStage.Streaming;
    ServingStage.Completing] in
  let success := MkPublication request second_attempt generation true ReasonCode.Unknown (tr_payload_bytes message) (2 ^ 16) in
  let^ outcome := publish success in
  let^ outcome := value_of outcome in
  let^ duplicate := publish success in
  let^ duplicate := value_of duplicate in
  let^ invariants := look verify_invariants in
  run_ret (late, outcome, duplicate, invariants).
End lifecycle.
End Lifecycle.

(** ** examples/itf_example_policy.cpp *)

Module PolicyExample.
Section policy.
Context `{!HashOrder}.

Definition kModelHash : Z := 0xABCDEF0123456789.
Definition kStateHash : Z := 0x0F1E2D3C4B5A6978.
Definition request : RequestId := MkId 0x0011223344556677 0x8899AABBCCDDEEFF.
Definition attempt : AttemptId := MkId 0x0102030405060708 0x090A0B0C0D0E0F10.

Definition topology : TopologyEvidence :=
  MkTopology 0 EvidenceProvenance.Synthetic nil_id 0 5000000000 2 2 1 (100 * 1000 * 1000 * 1000) 0 false true.

(** The lambda [make_request]. *)
Definition make_request (traffic : TrafficClass) (stage : ServingStage) (bytes : Z) : Play TrafficRequest :=
  let^ policy := look (fun c => pc_generation (C_policy c)) in
  let^ epoch := look C_epoch in
  let^ model := look (fun c => require_model_generation_locked c kModelHash) in
  let^ model := value_of model in
  let^ state := look (fun c => require_state_generation_locked c kStateHash) in
  let^ state := value_of state in
  let^ now := clock_now in
  run_ret (empty_request
    <| tr_subject := Some (serving_subject request attempt 1) |>
    <| tr_declared_class := traffic |> <| tr_declared_stage := stage |>
    <| tr_direction := FlowDirection.Lateral |> <| tr_payload_bytes := bytes |> <| tr_model_hash := kModelHash |>
    <| tr_binding := MkBinding None (Some model) (Some state) None None None (Some policy) (Some epoch) |>
    <| tr_deadline := Instant_from_now now 25000000 |>).

Definition prepare : Play Z :=
  let^ generation := play (fun c now => publish_topology c topology now) in
  let^ generation := value_of generation in
  let^ _ := play (fun c _ => set_model_generation c kModelHash None) in
  let^ _ := play (fun c _ => advance_state_generation c kStateHash None) in
  let^ _ := play (fun c now => coord_register_request c request now) in
  let^ _ := play (fun c now => coord_register_attempt c request attempt kModelHash now) in
  let^ _ := issue request attempt 1 false true in
  let^ _ := contract request 25000000 25000000 200 in
  run_ret generation.

(** The decisions it prints, in order, and the audit. *)
Definition main : Play (list Decision * Status) :=
  let^ _ := prepare in
  let^ early := make_request TrafficClass.RequestIngress ServingStage.Unknown 4096 in
  let^ before := evaluate early in
  let^ _ := to_stage request attempt ServingStage.Admitted_ in
  let^ ingress := make_request TrafficClass.RequestIngress ServingStage.Admitted_ 4096 in
  let^ route := route_of (issue request attempt 1 false true) in
  let^ slo := contract_of (contract request 25000000 25000000 200) in
  let ingress := with_binding (fun b => b <| gb_route_decision := Some route |> <| gb_slo_contract := Some slo |>) ingress in
  let^ admitted := evaluate ingress in
  let^ wrong_stage := evaluate (ingress <| tr_declared_stage := ServingStage.PrefillRunning |>) in
  let^ wrong_class := evaluate (ingress <| tr_declared_class := TrafficClass.DecodeStream |>) in
  let^ stale_policy := evaluate (with_binding (fun b => b <| gb_policy := Some 42 |>) ingress) in
  let^ stale_model := evaluate ((with_binding (fun b => b <| gb_model_generation := Some 9 |>) ingress)
    <| tr_declared_class := TrafficClass.PrefillInput |>) in
  let^ now := clock_now in
  let^ expired := evaluate (ingress <| tr_deadline := now - 1 |>) in
  let^ invariants := look verify_invariants in
  run_ret ([before; admitted; wrong_stage; wrong_class; stale_policy; stale_model; expired], invariants).
End policy.
End PolicyExample.

(** ** examples/itf_example_accel.cpp

    The label of a probe that failed is read from a result that holds none. *)

Definition accel_main (backend : option Cuda) : CapabilityLabel.t + Z :=
  match probe backend true with
  | Failure _ => inr kUndefined
  | Success p => inl (ap_label p)
  end.

(** ** consumer/main.cpp *)

Module Consumer.
Section consumer.
Context `{!Kernel, !HashOrder}.

Definition kModelHash : Z := 0xABCDEF0011223344.
Definition request : RequestId := MkId 0x1111222233334444 0x5555666677778888.
Definition attempt : AttemptId := MkId 0x9999AAAABBBBCCCC 0xDDDDEEEEFFFF0000.

(** Up to the audit: its verdict and the exported state. *)
Definition serve_one : Play (Decision * PublishOutcome * Status * PersistedCoordinatorState) :=
  let^ _ := play (fun c now => publish_topology c (one_node 1000000000) now) in
  let^ _ := play (fun c _ => set_model_generation c kModelHash None) in
  let^ _ := play (fun c now => coord_register_request c request now) in
  let^ _ := play (fun c now => coord_register_attempt c request attempt kModelHash now) in
  let^ _ := issue request attempt 0 false false in
  let^ _ := contract request 30000000 30000000 200 in
  let^ _ := to_stage request attempt ServingStage.Admitted_ in
  let^ policy := look (fun c => pc_generation (C_policy c)) in
  let^ epoch := look C_epoch in
  let^ route := route_of (issue request attempt 0 false false) in
  let^ slo := contract_of (contract request 30000000 30000000 200) in
  let^ now := clock_now in
  let message := empty_request
    <| tr_subject := Some (serving_subject request attempt 1) |>
    <| tr_declared_class := TrafficClass.RequestIngress |> <| tr_declared_stage := ServingStage.Admitted_ |>
    <| tr_payload_bytes := 4096 |>
    <| tr_binding := MkBinding None None None (Some route) (Some slo) None (Some policy) (Some epoch) |>
    <| tr_deadline := Instant_from_now now 30000000 |> in
  let^ decision := evaluate message in
  let^ flow := open_decision decision (tr_payload_bytes message) in
  match flow with
  | Failure _ => leave 1
  | Success flow =>
      let^ _ := play (fun c _ => coord_record_flow_bytes c flow (tr_payload_bytes message) true) in
      let^ outcome := publish (MkPublication request attempt 1 true ReasonCode.Unknown (tr_payload_bytes message) 0) in
      let^ outcome := value_of outcome in
      let^ invariants := look verify_invariants in
      let^ state := look export_state in
      run_ret (decision, outcome, invariants, state)
  end.

Definition store : SnapshotStore := MkStore "consumer-snapshot.bin" kMaxSnapshotPayloadBytes.

(** The rest: the snapshot is saved, loaded and removed, and a probe without the
    kernel is asked for its label. *)
Definition main (draws : Z * Z) (backend : option Cuda) (d : Disk) : Z * Disk :=
  match run_program default_config draws serve_one with
  | inr code => (code, d)
  | inl (_, _, invariants, state) =>
      let '(saved, d) := save store state d in
      let '(loaded, d) := load_snapshot store d in
      let d := remove_file (sn_path store) d in
      match probe backend false with
      | Failure _ => (kUndefined, d)
      | Success _ => (if ok invariants && ok saved && ok loaded then 0 else 1, d)
      end
  end.
End consumer.
End Consumer.

(** ** examples/itf_example_transport.cpp *)

Module Transport.
Definition kModelHash : Z := 0x2222333344445555.
Definition secret : string := "example-shared-secret".

(** *** [ExampleHandler] *)

(** The body of a message: what follows it is not looked at. *)
Definition decode_request {A} (payload : list Z) (decoder : Reader.t → Result A * Reader.t) : Result A :=
  (decoder (Reader.make payload kMaxFramePayloadBytes)).1.

(** [encode] *)
Definition encode_response (fn : Writer.t → Writer.t) : Result (list Z) :=
  let writer := fn (Writer.make kMaxFramePayloadBytes) in
  if Writer.ok writer then Success (Writer.buffer writer) else Failure (Writer.failure writer).

Section handler.
Context `{!HashOrder}.

(** A case of the switch: decode, call the coordinator at the time its clock shows,
    and answer. *)
Definition case {A B} (payload : list Z) (decoder : Reader.t → Result A * Reader.t)
    (call : A → Coordinator → Z → Result B * Coordinator) (response : A → B → Coordinator → Writer.t → Writer.t)
    (h : Harness) : Result (list Z) * Harness :=
  match decode_request payload decoder with
  | Failure e => (Failure e, h)
  | Success body =>
      let '(outcome, c) := call body (hs_coordinator h) (hs_clock h) in
      let h := h <| hs_coordinator := c |> in
      match outcome with
      | Failure e => (Failure e, h)
      | Success x => (encode_response (response body x c), h)
      end
  end.

Definition example_handle (type : Z) (payload : list Z) (h : Harness) : Result (list Z) * Harness :=
  if type ≟ MessageType.RegisterRequest then
    case payload decode_register_request (fun body c now => coord_register_request c (rq_request body) now)
      (fun body generation c =>
        encode_register_request_response (MkRegisterRequestResponse (rq_request body) generation (current_stamp c))) h
  else if type ≟ MessageType.RegisterAttempt then
    case payload decode_register_attempt
      (fun body c now => coord_register_attempt c (aq_request body) (aq_attempt body) (aq_model_hash body) now)
      (fun body generation c => encode_register_attempt_response
        (MkRegisterAttemptResponse (aq_request body) (aq_attempt body) generation 0 0 0 (current_stamp c))) h
  else if type ≟ MessageType.StageUpdate then
    case payload decode_stage_update
      (fun body c now => coord_advance_stage c (su_request body) (su_attempt body) (su_stage body) now)
      (fun _ _ _ => encode_simple_ack (MkAck StatusCode.Ok [])) h
  else if type ≟ MessageType.EvaluateTraffic then
    case payload decode_evaluate_traffic
      (fun request c now => let '(decision, c) := evaluate_locked c request now in (Success decision, c))
      (fun _ decision _ => encode_decision_response decision) h
  else if type ≟ MessageType.CompletionPublish then
    case payload decode_completion_publish (fun publication c now => coord_publish_completion c publication now)
      (fun _ outcome _ => encode_completion_response outcome) h
  else if type ≟ MessageType.AccountingQuery then
    (encode_response (encode_accounting_response (accounting (hs_coordinator h))), h)
  else (Failure StatusCode.Unsupported, h).

Definition example_describe (h : Harness) (response : HelloResponse) : HelloResponse :=
  let stamp := current_stamp (hs_coordinator h) in
  MkHelloResponse (hr_protocol_version response) (hr_server_api_version response) (hr_session response)
    (hr_peer response) (st_incarnation stamp) (st_epoch stamp) (st_policy stamp)
    (hr_topology_generation response) (hr_topology_state response) (hr_max_frame_payload response)
    (st_sequence stamp) (hr_server_version response).

#[export] Instance example_handler : MessageHandler Harness := {
  handle _ type payload h := example_handle type payload h;
  describe_authority h response := example_describe h response;
  on_session_closed _ h := h;
}.

(** *** [main] *)

Definition server_config : ServerConfig :=
  MkServerConfig 32 (256 * 1024) 30000000000 1000000000 (text secret) true.
Definition client_config : ClientConfig :=
  MkClientConfig (text "example-client") (text secret) kVersionString (256 * 1024).

Definition request : RequestId := MkId 0x777788889999AAAA 0xBBBBCCCCDDDDEEEE.
Definition attempt : AttemptId := MkId 0x1234123412341234 0x5678567856785678.

(** The coordinator before the server starts. *)
Definition prepare : Play unit :=
  let^ _ := play (fun c _ => set_model_generation c kModelHash None) in
  let^ _ := play (fun c now => publish_topology c (one_node 5000000000) now) in
  run_ret tt.

(** The two ends of the connection; the coordinator is the session's handler. *)
Record Ends := MkEnds {
  en_client : Client;
  en_session : Session Harness;
}.

(** What the random source answers to the session and to the client, and the text
    of an error. *)
Variable session_draws : (Z * Z) * (Z * Z).
Variable client_draws : Z * Z.
Variable describe : StatusCode.t → list Z.

(** A stream on which nothing but these bytes arrives. *)
Definition arriving (bytes : list Z) (stream : TcpStream) : TcpStream :=
  stream <| ts_arrivals := match bytes with [] => [] | _ => [Data bytes] end |>.

Definition client_hears (bytes : list Z) (c : Client) : Client := c <| ct_stream := arriving bytes (ct_stream c) |>.

(** What a call writes before it waits for its answer. *)
Definition written {A} (op : Client → A * Client) (c : Client) : list Z :=
  drop (length (ts_sent (ct_stream c))) (ts_sent (ct_stream (op (client_hears [] c)).2)).

(** The turn that the session takes on these bytes, and what it writes. *)
Definition turn_on (bytes : list Z) (s : Session Harness) : list Z * Session Harness :=
  match bytes with
  | [] => ([], s)
  | _ =>
      let '(_, s') := serve_turn server_config session_draws describe (s <| se_stream := arriving bytes (se_stream s) |>) in
      (drop (length (ts_sent (se_stream s))) (ts_sent (se_stream s')), s')
  end.

(** A call over loopback. *)
Definition remote {A} (op : Client → A * Client) : Run Ends A := fun e =>
  let '(answer, s) := turn_on (written op (en_client e)) (en_session e) in
  let '(r, c) := op (client_hears answer (en_client e)) in
  (inl r, MkEnds c s).

(** A call of the program on its own coordinator. *)
Definition local {A} (m : Play A) : Run Ends A := fun e =>
  let '(r, h) := m (se_handler (en_session e)) in
  (r, MkEnds (en_client e) ((en_session e) <| se_handler := h |>)).

Definition new_stream : TcpStream := MkStream [] [] [].

(** The connection: the greeting reaches a new session, and its answer the client. *)
Definition connect_ends (h : Harness) : Result Ends :=
  let s := new_session server_config new_stream empty_stats h in
  let '(answer, s) := turn_on (written (handshake client_config client_draws) (new_client new_stream)) s in
  match connect client_config client_draws (Success (arriving answer new_stream)) with
  | Failure e => Failure e
  | Success c => Success (MkEnds c s)
  end.

(** The message that the client sends, bound through the local coordinator. *)
Definition bound_message : Run Ends TrafficRequest :=
  let^ hello := fun e => (inl (ct_hello (en_client e)), e) in
  let^ _ := local (issue request attempt 0 false false) in
  let^ _ := local (contract request 30000000 30000000 200) in
  let^ record := local (look (fun c => snapshot_request (C_ledger c) request)) in
  let^ route := match record with
    | None => leave kUndefined
    | Some r =>
        if is_nil (rr_current_attempt r) then run_ret None
        else let^ g := local (route_of (issue request attempt 0 false false)) in run_ret (Some g)
    end in
  let^ slo := local (contract_of (contract request 30000000 30000000 200)) in
  run_ret (empty_request
    <| tr_subject := Some (serving_subject request attempt 1) |>
    <| tr_declared_class := TrafficClass.RequestIngress |> <| tr_declared_stage := ServingStage.Admitted_ |>
    <| tr_payload_bytes := 8192 |>
    <| tr_binding := MkBinding None None None route (Some slo) None
         (Some (hr_policy_generation hello)) (Some (hr_epoch hello)) |>).

(** From the first call to the last: the decision, the outcome and the accounting
    that it prints. *)
Definition talk : Run Ends (Decision * PublishOutcome * AccountingSnapshot) :=
  let^ _ := remote (client_register_request request 5000000000) in
  let^ registered := remote (client_register_attempt request attempt kModelHash) in
  match registered with
  | Failure _ => leave 1
  | Success registered =>
      let^ _ := remote (client_advance_stage request attempt ServingStage.Admitted_) in
      let^ message := bound_message in
      let^ decision := remote (client_evaluate message) in
      match decision with
      | Failure _ => leave 1
      | Success decision =>
          let^ outcome := remote (client_publish_completion
            (MkPublication request attempt (ar_generation registered) true ReasonCode.Unknown 8192 0)) in
          let^ outcome := match outcome with Success o => run_ret o | Failure _ => leave kUndefined end in
          let^ snapshot := remote client_accounting in
          let^ snapshot := match snapshot with Success s => run_ret s | Failure _ => leave kUndefined end in
          run_ret (decision, outcome, snapshot)
      end
  end.

(** The exit code, and what was printed when it is zero; [server_start] is what
    starting the server answers. *)
Definition main (draws : Z * Z) (server_start : Status)
    : (Decision * PublishOutcome * AccountingSnapshot) + Z :=
  let '(_, h) := prepare (make_harness default_config draws) in
  match server_start with
  | Failure _ => inr 1
  | Success _ =>
      match connect_ends h with
      | Failure _ => inr 1
      | Success ends => (talk ends).1
      end
  end.
End handler.
End Transport.
