(* ===== verification/Sockets.v ===== *)
(** * Opening and closing sockets

    Models the rest of include/itf/net.hpp and src/net.cpp, in its POSIX branches:
    connecting, binding, accepting, closing and moving. What the system calls answer
    for one address is a record, [Candidate] or [BindCandidate]; the descriptors the
    process has open are a set, into which opening puts a handle and from which
    closing takes it. The theorem of the file is that no path leaks a descriptor. *)

From S2P Require Import Prelude Bytes Codec Net Tools.
From stdpp Require Import strings gmap.
#[local] Open Scope Z_scope.
Import Datatypes.

Definition kInvalidHandle : Z := -1.

(** The descriptors that are open. *)
Abbreviation Handles := (gset Z).

Definition is_valid (handle : Z) : bool := handle ≠? kInvalidHandle.

Definition close_native (handle : Z) (handles : Handles) : Handles :=
  if negb (is_valid handle) then handles else handles ∖ {[handle]}.

(** [socket] and [accept] open the handle they answer. *)
Definition opened (handle : Z) (handles : Handles) : Handles :=
  if is_valid handle then {[handle]} ∪ handles else handles.

(** The two calls of [set_blocking]: whether each succeeds. *)
Record FlagCalls := MkFlagCalls { fc_get : bool; fc_set : bool }.

Definition set_blocking (calls : FlagCalls) : Status :=
  if negb (fc_get calls) then Failure StatusCode.IoError
  else if negb (fc_set calls) then Failure StatusCode.IoError
  else Success tt.

(** The time that [wait_socket] gives [select]: seconds and microseconds. *)
Definition select_timeout (timeout_nanos : Z) : Z * Z :=
  let bounded := clamp_select_timeout timeout_nanos in
  (Z.quot bounded 1000000000, Z.quot (Z.rem bounded 1000000000) 1000).

(** [wait_socket], when [select] answers [selected] for that time. *)
Definition wait_socket (handle : Z) (timeout_nanos : Z) (selected : Z * Z → Z) : Z :=
  if negb (is_valid handle) then -1 else selected (select_timeout timeout_nanos).

Inductive Family : Type := Inet | Inet6 | OtherFamily.

(** An address: its family, what [inet_ntop] makes of it, and its port. *)
Record Endpoint := MkEndpoint { en_family : Family; en_text : option string; en_port : Z }.

Definition format_endpoint (e : Endpoint) : string :=
  match en_family e with
  | OtherFamily => "unknown"
  | _ => match en_text e with None => "unknown" | Some host => (host +:+ ":" +:+ number (en_port e)) end
  end.

(** The port of an address of a known family, as [local_port], [remote_port] and
    [bind] read it. *)
Definition port_of (answer : option Endpoint) : Z :=
  match answer with
  | Some e => match en_family e with OtherFamily => 0 | _ => en_port e end
  | None => 0
  end.

(** ** Streams *)

Record Stream := MkStreamHandle { sm_handle : Z; sm_peer : string }.

Definition no_stream : Stream := MkStreamHandle kInvalidHandle "".
Definition stream_valid (s : Stream) : bool := sm_handle s ≠? kInvalidHandle.

(** [close]; the shutdown before it keeps the descriptor. *)
Definition stream_close (s : Stream) (handles : Handles) : Stream * Handles :=
  (MkStreamHandle kInvalidHandle (sm_peer s), close_native (sm_handle s) handles).

(** Move construction: the new stream, and what is left of the old one. *)
Definition stream_move (other : Stream) : Stream * Stream := (other, no_stream).

(** Move assignment to a stream that is not [other]. *)
Definition stream_assign (s other : Stream) (handles : Handles) : Stream * Stream * Handles :=
  let '(_, handles) := stream_close s handles in (other, no_stream, handles).

Definition stream_local_port (s : Stream) (answer : option Endpoint) : Z :=
  if negb (stream_valid s) then 0 else port_of answer.
Definition stream_remote_port (s : Stream) (answer : option Endpoint) : Z :=
  if negb (stream_valid s) then 0 else port_of answer.

Definition wait_readable (s : Stream) (timeout_nanos : Z) (selected : Z * Z → Z) : bool :=
  wait_socket (sm_handle s) timeout_nanos selected ≟ 1.

(** *** Connecting *)

(** What the system answers for one address. *)
Record Candidate := MkCandidate {
  ca_socket : Z;
  ca_nonblocking : FlagCalls;
  ca_connect : Z;
  ca_would_block : bool;
  ca_select : Z * Z → Z;
  (** The error that [getsockopt] reads, unless it fails. *)
  ca_error : option Z;
  ca_blocking : FlagCalls;
  ca_local : option Endpoint;
}.

(** The result of [connect] on the handle, after the wait. *)
Definition connect_result (c : Candidate) (connect_timeout_nanos : Z) : Z :=
  if (ca_connect c ≠? 0) && ca_would_block c then
    if (wait_socket (ca_socket c) connect_timeout_nanos (ca_select c) ≟ 1) && (ca_error c ≟ Some 0) then 0
    else ca_connect c
  else ca_connect c.

(** One turn of the loop over the addresses. *)
Definition try_connect (host : string) (port connect_timeout_nanos : Z) (c : Candidate) (handles : Handles)
    : Result Stream * Handles :=
  let handle := ca_socket c in
  let handles := opened handle handles in
  if negb (is_valid handle) then (Failure StatusCode.IoError, handles)
  else match set_blocking (ca_nonblocking c) with
  | Failure e => (Failure e, close_native handle handles)
  | Success _ =>
      if connect_result c connect_timeout_nanos ≠? 0 then (Failure StatusCode.NotFound, close_native handle handles)
      else match set_blocking (ca_blocking c) with
      | Failure e => (Failure e, close_native handle handles)
      | Success _ =>
          let description := match ca_local c with
            | Some local => format_endpoint local
            | None => host +:+ ":" +:+ number port
            end in
          (Success (MkStreamHandle handle description), handles)
      end
  end.

Fixpoint connect_any (host : string) (port connect_timeout_nanos : Z) (candidates : list Candidate)
    (last_failure : StatusCode.t) (handles : Handles) : Result Stream * Handles :=
  match candidates with
  | [] => (Failure last_failure, handles)
  | c :: rest =>
      match try_connect host port connect_timeout_nanos c handles with
      | (Success s, handles) => (Success s, handles)
      | (Failure e, handles) => connect_any host port connect_timeout_nanos rest e handles
      end
  end.

(** [TcpStream::connect]; [None] is a failure of [getaddrinfo]. *)
Definition tcp_connect (host : string) (port connect_timeout_nanos : Z) (resolved : option (list Candidate))
    (handles : Handles) : Result Stream * Handles :=
  match resolved with
  | None => (Failure StatusCode.InvalidArgument, handles)
  | Some candidates => connect_any host port connect_timeout_nanos candidates StatusCode.IoError handles
  end.

(** *** Single reads and writes *)

Definition read_some (size : nat) (s : TcpStream) : Result (list Z) * TcpStream :=
  let consume rest := s <| ts_arrivals := rest |> in
  match ts_arrivals s with
  | Stopped :: _ => (Failure StatusCode.Closed, s)
  | arrivals =>
      if (size =? 0)%nat then (Success [], s)
      else match arrivals with
      | [] => (Failure StatusCode.NotFound, s)
      | Elapsed :: rest => (Failure StatusCode.NotFound, consume rest)
      | WaitFailed :: rest => (Failure StatusCode.Closed, consume rest)
      | ReceiveFailed :: rest => (Failure StatusCode.IoError, consume rest)
      | Stopped :: _ => (Failure StatusCode.Closed, s)
      | Data bytes :: rest =>
          (Success (take size bytes),
           consume (if (length bytes <=? size)%nat then rest else Data (drop size bytes) :: rest))
      end
  end.

(** [write] on a stream with or without a handle. *)
Definition write_some (valid : bool) (buffer : list Z) (s : TcpStream) : Result Z * TcpStream :=
  if negb valid then (Failure StatusCode.Closed, s)
  else match buffer, ts_deliveries s with
  | [], _ => (Success 0, s)
  | _, [] => (Success (len buffer), s <| ts_sent := ts_sent s ++ buffer |>)
  | _, Sent count :: rest =>
      let s := s <| ts_deliveries := rest |> in
      if count <? 0 then (Failure StatusCode.IoError, s)
      else
        let taken := (Z.to_nat count `min` length buffer)%nat in
        (Success (Z.of_nat taken), s <| ts_sent := ts_sent s ++ take taken buffer |>)
  | _, Blocked _ :: rest => (Failure StatusCode.IoError, s <| ts_deliveries := rest |>)
  end.

(** ** Listeners *)

Record Listener := MkListener { li_handle : Z; li_port : Z }.

Definition listener_valid (l : Listener) : bool := li_handle l ≠? kInvalidHandle.

(** What the system answers for one address to bind. *)
Record BindCandidate := MkBindCandidate {
  bc_socket : Z;
  bc_bind : Z;
  bc_listen : Z;
  bc_local : option Endpoint;
}.

Definition try_bind (c : BindCandidate) (handles : Handles) : Result Listener * Handles :=
  let handle := bc_socket c in
  let handles := opened handle handles in
  if negb (is_valid handle) then (Failure StatusCode.IoError, handles)
  else if bc_bind c ≠? 0 then (Failure StatusCode.IoError, close_native handle handles)
  else if bc_listen c ≠? 0 then (Failure StatusCode.IoError, close_native handle handles)
  else (Success (MkListener handle (port_of (bc_local c))), handles).

Fixpoint bind_any (candidates : list BindCandidate) (last_failure : StatusCode.t) (handles : Handles)
    : Result Listener * Handles :=
  match candidates with
  | [] => (Failure last_failure, handles)
  | c :: rest =>
      match try_bind c handles with
      | (Success l, handles) => (Success l, handles)
      | (Failure e, handles) => bind_any rest e handles
      end
  end.

Definition tcp_bind (resolved : option (list BindCandidate)) (handles : Handles) : Result Listener * Handles :=
  match resolved with
  | None => (Failure StatusCode.InvalidArgument, handles)
  | Some candidates => bind_any candidates StatusCode.IoError handles
  end.

(** [accept]: [accepted] is the handle the system answers and [remote] the peer. *)
Definition tcp_accept (l : Listener) (timeout_nanos : Z) (selected : Z * Z → Z) (accepted : Z) (remote : Endpoint)
    (handles : Handles) : Result Stream * Handles :=
  if negb (listener_valid l) then (Failure StatusCode.Closed, handles)
  else
    let ready := wait_socket (li_handle l) timeout_nanos selected in
    if ready ≟ 0 then (Failure StatusCode.NotFound, handles)
    else if ready <? 0 then (Failure StatusCode.Closed, handles)
    else
      let handles := opened accepted handles in
      if negb (is_valid accepted) then (Failure StatusCode.IoError, handles)
      else (Success (MkStreamHandle accepted (format_endpoint remote)), handles).

Definition listener_close (l : Listener) (handles : Handles) : Listener * Handles :=
  (MkListener kInvalidHandle (li_port l), close_native (li_handle l) handles).

Definition listener_move (other : Listener) : Listener * Listener := (other, MkListener kInvalidHandle 0).

Definition listener_assign (l other : Listener) (handles : Handles) : Listener * Listener * Handles :=
  let '(_, handles) := listener_close l handles in (other, MkListener kInvalidHandle 0, handles).

(** ** Nothing is leaked *)

(** The outcome of an operation that opens a handle of its own: it is the one
    handle more that is open when it succeeds, and there is none when it fails. *)
Definition opens_only {A} (handle_of : A → Z) (handles : Handles) (outcome : Result A * Handles) : Prop :=
  match outcome with
  | (Success x, handles') =>
      is_valid (handle_of x) = true ∧ (handle_of x ∉ handles) ∧ handles' = ({[handle_of x]} ∪ handles)
  | (Failure _, handles') => handles' = handles
  end.

Lemma opened_closed handle handles :
  is_valid handle = true → handle ∉ handles → close_native handle (opened handle handles) = handles.
Proof. intros Hv Hn. unfold close_native, opened. rewrite Hv. cbn [negb]. set_solver. Qed.

Lemma opened_valid handle handles : is_valid handle = true → opened handle handles = {[handle]} ∪ handles.
Proof. intros Hv. unfold opened. by rewrite Hv. Qed.

Lemma try_connect_opens_only host port timeout c handles :
  ca_socket c ∉ handles → opens_only sm_handle handles (try_connect host port timeout c handles).
Proof.
  intros Hn. unfold try_connect. cbv zeta. destruct (is_valid (ca_socket c)) eqn:Ev; cbn [negb];
    [|unfold opened; by rewrite Ev].
  destruct (set_blocking _); [|by apply opened_closed]. case_bool_decide; cbn [negb]; [|by apply opened_closed].
  destruct (set_blocking _); [|by apply opened_closed]. split; [done|]. split; [done|]. by apply opened_valid.
Qed.

Lemma try_bind_opens_only c handles :
  bc_socket c ∉ handles → opens_only li_handle handles (try_bind c handles).
Proof.
  intros Hn. unfold try_bind. cbv zeta. destruct (is_valid (bc_socket c)) eqn:Ev; cbn [negb];
    [|unfold opened; by rewrite Ev].
  do 2 (case_bool_decide; cbn [negb]; [|by apply opened_closed]). split; [done|]. split; [done|]. by apply opened_valid.
Qed.

Lemma connect_any_opens_only host port timeout candidates failure handles :
  Forall (fun c => ca_socket c ∉ handles) candidates →
  opens_only sm_handle handles (connect_any host port timeout candidates failure handles).
Proof.
  intros Hf. revert failure. induction Hf as [|c candidates Hc Hf IH]; intros failure; [done|]. cbn [connect_any].
  pose proof (try_connect_opens_only host port timeout c handles Hc) as Ht.
  destruct (try_connect _ _ _ c handles) as [[s|e] handles']; [done|]. simpl in Ht. subst handles'. apply IH.
Qed.

Lemma bind_any_opens_only candidates failure handles :
  Forall (fun c => bc_socket c ∉ handles) candidates →
  opens_only li_handle handles (bind_any candidates failure handles).
Proof.
  intros Hf. revert failure. induction Hf as [|c candidates Hc Hf IH]; intros failure; [done|]. cbn [bind_any].
  pose proof (try_bind_opens_only c handles Hc) as Ht.
  destruct (try_bind c handles) as [[s|e] handles']; [done|]. simpl in Ht. subst handles'. apply IH.
Qed.

(** A read of data takes the next bytes, at least one when it asks for some, and
    loses none. *)
Lemma read_some_next size s :
  all_data (ts_arrivals s) → ts_arrivals s ≠ [] → (0 < size)%nat →
  ∃ bytes s', read_some size s = (Success bytes, s') ∧ bytes ≠ [] ∧ (length bytes ≤ size)%nat
    ∧ bytes ++ bytes_of (ts_arrivals s') = bytes_of (ts_arrivals s) ∧ all_data (ts_arrivals s').
Proof.
  intros Ha Hne Hs. unfold read_some. destruct (ts_arrivals s) as [|a arrivals]; [done|].
  apply Forall_cons in Ha as [H1 Ha]. destruct a as [[|b bytes]| | | |]; try done.
  rewrite (proj2 (Nat.eqb_neq _ _)) by lia. set (got := b :: bytes). eexists _, _. split; [reflexivity|].
  assert (take size got ≠ []) as Ht by (destruct size; [lia|done]). split; [done|].
  split; [rewrite length_take; lia|]. change (bytes_of (Data got :: arrivals)) with (got ++ bytes_of arrivals).
  destruct (Nat.leb_spec (length got) size) as [Hl|Hl].
  - change (ts_arrivals (s <| ts_arrivals := arrivals |>)) with arrivals. by rewrite firstn_all2.
  - change (ts_arrivals (s <| ts_arrivals := Data (drop size got) :: arrivals |>)) with (Data (drop size got) :: arrivals).
    change (bytes_of (Data (drop size got) :: arrivals)) with (drop size got ++ bytes_of arrivals).
    rewrite app_assoc, take_drop. split; [done|]. constructor; [|done].
    destruct (drop size got) eqn:E; [|done]. apply (f_equal length) in E. rewrite length_drop in E. simpl in E, Hl. lia.
Qed.

(** A time that [select] takes: microseconds below a second, never more than was
    asked for. *)
Lemma select_timeout_sound timeout_nanos :
  let '(seconds, micros) := select_timeout timeout_nanos in
  0 ≤ seconds ≤ 3600 ∧ 0 ≤ micros < 1000000
  ∧ seconds * 1000000000 + micros * 1000 ≤ Z.max 0 timeout_nanos.
Proof.
  unfold select_timeout. set (bounded := clamp_select_timeout timeout_nanos).
  assert (0 ≤ bounded ≤ 3600 * 1000000000 ∧ bounded ≤ Z.max 0 timeout_nanos) as [Hb Hm].
  { unfold bounded, clamp_select_timeout. rewrite Z.gtb_ltb.
    destruct (Z.leb_spec timeout_nanos 0); [lia|]. destruct (Z.ltb_spec (3600 * 1000000000) timeout_nanos); lia. }
  clearbody bounded. rewrite Z.rem_mod_nonneg, !Z.quot_div_nonneg by (try apply Z.mod_pos_bound; lia).
  pose proof (Z.div_mod bounded 1000000000 ltac:(lia)). pose proof (Z.mod_pos_bound bounded 1000000000 ltac:(lia)).
  pose proof (Z.div_mod (bounded mod 1000000000) 1000 ltac:(lia)).
  pose proof (Z.mod_pos_bound (bounded mod 1000000000) 1000 ltac:(lia)). lia.
Qed.

(** Closing what holds an open handle gives back that handle and no other, closing it
    again changes nothing, and so does assigning to it what another object holds. *)
Definition closes {A} (handle : A → Z) (close : A → Handles → A * Handles)
    (assign : A → A → Handles → A * A * Handles) (closed : A) (handles : Handles) : Prop :=
  ∀ x, is_valid (handle x) = true → handle x ∉ handles →
    let '(x', handles') := close x ({[handle x]} ∪ handles) in
    handles' = handles ∧ is_valid (handle x') = false ∧ close x' handles' = (x', handles')
    ∧ ∀ other, assign x other ({[handle x]} ∪ handles) = (other, closed, handles).

(** C21: No path of opening a connection leaks a descriptor: when the handles the system
    hands out are not among those the process has open, connecting, binding and
    accepting leave exactly one more handle open if they succeed, the one in their
    result, and none if they fail, whatever fails on the way and however many addresses
    are tried; closing a stream or a listener gives back its handle and no other and
    leaves it without one, closing it again changes nothing, and assigning another
    object to it closes it first. *)
Theorem sockets_leak_nothing host port timeout resolved bindable listener wait selected accepted remote handles :
  Forall (fun c => ca_socket c ∉ handles) (default [] resolved) →
  Forall (fun c => bc_socket c ∉ handles) (default [] bindable) → accepted ∉ handles →
  opens_only sm_handle handles (tcp_connect host port timeout resolved handles)
  ∧ opens_only li_handle handles (tcp_bind bindable handles)
  ∧ opens_only sm_handle handles (tcp_accept listener wait selected accepted remote handles)
  ∧ closes sm_handle stream_close stream_assign no_stream handles
  ∧ closes li_handle listener_close listener_assign (MkListener kInvalidHandle 0) handles.
Proof.
  intros Hr Hb Ha. split; [|split; [|split; [|split]]].
  - destruct resolved; [by apply connect_any_opens_only|done].
  - destruct bindable; [by apply bind_any_opens_only|done].
  - unfold tcp_accept. repeat (case_match; [done|]). unfold opened.
    destruct (is_valid accepted) eqn:Ev; cbn [negb]; [|done]. done.
  - intros s Hv Hn. unfold stream_assign, stream_close. cbn [sm_handle sm_peer].
    rewrite <- opened_valid, opened_closed by done. done.
  - intros l Hv Hn. unfold listener_assign, listener_close. cbn [li_handle li_port].
    rewrite <- opened_valid, opened_closed by done. done.
Qed.
