(* ===== verification/Launcher.v ===== *)
(** * Launching the coordinator

    Models tools/itf_coordinator.cpp: from the command line to the configuration of
    the service, or to the exit code without one. *)

From S2P Require Import Prelude Ids Policy Ledger Coordinator Codec Wire Session Service Tools.
From Stdlib Require Import String Ascii.
#[local] Open Scope Z_scope.
Import Datatypes.

Record Launch := MkLaunch {
  la_port : Z;
  la_bind_host : string;
  la_service : ServiceConfig;
  la_verbose : bool;
}.

#[export] Instance la_eta : Eta Launch := fun r =>
  MkLaunch (la_port r) (la_bind_host r) (la_service r) (la_verbose r).
#[export] Instance la_set_port : Setter la_port. Proof. mk_setter. Defined.
#[export] Instance la_set_bind_host : Setter la_bind_host. Proof. mk_setter. Defined.
#[export] Instance la_set_service : Setter la_service. Proof. mk_setter. Defined.
#[export] Instance la_set_verbose : Setter la_verbose. Proof. mk_setter. Defined.

#[export] Instance svc_eta : Eta ServiceConfig := fun r =>
  MkServiceConfig (svc_server r) (svc_coordinator r) (svc_snapshot_path r) (svc_snapshot_interval_nanos r)
    (svc_persist r) (svc_loopback_only r).
#[export] Instance svc_set_server : Setter svc_server. Proof. mk_setter. Defined.
#[export] Instance svc_set_path : Setter svc_snapshot_path. Proof. mk_setter. Defined.
#[export] Instance svc_set_interval : Setter svc_snapshot_interval_nanos. Proof. mk_setter. Defined.
#[export] Instance svc_set_persist : Setter svc_persist. Proof. mk_setter. Defined.
#[export] Instance sv_set_auth_token : Setter sv_auth_token. Proof. mk_setter. Defined.
#[export] Instance sv_set_idle : Setter sv_idle_timeout_nanos. Proof. mk_setter. Defined.

(** The default members of the configurations. *)
Definition default_server_config : ServerConfig := MkServerConfig 32 (256 * 1024) 30000000000 1000000000 [] true.

Definition default_launch : Launch :=
  MkLaunch 7777 "127.0.0.1" (MkServiceConfig default_server_config default_config "" 0 false true) false.

Definition on_server (f : ServerConfig → ServerConfig) (l : Launch) : Launch :=
  l <| la_service := (la_service l) <| svc_server := f (svc_server (la_service l)) |> |>.
Definition on_service (f : ServiceConfig → ServiceConfig) (l : Launch) : Launch :=
  l <| la_service := f (la_service l) |>.

Definition last_char (s : string) : option ascii := last (list_ascii_of_string s).

(** [--state-dir]: the file in the directory, which may end in either slash. *)
Definition state_file (directory : string) : string :=
  match last_char directory with
  | None => directory ++ "coordinator.bin"
  | Some c =>
      if bool_decide (c = "/"%char) || bool_decide (c = "092"%char) then directory ++ "coordinator.bin"
      else directory ++ "/" ++ "coordinator.bin"
  end.

Definition persist_at (path : string) : Launch → Launch :=
  on_service (fun s => s <| svc_snapshot_path := path |> <| svc_persist := true |>).

(** The options that take a value: [None] when the flag is none of them, [Some
    None] when its value is refused. The products are exact: where they leave the
    range of [int64] the source has no defined result. *)
Definition set_launch_valued (flag value : string) (l : Launch) : option (option Launch) :=
  let numeric accepts (store : Z → Launch) := Some (store <$> parse_number value accepts) in
  if String.eqb flag "--port" then numeric is_port (fun n => l <| la_port := n |>)
  else if String.eqb flag "--bind" then Some (Some (l <| la_bind_host := value |>))
  else if String.eqb flag "--token" then Some (Some (on_server (fun s => s <| sv_auth_token := text value |>) l))
  else if String.eqb flag "--state" then Some (Some (persist_at value l))
  else if String.eqb flag "--state-dir" then Some (Some (persist_at (state_file value) l))
  else if String.eqb flag "--snapshot-interval-ms" then
    numeric any_number (fun n => on_service (fun s => s <| svc_snapshot_interval_nanos := to_i64 n * 1000000 |>) l)
  else if String.eqb flag "--max-sessions" then
    numeric is_positive (fun n => on_server (fun s => s <| sv_max_sessions := wrap32 n |>) l)
  else if String.eqb flag "--max-frame-bytes" then
    numeric is_positive (fun n => on_server (fun s => s <| sv_max_frame_payload := n |>) l)
  else if String.eqb flag "--idle-seconds" then
    numeric is_positive (fun n => on_server (fun s => s <| sv_idle_timeout_nanos := to_i64 n * 1000000000 |>) l)
  else None.

(** The loop over the arguments: a launch, or the exit code. *)
Fixpoint parse_launch (arguments : list string) (l : Launch) : Launch + Z :=
  match arguments with
  | [] => inl l
  | flag :: rest =>
      if String.eqb flag "--help" || String.eqb flag "-h" then inr 0
      else if String.eqb flag "--verbose" then parse_launch rest (l <| la_verbose := true |>)
      else match rest with
      | [] => inr 2
      | value :: rest =>
          match set_launch_valued flag value l with
          | None | Some None => inr 2
          | Some (Some l) => parse_launch rest l
          end
      end
  end.

Definition launch_main (arguments : list string) : Launch + Z :=
  match parse_launch arguments default_launch with
  | inr code => inr code
  | inl l => if bool_decide (sv_auth_token (svc_server (la_service l)) = []) then inr 2 else inl l
  end.

(** ** What is launched *)

(** Every step keeps the port in its range and the secret required. *)
Definition launch_ok (l : Launch) : Prop :=
  0 ≤ la_port l ≤ 65535 ∧ sv_require_auth (svc_server (la_service l)) = true
  ∧ 0 ≤ sv_max_sessions (svc_server (la_service l)) < two32
  ∧ 0 < sv_max_frame_payload (svc_server (la_service l)) < two64.

Lemma parse_number_spec value accepts n :
  parse_number value accepts = Some n → is_u64 n ∧ accepts n = true.
Proof.
  unfold parse_number. rewrite parse_u64_spec. case_match eqn:E; [|done]. revert E. case_match eqn:Eb; [|done].
  intros [= <-]. destruct (accepts _) eqn:Ea; [|done]. intros [= <-]. split; [|done].
  rewrite !andb_true_iff in Eb. destruct Eb as [[_ Hd] Hl]. apply Z.ltb_lt in Hl.
  split; [|done]. apply decimal_value_nonneg. by rewrite Hd.
Qed.

(** A numeric option stores a number that its test accepts. *)
Lemma stored_ok value accepts (store : Z → Launch) l' :
  Some (store <$> parse_number value accepts) = Some (Some l') →
  (∀ n, is_u64 n → accepts n = true → launch_ok (store n)) → launch_ok l'.
Proof.
  destruct (parse_number value accepts) as [n|] eqn:En; [|intros [=]]. intros [= <-] Hs.
  apply parse_number_spec in En as [Hn Ha]. by apply Hs.
Qed.

Lemma set_launch_valued_ok flag value l l' :
  set_launch_valued flag value l = Some (Some l') → launch_ok l → launch_ok l'.
Proof.
  intros E ([Hp Hp']&Ha&[Hm Hm']&[Hf Hf']). unfold set_launch_valued in E. cbv zeta in E.
  repeat (match type of E with (if ?b then _ else _) = _ => destruct b end;
    [first [by injection E as <-; repeat split | apply (stored_ok _ _ _ _ E); intros n Hn Hacc; unfold is_u64 in Hn]|]);
    [..|discriminate E]; repeat split; try done; simpl.
  all: try (unfold is_port in Hacc; rewrite Z.gtb_ltb, negb_true_iff, Z.ltb_ge in Hacc; lia).
  all: try (unfold is_positive in Hacc; apply negb_true_iff, bool_decide_eq_false in Hacc; lia).
  all: by apply Z.mod_pos_bound.
Qed.

Lemma parse_launch_ok : ∀ arguments l l', parse_launch arguments l = inl l' → launch_ok l → launch_ok l'.
Proof.
  fix IH 1. intros [|flag rest] l l' E Hl; cbn [parse_launch] in E; [by injection E as <-|].
  destruct (String.eqb flag "--help" || _); [done|].
  destruct (String.eqb flag "--verbose"); [by apply (IH rest _ _ E)|].
  destruct rest as [|value rest]; [done|].
  destruct (set_launch_valued flag value l) as [[l1|]|] eqn:Es; [|done..].
  apply (IH rest _ _ E). by eapply set_launch_valued_ok.
Qed.

(** Whatever the command line, what the coordinator is launched with is in range:
    the port fits its 16 bits, the sessions and the frame size fit their widths, the
    frame size is positive, and sessions are authenticated with a secret that is not
    empty, so that the server does not refuse its configuration. *)
Theorem launch_is_authenticated arguments l :
  launch_main arguments = inl l →
  launch_ok l ∧ sv_auth_token (svc_server (la_service l)) ≠ []
  ∧ start_checks false (svc_server (la_service l)) = Success tt.
Proof.
  unfold launch_main. destruct (parse_launch _ _) as [l1|] eqn:E; [|done].
  case_bool_decide as Et; [done|]. intros [= <-].
  assert (launch_ok l1) as Hl by (apply (parse_launch_ok _ _ _ E); by vm_compute).
  split; [done|]. split; [done|]. unfold start_checks. destruct Hl as (_&->&_).
  rewrite (bool_decide_false (len _ = 0)); [done|]. unfold len. destruct (sv_auth_token _); [done|]. simpl. lia.
Qed.

(** The ceiling of sessions is cut to 32 bits after it was checked: a positive
    argument can configure zero, which the server takes for one. *)
Example session_ceiling_is_cut :
  match launch_main ["--token"; "s"; "--max-sessions"; "4294967296"]%string with
  | inl l => sv_max_sessions (svc_server (la_service l)) = 0
             ∧ sv_max_sessions (make_server_config (svc_server (la_service l))) = 1
  | inr _ => False
  end.
Proof. vm_compute. done. Qed.
