(* ===== verification/ServiceFindings.v ===== *)
(** * Behaviours of the service worth knowing

    Runs of the service, of a session and of the client on concrete bytes that show
    behaviours their comments do not suggest. *)

From S2P Require Import Prelude Ids Traffic Decision Policy Bytes Crc Codec Wire Ledger Coordinator Evaluate Flows CoordAudit.
From S2P Require Import CodecProps PolicyCodec Format Serialize Messages Snapshot SnapshotProps Net Session SessionProps.
From S2P Require Import Service CoordRun CoordFindings ServiceProps Client.
From stdpp Require Import strings.
#[local] Open Scope Z_scope.
Import Datatypes.

(** An operating system on which every call succeeds, moving up to 4096 bytes. *)
#[global] Instance reliable_kernel : Kernel := {|
  k_process_id := 7;
  k_open _ := true; k_create _ := true; k_write _ := 4096; k_read _ := 4096;
  k_sync _ := true; k_rename _ := true; k_remove _ := true;
|}.

Definition empty_disk : Disk := MkDisk ∅ 0 [] 0.

Definition demo_server : ServerConfig := MkServerConfig 4 65536 0 1000000000 (text "secret"%string) true.
Definition demo_service : ServiceConfig := MkServiceConfig demo_server default_config "state" 0 true true.
Definition demo_clock (n : nat) : Z := 1000 + Z.of_nat n.
Definition started : CoordinatorService := (start demo_service (1, 2) (Success tt) (make_service demo_service empty_disk)).2.

Definition request_1 : RequestId := MkId 0 1.

Definition register_message : Z * list Z :=
  (MessageType.RegisterRequest,
   Writer.buffer (encode_register_request (MkRegisterRequest request_1 0) (Writer.make kMaxFramePayloadBytes))).
Definition cancel_message : Z * list Z :=
  (MessageType.CancelRequest,
   Writer.buffer (encode_cancel_request (MkCancelRequest request_1 ReasonCode.Cancelled) (Writer.make kMaxFramePayloadBytes))).

Definition after_cancel : CoordinatorService := serve demo_service demo_clock started [register_message; cancel_message].

(** A request is registered, cancelled before it has an attempt, and both messages
    are acknowledged and on disk. The document cannot be loaded any more. *)
Example early_cancel_makes_the_document_unreadable :
  sv_last_snapshot_error after_cancel = None
  ∧ ok (service_handle demo_service demo_clock cancel_message.1 cancel_message.2
          (serve demo_service demo_clock started [register_message])).1 = true
  ∧ (load_snapshot (snapshot_store demo_service) (sv_disk after_cancel)).1 = Failure StatusCode.MalformedInput.
Proof. vm_compute. done. Qed.

(** The service that is then started refuses the document, as it should, ends with
    code 2, and its destructor replaces the document by one of a coordinator that
    never booted: what was acknowledged is gone. *)
Example refused_document_is_replaced :
  let '(code, s) := run_service demo_service demo_clock (3, 4) (Success tt) id
                      (make_service demo_service (sv_disk after_cancel)) in
  code = 2
  ∧ d_files (sv_disk s) !! "state"%string = Some (MkFile (document (make_coordinator default_config)) true)
  ∧ d_files (sv_disk s) !! "state"%string ≠ d_files (sv_disk after_cancel) !! "state"%string.
Proof. vm_compute. split_and!; done. Qed.

(** An evaluation is acknowledged without a snapshot: the decision it recorded is in
    the document of the coordinator and not in the one on disk. *)
Definition ready_messages : list (Z * list Z) :=
  [register_message;
   (MessageType.RegisterAttempt,
    Writer.buffer (encode_register_attempt (MkRegisterAttempt request_1 (MkId 0 2) 0)
      (Writer.make kMaxFramePayloadBytes)))].
Definition evaluate_message : Z * list Z :=
  (MessageType.EvaluateTraffic,
   Writer.buffer (encode_evaluate_traffic (empty_request
     <| tr_subject := Some (MkSubject SubjectKind.Serving request_1 (MkId 0 2) 1 nil_id) |> <| tr_payload_bytes := 10 |>)
     (Writer.make kMaxFramePayloadBytes))).

Example evaluation_is_not_saved :
  let s := serve demo_service demo_clock started ready_messages in
  let '(reply, s') := service_handle demo_service demo_clock evaluate_message.1 evaluate_message.2 s in
  d_files (sv_disk s) !! "state"%string = Some (MkFile (document (sv_coordinator s)) true)
  ∧ ok reply = true ∧ sv_last_snapshot_error s' = None ∧ sv_disk s' = sv_disk s
  ∧ document (sv_coordinator s') ≠ document (sv_coordinator s).
Proof. vm_compute. split_and!; done. Qed.

(** The same system, but the first call to open a file fails. *)
Definition flaky_kernel : Kernel := {|
  k_process_id := 7;
  k_open n := (0 <? n)%nat; k_create _ := true; k_write _ := 4096; k_read _ := 4096;
  k_sync _ := true; k_rename _ := true; k_remove _ := true;
|}.

Definition stopped : CoordinatorService := stop demo_service demo_clock started.
Definition restart_disk : Disk := MkDisk (d_files (sv_disk stopped)) 0 [] 0.

(** A document that is there but cannot be opened for the moment passes for an
    absent one: the restart establishes epoch 1 over a document of epoch 1, where a
    restart that reads it goes on to epoch 2. *)
Example unreadable_document_passes_for_absent :
  let again := start demo_service (5, 6) (Success tt) (make_service demo_service restart_disk) in
  let flaky := @start flaky_kernel demo_service (5, 6) (Success tt) (make_service demo_service restart_disk) in
  ok again.1 = true ∧ C_epoch (sv_coordinator again.2) = 2
  ∧ ok flaky.1 = true ∧ C_epoch (sv_coordinator flaky.2) = 1.
Proof. vm_compute. done. Qed.

(** ** Revalidation *)

Definition advance_message (state_target revalidate : bool) : Z * list Z :=
  (MessageType.AdvanceModelGeneration,
   Writer.buffer (encode_advance_generation (MkAdvanceGeneration 9 0 false revalidate state_target)
     (Writer.make kMaxFramePayloadBytes))).

(** After a restart both registries ask for revalidation; revalidating model 9
    revalidates state 9 with it. *)
Example model_revalidation_reaches_the_state_registry :
  let first := stop demo_service demo_clock
    (serve demo_service demo_clock started [advance_message false false; advance_message true false]) in
  let second := (start demo_service (5, 6) (Success tt) (make_service demo_service (sv_disk first))).2 in
  let third := serve demo_service demo_clock second [advance_message false true] in
  ok (require_state_generation_locked (sv_coordinator second) 9) = false
  ∧ ok (require_state_generation_locked (sv_coordinator third) 9) = true.
Proof. vm_compute. done. Qed.

(** ** Sessions *)

(** A handler that counts. *)
#[global] Instance counting : MessageHandler nat := {|
  handle _ _ _ n := (Success [], S n);
  Session.describe_authority _ r := r;
  on_session_closed _ n := n;
|}.

Definition hello : HelloRequest :=
  MkHelloRequest kWireProtocolVersion kApiVersion (text "peer"%string) (text "secret"%string) (text "1"%string)
    (MkId 1 1) 65536.

Definition greeting : list Z := frame_bytes MessageType.HelloRequest 1 0 (hello_body hello).
Definition query : list Z := frame_bytes MessageType.Shutdown 2 0 [].

Definition serve_bytes (arrivals : list Arrival) : option (Session nat) :=
  serve_session demo_server ((1, 2), (3, 4)) (fun _ => []) (new_session demo_server (MkStream arrivals [] []) empty_stats 0%nat).

(** A wait that elapses between two frames is harmless; inside a header it loses
    the bytes read so far, and the session ends with an invalid frame. *)
Example elapsed_wait_inside_a_header_ends_the_session :
  (se_handler <$> serve_bytes [Data greeting; Elapsed; Data query]) = Some 1%nat
  ∧ (se_handler <$> serve_bytes [Data (greeting ++ take 10 query); Elapsed; Data (drop 10 query)]) = Some 0%nat
  ∧ ((fun s => ss_frames_invalid (se_stats s)) <$>
      serve_bytes [Data (greeting ++ take 10 query); Elapsed; Data (drop 10 query); Data query]) = Some 1.
Proof. vm_compute. done. Qed.

(** ** The client *)

Definition answer_for (id : RequestId) (sequence correlation : Z) : list Z :=
  frame_bytes MessageType.RegisterRequestResponse sequence correlation
    (Writer.buffer (encode_register_request_response
       (MkRegisterRequestResponse id 1 (MkStamp 1 (MkId 5 5) 1 1)) (Writer.make kMaxFramePayloadBytes))).

Definition connected (arrivals : list Arrival) : Client :=
  (new_client (MkStream arrivals [] [])) <| ct_max_frame_payload := 65536 |> <| ct_send_sequence := 1 |>
    <| ct_last_received_sequence := 1 |>.

(** A call that times out leaves its answer in the stream; the next call takes it
    for its own, although the answer is correlated with the earlier frame. *)
Example answer_of_an_earlier_call_is_accepted :
  let c := connected [Elapsed; Data (answer_for (MkId 0 1) 2 2); Data (answer_for (MkId 0 2) 3 3)] in
  let '(first, c) := client_register_request (MkId 0 1) 0 c in
  let '(second, c) := client_register_request (MkId 0 2) 0 c in
  first = Failure StatusCode.NotFound ∧ second = Success (MkRegisterRequestResponse (MkId 0 1) 1 (MkStamp 1 (MkId 5 5) 1 1)).
Proof. vm_compute. done. Qed.

(** ** Serialisation *)

(** The decoder of instants answers a success when there is nothing to read. *)
Example instant_of_nothing :
  let '(result, r) := decode_instant (Reader.make [] kMaxFramePayloadBytes) in
  ok result = true ∧ Reader.ok r = false.
Proof. vm_compute. done. Qed.
