(* ===== verification/ExamplesProps.v ===== *)
(** * What the example programs do

    The handler of the transport example drives its coordinator through five of the
    coordinator's methods only, none of which opens a flow, so that the full run-time
    audit succeeds whatever arrives at its sessions. The other programs are run. *)

From S2P Require Import Prelude Ids Traffic Decision Policy Bytes Codec Wire Ledger Coordinator Evaluate Flows CoordAudit.
From S2P Require Import CodecProps PolicyCodec Format Serialize Messages Snapshot Net Session SessionProps Service Client.
From S2P Require Import LedgerInv CoordRun CoordMirror Tools Accel Scenarios Examples CoordFindings ServiceFindings.
#[local] Open Scope Z_scope.
Import Datatypes.

(** ** The handler of the transport example *)

(** Commands of a serving history that open no flow. *)
Definition quiet_op (op : CoordOp) : Prop := cop_typed op ∧ serving_op op ∧ cop_opens op = 0%nat.

Lemma quiet_ops ops :
  Forall quiet_op ops → Forall cop_typed ops ∧ Forall serving_op ops ∧ calls_opening ops = 0%nat.
Proof.
  induction 1 as [|op ops (Ht&Hs&Ho) _ (IHt&IHs&IHo)]; [done|]. split_and!; [by constructor..|].
  unfold calls_opening in *. cbn [fmap list_fmap sum_list sum_list_with foldr]. simpl in *. lia.
Qed.

(** The handler's coordinator has run quiet commands. *)
Definition runs (h h' : Harness) : Prop :=
  ∃ ops, Forall quiet_op ops ∧ hs_coordinator h' = coord_run (hs_coordinator h) ops.

#[global] Instance runs_preorder : PreOrder runs.
Proof.
  split; [intros h; by exists []|]. intros h1 h2 h3 (o1&Q1&E1) (o2&Q2&E2). exists (o1 ++ o2).
  split; [by apply Forall_app|]. rewrite E2, E1. unfold coord_run. by rewrite foldl_app.
Qed.

Lemma case_runs {A B} payload (decoder : Reader.t → Result A * Reader.t)
    (call : A → Coordinator → Z → Result B * Coordinator) response (op : A → Z → CoordOp) h :
  (∀ body c now, (call body c now).2 = apply_cop c (op body now)) → (∀ body now, quiet_op (op body now)) →
  runs h (Transport.case payload decoder call response h).2.
Proof.
  intros Hc Hq. unfold Transport.case. destruct (Transport.decode_request payload decoder) as [body|e]; [|done].
  pose proof (Hc body (hs_coordinator h) (hs_clock h)) as E.
  destruct (call body (hs_coordinator h) (hs_clock h)) as [outcome c]. cbn [snd] in E.
  exists [op body (hs_clock h)]. split; [by apply Forall_singleton|]. by destruct outcome.
Qed.

Section handler.
Context `{!HashOrder}.

Lemma example_handle_runs type payload h : runs h (Transport.example_handle type payload h).2.
Proof.
  unfold Transport.example_handle.
  destruct (type ≟ MessageType.RegisterRequest).
  { by eapply (case_runs _ _ _ _ (fun b now => CRegisterRequest (rq_request b) now)). }
  destruct (type ≟ MessageType.RegisterAttempt).
  { by eapply (case_runs _ _ _ _ (fun b now => CRegisterAttempt (aq_request b) (aq_attempt b) (aq_model_hash b) now)). }
  destruct (type ≟ MessageType.StageUpdate).
  { by eapply (case_runs _ _ _ _ (fun b now => CAdvanceStage (su_request b) (su_attempt b) (su_stage b) now)). }
  destruct (type ≟ MessageType.EvaluateTraffic).
  { eapply (case_runs _ _ _ _ (fun r now => CEvaluate _ r now)); [|done].
    intros r c now. cbn [apply_cop]. by destruct (evaluate_locked c r now). }
  destruct (type ≟ MessageType.CompletionPublish).
  { by eapply (case_runs _ _ _ _ (fun p now => CPublish p now)). }
  by destruct (type ≟ MessageType.AccountingQuery).
Qed.

#[local] Existing Instance Transport.example_handler.

Lemma run_handler_runs context h frames : runs h (run_handler context h frames).
Proof.
  unfold run_handler. revert h. induction frames as [|f frames IH]; intros h; [done|]. cbn [foldl].
  etrans; [apply example_handle_runs|apply IH].
Qed.

(** A session on a stream, with what the sessions before it left of the handler;
    the loop always ends ([session_sees_frames]). *)
Definition session_after config draws describe (h : Harness) (stream : TcpStream) : Harness :=
  match serve_session config draws describe (new_session config stream empty_stats h) with
  | Some s => se_handler s
  | None => h
  end.

Lemma session_runs config draws describe h stream : runs h (session_after config draws describe h stream).
Proof.
  unfold session_after. destruct (session_sees_frames config draws describe stream empty_stats h) as (s&->&Hh&_).
  pose proof (run_handler_runs (se_context s) h (se_handled s)) as Hr. by destruct Hh as [-> | ->].
Qed.

Lemma sessions_run config draws describe streams h :
  runs h (foldl (session_after config draws describe) h streams).
Proof.
  revert h. induction streams as [|stream streams IH]; intros h; [done|]. cbn [foldl].
  etrans; [apply session_runs|apply IH].
Qed.

(** What the program does before its server starts. *)
Lemma prepared_runs config draws :
  runs (MkHarness 0 (make_coordinator config)) (Transport.prepare (make_harness config draws)).2.
Proof.
  exists [CBootFresh draws; CSetModel Transport.kModelHash None; CPublishTopology (one_node 5000000000) 0].
  split; [by repeat constructor|]. unfold make_harness.
  change (coord_run _ _) with (publish_topology (set_model_generation (boot_fresh (make_coordinator config) draws).2
    Transport.kModelHash None).2 (one_node 5000000000) 0).2.
  generalize (boot_fresh (make_coordinator config) draws).2 as c. intros c. unfold Transport.prepare, run_bind, play.
  cbn [hs_coordinator hs_clock]. destruct (set_model_generation c _ _) as [r c1].
  cbn [hs_coordinator hs_clock setter hs_set_coordinator snd]. by destruct (publish_topology c1 _ 0) as [g c2].
Qed.

(** Whatever arrives at the sessions of the transport example, in whatever pieces,
    malformed bytes and forged messages included, the full run-time audit of its
    coordinator succeeds after each of them. *)
Theorem example_sessions_keep_audit config draws server draws' describe streams :
  config_ok config →
  verify_invariants (hs_coordinator (foldl (session_after server draws' describe)
    (Transport.prepare (make_harness config draws)).2 streams)) = Success tt.
Proof.
  intros Hc. destruct (transitivity (prepared_runs config draws) (sessions_run server draws' describe streams _))
    as (ops&Hq&->).
  destruct (quiet_ops ops Hq) as (Ht&Hs&Ho). apply serving_audit; [done..|]. by rewrite Ho.
Qed.
End handler.

(** ** Runs *)

(** The program of the transport example completes; without a deadline its traffic is
    admitted in a degraded way. *)
Example transport_completes :
  match Transport.main ((1, 2), (3, 4)) (5, 6) (fun _ => []) (7, 9) (Success tt) with
  | inl (decision, outcome, snapshot) =>
      dec_outcome decision = DecisionOutcome.Degraded ∧ po_disposition outcome = Disposition.Committed
      ∧ as_completions_committed snapshot = 1
  | inr _ => False
  end.
Proof. vm_compute. done. Qed.

(** The decisions of the policy example. The sixth, which it prints as [stale model
    generation], is admitted: the class that the evaluation derives for the stage binds
    no model. *)
Example policy_decisions :
  match run_program default_config (7, 9) PolicyExample.main with
  | inl (decisions, invariants) =>
      (dec_reason <$> decisions) =
        [ReasonCode.RejectedUnknownStage; ReasonCode.Admitted_; ReasonCode.DegradedStageClaimOverridden;
         ReasonCode.DegradedClassRederived; ReasonCode.RejectedStalePolicyGeneration;
         ReasonCode.DegradedClassRederived; ReasonCode.RejectedDeadlineExpired]
      ∧ invariants = Success tt
  | inr _ => False
  end.
Proof. vm_compute. done. Qed.

(** The failure of an attempt ends its request, so that the replacement which the
    lifecycle example goes on with is refused and the value of a failed result is
    read. *)
Example lifecycle_reads_a_missing_value :
  run_program Lifecycle.config (7, 9) (let^ (message, attempt, _, _, _) := Lifecycle.prefill in
    let^ late := Lifecycle.late_publication message attempt in
    let^ replaced := play (fun c now => coord_replace_attempt c Lifecycle.request Lifecycle.first_attempt
      Lifecycle.second_attempt kModelHash now) in run_ret (po_disposition late, replaced))
  = inl (Disposition.Refused, Failure StatusCode.Conflict)
  ∧ run_program Lifecycle.config (7, 9) Lifecycle.main = inr kUndefined.
Proof. vm_compute. done. Qed.

(** The consumer serves its request, saves and loads its state; a build without an
    accelerator then makes it read the value of a failed probe. *)
Example consumer_serves :
  match run_program default_config (7, 9) Consumer.serve_one with
  | inl (decision, outcome, invariants, _) =>
      dec_outcome decision = DecisionOutcome.Allowed ∧ po_disposition outcome = Disposition.Committed
      ∧ invariants = Success tt
  | inr _ => False
  end.
Proof. vm_compute. done. Qed.

Example consumer_without_accelerator : (Consumer.main (7, 9) None empty_disk).1 = kUndefined.
Proof. vm_compute. done. Qed.

Lemma accel_without_accelerator : accel_main None = inr kUndefined.
Proof. done. Qed.
