(* ===== verification/ToolsFindings.v ===== *)
(** * Runs of the tools

    The scenarios of the inspection tool, each of which ends with success, and
    behaviours of the simulator that its messages and options do not suggest. *)

From S2P Require Import Prelude Ids Traffic Decision Policy Bytes Crc Codec Wire Ledger Coordinator Evaluate Flows CoordAudit.
From S2P Require Import CodecProps PolicyCodec Format Serialize Messages Snapshot Net Session SessionProps.
From S2P Require Import Service ServiceProps Client Tools Simulator SimulatorProps Accel Scenarios CoordFindings ServiceFindings.
From Stdlib Require Import String.
#[local] Open Scope Z_scope.
Import Datatypes.

(** Whatever the order of the hash maps, every scenario finds the coordinator
    honest. *)
Lemma scenarios_succeed (order : HashOrder) :
  Forall (fun name => run_scenario (11, 22) name = 0)
    ["basic"; "cancel"; "stale"; "starvation"; "unknown-stage"; "bulk-yield"; "generations"]%string.
Proof. repeat (apply Forall_cons; split; [vm_compute; reflexivity|]). by apply Forall_nil. Qed.

(** ** The sender and the verdict *)

Definition small_options : Options :=
  default_options <| op_bytes := 10 |> <| op_chunks := 4 |> <| op_token := "secret"%string |>
    <| op_peer_port := 1 |> <| op_result_file := "result"%string |>.

Definition ack_body (chunk_index received : Z) (code : StatusCode.t) : list Z :=
  body_of (encode_data_ack (MkDataAck kDefaultTransfer chunk_index received code)).

(** A receiver that acknowledges each chunk and finds a mismatch at the end. *)
Definition mismatching_peer : list Arrival :=
  [Data (frame_bytes MessageType.DataChunkAck 2 2 (ack_body 0 2 StatusCode.Ok)
         ++ frame_bytes MessageType.DataChunkAck 3 3 (ack_body 1 4 StatusCode.Ok)
         ++ frame_bytes MessageType.DataChunkAck 4 4 (ack_body 2 6 StatusCode.Ok)
         ++ frame_bytes MessageType.DataChunkAck 5 5 (ack_body 3 8 StatusCode.Ok)
         ++ frame_bytes MessageType.DataCompleteAck 6 6 (ack_body 4 8 StatusCode.IntegrityMismatch))].

Definition data_client (arrivals : list Arrival) : Client :=
  (new_client (MkStream arrivals [] [])) <| ct_max_frame_payload := 65536 |> <| ct_send_sequence := 1 |>
    <| ct_last_received_sequence := 1 |>.

Definition idle_worker : Worker := MkWorker (data_client []) None None.

(** The verdict comes in the body of a successful answer, which the sender does not
    decode: a mismatch that the receiver reports passes for a delivered transfer,
    and the process goes on to complete the transfer at the coordinator. *)
Example mismatch_passes_for_delivery :
  let '(result, w) := stream small_options kDefaultTransfer 2 (data_client mismatching_peer) idle_worker in
  (match result with inl (sent, _) => sent = 8 | inr _ => False end) ∧ wk_result w = None.
Proof. vm_compute. done. Qed.

(** The receiver indeed never refuses a completion it can read. *)
Lemma completion_is_never_refused payload m h :
  decode_body payload decode_data_complete = Success m → MessagesProps.named_id (dp_expected h) →
  is_u32 (dd_total_chunks m) → is_u64 (dp_received_bytes h) →
  ∃ body h', data_plane_handle MessageType.DataComplete payload h = (Success body, h').
Proof.
  intros Ed Ht Hc Hb. unfold data_plane_handle. rewrite (bool_decide_false (MessageType.DataComplete = _)) by done.
  rewrite (bool_decide_true _ eq_refl). unfold handle_complete. rewrite Ed.
  assert (dp_expected (conclude m h).2 = dp_expected h ∧ dp_received_bytes (conclude m h).2 = dp_received_bytes h) as [E1 E2].
  { unfold conclude. cbv zeta. by repeat case_bool_decide. }
  destruct (conclude m h) as [verdict h']. cbn [snd] in E1, E2.
  destruct (ack_succeeds (dd_total_chunks m) verdict h') as (body&->&_); [by rewrite E1|done|by rewrite E2|].
  by exists body, h'.
Qed.

(** ** Transfers that cannot complete *)

(** When the number of chunks does not divide the number of bytes, the rest is never
    sent, and the coordinator refuses the completion for the bytes that were. *)
Lemma uneven_transfer_is_refused c transfer record chunks :
  C_transfers c !! transfer = Some record →
  tx_state record = TransferState.Authorized ∨ tx_state record = TransferState.InProgress →
  tx_required_integrity record = IntegrityClass.ChecksumAndVerify → 0 < chunks →
  tx_payload_bytes record mod chunks ≠ 0 →
  (complete_transfer c transfer (chunks * (tx_payload_bytes record / chunks))).1 = Failure StatusCode.IntegrityMismatch.
Proof.
  intros Ht Hs Hi Hc Hm. unfold complete_transfer. rewrite Ht. cbv zeta.
  replace ((tx_state record ≠? TransferState.Authorized) && (tx_state record ≠? TransferState.InProgress)) with false
    by (by destruct Hs as [->| ->]).
  rewrite (bool_decide_true _ Hi), bool_decide_false; [done|].
  pose proof (Z.div_mod (tx_payload_bytes record) chunks ltac:(lia)). lia.
Qed.

Lemma chunk_body_length m :
  len (dc_data m) ≤ kMaxChunkBytes → len (body_of (encode_data_chunk m)) = 36 + len (dc_data m).
Proof.
  intros Hl. unfold encode_data_chunk. rewrite Z.gtb_ltb, (proj2 (Z.ltb_ge _ _)) by lia.
  unfold len at 2. rewrite Nat2Z.id, firstn_all.
  set (f := andthen _ _). set (bytes := id_bytes (dc_transfer m) ++ le_bytes 4 (dc_chunk_index m)
    ++ le_bytes 4 (dc_total_chunks m) ++ le_bytes 8 (dc_total_bytes m) ++ blob_bytes (dc_data m)).
  assert (writes f bytes) as W.
  { apply (writes_seq _ _ _ _ (writes_id _)). apply (writes_seq _ _ _ _ (writes_u32 _)).
    apply (writes_seq _ _ _ _ (writes_u32 _)). apply (writes_seq _ _ _ _ (writes_u64 _)). apply writes_bytes_field.
    unfold kMaxChunkBytes, kMaxFramePayloadBytes in *. lia. }
  assert (len bytes = 36 + len (dc_data m)) as El.
  { unfold bytes, id_bytes. rewrite !len_app, len_blob. unfold len at 1 2 3 4 5. rewrite !length_le_bytes. lia. }
  unfold body_of. assert (len bytes ≤ kMaxFramePayloadBytes) by (unfold kMaxChunkBytes, kMaxFramePayloadBytes in *; lia).
  destruct (writes_buffer f bytes kMaxFramePayloadBytes W ltac:(done) (writes_ok _ _ _ W ltac:(done))) as [-> _]. done.
Qed.

(** The largest chunk that the options admit does not fit into a frame of the
    default size, which both sides keep: the sender's client refuses to send it. *)
Lemma largest_chunk_does_not_fit o transfer index c :
  ct_valid c = true → ct_max_frame_payload c ≤ 256 * 1024 →
  (exchange MessageType.DataChunk (chunk_request o transfer kMaxChunkBytes index).2 c).1
  = Failure StatusCode.BoundsExceeded.
Proof.
  intros Hv Hm. unfold exchange. rewrite bool_decide_false by done. unfold send_frame, send_frame_raw.
  set (c1 := c <| ct_send_sequence := _ |>). change (ct_valid c1) with (ct_valid c). rewrite Hv. cbn [negb].
  change (ct_max_frame_payload c1) with (ct_max_frame_payload c). rewrite Z.gtb_ltb, (proj2 (Z.ltb_lt _ _)); [done|].
  unfold chunk_request. cbn [snd]. rewrite chunk_body_length; cbn [dc_data chunk_message];
    rewrite chunk_payload_length by done; unfold kMaxChunkBytes in *; lia.
Qed.

(** ** Generations *)

Definition advance_message (hash : Z) : Z * list Z :=
  (MessageType.AdvanceModelGeneration,
   body_of (encode_advance_generation (MkAdvanceGeneration hash 0 false false false))).

(** [--init-generations] puts the hash of the state into the registry of models, so
    that the transfer the sender then registers has no current state. *)
Example initialised_generations_lack_the_state :
  let s := serve demo_service demo_clock started
             [advance_message (op_model_hash default_options); advance_message (op_state_hash default_options)] in
  let '(answer, _) := service_handle demo_service demo_clock MessageType.RegisterTransfer
    (body_of (encode_register_transfer
       (sim_registration default_options (MkId 0 1) (MkId 0 2) kDefaultTransfer))) s in
  answer = Failure StatusCode.NotFound
  ∧ ok (require_model_generation_locked (sv_coordinator s) (op_state_hash default_options)) = true.
Proof. vm_compute. done. Qed.

(** ** The accelerator *)

Definition demo_properties : DeviceProperties :=
  MkDeviceProperties "device" 9 0 (2 ^ 30) [0; 1; 2; 3; 4; 5; 6; 7; 8; 9; 10; 11; 12; 13; 14; 15].

(** A runtime whose copy brings nothing of what the device holds. *)
Definition noisy_cuda : Cuda :=
  MkCuda None 1 None None demo_properties (Some 12040) None None None None [] true None (fun _ _ => 7) 1000 None.

(** Without the kernel nothing is compared, and the whole copy counts as verified
    all the same. *)
Example unread_copy_counts_as_verified :
  match probe (Some noisy_cuda) false with
  | Success p => ap_label p = CapabilityLabel.Real ∧ ap_bytes_verified p = 4194304 ∧ ap_mismatches p = 0
  | Failure _ => False
  end.
Proof. vm_compute. done. Qed.
