(* ===== verification/Witnesses.v ===== *)
(** * Instances of the theorems at concrete states

    Each lemma applies one theorem of the development at a concrete ledger or
    coordinator and evaluates its hypotheses there, so that none of them is
    satisfied vacuously. The states are those of [LedgerFindings] and
    [CoordFindings]. *)

From S2P Require Import Prelude Ids Traffic Decision Policy Ledger LedgerInv LedgerRun.
From S2P Require Import LedgerEvolve LedgerBounds LedgerFindings Coordinator Evaluate Flows.
From S2P Require Import CoordAudit EvaluateProps EvaluateState Deferral FlowsProps CoordRun.
From S2P Require Import CoordSafety CoordMirror TransferProps CoordFindings Restore.
From S2P Require Import Bytes Crc Codec Utf8 CodecProps PolicyCodec Wire.

(** ** Presence of a request along a concrete history *)

Lemma take_beyond {A} (k : nat) (l : list A) : take k l = take (k `min` length l) l.
Proof.
  destruct (decide (k ≤ length l)%nat).
  - by rewrite Nat.min_l.
  - rewrite Nat.min_r by lia. rewrite !take_ge; lia || done.
Qed.

Definition retainedb (L : RequestLedger) (ops : list LedgerOp) (id : RequestId) : bool :=
  forallb (fun k => bool_decide (is_Some (L_requests (run L (take k ops)) !! id)))
    (seq 0 (S (length ops))).

Lemma retainedb_sound L ops id : retainedb L ops id = true → retained_through L ops id.
Proof.
  unfold retainedb. intros H k. rewrite forallb_forall in H.
  rewrite take_beyond. eapply bool_decide_eq_true, H, in_seq. lia.
Qed.

Definition knownb (c : Coordinator) (ops : list CoordOp) (id : RequestId) : bool :=
  forallb (fun k => bool_decide (is_Some (L_requests (C_ledger (coord_run c (take k ops))) !! id)))
    (seq 0 (S (length ops))).

Lemma knownb_sound c ops id : knownb c ops id = true → known_through c ops id.
Proof.
  unfold knownb. intros H k. rewrite forallb_forall in H.
  rewrite take_beyond. eapply bool_decide_eq_true, H, in_seq. lia.
Qed.

Lemma forall_typed_histories (ops : list CoordOp) :
  forallb (fun op => match op with CBootFrom _ _ => false | _ => true end) ops = true →
  Forall cop_typed ops.
Proof.
  intros H. apply Forall_forall. intros op Hop. rewrite forallb_forall in H.
  specialize (H op (proj1 (list_elem_of_In _ _) Hop)). by destruct op.
Qed.

Lemma no_boot_check (ops : list CoordOp) : forallb (fun op => negb (is_boot op)) ops = true → no_boot ops.
Proof.
  intros H. apply Forall_forall. intros op Hop. rewrite forallb_forall in H.
  specialize (H op (proj1 (list_elem_of_In _ _) Hop)). by destruct (is_boot op).
Qed.

Lemma default_limits_typed : limits_typed default_ledger_limits.
Proof. split; vm_compute; split; congruence. Qed.

(** ** Identifiers, classes, reasons and policies *)

Lemma id_parse_to_string_witness : id_parse (id_to_string (MkId 255 (two64 - 1))) = Some (MkId 255 (two64 - 1)).
Proof. apply (id_parse_to_string (MkId 255 (two64 - 1))). split; vm_compute; split; congruence. Defined.

Definition prefill_path : list ServingStage :=
  [ServingStage.PrefillQueued; ServingStage.PrefillRunning].

Lemma stage_path_monotone_witness :
  (stage_rank ServingStage.Admitted_ ≤ stage_rank ServingStage.PrefillRunning)%nat.
Proof.
  refine (proj1 (stage_path_monotone prefill_path ServingStage.Admitted_ _ 0 2 _ _ _ eq_refl eq_refl));
    [|lia].
  intros [|[|[|i]]] a b Ha Hb; simpl in Ha, Hb; simplify_eq; reflexivity.
Defined.

Lemma classification_complete_witness :
  is_class_legal_for_stage (canonical_class_for_stage ServingStage.DecodeRunning) ServingStage.DecodeRunning = true
  ∧ canonical_class_for_stage ServingStage.DecodeRunning ≠ TrafficClass.Unknown.
Proof. apply (classification_complete ServingStage.DecodeRunning); [reflexivity|discriminate]. Defined.

Lemma validate_correct_witness : validate (canonical_defaults 1) = PolicyVerdict.Valid ↔ policy_valid (canonical_defaults 1).
Proof.
  apply (validate_correct (canonical_defaults 1)). split; [reflexivity|].
  repeat constructor; vm_compute; congruence.
Defined.

(** ** The ledger *)

Lemma audit_after_history_witness :
  verify_closure (run (make_ledger default_ledger_limits) displaced_history) = Success tt.
Proof.
  apply (audit_after_history default_ledger_limits displaced_history);
    [apply default_limits_typed|repeat constructor|vm_compute; reflexivity].
Defined.

(** The completed request of a history in which the displaced attempt did not publish. *)
Definition completed_state : RequestLedger :=
  run (make_ledger default_ledger_limits)
    [ OpRegisterRequest (rid 1) 10; OpRegisterAttempt (rid 1) (aid 1) 0 0 0 11;
      OpPublish (MkPublication (rid 1) (aid 1) 0 true ReasonCode.Unknown 5 7) 13 ].

Definition completed_record : RequestRecord :=
  default empty_request_record (L_requests completed_state !! rid 1).

Definition late_ops : list LedgerOp :=
  [ OpFail (rid 1) (aid 1) ReasonCode.AttemptFailed 14; OpCancel (rid 1) ReasonCode.Cancelled 9 15 ].

Lemma settled_is_final_witness :
  ∃ r', L_requests (run completed_state late_ops) !! rid 1 = Some r' ∧ settled RequestLifecycle.Completed r'
    ∧ rr_terminal_at_nanos r' = rr_terminal_at_nanos completed_record
    ∧ rr_terminal_reason r' = rr_terminal_reason completed_record
    ∧ rr_authority_floor completed_record ≤ rr_authority_floor r'.
Proof.
  apply (settled_is_final completed_state late_ops (rid 1) completed_record RequestLifecycle.Completed).
  - vm_compute. reflexivity.
  - split; [vm_compute; reflexivity|split; [reflexivity|]].
    intros i e. vm_compute. intros [= <- <-]. reflexivity.
  - apply retainedb_sound. vm_compute. reflexivity.
Defined.

Definition one_attempt : RequestLedger :=
  run (make_ledger default_ledger_limits)
    [ OpRegisterRequest (rid 1) 10; OpRegisterAttempt (rid 1) (aid 1) 0 0 0 11 ].

Definition one_attempt_record : RequestRecord :=
  default empty_request_record (L_requests one_attempt !! rid 1).

Definition first_attempt : AttemptRecord :=
  default empty_attempt (rr_attempts one_attempt_record !! 0%nat).

Lemma cancel_is_final_witness :
  is_cancelled (run (cancel_request one_attempt (rid 1) ReasonCode.Cancelled 5 20).2 late_ops) (rid 1) = true.
Proof.
  apply (cancel_is_final one_attempt (rid 1) ReasonCode.Cancelled 5 20 one_attempt_record late_ops).
  - vm_compute. reflexivity.
  - vm_compute. reflexivity.
  - lia.
  - apply retainedb_sound. vm_compute. reflexivity.
Defined.

Definition publication : CompletionPublication :=
  MkPublication (rid 1) (aid 1) 0 true ReasonCode.Unknown 5 7.

Lemma commit_at_most_once_witness :
  ¬ commits (run (publish_completion one_attempt publication 20).2 late_ops) publication 30.
Proof.
  apply (commit_at_most_once one_attempt publication 20 late_ops publication 30).
  - eexists. split; vm_compute; reflexivity.
  - reflexivity.
  - apply retainedb_sound. vm_compute. reflexivity.
Defined.

Definition second_attempt_ops : list LedgerOp :=
  [ OpRegisterAttempt (rid 1) (aid 2) 0 0 0 12; OpFail (rid 1) (aid 2) ReasonCode.AttemptFailed 13 ].

Lemma attempt_slots_stable_witness :
  ∃ r' a', L_requests (run one_attempt second_attempt_ops) !! rid 1 = Some r' ∧ rr_attempts r' !! 0%nat = Some a'
    ∧ at_id a' = at_id first_attempt ∧ at_generation a' = at_generation first_attempt
    ∧ (rr_attempt_count one_attempt_record ≤ rr_attempt_count r')%nat.
Proof.
  apply (attempt_slots_stable one_attempt second_attempt_ops (rid 1) one_attempt_record 0 first_attempt).
  - vm_compute. reflexivity.
  - apply retainedb_sound. vm_compute. reflexivity.
  - vm_compute. lia.
  - vm_compute. reflexivity.
Defined.

Lemma refused_call_atomic_witness :
  apply_op completed_state (OpRegisterRequest (rid 1) 30) = completed_state.
Proof.
  apply (refused_call_atomic completed_state (OpRegisterRequest (rid 1) 30));
    [vm_compute; reflexivity|discriminate].
Defined.

Lemma memory_bounded_witness :
  Z.of_nat (length (L_terminal_order (run (make_ledger default_ledger_limits) displaced_history)))
    ≤ ll_max_retained_terminal_requests default_ledger_limits.
Proof.
  apply (memory_bounded default_ledger_limits displaced_history);
    [apply default_limits_typed|vm_compute; reflexivity].
Defined.

(** ** Decisions *)

Definition ingress : TrafficRequest := serving_request TrafficClass.RequestIngress.


Definition canonical_coordinator : Coordinator :=
  coord_run working [CApplyPolicy (canonical_defaults 5); CPublishTopology congested 150].

Lemma canonical_policy_never_defers_protected_witness :
  defer_reason canonical_coordinator (serving_request TrafficClass.DecodeStream)
    (policy_rule (C_policy canonical_coordinator) TrafficClass.DecodeStream) 160 = ReasonCode.Unknown.
Proof.
  apply (canonical_policy_never_defers_protected canonical_coordinator
    (serving_request TrafficClass.DecodeStream) TrafficClass.DecodeStream 160 6);
    vm_compute; reflexivity.
Defined.

Definition ingress_admission : Admission :=
  {| ad_subject := default empty_subject (tr_subject ingress);
     ad_resolved := RServing empty_request_record empty_attempt;
     ad_effective := TrafficClass.RequestIngress;
     ad_rule := canonical_request_ingress;
     ad_degrade := None |}.

Lemma treatment_within_rule_witness :
  tt_reserved_weight (make_treatment ingress ingress_admission []).1.1
    ≤ pr_reserved_weight canonical_request_ingress.
Proof.
  apply (treatment_within_rule ingress ingress_admission []). vm_compute. congruence.
Defined.

(** One evaluation less than the budget, all of them deferred. *)
Definition retries : list Z :=
  replicate (Z.to_nat (pr_max_defer_count (policy_rule (C_policy starving) TrafficClass.RequestIngress) - 1)) 160.

Definition starved : Coordinator := (evaluate_all starving ingress retries).2.
Definition starved_admission : Admission :=
  match (admission starved ingress 160 []).2 with inr a => a | inl _ => ingress_admission end.

Lemma protected_traffic_is_not_starved_witness :
  Forall (deferred_as TrafficClass.RequestIngress) (evaluate_all starving ingress retries).1 ∧
  permits_traffic (evaluate_locked starved ingress 160).1 = true.
Proof.
  assert (Forall (deferred_as TrafficClass.RequestIngress) (evaluate_all starving ingress retries).1) as Hall.
  { apply (bool_decide_unpack _). vm_compute. exact I. }
  split; [exact Hall|].
  refine (proj2 (protected_traffic_is_not_starved starving ingress
    (MkSubject SubjectKind.Serving (rid 1) (aid 1) 1 nil_id) TrafficClass.RequestIngress retries _ _ _ _ Hall)
    _ 160 (admission starved ingress 160 []).1 starved_admission _ _).
  - reflexivity.
  - vm_compute. reflexivity.
  - vm_compute. split; reflexivity.
  - vm_compute. split; congruence.
  - vm_compute. reflexivity.
  - vm_compute. reflexivity.
  - vm_compute. reflexivity.
Defined.

Lemma setup_booted : booted (coord_run (make_coordinator default_config) setup).
Proof. split; vm_compute; try split; congruence. Qed.

Lemma fresh_decision_is_valid_witness :
  let '(d, c') := evaluate_locked (coord_run (make_coordinator default_config) setup) ingress 200 in
  permits_traffic d = true → validate_decision_locked c' d = Success tt.
Proof.
  refine (fresh_decision_is_valid first_listed default_config setup ingress 200 _ _ setup_booted).
  - apply forall_typed_histories. reflexivity.
  - repeat constructor.
Defined.

(** ** Coordinator histories *)


Lemma ledger_audit_after_coordinator_history_witness :
  verify_closure (C_ledger (coord_run (make_coordinator default_config) setup)) = Success tt.
Proof.
  apply (ledger_audit_after_coordinator_history default_config setup).
  - apply default_limits_typed.
  - apply forall_typed_histories. reflexivity.
  - vm_compute. reflexivity.
Defined.

Lemma deferral_invariant_after_history_witness :
  defers_inv (coord_run (make_coordinator default_config) setup).
Proof.
  apply (deferral_invariant_after_history default_config setup). vm_compute. split; congruence.
Defined.

Definition working_record : RequestRecord :=
  default empty_request_record (L_requests (C_ledger working) !! rid 1).

Definition after_cancel : list CoordOp :=
  [ CRegisterAttempt (rid 1) (aid 2) 11 310; CEvaluate first_listed ingress 320;
    CAdvanceStage (rid 1) (aid 1) ServingStage.Routing 330 ].

Lemma cancelled_request_stays_refused_witness :
  permits_traffic (evaluate_locked working ingress 400).1 = true ∧
  permits_traffic (evaluate_locked
    (coord_run (coord_cancel_request working (rid 1) ReasonCode.Cancelled 300).2 after_cancel)
    ingress 400).1 = false.
Proof.
  split; [vm_compute; reflexivity|].
  refine (proj2 (cancelled_request_stays_refused working (rid 1) ReasonCode.Cancelled 300 working_record
    after_cancel _ _ _ _ _ _) first_listed ingress _ 400 eq_refl eq_refl eq_refl).
  - vm_compute. reflexivity.
  - vm_compute. reflexivity.
  - vm_compute. split; congruence.
  - apply no_boot_check. reflexivity.
  - apply forall_typed_histories. reflexivity.
  - apply knownb_sound. vm_compute. reflexivity.
Defined.

Lemma later_decision_outranks_earlier_witness :
  let '(d, c1) := evaluate_locked working ingress 200 in
  let '(d', _) := evaluate_locked (coord_run c1 after_cancel) ingress 400 in
  st_sequence (dec_authority d) < st_sequence (dec_authority d').
Proof.
  apply (later_decision_outranks_earlier first_listed first_listed working ingress ingress 200 400
    after_cancel).
  - apply no_boot_check. reflexivity.
  - vm_compute. congruence.
  - vm_compute. reflexivity.
Defined.

(** ** Restart *)

Definition snapshot : PersistedCoordinatorState := export_state working.

Lemma restart_is_all_or_nothing_witness :
  ∃ c', boot_from working snapshot (5, 6) = (Success (advance (ps_epoch snapshot)), c') ∧
    C_epoch c' = advance (ps_epoch snapshot) ∧ restored snapshot c'.
Proof.
  destruct (restart_is_all_or_nothing working snapshot (5, 6)) as (c' & ? & ? & _ & _ & _ & _ & H & _).
  - vm_compute. reflexivity.
  - exists c'. split_and!; [assumption|assumption|exact H].
Defined.

(** A snapshot that lists a request twice is refused. *)
Definition bad_snapshot : PersistedCoordinatorState :=
  snapshot <| ps_interrupted_requests := [working_record; working_record] |>.

Lemma refused_restart_changes_no_authority_witness :
  (boot_from working bad_snapshot (5, 6)).2 = clear_state_locked working.
Proof.
  refine (proj2 (refused_restart_changes_no_authority working bad_snapshot (5, 6)
    StatusCode.AlreadyExists _)).
  vm_compute. reflexivity.
Defined.

Lemma restart_fences_earlier_decisions_witness :
  validate_decision_locked (boot_from working snapshot (5, 6)).2 (evaluate_locked working ingress 200).1
    = Failure StatusCode.StaleEpoch.
Proof.
  apply (restart_fences_earlier_decisions working snapshot (5, 6)).
  - vm_compute. reflexivity.
  - vm_compute. split; congruence.
  - vm_compute. reflexivity.
  - vm_compute. congruence.
Defined.

(** ** Registries, transfers and publications *)

Definition completed_history : list CoordOp :=
  setup ++ [ CRegisterTransfer (registration 1 10 nil_id TrafficClass.ModelTransfer) 150;
             CAuthorize first_listed (transfer_request 1) 200 200; CComplete (xid 1) 10 ].

Definition missing_transfer : TransferRecord :=
  MkTransfer nil_id 0 0 0 99 0 0 nil_id nil_id TrafficClass.Unknown FlowDirection.Unknown
    IntegrityClass.Unknown TransferState.Unknown ReasonCode.Unknown 0 0 nil_id.

Definition completed_transfer : TransferRecord :=
  default missing_transfer
    (C_transfers (coord_run (make_coordinator default_config) completed_history) !! xid 1).

Lemma completed_transfers_are_verified_witness :
  tx_verified_bytes completed_transfer = tx_payload_bytes completed_transfer.
Proof.
  apply (completed_transfers_are_verified default_config completed_history (xid 1) completed_transfer);
    vm_compute; reflexivity.
Defined.

Lemma model_generation_compare_and_set_witness :
  require_model_generation_locked (set_model_generation working 11 (Some 1)).2 11 = Success 2.
Proof.
  apply (model_generation_compare_and_set working 11 1 2 (set_model_generation working 11 (Some 1)).2).
  - vm_compute. reflexivity.
  - vm_compute. congruence.
Defined.

Lemma state_generation_compare_and_set_witness :
  require_state_generation_locked (advance_state_generation working 22 (Some 1)).2 22 = Success 2.
Proof.
  apply (state_generation_compare_and_set working 22 1 2 (advance_state_generation working 22 (Some 1)).2).
  - vm_compute. reflexivity.
  - vm_compute. congruence.
Defined.

Definition result_value {A} (missing : A) (r : Result A) : A :=
  match r with Success a => a | Failure _ => missing end.

Definition ingress_decided : Decision * Coordinator := evaluate_locked working ingress 200.
Definition ingress_opened : Result FlowId * Coordinator :=
  open_flow_locked ingress_decided.2 ingress_decided.1 10 210.

Lemma opened_flow_respects_limits_witness :
  10 ≤ cl_max_single_payload_bytes (cf_limits (C_config ingress_decided.2)).
Proof.
  refine (proj1 (proj2 (opened_flow_respects_limits ingress_decided.2 ingress_decided.1 10 210
    (result_value nil_id ingress_opened.1) ingress_opened.2 _ _ _ _))).
  - vm_compute. reflexivity.
  - vm_compute. congruence.
  - vm_compute. reflexivity.
  - lia.
Defined.

(** A history that leaves one flow open. *)
Definition serving_history : list CoordOp :=
  setup ++ [CEvaluate first_listed ingress 200; COpenFlow ingress_decided.1 10 210].

Lemma default_config_ok : config_ok default_config.
Proof. split; [exact default_limits_typed|vm_compute; repeat split; congruence..]. Qed.

Lemma full_audit_after_serving_history_witness :
  size_of (C_flows (coord_run (make_coordinator default_config) serving_history)) = 1
  ∧ verify_invariants (coord_run (make_coordinator default_config) serving_history) = Success tt.
Proof.
  split; [vm_compute; reflexivity|].
  apply (full_audit_after_serving_history default_config serving_history).
  - exact default_config_ok.
  - repeat constructor.
  - repeat constructor; lia.
  - vm_compute. reflexivity.
Defined.

Definition first_publication : Result PublishOutcome * Coordinator :=
  coord_publish_completion working publication 300.

Definition missing_outcome : PublishOutcome :=
  MkOutcome Disposition.Refused StatusCode.Internal ReasonCode.Unknown 0 0 0.

Definition first_outcome : PublishOutcome := result_value missing_outcome first_publication.1.

Definition second_outcome : PublishOutcome :=
  result_value missing_outcome (publish_completion (C_ledger first_publication.2) publication 310).1.

Lemma duplicate_reports_committed_bytes_witness :
  ∃ o', (coord_publish_completion first_publication.2 publication 310).1 = Success o' ∧
    po_disposition o' = Disposition.DuplicateSuppressed ∧
    po_accounted_bytes_in o' = po_accounted_bytes_in first_outcome.
Proof.
  destruct (duplicate_reports_committed_bytes working publication 300 first_outcome first_publication.2
    publication 310 second_outcome) as (o' & ? & ? & ? & _).
  - vm_compute. reflexivity.
  - vm_compute. reflexivity.
  - vm_compute. reflexivity.
  - apply (bool_decide_eq_false_1 _). vm_compute. reflexivity.
  - reflexivity.
  - vm_compute. reflexivity.
  - vm_compute. reflexivity.
  - exists o'. split_and!; assumption.
Defined.

(** ** Bytes on the wire *)

Definition bytesb (l : list Z) : bool := forallb (fun b => (0 <=? b) && (b <? 256)) l.

Lemma bytesb_sound l : bytesb l = true → Forall is_byte l.
Proof.
  unfold bytesb. rewrite forallb_forall. intros H. apply Forall_forall. intros b Hb%list_elem_of_In.
  specialize (H b Hb). unfold is_byte. lia.
Qed.

Definition sample_text : list Z := [0x41; 0xC3; 0xA9; 0xE2; 0x82; 0xAC; 0xF0; 0x9F; 0x9A; 0x80].

Lemma table_matches_division_witness : compute sample_text = reference sample_text.
Proof. apply (table_matches_division sample_text). apply bytesb_sound. vm_compute. reflexivity. Defined.

Lemma utf8_validator_correct_witness :
  ∃ cs, Forall is_scalar cs ∧ sample_text = cs ≫= utf8_encode.
Proof.
  apply (utf8_validator_correct sample_text).
  - apply bytesb_sound. vm_compute. reflexivity.
  - vm_compute. reflexivity.
Defined.

Lemma canonical_document_typed : document_typed (canonical_defaults 5).
Proof.
  split; [vm_compute; split; congruence| |reflexivity|vm_compute; split; congruence..].
  vm_compute pc_rules. repeat (apply Forall_cons; split); [..|apply Forall_nil; exact I].
  all: split; first [discriminate | vm_compute; split; congruence].
Qed.

Lemma policy_round_trip_witness :
  let w := policy_encode (canonical_defaults 5) (Writer.make 1024) in
  let '(result, r) := policy_decode (Reader.make (Writer.buffer w) 1024) in
  Writer.ok w = true ∧ result = Success (canonical_defaults 5) ∧ Reader.finish r = Success tt.
Proof.
  refine (policy_round_trip (canonical_defaults 5) 1024 canonical_document_typed _ _ _ _).
  - vm_compute. discriminate.
  - vm_compute. discriminate.
  - vm_compute. reflexivity.
  - unfold kPolicyBytes. lia.
Defined.

Lemma decoded_policy_is_sound_witness :
  let '(result, r) := policy_decode (Reader.make [7; 0; 0] 1024) in
  0 ≤ Reader.offset r ≤ len [7; 0; 0] ∧
  match result with
  | Success p => policy_sound p ∧ Reader.ok r = true
  | Failure c => c ≠ StatusCode.Ok
  end.
Proof. refine (decoded_policy_is_sound [7; 0; 0] 1024 _). apply bytesb_sound. vm_compute. reflexivity. Defined.

Definition sample_header : FrameHeader := MkHeader 1 MessageType.EvaluateTraffic 0 128 7 9 0xDEADBEEF.
Definition sample_frame : list Z := encode_header sample_header (replicate 40 0).

Lemma sample_header_ok : header_ok 4096 sample_header.
Proof. split; vm_compute; first [reflexivity | congruence | split; congruence]. Qed.

Lemma frame_header_round_trip_witness : decode_header sample_frame 4096 = Success sample_header.
Proof.
  refine (proj1 (frame_header_round_trip sample_header (replicate 40 0) 4096 sample_header_ok _)).
  vm_compute. congruence.
Defined.

(** The sequence number changed in flight. *)
Lemma corrupted_header_refused_witness :
  ∃ c, decode_header (take 16 sample_frame ++ [8] ++ drop 17 sample_frame) 4096 = Failure c.
Proof.
  apply (corrupted_header_refused (take 16 sample_frame) [7] [8] (drop 17 sample_frame) 4096 4096 sample_header).
  - apply bytesb_sound. vm_compute. reflexivity.
  - apply bytesb_sound. reflexivity.
  - reflexivity.
  - simpl. lia.
  - vm_compute. lia.
  - discriminate.
  - vm_compute. reflexivity.
Defined.
