(* ===== verification/ServiceWitnesses.v ===== *)
(** * Instances of the service-level theorems at concrete runs

    The theorems on messages, snapshots, sessions, the client, the server and the
    service applied to concrete bytes, disks and histories. The states are those of
    [ServiceFindings]. *)

From S2P Require Import Prelude Ids Traffic Decision Policy Bytes Crc Codec Wire Ledger LedgerInv LedgerRun LedgerFindings Coordinator Evaluate Flows CoordAudit.
From S2P Require Import CodecProps PolicyCodec Format Serialize SerializeProps Messages MessagesProps Snapshot SnapshotProps.
From S2P Require Import Net Session SessionProps Service CoordRun CoordFindings ServiceProps Client ClientProps Remote Server ServiceFindings Witnesses.
From Stdlib Require Import Sorting.Sorted.
From stdpp Require Import strings.
#[local] Open Scope Z_scope.
Import Datatypes.

(** ** Disks *)

Definition disk_okb (d : Disk) : bool := forallb (fun entry => bytesb (f_bytes entry.2)) (map_to_list (d_files d)).

Lemma disk_okb_sound d : disk_okb d = true → disk_ok d.
Proof.
  unfold disk_okb. rewrite forallb_forall. intros Hd path f Hf%elem_of_map_to_list. apply bytesb_sound.
  exact (Hd (path, f) (proj1 (list_elem_of_In _ _) Hf)).
Qed.

Lemma empty_disk_ok : disk_ok empty_disk.
Proof. by apply disk_okb_sound. Qed.

Lemma always_readable n : readable_from n.
Proof. by intros m _. Qed.

Lemma demo_clock_monotone n m : (n ≤ m)%nat → demo_clock n ≤ demo_clock m.
Proof. unfold demo_clock. lia. Qed.

(** ** The service *)

Definition demo_messages : list (Z * list Z) := [register_message; cancel_message; (77, [1; 2; 3])].

Lemma service_refines_coordinator_witness :
  let ops := boots demo_service empty_disk (1, 2) ++ script demo_service demo_clock started demo_messages in
  sv_coordinator (serve demo_service demo_clock started demo_messages)
    = coord_run (make_coordinator (svc_coordinator demo_service)) ops
  ∧ Forall cop_typed ops ∧ (calls_opening ops ≤ length demo_messages)%nat.
Proof.
  refine (service_refines_coordinator reliable_kernel first_listed demo_service demo_clock empty_disk (1, 2)
    (Success tt) demo_messages _). exact empty_disk_ok.
Defined.

Lemma service_audit_succeeds_witness :
  verify_closure (C_ledger (sv_coordinator (serve demo_service demo_clock started demo_messages))) = Success tt.
Proof.
  refine (service_audit_succeeds reliable_kernel first_listed demo_service demo_clock empty_disk (1, 2)
    (Success tt) demo_messages _ _ _).
  - exact empty_disk_ok.
  - exact default_limits_typed.
  - vm_compute. reflexivity.
Defined.

Definition changed : CoordinatorService :=
  (service_handle demo_service demo_clock (advance_message false false).1 (advance_message false false).2
     (serve demo_service demo_clock started [register_message])).2.

Lemma acknowledged_change_is_durable_witness :
  let s := serve demo_service demo_clock started [register_message] in
  (durable demo_service changed ∨ ∃ c, sv_last_snapshot_error changed = Some c)
  ∨ reads_only (advance_message false false).1 = true ∧ sv_coordinator changed = sv_coordinator s
    ∧ sv_disk changed = sv_disk s.
Proof.
  refine (acknowledged_change_is_durable reliable_kernel first_listed demo_service demo_clock empty_disk (1, 2)
    (Success tt) [register_message] (advance_message false false).1 (advance_message false false).2
    (match (service_handle demo_service demo_clock (advance_message false false).1 (advance_message false false).2
       (serve demo_service demo_clock started [register_message])).1 with Success r => r | Failure _ => [] end) _ _ _ _ _).
  - exact demo_clock_monotone.
  - reflexivity.
  - vm_compute. congruence.
  - vm_compute. congruence.
  - vm_compute. reflexivity.
Defined.

(** What loads satisfies the bounds of the document. *)
Lemma changed_disk_ok : disk_ok (sv_disk changed).
Proof. apply disk_okb_sound. vm_compute. reflexivity. Qed.

Lemma changed_loads :
  (load_snapshot (snapshot_store demo_service) (sv_disk changed)).1 = Success (export_state (sv_coordinator changed)).
Proof. vm_compute. reflexivity. Qed.

Lemma changed_state_ok : state_ok (export_state (sv_coordinator changed)).
Proof.
  destruct (load_snapshot (snapshot_store demo_service) (sv_disk changed)) as [r d] eqn:E.
  pose proof changed_loads as L. rewrite E in L. cbn [fst] in L. subst r.
  exact (proj1 (loaded_typed _ _ _ _ changed_disk_ok E)).
Qed.

Lemma restart_resumes_last_change_witness :
  sv_coordinator (start demo_service (8, 9) (Success tt) (make_service demo_service (sv_disk changed))).2
    = (boot_from (make_coordinator (svc_coordinator demo_service)) (export_state (sv_coordinator changed)) (8, 9)).2.
Proof.
  refine (restart_resumes_last_change reliable_kernel first_listed demo_service demo_clock empty_disk (1, 2)
    (Success tt) [register_message] (advance_message false false).1 (advance_message false false).2
    (match (service_handle demo_service demo_clock (advance_message false false).1 (advance_message false false).2
       (serve demo_service demo_clock started [register_message])).1 with Success r => r | Failure _ => [] end)
    (sv_disk changed) (8, 9) (Success tt) _ _ _ _ _ _ _ _ _ _).
  - exact demo_clock_monotone.
  - reflexivity.
  - vm_compute. congruence.
  - reflexivity.
  - vm_compute. reflexivity.
  - vm_compute. reflexivity.
  - exact changed_state_ok.
  - vm_compute. congruence.
  - reflexivity.
  - apply always_readable.
Defined.

(** ** Snapshots *)

Definition demo_store : SnapshotStore := snapshot_store demo_service.
Definition demo_state : PersistedCoordinatorState := export_state (sv_coordinator changed).
Definition saved_disk : Disk := (save demo_store demo_state empty_disk).2.

Lemma save_is_atomic_witness :
  let payload := Writer.buffer (encode_into demo_state (Writer.make (sn_max_payload_bytes demo_store))) in
  (Success tt = Success tt → d_files saved_disk !! sn_path demo_store = Some (MkFile (snapshot_file payload) true)) ∧
  (Success tt ≠ Success tt → d_files saved_disk !! sn_path demo_store = d_files empty_disk !! sn_path demo_store) ∧
  ∃ new temporary, d_history saved_disk = new ++ d_history empty_disk ∧ temporary ≠ sn_path demo_store ∧
    Forall (fun s => old_or_new demo_store payload (d_files empty_disk) s ∧
      ∀ q, q ≠ sn_path demo_store → q ≠ temporary → s !! q = d_files empty_disk !! q) new.
Proof.
  refine (save_is_atomic reliable_kernel demo_store demo_state empty_disk (Success tt) saved_disk _).
  vm_compute. reflexivity.
Defined.

Lemma snapshot_round_trip_witness : (load_snapshot demo_store saved_disk).1 = Success demo_state.
Proof.
  refine (snapshot_round_trip reliable_kernel demo_store demo_state empty_disk saved_disk _ _ _ _ _).
  - exact changed_state_ok.
  - vm_compute. congruence.
  - vm_compute. reflexivity.
  - vm_compute. reflexivity.
  - apply always_readable.
Defined.

Lemma saved_disk_ok : disk_ok saved_disk.
Proof. apply disk_okb_sound. vm_compute. reflexivity. Qed.

Lemma loaded_snapshot_is_sound_witness :
  state_ok demo_state ∧ Forall record_typed (ps_terminal_requests demo_state)
  ∧ Forall record_typed (ps_interrupted_requests demo_state).
Proof.
  refine (loaded_snapshot_is_sound reliable_kernel demo_store saved_disk demo_state
    (load_snapshot demo_store saved_disk).2 _ _).
  - exact saved_disk_ok.
  - vm_compute. reflexivity.
Defined.

(** A byte of the payload changed on disk. *)
Definition saved_bytes : list Z := snapshot_file
  (Writer.buffer (encode_into demo_state (Writer.make (sn_max_payload_bytes demo_store)))).
Definition damaged_disk : Disk :=
  MkDisk {[ "state"%string := MkFile (take 30 saved_bytes ++ [255] ++ drop 31 saved_bytes) true ]} 0 [] 0.

Lemma corrupted_snapshot_refused_witness : ∃ c, (load_snapshot demo_store damaged_disk).1 = Failure c.
Proof.
  refine (corrupted_snapshot_refused reliable_kernel demo_store saved_disk damaged_disk
    (match (load_raw demo_store saved_disk).1 with Success p => p | Failure _ => [] end)
    (load_raw demo_store saved_disk).2 (take 30 saved_bytes) (take 1 (drop 30 saved_bytes)) [255] (drop 31 saved_bytes)
    true true _ _ _ _ _ _ _ _).
  - exact saved_disk_ok.
  - apply disk_okb_sound. vm_compute. reflexivity.
  - vm_compute. reflexivity.
  - vm_compute. reflexivity.
  - vm_compute. reflexivity.
  - vm_compute. repeat constructor.
  - vm_compute. discriminate.
  - vm_compute. reflexivity.
Defined.

Lemma file_loops_terminate_witness :
  (∃ st d', write_loop 4 "f"%string [1; 2; 3] 0 (MkDisk {[ "f"%string := MkFile [] false ]} 0 [] 0) = Some (st, d') ∧
     (d_calls d' ≤ 0 + 3)%nat) ∧
  (∃ out h' d', read_loop 3 (MkReadHandle [1; 2; 3] 0) 2 [] (MkDisk {[ "f"%string := MkFile [] false ]} 0 [] 0)
     = Some (out, h', d') ∧ (d_calls d' ≤ 0 + 2)%nat).
Proof.
  refine (file_loops_terminate reliable_kernel "f"%string [1; 2; 3] 2 (MkReadHandle [1; 2; 3] 0)
    (MkDisk {[ "f"%string := MkFile [] false ]} 0 [] 0) (MkFile [] false) _).
  vm_compute. reflexivity.
Defined.

(** ** Messages *)

Lemma message_round_trip_witness :
  let x := MkCancelRequest (MkId 0 1) ReasonCode.Cancelled in
  let w := encode_cancel_request x (Writer.make kMaxFramePayloadBytes) in
  let '(result, r) := decode_cancel_request (Reader.make (Writer.buffer w) kMaxFramePayloadBytes) in
  Writer.ok w = true ∧ result = Success x ∧ Reader.finish r = Success tt.
Proof.
  refine (message_round_trip Body.CancelRequest (MkCancelRequest (MkId 0 1) ReasonCode.Cancelled) _).
  split; [split; [split; vm_compute; split; congruence|discriminate]|discriminate].
Defined.

Lemma decoded_message_is_sound_witness :
  let '(result, r) := decode_open_flow (Reader.make [1; 2; 3; 4] kMaxFramePayloadBytes) in
  0 ≤ Reader.offset r ≤ len [1; 2; 3; 4] ∧
  match result with
  | Success x => open_flow_typed x ∧ Reader.ok r = true
  | Failure c => c ≠ StatusCode.Ok
  end.
Proof. refine (decoded_message_is_sound Body.OpenFlow [1; 2; 3; 4] _). apply bytesb_sound. reflexivity. Defined.

(** ** Sessions *)

Lemma text_okb l : bytesb l && (len l <=? kMaxFieldStringBytes) && is_valid_utf8 l = true → text_ok l.
Proof. rewrite !andb_true_iff, Z.leb_le. intros [[Hb Hl] Hu]. split_and!; [by apply bytesb_sound|done|done]. Qed.

Lemma hello_ok : hello_request_ok hello.
Proof.
  split; [reflexivity|reflexivity|split|split|split|split|]; try (apply text_okb; vm_compute; reflexivity);
    try (vm_compute; reflexivity); try (vm_compute; congruence); try (vm_compute; split; congruence).
  split; vm_compute; split; congruence.
Qed.

Lemma frame_okb limit type sequence correlation payload :
  (0 <? type) && (type <? MessageType.Count) && (0 <=? sequence) && (sequence <? two64) && (0 <=? correlation)
  && (correlation <? two64) && bytesb payload && (len payload <=? kAbsoluteMaxPayloadBytes) && (len payload <=? limit) = true →
  frame_ok limit type sequence correlation payload.
Proof.
  rewrite !andb_true_iff, !Z.ltb_lt, !Z.leb_le. intros ((((((((?&?)&?)&?)&?)&?)&Hb)&?)&?).
  split; try done. by apply bytesb_sound.
Qed.

Definition two_frames : list (Z * Z * list Z) :=
  [(2, MessageType.Heartbeat, [0; 0; 0; 0; 0; 0; 0; 0]); (5, MessageType.Shutdown, [])].

(** The greeting and two frames, cut inside the headers. *)
Definition cut_stream : TcpStream :=
  let bytes := greeting ++ frames_bytes two_frames in
  MkStream [Data (take 7 bytes); Data (take 100 (drop 7 bytes)); Data (drop 107 bytes)] [] [].

Lemma session_delivers_every_frame_witness :
  ∃ s', serve_session demo_server ((1, 2), (3, 4)) (fun _ => []) (new_session demo_server cut_stream empty_stats 0%nat) = Some s'
    ∧ se_handled s' = two_frames ∧ se_handler s' = run_handler (se_context s') 0%nat two_frames.
Proof.
  refine (session_delivers_every_frame demo_server ((1, 2), (3, 4)) (fun _ => []) hello 1 two_frames cut_stream
    empty_stats 0%nat _ _ _ _ _ _ _ _).
  - exact hello_ok.
  - reflexivity.
  - apply frame_okb. vm_compute. reflexivity.
  - repeat (apply Forall_cons; split; [split; [apply frame_okb; vm_compute; reflexivity|discriminate]|]).
    apply Forall_nil. exact I.
  - repeat constructor; vm_compute; reflexivity.
  - vm_compute. repeat (apply Forall_cons; split; [exact I|]). apply Forall_nil. exact I.
  - reflexivity.
  - vm_compute. reflexivity.
Defined.

(** ** A call of the client *)

Definition ready_session : Session nat :=
  match serve_bytes [Data greeting] with
  | Some s => s
  | None => new_session demo_server (MkStream [] [] []) empty_stats 0%nat
  end.
Definition ready_client : Client :=
  (new_client (MkStream [] [] [])) <| ct_max_frame_payload := 65536 |> <| ct_send_sequence := 1 |>
    <| ct_last_received_sequence := 1 |>.
Definition upward : list Arrival := [Data (take 20 (frame_bytes MessageType.StatusQuery 2 0 [0; 0; 0; 0]));
  Data (drop 20 (frame_bytes MessageType.StatusQuery 2 0 [0; 0; 0; 0]))].
Definition downward : list Arrival := [Data (frame_bytes MessageType.StatusResponse 2 2 [])].

Lemma client_call_returns_answer_witness :
  ∃ c' s', exchange MessageType.StatusQuery [0; 0; 0; 0]
      (ready_client <| ct_stream := (ct_stream ready_client) <| ts_arrivals := downward |> |>) = (Success [], c')
    ∧ serve_turn demo_server ((1, 2), (3, 4)) (fun _ => [])
        (ready_session <| se_stream := (se_stream ready_session) <| ts_arrivals := upward |> |>) = (Continue, s')
    ∧ ts_sent (ct_stream c') = ts_sent (ct_stream ready_client) ++ bytes_of upward
    ∧ ts_sent (se_stream s') = ts_sent (se_stream ready_session) ++ bytes_of downward
    ∧ se_handler s' = 1%nat
    ∧ se_handled s' = se_handled ready_session ++ [(ct_send_sequence ready_client + 1, MessageType.StatusQuery, [0; 0; 0; 0])]
    ∧ in_sync c' s'.
Proof.
  refine (client_call_returns_answer demo_server ((1, 2), (3, 4)) (fun _ => []) ready_client ready_session
    MessageType.StatusQuery [0; 0; 0; 0] (Success []) 1%nat upward downward _ _ _ _ _ _ _ _ _ _ _ _ _ _).
  - split; vm_compute; first [reflexivity|split; congruence|split; reflexivity].
  - vm_compute. reflexivity.
  - vm_compute. reflexivity.
  - vm_compute. discriminate.
  - vm_compute. discriminate.
  - discriminate.
  - intros e. apply text_okb. vm_compute. reflexivity.
  - apply frame_okb. vm_compute. reflexivity.
  - vm_compute. reflexivity.
  - apply frame_okb. vm_compute. reflexivity.
  - vm_compute. repeat (apply Forall_cons; split; [exact I|]). apply Forall_nil. exact I.
  - vm_compute. reflexivity.
  - vm_compute. repeat (apply Forall_cons; split; [exact I|]). apply Forall_nil. exact I.
  - vm_compute. reflexivity.
Defined.

(** ** A remote evaluation *)

(** A service with the coordinator of [CoordFindings], and a session at it. *)
Definition busy_service : CoordinatorService := MkService working empty_disk 0 false 0 None.
Definition service_session : Session CoordinatorService :=
  MkSession 65536 1 1 0 true empty_context (MkStream [] [] []) empty_stats busy_service None [].

Ltac bounds := vm_compute; first [reflexivity|discriminate|split; [congruence|reflexivity]|split; congruence|congruence].

Lemma ingress_ok : request_ok ingress.
Proof.
  split; try bounds.
  - intros s [= <-]. split; try bounds; try (split; bounds).
  - by split.
Qed.

Definition remote_decision : Decision.Decision := (evaluate_locked working ingress (demo_clock 0)).1.

Lemma remote_decision_ok : decision_ok remote_decision.
Proof.
  split; [|left; vm_compute; reflexivity]. split; try bounds.
  - split; try bounds. split; bounds.
  - split; try bounds; try (split; bounds).
  - assert (dec_binding remote_decision = tr_binding ingress) as -> by (vm_compute; reflexivity). by split.
  - split; try bounds. split; bounds.
  - vm_compute. repeat (apply Forall_cons; split; [split; bounds|]). by apply Forall_nil.
  - vm_compute. repeat constructor.
Qed.

Lemma success_inj {A} (x y : A) : Success x = Success y → x = y.
Proof. congruence. Qed.

Lemma remote_call_is_local_call_witness :
  ∃ upward downward, ∀ arrivals arrivals',
    all_data arrivals → bytes_of arrivals = upward → all_data arrivals' → bytes_of arrivals' = downward →
    ∃ c' s', client_evaluate ingress (ready_client <| ct_stream := (ct_stream ready_client) <| ts_arrivals := arrivals' |> |>)
        = (Success remote_decision, c')
      ∧ serve_turn (H0 := service_handler demo_service demo_clock demo_clock) demo_server ((1, 2), (3, 4)) (fun _ => [])
          (service_session <| se_stream := (se_stream service_session) <| ts_arrivals := arrivals |> |>) = (Continue, s')
      ∧ ts_sent (ct_stream c') = ts_sent (ct_stream ready_client) ++ upward
      ∧ ts_sent (se_stream s') = ts_sent (se_stream service_session) ++ downward
      ∧ sv_coordinator (se_handler s') = (local_at demo_clock (Call.Evaluate ingress) busy_service).2 ∧ in_sync c' s'.
Proof.
  assert ((local_at demo_clock (Call.Evaluate ingress) busy_service).1 = Success remote_decision) as E
    by (vm_compute; reflexivity).
  rewrite <- E.
  refine (remote_call_is_local_call demo_service demo_clock demo_clock demo_server ((1, 2), (3, 4)) (fun _ => [])
    (Call.Evaluate ingress) ready_client service_session _ _ _ _ _ _ _).
  - intros e. apply text_okb. vm_compute. reflexivity.
  - split; vm_compute; first [reflexivity|split; congruence|split; reflexivity].
  - vm_compute. reflexivity.
  - vm_compute. reflexivity.
  - vm_compute. congruence.
  - exact ingress_ok.
  - intros x Hx. change (se_handler service_session) with busy_service in Hx. rewrite E in Hx.
    destruct (success_inj _ _ Hx). exact remote_decision_ok.
Defined.

(** ** The server *)

(** One session admitted and served. *)
Definition one_session : Server := MkServer Polling [Serving] 1 1 1 0 true false.

Lemma one_session_reachable : rtc (server_step demo_server) started_server one_session.
Proof.
  eapply rtc_l; [left; apply accept_admits; vm_compute; reflexivity|].
  eapply rtc_l; [left; apply accept_lists; reflexivity|].
  eapply rtc_l; [left; apply accept_counts; reflexivity|].
  eapply rtc_l; [left; eapply accept_ranks; reflexivity|].
  eapply rtc_l; [left; apply (accept_serves _ _ [] []); reflexivity|].
  apply rtc_refl.
Qed.

Lemma session_capacity_respected_witness :
  0 ≤ sr_active_sessions one_session ≤ sv_max_sessions demo_server
  ∧ sr_peak_sessions one_session ≤ sv_max_sessions demo_server
  ∧ count Serving (sr_sessions one_session) ≤ sr_active_sessions one_session
  ∧ count Prepared (sr_sessions one_session) + count Serving (sr_sessions one_session) ≤ sv_max_sessions demo_server
  ∧ (sr_acceptor one_session = Left → sr_sessions one_session = [] →
     sr_active_sessions one_session = 0 ∧ sr_stopping one_session = true).
Proof.
  refine (session_capacity_respected demo_server one_session _ _).
  - vm_compute. split; reflexivity.
  - exact one_session_reachable.
Defined.
