(* ===== verification/ToolsWitnesses.v ===== *)
(** * Instances of the theorems on the tools and the sockets

    A transfer of two chunks, received and sent, a socket that is opened and closed,
    and a command line of the coordinator, at which the theorems apply. *)

From S2P Require Import Prelude Ids Traffic Decision Policy Bytes Crc Codec Wire Ledger Coordinator Evaluate Flows CoordAudit.
From S2P Require Import CodecProps PolicyCodec Format Serialize SerializeProps Messages MessagesProps Snapshot Net Session SessionProps.
From S2P Require Import Service ServiceProps Client ClientProps Server Tools Accel Simulator SimulatorProps Scenarios Sockets Launcher Examples ExamplesProps.
From S2P Require Import CoordMirror CoordFindings ServiceFindings ToolsFindings Witnesses ServiceWitnesses.
From Stdlib Require Import String.
#[local] Open Scope Z_scope.
Import Datatypes.

(** ** The data plane *)

Definition two_chunks : Options := small_options <| op_bytes := 4 |> <| op_chunks := 2 |>.

(** The frames of the transfer, with a chunk of another transfer between them that
    the receiver refuses. *)
Definition chunk_events : list DataEvent :=
  [FrameTaken (chunk_request two_chunks kDefaultTransfer 2 0).1 (chunk_request two_chunks kDefaultTransfer 2 0).2;
   FrameTaken (chunk_request two_chunks (MkId 0 9) 2 1).1 (chunk_request two_chunks (MkId 0 9) 2 1).2;
   FrameTaken (chunk_request two_chunks kDefaultTransfer 2 1).1 (chunk_request two_chunks kDefaultTransfer 2 1).2;
   FrameTaken (completion_request two_chunks kDefaultTransfer 2).1 (completion_request two_chunks kDefaultTransfer 2).2;
   SessionEnded].

Lemma verified_transfer_is_intact_witness :
  let h := data_plane_run (new_data_plane kDefaultTransfer) chunk_events in
  ∃ chunks m, chunks `sublist_of` omap chunk_in chunk_events ∧ in_order kDefaultTransfer chunks
    ∧ m ∈ omap completion_in chunk_events ∧ describes kDefaultTransfer chunks m
    ∧ dp_content_crc h = compute (content chunks).
Proof.
  refine (verified_transfer_is_intact kDefaultTransfer chunk_events _). vm_compute. reflexivity.
Defined.

Definition receiver_session : Session DataPlaneHandler :=
  match serve_session demo_server ((1, 2), (3, 4)) (fun _ => [])
          (new_session demo_server (MkStream [Data greeting] [] []) empty_stats (new_data_plane kDefaultTransfer)) with
  | Some s => s
  | None => new_session demo_server (MkStream [] [] []) empty_stats (new_data_plane kDefaultTransfer)
  end <| se_handler := new_data_plane kDefaultTransfer |>.

Definition transfer_frames : list (Z * Z * list Z) :=
  numbered 1 (stream_requests two_chunks kDefaultTransfer 2).
Definition transfer_up : list Arrival :=
  [Data (take 20 (frames_bytes transfer_frames)); Data (drop 20 (frames_bytes transfer_frames))].
Definition transfer_down : list Arrival :=
  [Data (replies (fun _ => []) (se_context receiver_session) (se_handler receiver_session)
           (se_outbound_sequence receiver_session) transfer_frames)].

Lemma transfer_gets_through_witness :
  ∃ c' w' s' fuel,
    stream two_chunks kDefaultTransfer 2 ((data_client []) <| ct_stream := (ct_stream (data_client [])) <| ts_arrivals := transfer_down |> |>)
      idle_worker = (inl (4, c'), w')
    ∧ wk_client w' = wk_client idle_worker
    ∧ ts_sent (ct_stream c') = ts_sent (ct_stream (data_client [])) ++ bytes_of transfer_up
    ∧ serve_loop demo_server ((1, 2), (3, 4)) (fun _ => []) fuel
        (receiver_session <| se_stream := (se_stream receiver_session) <| ts_arrivals := transfer_up |> |>)
      = Some (Continue, s')
    ∧ ts_sent (se_stream s') = ts_sent (se_stream receiver_session) ++ bytes_of transfer_down
    ∧ (decode_outcome true (se_handler s')).2 = kExitOk
    ∧ dp_received_bytes (se_handler s') = 4 ∧ dp_received_chunks (se_handler s') = 2
    ∧ dp_content_crc (se_handler s') = compute (sent_content 2 2).
Proof.
  refine (transfer_gets_through demo_server ((1, 2), (3, 4)) (fun _ => []) two_chunks kDefaultTransfer 2 (data_client [])
    receiver_session idle_worker transfer_up transfer_down _ _ _ _ _ _ _ _ _ _ _ _ _ _).
  - vm_compute. done.
  - vm_compute. done.
  - vm_compute. done.
  - vm_compute. done.
  - split; vm_compute; first [reflexivity|split; congruence|split; reflexivity].
  - vm_compute. reflexivity.
  - intros e. apply text_okb. vm_compute. reflexivity.
  - vm_compute. discriminate.
  - vm_compute. reflexivity.
  - vm_compute. reflexivity.
  - vm_compute. repeat (apply Forall_cons; split; [exact I|]). apply Forall_nil. exact I.
  - vm_compute. reflexivity.
  - vm_compute. repeat (apply Forall_cons; split; [exact I|]). apply Forall_nil. exact I.
  - vm_compute. reflexivity.
Defined.

(** ** Sockets *)

(** Two addresses: the first refuses the connection, the second takes it after a
    wait. *)
Definition calls_work : FlagCalls := MkFlagCalls true true.
Definition two_addresses : list Candidate :=
  [MkCandidate 7 calls_work (-1) false (fun _ => 0) None calls_work None;
   MkCandidate 8 calls_work (-1) true (fun _ => 1) (Some 0) calls_work (Some (MkEndpoint Inet (Some "127.0.0.1"%string) 4242))].

Lemma sockets_leak_nothing_witness :
  opens_only sm_handle {[3]} (tcp_connect "localhost" 80 1000 (Some two_addresses) {[3]})
  ∧ opens_only li_handle {[3]} (tcp_bind (Some [MkBindCandidate 9 0 (-1) None]) {[3]})
  ∧ opens_only sm_handle {[3]} (tcp_accept (MkListener 3 80) 1000 (fun _ => 1) 5 (MkEndpoint Inet None 1) {[3]})
  ∧ closes sm_handle stream_close stream_assign no_stream {[3]}
  ∧ closes li_handle listener_close listener_assign (MkListener kInvalidHandle 0) {[3]}.
Proof.
  refine (sockets_leak_nothing "localhost" 80 1000 (Some two_addresses) (Some [MkBindCandidate 9 0 (-1) None])
    (MkListener 3 80) 1000 (fun _ => 1) 5 (MkEndpoint Inet None 1) {[3]} _ _ _).
  - apply (bool_decide_eq_true_1 _). vm_compute. reflexivity.
  - apply (bool_decide_eq_true_1 _). vm_compute. reflexivity.
  - apply (bool_decide_eq_true_1 _). vm_compute. reflexivity.
Defined.

(** ** The command line of the coordinator *)

Definition demo_command : list string := ["--token"; "s"; "--port"; "7000"; "--max-sessions"; "3"]%string.
Definition demo_launch : Launch :=
  match launch_main demo_command with inl l => l | inr _ => default_launch end.

Lemma launch_is_authenticated_witness :
  launch_ok demo_launch ∧ sv_auth_token (svc_server (la_service demo_launch)) ≠ []
  ∧ start_checks false (svc_server (la_service demo_launch)) = Success tt.
Proof. refine (launch_is_authenticated demo_command demo_launch _). vm_compute. reflexivity. Defined.

(** ** The accelerator *)

(** The threads run from the last to the first. *)
Definition demo_cuda : Cuda :=
  MkCuda None 1 None None demo_properties (Some 12040) None None None None (reverse grid) true None (fun data => data) 1000
    None.

Lemma working_device_is_real_witness :
  ∃ p, probe (Some demo_cuda) true = Success p ∧ ap_label p = CapabilityLabel.Real ∧ ap_ran_kernel p = true
    ∧ ap_mismatches p = 0 ∧ ap_bytes_verified p = 4194304
    ∧ (0 < cu_elapsed demo_cuda < 2 ^ 63 → ap_bytes_per_second p = 4194304 * 1000000000 / cu_elapsed demo_cuda).
Proof.
  refine (working_device_is_real demo_cuda true _). split; first [exact (reverse_Permutation grid)|reflexivity].
Defined.

(** ** Sessions of the transport example *)

(** One session that greets and registers a request, and one of noise. *)
Definition example_streams : list TcpStream :=
  [MkStream [Data (frame_bytes MessageType.HelloRequest 1 0
      (hello_body (MkHelloRequest kWireProtocolVersion kApiVersion (text "peer") (text Transport.secret) (text "1") (MkId 1 1) 65536))
      ++ frame_bytes MessageType.RegisterRequest 2 0
           (Writer.buffer (encode_register_request (MkRegisterRequest (MkId 7 8) 0) (Writer.make kMaxFramePayloadBytes))))] [] [];
   MkStream [Data [1; 2; 3]; Elapsed; Data []] [] []].

Definition example_end : Harness :=
  foldl (session_after Transport.server_config ((1, 2), (3, 4)) (fun _ => []))
    (Transport.prepare (make_harness default_config (7, 9))).2 example_streams.

Lemma example_sessions_keep_audit_witness :
  contains (C_ledger (hs_coordinator example_end)) (MkId 7 8) = true
  ∧ verify_invariants (hs_coordinator example_end) = Success tt.
Proof.
  split; [vm_compute; reflexivity|].
  unfold example_end.
  exact (example_sessions_keep_audit default_config (7, 9) Transport.server_config ((1, 2), (3, 4)) (fun _ => [])
    example_streams default_config_ok).
Defined.
